(* ===== verification/_CoqProject ===== *)
-Q . S2P
Prelude.v
Bytes.v
Disk.v
Pmm.v
Heap.v
Vmm.v
Memory.v
Process.v
ProcessThms.v
ProcessSched.v
ProcessLife.v
ProcessProps.v
Fs.v
FsCodec.v
FsView.v
FsOps.v
FsDir.v
FsSpec.v
FsRead.v
FsWrite.v
FsBoot.v
FsThms.v
FsWitness.v
Mkdisk.v
MkdiskThms.v
Ata.v
AtaThms.v
Console.v
ConsoleThms.v
Kprintf.v
KprintfThms.v
ConsoleHw.v
Keyboard.v
Gdt.v
Idt.v
Kernel.v
KernelThms.v
Elf.v
ElfThms.v
ElfProps.v
Syscall.v
SyscallThms.v
SyscallProps.v
User.v
UserThms.v
Stubs.v
Preempt.v
Shell.v
ShellThms.v
ShellRun.v
ShellFrame.v
ShellLines.v
ShellProps.v
Main.v
MainThms.v
Boot.v
