(* ===== verification/Prelude.v ===== *)
(** * AshOS: a verification development

    AshOS is a kernel for the i386 written from scratch: memory management, round-robin
    processes, an ATA disk with a file system of its own (AshFS), a VGA and serial
    console, a keyboard, a shell, ELF programs in ring 3 with system calls, and mkdisk, a
    tool that copies files onto a disk image from the outside.  This development
    translates its C code (and the assembly of boot.s, process.s, gdt.s and idt.s that
    decides what the C code means) into executable definitions and proves what they do,
    from each component alone up to a session at the keyboard of a machine that has just
    been switched on.

    ** How the program is modelled

    A C function is a computation [K S A] over the state [S] of its component: it ends
    with a value, halts, runs out of the fuel of a loop, or does what C leaves undefined.
    [Undefined] covers an access outside an object, a null or unmapped pointer and a
    descriptor index out of range; a theorem that a call is [Done] therefore includes
    that it has no such access.  [Halted] means that control never comes back to the
    caller: the [hlt] loops and the [iret] of enter_usermode into a program.  [Diverged]
    means that the fuel of a loop was used up; nothing is proved of a diverging run,
    and the theorems show that the runs they speak of do not diverge.

    The states are records, one per component, each with the static variables of the
    source file.  A function that calls another component reaches its state through a
    [Lens] and [zoom]; [kernel] (Kernel.v) collects the components that run as ordinary
    code and [machine] (Main.v) adds the interrupt side and the keyboard.  The logic is
    a weakest precondition [wp] that is total: a run satisfies it only when it ends with
    [Done].

    Integers are kept at their width: a value of a w-bit type is a [Z], and [u8], [u16],
    [u32], [s8] and [s32] wrap where the C expression wraps.

    Calls of kprintf, terminal_putchar, terminal_setcolor and terminal_clear by other
    components are recorded as events, with format and arguments; Kprintf.v's
    [console_event] runs an event on the console's own code, and [kprintf_prints] says
    what comes out on the wire and on the screen.

    Hardware and services that are not in the repository are type classes of operations
    with the laws their documentation gives, each with an instance that shows the laws
    can hold:

    - [BlockOps], [BlockDevice] (Disk.v): 512-byte sectors; instances are the ideal disk
      [ram_disk] and the kernel's own driver over a drive, [ata_device];
    - [AtaBus], [AtaDrive] (Ata.v): the task file, BSY and DRQ of an ATA drive;
    - [PortIo], [ConsoleHw] (Console.v, ConsoleHw.v): 16550 UART, VGA CRT controller;
    - [KeyboardPort] (Keyboard.v): the scan codes behind port 0x60;
    - [PicPort] (Idt.v): the two 8259A interrupt controllers;
    - [Board] (Main.v): controllers and keyboard side by side on one machine;
    - [Uninit] (Kernel.v): what fresh heap memory holds;
    - [KernelEnd] (Elf.v): the address after the kernel's image;
    - [Compiled] (Preempt.v): the stack frames the compiler gives irq_handler and
      scheduler_tick, under the calling convention.

    Addresses that the linker chooses ([image]) and what the heap holds where a new
    process structure is put ([fresh]) are parameters.  [translate] and
    [user_translate] (Vmm.v), [descriptor] (Gdt.v) and [gate] (Idt.v) are the processor's
    reading of page tables in ring 0 and in ring 3, segment descriptors and interrupt
    gates, after the processor's manual; [strokes] (Keyboard.v) is a US keyboard, after its
    own.

    ** The parts

    - Prelude.v: machine integers, arrays, bitwise lemmas, events, the monad with its
      loops and its logic, lenses.  Bytes.v: bytes, C strings and the byte loops
      (k_strcpy, k_memcpy, memset and the like).
    - Pmm.v, kernel/pmm.c: the bitmap of page frames; [pmm_alloc] is first fit over the
      set of free frames, and no history hands a frame out twice.
    - Heap.v, kernel/heap.c: block headers as a store of pointers; [kmalloc] and [kfree]
      refine first fit and coalescing on a list of blocks; histories keep live blocks
      disjoint.
    - Vmm.v, kernel/vmm.c: directory, tables and the processor's translation.
      Memory.v: pmm_init, vmm_init and heap_init in kernel_main's order, and the address
      space they leave.
    - Process.v, kernel/process.c and process.s: process structures in the heap, linked
      by next pointers, and the context switch on registers and stacks.  ProcessThms.v:
      the list as a ring and one tick.  ProcessSched.v: what comes between ticks, context
      switches.  ProcessLife.v: creation and exit.  ProcessProps.v: the invariant over
      every history, fairness, termination.
    - Fs.v, kernel/fs.c and include/fs.h: the file system over any block device.
      FsCodec.v: structures and bytes.  FsView.v: what a disk means, and its invariant.
      FsOps.v, FsDir.v, FsSpec.v, FsRead.v, FsWrite.v, FsBoot.v: each operation against
      that meaning.  FsThms.v: the abstract file system and the simulation.
      FsWitness.v: the theorems at concrete disks.
    - Mkdisk.v and MkdiskThms.v, tools/mkdisk.c: the tool on a disk image, against the
      kernel's definitions.
    - Ata.v and AtaThms.v, drivers/ata.c: the driver at its ports, shown to be a block
      device; the file system over it.
    - Console.v and ConsoleThms.v, the terminal of kernel/kernel.c and drivers/serial.c.
      Kprintf.v and KprintfThms.v, kernel/kprintf.c.  ConsoleHw.v: both over the hardware.
    - Keyboard.v, drivers/keyboard.c: scan codes and modifiers, against a typist.
    - Gdt.v: kernel/gdt.c, gdt.s, tss.c and usermode.c.  Idt.v: kernel/idt.c.
    - Kernel.v and KernelThms.v: the state of the kernel as a whole; the memory of a
      program as a window behind the page tables; blocks a handler takes and gives back.
    - Elf.v, ElfThms.v, ElfProps.v, kernel/elf.c: files become mapped, filled segments.
    - Syscall.v, SyscallThms.v, SyscallProps.v, kernel/syscall.c.  User.v and UserThms.v:
      user/libash.h and the three programs of user/ over the handler.
    - Shell.v, kernel/shell.c; ShellThms.v: line editor and parser; ShellRun.v: commands;
      ShellFrame.v: what no command touches; ShellLines.v: whole lines; ShellProps.v: the
      theorems.
    - Stubs.v, kernel/idt.s: the processor's way into a handler and back.  Preempt.v: the
      clock's interrupt through stub, irq_handler, scheduler_tick and context_switch, on
      the stacks of two processes.
    - Main.v and MainThms.v, kernel_main of kernel/kernel.c and the machine.  Boot.v,
      boot/boot.s: the multiboot header, and the entry from the boot loader.

    How they interact: [_start] calls kernel_main, which runs the initialisers in order and
    falls into [hlt] ([kernel_main]).  After that everything happens in interrupts ([take_interrupt]): the
    controllers deliver a vector, [irq_handler] dispatches it to [scheduler_tick] or to
    [keyboard_handler], which calls [shell_process_char]; the shell calls the file
    system, the heap, the scheduler's list and [elf_load]; a loaded program comes back
    through [syscall_handler].  The file system calls the driver, the heap is mapped by
    the virtual memory, which takes frames from the page allocator.

    ** What the theorems show

    - The whole system: [loader_starts_kernel] (from the boot loader's last instruction:
      every initialiser establishes its component's invariant and the log is the expected
      text), [power_on_session] (boot, then touch,
      write and cat typed key by key, with clock ticks and other interrupts in any order
      between the keys), [run_leaves_keyboard_dead].
    - Preemption: [preemption_transparent] (registers, flags, segments and stack of every
      process survive the clock's interrupt), [new_process_keeps_machine] (why a
      process that process_create made is never preempted).
    - Refinement: the file system implements a finite map from names to contents
      ([fs_fresh_disk_refines], and over the driver [ashfs_on_ata_refines]); heap and page
      allocator implement first fit; the terminal implements a screen of 25 lines; the
      line editor implements text editing.
    - Invariants and safety over histories: [heap_history_safe],
      [pmm_no_double_allocation], [scheduler_invariant], [fs_reboot_preserves_files],
      [interrupt_transparent], [console_type_safe].
    - Liveness and termination: [round_robin_fair], [scheduler_tick_terminates],
      [fs_write_succeeds].
    - Round trips: a file written and read back through the file system, through the
      shell, through descriptors of a program, and from the host's tool to the kernel;
      encodings of the on-disk structures; registers through two context switches and through
      an interrupt; a typed text through scan codes.
    - [int80_is_a_call]: the wrappers of libash, which User.v runs as calls of the handler,
      are what the instruction does.
    - Functional theorems on every outcome: loader, system calls, memory map, interrupt
      vectors, ring 3, formatted output, process creation.
    - Limits and errors: [elf_load_rejects], [syscall_refuses], [shell_overruns],
      [load_segment_over_kernel] and [fs_write_repeats_last_chunk] say where the code stops doing what it is meant to
      do: files of more than one block, names and files as long as their buffers,
      executables over the kernel's pages.

    The main theorems are numbered C1, C2, ... in their comments; each one with hypotheses
    has a lemma [..._witness], at the end of its file or in FsWitness.v, that applies it at
    a concrete input.

    ** Bounds and fuel

    - The polling loops of ata.c and serial.c take their fuel as an argument.  The laws
      of the hardware bound the number of busy answers by [latency], and the theorems ask
      only for [latency < fuel]; [ata_read_out_of_range_hangs] shows what happens without
      such a bound: no fuel suffices.
    - The loops over heap blocks and over the process list have a fuel of one more than the
      number of structures in the store: in a state that satisfies the invariant the list
      visits each structure at most once.
    - The digit loops have 33 steps for at most 32 digits in base 2 and 11 for at most 10
      in base 10.
    - [strlen] of a user program takes its fuel as an argument; the theorems ask for more
      than the length of the string.
    - All other loops have the bounds of the source: 32 inodes, 8 blocks of a file, 1024
      entries of a page table, 256 characters of a line, 16 descriptors.

    Sizes: the abstract file system says what fs_write stores for every size it accepts,
    up to 32 blocks; that is the data itself up to one block ([fs_write_read_roundtrip])
    and the last chunk repeated beyond ([fs_write_repeats_last_chunk]).  mkdisk and
    fs_read are right up to 32 blocks.

    ** Not modelled

    - The boot loader: its memory is a parameter of Boot.v, what it leaves in the two
      registers a hypothesis.
    - The C stack: a handler is a function of the record [registers_t] the stub has built.
      The frames of the C functions between a stub and context_switch are a parameter of
      Preempt.v; in Main.v, where the kernel is the only process and a tick finds nobody to
      switch to, they do not appear.  Preempt.v has processes interrupted in the kernel;
      process_create makes no others.
    - The instructions of a program in ring 3: the C programs of user/ are modelled as
      the calls they make (User.v); of other programs only what is loaded where, and
      where and at which privilege they start.
    - The start-up assembly in user/hello.c, linker scripts and the Makefile.
    - Interrupts inside handlers and initialisers: interrupt gates clear the flag, so
      handlers run to their end; a timer tick that arrives between the [sti] of idt_init
      and the end of kernel_main, when there is no second process to switch to, is not
      interleaved.
    - The processor's cache of translations: vmm_map and vmm_unmap leave it alone and
      elf.c reloads CR3 after mapping a page; [translate] reads the tables as they are.
    - Video memory is a list of cells, kernel data (page tables, heap headers, stacks,
      statics) lies in the components' states and memory of programs in [k_ram]; that
      these regions are disjoint is what [boot_spare] and [memory_init_layout] state of
      the frames, not something the stores could violate.  The loader, which maps and
      fills whatever pages a file asks for, is the exception: a mapping over a page of the
      kernel and a store into one of its frames are [Undefined] there
      ([load_segment_over_kernel]). *)

From stdpp Require Export base tactics numbers list gmap strings.
From Stdlib Require Export ZArith Lia.

#[global] Open Scope Z_scope.
#[global] Set Default Goal Selector "!".
#[global] Set Warnings "-clear-no-such-hyp".

Declare Scope kernel_scope.
Delimit Scope kernel_scope with kernel.
#[global] Open Scope kernel_scope.

(** Large constant arrays stay folded under [simpl]. *)
#[global] Arguments replicate : simpl never.
#[global] Arguments Z.to_nat : simpl never.

(** ** Tactics *)

(** Linear arithmetic with Euclidean division by constants. *)
Ltac dlia := zify; Z.to_euclidean_division_equations; lia.

(** Split every boolean test of the goal and turn it into a proposition. *)
Ltac bool_cases :=
  repeat match goal with
  | |- context [ (?a =? ?b) ] => destruct (Z.eqb_spec a b)
  | |- context [ (?a <=? ?b) ] => destruct (Z.leb_spec a b)
  | |- context [ (?a <? ?b) ] => destruct (Z.ltb_spec a b)
  end.

(** Turn the boolean hypotheses and goals about comparisons into propositions. *)
Ltac unbool :=
  repeat match goal with
  | H : (_ =? _) = true |- _ => apply Z.eqb_eq in H
  | H : (_ =? _) = false |- _ => apply Z.eqb_neq in H
  | H : (_ <=? _) = true |- _ => apply Z.leb_le in H
  | H : (_ <=? _) = false |- _ => apply Z.leb_gt in H
  | H : (_ <? _) = true |- _ => apply Z.ltb_lt in H
  | H : (_ <? _) = false |- _ => apply Z.ltb_ge in H
  | H : negb _ = true |- _ => apply negb_true_iff in H
  | H : negb _ = false |- _ => apply negb_false_iff in H
  | H : _ && _ = true |- _ => apply andb_true_iff in H; destruct H
  | H : _ || _ = false |- _ => apply orb_false_iff in H; destruct H
  end.

Create HintDb ashos.
#[export] Hint Extern 1 (_ ≤ _) => lia : ashos.
#[export] Hint Extern 1 (_ < _) => lia : ashos.
#[export] Hint Extern 1 (_ ≤ _ < _) => lia : ashos.

(** ** Machine integers

    A value of a w-bit unsigned C type is a [Z] in [0, 2^w); arithmetic wraps
    explicitly.  [s8] and [s32] are the conversions to the signed types
    [char] and [int] of the i386 ABI. *)

Definition u8 (x : Z) : Z := x mod 2 ^ 8.
Definition u16 (x : Z) : Z := x mod 2 ^ 16.
Definition u32 (x : Z) : Z := x mod 2 ^ 32.
Definition s8 (x : Z) : Z := if u8 x <? 2 ^ 7 then u8 x else u8 x - 2 ^ 8.
Definition s32 (x : Z) : Z := if u32 x <? 2 ^ 31 then u32 x else u32 x - 2 ^ 32.

Lemma u32_small x : 0 ≤ x < 4294967296 → u32 x = x.
Proof. intros H. unfold u32. apply Z.mod_small. lia. Qed.
Lemma u32_range x : 0 ≤ u32 x < 4294967296.
Proof. apply Z.mod_pos_bound. lia. Qed.
Lemma u8_small x : 0 ≤ x < 256 → u8 x = x.
Proof. intros H. unfold u8. apply Z.mod_small. lia. Qed.
Lemma u8_range x : 0 ≤ u8 x < 256.
Proof. apply Z.mod_pos_bound. lia. Qed.
Lemma u16_small x : 0 ≤ x < 65536 → u16 x = x.
Proof. intros H. unfold u16. apply Z.mod_small. lia. Qed.
Lemma u16_range x : 0 ≤ u16 x < 65536.
Proof. apply Z.mod_pos_bound. lia. Qed.
Lemma s32_small x : 0 ≤ x < 2147483648 → s32 x = x.
Proof.
  intros H. unfold s32. rewrite u32_small by lia.
  destruct (Z.ltb_spec x (2 ^ 31)); lia.
Qed.
#[export] Hint Resolve u32_range u8_range u16_range : ashos.

Lemma s8_inj x y : 0 ≤ x < 256 → 0 ≤ y < 256 → s8 x = s8 y → x = y.
Proof.
  intros Hx Hy. unfold s8. rewrite !u8_small by lia.
  destruct (Z.ltb_spec x (2 ^ 7)), (Z.ltb_spec y (2 ^ 7)); lia.
Qed.

(** ** Bits of a word *)

(** [1 << k] and [~(1 << k)] as 32-bit words. *)
Definition bit32 (k : Z) : Z := u32 (Z.shiftl 1 k).
Definition nbit32 (k : Z) : Z := u32 (Z.lnot (Z.shiftl 1 k)).

Lemma bit32_pow k : 0 ≤ k < 32 → bit32 k = 2 ^ k.
Proof.
  intros Hk. unfold bit32. rewrite Z.shiftl_1_l. apply u32_small.
  assert (2 ^ k < 2 ^ 32) by (apply Z.pow_lt_mono_r; lia).
  assert (0 < 2 ^ k) by (apply Z.pow_pos_nonneg; lia). lia.
Qed.

Lemma testbit_lor_bit32 w k j :
  0 ≤ k < 32 → Z.testbit (Z.lor w (bit32 k)) j = Z.testbit w j || (k =? j).
Proof.
  intros Hk. rewrite bit32_pow by lia.
  rewrite Z.lor_spec, Z.pow2_bits_eqb by lia. done.
Qed.

Lemma testbit_land_nbit32 w k j :
  0 ≤ k < 32 → 0 ≤ j < 32 →
  Z.testbit (Z.land w (nbit32 k)) j = Z.testbit w j && negb (k =? j).
Proof.
  intros Hk Hj. unfold nbit32, u32. rewrite Z.land_spec, Z.shiftl_1_l.
  rewrite Z.mod_pow2_bits_low, Z.lnot_spec, Z.pow2_bits_eqb by lia. done.
Qed.

Lemma land_bit32_zero w k :
  0 ≤ k < 32 → (Z.land w (bit32 k) =? 0) = negb (Z.testbit w k).
Proof.
  intros Hk. rewrite bit32_pow by lia. destruct (Z.testbit w k) eqn:Hw; simpl.
  - apply Z.eqb_neq. intros H. apply (f_equal (λ z, Z.testbit z k)) in H.
    rewrite Z.land_spec, Hw, Z.pow2_bits_true, Z.bits_0 in H by lia. done.
  - apply Z.eqb_eq. apply Z.bits_inj_0. intros j.
    rewrite Z.land_spec, Z.pow2_bits_eqb by lia.
    destruct (Z.eqb_spec k j) as [->|]; [rewrite Hw; done|apply andb_false_r].
Qed.

(** Words built from words stay words. *)
Lemma u32_bound_bits x : 0 ≤ x → (∀ j, 32 ≤ j → Z.testbit x j = false) → x < 2 ^ 32.
Proof.
  intros Hx H. destruct (Z.ltb_spec x (2 ^ 32)) as [|Hge]; [done|].
  assert (32 ≤ Z.log2 x) by (apply Z.log2_le_pow2; lia).
  specialize (H (Z.log2 x) ltac:(lia)). rewrite Z.bit_log2 in H by lia. done.
Qed.

Lemma testbit_high x j : 0 ≤ x < 2 ^ 32 → 32 ≤ j → Z.testbit x j = false.
Proof.
  intros Hx Hj. destruct (Z.eqb_spec x 0) as [->|]; [apply Z.bits_0|].
  apply Z.bits_above_log2; [lia|]. apply Z.log2_lt_pow2; [lia|].
  apply Z.lt_le_trans with (2 ^ 32); [lia|apply Z.pow_le_mono_r; lia].
Qed.

Lemma lor_range x y : 0 ≤ x < 2 ^ 32 → 0 ≤ y < 2 ^ 32 → 0 ≤ Z.lor x y < 2 ^ 32.
Proof.
  intros Hx Hy. assert (0 ≤ Z.lor x y) by (apply Z.lor_nonneg; lia). split; [done|].
  apply u32_bound_bits; [done|]. intros j Hj.
  rewrite Z.lor_spec, !testbit_high by done. done.
Qed.

Lemma land_range x y : 0 ≤ x < 2 ^ 32 → 0 ≤ y → 0 ≤ Z.land x y < 2 ^ 32.
Proof.
  intros Hx Hy. assert (0 ≤ Z.land x y) by (apply Z.land_nonneg; lia). split; [done|].
  apply u32_bound_bits; [done|]. intros j Hj.
  rewrite Z.land_spec, testbit_high by done. done.
Qed.

(** ** Arrays

    A C array is a list; the index is a [Z] and an access outside the array is
    [None] (undefined behaviour in C). *)

Definition aget {A} (l : list A) (i : Z) : option A :=
  if (0 <=? i) && (i <? Z.of_nat (length l)) then l !! Z.to_nat i else None.

Definition aset {A} (l : list A) (i : Z) (x : A) : option (list A) :=
  if (0 <=? i) && (i <? Z.of_nat (length l)) then Some (<[Z.to_nat i := x]> l)
  else None.

Section arrays.
Context {A : Type}.
Implicit Types (l : list A) (x : A).

Lemma aget_eq l i : 0 ≤ i → aget l i = l !! Z.to_nat i.
Proof.
  intros Hi. unfold aget.
  destruct (Z.leb_spec 0 i), (Z.ltb_spec i (Z.of_nat (length l))); simpl; try lia.
  - done.
  - symmetry. apply lookup_ge_None. lia.
Qed.

Lemma aget_Some_range l i x :
  aget l i = Some x → 0 ≤ i < Z.of_nat (length l).
Proof.
  unfold aget.
  destruct (Z.leb_spec 0 i), (Z.ltb_spec i (Z.of_nat (length l))); simpl; done.
Qed.

Lemma aget_is_Some l i :
  0 ≤ i < Z.of_nat (length l) → ∃ x, aget l i = Some x.
Proof.
  intros Hi. rewrite aget_eq by lia. apply lookup_lt_is_Some_2. lia.
Qed.

Lemma aset_Some l i x :
  0 ≤ i < Z.of_nat (length l) → aset l i x = Some (<[Z.to_nat i := x]> l).
Proof.
  intros Hi. unfold aset.
  destruct (Z.leb_spec 0 i), (Z.ltb_spec i (Z.of_nat (length l))); simpl; done || lia.
Qed.

Lemma aset_inv l i x l' :
  aset l i x = Some l' →
  0 ≤ i < Z.of_nat (length l) ∧ l' = <[Z.to_nat i := x]> l.
Proof.
  unfold aset.
  destruct (Z.leb_spec 0 i), (Z.ltb_spec i (Z.of_nat (length l))); simpl; naive_solver.
Qed.

Lemma aget_insert_eq l i x :
  0 ≤ i < Z.of_nat (length l) → aget (<[Z.to_nat i := x]> l) i = Some x.
Proof. intros. rewrite aget_eq by lia. apply list_lookup_insert_eq. lia. Qed.

Lemma aget_insert_ne l i j x :
  0 ≤ i → i ≠ j → aget (<[Z.to_nat i := x]> l) j = aget l j.
Proof.
  intros Hi Hij. destruct (Z.leb_spec 0 j) as [Hj|Hj].
  - rewrite !aget_eq by lia. apply list_lookup_insert_ne. lia.
  - unfold aget. destruct (Z.leb_spec 0 j); [lia|done].
Qed.

Lemma aget_replicate n x i :
  0 ≤ i < Z.of_nat n → aget (replicate n x) i = Some x.
Proof. intros. rewrite aget_eq by lia. apply lookup_replicate_2. lia. Qed.

Lemma aget_ext l1 l2 :
  length l1 = length l2 →
  (∀ i, 0 ≤ i < Z.of_nat (length l1) → aget l1 i = aget l2 i) → l1 = l2.
Proof.
  intros Hlen H. apply list_eq. intros i.
  destruct (decide (i < length l1)%nat) as [Hi|Hi].
  - specialize (H (Z.of_nat i) ltac:(lia)).
    rewrite !aget_eq, Nat2Z.id in H by lia. done.
  - rewrite !lookup_ge_None_2 by lia. done.
Qed.
End arrays.

(** ** Console events

    The messages a component sends to the console (kernel/kernel.c's terminal,
    kernel/kprintf.c and the serial port).  A component emits them in program
    order; the console components give them their meaning. *)

Inductive karg :=
  | AInt (z : Z)
  | AStr (s : list Z).

Inductive event :=
  | EvPrintf (fmt : string) (args : list karg)
  | EvPutchar (c : Z)
  | EvSetColor (c : Z)
  | EvClear.

(** ** The kernel monad

    A computation over a state [S] either finishes with a value ([Done]), never
    returns to its caller ([Halted]: the [hlt] loops and the [iret] to ring 3), runs out of the fuel given
    to a busy-waiting loop ([Diverged]) or does what C leaves undefined
    ([Undefined]: an access outside an array, a dereferenced null pointer). *)

Inductive outcome (S A : Type) :=
  | Done (a : A) (s : S) (o : list event)
  | Halted (s : S) (o : list event)
  | Diverged
  | Undefined.
Arguments Done {S A} a s o.
Arguments Halted {S A} s o.
Arguments Diverged {S A}.
Arguments Undefined {S A}.

Definition K (S A : Type) : Type := S → outcome S A.

#[export] Instance K_ret S : MRet (K S) := λ A a s, Done a s [].

#[export] Instance K_bind S : MBind (K S) := λ A B f m s,
  match m s with
  | Done a s1 o1 =>
      match f a s1 with
      | Done b s2 o2 => Done b s2 (o1 ++ o2)
      | Halted s2 o2 => Halted s2 (o1 ++ o2)
      | Diverged => Diverged
      | Undefined => Undefined
      end
  | Halted s1 o1 => Halted s1 o1
  | Diverged => Diverged
  | Undefined => Undefined
  end.

Definition kget {S} : K S S := λ s, Done s s [].
Definition kgets {S A} (f : S → A) : K S A := λ s, Done (f s) s [].
Definition kmodify {S} (f : S → S) : K S unit := λ s, Done tt (f s) [].
Definition kemit {S} (e : event) : K S unit := λ s, Done tt s [e].
Definition khalt {S A} : K S A := λ s, Halted s [].
Definition kundefined {S A} : K S A := λ _, Undefined.
Definition kdiverge {S A} : K S A := λ _, Diverged.
Definition klift {S A} (x : option A) : K S A :=
  match x with Some a => mret a | None => kundefined end.

(** The state a run ends in, [d] if it does not end normally. *)
Definition final {S A} (d : S) (r : outcome S A) : S :=
  match r with Done _ s _ => s | _ => d end.

(** [kprintf(fmt, args...)]. *)
Definition kprintf {S} (fmt : string) (args : list karg) : K S unit :=
  kemit (EvPrintf fmt args).

(** [for (i = lo; i < lo + n; i++) body], where [body] updates the loop's local
    variables ([inl]) or returns from the function ([inr]). *)
Fixpoint kloop {S A R} (lo : Z) (n : nat) (body : Z → A → K S (A + R)) (a : A)
  : K S (A + R) :=
  match n with
  | O => mret (inl a)
  | Datatypes.S n =>
      x ← body lo a;
      match x with
      | inl a' => kloop (lo + 1) n body a'
      | inr r => mret (inr r)
      end
  end.

(** [for (i = lo; i < lo + n; i++) body] with no early exit: [body] updates the
    loop's local variables. *)
Definition kfold {S A} (lo : Z) (n : nat) (body : Z → A → K S A) (a : A) : K S A :=
  x ← kloop (R := Empty_set) lo n (λ i a, a' ← body i a; mret (inl a')) a;
  match x with inl a => mret a | inr e => match e : Empty_set return K S A with end end.

(** [while (1) body] under fuel; out of fuel is [Diverged]. *)
Fixpoint kwhile {S A R} (fuel : nat) (body : A → K S (A + R)) (a : A) : K S R :=
  match fuel with
  | O => kdiverge
  | Datatypes.S fuel =>
      x ← body a;
      match x with
      | inl a' => kwhile fuel body a'
      | inr r => mret r
      end
  end.

(** ** Total correctness

    [wp m s Q]: started in [s], [m] finishes normally with a value, a state and
    a list of events that satisfy [Q]. *)

Definition wp {S A} (m : K S A) (s : S) (Q : A → S → list event → Prop) : Prop :=
  match m s with
  | Done a s' o => Q a s' o
  | _ => False
  end.

Section wp.
Context {S : Type}.

Lemma wp_done {A} (m : K S A) s Q :
  wp m s Q → ∃ a s' o, m s = Done a s' o ∧ Q a s' o.
Proof. unfold wp. destruct (m s); naive_solver. Qed.

Lemma wp_of_done {A} (m : K S A) s Q a s' o :
  m s = Done a s' o → Q a s' o → wp m s Q.
Proof. unfold wp. intros ->. done. Qed.

Lemma wp_mono {A} (m : K S A) s (P Q : A → S → list event → Prop) :
  wp m s P → (∀ a s' o, P a s' o → Q a s' o) → wp m s Q.
Proof. unfold wp. destruct (m s); naive_solver. Qed.

Lemma wp_ret {A} (a : A) s Q : Q a s [] → wp (mret a : K S A) s Q.
Proof. done. Qed.

Lemma wp_bind {A B} (m : K S A) (f : A → K S B) s Q :
  wp m s (λ a s1 o1, wp (f a) s1 (λ b s2 o2, Q b s2 (o1 ++ o2))) →
  wp (m ≫= f) s Q.
Proof.
  unfold wp, mbind, K_bind. destruct (m s) as [a s1 o1| | |]; try done.
  destruct (f a s1); done.
Qed.

Lemma wp_get s (Q : S → S → list event → Prop) : Q s s [] → wp kget s Q.
Proof. done. Qed.
Lemma wp_gets {A} (f : S → A) s Q : Q (f s) s [] → wp (kgets f) s Q.
Proof. done. Qed.
Lemma wp_modify (f : S → S) s (Q : unit → S → list event → Prop) : Q tt (f s) [] → wp (kmodify f) s Q.
Proof. done. Qed.
Lemma wp_emit e s (Q : unit → S → list event → Prop) : Q tt s [e] → wp (kemit e) s Q.
Proof. done. Qed.
Lemma wp_kprintf fmt args s (Q : unit → S → list event → Prop) :
  Q tt s [EvPrintf fmt args] → wp (kprintf fmt args) s Q.
Proof. done. Qed.
Lemma wp_lift {A} (x : option A) a s (Q : A → S → list event → Prop) :
  x = Some a → Q a s [] → wp (klift x) s Q.
Proof. intros ->. done. Qed.

(** The loop rule: [I] holds before every iteration, of the index, the local
    variables, the state and the events of the iterations done. *)
Lemma wp_kloop {A R} (I : Z → A → S → list event → Prop)
    (body : Z → A → K S (A + R)) n lo a s Q :
  I lo a s [] →
  (∀ j a s o, lo ≤ j < lo + Z.of_nat n → I j a s o →
     wp (body j a) s (λ x s' o',
       match x with
       | inl a' => I (j + 1) a' s' (o ++ o')
       | inr r => Q (inr r) s' (o ++ o')
       end)) →
  (∀ a s o, I (lo + Z.of_nat n) a s o → Q (inl a) s o) →
  wp (kloop lo n body a) s Q.
Proof.
  intros HI Hbody HQ.
  enough (∀ o, I lo a s o → wp (kloop lo n body a) s (λ x s' o', Q x s' (o ++ o'))) as H.
  { apply (H []). done. }
  clear HI. revert lo a s Hbody HQ.
  induction n as [|n IH]; intros lo a s Hbody HQ o HI; simpl.
  - apply wp_ret. rewrite app_nil_r. apply HQ.
    replace (lo + Z.of_nat 0) with lo by lia. done.
  - apply wp_bind. eapply wp_mono; [apply (Hbody lo a s o); [lia|done]|].
    intros [a'|r] s1 o1 Hx; simpl in Hx.
    + eapply wp_mono.
      * apply (IH (lo + 1) a' s1) with (o := o ++ o1); [| |done].
        -- intros. apply Hbody; [lia|done].
        -- intros a2 s2 o2 H2. apply HQ.
           replace (lo + Z.of_nat (Datatypes.S n)) with (lo + 1 + Z.of_nat n) by lia.
           done.
      * intros x s2 o2 Hx2. rewrite app_assoc. done.
    + apply wp_ret. rewrite app_nil_r. done.
Qed.

Lemma wp_kfold {A} (I : Z → A → S → list event → Prop)
    (body : Z → A → K S A) n lo a s Q :
  I lo a s [] →
  (∀ j a s o, lo ≤ j < lo + Z.of_nat n → I j a s o →
     wp (body j a) s (λ a' s' o', I (j + 1) a' s' (o ++ o'))) →
  (∀ a s o, I (lo + Z.of_nat n) a s o → Q a s o) →
  wp (kfold lo n body a) s Q.
Proof.
  intros HI Hbody HQ. apply wp_bind. apply wp_kloop with (I := I); [done| |].
  - intros j a1 s1 o1 Hj HI1. apply wp_bind. eapply wp_mono; [by apply Hbody|].
    intros a2 s2 o2 H2. apply wp_ret. simpl. rewrite app_nil_r. done.
  - intros a1 s1 o1 H1. apply wp_ret. rewrite app_nil_r. auto.
Qed.

(** Unrolling one iteration, for proofs by induction on the data. *)
Lemma wp_kwhile_S {A R} (body : A → K S (A + R)) fuel a s Q :
  wp (body a) s (λ x s' o,
    match x with
    | inl a' => wp (kwhile fuel body a') s' (λ r s'' o', Q r s'' (o ++ o'))
    | inr r => Q r s' o
    end) →
  wp (kwhile (Datatypes.S fuel) body a) s Q.
Proof.
  intros H. simpl. apply wp_bind. eapply wp_mono; [exact H|].
  intros [a'|r] s' o Hx; [exact Hx|]. apply wp_ret. by rewrite app_nil_r.
Qed.

(** The rule for fuelled loops: a measure that decreases and stays below the
    fuel. *)
Lemma wp_kwhile {A R} (I : A → S → list event → Prop) (measure : A → S → nat)
    (body : A → K S (A + R)) fuel a s Q :
  (measure a s < fuel)%nat →
  I a s [] →
  (∀ a s o, I a s o →
     wp (body a) s (λ x s' o',
       match x with
       | inl a' => (measure a' s' < measure a s)%nat ∧ I a' s' (o ++ o')
       | inr r => Q r s' (o ++ o')
       end)) →
  wp (kwhile fuel body a) s Q.
Proof.
  intros Hm HI Hbody.
  enough (∀ o, I a s o → wp (kwhile fuel body a) s (λ x s' o', Q x s' (o ++ o'))) as H.
  { apply (H []). done. }
  clear HI. revert a s Hm. induction fuel as [|fuel IH]; intros a s Hm o HI; [lia|].
  simpl. apply wp_bind. eapply wp_mono; [apply (Hbody _ _ _ HI)|].
  intros [a'|r] s1 o1 Hx; simpl in Hx.
  - destruct Hx as [Hlt HI']. eapply wp_mono; [apply (IH a' s1) with (o := o ++ o1); [lia|done]|].
    intros x s2 o2 Hx2. rewrite app_assoc. done.
  - apply wp_ret. rewrite app_nil_r. done.
Qed.
End wp.

#[global] Arguments kloop : simpl never.
#[global] Arguments kwhile : simpl never.
#[global] Arguments kfold : simpl never.

(** One step of symbolic execution of a monadic program. *)
Ltac wp_step :=
  lazymatch goal with
  | |- wp (mbind _ _) _ _ => apply wp_bind
  | |- wp (mret _) _ _ => apply wp_ret
  | |- wp kget _ _ => apply wp_get
  | |- wp (kgets _) _ _ => apply wp_gets
  | |- wp (kmodify _) _ _ => apply wp_modify
  | |- wp (kemit _) _ _ => apply wp_emit
  | |- wp (kprintf _ _) _ _ => apply wp_kprintf
  end; cbv beta.

Ltac wp_steps := repeat wp_step.

(** ** Running a component inside a larger state *)

Class Lens (W S : Type) := {
  lens_get : W → S;
  lens_set : S → W → W;
  lens_get_set : ∀ s w, lens_get (lens_set s w) = s;
  lens_set_get : ∀ w, lens_set (lens_get w) w = w;
  lens_set_set : ∀ s1 s2 w, lens_set s2 (lens_set s1 w) = lens_set s2 w;
}.

Definition zoom {W S A} `{Lens W S} (m : K S A) : K W A := λ w,
  match m (lens_get w) with
  | Done a s o => Done a (lens_set s w) o
  | Halted s o => Halted (lens_set s w) o
  | Diverged => Diverged
  | Undefined => Undefined
  end.

Lemma wp_zoom {W S A} `{Lens W S} (m : K S A) w Q :
  wp m (lens_get w) (λ a s o, Q a (lens_set s w) o) → wp (zoom m) w Q.
Proof. unfold wp, zoom. destruct (m (lens_get w)); done. Qed.

(** [zoom] is transparent to the logic. *)
Lemma wp_unzoom {W S A} `{Lens W S} (m : K S A) w Q :
  wp (zoom m) w (λ a w' o, Q a (lens_get w') o) → wp m (lens_get w) Q.
Proof.
  unfold wp, zoom. destruct (m (lens_get w)); [|done..]. by rewrite lens_get_set.
Qed.

Lemma zoom_ret {W S A} `{Lens W S} (a : A) w : zoom (mret a : K S A) w = (mret a : K W A) w.
Proof. unfold zoom. simpl. unfold mret, K_ret. by rewrite lens_set_get. Qed.

Lemma zoom_lift {W S A} `{Lens W S} (x : option A) w :
  zoom (klift x : K S A) w = (klift x : K W A) w.
Proof. destruct x; [apply zoom_ret|done]. Qed.

Lemma zoom_bind {W S A B} `{Lens W S} (m : K S A) (f : A → K S B) w :
  zoom (m ≫= f) w = (zoom m ≫= λ a, zoom (f a)) w.
Proof.
  unfold zoom, mbind, K_bind. destruct (m (lens_get w)) as [a s o| | |]; [|done..].
  rewrite lens_get_set. by destruct (f a s); rewrite ?lens_set_set.
Qed.

Lemma bind_get {S A} (f : S → K S A) s : (kget ≫= f) s = f s s.
Proof. unfold mbind, K_bind, kget. by destruct (f s s). Qed.

Lemma bind_ext {S A B} (m m' : K S A) (f g : A → K S B) s :
  m s = m' s → (∀ a s, f a s = g a s) → (m ≫= f) s = (m' ≫= g) s.
Proof.
  intros Hm Hf. unfold mbind, K_bind. rewrite Hm. destruct (m' s); [|done..]. by rewrite Hf.
Qed.

(** The monad laws, pointwise. *)
Lemma kret_bind {S A B} (a : A) (f : A → K S B) s : (mret a ≫= f) s = f a s.
Proof. unfold mbind, K_bind, mret, K_ret. by destruct (f a s). Qed.

Lemma kbind_ret {S A} (m : K S A) s : (m ≫= mret) s = m s.
Proof.
  unfold mbind, K_bind, mret, K_ret. destruct (m s); [|done..]. by rewrite app_nil_r.
Qed.

Lemma kbind_assoc {S A B C} (m : K S A) (f : A → K S B) (g : B → K S C) s :
  ((m ≫= f) ≫= g) s = (m ≫= λ a, f a ≫= g) s.
Proof.
  unfold mbind, K_bind. destruct (m s) as [a s1 o1| | |]; [|done..].
  destruct (f a s1) as [b s2 o2| | |]; [|done..].
  destruct (g b s2); rewrite ?app_assoc; done.
Qed.

(** A run that ends normally, followed by another. *)
Lemma kbind_done {S A B} (m : K S A) (f : A → K S B) s a s' :
  m s = Done a s' [] → (m ≫= f) s = f a s'.
Proof. unfold mbind, K_bind. intros ->. by destruct (f a s'). Qed.

Lemma kbind_undefined {S A B} (m : K S A) (f : A → K S B) s :
  m s = Undefined → (m ≫= f) s = Undefined.
Proof. unfold mbind, K_bind. by intros ->. Qed.

Lemma zoom_kloop {W S A R} `{Lens W S} (body : Z → A → K S (A + R))
    (body' : Z → A → K W (A + R)) n :
  (∀ i a w, zoom (body i a) w = body' i a w) →
  ∀ lo a w, zoom (kloop lo n body a) w = kloop lo n body' a w.
Proof.
  intros Hb. induction n as [|n IH]; intros lo a w; [apply zoom_ret|].
  unfold kloop; fold (@kloop S A R); fold (@kloop W A R). rewrite zoom_bind.
  apply bind_ext; [apply Hb|]. intros [a'|r] w'; [apply IH|apply zoom_ret].
Qed.

Lemma zoom_kfold {W S A} `{Lens W S} (body : Z → A → K S A) (body' : Z → A → K W A) n lo a w :
  (∀ i a w, zoom (body i a) w = body' i a w) →
  zoom (kfold lo n body a) w = kfold lo n body' a w.
Proof.
  intros Hb. unfold kfold. rewrite zoom_bind. apply bind_ext.
  - apply zoom_kloop. intros i a' w'. rewrite zoom_bind.
    apply bind_ext; [apply Hb|]. intros a2 w2. apply zoom_ret.
  - intros [a'|[]] w'. apply zoom_ret.
Qed.

(** ** What a computation leaves alone

    [preserves π m]: however [m] ends, the part [π] of the state is what it was. *)

Definition preserves {S B A} (π : S → B) (m : K S A) : Prop := ∀ s,
  match m s with
  | Done _ s' _ | Halted s' _ => π s' = π s
  | Diverged | Undefined => True
  end.

Section preserves.
Context {S B : Type} (π : S → B).

Lemma preserves_ret {A} (a : A) : preserves π (mret a : K S A).
Proof. done. Qed.
Lemma preserves_get : preserves π kget.
Proof. done. Qed.
Lemma preserves_emit e : preserves π (kemit e).
Proof. done. Qed.
Lemma preserves_halt {A} : preserves π (khalt : K S A).
Proof. done. Qed.
Lemma preserves_diverge {A} : preserves π (kdiverge : K S A).
Proof. done. Qed.
Lemma preserves_lift {A} (x : option A) : preserves π (klift x).
Proof. by destruct x. Qed.
Lemma preserves_modify (f : S → S) : (∀ s, π (f s) = π s) → preserves π (kmodify f).
Proof. done. Qed.

Lemma preserves_bind {A C} (m : K S A) (f : A → K S C) :
  preserves π m → (∀ a, preserves π (f a)) → preserves π (m ≫= f).
Proof.
  intros Hm Hf s. specialize (Hm s). unfold mbind, K_bind. destruct (m s) as [a s1 o1| | |]; [|done..].
  specialize (Hf a s1). by destruct (f a s1); rewrite ?Hf.
Qed.

Lemma preserves_kloop {A R} (body : Z → A → K S (A + R)) n : ∀ lo a,
  (∀ i a, preserves π (body i a)) → preserves π (kloop lo n body a).
Proof.
  induction n as [|n IH]; intros lo a Hb; [apply preserves_ret|].
  apply preserves_bind; [apply Hb|]. intros [a'|r]; [by apply IH|apply preserves_ret].
Qed.

Lemma preserves_kfold {A} (body : Z → A → K S A) n lo a :
  (∀ i a, preserves π (body i a)) → preserves π (kfold lo n body a).
Proof.
  intros Hb. apply preserves_bind; [|intros [a'|[]]; apply preserves_ret].
  apply preserves_kloop. intros i a'. apply preserves_bind; [apply Hb|]. intros. apply preserves_ret.
Qed.

Lemma preserves_kwhile {A R} (body : A → K S (A + R)) n : ∀ a,
  (∀ a, preserves π (body a)) → preserves π (kwhile n body a).
Proof.
  induction n as [|n IH]; intros a Hb; [apply preserves_diverge|].
  apply preserves_bind; [apply Hb|]. intros [a'|r]; [by apply IH|apply preserves_ret].
Qed.

(** A component that [π] does not look at may do anything. *)
Lemma preserves_zoom {T A} `{Lens S T} (m : K T A) :
  (∀ t s, π (lens_set t s) = π s) → preserves π (zoom m).
Proof. intros Hset s. unfold zoom. by destruct (m (lens_get s)). Qed.

Lemma preserves_zoom_via {T C A} `{Lens S T} (ρ : T → C) (m : K T A) :
  preserves ρ m → (∀ t s, ρ t = ρ (lens_get s) → π (lens_set t s) = π s) → preserves π (zoom m).
Proof.
  intros Hm Hset s. specialize (Hm (lens_get s)). unfold zoom. destruct (m (lens_get s)); auto.
Qed.
End preserves.

#[export] Hint Resolve preserves_ret preserves_get preserves_emit preserves_halt preserves_diverge
  preserves_lift : ashos.

(** Follow the structure of the program down to the calls of other components. *)
Ltac preserve :=
  repeat (lazymatch goal with
  | |- ∀ _, _ => intro
  | |- preserves _ (mbind _ _) => apply preserves_bind
  | |- preserves _ (kprintf _ _) => apply preserves_emit
  | |- preserves _ (kloop _ _ _ _) => apply preserves_kloop
  | |- preserves _ (kfold _ _ _ _) => apply preserves_kfold
  | |- preserves _ (kwhile _ _ _) => apply preserves_kwhile
  | |- preserves _ (if ?b then _ else _) => destruct b
  | |- preserves _ (match ?x with _ => _ end) => destruct x
  | |- preserves _ _ => solve [eauto with ashos]
  end; cbv beta).
