(* ===== verification/Bytes.v ===== *)
(** * Bytes, C strings and the byte loops of the kernel

    A byte is a [Z] in [0, 256); memory given to the byte loops is a list.  The
    loops are those of kernel/fs.c's helpers (kernel/elf.c repeats two of them):
    an access past the end of an object is [None]. *)

From S2P Require Import Prelude.

Definition byte_ok (b : Z) : Prop := 0 ≤ b < 256.
Definition bytes_ok (l : list Z) : Prop := Forall byte_ok l.

#[export] Instance bytes_ok_dec l : Decision (bytes_ok l).
Proof. unfold bytes_ok, byte_ok. apply _. Defined.

(** [n] elements of [l] from index [off]. *)
Definition slice {A} (off n : nat) (l : list A) : list A := take n (drop off l).

(** ** Little-endian integers *)

Fixpoint le_bytes (n : nat) (z : Z) : list Z :=
  match n with
  | O => []
  | S n => z mod 256 :: le_bytes n (z / 256)
  end.

Fixpoint le_Z (l : list Z) : Z :=
  match l with
  | [] => 0
  | b :: l => b + 256 * le_Z l
  end.

Lemma length_le_bytes n z : length (le_bytes n z) = n.
Proof. revert z. induction n; simpl; auto. Qed.

Lemma le_bytes_ok n z : bytes_ok (le_bytes n z).
Proof.
  revert z. induction n as [|n IH]; intros z; simpl; constructor; [|apply IH].
  unfold byte_ok. dlia.
Qed.

Lemma le_Z_le_bytes n z : 0 ≤ z < 256 ^ Z.of_nat n → le_Z (le_bytes n z) = z.
Proof.
  revert z. induction n as [|n IH]; intros z Hz; simpl; [lia|].
  rewrite Nat2Z.inj_succ, Z.pow_succ_r in Hz by lia. rewrite IH; dlia.
Qed.

Lemma le_bytes_le_Z l : bytes_ok l → le_bytes (length l) (le_Z l) = l.
Proof.
  induction 1 as [|b l Hb Hl IH]; simpl; [done|]. unfold byte_ok in Hb.
  f_equal; [dlia|]. replace ((b + 256 * le_Z l) / 256) with (le_Z l) by dlia. done.
Qed.

Lemma le_Z_range l : bytes_ok l → 0 ≤ le_Z l < 256 ^ Z.of_nat (length l).
Proof.
  induction 1 as [|b l Hb Hl IH]; cbn [le_Z length]; [lia|].
  rewrite Nat2Z.inj_succ, Z.pow_succ_r by lia. unfold byte_ok in Hb. lia.
Qed.

#[global] Arguments le_bytes : simpl never.
#[global] Arguments slice : simpl never.

(** ** Slices *)

Lemma length_slice {A} off n (l : list A) :
  (off + n ≤ length l)%nat → length (slice off n l) = n.
Proof. intros H. unfold slice. rewrite length_take, length_drop. lia. Qed.

Lemma slice_ok off n l : bytes_ok l → bytes_ok (slice off n l).
Proof. intros H. unfold slice. apply Forall_take, Forall_drop, H. Qed.

Lemma lookup_slice {A} off n (l : list A) i :
  (i < n)%nat → slice off n l !! i = l !! (off + i)%nat.
Proof. intros H. unfold slice. rewrite lookup_take_lt, lookup_drop by lia. done. Qed.

Lemma slice_app_l {A} (l1 l2 : list A) off n :
  (off + n ≤ length l1)%nat → slice off n (l1 ++ l2) = slice off n l1.
Proof.
  intros H. unfold slice. rewrite drop_app_le by lia. rewrite take_app_le; [done|].
  rewrite length_drop. lia.
Qed.

Lemma slice_app_r {A} (l1 l2 : list A) off n :
  (length l1 ≤ off)%nat → slice off n (l1 ++ l2) = slice (off - length l1) n l2.
Proof. intros H. unfold slice. rewrite drop_app_ge by lia. done. Qed.

Lemma slice_full {A} n (l : list A) : length l = n → slice 0 n l = l.
Proof. intros H. unfold slice. rewrite drop_0. apply take_ge. lia. Qed.

Lemma slice_slice {A} off1 n1 off2 n2 (l : list A) :
  (off2 + n2 ≤ n1)%nat → slice off2 n2 (slice off1 n1 l) = slice (off1 + off2) n2 l.
Proof.
  intros H. apply list_eq. intros i.
  destruct (decide (i < n2)%nat) as [Hi|Hi].
  - rewrite !lookup_slice by lia. f_equal. lia.
  - unfold slice. rewrite !lookup_take_ge by lia. done.
Qed.

(** Consecutive slices put together. *)
Lemma slice_join {A} off n m (l : list A) :
  slice off n l ++ slice (off + n) m l = slice off (n + m) l.
Proof.
  apply list_eq. intros i. unfold slice.
  destruct (decide (off + n ≤ length l)%nat) as [H|H].
  - destruct (decide (i < n)%nat) as [Hi|Hi].
    + rewrite lookup_app_l by (rewrite length_take, length_drop; lia).
      rewrite !lookup_take_lt, !lookup_drop by lia. done.
    + rewrite lookup_app_r by (rewrite length_take, length_drop; lia).
      rewrite length_take, length_drop.
      replace (n `min` (length l - off))%nat with n by lia.
      destruct (decide (i < n + m)%nat) as [Hi2|Hi2].
      * rewrite !lookup_take_lt, !lookup_drop by lia. f_equal. lia.
      * rewrite !lookup_take_ge by lia. done.
  - rewrite (drop_ge l (off + n)) by lia. rewrite take_nil, app_nil_r.
    rewrite !(take_ge (drop off l)) by (rewrite length_drop; lia). done.
Qed.

(** ** [fs_memset], [fs_memcpy] *)

Fixpoint memset_loop (i : Z) (n : nat) (p : list Z) (val : Z) : option (list Z) :=
  match n with
  | O => Some p
  | S n => p' ← aset p i val; memset_loop (i + 1) n p' val
  end.

(** [fs_memset(ptr, val, size)] on the object [ptr] points to. *)
Definition fs_memset (ptr : list Z) (val : Z) (size : Z) : option (list Z) :=
  memset_loop 0 (Z.to_nat size) ptr (u8 val).

Fixpoint memcpy_loop (i : Z) (n : nat) (d : list Z) (doff : Z) (s : list Z) (soff : Z)
  : option (list Z) :=
  match n with
  | O => Some d
  | S n =>
      x ← aget s (soff + i);
      d' ← aset d (doff + i) x;
      memcpy_loop (i + 1) n d' doff s soff
  end.

(** [fs_memcpy(dst + doff, src + soff, size)]. *)
Definition fs_memcpy (dst : list Z) (doff : Z) (src : list Z) (soff : Z) (size : Z)
  : option (list Z) :=
  memcpy_loop 0 (Z.to_nat size) dst doff src soff.

Lemma memset_loop_spec n : ∀ (i : nat) p val,
  (i + n ≤ length p)%nat →
  memset_loop (Z.of_nat i) n p val
  = Some (take i p ++ replicate n val ++ drop (i + n) p).
Proof.
  induction n as [|n IH]; intros i p val H; cbn [memset_loop].
  - rewrite Nat.add_0_r. f_equal. symmetry. apply take_drop.
  - rewrite aset_Some by lia. simpl. rewrite Nat2Z.id.
    replace (Z.of_nat i + 1) with (Z.of_nat (S i)) by lia.
    rewrite IH by (rewrite length_insert; lia). f_equal.
    rewrite drop_insert_lt by lia.
    rewrite (take_S_r _ i val) by (apply list_lookup_insert_eq; lia).
    rewrite take_insert_ge by lia. rewrite <-app_assoc. f_equal.
    replace (S i + n)%nat with (i + S n)%nat by lia. done.
Qed.

Lemma fs_memset_all p val size :
  byte_ok val → length p = Z.to_nat size →
  fs_memset p val size = Some (replicate (Z.to_nat size) val).
Proof.
  intros Hv H. unfold fs_memset, byte_ok in *. rewrite u8_small by lia.
  change 0 with (Z.of_nat 0). rewrite memset_loop_spec by lia.
  rewrite drop_ge by lia. rewrite app_nil_r. done.
Qed.

Lemma memcpy_loop_spec n : ∀ (i dn sn : nat) d s,
  (dn + i + n ≤ length d)%nat → (sn + i + n ≤ length s)%nat →
  memcpy_loop (Z.of_nat i) n d (Z.of_nat dn) s (Z.of_nat sn)
  = Some (take (dn + i) d ++ slice (sn + i) n s ++ drop (dn + i + n) d).
Proof.
  induction n as [|n IH]; intros i dn sn d s Hd Hs; cbn [memcpy_loop].
  - rewrite Nat.add_0_r. unfold slice. rewrite take_0. f_equal. symmetry. apply take_drop.
  - rewrite aget_eq by lia. replace (Z.to_nat (Z.of_nat sn + Z.of_nat i)) with (sn + i)%nat by lia.
    destruct (lookup_lt_is_Some_2 s (sn + i)) as [x Hx]; [lia|]. rewrite Hx. simpl.
    rewrite aset_Some by lia. simpl.
    replace (Z.to_nat (Z.of_nat dn + Z.of_nat i)) with (dn + i)%nat by lia.
    replace (Z.of_nat i + 1) with (Z.of_nat (S i)) by lia.
    rewrite IH by (rewrite ?length_insert; lia). f_equal.
    rewrite drop_insert_lt by lia.
    replace (dn + S i)%nat with (S (dn + i)) by lia.
    rewrite (take_S_r _ (dn + i) x) by (apply list_lookup_insert_eq; lia).
    rewrite take_insert_ge by lia. rewrite <-app_assoc. f_equal.
    change (S n) with (1 + n)%nat. rewrite <-(slice_join (sn + i) 1 n), <-app_assoc.
    replace (sn + i + 1)%nat with (sn + S i)%nat by lia.
    replace (S (dn + i) + n)%nat with (dn + i + (1 + n))%nat by lia.
    f_equal. unfold slice. rewrite (drop_S _ _ _ Hx). done.
Qed.

Lemma fs_memcpy_spec d (dn : nat) s (sn n : nat) :
  (dn + n ≤ length d)%nat → (sn + n ≤ length s)%nat →
  fs_memcpy d (Z.of_nat dn) s (Z.of_nat sn) (Z.of_nat n)
  = Some (take dn d ++ slice sn n s ++ drop (dn + n) d).
Proof.
  intros Hd Hs. unfold fs_memcpy. rewrite Nat2Z.id. change 0 with (Z.of_nat 0).
  rewrite memcpy_loop_spec by lia. rewrite !Nat.add_0_r. done.
Qed.

(** Copying over a whole object. *)
Lemma fs_memcpy_whole d s (sn n : nat) :
  length d = n → (sn + n ≤ length s)%nat →
  fs_memcpy d 0 s (Z.of_nat sn) (Z.of_nat n) = Some (slice sn n s).
Proof.
  intros Hd Hs. change 0 with (Z.of_nat 0). rewrite fs_memcpy_spec by lia.
  rewrite drop_ge by lia. rewrite app_nil_r. done.
Qed.

(** ** C strings

    A [char*] is the memory from the pointer on; the string is what precedes the
    first NUL. *)

Fixpoint cstr (l : list Z) : list Z :=
  match l with
  | [] => []
  | x :: l => if x =? 0 then [] else x :: cstr l
  end.

Definition terminated (l : list Z) : Prop := 0 ∈ l.

#[export] Instance terminated_dec l : Decision (terminated l).
Proof. unfold terminated. apply _. Defined.

(** The memory of a string constant. *)
Definition with_nul (n : list Z) : list Z := n ++ [0].

Definition no_nul (n : list Z) : Prop := Forall (λ x, x ≠ 0) n.

Lemma cstr_no_nul l : no_nul (cstr l).
Proof.
  induction l as [|x l IH]; simpl; [constructor|].
  destruct (Z.eqb_spec x 0); constructor; done.
Qed.

Lemma cstr_app_nul n l : no_nul n → cstr (n ++ 0 :: l) = n.
Proof.
  induction 1 as [|x n Hx Hn IH]; simpl; [done|].
  destruct (Z.eqb_spec x 0); [done|]. f_equal. done.
Qed.

Lemma terminated_with_nul n : terminated (with_nul n).
Proof. unfold terminated, with_nul. set_solver. Qed.

Lemma cstr_with_nul n : no_nul n → cstr (with_nul n) = n.
Proof. apply cstr_app_nul. Qed.

Lemma cstr_length l : terminated l → (length (cstr l) < length l)%nat.
Proof.
  unfold terminated. induction l as [|x l IH]; simpl; [set_solver|].
  destruct (Z.eqb_spec x 0); simpl; [lia|].
  intros [?|?]%elem_of_cons; [congruence|]. specialize (IH H). lia.
Qed.

Lemma cstr_bytes_ok l : bytes_ok l → bytes_ok (cstr l).
Proof.
  induction 1 as [|x l Hx Hl IH]; simpl; [constructor|].
  destruct (Z.eqb_spec x 0); constructor; done.
Qed.

(** [fs_strcmp(a, b)]; shell.c's [strcmp] has the same body. *)
Fixpoint fs_strcmp (a b : list Z) : option Z :=
  match a, b with
  | x :: a', y :: b' =>
      if negb (x =? 0) && negb (y =? 0) && (s8 x =? s8 y) then fs_strcmp a' b'
      else Some (s8 x - s8 y)
  | _, _ => None
  end.

Fixpoint strcpy_loop (n : nat) (i : Z) (dst src : list Z) : option (list Z) :=
  match n with
  | O => aset dst i 0
  | S n =>
      x ← aget src i;
      if x =? 0 then aset dst i 0
      else dst' ← aset dst i x; strcpy_loop n (i + 1) dst' src
  end.

(** [fs_strcpy(dst, src, max)]. *)
Definition fs_strcpy (dst src : list Z) (max : Z) : option (list Z) :=
  strcpy_loop (Z.to_nat (max - 1)) 0 dst src.

(** The comparison decides equality of the strings. *)
Lemma fs_strcmp_spec a : ∀ b,
  bytes_ok a → bytes_ok b → terminated a → terminated b →
  ∃ r, fs_strcmp a b = Some r ∧ (r =? 0) = bool_decide (cstr a = cstr b).
Proof.
  unfold terminated.
  induction a as [|x a IH]; intros [|y b] Ha Hb Hta Htb; try set_solver.
  inversion Ha as [|? ? Hx Ha']; subst. inversion Hb as [|? ? Hy Hb']; subst.
  unfold byte_ok in Hx, Hy. cbn [fs_strcmp cstr].
  assert (s8 x = s8 y ↔ x = y) as Hs.
  { split; [apply s8_inj; lia|congruence]. }
  destruct (Z.eqb_spec x 0) as [->|Hx0]; cbn [negb andb].
  - exists (s8 0 - s8 y). split; [done|].
    destruct (Z.eqb_spec y 0) as [->|Hy0].
    + rewrite bool_decide_true by done. done.
    + rewrite bool_decide_false by done. apply Z.eqb_neq. intros E.
      assert (s8 0 = s8 y) as E' by lia. apply Hs in E'. lia.
  - destruct (Z.eqb_spec y 0) as [->|Hy0]; cbn [negb andb].
    + eexists. split; [done|]. rewrite bool_decide_false by done.
      apply Z.eqb_neq. intros E. assert (s8 x = s8 0) as E' by lia. apply Hs in E'. lia.
    + destruct (Z.eqb_spec (s8 x) (s8 y)) as [E|E].
      * apply Hs in E as ->.
        destruct (IH b) as (r & Hr & Hr0); [done|done|set_solver|set_solver|].
        exists r. split; [done|]. rewrite Hr0. apply bool_decide_ext.
        split; [congruence|]. intros H. congruence.
      * eexists. split; [done|]. rewrite bool_decide_false by (intros H; apply E; congruence).
        apply Z.eqb_neq. lia.
Qed.

Lemma strcpy_loop_spec n : ∀ (i : nat) dst src,
  (i + n < length dst)%nat → terminated (drop i src) →
  ∃ k, (k ≤ n)%nat ∧ take k (cstr (drop i src)) = take n (cstr (drop i src)) ∧
    length (take k (cstr (drop i src))) = k ∧
    strcpy_loop n (Z.of_nat i) dst src
    = Some (take i dst ++ take n (cstr (drop i src)) ++ 0 :: drop (i + k + 1) dst).
Proof.
  assert (∀ (i : nat) (x : Z) l, (i < length l)%nat →
    aset l (Z.of_nat i) x = Some (take i l ++ x :: drop (i + 1) l)) as Hset.
  { intros i x l Hi. rewrite aset_Some by lia. rewrite Nat2Z.id.
    rewrite insert_take_drop by lia. rewrite Nat.add_1_r. done. }
  induction n as [|n IH]; intros i dst src Hi Hterm; cbn [strcpy_loop].
  - exists 0%nat. rewrite Hset by lia. rewrite !take_0, Nat.add_0_r. done.
  - unfold terminated in Hterm.
    destruct (drop i src) as [|x rest] eqn:Hdrop; [set_solver|].
    assert (src !! i = Some x) as Hx.
    { rewrite <-(Nat.add_0_r i), <-lookup_drop, Hdrop. done. }
    assert (drop (S i) src = rest) as Hrest.
    { rewrite (drop_S _ _ _ Hx) in Hdrop. congruence. }
    rewrite aget_eq, Nat2Z.id, Hx by lia. cbn [mbind option_bind cstr].
    destruct (Z.eqb_spec x 0) as [->|Hx0].
    + exists 0%nat. rewrite Hset by lia. rewrite Nat.add_0_r. repeat split. lia.
    + rewrite aset_Some, Nat2Z.id by lia. cbn [mbind option_bind].
      replace (Z.of_nat i + 1) with (Z.of_nat (S i)) by lia.
      destruct (IH (S i) (<[i := x]> dst) src) as (k & Hk & Htk & Hlk & ->).
      { rewrite length_insert. lia. }
      { rewrite Hrest. unfold terminated. set_solver. }
      rewrite Hrest in *. exists (S k). cbn [take]. rewrite Htk.
      split; [lia|]. split; [done|]. split; [rewrite <-Htk; simpl; lia|].
      rewrite drop_insert_lt by lia.
      rewrite (take_S_r _ i x) by (apply list_lookup_insert_eq; lia).
      rewrite take_insert_ge by lia. rewrite <-app_assoc. cbn [app].
      replace (S i + k + 1)%nat with (i + S k + 1)%nat by lia. done.
Qed.

(** [fs_strcpy] stores the first [max - 1] characters and a NUL, and leaves the
    rest of the destination. *)
Lemma fs_strcpy_spec dst src max :
  1 ≤ max → length dst = Z.to_nat max → terminated src →
  bytes_ok dst → bytes_ok src →
  ∃ d, fs_strcpy dst src max = Some d ∧ length d = Z.to_nat max ∧ bytes_ok d ∧
    terminated d ∧ cstr d = take (Z.to_nat (max - 1)) (cstr src).
Proof.
  intros Hmax Hlen Hterm Hd Hs. unfold fs_strcpy. change 0 with (Z.of_nat 0) at 1.
  destruct (strcpy_loop_spec (Z.to_nat (max - 1)) 0 dst src)
    as (k & Hk & Htk & Hlk & ->); [lia|rewrite drop_0; done|].
  rewrite drop_0 in *. rewrite take_0. cbn [app]. eexists. split; [done|].
  rewrite <-Htk. split; [|split; [|split]].
  - rewrite length_app, Hlk. simpl. rewrite length_drop. lia.
  - apply Forall_app. split; [apply Forall_take, cstr_bytes_ok, Hs|].
    constructor; [unfold byte_ok; lia|]. apply Forall_drop, Hd.
  - unfold terminated. set_solver.
  - apply cstr_app_nul. apply Forall_take, cstr_no_nul.
Qed.
