(* ===== verification/Disk.v ===== *)
(** * The block device interface

    What the file system (kernel/fs.c) uses of the disk driver (drivers/ata.c)
    through include/ata.h: reading and writing a 512-byte sector.  [BlockDevice]
    states what the driver promises; Ata.v discharges it for the ATA driver, and
    [ram_disk] below is a second implementation, an ideal disk that the
    witnesses evaluate. *)

From S2P Require Import Prelude Bytes.

Class BlockOps (D : Type) := {
  dev_read : Z → K D (list Z);
  dev_write : Z → list Z → K D unit;
}.

(** The device's state may change on a read (registers, timing); what is
    promised is about the sectors' contents. *)
Class BlockDevice (D : Type) `{BlockOps D} := {
  dev_sectors : Z;
  dev_ok : D → Prop;
  sector : D → Z → list Z;
  sector_ok d k : dev_ok d → 0 ≤ k < dev_sectors →
    length (sector d k) = 512%nat ∧ bytes_ok (sector d k);
  dev_read_ok d k : dev_ok d → 0 ≤ k < dev_sectors →
    wp (dev_read k) d (λ buf d' o, o = [] ∧ buf = sector d k ∧ dev_ok d' ∧
      ∀ j, 0 ≤ j < dev_sectors → sector d' j = sector d j);
  dev_write_ok d k buf : dev_ok d → 0 ≤ k < dev_sectors →
    length buf = 512%nat → bytes_ok buf →
    wp (dev_write k buf) d (λ _ d' o, o = [] ∧ dev_ok d' ∧
      ∀ j, 0 ≤ j < dev_sectors →
        sector d' j = if j =? k then buf else sector d j);
}.

(** Two device states with the same readable contents. *)
Definition same_sectors {D} `{BlockDevice D} (d d' : D) : Prop :=
  (dev_ok d ↔ dev_ok d') ∧ ∀ j, 0 ≤ j < dev_sectors → sector d j = sector d' j.

#[export] Instance same_sectors_equiv {D} `{BlockDevice D} : Equivalence same_sectors.
Proof.
  split.
  - intros d. split; done.
  - intros d d' [H1 H2]. split; [symmetry; done|]. intros j Hj. symmetry. auto.
  - intros d1 d2 d3 [H1 H2] [H3 H4]. split; [etrans; done|].
    intros j Hj. rewrite H2, H4 by done. done.
Qed.

(** ** An ideal disk *)

Section ram_disk.
(** An image of 2048 zeroed sectors, as the Makefile's
    [dd if=/dev/zero of=disk.img bs=512 count=2048] makes, with the sectors
    written since. *)
Definition ram_disk : Type := gmap Z (list Z).

Definition ram_sector (d : ram_disk) (k : Z) : list Z :=
  default (replicate 512 0) ((d : gmap Z (list Z)) !! k).

Definition ram_blank : ram_disk := (∅ : gmap Z (list Z)).

#[export] Instance ram_ops : BlockOps ram_disk := {
  dev_read k := λ d, Done (ram_sector d k) d [];
  dev_write k buf := λ d, Done tt (<[k := buf]> (d : gmap Z (list Z))) [];
}.

Definition ram_ok (d : ram_disk) : Prop :=
  map_Forall (λ _ (s : list Z), length s = 512%nat ∧ bytes_ok s) (d : gmap Z (list Z)).

Lemma ram_sector_ok d k :
  ram_ok d → length (ram_sector d k) = 512%nat ∧ bytes_ok (ram_sector d k).
Proof.
  intros H. unfold ram_sector. destruct ((d : gmap Z (list Z)) !! k) as [s|] eqn:E; simpl.
  - apply (H k s E).
  - split; [reflexivity|]. apply Forall_replicate. unfold byte_ok. lia.
Qed.

#[export] Instance ram_device : BlockDevice ram_disk.
Proof.
  refine {| dev_sectors := 2048; dev_ok := ram_ok; sector := ram_sector |}.
  - intros d k H _. apply ram_sector_ok, H.
  - intros d k H Hk. unfold wp; simpl. auto.
  - intros d k buf H Hk Hlen Hb. unfold wp; simpl. split; [done|]. split.
    + apply map_Forall_insert_2; done.
    + intros j Hj. unfold ram_sector.
      destruct (Z.eqb_spec j k) as [->|Hjk].
      * rewrite lookup_insert_eq. done.
      * rewrite lookup_insert_ne by done. done.
Defined.
End ram_disk.
