(* ===== verification/Pmm.v ===== *)
(** * Physical memory manager: kernel/pmm.c

    A bitmap with one bit per 4 KB page (set = used), first-fit allocation.
    The state is the three static variables of pmm.c; [kernel_end], the address
    the linker script gives, is a parameter. *)

From S2P Require Import Prelude.

Definition PAGE_SIZE : Z := 4096.
Definition MAX_PAGES : Z := 32768.
Definition BITMAP_SIZE : Z := MAX_PAGES / 32.

Record pmm := Pmm {
  bitmap : list Z;
  total_pages : Z;
  used_pages : Z;
}.

(** The zero-initialised static variables. *)
Definition pmm_boot : pmm := Pmm (replicate (Z.to_nat BITMAP_SIZE) 0) 0 0.

Definition set_bitmap (b : list Z) (s : pmm) : pmm := Pmm b (total_pages s) (used_pages s).
Definition set_total (n : Z) (s : pmm) : pmm := Pmm (bitmap s) n (used_pages s).
Definition set_used (n : Z) (s : pmm) : pmm := Pmm (bitmap s) (total_pages s) n.

(** ** Bitmap helpers *)

Definition bitmap_set (page : Z) : K pmm unit :=
  s ← kget;
  w ← klift (aget (bitmap s) (page / 32));
  b ← klift (aset (bitmap s) (page / 32) (Z.lor w (bit32 (page mod 32))));
  kmodify (set_bitmap b).

Definition bitmap_clear (page : Z) : K pmm unit :=
  s ← kget;
  w ← klift (aget (bitmap s) (page / 32));
  b ← klift (aset (bitmap s) (page / 32) (Z.land w (nbit32 (page mod 32))));
  kmodify (set_bitmap b).

Definition bitmap_test (page : Z) : K pmm Z :=
  s ← kget;
  w ← klift (aget (bitmap s) (page / 32));
  mret (Z.land w (bit32 (page mod 32))).

(** ** Initialisation *)

Section init.
(** [&kernel_end], set by linker.ld. *)
Variable kernel_end : Z.

Definition kernel_end_page : Z := u32 (kernel_end + PAGE_SIZE - 1) / PAGE_SIZE.

Definition pmm_init (mem_upper : Z) : K pmm unit :=
  kmodify (set_total (u32 (mem_upper + 1024) / 4));;
  s ← kget;
  (if MAX_PAGES <? total_pages s then kmodify (set_total MAX_PAGES) else mret tt);;
  _ ← kloop (R := unit) 0 (Z.to_nat BITMAP_SIZE) (λ i _,
    s ← kget;
    b ← klift (aset (bitmap s) i 4294967295);
    kmodify (set_bitmap b);;
    mret (inl tt)) tt;
  s ← kget;
  _ ← kloop (R := unit) kernel_end_page
        (Z.to_nat (total_pages s - kernel_end_page)) (λ i _,
    bitmap_clear i;;
    kmodify (λ s, set_used (u32 (used_pages s - 1)) s);;
    mret (inl tt)) tt;
  kmodify (set_used kernel_end_page);;
  s ← kget;
  kprintf "PMM: %d pages total, %d used by kernel, %d free\n"
    [AInt (total_pages s); AInt (used_pages s);
     AInt (u32 (total_pages s - used_pages s))].
End init.

(** ** Allocation *)

(** The physical address of a free page, which becomes used; 0 for none. *)
Definition pmm_alloc : K pmm Z :=
  s ← kget;
  r ← kloop 0 (Z.to_nat (total_pages s)) (λ i _,
    t ← bitmap_test i;
    if t =? 0 then
      bitmap_set i;;
      kmodify (λ s, set_used (u32 (used_pages s + 1)) s);;
      mret (inr (u32 (i * PAGE_SIZE)))
    else mret (inl tt)) tt;
  mret (match r with inl _ => 0 | inr addr => addr end).

Definition pmm_free (addr : Z) : K pmm unit :=
  bitmap_clear (addr / PAGE_SIZE);;
  kmodify (λ s, set_used (u32 (used_pages s - 1)) s).

Definition pmm_free_pages : K pmm Z :=
  s ← kget;
  mret (u32 (total_pages s - used_pages s)).

(** ** What the bitmap says *)

(** The bit of a page; true outside the bitmap. *)
Definition page_used (s : pmm) (p : Z) : bool :=
  match aget (bitmap s) (p / 32) with
  | Some w => Z.testbit w (p mod 32)
  | None => true
  end.

Definition free_set (s : pmm) : gset Z :=
  list_to_set (filter (λ p, page_used s p = false) (seqZ 0 (total_pages s))).

(** The type invariant: the bitmap is an array of [BITMAP_SIZE] 32-bit words
    and the RAM it describes fits in it. *)
Record pmm_wf (s : pmm) : Prop := {
  wf_length : length (bitmap s) = Z.to_nat BITMAP_SIZE;
  wf_words : Forall (λ w, 0 ≤ w < 2 ^ 32) (bitmap s);
  wf_total : 0 ≤ total_pages s ≤ MAX_PAGES;
}.

(** The counter agrees with the bitmap. *)
Definition counted (s : pmm) : Prop :=
  used_pages s = total_pages s - Z.of_nat (size (free_set s)).

Lemma elem_of_free_set s p :
  p ∈ free_set s ↔ 0 ≤ p < total_pages s ∧ page_used s p = false.
Proof.
  unfold free_set. rewrite elem_of_list_to_set, list_elem_of_filter, elem_of_seqZ.
  split; intros [? ?]; (split; [|lia || done]); lia || done.
Qed.

(** ** Lemmas on the bitmap *)

Lemma page_split p : 0 ≤ p < MAX_PAGES → 0 ≤ p / 32 < BITMAP_SIZE ∧ 0 ≤ p mod 32 < 32.
Proof. unfold BITMAP_SIZE, MAX_PAGES. dlia. Qed.

Lemma wf_word s p :
  pmm_wf s → 0 ≤ p < MAX_PAGES →
  ∃ w, aget (bitmap s) (p / 32) = Some w ∧ 0 ≤ w < 2 ^ 32.
Proof.
  intros [Hlen Hw _] Hp. destruct (page_split p Hp) as [Hd _].
  destruct (aget_is_Some (bitmap s) (p / 32)) as [w Hget].
  { rewrite Hlen. lia. }
  exists w. split; [done|]. rewrite aget_eq in Hget by lia.
  eapply Forall_lookup_1 in Hw; [|done]. done.
Qed.

(** Replacing the word of a page by one that differs in the bit of that page. *)
Lemma update_word s p w w' (v : bool) :
  pmm_wf s → 0 ≤ p < MAX_PAGES →
  aget (bitmap s) (p / 32) = Some w → 0 ≤ w' < 2 ^ 32 →
  (∀ j, 0 ≤ j < 32 → Z.testbit w' j = if p mod 32 =? j then v else Z.testbit w j) →
  pmm_wf (set_bitmap (<[Z.to_nat (p / 32) := w']> (bitmap s)) s) ∧
  ∀ j, 0 ≤ j →
    page_used (set_bitmap (<[Z.to_nat (p / 32) := w']> (bitmap s)) s) j
    = if p =? j then v else page_used s j.
Proof.
  intros Hwf Hp Hget Hw' Hbit. destruct (page_split p Hp) as [Hd Hm].
  pose proof Hwf as [Hlen Hws Htot]. split.
  { constructor; simpl; [rewrite length_insert; done| |done].
    apply Forall_insert; done. }
  intros j Hj. unfold page_used; simpl.
  destruct (Z.eqb_spec (p / 32) (j / 32)) as [E|E].
  - rewrite <-E, aget_insert_eq by (rewrite Hlen; lia). rewrite Hget.
    rewrite Hbit by dlia.
    destruct (Z.eqb_spec (p mod 32) (j mod 32)), (Z.eqb_spec p j);
      congruence || (exfalso; dlia).
  - rewrite aget_insert_ne by lia.
    destruct (Z.eqb_spec p j); [congruence|done].
Qed.

(** What a change of one page's bit means for the state. *)
Definition marks (s : pmm) (p : Z) (v : bool) (s' : pmm) : Prop :=
  pmm_wf s' ∧ total_pages s' = total_pages s ∧ used_pages s' = used_pages s ∧
  ∀ j, 0 ≤ j → page_used s' j = if p =? j then v else page_used s j.

Lemma bitmap_set_spec s p :
  pmm_wf s → 0 ≤ p < MAX_PAGES →
  wp (bitmap_set p) s (λ _ s' o, o = [] ∧ marks s p true s').
Proof.
  intros Hwf Hp. destruct (wf_word s p Hwf Hp) as (w & Hget & Hw).
  destruct (page_split p Hp) as [Hd Hm]. unfold bitmap_set. wp_steps.
  eapply wp_lift; [done|]. wp_steps.
  eapply wp_lift; [apply aset_Some; rewrite (wf_length s Hwf); lia|]. wp_steps.
  destruct (update_word s p w (Z.lor w (bit32 (p mod 32))) true) as [H1 H2]; try done.
  { apply lor_range; [done|]. apply u32_range. }
  { intros j Hj. rewrite testbit_lor_bit32 by lia.
    destruct (_ =? _); [apply orb_true_r|apply orb_false_r]. }
Qed.

Lemma bitmap_clear_spec s p :
  pmm_wf s → 0 ≤ p < MAX_PAGES →
  wp (bitmap_clear p) s (λ _ s' o, o = [] ∧ marks s p false s').
Proof.
  intros Hwf Hp. destruct (wf_word s p Hwf Hp) as (w & Hget & Hw).
  destruct (page_split p Hp) as [Hd Hm]. unfold bitmap_clear. wp_steps.
  eapply wp_lift; [done|]. wp_steps.
  eapply wp_lift; [apply aset_Some; rewrite (wf_length s Hwf); lia|]. wp_steps.
  destruct (update_word s p w (Z.land w (nbit32 (p mod 32))) false) as [H1 H2]; try done.
  { apply land_range; [done|]. apply u32_range. }
  { intros j Hj. rewrite testbit_land_nbit32 by lia.
    destruct (_ =? _); simpl; [apply andb_false_r|apply andb_true_r]. }
Qed.

Lemma bitmap_test_spec s p :
  pmm_wf s → 0 ≤ p < MAX_PAGES →
  wp (bitmap_test p) s (λ t s' o,
    o = [] ∧ s' = s ∧ (t =? 0) = negb (page_used s p)).
Proof.
  intros Hwf Hp. destruct (wf_word s p Hwf Hp) as (w & Hget & Hw).
  destruct (page_split p Hp) as [Hd Hm]. unfold bitmap_test. wp_steps.
  eapply wp_lift; [done|]. wp_steps. repeat split; try done.
  rewrite land_bit32_zero by lia. unfold page_used. rewrite Hget. done.
Qed.

(** Two well-formed states with the same pages and counters are equal. *)
Lemma pmm_ext s1 s2 :
  pmm_wf s1 → pmm_wf s2 →
  total_pages s1 = total_pages s2 → used_pages s1 = used_pages s2 →
  (∀ p, 0 ≤ p < MAX_PAGES → page_used s1 p = page_used s2 p) → s1 = s2.
Proof.
  intros H1 H2 Ht Hu Hp. destruct s1 as [b1 t1 u1], s2 as [b2 t2 u2]; simpl in *. subst.
  f_equal. pose proof (wf_length _ H1) as L1. pose proof (wf_length _ H2) as L2.
  simpl in L1, L2. apply aget_ext; [congruence|]. intros i Hi. rewrite L1 in Hi.
  destruct (aget_is_Some b1 i) as [w1 E1]; [rewrite L1; lia|].
  destruct (aget_is_Some b2 i) as [w2 E2]; [rewrite L2; lia|].
  rewrite E1, E2. f_equal.
  destruct H1 as [_ W1 _], H2 as [_ W2 _]; simpl in W1, W2.
  rewrite aget_eq in E1, E2 by lia.
  assert (0 ≤ w1 < 2 ^ 32) by (eapply Forall_lookup_1 in W1; [|done]; done).
  assert (0 ≤ w2 < 2 ^ 32) by (eapply Forall_lookup_1 in W2; [|done]; done).
  apply Z.bits_inj'. intros j Hj.
  destruct (Z.leb_spec 32 j) as [Hj'|Hj'].
  { rewrite !testbit_high by lia. done. }
  specialize (Hp (32 * i + j)). unfold page_used in Hp; simpl in Hp.
  replace ((32 * i + j) / 32) with i in Hp by dlia.
  replace ((32 * i + j) mod 32) with j in Hp by dlia.
  rewrite !aget_eq, E1, E2 in Hp by lia. apply Hp.
  unfold MAX_PAGES, BITMAP_SIZE, MAX_PAGES in *. dlia.
Qed.

Lemma free_set_mark_used s p s' :
  marks s p true s' → free_set s' = free_set s ∖ {[p]}.
Proof.
  intros (_ & Ht & _ & Hj). apply set_eq. intros j.
  rewrite elem_of_difference, elem_of_singleton, !elem_of_free_set, Ht.
  destruct (Z.leb_spec 0 j); [|lia]. rewrite Hj by lia.
  destruct (Z.eqb_spec p j); naive_solver.
Qed.

Lemma free_set_mark_free s p s' :
  0 ≤ p < total_pages s → marks s p false s' → free_set s' = {[p]} ∪ free_set s.
Proof.
  intros Hp (_ & Ht & _ & Hj). apply set_eq. intros j.
  rewrite elem_of_union, elem_of_singleton, !elem_of_free_set, Ht.
  destruct (Z.leb_spec 0 j); [|lia]. rewrite Hj by lia.
  destruct (Z.eqb_spec p j); naive_solver.
Qed.

Lemma free_set_size_le s : 0 ≤ total_pages s → Z.of_nat (size (free_set s)) ≤ total_pages s.
Proof.
  intros Ht.
  assert (size (free_set s) ≤ size (list_to_set (seqZ 0 (total_pages s)) : gset Z))%nat as H.
  { apply subseteq_size. intros p. rewrite elem_of_free_set, elem_of_list_to_set, elem_of_seqZ. lia. }
  rewrite size_list_to_set, length_seqZ in H by apply NoDup_seqZ. lia.
Qed.

(** ** Allocation *)

(** What a first-fit page pool promises: the lowest free page, or 0. *)
Inductive pool_alloc (F : gset Z) : Z → gset Z → Prop :=
  | pool_take p :
      p ∈ F → (∀ q, q ∈ F → p ≤ q) → pool_alloc F (p * PAGE_SIZE) (F ∖ {[p]})
  | pool_empty : F = ∅ → pool_alloc F 0 F.

(** The state and the result of [pmm_alloc], page by page. *)
Lemma pmm_alloc_spec s :
  pmm_wf s → counted s →
  wp pmm_alloc s (λ a s' o, o = [] ∧
    ((∃ p, p ∈ free_set s ∧ (∀ q, q ∈ free_set s → p ≤ q) ∧ a = p * PAGE_SIZE ∧
           marks (set_used (used_pages s + 1) s) p true s' ∧ counted s') ∨
     (free_set s = ∅ ∧ a = 0 ∧ s' = s))).
Proof.
  intros Hwf Hc. pose proof (wf_total s Hwf) as Ht. unfold MAX_PAGES in Ht.
  unfold pmm_alloc. wp_steps.
  apply wp_kloop with (I := λ j _ s' o,
    s' = s ∧ o = [] ∧ ∀ q, 0 ≤ q < j → page_used s q = true).
  - repeat split. lia.
  - intros j [] s0 o Hj (-> & -> & Hbelow). wp_steps.
    eapply wp_mono; [apply bitmap_test_spec; [done|unfold MAX_PAGES; lia]|].
    intros t s1 o1 (-> & -> & ->). destruct (page_used s j) eqn:Hu; simpl.
    { wp_steps. repeat split. intros q Hq.
      destruct (Z.eqb_spec q j) as [->|]; [done|apply Hbelow; lia]. }
    wp_steps. eapply wp_mono; [apply bitmap_set_spec; [done|unfold MAX_PAGES; lia]|].
    intros _ s2 o2 (-> & Hm). wp_steps. split; [done|]. left. exists j.
    assert (j ∈ free_set s) as Hin by (apply elem_of_free_set; lia || (split; [lia|done])).
    pose proof (free_set_size_le s ltac:(lia)) as Hsz.
    assert (size ({[j]} : gset Z) ≤ size (free_set s))%nat as Hpos
      by (apply subseteq_size; set_solver). rewrite size_singleton in Hpos.
    pose proof Hm as (Hwf' & Ht' & Hu' & Hp').
    assert (0 ≤ used_pages s2 + 1 ≤ 32768).
    { rewrite Hu', Hc. lia. }
    rewrite !u32_small by (unfold PAGE_SIZE; lia).
    assert (marks (set_used (used_pages s + 1) s) j true (set_used (used_pages s2 + 1) s2)) as Hm2.
    { split; [|simpl; repeat split; congruence || done].
      destruct Hwf'. constructor; done. }
    split; [done|]. split.
    { intros q Hq. apply elem_of_free_set in Hq as [Hq1 Hq2].
      destruct (Z.leb_spec j q); [done|]. rewrite Hbelow in Hq2 by lia. done. }
    split; [done|]. split; [done|]. unfold counted; simpl.
    rewrite (free_set_mark_used _ _ _ Hm2).
    change (free_set (set_used (used_pages s + 1) s)) with (free_set s).
    rewrite size_difference by set_solver. rewrite size_singleton, Hu', Ht', Hc. lia.
  - intros [] s0 o (-> & -> & Hall). wp_steps. split; [done|]. right.
    split; [|done]. apply set_eq. intros q. rewrite elem_of_free_set.
    split; [|set_solver]. intros [Hq1 Hq2]. rewrite Hall in Hq2 by lia. done.
Qed.

(** C32.  [pmm_alloc] refines the first-fit page pool: it hands out the lowest free
    page and marks exactly that page used, or returns 0 and changes nothing
    when no page is free; the invariant and the counter are kept. *)
Theorem pmm_alloc_refines s :
  pmm_wf s → counted s →
  ∃ a s', pmm_alloc s = Done a s' [] ∧
    pool_alloc (free_set s) a (free_set s') ∧ pmm_wf s' ∧ counted s'.
Proof.
  intros Hwf Hc.
  destruct (wp_done _ _ _ (pmm_alloc_spec s Hwf Hc)) as (a & s' & o & E & -> & H).
  exists a, s'. split; [done|].
  destruct H as [(p & Hp & Hmin & -> & Hm & Hc')|(He & -> & ->)].
  - rewrite (free_set_mark_used _ _ _ Hm). split; [by constructor|].
    split; [apply Hm|done].
  - split; [by constructor|done].
Qed.

Lemma pmm_free_spec s p :
  pmm_wf s → 0 ≤ p < total_pages s → 1 ≤ used_pages s < 2 ^ 32 →
  wp (pmm_free (p * PAGE_SIZE)) s (λ _ s' o, o = [] ∧
    marks (set_used (used_pages s - 1) s) p false s').
Proof.
  intros Hwf Hp Hu. pose proof (wf_total s Hwf) as Ht.
  unfold pmm_free. replace (p * PAGE_SIZE / PAGE_SIZE) with p by (unfold PAGE_SIZE; dlia).
  wp_steps. eapply wp_mono; [apply bitmap_clear_spec; [done|lia]|].
  intros _ s' o (-> & Hwf' & Ht' & Hu' & Hj). wp_steps. split; [done|].
  rewrite Hu', u32_small by lia. split; [|simpl; repeat split; done].
  destruct Hwf'. constructor; done.
Qed.

Lemma free_set_room s p :
  0 ≤ p < total_pages s → p ∉ free_set s →
  Z.of_nat (size (free_set s)) + 1 ≤ total_pages s.
Proof.
  intros Hp Hn.
  assert (size ({[p]} ∪ free_set s)
          ≤ size (list_to_set (seqZ 0 (total_pages s)) : gset Z))%nat as H.
  { apply subseteq_size. intros q.
    rewrite elem_of_union, elem_of_singleton, elem_of_free_set,
      elem_of_list_to_set, elem_of_seqZ. lia. }
  rewrite size_list_to_set, length_seqZ in H by apply NoDup_seqZ.
  rewrite size_union, size_singleton in H by set_solver. lia.
Qed.

(** Freeing an allocated page puts exactly that page back in the pool, and the
    number [pmm_free_pages] reports is then the number of free pages. *)
Theorem pmm_free_refines s p :
  pmm_wf s → counted s → 0 ≤ p < total_pages s → p ∉ free_set s →
  ∃ s', pmm_free (p * PAGE_SIZE) s = Done tt s' [] ∧
    free_set s' = {[p]} ∪ free_set s ∧ pmm_wf s' ∧ counted s' ∧
    pmm_free_pages s' = Done (Z.of_nat (size (free_set s'))) s' [].
Proof.
  intros Hwf Hc Hp Hn. pose proof (wf_total s Hwf) as Ht. unfold MAX_PAGES in Ht.
  pose proof (free_set_room s p Hp Hn) as Hroom.
  destruct (wp_done _ _ _ (pmm_free_spec s p Hwf Hp ltac:(rewrite Hc; lia)))
    as ([] & s' & o & E & -> & Hm).
  assert (free_set s' = {[p]} ∪ free_set s) as HF.
  { rewrite (free_set_mark_free (set_used (used_pages s - 1) s) p s'); done. }
  pose proof Hm as (Hwf' & Ht' & Hu' & _); simpl in Ht', Hu'.
  assert (counted s') as Hc'.
  { unfold counted. rewrite HF, Hu', Ht', Hc.
    rewrite size_union, size_singleton by set_solver. lia. }
  exists s'. split; [done|]. split; [done|]. split; [done|]. split; [done|].
  unfold pmm_free_pages, kget, mbind, K_bind, mret, K_ret. simpl. f_equal.
  rewrite Hc', u32_small; [lia|]. rewrite Ht'.
  pose proof (free_set_size_le s' ltac:(lia)). lia.
Qed.

(** Allocating a page and freeing it restores the allocator's state exactly. *)
Theorem pmm_alloc_free_roundtrip s a s' :
  pmm_wf s → counted s → pmm_alloc s = Done a s' [] → a ≠ 0 →
  pmm_free a s' = Done tt s [].
Proof.
  intros Hwf Hc E Ha. pose proof (wf_total s Hwf) as Ht. unfold MAX_PAGES in Ht.
  pose proof (pmm_alloc_spec s Hwf Hc) as H. unfold wp in H. rewrite E in H.
  destruct H as [_ [(p & Hp & _ & -> & Hm & Hc')|(_ & -> & _)]]; [|done].
  pose proof Hm as (Hwf' & Ht' & Hu' & Hj); simpl in Ht', Hu'.
  apply elem_of_free_set in Hp as [Hp Hfree].
  destruct (wp_done _ _ _ (pmm_free_spec s' p Hwf' ltac:(lia)
    ltac:(pose proof (free_set_size_le s ltac:(lia)); rewrite Hu', Hc; lia)))
    as ([] & s2 & o & E2 & -> & Hm2).
  rewrite E2. f_equal. destruct Hm2 as (Hwf2 & Ht2 & Hu2 & Hj2); simpl in Ht2, Hu2.
  apply pmm_ext; [done|done|congruence|lia|].
  intros q Hq. rewrite Hj2 by lia.
  change (page_used (set_used (used_pages s' - 1) s') q) with (page_used s' q).
  rewrite Hj by lia. destruct (Z.eqb_spec p q) as [->|]; done.
Qed.

(** ** Initialisation *)

Lemma page_used_all_set s p :
  bitmap s = replicate (Z.to_nat BITMAP_SIZE) 4294967295 → page_used s p = true.
Proof.
  intros Hb. unfold page_used. destruct (aget (bitmap s) (p / 32)) as [w|] eqn:E; [|done].
  pose proof (aget_Some_range _ _ _ E) as Hr.
  rewrite Hb, length_replicate in Hr.
  rewrite Hb, aget_replicate in E by lia. inversion E. subst.
  change 4294967295 with (Z.ones 32). apply Z.ones_spec_low.
  apply Z.mod_pos_bound. lia.
Qed.

(** The first loop: every word becomes all ones. *)
Lemma fill_ones (b : list Z) (n : nat) :
  length b = n →
  ∀ i, 0 ≤ i < Z.of_nat n →
  (∀ j, 0 ≤ j < i → aget b j = Some 4294967295) →
  ∀ j, 0 ≤ j < i + 1 → aget (<[Z.to_nat i := 4294967295]> b) j = Some 4294967295.
Proof.
  intros Hlen i Hi Hb j Hj. destruct (Z.eqb_spec i j) as [->|].
  - apply aget_insert_eq. lia.
  - rewrite aget_insert_ne by lia. apply Hb. lia.
Qed.

(** The pages of RAM [pmm_init] manages. *)
Definition ram_pages (mem_upper : Z) : Z := Z.min (u32 (mem_upper + 1024) / 4) MAX_PAGES.

Lemma ram_pages_range mem_upper : 0 ≤ ram_pages mem_upper ≤ MAX_PAGES.
Proof. unfold ram_pages, MAX_PAGES. pose proof (u32_range (mem_upper + 1024)). dlia. Qed.

Lemma kernel_end_page_range kernel_end : 0 ≤ kernel_end_page kernel_end < 1048576.
Proof.
  unfold kernel_end_page, PAGE_SIZE. pose proof (u32_range (kernel_end + 4096 - 1)). dlia.
Qed.

Lemma set_all_used_loop s Q :
  length (bitmap s) = Z.to_nat BITMAP_SIZE →
  Q (inl tt) (set_bitmap (replicate (Z.to_nat BITMAP_SIZE) 4294967295) s) [] →
  wp (kloop (R := unit) 0 (Z.to_nat BITMAP_SIZE) (λ i _,
      s ← kget;
      b ← klift (aset (bitmap s) i 4294967295);
      kmodify (set_bitmap b);;
      mret (inl tt)) tt) s Q.
Proof.
  intros Hlen HQ.
  apply wp_kloop with (I := λ i _ s' o, o = [] ∧
    s' = set_bitmap (bitmap s') s ∧ length (bitmap s') = Z.to_nat BITMAP_SIZE ∧
    ∀ j, 0 ≤ j < i → aget (bitmap s') j = Some 4294967295).
  - destruct s; simpl. repeat split; [done|lia].
  - intros i [] s1 o Hi (-> & Hs & Hl & Hb). wp_steps.
    eapply wp_lift; [apply aset_Some; lia|]. wp_steps. split; [done|].
    rewrite Hs; simpl. split; [done|]. rewrite length_insert. split; [done|].
    apply (fill_ones _ _ Hl); [lia|done].
  - intros [] s1 o (-> & -> & Hl & Hb).
    replace (set_bitmap (bitmap s1) s)
      with (set_bitmap (replicate (Z.to_nat BITMAP_SIZE) 4294967295) s); [done|].
    f_equal. apply aget_ext; rewrite length_replicate; [done|].
    intros j Hj. rewrite aget_replicate by lia. symmetry. apply Hb. lia.
Qed.

Lemma clear_pages_loop s lo hi Q :
  pmm_wf s → 0 ≤ lo → hi ≤ MAX_PAGES →
  (∀ p, 0 ≤ p → page_used s p = true) →
  (∀ s', pmm_wf s' → total_pages s' = total_pages s →
     (∀ p, 0 ≤ p → page_used s' p = negb ((lo <=? p) && (p <? hi))) →
     Q (inl tt) s' []) →
  wp (kloop (R := unit) lo (Z.to_nat (hi - lo)) (λ i _,
      bitmap_clear i;;
      kmodify (λ s, set_used (u32 (used_pages s - 1)) s);;
      mret (inl tt)) tt) s Q.
Proof.
  intros Hwf Hlo Hhi Hused HQ.
  apply wp_kloop with (I := λ i _ s' o, o = [] ∧ pmm_wf s' ∧
    total_pages s' = total_pages s ∧
    ∀ p, 0 ≤ p → page_used s' p = negb ((lo <=? p) && (p <? i))).
  - split; [done|]. split; [done|]. split; [done|]. intros p Hp. rewrite Hused by lia.
    destruct (Z.leb_spec lo p), (Z.ltb_spec p lo); done || lia.
  - intros i [] s1 o Hi (-> & Hwf1 & Ht1 & Hu1). wp_steps.
    eapply wp_mono; [apply bitmap_clear_spec; [done|lia]|].
    intros _ s2 o2 (-> & Hwf2 & Ht2 & _ & Hu2). wp_steps. split; [done|].
    split; [destruct Hwf2; constructor; done|]. split; [simpl; congruence|].
    intros p Hp. change (page_used s2 p = negb ((lo <=? p) && (p <? i + 1))).
    rewrite Hu2, Hu1 by lia.
    destruct (Z.eqb_spec i p), (Z.leb_spec lo p), (Z.ltb_spec p i), (Z.ltb_spec p (i + 1));
      done || lia.
  - intros [] s1 o (-> & Hwf1 & Ht1 & Hu1). apply HQ; [done|done|].
    intros p Hp. rewrite Hu1 by lia.
    destruct (Z.leb_spec lo p), (Z.ltb_spec p (lo + Z.of_nat (Z.to_nat (hi - lo)))),
      (Z.ltb_spec p hi); done || lia.
Qed.

Lemma pmm_init_ok kernel_end mem_upper s :
  length (bitmap s) = Z.to_nat BITMAP_SIZE →
  kernel_end_page kernel_end ≤ ram_pages mem_upper →
  wp (pmm_init kernel_end mem_upper) s (λ _ s' o,
    o = [EvPrintf "PMM: %d pages total, %d used by kernel, %d free\n"
          [AInt (ram_pages mem_upper); AInt (kernel_end_page kernel_end);
           AInt (ram_pages mem_upper - kernel_end_page kernel_end)]] ∧
    pmm_wf s' ∧ counted s' ∧ total_pages s' = ram_pages mem_upper ∧
    ∀ p, p ∈ free_set s' ↔ kernel_end_page kernel_end ≤ p < ram_pages mem_upper).
Proof.
  intros Hlen Hkep. set (kep := kernel_end_page kernel_end) in *.
  set (ram := ram_pages mem_upper) in *.
  pose proof (kernel_end_page_range kernel_end) as Hk. fold kep in Hk.
  pose proof (ram_pages_range mem_upper) as Hr. fold ram in Hr.
  unfold pmm_init. wp_steps. simpl.
  set (s1 := set_total (u32 (mem_upper + 1024) / 4) s).
  eapply wp_mono with (P := λ _ s2 o, o = [] ∧ bitmap s2 = bitmap s ∧ total_pages s2 = ram).
  { unfold ram, ram_pages.
    destruct (Z.ltb_spec MAX_PAGES (u32 (mem_upper + 1024) / 4));
      wp_steps; simpl; repeat split; lia. }
  intros _ s2 o2 (-> & Hb2 & Ht2).
  wp_steps. apply set_all_used_loop; [congruence|]. wp_steps. simpl. rewrite Ht2.
  apply clear_pages_loop; fold kep; [|lia|lia| |].
  { constructor; cbn [bitmap total_pages set_bitmap];
      [apply length_replicate| |lia]. apply Forall_replicate. lia. }
  { intros p Hp. apply page_used_all_set. done. }
  intros s3 Hwf3 Ht3 Hu3. simpl in Ht3. wp_steps. simpl.
  assert (∀ p, p ∈ free_set (set_used kep s3) ↔ kep ≤ p < ram) as HF.
  { intros p. rewrite elem_of_free_set. simpl.
    change (page_used (set_used kep s3) p) with (page_used s3 p).
    rewrite Ht3, Ht2. split.
    - intros [Hp Hf]. rewrite Hu3 in Hf by lia.
      destruct (Z.leb_spec kep p), (Z.ltb_spec p ram); done || lia.
    - intros Hp. split; [lia|]. rewrite Hu3 by lia.
      destruct (Z.leb_spec kep p), (Z.ltb_spec p ram); done || lia. }
  split.
  { rewrite Ht3, Ht2. fold kep. rewrite u32_small by (unfold MAX_PAGES in *; lia). done. }
  split; [destruct Hwf3; constructor; done|]. split; [|split; [simpl; congruence|done]].
  unfold counted. fold kep.
  assert (free_set (set_used kep s3) = list_to_set (seqZ kep (ram - kep))) as ->.
  { apply set_eq. intros p. rewrite HF, elem_of_list_to_set, elem_of_seqZ. lia. }
  rewrite size_list_to_set, length_seqZ by apply NoDup_seqZ. simpl. lia.
Qed.

(** After [pmm_init] the free pages are exactly those between the kernel's end
    and the end of RAM, the invariant and the counter hold, and the numbers it
    prints are those of the bitmap. *)
Theorem pmm_init_spec kernel_end mem_upper s :
  length (bitmap s) = Z.to_nat BITMAP_SIZE →
  kernel_end_page kernel_end ≤ ram_pages mem_upper →
  ∃ s', pmm_init kernel_end mem_upper s
      = Done tt s' [EvPrintf "PMM: %d pages total, %d used by kernel, %d free\n"
          [AInt (ram_pages mem_upper); AInt (kernel_end_page kernel_end);
           AInt (ram_pages mem_upper - kernel_end_page kernel_end)]] ∧
    pmm_wf s' ∧ counted s' ∧ total_pages s' = ram_pages mem_upper ∧
    ∀ p, p ∈ free_set s' ↔ kernel_end_page kernel_end ≤ p < ram_pages mem_upper.
Proof.
  intros Hlen Hkep.
  destruct (wp_done _ _ _ (pmm_init_ok kernel_end mem_upper s Hlen Hkep))
    as ([] & s' & o & E & -> & H). by exists s'.
Qed.

(** ** Clients

    The kernel's use of the allocator as a step relation: the state and the set
    of pages handed out and not yet given back. *)

Inductive client_step : pmm * gset Z → pmm * gset Z → Prop :=
  | client_alloc s owned a s' :
      pmm_alloc s = Done a s' [] → a ≠ 0 →
      client_step (s, owned) (s', {[a / PAGE_SIZE]} ∪ owned)
  | client_alloc_fail s owned s' :
      pmm_alloc s = Done 0 s' [] → client_step (s, owned) (s', owned)
  | client_free s owned p s' :
      p ∈ owned → pmm_free (p * PAGE_SIZE) s = Done tt s' [] →
      client_step (s, owned) (s', owned ∖ {[p]}).

(** No page is both owned and free, and owned pages are pages of RAM. *)
Record client_ok (c : pmm * gset Z) : Prop := {
  ok_wf : pmm_wf c.1;
  ok_counted : counted c.1;
  ok_zero : (0 ∉ free_set c.1) ∧ (0 ∉ c.2);
  ok_disjoint : c.2 ## free_set c.1;
  ok_ram p : p ∈ c.2 → 0 ≤ p < total_pages c.1;
}.

Lemma client_step_ok c c' : client_ok c → client_step c c' → client_ok c'.
Proof.
  intros [Hwf Hc Hz Hd Hram] Hstep. destruct Hstep as [s owned a s' E Ha|s owned s' E|s owned p s' Hp E];
    simpl in *.
  - pose proof (pmm_alloc_spec s Hwf Hc) as H. unfold wp in H. rewrite E in H.
    destruct H as [_ [(p & Hp & _ & -> & Hm & Hc')|(_ & -> & _)]]; [|done].
    replace (p * PAGE_SIZE / PAGE_SIZE) with p by (unfold PAGE_SIZE; dlia).
    pose proof (free_set_mark_used _ _ _ Hm) as HF.
    change (free_set (set_used (used_pages s + 1) s)) with (free_set s) in HF.
    destruct Hm as (Hwf' & Ht' & _ & _). simpl in Ht'.
    apply elem_of_free_set in Hp as Hp'.
    constructor; simpl; rewrite ?HF; [done|done|set_solver|set_solver|].
    intros q Hq. rewrite Ht'.
    apply elem_of_union in Hq as [->%elem_of_singleton|Hq]; [lia|auto].
  - pose proof (pmm_alloc_spec s Hwf Hc) as H. unfold wp in H. rewrite E in H.
    destruct H as [_ [(p & Hp & _ & Ha & _)|(_ & _ & ->)]].
    + exfalso. apply (proj1 Hz). replace 0 with p; [done|]. unfold PAGE_SIZE in Ha. lia.
    + constructor; done.
  - assert (p ∉ free_set s) as Hn by set_solver.
    destruct (pmm_free_refines s p Hwf Hc (Hram p Hp) Hn) as (s2 & E2 & HF & Hwf2 & Hc2 & _).
    rewrite E in E2. inversion E2. subst s2.
    assert (total_pages s' = total_pages s) as Ht.
    { pose proof (pmm_free_spec s p Hwf (Hram p Hp)) as H. unfold wp in H. rewrite E in H.
      destruct H as [_ (_ & Ht & _)]; [|done].
      pose proof (free_set_room s p (Hram p Hp) Hn).
      pose proof (wf_total s Hwf). unfold MAX_PAGES in *. rewrite Hc. lia. }
    constructor; simpl; rewrite ?HF; [done|done| |set_solver|].
    + set_solver.
    + intros q Hq. rewrite Ht. apply Hram. set_solver.
Qed.

(** C16.  Whatever sequence of allocations and frees of its own pages a client makes
    from an initialised allocator, a page handed out is never a page it already
    owns, and never page 0. *)
Theorem pmm_no_double_allocation c c' a s' :
  client_ok c → rtc client_step c c' →
  pmm_alloc c'.1 = Done a s' [] → a ≠ 0 →
  (a / PAGE_SIZE ∉ c'.2) ∧ a mod PAGE_SIZE = 0 ∧ 0 < a / PAGE_SIZE < total_pages c'.1.
Proof.
  intros Hok Hrun E Ha.
  assert (client_ok c') as Hok'.
  { clear E. induction Hrun; eauto using client_step_ok. }
  destruct Hok' as [Hwf Hc Hz Hd Hram].
  pose proof (pmm_alloc_spec _ Hwf Hc) as H. unfold wp in H. rewrite E in H.
  destruct H as [_ [(p & Hp & _ & -> & _)|(_ & -> & _)]]; [|done].
  replace (p * PAGE_SIZE / PAGE_SIZE) with p by (unfold PAGE_SIZE; dlia).
  apply elem_of_free_set in Hp as Hp'. split; [set_solver|].
  split; [unfold PAGE_SIZE; dlia|].
  destruct (Z.eqb_spec p 0) as [->|]; [set_solver|lia].
Qed.

(** ** Freeing a free page *)

(** pmm.c does not check that the page is allocated: the bitmap is unchanged
    but the counter drops, so [pmm_free_pages] reports a page too many. *)
Theorem pmm_double_free_miscounts s p :
  pmm_wf s → counted s → p ∈ free_set s → 1 ≤ used_pages s →
  ∃ s', pmm_free (p * PAGE_SIZE) s = Done tt s' [] ∧ free_set s' = free_set s ∧
    pmm_free_pages s' = Done (Z.of_nat (size (free_set s')) + 1) s' [].
Proof.
  intros Hwf Hc Hp Hu. pose proof (wf_total s Hwf) as Ht.
  unfold MAX_PAGES, counted in *.
  apply elem_of_free_set in Hp as Hp'.
  pose proof (free_set_size_le s ltac:(lia)) as Hsz.
  destruct (wp_done _ _ _ (pmm_free_spec s p Hwf ltac:(lia) ltac:(lia)))
    as ([] & s' & o & E & -> & Hm).
  assert (free_set s' = free_set s) as HF.
  { rewrite (free_set_mark_free (set_used (used_pages s - 1) s) p s'); [|simpl; lia|done].
    change (free_set (set_used (used_pages s - 1) s)) with (free_set s). set_solver. }
  exists s'. split; [done|]. split; [done|].
  destruct Hm as (_ & Ht' & Hu' & _). simpl in Ht', Hu'.
  unfold pmm_free_pages, kget, mbind, K_bind, mret, K_ret. simpl. f_equal.
  rewrite HF, Ht', Hu', Hc, u32_small by lia. lia.
Qed.

(** ** Witnesses *)

(** A machine with 8 pages of RAM of which 4 to 7 are free. *)
Definition pmm_demo : pmm :=
  Pmm (<[0%nat := 4294967055]> (replicate (Z.to_nat BITMAP_SIZE) 4294967295)) 8 4.

Lemma pmm_demo_wf : pmm_wf pmm_demo.
Proof.
  constructor; [vm_compute; done| |vm_compute; done].
  apply (bool_decide_unpack _). vm_compute. done.
Qed.

Lemma pmm_demo_counted : counted pmm_demo.
Proof. vm_compute. done. Qed.

Lemma pmm_alloc_refines_witness :
  ∃ a s', pmm_alloc pmm_demo = Done a s' [] ∧
    pool_alloc (free_set pmm_demo) a (free_set s') ∧ pmm_wf s' ∧ counted s'.
Proof. apply (pmm_alloc_refines pmm_demo pmm_demo_wf pmm_demo_counted). Defined.

Lemma pmm_free_refines_witness :
  ∃ s', pmm_free (2 * PAGE_SIZE) pmm_demo = Done tt s' [] ∧
    free_set s' = {[2]} ∪ free_set pmm_demo ∧ pmm_wf s' ∧ counted s' ∧
    pmm_free_pages s' = Done (Z.of_nat (size (free_set s'))) s' [].
Proof.
  apply (pmm_free_refines pmm_demo 2 pmm_demo_wf pmm_demo_counted).
  - simpl. lia.
  - apply (bool_decide_unpack _). vm_compute. done.
Defined.

Lemma pmm_alloc_free_roundtrip_witness :
  ∃ s', pmm_alloc pmm_demo = Done 16384 s' [] ∧ pmm_free 16384 s' = Done tt pmm_demo [].
Proof.
  eexists. split; [vm_compute; reflexivity|].
  apply (pmm_alloc_free_roundtrip pmm_demo 16384 _ pmm_demo_wf pmm_demo_counted);
    [vm_compute; reflexivity|lia].
Defined.

(** The boot of a 32 MB machine with a kernel that ends at 0x20F000. *)
Lemma pmm_init_spec_witness :
  ∃ s', pmm_init 2158592 31744 pmm_boot
      = Done tt s' [EvPrintf "PMM: %d pages total, %d used by kernel, %d free\n"
          [AInt (ram_pages 31744); AInt (kernel_end_page 2158592);
           AInt (ram_pages 31744 - kernel_end_page 2158592)]] ∧
    pmm_wf s' ∧ counted s' ∧ total_pages s' = ram_pages 31744 ∧
    ∀ p, p ∈ free_set s' ↔ kernel_end_page 2158592 ≤ p < ram_pages 31744.
Proof.
  apply (pmm_init_spec 2158592 31744 pmm_boot); [apply length_replicate|].
  vm_compute. done.
Defined.

Definition pmm_demo1 : pmm := final pmm_demo (pmm_alloc pmm_demo).

Lemma pmm_no_double_allocation_witness :
  pmm_alloc pmm_demo = Done 16384 pmm_demo1 [] ∧
  (20480 / PAGE_SIZE ∉ ({[16384 / PAGE_SIZE]} ∪ ∅ : gset Z)) ∧
  20480 mod PAGE_SIZE = 0 ∧ 0 < 20480 / PAGE_SIZE < total_pages pmm_demo1.
Proof.
  assert (pmm_alloc pmm_demo = Done 16384 pmm_demo1 []) as E by (vm_compute; reflexivity).
  split; [done|].
  pose proof (pmm_no_double_allocation (pmm_demo, ∅)
    (pmm_demo1, ({[16384 / PAGE_SIZE]} ∪ ∅ : gset Z)) 20480
    (final pmm_demo (pmm_alloc pmm_demo1))) as H. simpl in H. apply H; clear H.
  - constructor; simpl; [apply pmm_demo_wf|apply pmm_demo_counted| |set_solver|set_solver].
    split; [|set_solver]. apply (bool_decide_unpack _). vm_compute. done.
  - apply rtc_once. apply (client_alloc pmm_demo ∅ 16384); [done|lia].
  - vm_compute. reflexivity.
  - lia.
Defined.

Lemma pmm_double_free_miscounts_witness :
  ∃ s', pmm_free (5 * PAGE_SIZE) pmm_demo = Done tt s' [] ∧
    free_set s' = free_set pmm_demo ∧
    pmm_free_pages s' = Done (Z.of_nat (size (free_set s')) + 1) s' [].
Proof.
  apply (pmm_double_free_miscounts pmm_demo 5 pmm_demo_wf pmm_demo_counted).
  - apply (bool_decide_unpack _). vm_compute. done.
  - simpl. lia.
Defined.
