(* ===== verification/Heap.v ===== *)
(** * The kernel heap: kernel/heap.c and include/heap.h

    The block headers as a store from addresses to [block_t]; memory that clients
    own is not in it, so clients are assumed not to write over headers.  The
    detailed operations follow the pointers; the abstract heap is the list of the
    block sizes and flags in address order ([heap_rep]), on which allocation is
    first fit and freeing is release and merge. *)

From S2P Require Import Prelude.

Definition HEAP_START : Z := 0x01000000.
Definition HEAP_SIZE : Z := 0x00100000.

Record block_t := Block {
  b_size : Z;
  b_free : Z;
  b_next : Z;
}.

(** [sizeof(block_t)] on i386. *)
Definition BLOCK_SIZE : Z := 12.

Record heap := Heap {
  heap_head : Z;
  blocks : gmap Z block_t;
}.

Definition set_free (f : Z) (b : block_t) : block_t := Block (b_size b) f (b_next b).
Definition set_size (n : Z) (b : block_t) : block_t := Block n (b_free b) (b_next b).
Definition set_next (p : Z) (b : block_t) : block_t := Block (b_size b) (b_free b) p.

(** Reading and writing a header through a pointer. *)
Definition load (p : Z) : K heap block_t := h ← kget; klift (blocks h !! p).
Definition store (p : Z) (b : block_t) : K heap unit :=
  kmodify (λ h, Heap (heap_head h) (<[p := b]> (blocks h))).

(** [block->f = ...] for a block that exists. *)
Definition update (p : Z) (f : block_t → block_t) : K heap unit :=
  b ← load p; store p (f b).

(** The loops follow [next] pointers; a list has no more blocks than the store. *)
Definition coalesce_body (curr : Z) : K heap (Z + unit) :=
  if curr =? 0 then mret (inr tt)
  else
    b ← load curr;
    if b_next b =? 0 then mret (inr tt)
    else if b_free b =? 0 then mret (inl (b_next b))
    else
      n ← load (b_next b);
      if b_free n =? 0 then mret (inl (b_next b))
      else
        update curr (λ b, set_size (u32 (b_size b + u32 (BLOCK_SIZE + b_size n))) b);;
        update curr (set_next (b_next n));;
        mret (inl curr).

Definition heap_coalesce : K heap unit :=
  h ← kget;
  kwhile (S (size (blocks h))) coalesce_body (heap_head h).

(** The part of [heap_init] after the pages are mapped. *)
Definition heap_setup : K heap unit :=
  kmodify (λ h, Heap HEAP_START (blocks h));;
  store HEAP_START (Block (HEAP_SIZE - BLOCK_SIZE) 1 0);;
  kprintf "Heap: initialised at %x, size %d KB\n" [AInt HEAP_START; AInt (HEAP_SIZE / 1024)].

(** One iteration of the loop of [kmalloc]: the next pointer ([inl]) or the end of
    the loop ([inr]), with the pointer to return unless the list is over. *)
Definition kmalloc_body (size curr : Z) : K heap (Z + option Z) :=
  if curr =? 0 then mret (inr None)
  else
    b ← load curr;
    if negb (b_free b =? 0) && (size <=? b_size b) then
      (if u32 (u32 (size + BLOCK_SIZE) + 4) <=? b_size b then
         let new_block := u32 (u32 (curr + BLOCK_SIZE) + size) in
         store new_block (Block (u32 (u32 (b_size b - size) - BLOCK_SIZE)) 1 (b_next b));;
         update curr (set_next new_block);;
         update curr (set_size size)
       else mret tt);;
      update curr (set_free 0);;
      mret (inr (Some (u32 (curr + BLOCK_SIZE))))
    else mret (inl (b_next b)).

Definition kmalloc (size : Z) : K heap Z :=
  if size =? 0 then mret 0
  else
    let size := Z.land (u32 (size + 3)) (u32 (Z.lnot 3)) in
    h ← kget;
    r ← kwhile (S (base.size (blocks h))) (kmalloc_body size) (heap_head h);
    match r with
    | Some p => mret p
    | None =>
        kprintf "kmalloc: out of heap memory!\n" [];;
        mret 0
    end.

Definition kfree (ptr : Z) : K heap unit :=
  if ptr =? 0 then mret tt
  else
    let block := u32 (ptr - BLOCK_SIZE) in
    update block (set_free 1);;
    heap_coalesce.

(** ** The abstract heap *)

(** Sizes and "is free" flags of the blocks, in address order. *)
Definition layout : Type := list (Z * bool).

(** First fit from address [a]: the pointer returned and the new layout. *)
Fixpoint first_fit (n a : Z) (l : layout) : option (Z * layout) :=
  match l with
  | [] => None
  | (sz, fr) :: l =>
      if fr && (n <=? sz) then
        Some (a + 12, if n + 16 <=? sz then (n, false) :: (sz - n - 12, true) :: l
                      else (sz, false) :: l)
      else '(p, l') ← first_fit n (a + 12 + sz) l; Some (p, (sz, fr) :: l')
  end.

(** Freeing the block whose memory starts at [p]. *)
Fixpoint release (p a : Z) (l : layout) : layout :=
  match l with
  | [] => []
  | (sz, fr) :: l =>
      if a + 12 =? p then (sz, true) :: l else (sz, fr) :: release p (a + 12 + sz) l
  end.

(** Adding a block in front, merged with a free block that follows a free one. *)
Definition merge (sz : Z) (fr : bool) (l : layout) : layout :=
  match fr, l with
  | true, (sz2, true) :: l => (sz + 12 + sz2, true) :: l
  | _, _ => (sz, fr) :: l
  end.

Fixpoint coalesce (l : layout) : layout :=
  match l with
  | [] => []
  | (sz, fr) :: l => merge sz fr (coalesce l)
  end.

(** No two free blocks in a row. *)
Fixpoint normal (l : layout) : bool :=
  match l with
  | (_, true) :: (((_, true) :: _) as l') => false
  | _ :: l' => normal l'
  | [] => true
  end.

(** The memory of the blocks in use: address and size. *)
Fixpoint used (a : Z) (l : layout) : list (Z * Z) :=
  match l with
  | [] => []
  | (sz, fr) :: l => (if fr : bool then [] else [(a + 12, sz)]) ++ used (a + 12 + sz) l
  end.

Fixpoint total (l : layout) : Z :=
  match l with [] => 0 | (sz, _) :: l => 12 + sz + total l end.

(** ** Representation *)

(** The [next] pointer in front of the blocks [l] at [a]. *)
Definition ptr (a : Z) (l : layout) : Z := match l with [] => 0 | _ => a end.

Fixpoint chain (m : gmap Z block_t) (a : Z) (l : layout) : Prop :=
  match l with
  | [] => True
  | (sz, fr) :: l =>
      (∃ f, m !! a = Some (Block sz f (ptr (a + 12 + sz) l)) ∧ fr = negb (f =? 0)) ∧
      chain m (a + 12 + sz) l
  end.

(** Sizes are non-negative multiples of four. *)
Definition sizes_ok (l : layout) : Prop := Forall (λ b, 0 ≤ b.1 ∧ b.1 mod 4 = 0) l.

Record heap_rep (h : heap) (l : layout) : Prop := {
  hr_head : heap_head h = HEAP_START;
  hr_chain : chain (blocks h) HEAP_START l;
  hr_total : total l = HEAP_SIZE;
  hr_sizes : sizes_ok l;
}.

(** ** The representation and its store *)

Lemma total_nonneg l : sizes_ok l → 0 ≤ total l.
Proof. induction 1 as [|[sz fr] l [Hs _] Hl IH]; simpl in *; lia. Qed.

Lemma ptr_nonzero a sz fr l : ptr a ((sz, fr) :: l) = a.
Proof. reflexivity. Qed.

(** The chain from [a] only looks at headers from [a] on. *)
Lemma chain_agree m m' l : ∀ a,
  sizes_ok l → (∀ k, a ≤ k → m' !! k = m !! k) → chain m a l → chain m' a l.
Proof.
  induction l as [|[sz fr] l IH]; intros a Hs Hk; [done|]. simpl.
  inversion Hs as [|? ? [Hsz _] Hs']; subst. simpl in Hsz. intros [Hh Hc]. split.
  - rewrite Hk by lia. exact Hh.
  - apply IH; [exact Hs'| |exact Hc]. intros k Hk'. apply Hk. lia.
Qed.

Lemma chain_insert_below m a l k b :
  sizes_ok l → k < a → chain m a l → chain (<[k := b]> m) a l.
Proof.
  intros Hs Hk. apply chain_agree; [exact Hs|]. intros j Hj. apply lookup_insert_ne. lia.
Qed.

(** A list has no more blocks than the store has headers. *)
Fixpoint addrs (a : Z) (l : layout) : list Z :=
  match l with [] => [] | (sz, _) :: l => a :: addrs (a + 12 + sz) l end.

Lemma addrs_ge l : ∀ a k, sizes_ok l → k ∈ addrs a l → a ≤ k.
Proof.
  induction l as [|[sz fr] l IH]; intros a k Hs; simpl; [by intros ?%not_elem_of_nil|].
  inversion Hs as [|? ? [Hsz _] Hs']; subst. simpl in Hsz.
  intros [-> |Hk]%elem_of_cons; [lia|]. apply IH in Hk; [lia|exact Hs'].
Qed.

Lemma addrs_NoDup l : ∀ a, sizes_ok l → NoDup (addrs a l).
Proof.
  induction l as [|[sz fr] l IH]; intros a Hs; simpl; [constructor|].
  inversion Hs as [|? ? [Hsz _] Hs']; subst. simpl in Hsz. constructor; [|by apply IH].
  intros Hin. apply addrs_ge in Hin; [lia|exact Hs'].
Qed.

Lemma addrs_in_store m l : ∀ a k, chain m a l → k ∈ addrs a l → k ∈ dom m.
Proof.
  induction l as [|[sz fr] l IH]; intros a k; simpl; [by intros _ ?%not_elem_of_nil|].
  intros [(f & Hm & _) Hc] [-> |Hk]%elem_of_cons; [|by eapply IH].
  apply elem_of_dom. by eexists.
Qed.

Lemma length_addrs a l : length (addrs a l) = length l.
Proof. revert a. induction l as [|[sz fr] l IH]; intros a; simpl; [done|]. by rewrite IH. Qed.

Lemma chain_length m a l : sizes_ok l → chain m a l → (length l ≤ size m)%nat.
Proof.
  intros Hs Hc. rewrite <-(length_addrs a l), <-size_dom.
  rewrite <-(size_list_to_set (C := gset Z)) by (by apply addrs_NoDup).
  apply subseteq_size. intros k Hk%elem_of_list_to_set. by eapply addrs_in_store.
Qed.

(** ** Header accesses *)

Lemma load_spec h p b (Q : block_t → heap → list event → Prop) :
  blocks h !! p = Some b → Q b h [] → wp (load p) h Q.
Proof. intros Hb HQ. unfold load. wp_steps. by eapply wp_lift. Qed.

Lemma update_spec h p f b (Q : unit → heap → list event → Prop) :
  blocks h !! p = Some b → Q tt (Heap (heap_head h) (<[p := f b]> (blocks h))) [] →
  wp (update p f) h Q.
Proof. intros Hb HQ. unfold update. wp_steps. by eapply load_spec. Qed.

(** ** [kmalloc] *)

(** What the loop of [kmalloc] leaves, from the block at [a]. *)
Definition fitted (h : heap) (n a : Z) (l : layout) (r : option Z) (h' : heap) : Prop :=
  heap_head h' = heap_head h ∧ (∀ k, k < a → blocks h' !! k = blocks h !! k) ∧
  match first_fit n a l with
  | Some (p, l') => r = Some p ∧ chain (blocks h') a l'
  | None => r = None ∧ h' = h
  end.

(** Taking the first block. *)
Lemma take_block h n a sz fr l :
  chain (blocks h) a ((sz, fr) :: l) → sizes_ok ((sz, fr) :: l) →
  0 < a → a + total ((sz, fr) :: l) < 2 ^ 31 → 0 ≤ n → fr && (n <=? sz) = true →
  wp (kmalloc_body n a) h (λ x h' o,
    match x with inl _ => False | inr r => o = [] ∧ fitted h n a ((sz, fr) :: l) r h' end).
Proof.
  intros [(f & Hm & ->) Hc] Hs Ha Hb Hn Hfit. unfold kmalloc_body.
  inversion Hs as [|? ? [Hsz Hsz4] Hs']; subst. simpl in Hsz. simpl in Hb.
  pose proof (total_nonneg l Hs') as Ht.
  destruct (Z.eqb_spec a 0); [lia|]. wp_steps. eapply load_spec; [exact Hm|].
  cbn [b_free b_size]. rewrite Hfit. unfold fitted. simpl. rewrite Hfit.
  apply andb_true_iff in Hfit as [Hfree Hle%Z.leb_le]. unfold BLOCK_SIZE.
  rewrite (u32_small (n + 12)), (u32_small (n + 12 + 4)) by lia.
  replace (n + 12 + 4) with (n + 16) by lia.
  destruct (Z.leb_spec (n + 16) sz) as [Hsplit|Hwhole].
  - rewrite (u32_small (sz - n)), (u32_small (sz - n - 12)), (u32_small (a + 12)),
      (u32_small (a + 12 + n)) by lia. wp_steps.
    apply wp_modify. wp_steps. eapply update_spec.
    { cbn [blocks]. rewrite lookup_insert_ne by lia. exact Hm. }
    wp_steps. eapply update_spec; [apply lookup_insert_eq|]. wp_steps.
    eapply update_spec; [apply lookup_insert_eq|]. wp_steps.
    cbn [blocks heap_head app]. rewrite !insert_insert_eq. split; [reflexivity|].
    split; [reflexivity|]. split.
    { intros k Hk. rewrite !lookup_insert_ne by lia. reflexivity. }
    split; [reflexivity|]. simpl. split; [|split].
    + exists 0. split; [|reflexivity]. apply lookup_insert_eq.
    + exists 1. split; [|reflexivity]. rewrite lookup_insert_ne by lia.
      rewrite lookup_insert_eq. unfold ptr. do 2 f_equal. destruct l as [|[]]; [done|]. lia.
    + replace (a + 12 + n + 12 + (sz - n - 12)) with (a + 12 + sz) by lia.
      apply chain_insert_below; [exact Hs'|lia|].
      apply chain_insert_below; [exact Hs'|lia|exact Hc].
  - wp_steps. eapply update_spec; [exact Hm|]. wp_steps. rewrite u32_small by lia.
    cbn [blocks heap_head]. split; [reflexivity|]. split; [reflexivity|]. split.
    { intros k Hk. by rewrite lookup_insert_ne by lia. }
    split; [reflexivity|]. simpl. split.
    + exists 0. split; [apply lookup_insert_eq|reflexivity].
    + apply chain_insert_below; [exact Hs'|lia|exact Hc].
Qed.

Lemma kmalloc_loop h n l : ∀ fuel a,
  chain (blocks h) a l → sizes_ok l → 0 < a → a + total l < 2 ^ 31 → 0 ≤ n →
  (length l < fuel)%nat →
  wp (kwhile fuel (kmalloc_body n) (ptr a l)) h (λ r h' o, o = [] ∧ fitted h n a l r h').
Proof.
  induction l as [|[sz fr] l IH]; intros [|fuel] a Hc Hs Ha Hb Hn Hfuel; try lia.
  { apply wp_kwhile_S. unfold kmalloc_body. simpl. wp_steps. done. }
  rewrite ptr_nonzero. apply wp_kwhile_S.
  destruct (fr && (n <=? sz)) eqn:Hfit.
  - eapply wp_mono; [by apply take_block|]. intros [a'|r] h' o; [done|]. exact id.
  - inversion Hs as [|? ? [Hsz _] Hs']; subst. simpl in Hsz, Hb.
    destruct Hc as [(f & Hm & ->) Hc]. unfold kmalloc_body at 1.
    destruct (Z.eqb_spec a 0); [lia|]. wp_steps. eapply load_spec; [exact Hm|].
    cbn [b_free b_size b_next]. rewrite Hfit. wp_steps.
    eapply wp_mono; [apply (IH fuel (a + 12 + sz)); (assumption || simpl in Hfuel; lia)|].
    intros r h' o (-> & Hh & Hbelow & Hr). split; [reflexivity|].
    split; [exact Hh|]. split; [intros k Hk; apply Hbelow; lia|]. simpl. rewrite Hfit.
    destruct (first_fit n (a + 12 + sz) l) as [[p l']|] eqn:Hff; simpl; [|exact Hr].
    destruct Hr as [-> Hc']. split; [reflexivity|]. split; [|exact Hc'].
    exists f. split; [|reflexivity]. rewrite Hbelow, Hm by lia. do 2 f_equal.
    destruct l as [|[sz2 fr2] l2]; [discriminate|]. destruct l' as [|[]]; [|reflexivity].
    exfalso. simpl in Hff. destruct (fr2 && (n <=? sz2)).
    + destruct (n + 16 <=? sz2); discriminate.
    + destruct (first_fit n (a + 12 + sz + 12 + sz2) l2) as [[? ?]|]; discriminate.
Qed.

(** ** [heap_coalesce] *)

Lemma coalesce_nonempty sz fr l :
  ∃ sz' l', coalesce ((sz, fr) :: l) = (sz', fr) :: l'.
Proof.
  simpl. unfold merge. destruct fr; [|eauto].
  destruct (coalesce l) as [|[sz2 [|]] l2]; eauto.
Qed.

Lemma coalesce_merge sz sz2 l :
  coalesce ((sz, true) :: (sz2, true) :: l) = coalesce ((sz + 12 + sz2, true) :: l).
Proof.
  simpl. unfold merge. destruct (coalesce l) as [|[sz3 [|]] l3]; try reflexivity.
  do 2 f_equal. lia.
Qed.

Lemma coalesce_keep sz fr sz2 fr2 l :
  fr && fr2 = false →
  coalesce ((sz, fr) :: (sz2, fr2) :: l) = (sz, fr) :: coalesce ((sz2, fr2) :: l).
Proof.
  intros H. destruct (coalesce_nonempty sz2 fr2 l) as (sz' & l' & E).
  cbn [coalesce] in *. rewrite E. unfold merge. by destruct fr, fr2.
Qed.

(** What the loop leaves, from the block at [a]. *)
(** One iteration: to the next block, or the next block is merged into this one. *)
Lemma coalesce_body_spec h a sz fr sz2 fr2 l :
  chain (blocks h) a ((sz, fr) :: (sz2, fr2) :: l) → sizes_ok ((sz, fr) :: (sz2, fr2) :: l) →
  0 < a → a + total ((sz, fr) :: (sz2, fr2) :: l) < 2 ^ 31 →
  wp (coalesce_body a) h (λ r h' o, o = [] ∧
    if fr && fr2 then
      r = inl a ∧ heap_head h' = heap_head h ∧ (∀ k, k < a → blocks h' !! k = blocks h !! k) ∧
      chain (blocks h') a ((sz + 12 + sz2, true) :: l)
    else r = inl (a + 12 + sz) ∧ h' = h).
Proof.
  intros Hc Hs Ha Hb. inversion Hs as [|? ? [Hsz Hsz4] Hs']; subst.
  inversion Hs' as [|? ? [Hsz2 Hsz24] Hs2]; subst. simpl in Hsz, Hsz4, Hsz2, Hsz24, Hb.
  pose proof (total_nonneg l Hs2) as Ht2. unfold coalesce_body.
  destruct Hc as [(f & Hm & Hfr) [(f2 & Hm2 & Hfr2) Hc]]. destruct (Z.eqb_spec a 0); [lia|]. wp_steps.
  eapply load_spec; [exact Hm|]. cbn [b_next b_free b_size]. rewrite ptr_nonzero.
  destruct (Z.eqb_spec (a + 12 + sz) 0); [lia|].
  destruct (Z.eqb_spec f 0) as [->|Hf]; [subst fr; by wp_steps|]. wp_steps. eapply load_spec; [exact Hm2|].
  cbn [b_next b_free b_size]. destruct (Z.eqb_spec f2 0) as [->|Hf2]; subst fr fr2; cbn [negb andb]; [by wp_steps|].
  wp_steps. eapply update_spec; [exact Hm|]. wp_steps.
  eapply update_spec; [apply lookup_insert_eq|]. wp_steps. cbn [blocks heap_head].
  rewrite insert_insert_eq. unfold BLOCK_SIZE, set_size, set_next. cbn [b_size b_free b_next].
  rewrite (u32_small (12 + sz2)), u32_small by lia. replace (sz + (12 + sz2)) with (sz + 12 + sz2) by lia.
  split; [done|]. split; [done|]. split; [done|].
  split; [intros k Hk; apply lookup_insert_ne; lia|]. simpl.
  replace (a + 12 + (sz + 12 + sz2)) with (a + 12 + sz + 12 + sz2) by lia. split.
  - exists f. split; [apply lookup_insert_eq|]. by apply Z.eqb_neq in Hf as ->.
  - apply chain_insert_below; [exact Hs2|lia|exact Hc].
Qed.

Lemma coalesce_loop : ∀ fuel h l a,
  chain (blocks h) a l → sizes_ok l → 0 < a → a + total l < 2 ^ 31 →
  (length l < fuel)%nat →
  wp (kwhile fuel coalesce_body (ptr a l)) h (λ _ h' o, o = [] ∧
    heap_head h' = heap_head h ∧ (∀ k, k < a → blocks h' !! k = blocks h !! k) ∧
    chain (blocks h') a (coalesce l)).
Proof.
  induction fuel as [|fuel IH]; intros h l a Hc Hs Ha Hb Hfuel; [lia|].
  apply wp_kwhile_S. destruct l as [|[sz fr] [|[sz2 fr2] l]].
  { unfold coalesce_body. simpl. by wp_steps. }
  { unfold coalesce_body. destruct Hc as [(f & Hm & Hfr) Hc]. rewrite ptr_nonzero.
    destruct (Z.eqb_spec a 0); [lia|]. wp_steps. eapply load_spec; [exact Hm|]. simpl. wp_steps.
    split; [done|]. split; [done|]. split; [done|]. unfold merge. destruct fr; simpl; (split; [by exists f|done]). }
  rewrite ptr_nonzero. eapply wp_mono; [by apply coalesce_body_spec|].
  inversion Hs as [|? ? [Hsz Hsz4] Hs']; subst. inversion Hs' as [|? ? [Hsz2 Hsz24] Hs2]; subst.
  simpl in Hsz, Hsz4, Hsz2, Hsz24, Hb. pose proof (total_nonneg l Hs2) as Ht2.
  destruct (fr && fr2) eqn:Hboth; intros r h1 o (-> & Hr).
  - destruct Hr as (-> & Hh1 & Hbelow1 & Hc1). apply andb_true_iff in Hboth as [-> ->]. rewrite coalesce_merge.
    change (kwhile fuel coalesce_body a)
      with (kwhile fuel coalesce_body (ptr a ((sz + 12 + sz2, true) :: l))).
    eapply wp_mono.
    { apply (IH h1 ((sz + 12 + sz2, true) :: l) a); [exact Hc1| |exact Ha|simpl; lia|simpl in *; lia].
      constructor; [|exact Hs2]. simpl. split; [lia|dlia]. }
    intros _ h' o (-> & Hh & Hbelow & Hc'). split; [done|]. split; [by rewrite Hh|].
    split; [|exact Hc']. intros k Hk. by rewrite Hbelow, Hbelow1.
  - destruct Hr as (-> & ->). rewrite (coalesce_keep _ _ _ _ _ Hboth). destruct Hc as [(f & Hm & Hfr) Hc].
    eapply wp_mono; [apply (IH h ((sz2, fr2) :: l) (a + 12 + sz)); (assumption || simpl in *; lia)|].
    intros _ h' o (-> & Hh & Hbelow & Hc'). split; [done|]. split; [exact Hh|].
    split; [intros k Hk; apply Hbelow; lia|]. split; [|exact Hc'].
    exists f. split; [|exact Hfr]. rewrite Hbelow, Hm by lia.
    destruct (coalesce_nonempty sz2 fr2 l) as (sz' & l' & ->). reflexivity.
Qed.

(** ** Layouts *)

Lemma sizes_ok_cons sz fr l : sizes_ok ((sz, fr) :: l) ↔ (0 ≤ sz ∧ sz mod 4 = 0) ∧ sizes_ok l.
Proof. unfold sizes_ok. rewrite Forall_cons. done. Qed.

Lemma first_fit_inv n l : ∀ a p l',
  0 ≤ n → n mod 4 = 0 → sizes_ok l → first_fit n a l = Some (p, l') →
  total l' = total l ∧ sizes_ok l' ∧
  ∃ sz, n ≤ sz ∧ (p, sz) ∈ used a l' ∧
    (∀ q, q ∈ used a l' ↔ q = (p, sz) ∨ q ∈ used a l).
Proof.
  induction l as [|[sz fr] l IH]; intros a p l' Hn Hn4 Hs Hff; [done|].
  apply sizes_ok_cons in Hs as [[Hsz Hsz4] Hs]. cbn [first_fit] in Hff.
  destruct (fr && (n <=? sz)) eqn:Hfit.
  - apply andb_true_iff in Hfit as [-> Hle%Z.leb_le]. injection Hff as <- <-.
    destruct (Z.leb_spec (n + 16) sz).
    + split; [simpl; lia|]. split.
      { apply sizes_ok_cons. split; [done|]. apply sizes_ok_cons. split; [dlia|exact Hs]. }
      exists n. split; [lia|]. cbn [used app].
      replace (a + 12 + n + 12 + (sz - n - 12)) with (a + 12 + sz) by lia.
      split; [apply list_elem_of_here|]. intros q. apply elem_of_cons.
    + split; [done|]. split; [by apply sizes_ok_cons|]. exists sz. split; [exact Hle|].
      cbn [used app]. split; [apply list_elem_of_here|]. intros q. apply elem_of_cons.
  - destruct (first_fit n (a + 12 + sz) l) as [[p2 l2]|] eqn:E; [|done].
    simpl in Hff. injection Hff as -> <-.
    destruct (IH _ _ _ Hn Hn4 Hs E) as (Htot & Hs2 & sz2 & Hle & Hin & Hall).
    split; [simpl; lia|]. split; [by apply sizes_ok_cons|]. exists sz2. split; [exact Hle|].
    cbn [used]. split; [apply elem_of_app; by right|].
    intros q. rewrite !elem_of_app, Hall. tauto.
Qed.

Lemma release_inv p l : ∀ a,
  total (release p a l) = total l ∧ (sizes_ok l → sizes_ok (release p a l)).
Proof.
  induction l as [|[sz fr] l IH]; intros a; [done|]. simpl.
  destruct (a + 12 =? p).
  - split; [done|]. by rewrite !sizes_ok_cons.
  - destruct (IH (a + 12 + sz)) as [Ht Hs]. split; [simpl; lia|].
    rewrite !sizes_ok_cons. tauto.
Qed.

Lemma merge_inv sz fr l :
  total (merge sz fr l) = 12 + sz + total l ∧
  (sizes_ok ((sz, fr) :: l) → sizes_ok (merge sz fr l)) ∧
  ∀ a, used a (merge sz fr l) = used a ((sz, fr) :: l).
Proof.
  destruct fr, l as [|[sz2 [|]] l]; try done. cbn [merge]. split; [simpl; lia|]. split.
  - rewrite !sizes_ok_cons. intros ((H1 & H2) & (H3 & H4) & H5). split; [dlia|exact H5].
  - intros a. simpl. f_equal. lia.
Qed.

Lemma coalesce_inv l :
  total (coalesce l) = total l ∧ (sizes_ok l → sizes_ok (coalesce l)) ∧
  (∀ a, used a (coalesce l) = used a l) ∧ normal (coalesce l) = true.
Proof.
  induction l as [|[sz fr] l (Ht & Hs & Hu & Hn)]; [done|]. cbn [coalesce].
  destruct (merge_inv sz fr (coalesce l)) as (Ht2 & Hs2 & Hu2). split; [simpl; lia|].
  split; [rewrite sizes_ok_cons; intros [H1 H2]; apply Hs2, sizes_ok_cons; auto|].
  split; [intros a; rewrite Hu2; simpl; by rewrite Hu|].
  destruct (coalesce l) as [|[sz2 [|]] l2], fr; simpl in *; try done.
Qed.

Lemma normal_coalesce l : normal l = true → coalesce l = l.
Proof.
  induction l as [|[sz fr] l IH]; [done|]. intros Hn. cbn [coalesce].
  destruct l as [|[sz2 fr2] l]; [by destruct fr|].
  assert (fr && fr2 = false ∧ normal ((sz2, fr2) :: l) = true) as [Hf Hn'].
  { destruct fr, fr2; done. }
  rewrite (IH Hn'). unfold merge. by destruct fr, fr2.
Qed.

(** ** Blocks in use *)

Lemma used_range l : ∀ a p sz,
  sizes_ok l → a mod 4 = 0 → (p, sz) ∈ used a l →
  a + 12 ≤ p ∧ p + sz ≤ a + total l ∧ p mod 4 = 0 ∧ 0 ≤ sz.
Proof.
  induction l as [|[s fr] l IH]; intros a p sz Hs Ha; [by intros ?%not_elem_of_nil|].
  apply sizes_ok_cons in Hs as [[Hsz Hsz4] Hs]. cbn [used]. intros [Hin|Hin]%elem_of_app.
  - destruct fr; [by apply not_elem_of_nil in Hin|].
    apply list_elem_of_singleton in Hin as [= -> ->]. pose proof (total_nonneg l Hs).
    simpl. split; [lia|]. split; [lia|]. split; [dlia|lia].
  - apply IH in Hin as (H1 & H2 & H3 & H4); [|exact Hs|dlia]. simpl. lia.
Qed.

(** Different blocks in use do not overlap. *)
Lemma used_disjoint l : ∀ a p sz q sz',
  sizes_ok l → a mod 4 = 0 → (p, sz) ∈ used a l → (q, sz') ∈ used a l → p ≠ q →
  p + sz ≤ q ∨ q + sz' ≤ p.
Proof.
  induction l as [|[s fr] l IH]; intros a p sz q sz' Hs Ha; [by intros ?%not_elem_of_nil|].
  apply sizes_ok_cons in Hs as [[Hsz Hsz4] Hs]. cbn [used].
  assert ((a + 12 + s) mod 4 = 0) as Ha' by dlia.
  pose proof (λ x y, used_range l (a + 12 + s) x y Hs Ha') as Hr.
  intros [Hp|Hp]%elem_of_app [Hq|Hq]%elem_of_app Hne.
  - exfalso. destruct fr; [by apply not_elem_of_nil in Hp|].
    apply list_elem_of_singleton in Hp as [= -> ->], Hq as [= -> ->]. done.
  - destruct fr; [by apply not_elem_of_nil in Hp|].
    apply list_elem_of_singleton in Hp as [= -> ->]. apply Hr in Hq. lia.
  - destruct fr; [by apply not_elem_of_nil in Hq|].
    apply list_elem_of_singleton in Hq as [= -> ->]. apply Hr in Hp. lia.
  - by eapply IH.
Qed.

Lemma used_functional l a p sz sz' :
  sizes_ok l → a mod 4 = 0 → (p, sz) ∈ used a l → (p, sz') ∈ used a l → sz = sz'.
Proof.
  revert a. induction l as [|[s fr] l IH]; intros a Hs Ha; [by intros ?%not_elem_of_nil|].
  apply sizes_ok_cons in Hs as [[Hsz Hsz4] Hs]. cbn [used].
  assert ((a + 12 + s) mod 4 = 0) as Ha' by dlia.
  pose proof (λ x y, used_range l (a + 12 + s) x y Hs Ha') as Hr.
  intros [Hp|Hp]%elem_of_app [Hq|Hq]%elem_of_app.
  - destruct fr; [by apply not_elem_of_nil in Hp|].
    apply list_elem_of_singleton in Hp as [= -> ->], Hq as [= ->]. done.
  - exfalso. destruct fr; [by apply not_elem_of_nil in Hp|].
    apply list_elem_of_singleton in Hp as [= -> ->]. apply Hr in Hq. lia.
  - exfalso. destruct fr; [by apply not_elem_of_nil in Hq|].
    apply list_elem_of_singleton in Hq as [= -> ->]. apply Hr in Hp. lia.
  - by eapply IH.
Qed.

(** Releasing a block in use: its header is there, and nothing else changes. *)
Lemma release_spec m p sz l : ∀ a,
  chain m a l → sizes_ok l → a mod 4 = 0 → (p, sz) ∈ used a l →
  a ≤ p - 12 ∧
  (∃ b, m !! (p - 12) = Some b ∧ chain (<[p - 12 := set_free 1 b]> m) a (release p a l)) ∧
  ∀ q, q ∈ used a (release p a l) ↔ q ∈ used a l ∧ q.1 ≠ p.
Proof.
  induction l as [|[s fr] l IH]; intros a Hc Hs Ha; [by intros ?%not_elem_of_nil|].
  apply sizes_ok_cons in Hs as [[Hsz Hsz4] Hs]. destruct Hc as [(f & Hm & Hfr) Hc].
  assert ((a + 12 + s) mod 4 = 0) as Ha' by dlia.
  pose proof (λ x y, used_range l (a + 12 + s) x y Hs Ha') as Hr.
  cbn [used release]. intros [Hin|Hin]%elem_of_app.
  - destruct fr; [by apply not_elem_of_nil in Hin|].
    apply list_elem_of_singleton in Hin as [= -> ->]. rewrite Z.eqb_refl.
    replace (a + 12 - 12) with a by lia. split; [lia|]. split.
    + eexists. split; [exact Hm|]. split; [|by apply chain_insert_below; [|lia|]].
      exists 1. split; [|done]. rewrite lookup_insert_eq. reflexivity.
    + intros [q sq]. cbn [used]. rewrite !elem_of_app, list_elem_of_singleton. simpl. split.
      * intros [Hq|Hq]; [by apply not_elem_of_nil in Hq|]. split; [by right|].
        apply Hr in Hq. lia.
      * intros [[Hq|Hq] Hne]; [|by right]. injection Hq as -> _. done.
  - destruct (IH _ Hc Hs Ha' Hin) as (Hle & (b & Hb & Hc') & Hu).
    destruct (Z.eqb_spec (a + 12) p); [lia|]. split; [lia|]. split.
    + exists b. split; [exact Hb|]. cbn [chain]. split; [|exact Hc'].
      exists f. split; [|exact Hfr]. rewrite lookup_insert_ne, Hm by lia. do 2 f_equal.
      destruct l as [|[s2 fr2] l2]; [done|]. simpl. by destruct (_ =? p).
    + intros [q sq]. cbn [used]. rewrite !elem_of_app, Hu. simpl. split; [|tauto].
      intros [Hq|Hq]; [|tauto]. split; [by left|]. destruct fr; [by apply not_elem_of_nil in Hq|].
      apply list_elem_of_singleton in Hq as [= -> ->]. exact n.
Qed.

(** ** [(size + 3) & ~3] *)

Definition align4 (size : Z) : Z := Z.land (u32 (size + 3)) (u32 (Z.lnot 3)).

Lemma land_not3 x : 0 ≤ x < 2 ^ 32 → Z.land x (u32 (Z.lnot 3)) = 4 * (x / 4).
Proof.
  intros Hx. change (u32 (Z.lnot 3)) with (Z.shiftl (Z.ones 30) 2).
  replace (4 * (x / 4)) with (Z.shiftl (Z.shiftr x 2) 2)
    by (rewrite Z.shiftl_mul_pow2, Z.shiftr_div_pow2 by lia; change (2 ^ 2) with 4; lia).
  apply Z.bits_inj'. intros j Hj. rewrite Z.land_spec, !Z.shiftl_spec by lia.
  destruct (Z.ltb_spec j 2).
  - rewrite !(Z.testbit_neg_r _ (j - 2)) by lia. apply andb_false_r.
  - rewrite Z.shiftr_spec by lia. replace (j - 2 + 2) with j by lia.
    destruct (Z.ltb_spec j 32).
    + rewrite Z.ones_spec_low by lia. apply andb_true_r.
    + by rewrite (testbit_high x j) by lia.
Qed.

Lemma align4_small size :
  0 < size ≤ 2 ^ 32 - 4 → size ≤ align4 size < size + 4 ∧ align4 size mod 4 = 0.
Proof.
  intros Hs. unfold align4. rewrite u32_small by lia. rewrite land_not3 by lia. dlia.
Qed.

Lemma align4_wraps size : 2 ^ 32 - 4 < size < 2 ^ 32 → align4 size = 0.
Proof.
  intros Hs. unfold align4. replace (u32 (size + 3)) with (size + 3 - 2 ^ 32)
    by (unfold u32; dlia).
  rewrite land_not3 by lia. dlia.
Qed.

Lemma align4_ok size : 0 < size < 2 ^ 32 → 0 ≤ align4 size ∧ align4 size mod 4 = 0.
Proof.
  intros Hs. destruct (Z.leb_spec size (2 ^ 32 - 4)).
  - pose proof (align4_small size). lia.
  - rewrite align4_wraps by lia. done.
Qed.

(** ** The public operations on the representation *)

Lemma heap_rep_fuel h l : heap_rep h l → (length l < S (size (blocks h)))%nat.
Proof. intros [_ Hc _ Hs]. pose proof (chain_length _ _ _ Hs Hc). lia. Qed.

Lemma heap_rep_head h l : heap_rep h l → heap_head h = ptr HEAP_START l.
Proof.
  intros [Hh _ Ht _]. destruct l as [|[sz fr] l]; [done|]. exact Hh.
Qed.

Lemma kmalloc_spec h l size :
  heap_rep h l → 0 < size < 2 ^ 32 →
  wp (kmalloc size) h (λ p h' o,
    match first_fit (align4 size) HEAP_START l with
    | Some (q, l') => p = q ∧ heap_rep h' l' ∧ o = []
    | None => p = 0 ∧ h' = h ∧ o = [EvPrintf "kmalloc: out of heap memory!\n" []]
    end).
Proof.
  intros Hr Hsize. pose proof Hr as [Hh Hc Ht Hs]. unfold kmalloc.
  destruct (Z.eqb_spec size 0); [lia|]. wp_steps. fold (align4 size).
  destruct (align4_ok size Hsize) as [Hn Hn4]. rewrite (heap_rep_head _ _ Hr).
  eapply wp_mono.
  { apply kmalloc_loop; [exact Hc|exact Hs|done|rewrite Ht; done|exact Hn
    |by apply heap_rep_fuel]. }
  intros r h' o (-> & Hh' & _ & Hff).
  destruct (first_fit (align4 size) HEAP_START l) as [[q l']|] eqn:E; destruct Hff as [-> Hff].
  - wp_steps. split; [done|]. split; [|done].
    destruct (first_fit_inv _ _ _ _ _ Hn Hn4 Hs E) as (Ht' & Hs' & _).
    constructor; [congruence|exact Hff|congruence|exact Hs'].
  - wp_steps. done.
Qed.

Lemma kfree_spec h l p sz :
  heap_rep h l → (p, sz) ∈ used HEAP_START l →
  wp (kfree p) h (λ _ h' o, o = [] ∧ heap_rep h' (coalesce (release p HEAP_START l))).
Proof.
  intros Hr Hin. pose proof Hr as [Hh Hc Ht Hs]. unfold kfree.
  destruct (release_spec _ p sz l _ Hc Hs eq_refl Hin) as (Hle & (b & Hb & Hc') & _).
  destruct (used_range l HEAP_START p sz Hs eq_refl Hin) as (H1 & H2 & _ & H4).
  rewrite Ht in H2. unfold HEAP_START, HEAP_SIZE in *.
  destruct (Z.eqb_spec p 0); [lia|]. unfold BLOCK_SIZE. rewrite u32_small by lia. wp_steps.
  eapply update_spec; [exact Hb|]. unfold heap_coalesce. wp_steps. cbn [blocks heap_head].
  set (l1 := release p _ l) in *. destruct (release_inv p l 0x01000000) as [Ht1 Hs1].
  fold l1 in Ht1, Hs1. specialize (Hs1 Hs).
  set (h1 := Heap _ _).
  assert (heap_rep h1 l1) as Hr1.
  { constructor; [exact Hh|exact Hc'|rewrite Ht1; exact Ht|exact Hs1]. }
  change (heap_head h) with (heap_head h1). rewrite (heap_rep_head _ _ Hr1).
  eapply wp_mono.
  { apply (coalesce_loop _ h1 l1 HEAP_START); [exact Hc'|exact Hs1|done|rewrite Ht1, Ht; done|].
    exact (heap_rep_fuel _ _ Hr1). }
  intros _ h' o (-> & Hh' & _ & Hc2). split; [reflexivity|].
  destruct (coalesce_inv l1) as (Ht2 & Hs2 & _).
  constructor; [rewrite Hh'; exact Hh|exact Hc2|rewrite Ht2, Ht1; exact Ht|auto].
Qed.

(** ** Theorems *)

(** C17.  [kmalloc] refines first fit on the layout, on both outcomes. *)
Theorem kmalloc_refines h l size :
  heap_rep h l → 0 < size < 2 ^ 32 →
  match first_fit (align4 size) HEAP_START l with
  | Some (p, l') => ∃ h', kmalloc size h = Done p h' [] ∧ heap_rep h' l'
  | None => kmalloc size h = Done 0 h [EvPrintf "kmalloc: out of heap memory!\n" []]
  end.
Proof.
  intros Hr Hsize. destruct (wp_done _ _ _ (kmalloc_spec h l size Hr Hsize)) as (p & h' & o & E & H).
  destruct (first_fit (align4 size) HEAP_START l) as [[q l']|].
  - destruct H as (-> & Hr' & ->). by exists h'.
  - destruct H as (-> & -> & ->). exact E.
Qed.

(** C18.  [kfree] of a block in use refines release and merge: exactly that block leaves
    the blocks in use, and no two free blocks are adjacent afterwards. *)
Theorem kfree_refines h l p sz :
  heap_rep h l → (p, sz) ∈ used HEAP_START l →
  ∃ h' l', kfree p h = Done tt h' [] ∧ heap_rep h' l' ∧
    l' = coalesce (release p HEAP_START l) ∧ normal l' = true ∧
    ∀ q, q ∈ used HEAP_START l' ↔ q ∈ used HEAP_START l ∧ q.1 ≠ p.
Proof.
  intros Hr Hin. destruct (wp_done _ _ _ (kfree_spec h l p sz Hr Hin)) as ([] & h' & o & E & -> & Hr').
  exists h', (coalesce (release p HEAP_START l)). split; [exact E|]. split; [exact Hr'|].
  split; [done|]. destruct (coalesce_inv (release p HEAP_START l)) as (_ & _ & Hu & Hn).
  split; [exact Hn|]. intros q. rewrite Hu.
  apply (release_spec (blocks h) p sz l HEAP_START); [apply Hr|apply Hr|done|exact Hin].
Qed.

(** Allocation keeps free blocks apart. *)
Lemma first_fit_normal n l : ∀ a p l',
  normal l = true → first_fit n a l = Some (p, l') → normal l' = true.
Proof.
  induction l as [|[sz fr] l IH]; intros a p l' Hn Hff; [done|]. cbn [first_fit] in Hff.
  assert (normal l = true) as Hnl.
  { destruct fr, l as [|[s2 [|]] l2]; try done. }
  destruct (fr && (n <=? sz)) eqn:Hfit.
  - apply andb_true_iff in Hfit as [-> _]. injection Hff as <- <-.
    destruct (n + 16 <=? sz); [|exact Hnl]. cbn [normal].
    destruct l as [|[s2 [|]] l2]; try done.
  - destruct (first_fit n (a + 12 + sz) l) as [[p2 l2]|] eqn:E; [|done].
    injection Hff as -> <-. specialize (IH _ _ _ Hnl E).
    destruct fr; [|exact IH]. cbn [normal].
    destruct l as [|[s1 f1] l1]; [done|]. destruct f1; [done|].
    cbn [first_fit andb] in E.
    destruct (first_fit n (a + 12 + sz + 12 + s1) l1) as [[p3 l3]|]; [|done].
    simpl in E. injection E as _ <-. exact IH.
Qed.

(** Releasing what first fit handed out and merging gives the layout back. *)
Lemma release_first_fit n l : ∀ a p l',
  0 ≤ n → sizes_ok l → normal l = true → first_fit n a l = Some (p, l') →
  a + 12 ≤ p ∧ coalesce (release p a l') = l.
Proof.
  induction l as [|[sz fr] l IH]; intros a p l' Hn Hs Hnorm Hff; [done|].
  cbn [first_fit] in Hff. apply sizes_ok_cons in Hs as [[Hsz _] Hs].
  assert (normal l = true) as Hnl.
  { destruct fr, l as [|[s2 [|]] l2]; try done. }
  destruct (fr && (n <=? sz)) eqn:Hfit.
  - apply andb_true_iff in Hfit as [-> _]. injection Hff as <- <-. split; [lia|].
    destruct (n + 16 <=? sz); cbn [release]; rewrite Z.eqb_refl.
    + rewrite coalesce_merge. replace (n + 12 + (sz - n - 12)) with sz by lia.
      by apply normal_coalesce.
    + by apply normal_coalesce.
  - destruct (first_fit n (a + 12 + sz) l) as [[p2 l2]|] eqn:E; [|done].
    injection Hff as -> <-. destruct (IH _ _ _ Hn Hs Hnl E) as [Hp Hrel]. split; [lia|].
    cbn [release]. destruct (Z.eqb_spec (a + 12) p); [lia|]. cbn [coalesce]. rewrite Hrel.
    destruct fr, l as [|[s2 [|]] l3]; done.
Qed.

(** Freeing the block just allocated undoes the allocation: the layout is again
    the one before, so the heap does not fragment over such a pair. *)
Theorem kmalloc_kfree_roundtrip h l size p h' o :
  heap_rep h l → normal l = true → 0 < size < 2 ^ 32 →
  kmalloc size h = Done p h' o → p ≠ 0 →
  ∃ h'', kfree p h' = Done tt h'' [] ∧ heap_rep h'' l.
Proof.
  intros Hr Hnorm Hsize E Hp.
  destruct (wp_done _ _ _ (kmalloc_spec h l size Hr Hsize)) as (p2 & h2 & o2 & E2 & H).
  rewrite E in E2. injection E2 as <- <- <-.
  destruct (align4_ok size Hsize) as [Hn Hn4].
  destruct (first_fit (align4 size) HEAP_START l) as [[q l']|] eqn:Hff; [|by destruct H].
  destruct H as (-> & Hr' & _).
  destruct (first_fit_inv _ _ _ _ _ Hn Hn4 (hr_sizes _ _ Hr) Hff) as (_ & _ & sz & _ & Hin & _).
  destruct (wp_done _ _ _ (kfree_spec h' l' q sz Hr' Hin)) as ([] & h'' & o'' & E3 & -> & Hr3).
  exists h''. split; [exact E3|].
  by rewrite (proj2 (release_first_fit _ _ _ _ _ Hn (hr_sizes _ _ Hr) Hnorm Hff)) in Hr3.
Qed.

(** ** Histories *)

(** A client that allocates and frees what it owns: the state is the heap and the
    blocks owned, with the sizes that were asked for. *)
Inductive client_step : heap * gmap Z Z → heap * gmap Z Z → Prop :=
  | client_alloc h owned size p h' o :
      0 < size < 2 ^ 32 - 3 → kmalloc size h = Done p h' o → p ≠ 0 →
      client_step (h, owned) (h', <[p := size]> owned)
  | client_alloc_fail h owned size h' o :
      kmalloc size h = Done 0 h' o → 0 < size < 2 ^ 32 - 3 → client_step (h, owned) (h', owned)
  | client_free h owned p size h' o :
      owned !! p = Some size → kfree p h = Done tt h' o →
      client_step (h, owned) (h', delete p owned).

(** The blocks owned are the blocks in use, each at least as large as asked. *)
Definition client_ok (c : heap * gmap Z Z) : Prop :=
  ∃ l, heap_rep c.1 l ∧ normal l = true ∧
    (∀ p size, c.2 !! p = Some size → ∃ sz, size ≤ sz ∧ (p, sz) ∈ used HEAP_START l) ∧
    ∀ p sz, (p, sz) ∈ used HEAP_START l → is_Some (c.2 !! p).

Lemma first_fit_pos n l : ∀ a p l', 0 < a → sizes_ok l → first_fit n a l = Some (p, l') → 0 < p.
Proof.
  induction l as [|[sz fr] l IH]; intros a p l' Ha Hs Hff; [done|]. cbn [first_fit] in Hff.
  apply sizes_ok_cons in Hs as [[Hsz _] Hs].
  destruct (fr && (n <=? sz)); [injection Hff as <- _; lia|].
  destruct (first_fit n (a + 12 + sz) l) as [[p2 l2]|] eqn:E; [|done].
  injection Hff as -> <-. eapply IH; [|exact Hs|exact E]. lia.
Qed.

Lemma heap_step_ok c c' : client_ok c → client_step c c' → client_ok c'.
Proof.
  intros (l & Hr & Hnorm & Howned & Hused) Hstep.
  destruct Hstep as [h owned size p h' o Hsize E Hp|h owned size h' o E Hsize|h owned p size h' o Hp E];
    cbn [fst snd] in *.
  - destruct (wp_done _ _ _ (kmalloc_spec h l size Hr ltac:(lia))) as (p2 & h2 & o2 & E2 & H).
    rewrite E in E2. injection E2 as <- <- <-.
    destruct (align4_ok size ltac:(lia)) as [Hn Hn4].
    destruct (first_fit (align4 size) HEAP_START l) as [[q l']|] eqn:Hff; [|by destruct H].
    destruct H as (-> & Hr' & _). exists l'. split; [exact Hr'|].
    split; [by eapply first_fit_normal|].
    destruct (first_fit_inv _ _ _ _ _ Hn Hn4 (hr_sizes _ _ Hr) Hff) as (_ & _ & sz & Hle & Hin & Hall).
    pose proof (align4_small size ltac:(lia)) as [Hal _]. cbn [fst snd]. split.
    + intros x xs. rewrite lookup_insert. case_decide as Hx.
      * intros [= <-]. subst x. exists sz. split; [lia|exact Hin].
      * intros Hxs. destruct (Howned x xs Hxs) as (s & Hs & Hus). exists s. split; [exact Hs|].
        apply Hall. by right.
    + intros x xs Hx. apply Hall in Hx as [[= -> ->]|Hx].
      * rewrite lookup_insert_eq. by eexists.
      * rewrite lookup_insert. case_decide; [by eexists|]. by eapply Hused.
  - destruct (wp_done _ _ _ (kmalloc_spec h l size Hr ltac:(lia))) as (p2 & h2 & o2 & E2 & H).
    rewrite E in E2. injection E2 as <- <- <-.
    destruct (first_fit (align4 size) HEAP_START l) as [[q l']|] eqn:Hff.
    + destruct H as (<- & _ & _). apply first_fit_pos in Hff; [lia|done|apply Hr].
    + destruct H as (_ & -> & _). exists l. done.
  - destruct (Howned p size Hp) as (sz & _ & Hin).
    destruct (wp_done _ _ _ (kfree_spec h l p sz Hr Hin)) as (u & h2 & o2 & E2 & _ & Hr').
    rewrite E in E2. injection E2 as _ <- _.
    destruct (coalesce_inv (release p HEAP_START l)) as (_ & _ & Hu & Hn).
    destruct (release_spec (blocks h) p sz l HEAP_START (hr_chain _ _ Hr) (hr_sizes _ _ Hr) eq_refl Hin)
      as (_ & _ & Hrel).
    exists (coalesce (release p HEAP_START l)). split; [exact Hr'|]. split; [exact Hn|].
    cbn [fst snd]. split.
    + intros x xs. rewrite lookup_delete_Some. intros [Hne Hx].
      destruct (Howned x xs Hx) as (s & Hs & Hus). exists s. split; [exact Hs|].
      rewrite Hu. apply Hrel. by split.
    + intros x xs. rewrite Hu. intros [Hx Hne]%Hrel. simpl in Hne.
      rewrite lookup_delete_ne by done. by eapply Hused.
Qed.

Lemma client_steps_ok c c' : client_ok c → rtc client_step c c' → client_ok c'.
Proof. intros Hok Hrtc. induction Hrtc; [done|]. eauto using heap_step_ok. Qed.

(** C11.  In every history of a client of a heap in its initial layout: the blocks it
    owns lie inside the heap after a header, are aligned to 4, hold at least what
    was asked, do not overlap each other, and [kfree] of any of them succeeds. *)
Theorem heap_history_safe h c :
  heap_rep h [(HEAP_SIZE - 12, true)] → rtc client_step (h, ∅) c →
  (∀ p size, c.2 !! p = Some size →
     HEAP_START + 12 ≤ p ∧ p + size ≤ HEAP_START + HEAP_SIZE ∧ p mod 4 = 0 ∧
     ∃ h', kfree p c.1 = Done tt h' []) ∧
  (∀ p size q size', c.2 !! p = Some size → c.2 !! q = Some size' → p ≠ q →
     p + size ≤ q ∨ q + size' ≤ p).
Proof.
  intros Hr Hrtc. apply client_steps_ok in Hrtc.
  2: { exists [(HEAP_SIZE - 12, true)]. split; [exact Hr|]. split; [done|]. cbn [fst snd]. split.
       - intros p size. by rewrite lookup_empty.
       - intros p sz. by intros ?%not_elem_of_nil. }
  destruct Hrtc as (l & Hrl & _ & Howned & _). pose proof (hr_sizes _ _ Hrl) as Hs. split.
  - intros p size Hp. destruct (Howned p size Hp) as (sz & Hle & Hin).
    destruct (used_range l HEAP_START p sz Hs eq_refl Hin) as (H1 & H2 & H3 & _).
    rewrite (hr_total _ _ Hrl) in H2. split; [exact H1|]. split; [lia|]. split; [exact H3|].
    destruct (wp_done _ _ _ (kfree_spec c.1 l p sz Hrl Hin)) as ([] & h' & o & E & -> & _).
    by exists h'.
  - intros p size q size' Hp Hq Hne. destruct (Howned p size Hp) as (sz & Hle & Hin).
    destruct (Howned q size' Hq) as (sz' & Hle' & Hin').
    pose proof (used_disjoint l HEAP_START p sz q sz' Hs eq_refl Hin Hin' Hne). lia.
Qed.

(** [heap_init] leaves one free block over the whole heap. *)
Lemma heap_setup_spec h :
  wp heap_setup h (λ _ h' o, heap_rep h' [(HEAP_SIZE - 12, true)] ∧
    o = [EvPrintf "Heap: initialised at %x, size %d KB\n" [AInt HEAP_START; AInt (HEAP_SIZE / 1024)]]).
Proof.
  unfold heap_setup. wp_steps. apply wp_modify. wp_steps. split; [|done].
  constructor; [done| |done|].
  - split; [|done]. exists 1. split; [|done]. cbn [blocks]. apply lookup_insert_eq.
  - apply sizes_ok_cons. split; [|constructor]. done.
Qed.

(** The rounding overflows for a size within 3 of 2^32: on the initial heap the
    caller who asks for 4 GB is given a block of no bytes at all. *)
Theorem kmalloc_size_wraps h size :
  heap_rep h [(HEAP_SIZE - 12, true)] → 2 ^ 32 - 4 < size < 2 ^ 32 →
  ∃ h', kmalloc size h = Done (HEAP_START + 12) h' [] ∧
    heap_rep h' [(0, false); (HEAP_SIZE - 24, true)].
Proof.
  intros Hr Hsize.
  destruct (wp_done _ _ _ (kmalloc_spec h _ size Hr ltac:(lia))) as (p & h' & o & E & H).
  rewrite align4_wraps in H by exact Hsize. destruct H as (-> & Hr' & ->).
  exists h'. split; [exact E|exact Hr'].
Qed.

(** ** A concrete heap *)

Definition heap0 : heap := final (Heap 0 ∅) (heap_setup (Heap 0 ∅)).
Definition heap1 : heap := final heap0 (kmalloc 100 heap0).

Lemma heap0_rep : heap_rep heap0 [(HEAP_SIZE - 12, true)].
Proof.
  destruct (wp_done _ _ _ (heap_setup_spec (Heap 0 ∅))) as (u & h & o & E & H & _).
  unfold heap0. rewrite E. exact H.
Qed.

Lemma heap1_alloc :
  kmalloc 100 heap0 = Done (HEAP_START + 12) heap1 [] ∧
  heap_rep heap1 [(100, false); (HEAP_SIZE - 124, true)].
Proof.
  destruct (wp_done _ _ _ (kmalloc_spec heap0 _ 100 heap0_rep ltac:(lia))) as (p & h & o & E & H).
  destruct H as (-> & Hr & ->). unfold heap1. rewrite E. split; [reflexivity|exact Hr].
Qed.

Lemma kmalloc_refines_witness :
  ∃ h', kmalloc 100 heap0 = Done (HEAP_START + 12) h' [] ∧
    heap_rep h' [(100, false); (HEAP_SIZE - 124, true)].
Proof. apply (kmalloc_refines heap0 [(HEAP_SIZE - 12, true)] 100); [apply heap0_rep|lia]. Defined.

Lemma kfree_refines_witness :
  ∃ h' l', kfree (HEAP_START + 12) heap1 = Done tt h' [] ∧ heap_rep h' l' ∧
    l' = coalesce (release (HEAP_START + 12) HEAP_START [(100, false); (HEAP_SIZE - 124, true)]) ∧
    normal l' = true ∧
    ∀ q, q ∈ used HEAP_START l' ↔
      q ∈ used HEAP_START [(100, false); (HEAP_SIZE - 124, true)] ∧ q.1 ≠ HEAP_START + 12.
Proof.
  apply (kfree_refines heap1 _ (HEAP_START + 12) 100); [apply heap1_alloc|].
  apply list_elem_of_here.
Defined.

Lemma kmalloc_kfree_roundtrip_witness :
  ∃ h'', kfree (HEAP_START + 12) heap1 = Done tt h'' [] ∧
    heap_rep h'' [(HEAP_SIZE - 12, true)].
Proof.
  apply (kmalloc_kfree_roundtrip heap0 _ 100 (HEAP_START + 12) heap1 []);
    [apply heap0_rep|reflexivity|lia|apply heap1_alloc|discriminate].
Defined.

Definition owned1 : gmap Z Z := <[HEAP_START + 12 := 100]> ∅.

Lemma heap_history_safe_witness :
  (∀ p size, owned1 !! p = Some size →
     HEAP_START + 12 ≤ p ∧ p + size ≤ HEAP_START + HEAP_SIZE ∧ p mod 4 = 0 ∧
     ∃ h', kfree p heap1 = Done tt h' []) ∧
  (∀ p size q size', owned1 !! p = Some size →
     owned1 !! q = Some size' → p ≠ q →
     p + size ≤ q ∨ q + size' ≤ p).
Proof.
  apply (heap_history_safe heap0 (heap1, owned1)); [apply heap0_rep|].
  apply rtc_once. apply (client_alloc heap0 ∅ 100 (HEAP_START + 12) heap1 []);
    [lia|apply heap1_alloc|discriminate].
Defined.

Lemma kmalloc_size_wraps_witness :
  ∃ h', kmalloc 4294967295 heap0 = Done (HEAP_START + 12) h' [] ∧
    heap_rep h' [(0, false); (HEAP_SIZE - 24, true)].
Proof. apply (kmalloc_size_wraps heap0 4294967295); [apply heap0_rep|lia]. Defined.
