(* ===== verification/Vmm.v ===== *)
(** * Virtual memory: kernel/vmm.c and include/vmm.h

    The page directory, the page tables in physical memory and the address
    translation of the processor.  Physical memory is a function from word
    addresses to 32-bit words; once paging is on, the kernel's own accesses to page
    tables go through the translation too.  The translation cache of the processor
    is not modelled: a mapping takes effect when its entry is written. *)

From S2P Require Import Prelude Pmm.

Definition PAGE_PRESENT : Z := 0x1.
Definition PAGE_WRITABLE : Z := 0x2.
Definition PAGE_USER : Z := 0x4.

(** The static [page_directory], the page allocator, physical memory and the paging
    bit of CR0. *)
Record vmm := Vmm {
  page_directory : list Z;
  frames : pmm;
  memory : Z → Z;
  paging : bool;
}.

Definition set_directory (d : list Z) (v : vmm) : vmm := Vmm d (frames v) (memory v) (paging v).
Definition set_frames (s : pmm) (v : vmm) : vmm := Vmm (page_directory v) s (memory v) (paging v).
Definition set_memory (m : Z → Z) (v : vmm) : vmm := Vmm (page_directory v) (frames v) m (paging v).
Definition set_paging (b : bool) (v : vmm) : vmm := Vmm (page_directory v) (frames v) (memory v) b.

#[export] Instance vmm_frames_lens : Lens vmm pmm.
Proof. refine {| lens_get := frames; lens_set := set_frames |}; try done. by intros []. Defined.

(** [x & ~0xFFF] and [x & PAGE_PRESENT] of a 32-bit word. *)
Definition frame_of (x : Z) : Z := Z.land x (u32 (Z.lnot 0xFFF)).
Definition present (x : Z) : bool := negb (Z.land x PAGE_PRESENT =? 0).

(** The processor's walk of the two levels: the entries for a virtual address, when
    both are present. *)
Definition entries (v : vmm) (va : Z) : option (Z * Z) :=
  pde ← aget (page_directory v) (va / 2 ^ 22);
  if negb (present pde) then None
  else
    let pte := memory v (frame_of pde + 4 * (va / 2 ^ 12 mod 1024)) in
    if negb (present pte) then None else Some (pde, pte).

(** The physical address of a virtual one, [None] for a page fault, as ring 0 has it: the
    user bit does not bind ring 0, and the writable bit does so only with CR0.WP, which
    the kernel never sets. *)
Definition translate (v : vmm) (va : Z) : option Z :=
  if negb (paging v) then Some va
  else e ← entries v va; Some (frame_of e.2 + va mod 4096).

(** The bits that bind ring 3; both levels must have them. *)
Definition rights_of (e : Z) : Z := Z.land e (Z.lor PAGE_WRITABLE PAGE_USER).
Definition page_rights (v : vmm) (va : Z) : option Z :=
  e ← entries v va; Some (Z.land (rights_of e.1) (rights_of e.2)).

(** What ring 3 reaches, reading or writing. *)
Definition user_translate (v : vmm) (write : bool) (va : Z) : option Z :=
  if negb (paging v) then Some va
  else
    r ← page_rights v va;
    if (Z.land r PAGE_USER =? 0) || (write && (Z.land r PAGE_WRITABLE =? 0)) then None
    else translate v va.

(** A kernel store to a word; a page fault ends the run. *)
Definition write_word (a x : Z) (m : Z → Z) : Z → Z := λ k, if k =? a then x else m k.
Definition poke (va x : Z) : K vmm unit :=
  v ← kget;
  pa ← klift (translate v va);
  kmodify (λ v, set_memory (write_word pa x (memory v)) v).

(** [page_directory[i] = x]. *)
Definition set_pde (i x : Z) : K vmm unit :=
  v ← kget;
  d ← klift (aset (page_directory v) i x);
  kmodify (set_directory d).

Definition vmm_get_table (virt flags : Z) : K vmm Z :=
  let dir_index := Z.shiftr virt 22 in
  v ← kget;
  pde ← klift (aget (page_directory v) dir_index);
  if present pde then mret (frame_of pde)
  else
    table ← zoom pmm_alloc;
    if table =? 0 then mret 0
    else
      _ ← kfold 0 1024 (λ i _, poke (u32 (table + 4 * i)) 0) tt;
      set_pde dir_index (Z.lor (Z.lor table flags) PAGE_PRESENT);;
      mret table.

Definition vmm_map (virt phys flags : Z) : K vmm unit :=
  let tbl_index := Z.land (Z.shiftr virt 12) 0x3FF in
  table ← vmm_get_table virt flags;
  if table =? 0 then kprintf "VMM: failed to get page table for 0x%x\n" [AInt virt]
  else poke (u32 (table + 4 * tbl_index)) (Z.lor (Z.lor (frame_of phys) flags) PAGE_PRESENT).

Section init.
(** The address of the static array [page_tables]. *)
Variable page_tables : Z.

Definition vmm_init : K vmm unit :=
  _ ← kfold 0 1024 (λ i _, set_pde i 0) tt;
  set_pde 0 (Z.lor (Z.lor (Z.lor page_tables PAGE_PRESENT) PAGE_WRITABLE) PAGE_USER);;
  set_pde 1 (Z.lor (Z.lor (Z.lor (u32 (page_tables + 4096)) PAGE_PRESENT) PAGE_WRITABLE) PAGE_USER);;
  _ ← kfold 0 1024 (λ i _,
    poke (u32 (page_tables + 4 * i))
      (Z.lor (Z.lor (Z.lor (i * 4096) PAGE_PRESENT) PAGE_WRITABLE) PAGE_USER);;
    poke (u32 (page_tables + 4096 + 4 * i))
      (Z.lor (Z.lor (Z.lor ((1024 + i) * 4096) PAGE_PRESENT) PAGE_WRITABLE) PAGE_USER)) tt;
  kmodify (set_paging true);;
  stack_phys ← zoom pmm_alloc;
  vmm_map 0x500000 stack_phys (Z.lor (Z.lor PAGE_PRESENT PAGE_WRITABLE) PAGE_USER);;
  kprintf "VMM: paging enabled, first 4MB identity mapped\n" [].
End init.

(** ** Entries *)

Lemma frame_of_eq x : 0 ≤ x < 2 ^ 32 → frame_of x = 4096 * (x / 4096).
Proof.
  intros Hx. unfold frame_of. apply Z.bits_inj'. intros j Hj. rewrite Z.land_spec. unfold u32.
  replace (4096 * (x / 4096)) with (Z.shiftl (Z.shiftr x 12) 12)
    by (rewrite Z.shiftr_div_pow2, Z.shiftl_mul_pow2 by lia; change (2 ^ 12) with 4096; lia).
  destruct (Z.ltb_spec j 32) as [Hj32|Hj32].
  - rewrite Z.mod_pow2_bits_low, Z.lnot_spec by lia. change 0xFFF with (Z.ones 12).
    destruct (Z.ltb_spec j 12).
    + rewrite Z.ones_spec_low, Z.shiftl_spec_low by lia. apply andb_false_r.
    + rewrite Z.ones_spec_high, Z.shiftl_spec, Z.shiftr_spec by lia.
      rewrite andb_true_r. f_equal. lia.
  - rewrite (testbit_high x) by lia. rewrite Z.shiftl_spec, Z.shiftr_spec by lia.
    replace (j - 12 + 12) with j by lia. rewrite (testbit_high x) by lia. reflexivity.
Qed.

Lemma present_bit x : present x = Z.testbit x 0.
Proof.
  unfold present, PAGE_PRESENT. change 1 with (bit32 0).
  rewrite land_bit32_zero by lia. apply negb_involutive.
Qed.

(** An entry: a frame and flags. *)
Lemma lor_flags (p f : Z) :
  0 ≤ p → p mod 4096 = 0 → 0 ≤ f < 4096 → Z.lor p f = p + f.
Proof.
  intros Hp Hal Hf. symmetry. rewrite <-Z.add_lor_land.
  assert (Z.land p f = 0) as ->; [|lia]. apply Z.bits_inj_0. intros j. rewrite Z.land_spec.
  destruct (Z.ltb_spec j 0) as [Hj0|Hj0]; [by rewrite Z.testbit_neg_r|].
  destruct (Z.ltb_spec j 12) as [Hj|Hj].
  - rewrite <-(Z.mod_pow2_bits_low p 12 j) by lia. change (2 ^ 12) with 4096. rewrite Hal.
    by rewrite Z.bits_0.
  - rewrite <-(Z.mod_small f (2 ^ 12)) by lia. rewrite Z.mod_pow2_bits_high by lia.
    apply andb_false_r.
Qed.

Lemma lor_present f : 0 ≤ f < 4096 →
  0 ≤ Z.lor f PAGE_PRESENT < 4096 ∧ Z.testbit (Z.lor f PAGE_PRESENT) 0 = true.
Proof.
  intros Hf. unfold PAGE_PRESENT. split.
  - assert (0 ≤ Z.lor f 1) by (apply Z.lor_nonneg; lia). split; [done|].
    destruct (Z.eqb_spec f 0) as [->|]; [done|].
    apply Z.log2_lt_cancel. rewrite Z.log2_lor by lia. change (Z.log2 1) with 0.
    rewrite Z.max_l by apply Z.log2_nonneg. change 4096 with (2 ^ 12). rewrite Z.log2_pow2 by lia.
    apply Z.log2_lt_pow2; lia.
  - rewrite Z.lor_spec. apply orb_true_r.
Qed.

(** What the processor reads in an entry written with flags. *)
Lemma entry_fields p f :
  0 ≤ p < 2 ^ 32 → p mod 4096 = 0 → 0 ≤ f < 4096 →
  let e := Z.lor (Z.lor p f) PAGE_PRESENT in
  present e = true ∧ frame_of e = p ∧ 0 ≤ e < 2 ^ 32.
Proof.
  intros Hp Hal Hf e. unfold e. rewrite <-Z.lor_assoc.
  destruct (lor_present f Hf) as [Hr Hb]. set (g := Z.lor f PAGE_PRESENT) in *.
  assert (0 ≤ p + g < 2 ^ 32) as Hpg by dlia.
  rewrite present_bit, Z.lor_spec, Hb, orb_true_r. split; [done|].
  rewrite lor_flags by (done || lia). split; [|done]. rewrite frame_of_eq by done. dlia.
Qed.

(** ** The mapping *)

(** The page table of a directory entry and the frame of a page. *)
Definition table_at (v : vmm) (d : Z) : option Z :=
  pde ← aget (page_directory v) d; if present pde then Some (frame_of pde) else None.

Definition walk (v : vmm) (p : Z) : option Z :=
  t ← table_at v (p / 1024);
  let pte := memory v (t + 4 * (p mod 1024)) in
  if present pte then Some (frame_of pte) else None.

(** The entries themselves, and the rights in them. *)
Definition pde_at (v : vmm) (d : Z) : option Z :=
  pde ← aget (page_directory v) d; if present pde then Some pde else None.
Definition pte_at (v : vmm) (p : Z) : option Z :=
  t ← table_at v (p / 1024);
  let pte := memory v (t + 4 * (p mod 1024)) in
  if present pte then Some pte else None.
Definition dir_rights (v : vmm) (d : Z) : option Z := rights_of <$> pde_at v d.
Definition rights (v : vmm) (p : Z) : option Z :=
  r ← dir_rights v (p / 1024); pte ← pte_at v p; Some (Z.land r (rights_of pte)).

Lemma table_at_pde v d : table_at v d = frame_of <$> pde_at v d.
Proof. unfold table_at, pde_at. destruct (aget _ d) as [x|]; [|done]. cbn. by destruct (present x). Qed.
Lemma walk_pte v p : walk v p = frame_of <$> pte_at v p.
Proof. unfold walk, pte_at. destruct (table_at _ _); [|done]. cbn. by destruct (present _). Qed.

Lemma entries_at v va : 0 ≤ va →
  entries v va = (pde ← pde_at v (va / 4096 / 1024); pte ← pte_at v (va / 4096); Some (pde, pte)).
Proof.
  intros Hva. unfold entries, pde_at, pte_at, table_at.
  replace (va / 4096 / 1024) with (va / 2 ^ 22)
    by (rewrite Z.div_div by lia; f_equal; lia).
  change (2 ^ 12) with 4096. destruct (aget (page_directory v) (va / 2 ^ 22)) as [pde|]; [|done].
  cbn [mbind option_bind]. destruct (present pde); [|done]. cbn [negb mbind option_bind].
  by destruct (present _).
Qed.

Lemma page_rights_at v va : 0 ≤ va → page_rights v va = rights v (va / 4096).
Proof.
  intros Hva. unfold page_rights, rights, dir_rights. rewrite entries_at by exact Hva.
  destruct (pde_at v _); [|done]. cbn. by destruct (pte_at v _).
Qed.

Lemma translate_walk v va :
  paging v = true → 0 ≤ va →
  translate v va = (f ← walk v (va / 4096); Some (f + va mod 4096)).
Proof.
  intros Hp Hva. unfold translate. rewrite Hp. cbn [negb]. rewrite entries_at, walk_pte by exact Hva.
  unfold pte_at. rewrite table_at_pde. destruct (pde_at v _); [|done]. cbn [fmap option_fmap option_map mbind option_bind].
  by destruct (present _).
Qed.

(** A page with all rights is open to ring 3. *)
Lemma user_translate_open v write va :
  page_rights v va = Some 6 → user_translate v write va = translate v va.
Proof.
  intros Hr. unfold user_translate. rewrite Hr. cbn [mbind option_bind].
  destruct (paging v) eqn:E; cbn [negb]; [by destruct write|]. unfold translate. by rewrite E.
Qed.

Lemma rights_of_entry p f :
  p mod 4096 = 0 → rights_of (Z.lor (Z.lor p f) PAGE_PRESENT) = rights_of f.
Proof.
  intros Hp. unfold rights_of. rewrite !Z.land_lor_distr_l.
  assert (Z.land p (Z.lor PAGE_WRITABLE PAGE_USER) = 0) as ->; [|apply Z.lor_0_r].
  change (Z.lor PAGE_WRITABLE PAGE_USER) with (Z.land (Z.ones 12) 6).
  rewrite Z.land_assoc, Z.land_ones by lia. change (2 ^ 12) with 4096. by rewrite Hp.
Qed.

(** Rights after page [p] has been mapped with [flags]: a directory entry that was there
    keeps its own. *)
Record rights_step (v v' : vmm) (p flags : Z) : Prop := {
  rt_page q : 0 ≤ q < 2 ^ 20 → rights v' q =
    if q =? p then Some (Z.land (default (rights_of flags) (dir_rights v (p / 1024))) (rights_of flags))
    else rights v q;
  rt_dir d : dir_rights v' d =
    if d =? p / 1024 then Some (default (rights_of flags) (dir_rights v d)) else dir_rights v d;
}.

(** The invariant once paging is on: every page table is its own frame, mapped at its
    own address so that the kernel can change it, and is not free. *)
Record vm_ok (v : vmm) : Prop := {
  vm_dir : length (page_directory v) = 1024%nat;
  vm_paging : paging v = true;
  vm_table d t : table_at v d = Some t →
    0 < t < 2 ^ 32 ∧ t mod 4096 = 0 ∧ walk v (t / 4096) = Some t;
  vm_inj d d' t : table_at v d = Some t → table_at v d' = Some t → d = d';
  vm_pmm : pmm_wf (frames v) ∧ counted (frames v);
  vm_owned d t : table_at v d = Some t → t / 4096 ∉ free_set (frames v);
}.

(** Two words of page tables at the same address are the same entry. *)
Lemma slot_inj t t' i i' :
  t mod 4096 = 0 → t' mod 4096 = 0 → 0 ≤ i < 1024 → 0 ≤ i' < 1024 →
  t + 4 * i = t' + 4 * i' → t = t' ∧ i = i'.
Proof. intros. dlia. Qed.

Lemma wp_poke v t i x (Q : unit → vmm → list event → Prop) :
  paging v = true → 0 < t < 2 ^ 32 → t mod 4096 = 0 → walk v (t / 4096) = Some t →
  0 ≤ i < 1024 →
  Q tt (set_memory (write_word (t + 4 * i) x (memory v)) v) [] →
  wp (poke (u32 (t + 4 * i)) x) v Q.
Proof.
  intros Hp Ht Hal Hw Hi HQ. unfold poke. wp_steps. rewrite u32_small by dlia.
  rewrite translate_walk by (done || lia).
  replace ((t + 4 * i) / 4096) with (t / 4096) by dlia. rewrite Hw.
  cbn [mbind option_bind].
  replace (t + (t + 4 * i) mod 4096) with (t + 4 * i) by dlia.
  eapply wp_lift; [reflexivity|]. apply wp_modify. exact HQ.
Qed.

(** Writing one entry of an existing table. *)
Lemma map_entry v p t e :
  vm_ok v → 0 ≤ p < 2 ^ 20 → table_at v (p / 1024) = Some t →
  (∀ d t', table_at v d = Some t' → t' / 4096 ≠ p) →
  let v' := set_memory (write_word (t + 4 * (p mod 1024)) e (memory v)) v in
  vm_ok v' ∧
  ∀ q, 0 ≤ q < 2 ^ 20 →
    pte_at v' q = if q =? p then (if present e then Some e else None) else pte_at v q.
Proof.
  intros Hok Hp Ht Hnot v'. pose proof Hok as [H1 H2 H3 H4 H5 H6].
  assert (∀ d, table_at v' d = table_at v d) as Htab by done.
  assert (∀ q, 0 ≤ q < 2 ^ 20 →
    pte_at v' q = if q =? p then (if present e then Some e else None) else pte_at v q)
    as Hpte.
  { intros q Hq. unfold pte_at. rewrite Htab.
    destruct (Z.eqb_spec q p) as [->|Hne].
    - rewrite Ht. cbn [mbind option_bind v' set_memory memory]. unfold write_word.
      by rewrite Z.eqb_refl.
    - destruct (table_at v (q / 1024)) as [t'|] eqn:Ht'; [|done].
      cbn [mbind option_bind v' set_memory memory]. unfold write_word.
      destruct (Z.eqb_spec (t' + 4 * (q mod 1024)) (t + 4 * (p mod 1024))) as [E|]; [|done].
      exfalso. destruct (slot_inj t' t (q mod 1024) (p mod 1024)) as [-> Hi]; try exact E;
        [by eapply H3|by eapply H3|dlia|dlia|].
      pose proof (H4 _ _ _ Ht Ht'). apply Hne. dlia. }
  split; [|exact Hpte]. constructor; try done.
  intros d t' Ht'. rewrite Htab in Ht'. destruct (H3 d t' Ht') as (Hr & Hal & Hw).
  split; [exact Hr|]. split; [exact Hal|]. rewrite walk_pte, Hpte by dlia.
  destruct (Z.eqb_spec (t' / 4096) p) as [E|]; [exfalso; exact (Hnot d t' Ht' E)|].
  by rewrite <-walk_pte.
Qed.

Definition lowest_frame (s : pmm) (p : Z) : Prop :=
  p ∈ free_set s ∧ ∀ q, q ∈ free_set s → p ≤ q.

(** The frames an operation may have taken: nothing, or some of the free ones. *)
Definition fewer (s s' : pmm) : Prop :=
  total_pages s' = total_pages s ∧ free_set s' ⊆ free_set s.

#[export] Instance fewer_preorder : PreOrder fewer.
Proof.
  split.
  - intros s. done.
  - intros s1 s2 s3 [H1 H2] [H3 H4]. split; [congruence|set_solver].
Qed.

Lemma pte_ext v v' q :
  (∀ d, table_at v' d = table_at v d) → 0 ≤ q →
  (∀ d t i, table_at v d = Some t → 0 ≤ i < 1024 →
     memory v' (t + 4 * i) = memory v (t + 4 * i)) →
  pte_at v' q = pte_at v q.
Proof.
  intros Htab Hq Hmem. unfold pte_at. rewrite Htab.
  destruct (table_at v (q / 1024)) as [t|] eqn:Ht; [|done]. cbn [mbind option_bind].
  rewrite (Hmem _ t _ Ht) by dlia. done.
Qed.

Lemma walk_of_pte v v' q : pte_at v' q = pte_at v q → walk v' q = walk v q.
Proof. rewrite !walk_pte. by intros ->. Qed.

(** The loop that zeroes a fresh table. *)
Lemma zero_loop v f :
  vm_ok v → 0 < f < 2 ^ 32 → f mod 4096 = 0 → walk v (f / 4096) = Some f →
  (∀ d, table_at v d ≠ Some f) →
  wp (kfold 0 1024 (λ i _, poke (u32 (f + 4 * i)) 0) tt) v (λ _ v' o, o = [] ∧
    ∃ m, v' = set_memory m v ∧ (∀ i, 0 ≤ i < 1024 → m (f + 4 * i) = 0) ∧
      ∀ d t i, table_at v d = Some t → 0 ≤ i < 1024 → m (t + 4 * i) = memory v (t + 4 * i)).
Proof.
  intros Hok Hf Hal Hw Hnot. pose proof Hok as [H1 H2 H3 H4 H5 H6].
  apply wp_kfold with (I := λ n _ v' o, o = [] ∧
    ∃ m, v' = set_memory m v ∧ (∀ i, 0 ≤ i < n → m (f + 4 * i) = 0) ∧
      ∀ d t i, table_at v d = Some t → 0 ≤ i < 1024 → m (t + 4 * i) = memory v (t + 4 * i)).
  - split; [done|]. exists (memory v). split; [by destruct v|]. split; [lia|done].
  - intros n [] v1 o Hn (-> & m & -> & Hz & Hm).
    apply wp_poke; [done|done|done| |lia|].
    + rewrite (walk_of_pte v (set_memory m v)); [exact Hw|]. apply pte_ext; [done|dlia|exact Hm].
    + split; [done|]. cbn [set_memory memory]. exists (write_word (f + 4 * n) 0 m).
      split; [done|]. unfold write_word. split.
      * intros i Hi. destruct (Z.eqb_spec (f + 4 * i) (f + 4 * n)); [done|]. apply Hz. lia.
      * intros d t i Ht Hi. destruct (Z.eqb_spec (t + 4 * i) (f + 4 * n)) as [E|].
        -- exfalso. destruct (H3 d t Ht) as (_ & Halt & _).
           destruct (slot_inj t f i n Halt Hal) as [-> _]; [lia|lia|exact E|].
           exact (Hnot d Ht).
        -- by apply (Hm d).
  - intros [] v1 o (-> & m & -> & Hz & Hm). split; [done|]. exists m. split; [done|].
    split; [exact Hz|exact Hm].
Qed.

(** A zeroed frame installed in the directory: no page changes. *)
Lemma install_table v d f e dir :
  vm_ok v → 0 ≤ d < 1024 → table_at v d = None →
  0 < f < 2 ^ 32 → f mod 4096 = 0 → walk v (f / 4096) = Some f →
  (∀ d', table_at v d' ≠ Some f) → f / 4096 ∉ free_set (frames v) →
  (∀ i, 0 ≤ i < 1024 → memory v (f + 4 * i) = 0) →
  present e = true → frame_of e = f → aset (page_directory v) d e = Some dir →
  let v' := set_directory dir v in
  vm_ok v' ∧ table_at v' d = Some f ∧ ∀ q, 0 ≤ q < 2 ^ 20 → pte_at v' q = pte_at v q.
Proof.
  intros Hok Hd Habs Hf Hal Hw Hnot Hfree Hz Hpe Hfe Hset v'.
  pose proof Hok as [H1 H2 H3 H4 H5 H6].
  apply aset_inv in Hset as [_ ->].
  assert (∀ d', table_at v' d' = if d' =? d then Some f else table_at v d') as Htab.
  { intros d'. unfold table_at. cbn [v' set_directory page_directory].
    destruct (Z.eqb_spec d' d) as [->|Hne].
    - rewrite aget_insert_eq by (rewrite H1; lia). cbn [mbind option_bind]. by rewrite Hpe, Hfe.
    - rewrite aget_insert_ne by lia. done. }
  assert (∀ q, 0 ≤ q < 2 ^ 20 → pte_at v' q = pte_at v q) as Hpte.
  { intros q Hq. unfold pte_at. rewrite Htab. destruct (Z.eqb_spec (q / 1024) d) as [->|]; [|done].
    rewrite Habs. cbn [mbind option_bind v' set_directory memory].
    rewrite Hz by dlia. reflexivity. }
  assert (∀ q, 0 ≤ q < 2 ^ 20 → walk v' q = walk v q) as Hwalk by (intros q Hq; by apply walk_of_pte, Hpte).
  split; [|split; [|exact Hpte]].
  2: { rewrite Htab, Z.eqb_refl. done. }
  constructor; try done.
  - cbn [v' set_directory page_directory]. by rewrite length_insert.
  - intros d' t. rewrite Htab. destruct (Z.eqb_spec d' d) as [->|].
    + intros [= <-]. split; [exact Hf|]. split; [exact Hal|]. rewrite Hwalk by dlia. exact Hw.
    + intros Ht. destruct (H3 d' t Ht) as (Hr & Ha & Hw'). split; [exact Hr|].
      split; [exact Ha|]. rewrite Hwalk by dlia. exact Hw'.
  - intros d1 d2 t. rewrite !Htab. destruct (Z.eqb_spec d1 d) as [->|], (Z.eqb_spec d2 d) as [->|].
    + done.
    + intros [= <-] Ht. by destruct (Hnot d2).
    + intros Ht [= <-]. by destruct (Hnot d1).
    + apply H4.
  - intros d' t. rewrite Htab. destruct (Z.eqb_spec d' d) as [->|]; [by intros [= <-]|apply H6].
Qed.

(** Taking a frame from the pool. *)
Lemma vm_ok_frames v s :
  vm_ok v → pmm_wf s → counted s → free_set s ⊆ free_set (frames v) → vm_ok (set_frames s v).
Proof.
  intros [H1 H2 H3 H4 H5 H6] Hwf Hc Hsub. constructor; try done. 
  intros d t Ht Hin. apply (H6 d t Ht). set_solver.
Qed.

Lemma alloc_frame v :
  vm_ok v →
  wp (zoom pmm_alloc) v (λ a v' o, o = [] ∧
    ((∃ p, lowest_frame (frames v) p ∧ 0 ≤ p < MAX_PAGES ∧ a = p * 4096 ∧
        v' = set_frames (frames v') v ∧ vm_ok v' ∧
        total_pages (frames v') = total_pages (frames v) ∧
        free_set (frames v') = free_set (frames v) ∖ {[p]}) ∨
     (free_set (frames v) = ∅ ∧ a = 0 ∧ v' = v))).
Proof.
  intros Hok. destruct (vm_pmm _ Hok) as [Hwf Hc]. apply wp_zoom.
  eapply wp_mono; [by apply pmm_alloc_spec|]. cbn [lens_get lens_set vmm_frames_lens].
  intros a s' o (-> & [(p & Hin & Hmin & -> & Hm & Hc')|(He & -> & ->)]); (split; [done|]).
  - left. exists p. pose proof (free_set_mark_used _ _ _ Hm) as Hfs.
    change (free_set (set_used (used_pages (frames v) + 1) (frames v)))
      with (free_set (frames v)) in Hfs.
    split; [done|]. apply elem_of_free_set in Hin as [Hin _].
    pose proof (wf_total _ Hwf). split; [lia|]. split; [done|]. split; [done|].
    split; [|split; [apply Hm|exact Hfs]].
    apply vm_ok_frames; [exact Hok|apply Hm|exact Hc'|set_solver].
  - right. split; [done|]. split; [done|]. by destruct v.
Qed.

(** ** [vmm_get_table] and [vmm_map] *)

Definition dir_of (p : Z) : Z := p / 1024.

(** A table for directory entry [d] is there afterwards: the old one, or the lowest
    free frame. *)
Definition table_step (v v' : vmm) (d : Z) : Prop :=
  (∀ d', d' ≠ d → table_at v' d' = table_at v d') ∧
  match table_at v d with
  | Some t => table_at v' d = Some t ∧ frames v' = frames v
  | None => ∃ f, lowest_frame (frames v) f ∧ table_at v' d = Some (f * 4096) ∧
              free_set (frames v') = free_set (frames v) ∖ {[f]}
  end.

(** No page changes; the entry has the rights of [flags] if it is new. *)
Definition directory_step (v v' : vmm) (d flags : Z) : Prop :=
  (∀ q, 0 ≤ q < 2 ^ 20 → pte_at v' q = pte_at v q) ∧
  ∀ d', dir_rights v' d' = if d' =? d then Some (default (rights_of flags) (dir_rights v d')) else dir_rights v d'.

(** The frame [a] becomes the table of directory entry [d]. *)
Lemma new_table v a d flags :
  vm_ok v → 0 ≤ d < 1024 → table_at v d = None → 0 < a < 2 ^ 32 → a mod 4096 = 0 →
  walk v (a / 4096) = Some a → a / 4096 ∉ free_set (frames v) → (∀ d', table_at v d' ≠ Some a) → 0 ≤ flags < 4096 →
  wp (_ ← kfold 0 1024 (λ i _, poke (u32 (a + 4 * i)) 0) tt;
      set_pde d (Z.lor (Z.lor a flags) PAGE_PRESENT);;
      mret a) v (λ t v' o, o = [] ∧ t = a ∧ vm_ok v' ∧ frames v' = frames v ∧
    table_at v' d = Some a ∧ (∀ d', d' ≠ d → table_at v' d' = table_at v d') ∧ directory_step v v' d flags).
Proof.
  intros Hok Hd Habs Ha Hal Hwa Hfree Hnot Hflags. wp_steps.
  eapply wp_mono; [by apply zero_loop|]. intros [] v2 o (-> & m & -> & Hz & Hm).
  assert (∀ q, 0 ≤ q → pte_at (set_memory m v) q = pte_at v q) as Hp
    by (intros q Hq; apply pte_ext; [done|done|exact Hm]).
  assert (∀ q, 0 ≤ q → walk (set_memory m v) q = walk v q) as Hw by (intros q Hq; by apply walk_of_pte, Hp).
  assert (vm_ok (set_memory m v)) as Hok2.
  { destruct Hok as [K1 K2 K3 K4 K5 K6]. constructor; try done.
    intros d' t Ht. destruct (K3 d' t Ht) as (Hr & Ht0 & Hwt). split; [exact Hr|].
    split; [exact Ht0|]. by rewrite Hw by dlia. }
  destruct (entry_fields a flags) as (He1 & He2 & _); [lia|exact Hal|exact Hflags|].
  set (e := Z.lor (Z.lor a flags) PAGE_PRESENT) in *.
  assert (aset (page_directory v) d e = Some (<[Z.to_nat d := e]> (page_directory v))) as Hset
    by (apply aset_Some; rewrite (vm_dir _ Hok); lia).
  unfold set_pde. wp_steps. eapply wp_lift; [exact Hset|]. wp_steps.
  edestruct (install_table (set_memory m v) d a e) as (Hok3 & Ht3 & Hw3);
    [exact Hok2|exact Hd|exact Habs|exact Ha|exact Hal|by rewrite Hw by dlia|exact Hnot|exact Hfree|exact Hz|exact He1
    |exact He2|exact Hset|].
  split; [done|]. split; [done|]. split; [exact Hok3|]. split; [reflexivity|].
  split; [exact Ht3|]. split; [|split].
  - intros d' Hne. unfold table_at. cbn [set_directory page_directory set_memory]. by rewrite aget_insert_ne by lia.
  - intros q Hq. rewrite Hw3 by exact Hq. apply Hp. lia.
  - intros d'. unfold dir_rights at 1, pde_at. cbn [set_directory page_directory set_memory].
    destruct (Z.eqb_spec d' d) as [->|Hne]; [|by rewrite aget_insert_ne by lia].
    rewrite aget_insert_eq by (rewrite (vm_dir _ Hok); lia). cbn [mbind option_bind]. rewrite He1.
    cbn [fmap option_fmap option_map]. unfold e. rewrite rights_of_entry by exact Hal.
    assert (pde_at v d = None) as Hnone by (rewrite table_at_pde in Habs; by destruct (pde_at v d)).
    unfold dir_rights. by rewrite Hnone.
Qed.

Lemma get_table_spec v virt flags :
  vm_ok v → 0 ≤ virt < 2 ^ 32 → 0 ≤ flags < 4096 →
  (table_at v (virt / 2 ^ 22) = None → ∀ f, lowest_frame (frames v) f →
     0 < f ∧ walk v f = Some (f * 4096)) →
  wp (vmm_get_table virt flags) v (λ t v' o, o = [] ∧ vm_ok v' ∧ fewer (frames v) (frames v') ∧
    ((t ≠ 0 ∧ table_at v' (virt / 2 ^ 22) = Some t ∧ table_step v v' (virt / 2 ^ 22) ∧
      directory_step v v' (virt / 2 ^ 22) flags) ∨
     (t = 0 ∧ table_at v (virt / 2 ^ 22) = None ∧ free_set (frames v) = ∅ ∧ v' = v))).
Proof.
  intros Hok Hvirt Hflags Hid. pose proof Hok as [H1 H2 H3 H4 H5 H6].
  unfold vmm_get_table. rewrite Z.shiftr_div_pow2 by lia.
  set (d := virt / 2 ^ 22) in *. assert (0 ≤ d < 1024) as Hd by (unfold d; dlia). wp_steps.
  destruct (aget_is_Some (page_directory v) d) as [pde Hpde]; [rewrite H1; lia|].
  assert (table_at v d = if present pde then Some (frame_of pde) else None) as Ht
    by (unfold table_at; by rewrite Hpde).
  eapply wp_lift; [exact Hpde|]. destruct (present pde) eqn:Hpr; wp_steps.
  { split; [done|]. split; [exact Hok|]. split; [reflexivity|].
    left. destruct (H3 _ _ Ht). split; [lia|]. split; [exact Ht|].
    split; [split; [done|by rewrite Ht]|]. split; [done|]. intros d'. destruct (Z.eqb_spec d' d) as [->|]; [|done].
    unfold dir_rights, pde_at. rewrite Hpde. cbn [mbind option_bind]. by rewrite Hpr. }
  eapply wp_mono; [by apply alloc_frame|].
  intros a v1 o (-> & [(f & Hlow & Hf & -> & Hv1 & Hok1 & Htot & Hfs)|(He & -> & ->)]).
  2: { simpl. wp_steps. split; [done|]. split; [exact Hok|]. split; [reflexivity|].
       right. done. }
  destruct (Hid Ht f Hlow) as [Hf0 Hwf]. unfold MAX_PAGES in Hf.
  destruct (Z.eqb_spec (f * 4096) 0); [lia|]. assert (f * 4096 / 4096 = f) as Hdiv by dlia.
  assert (∀ q, walk v1 q = walk v q) as Hw1 by (by rewrite Hv1).
  assert (∀ q, table_at v1 q = table_at v q) as Ht1 by (by rewrite Hv1).
  eapply wp_mono.
  { apply new_table; [exact Hok1|exact Hd|by rewrite Ht1|lia|dlia|by rewrite Hdiv, Hw1| | |exact Hflags].
    - rewrite Hdiv, Hfs. set_solver.
    - intros d' Htd. rewrite Ht1 in Htd. apply (H6 d' _ Htd). rewrite Hdiv. apply Hlow. }
  intros t v3 o (-> & -> & Hok3 & Hfr & Ht3 & Hother & Hstep). split; [done|]. split; [exact Hok3|]. rewrite Hfr.
  split; [split; [exact Htot|rewrite Hfs; set_solver]|].
  left. split; [lia|]. split; [exact Ht3|]. split; [|rewrite Hv1 in Hstep; exact Hstep].
  split; [intros d' Hne; by rewrite Hother, Ht1|]. rewrite Ht, Hfr. exists f. done.
Qed.

Lemma mapped_rights v v1 v2 p flags e :
  directory_step v v1 (p / 1024) flags →
  (∀ q, 0 ≤ q < 2 ^ 20 → pte_at v2 q = if q =? p then Some e else pte_at v1 q) →
  rights_of e = rights_of flags → (∀ d, dir_rights v2 d = dir_rights v1 d) → rights_step v v2 p flags.
Proof.
  intros [Hsame Hdirs] Hpte He Hd. constructor.
  2: { intros d. by rewrite Hd, Hdirs. }
  intros q Hq. unfold rights. rewrite Hd, Hdirs, Hpte, Hsame by exact Hq.
  destruct (Z.eqb_spec q p) as [->|Hne]; [rewrite Z.eqb_refl; cbn; by rewrite He|].
  destruct (Z.eqb_spec (q / 1024) (p / 1024)) as [E|]; [|done].
  destruct (dir_rights v (q / 1024)) as [x|] eqn:Ex; [done|]. cbn [default mbind option_bind].
  unfold dir_rights in Ex. destruct (pde_at v (q / 1024)) as [|] eqn:Ep; [done|].
  unfold pte_at. by rewrite table_at_pde, Ep.
Qed.

(** What [vmm_map] does to a page, when the kernel can reach the table. *)
Lemma vmm_map_spec v virt phys flags :
  vm_ok v → 0 ≤ virt < 2 ^ 32 → 0 ≤ phys < 2 ^ 32 → 0 ≤ flags < 4096 →
  (∀ d t, table_at v d = Some t → t / 4096 ≠ virt / 4096) →
  (table_at v (virt / 2 ^ 22) = None → ∀ f, lowest_frame (frames v) f →
     0 < f ∧ f ≠ virt / 4096 ∧ walk v f = Some (f * 4096)) →
  wp (vmm_map virt phys flags) v (λ _ v' o, vm_ok v' ∧ fewer (frames v) (frames v') ∧
    ((o = [] ∧ (∀ q, 0 ≤ q < 2 ^ 20 →
        walk v' q = if q =? virt / 4096 then Some (frame_of phys) else walk v q) ∧
      table_step v v' (virt / 2 ^ 22) ∧ rights_step v v' (virt / 4096) flags) ∨
     (o = [EvPrintf "VMM: failed to get page table for 0x%x\n" [AInt virt]] ∧
      table_at v (virt / 2 ^ 22) = None ∧ free_set (frames v) = ∅ ∧ v' = v))).
Proof.
  intros Hok Hvirt Hphys Hflags Hnot Hid. unfold vmm_map.
  change 0x3FF with (Z.ones 10). rewrite Z.land_ones, Z.shiftr_div_pow2 by lia.
  change (2 ^ 12) with 4096. change (2 ^ 10) with 1024.
  set (p := virt / 4096) in *. assert (0 ≤ p < 2 ^ 20) as Hp by (unfold p; dlia).
  assert (virt / 2 ^ 22 = p / 1024) as Hdir by (unfold p; rewrite Z.div_div by lia; f_equal; lia).
  rewrite Hdir in *. wp_steps. eapply wp_mono.
  { apply get_table_spec; [exact Hok|exact Hvirt|exact Hflags|]. rewrite Hdir.
    intros Habs f Hlow. destruct (Hid Habs f Hlow) as (? & _ & ?). done. }
  rewrite Hdir.
  intros t v1 o (-> & Hok1 & Hfew & [(Ht0 & Ht & Hstep & Hdirs)|(-> & Habs & He & ->)]).
  2: { simpl. wp_steps. split; [exact Hok|]. split; [reflexivity|]. right. done. }
  destruct (Z.eqb_spec t 0); [done|].
  destruct (vm_table _ Hok1 _ _ Ht) as (Hr & Hal & Hwt).
  apply wp_poke; [apply Hok1|exact Hr|exact Hal|exact Hwt|apply Z.mod_pos_bound; lia|].
  assert (0 ≤ frame_of phys < 2 ^ 32 ∧ frame_of phys mod 4096 = 0) as [Hfr Hfa].
  { rewrite frame_of_eq by exact Hphys. dlia. }
  destruct (entry_fields (frame_of phys) flags Hfr Hfa Hflags) as (He1 & He2 & _).
  set (e := Z.lor (Z.lor (frame_of phys) flags) PAGE_PRESENT) in *.
  assert (∀ d t', table_at v1 d = Some t' → t' / 4096 ≠ p) as Hnot1.
  { intros d t' Ht'. destruct Hstep as [Hother Hself].
    destruct (Z.eq_dec d (p / 1024)) as [->|Hne]; [|rewrite Hother in Ht' by done; by apply (Hnot d)].
    destruct (table_at v (p / 1024)) as [t0|] eqn:E.
    - destruct Hself as [Hself _]. apply (Hnot (p / 1024)). congruence.
    - destruct Hself as (f & Hlow & Hself & _). assert (t' = f * 4096) as -> by congruence.
      replace (f * 4096 / 4096) with f by dlia. by destruct (Hid eq_refl f Hlow) as (_ & ? & _). }
  destruct (map_entry v1 p t e Hok1 Hp Ht Hnot1) as [Hok2 Hpte]. cbv zeta in *. rewrite He1 in Hpte.
  split; [exact Hok2|]. split; [exact Hfew|]. left. split; [done|]. split; [|split; [exact Hstep|]].
  { intros q Hq. rewrite !walk_pte, Hpte, (proj1 Hdirs) by exact Hq. destruct (q =? p); [|done].
    cbn [fmap option_fmap option_map]. by rewrite He2. }
  eapply mapped_rights; [exact Hdirs|exact Hpte|exact (rights_of_entry _ _ Hfa)|done].
Qed.

(** ** [vmm_init] *)

Definition user_entry (p : Z) : Z := Z.lor (Z.lor (Z.lor p PAGE_PRESENT) PAGE_WRITABLE) PAGE_USER.

Lemma user_entry_eq p : user_entry p = Z.lor (Z.lor p 7) PAGE_PRESENT.
Proof. unfold user_entry, PAGE_PRESENT, PAGE_WRITABLE, PAGE_USER. by rewrite <-!Z.lor_assoc. Qed.

Lemma user_entry_rights p : p mod 4096 = 0 → rights_of (user_entry p) = 6.
Proof. intros Hp. rewrite user_entry_eq. by rewrite rights_of_entry. Qed.

Lemma user_entry_fields p :
  0 ≤ p < 2 ^ 32 → p mod 4096 = 0 → present (user_entry p) = true ∧ frame_of (user_entry p) = p.
Proof.
  intros Hp Hal. rewrite user_entry_eq.
  destruct (entry_fields p 7) as (H1 & H2 & _); [lia|done|lia|done].
Qed.

Section init_spec.
Variables (page_tables : Z) (v0 : vmm).
Hypothesis Hpt : 0 < page_tables ∧ page_tables + 8192 ≤ 0x500000 ∧ page_tables mod 4096 = 0.
Hypothesis Hdir : length (page_directory v0) = 1024%nat.
Hypothesis Hoff : paging v0 = false.

Lemma clear_directory_loop :
  wp (kfold 0 1024 (λ i _, set_pde i 0) tt) v0 (λ _ v' o, o = [] ∧
    v' = set_directory (replicate 1024 0) v0).
Proof.
  apply wp_kfold with (I := λ i _ v' o, o = [] ∧
    v' = set_directory (replicate (Z.to_nat i) 0 ++ drop (Z.to_nat i) (page_directory v0)) v0).
  - split; [done|]. by destruct v0.
  - intros i [] v1 o Hi (-> & ->). unfold set_pde. wp_steps.
    destruct (Z_of_nat_complete i) as [n ->]; [lia|]. rewrite Nat2Z.id.
    destruct (lookup_lt_is_Some_2 (page_directory v0) n) as [x Hx]; [lia|].
    eapply wp_lift.
    { apply aset_Some. cbn [set_directory page_directory].
      rewrite length_app, length_replicate, length_drop. lia. }
    wp_steps. split; [done|]. cbn [set_directory page_directory].
    replace (Z.to_nat (Z.of_nat n + 1)) with (S n) by lia. rewrite Nat2Z.id.
    rewrite (drop_S _ _ _ Hx), insert_app_r_alt by (rewrite length_replicate; lia).
    rewrite length_replicate, Nat.sub_diag, replicate_S_end, <-app_assoc. done.
  - intros [] v1 o (-> & ->). split; [done|]. change (Z.to_nat (0 + Z.of_nat 1024)) with 1024%nat.
    rewrite drop_ge, app_nil_r by lia. done.
Qed.

(** The two tables filled in, before paging. *)
Lemma fill_tables_loop v :
  paging v = false →
  wp (kfold 0 1024 (λ i _,
    poke (u32 (page_tables + 4 * i)) (user_entry (i * 4096));;
    poke (u32 (page_tables + 4096 + 4 * i)) (user_entry ((1024 + i) * 4096))) tt) v
    (λ _ v' o, o = [] ∧ ∃ m, v' = set_memory m v ∧
      ∀ i, 0 ≤ i < 1024 → m (page_tables + 4 * i) = user_entry (i * 4096) ∧
        m (page_tables + 4096 + 4 * i) = user_entry ((1024 + i) * 4096)).
Proof.
  intros Hp.
  apply wp_kfold with (I := λ n _ v' o, o = [] ∧ ∃ m, v' = set_memory m v ∧
    ∀ i, 0 ≤ i < n → m (page_tables + 4 * i) = user_entry (i * 4096) ∧
      m (page_tables + 4096 + 4 * i) = user_entry ((1024 + i) * 4096)).
  - split; [done|]. exists (memory v). split; [by destruct v|lia].
  - intros n [] v1 o Hn (-> & m & -> & Hm).
    assert (∀ m' va x (Q : unit → vmm → list event → Prop), 
      Q tt (set_memory (write_word va x m') v) [] → wp (poke va x) (set_memory m' v) Q) as Hpoke.
    { intros m' va x Q HQ. unfold poke. wp_steps. unfold translate. cbn [set_memory paging].
      rewrite Hp. cbn [negb]. eapply wp_lift; [reflexivity|]. by apply wp_modify. }
    wp_steps. apply Hpoke. apply Hpoke. split; [done|].
    eexists. split; [reflexivity|]. rewrite !u32_small by lia.
    unfold write_word. intros i Hi.
    destruct (Z.eqb_spec (page_tables + 4 * i) (page_tables + 4096 + 4 * n)); [lia|].
    destruct (Z.eqb_spec (page_tables + 4 * i) (page_tables + 4 * n)),
      (Z.eqb_spec (page_tables + 4096 + 4 * i) (page_tables + 4096 + 4 * n)); try lia.
    + assert (i = n) as -> by lia. done.
    + destruct (Z.eqb_spec (page_tables + 4096 + 4 * i) (page_tables + 4 * n)); [lia|].
      apply Hm. lia.
  - intros [] v1 o (-> & m & -> & Hm). split; [done|]. exists m. split; [done|exact Hm].
Qed.

(** The mapping right after paging is switched on. *)
Definition identity_map (v : vmm) : Prop :=
  ∀ q, 0 ≤ q < 2 ^ 20 → walk v q = if q <? 2048 then Some (q * 4096) else None.

(** The directory and the tables that [vmm_init] builds. *)
Definition boot_directory : list Z :=
  <[Z.to_nat 1 := user_entry (page_tables + 4096)]> (<[Z.to_nat 0 := user_entry page_tables]> (replicate 1024 0)).

Definition tables_filled (m : Z → Z) : Prop := ∀ i, 0 ≤ i < 1024 →
  m (page_tables + 4 * i) = user_entry (i * 4096) ∧
  m (page_tables + 4096 + 4 * i) = user_entry ((1024 + i) * 4096).

Section paging_on.
Variable m : Z → Z.
Hypothesis Hm : tables_filled m.
Let v : vmm := Vmm boot_directory (frames v0) m true.

Lemma boot_tables d :
  table_at v d = if d =? 0 then Some page_tables else if d =? 1 then Some (page_tables + 4096) else None.
Proof.
  unfold table_at. change (page_directory v) with boot_directory. unfold boot_directory.
  destruct (user_entry_fields page_tables) as [U1 U2]; [lia|lia|].
  destruct (user_entry_fields (page_tables + 4096)) as [U3 U4]; [lia|dlia|].
  destruct (Z.eqb_spec d 0) as [->|H0].
  { rewrite aget_insert_ne, aget_insert_eq by done. cbn [mbind option_bind]. by rewrite U1, U2. }
  destruct (Z.eqb_spec d 1) as [->|H1].
  { rewrite aget_insert_eq by (rewrite length_insert; done). cbn [mbind option_bind]. by rewrite U3, U4. }
  rewrite !aget_insert_ne by lia. destruct (aget (replicate 1024 0) d) as [x|] eqn:E; [|done].
  pose proof (aget_Some_range _ _ _ E) as Hr. rewrite length_replicate in Hr.
  rewrite aget_replicate in E by lia. injection E as <-. reflexivity.
Qed.

Lemma boot_dir_rights d : dir_rights v d = if (d =? 0) || (d =? 1) then Some 6 else None.
Proof.
  unfold dir_rights. pose proof (boot_tables d) as Ht. rewrite table_at_pde in Ht. revert Ht.
  destruct (Z.eqb_spec d 0) as [->|]; [|destruct (Z.eqb_spec d 1) as [->|]; [|by destruct (pde_at v d)]];
    unfold pde_at; change (page_directory v) with boot_directory; unfold boot_directory.
  - rewrite aget_insert_ne, aget_insert_eq by done. cbn [mbind option_bind].
    destruct (present _); [|done]. intros _. cbn. f_equal. apply user_entry_rights. lia.
  - rewrite aget_insert_eq by (rewrite length_insert; done). cbn [mbind option_bind].
    destruct (present _); [|done]. intros _. cbn. f_equal. apply user_entry_rights. dlia.
Qed.

Lemma boot_rights q : 0 ≤ q < 2 ^ 20 → rights v q = if q <? 2048 then Some 6 else None.
Proof.
  intros Hq. unfold rights, pte_at. rewrite boot_dir_rights, boot_tables. change (memory v) with m.
  destruct (Z.eqb_spec (q / 1024) 0) as [E0|E0]; [|destruct (Z.eqb_spec (q / 1024) 1) as [E1|E1]].
  - cbn [orb mbind option_bind]. destruct (Hm (q mod 1024)) as [-> _]; [dlia|].
    destruct (user_entry_fields (q mod 1024 * 4096)) as [-> _]; [dlia|dlia|]. cbn [mbind option_bind].
    rewrite user_entry_rights by dlia. destruct (Z.ltb_spec q 2048); [done|dlia].
  - cbn [orb mbind option_bind]. destruct (Hm (q mod 1024)) as [_ ->]; [dlia|].
    destruct (user_entry_fields ((1024 + q mod 1024) * 4096)) as [-> _]; [dlia|dlia|]. cbn [mbind option_bind].
    rewrite user_entry_rights by dlia. destruct (Z.ltb_spec q 2048); [done|dlia].
  - cbn. destruct (Z.ltb_spec q 2048); [dlia|done].
Qed.

Lemma boot_identity : identity_map v.
Proof.
  intros q Hq. unfold walk. rewrite boot_tables. change (memory v) with m.
  destruct (Z.eqb_spec (q / 1024) 0) as [E0|E0]; [|destruct (Z.eqb_spec (q / 1024) 1) as [E1|E1]].
  - cbn [mbind option_bind]. destruct (Hm (q mod 1024)) as [-> _]; [dlia|].
    destruct (user_entry_fields (q mod 1024 * 4096)) as [-> ->]; [dlia|dlia|].
    destruct (Z.ltb_spec q 2048); [f_equal; dlia|dlia].
  - cbn [mbind option_bind]. destruct (Hm (q mod 1024)) as [_ ->]; [dlia|].
    destruct (user_entry_fields ((1024 + q mod 1024) * 4096)) as [-> ->]; [dlia|dlia|].
    destruct (Z.ltb_spec q 2048); [f_equal; dlia|dlia].
  - destruct (Z.ltb_spec q 2048); [dlia|done].
Qed.

Lemma boot_vm_ok :
  pmm_wf (frames v0) → counted (frames v0) →
  page_tables / 4096 ∉ free_set (frames v0) → page_tables / 4096 + 1 ∉ free_set (frames v0) → vm_ok v.
Proof.
  intros Hwf Hc Hown1 Hown2. constructor.
  - cbn [v page_directory]. unfold boot_directory. by rewrite !length_insert.
  - done.
  - intros d t. rewrite boot_tables. destruct (Z.eqb_spec d 0); [|destruct (Z.eqb_spec d 1); [|done]];
      intros [= <-]; (split; [lia|]); (split; [dlia|]); rewrite boot_identity by dlia.
    + destruct (Z.ltb_spec (page_tables / 4096) 2048); [f_equal; dlia|dlia].
    + destruct (Z.ltb_spec ((page_tables + 4096) / 4096) 2048); [f_equal; dlia|dlia].
  - intros d d' t. rewrite !boot_tables. bool_cases; intros H1 H2; try done; try lia;
      injection H1; injection H2; lia.
  - split; [exact Hwf|exact Hc].
  - intros d t. rewrite boot_tables. destruct (Z.eqb_spec d 0); [|destruct (Z.eqb_spec d 1); [|done]];
      intros [= <-]; [exact Hown1|].
    replace ((page_tables + 4096) / 4096) with (page_tables / 4096 + 1) by dlia. exact Hown2.
Qed.
End paging_on.

(** [vmm_init] up to the switch. *)
Lemma tables_built (Q : unit → vmm → list event → Prop) k :
  (∀ m, tables_filled m → wp k (Vmm boot_directory (frames v0) m true) Q) →
  wp (_ ← kfold 0 1024 (λ i _, set_pde i 0) tt;
      set_pde 0 (user_entry page_tables);;
      set_pde 1 (user_entry (u32 (page_tables + 4096)));;
      _ ← kfold 0 1024 (λ i _,
        poke (u32 (page_tables + 4 * i)) (user_entry (i * 4096));;
        poke (u32 (page_tables + 4096 + 4 * i)) (user_entry ((1024 + i) * 4096))) tt;
      kmodify (set_paging true);; k) v0 Q.
Proof.
  intros Hk. wp_steps. eapply wp_mono; [apply clear_directory_loop|]. intros _ v1 o (-> & ->).
  wp_steps. unfold set_pde at 1. wp_steps. eapply wp_lift; [by apply aset_Some|].
  wp_steps. unfold set_pde at 1. wp_steps. cbn [set_directory page_directory].
  rewrite u32_small by lia. eapply wp_lift; [apply aset_Some; rewrite length_insert; done|].
  wp_steps. eapply wp_mono.
  { apply (fill_tables_loop (Vmm boot_directory (frames v0) (memory v0) (paging v0))). exact Hoff. }
  intros _ v2 o (-> & m & -> & Hm). wp_steps. eapply wp_mono; [apply (Hk m Hm)|]. intros a s o Ho. exact Ho.
Qed.

(** The frame for the user stack, frame 0 when there is none. *)
Lemma alloc_stack v :
  vm_ok v →
  wp (zoom pmm_alloc) v (λ a v' o, o = [] ∧ vm_ok v' ∧ fewer (frames v) (frames v') ∧
    (∀ d, table_at v' d = table_at v d) ∧ (∀ q, walk v' q = walk v q) ∧
    (∀ d, dir_rights v' d = dir_rights v d) ∧ (∀ q, rights v' q = rights v q) ∧
    ∃ g, a = g * 4096 ∧ 0 ≤ g < MAX_PAGES ∧
      (lowest_frame (frames v) g ∧ free_set (frames v') = free_set (frames v) ∖ {[g]} ∨
       g = 0 ∧ free_set (frames v) = ∅)).
Proof.
  intros Hok. eapply wp_mono; [by apply alloc_frame|].
  intros a v' o (-> & [(g & Hlow & Hg & -> & Ev & Hok' & Htot & Hfs)|(He & -> & ->)]).
  - split; [done|]. split; [exact Hok'|]. rewrite Ev. split.
    { split; [exact Htot|]. cbn [set_frames frames]. rewrite Hfs. set_solver. }
    do 4 (split; [done|]). exists g. split; [done|]. split; [done|]. left. by split.
  - split; [done|]. split; [done|]. split; [reflexivity|]. do 4 (split; [done|]).
    exists 0. split; [done|]. split; [unfold MAX_PAGES; lia|]. by right.
Qed.

Lemma vmm_init_spec :
  pmm_wf (frames v0) → counted (frames v0) →
  page_tables / 4096 ∉ free_set (frames v0) → page_tables / 4096 + 1 ∉ free_set (frames v0) →
  wp (vmm_init page_tables) v0 (λ _ v' o, vm_ok v' ∧ fewer (frames v0) (frames v') ∧
    o = [EvPrintf "VMM: paging enabled, first 4MB identity mapped\n" []] ∧
    (∀ d, table_at v' d = if d =? 0 then Some page_tables
                          else if d =? 1 then Some (page_tables + 4096) else None) ∧
    (∀ d, dir_rights v' d = if (d =? 0) || (d =? 1) then Some 6 else None) ∧
    (∀ q, 0 ≤ q < 2 ^ 20 → rights v' q = if q <? 2048 then Some 6 else None) ∧
    ∃ g, (lowest_frame (frames v0) g ∧ free_set (frames v') = free_set (frames v0) ∖ {[g]} ∨
          g = 0 ∧ free_set (frames v0) = ∅) ∧
      ∀ q, 0 ≤ q < 2 ^ 20 → walk v' q =
        if q =? 0x500 then Some (g * 4096) else if q <? 2048 then Some (q * 4096) else None).
Proof.
  intros Hwf Hc Hown1 Hown2. unfold vmm_init. apply tables_built. intros m Hm.
  pose proof (boot_vm_ok m Hm Hwf Hc Hown1 Hown2) as Hok3.
  pose proof (boot_tables m) as Htab. pose proof (boot_identity m Hm) as Hid.
  pose proof (boot_dir_rights m) as Hdr. pose proof (boot_rights m Hm) as Hrt.
  set (v3 := Vmm boot_directory (frames v0) m true) in *.
  wp_steps. eapply wp_mono; [exact (alloc_stack v3 Hok3)|].
  intros a v4 o (-> & Hok4 & Hfew & Htab4 & Hw4 & Hd4 & Hr4 & g & -> & Hg & Hgs). change (frames v3) with (frames v0) in Hfew, Hgs.
  unfold MAX_PAGES in Hg. wp_steps. eapply wp_mono.
  { apply (vmm_map_spec v4 0x500000 (g * 4096)
      (Z.lor (Z.lor PAGE_PRESENT PAGE_WRITABLE) PAGE_USER)); [exact Hok4|lia|lia|done| |].
    - intros d t. rewrite Htab4, Htab.
      destruct (Z.eqb_spec d 0); [|destruct (Z.eqb_spec d 1); [|done]]; intros [= <-]; dlia.
    - rewrite Htab4, Htab. done. }
  intros _ v5 o (Hok5 & Hfew5 & [(-> & Hw5 & [Hother Hself] & [Hr5 Hd5])|(_ & Habs & _)]).
  2: { exfalso. rewrite Htab4, Htab in Habs. done. }
  wp_steps. split; [exact Hok5|]. split; [by transitivity (frames v4)|]. split; [done|].
  split.
  { intros d. rewrite <-Htab, <-Htab4. destruct (Z.eq_dec d (0x500000 / 2 ^ 22)) as [->|]; [|by apply Hother].
    rewrite Htab4, Htab in Hself. rewrite Htab4, Htab. apply Hself. }
  split.
  { intros d. rewrite Hd5, Hd4, Hdr. change (0x500000 / 4096 / 1024) with 1. by destruct (Z.eqb_spec d 1) as [->|]. }
  split.
  { intros q Hq. rewrite Hr5, Hd4, Hr4, Hdr, Hrt by exact Hq. by destruct (Z.eqb_spec q (0x500000 / 4096)) as [->|]. }
  exists g. split.
  { destruct Hgs as [[Hlow Hfs]|Hz]; [left|by right]. split; [exact Hlow|].
    rewrite Htab4, Htab in Hself. destruct Hself as [_ ->]. exact Hfs. }
  intros q Hq. rewrite Hw5 by exact Hq. change (0x500000 / 4096) with 0x500.
  destruct (Z.eqb_spec q 0x500); [rewrite frame_of_eq by lia; f_equal; dlia|].
  by rewrite Hw4, Hid.
Qed.
End init_spec.
