(* ===== verification/Memory.v ===== *)
(** * Memory from the first page to the heap

    [heap_map_pages] and [heap_init] of kernel/heap.c over the page allocator and
    virtual memory, and the boot sequence of the three components as kernel_main
    runs it. *)

From S2P Require Import Prelude Pmm Heap Vmm.

(** [heap_map_pages(virt_start, size)]. *)
Definition heap_map_pages (virt_start size : Z) : K vmm unit :=
  let pages := u32 (size + 4095) / 4096 in
  _ ← kloop 0 (Z.to_nat pages) (λ i _,
    phys ← zoom pmm_alloc;
    if phys =? 0 then
      kprintf "heap: out of physical memory!\n" [];;
      mret (inr tt)
    else
      vmm_map (u32 (virt_start + i * 4096)) phys
        (Z.lor (Z.lor PAGE_PRESENT PAGE_WRITABLE) PAGE_USER);;
      mret (inl tt)) tt;
  mret tt.

Record mm := Mm {
  mm_vmm : vmm;
  mm_heap : heap;
}.

#[export] Instance mm_vmm_lens : Lens mm vmm.
Proof. refine {| lens_get := mm_vmm; lens_set := λ v m, Mm v (mm_heap m) |}; try done. by intros []. Defined.
#[export] Instance mm_heap_lens : Lens mm heap.
Proof. refine {| lens_get := mm_heap; lens_set := λ h m, Mm (mm_vmm m) h |}; try done. by intros []. Defined.

(** The first header is written through the mapping: a page fault ends the run. *)
Definition heap_init : K mm unit :=
  zoom (heap_map_pages HEAP_START HEAP_SIZE);;
  m ← kget;
  _ ← klift (translate (mm_vmm m) HEAP_START);
  zoom heap_setup.

(** The memory part of [kernel_main]; [kernel_end] and [page_tables] are addresses the
    linker chooses. *)
Definition memory_init (kernel_end page_tables mem_upper : Z) : K mm unit :=
  zoom (zoom (W := vmm) (pmm_init kernel_end mem_upper));;
  zoom (vmm_init page_tables);;
  heap_init.

(** ** Mapping a run of pages *)

Section map_pages.
Variables (v0 : vmm) (P n : Z).
Hypothesis Hok : vm_ok v0.
Hypothesis HP : 0 ≤ P ∧ P + n ≤ 2 ^ 20 ∧ 1 ≤ n ∧ P / 1024 = (P + n - 1) / 1024.
Hypothesis Habs : table_at v0 (P / 1024) = None.
Hypothesis Hnot : ∀ d t, table_at v0 d = Some t → t / 4096 < P.

(** Enough frames; every one the loop can take as a table is reachable. *)
Hypothesis Hsize : n < Z.of_nat (size (free_set (frames v0))).
Hypothesis Hlow : ∀ f, f ∈ free_set (frames v0) → 0 < f.
Variables f1 f2 : Z.
Hypothesis Hf1 : lowest_frame (frames v0) f1.
Hypothesis Hf2 : f2 ∈ free_set (frames v0) ∖ {[f1]} ∧
  ∀ q, q ∈ free_set (frames v0) ∖ {[f1]} → f2 ≤ q.
Hypothesis Hf2_id : f2 < P ∧ walk v0 f2 = Some (f2 * 4096).

(** After [i] pages: the frames given, in order. *)
Record mapped (i : Z) (gs : list Z) (v : vmm) : Prop := {
  mp_ok : vm_ok v;
  mp_len : Z.of_nat (length gs) = i;
  mp_nodup : NoDup gs;
  mp_frames g : g ∈ gs → g ∈ free_set (frames v0) ∧ g ≠ f2;
  mp_free : free_set (frames v)
    = free_set (frames v0) ∖ list_to_set gs ∖ (if i =? 0 then ∅ else {[f2]});
  mp_walk q : 0 ≤ q < 2 ^ 20 → walk v q =
    if (P <=? q) && (q <? P + i) then
      (g ← gs !! Z.to_nat (q - P); Some (g * 4096))
    else walk v0 q;
  mp_table : table_at v (P / 1024) = if i =? 0 then None else Some (f2 * 4096);
  mp_tables d : d ≠ P / 1024 → table_at v d = table_at v0 d;
  mp_rights q : 0 ≤ q < 2 ^ 20 → rights v q = if (P <=? q) && (q <? P + i) then Some 6 else rights v0 q;
  mp_dirs d : dir_rights v d = if (d =? P / 1024) && negb (i =? 0) then Some 6 else dir_rights v0 d;
}.

Lemma mapped_start : mapped 0 [] v0.
Proof.
  constructor; try done.
  - constructor.
  - intros g Hg. by apply not_elem_of_nil in Hg.
  - rewrite Z.eqb_refl. cbn [list_to_set]. set_solver.
  - intros q Hq. destruct (Z.leb_spec P q), (Z.ltb_spec q (P + 0)); try lia; done.
  - intros q Hq. destruct (Z.leb_spec P q), (Z.ltb_spec q (P + 0)); try lia; done.
  - intros d. by rewrite andb_false_r.
Qed.

Lemma start_rights : dir_rights v0 (P / 1024) = None.
Proof. unfold dir_rights. rewrite table_at_pde in Habs. by destruct (pde_at v0 (P / 1024)). Qed.

Lemma mapped_free_nonempty i gs v :
  mapped i gs v → i < n → free_set (frames v) ≠ ∅.
Proof.
  intros [M1 M2 M3 M4 M5 M6 M7 M8 _ _] Hi He.
  assert (free_set (frames v0) ⊆ list_to_set gs ∪ {[f2]}) as Hsub.
  { intros x Hx. destruct (decide (x ∈ gs)) as [|Hn]; [set_solver|].
    destruct (decide (x = f2)) as [|Hn2]; [set_solver|]. exfalso.
    assert (x ∈ free_set (frames v)) as Hin; [|rewrite He in Hin; set_solver].
    rewrite M5. destruct (i =? 0); set_solver. }
  apply subseteq_size in Hsub.
  assert (size (list_to_set gs ∪ {[f2]} : gset Z) ≤ length gs + 1)%nat as Hle.
  { rewrite size_union_alt, size_list_to_set by exact M3.
    assert (size ({[f2]} ∖ list_to_set gs : gset Z) ≤ size ({[f2]} : gset Z))%nat as Hle
      by (apply subseteq_size; set_solver).
    rewrite size_singleton in Hle. lia. }
  lia.
Qed.

Lemma lowest_unique s p q : lowest_frame s p → lowest_frame s q → p = q.
Proof. intros [H1 H2] [H3 H4]. pose proof (H2 q H3). pose proof (H4 p H1). lia. Qed.

Lemma mapped_dir i : 0 ≤ i < n → (P + i) / 1024 = P / 1024.
Proof.
  intros Hi. pose proof HP as (H1 & H2 & H3 & E). clear -Hi H1 E.
  pose proof (Z.div_le_mono P (P + i) 1024). pose proof (Z.div_le_mono (P + i) (P + n - 1) 1024).
  lia.
Qed.

Lemma mapped_first i gs v : i = 0 → mapped i gs v → gs = [] ∧ free_set (frames v) = free_set (frames v0).
Proof.
  intros Hi [_ M2 _ _ M5 _ _ _ _ _]. subst i. assert (gs = []) as -> by (apply length_zero_iff_nil; lia).
  split; [done|]. rewrite M5, Z.eqb_refl. cbn [list_to_set]. set_solver.
Qed.

(** The frame for the next page, and, at the first page, the one for the table. *)
Lemma mapped_frame i gs v p :
  mapped i gs v → lowest_frame (frames v) p → p ∈ free_set (frames v0) ∧ (p ∉ gs) ∧ p ≠ f2.
Proof.
  intros Hm Hp. pose proof (proj1 Hp) as Hin. rewrite (mp_free _ _ _ Hm) in Hin.
  split; [set_solver|]. split; [set_solver|]. destruct (Z.eqb_spec i 0) as [Hi|]; [|set_solver]. intros ->.
  destruct (mapped_first i gs v Hi Hm) as [_ Hfs]. unfold lowest_frame in Hp. rewrite Hfs in Hp.
  rewrite (lowest_unique _ _ _ Hp Hf1) in Hf2. set_solver.
Qed.

Lemma mapped_second i gs v p v1 f :
  i = 0 → mapped i gs v → lowest_frame (frames v) p → free_set (frames v1) = free_set (frames v) ∖ {[p]} →
  lowest_frame (frames v1) f → f = f2.
Proof.
  intros Hi Hm Hp Hfs [Hf Hfm]. destruct (mapped_first i gs v Hi Hm) as [_ E]. unfold lowest_frame in Hp.
  rewrite E in Hp. rewrite (lowest_unique _ _ _ Hp Hf1), E in Hfs. rewrite Hfs in Hf, Hfm.
  destruct Hf2 as [Hf2a Hf2b]. pose proof (Hf2b f Hf). pose proof (Hfm f2 Hf2a). lia.
Qed.

(** What [vmm_map] leaves is the state after one more page. *)
Lemma mapped_next i gs v p v2 :
  0 ≤ i < n → mapped i gs v → lowest_frame (frames v) p → 0 ≤ p < 2 ^ 20 → vm_ok v2 →
  (∀ q, 0 ≤ q < 2 ^ 20 → walk v2 q = if q =? P + i then Some (frame_of (p * 4096)) else walk v q) →
  (∀ d, d ≠ P / 1024 → table_at v2 d = table_at v d) →
  table_at v2 (P / 1024) = Some (f2 * 4096) →
  free_set (frames v2) = free_set (frames v) ∖ {[p]} ∖ (if i =? 0 then {[f2]} else ∅) →
  rights_step v v2 (P + i) 7 →
  mapped (i + 1) (gs ++ [p]) v2.
Proof.
  intros Hi Hm Hp Hpr Hok2 Hw2 Hother Htab2 Hfs2 [Hr2 Hd2]. destruct (mapped_frame i gs v p Hm Hp) as (Hp0 & Hpgs & Hpf2).
  assert (default 6 (dir_rights v (P / 1024)) = 6) as Hdef.
  { rewrite (mp_dirs _ _ _ Hm), Z.eqb_refl. cbn [andb]. destruct (i =? 0); cbn [negb]; [|done]. by rewrite start_rights. }
  rewrite (mapped_dir i Hi) in Hr2, Hd2. change (rights_of 7) with 6 in Hr2, Hd2. rewrite Hdef in Hr2.
  change (Z.land 6 6) with 6 in Hr2.
  destruct Hm as [M1 M2 M3 M4 M5 M6 M7 M8 M9 M10]. destruct HP as (HP1 & HP2 & HP3 & HP4). constructor.
  - exact Hok2.
  - rewrite length_app. simpl. lia.
  - apply NoDup_app. split; [exact M3|]. split; [|apply NoDup_singleton].
    intros g Hg ->%list_elem_of_singleton. done.
  - intros g [Hg| ->%list_elem_of_singleton]%elem_of_app; [by apply M4|done].
  - destruct (Z.eqb_spec (i + 1) 0); [lia|]. rewrite Hfs2, M5, list_to_set_app_L. cbn [list_to_set].
    destruct (i =? 0); set_solver.
  - intros q Hq. rewrite Hw2 by exact Hq. destruct (Z.eqb_spec q (P + i)) as [->|Hne].
    + destruct (Z.leb_spec P (P + i)), (Z.ltb_spec (P + i) (P + (i + 1))); try lia. cbn [andb].
      replace (Z.to_nat (P + i - P)) with (length gs) by lia.
      rewrite lookup_app_r, Nat.sub_diag by lia. cbn [lookup list_lookup mbind option_bind].
      rewrite frame_of_eq by lia. f_equal. dlia.
    + rewrite M6 by exact Hq. destruct (Z.leb_spec P q), (Z.ltb_spec q (P + i)), (Z.ltb_spec q (P + (i + 1)));
        try lia; cbn [andb]; try done.
      rewrite lookup_app_l by lia. done.
  - destruct (Z.eqb_spec (i + 1) 0); [lia|exact Htab2].
  - intros d Hd. rewrite Hother by exact Hd. by apply M8.
  - intros q Hq. rewrite Hr2, M9 by exact Hq. destruct (Z.eqb_spec q (P + i)), (Z.leb_spec P q), (Z.ltb_spec q (P + i)),
      (Z.ltb_spec q (P + (i + 1))); (reflexivity || lia).
  - intros d. rewrite Hd2. destruct (Z.eqb_spec d (P / 1024)) as [->|Hne]; cbn [andb].
    + destruct (Z.eqb_spec (i + 1) 0); [lia|]. cbn [negb]. by rewrite Hdef.
    + rewrite M10. by apply Z.eqb_neq in Hne as ->.
Qed.

(** One iteration of the loop. *)
Lemma mapped_step i gs v :
  0 ≤ i < n → mapped i gs v →
  wp (phys ← zoom pmm_alloc;
      if phys =? 0 then
        kprintf "heap: out of physical memory!\n" [];;
        mret (inr tt)
      else
        vmm_map (u32 (P * 4096 + i * 4096)) phys
          (Z.lor (Z.lor PAGE_PRESENT PAGE_WRITABLE) PAGE_USER);;
        mret (inl tt)) v
    (λ r v' o, r = inl (B := unit) tt ∧ o = [] ∧ ∃ p, mapped (i + 1) (gs ++ [p]) v').
Proof.
  intros Hi Hm. destruct HP as (HP1 & HP2 & HP3 & HP4).
  wp_steps. eapply wp_mono; [apply alloc_frame; apply (mp_ok _ _ _ Hm)|].
  intros a v1 o (-> & [(p & Hp & Hpr & -> & Hv1 & Hok1 & Htot & Hfs)|(He & _)]).
  2: { exfalso. apply (mapped_free_nonempty i gs v Hm); [lia|exact He]. }
  pose proof (Hlow p (proj1 (mapped_frame i gs v p Hm Hp))). unfold MAX_PAGES in Hpr.
  destruct (Z.eqb_spec (p * 4096) 0); [lia|].
  rewrite u32_small by lia. replace (P * 4096 + i * 4096) with ((P + i) * 4096) by lia.
  assert ((P + i) * 4096 / 4096 = P + i) as Epage by dlia.
  assert ((P + i) * 4096 / 2 ^ 22 = P / 1024) as Edir.
  { rewrite <-(mapped_dir i Hi). change (2 ^ 22) with (4096 * 1024).
    rewrite <-Z.div_div, Epage by lia. done. }
  assert (∀ d, table_at v1 d = table_at v d) as Ht1 by (by rewrite Hv1).
  assert (∀ q, walk v1 q = walk v q) as Hw1 by (by rewrite Hv1).
  pose proof (mp_table _ _ _ Hm) as M7. wp_steps. eapply wp_mono.
  { apply (vmm_map_spec v1 ((P + i) * 4096) (p * 4096)); [exact Hok1|lia|lia|done| |].
    - rewrite Epage. intros d t. rewrite Ht1. destruct (Z.eq_dec d (P / 1024)) as [->|Hd].
      + rewrite M7. destruct (i =? 0); [done|]. intros [= <-]. dlia.
      + rewrite (mp_tables _ _ _ Hm) by done. intros Ht. specialize (Hnot d t Ht). lia.
    - rewrite Edir, Epage, Ht1, M7. destruct (Z.eqb_spec i 0) as [Hi0|]; [|done].
      intros _ f Hf. rewrite (mapped_second i gs v p v1 f Hi0 Hm Hp Hfs Hf). assert (0 < f2) by (apply Hlow; set_solver).
      split; [done|]. split; [lia|].
      rewrite Hw1, (mp_walk _ _ _ Hm) by lia. destruct (Z.leb_spec P f2), (Z.ltb_spec f2 (P + i)); try lia.
      apply Hf2_id. }
  rewrite Epage, Edir.
  intros _ v2 o (Hok2 & Hfew & [(-> & Hw2 & [Hother Hself] & Hrt)|(_ & Habs1 & He & _)]); rewrite Ht1, M7 in *.
  2: { exfalso. destruct (Z.eqb_spec i 0) as [Hi0|]; [|done]. destruct (mapped_first i gs v Hi0 Hm) as [_ E].
       unfold lowest_frame in Hp. rewrite E in Hp, Hfs. rewrite (lowest_unique _ _ _ Hp Hf1), He in Hfs. set_solver. }
  wp_steps. split; [done|]. split; [done|]. exists p. apply (mapped_next i gs v p v2 Hi Hm Hp); [lia|exact Hok2| | | | |].
  - intros q Hq. rewrite Hw2 by exact Hq. by rewrite Hw1.
  - intros d Hd. rewrite Hother by exact Hd. apply Ht1.
  - destruct (Z.eqb_spec i 0) as [Hi0|]; [|apply Hself]. destruct Hself as (f & Hf & Htf & _).
    by rewrite <-(mapped_second i gs v p v1 f Hi0 Hm Hp Hfs Hf).
  - destruct (Z.eqb_spec i 0) as [Hi0|].
    + destruct Hself as (f & Hf & _ & Hfsf). rewrite (mapped_second i gs v p v1 f Hi0 Hm Hp Hfs Hf) in Hfsf.
      by rewrite Hfsf, Hfs.
    + destruct Hself as [_ ->]. rewrite Hfs. set_solver.
  - rewrite Hv1 in Hrt. destruct Hrt as [Hr Hd]. by constructor.
Qed.

Lemma map_pages_spec size :
  u32 (size + 4095) / 4096 = n →
  wp (heap_map_pages (P * 4096) size) v0 (λ _ v' o, o = [] ∧ ∃ gs, mapped n gs v').
Proof.
  intros Hn. unfold heap_map_pages. rewrite Hn. wp_steps.
  apply wp_kloop with (I := λ i _ v' o, o = [] ∧ ∃ gs, mapped i gs v').
  - split; [done|]. exists []. exact mapped_start.
  - intros i [] v o Hi (-> & gs & Hm).
    eapply wp_mono; [apply (mapped_step i gs v); [lia|exact Hm]|].
    intros r v' o (-> & -> & p & Hm'). split; [done|]. by exists (gs ++ [p]).
  - intros [] v o (-> & gs & Hm). wp_steps. split; [done|]. exists gs.
    by replace (0 + Z.of_nat (Z.to_nat n)) with n in Hm by lia.
Qed.
End map_pages.


(** ** The boot sequence *)

Lemma walk_translate v p off f :
  vm_ok v → 0 ≤ p → 0 ≤ off < 4096 → walk v p = Some f →
  translate v (p * 4096 + off) = Some (f + off).
Proof.
  intros Hok Hp Hoff Hw. rewrite translate_walk by (apply Hok || lia).
  replace ((p * 4096 + off) / 4096) with p by dlia. rewrite Hw. cbn [mbind option_bind].
  f_equal. dlia.
Qed.

(** The pool of free frames is an interval. *)
Definition pool (lo hi : Z) : gset Z := list_to_set (seqZ lo (hi - lo)).

Lemma elem_of_pool lo hi p : p ∈ pool lo hi ↔ lo ≤ p < hi.
Proof. unfold pool. rewrite elem_of_list_to_set, elem_of_seqZ. lia. Qed.

Lemma pool_tail lo hi : pool lo hi ∖ {[lo]} = pool (lo + 1) hi.
Proof.
  apply set_eq. intros p. rewrite elem_of_difference, elem_of_singleton, !elem_of_pool. lia.
Qed.

Lemma size_pool lo hi : size (pool lo hi) = Z.to_nat (hi - lo).
Proof. unfold pool. rewrite size_list_to_set, length_seqZ by apply NoDup_seqZ. done. Qed.

Lemma lowest_pool s lo hi p : free_set s = pool lo hi → lowest_frame s p → p = lo.
Proof.
  intros E [Hin Hmin]. rewrite E in Hin. pose proof Hin as Hr. rewrite elem_of_pool in Hr.
  assert (p ≤ lo) by (apply Hmin; rewrite E; apply elem_of_pool; lia). lia.
Qed.

(** The processor's view after booting: low memory, the user stack page, the heap. *)
Record boot_layout (v : vmm) (stack : Z) (gs : list Z) : Prop := {
  bl_ok : vm_ok v;
  bl_frames : NoDup (stack :: gs) ∧ length gs = 256%nat;
  bl_low va : 0 ≤ va < 0x800000 → va / 4096 ≠ 0x500 → translate v va = Some va;
  bl_stack off : 0 ≤ off < 4096 → translate v (0x500000 + off) = Some (stack * 4096 + off);
  bl_heap (i : nat) g off : gs !! i = Some g → 0 ≤ off < 4096 →
    translate v (HEAP_START + Z.of_nat i * 4096 + off) = Some (g * 4096 + off);
  bl_other va : 0x800000 ≤ va < 2 ^ 32 → ¬ (HEAP_START ≤ va < HEAP_START + HEAP_SIZE) →
    translate v va = None;
  (** Everything that is mapped is open to ring 3. *)
  bl_rights va : 0 ≤ va < 2 ^ 32 → page_rights v va =
    if decide (va < 0x800000 ∨ HEAP_START ≤ va < HEAP_START + HEAP_SIZE) then Some 6 else None;
}.

Section boot.
Variables (kernel_end page_tables mem_upper : Z) (m : mm).
Hypothesis Hdir : length (page_directory (mm_vmm m)) = 1024%nat.
Hypothesis Hoff : paging (mm_vmm m) = false.
Hypothesis Hbits : length (bitmap (frames (mm_vmm m))) = Z.to_nat BITMAP_SIZE.
Hypothesis Hpt : 0 < page_tables ∧ page_tables mod 4096 = 0 ∧ page_tables + 8192 ≤ kernel_end.
Hypothesis Hend : kernel_end ≤ 0x400000.
Hypothesis Hram : 7168 ≤ mem_upper < 2 ^ 32 - 1024.

Lemma boot_pages :
  0 < kernel_end_page kernel_end ≤ 1024 ∧ page_tables / 4096 + 2 ≤ kernel_end_page kernel_end ∧
  2048 ≤ ram_pages mem_upper.
Proof.
  unfold kernel_end_page, ram_pages, PAGE_SIZE, MAX_PAGES. rewrite !u32_small by lia. dlia.
Qed.

(** Once paging is on: the two tables of the kernel, one frame taken for the stack. *)
Record paging_on (v : vmm) : Prop := {
  po_ok : vm_ok v;
  po_tables d : table_at v d = if d =? 0 then Some page_tables
    else if d =? 1 then Some (page_tables + 4096) else None;
  po_free : free_set (frames v) = pool (kernel_end_page kernel_end + 1) (ram_pages mem_upper);
  po_walk q : 0 ≤ q < 2 ^ 20 → walk v q =
    if q =? 0x500 then Some (kernel_end_page kernel_end * 4096)
    else if q <? 2048 then Some (q * 4096) else None;
  po_rights q : 0 ≤ q < 2 ^ 20 → rights v q = if q <? 2048 then Some 6 else None;
  po_dirs d : dir_rights v d = if (d =? 0) || (d =? 1) then Some 6 else None;
}.

Definition paging_events : list event :=
  [EvPrintf "PMM: %d pages total, %d used by kernel, %d free\n"
     [AInt (ram_pages mem_upper); AInt (kernel_end_page kernel_end);
      AInt (ram_pages mem_upper - kernel_end_page kernel_end)];
   EvPrintf "VMM: paging enabled, first 4MB identity mapped\n" []].

Lemma paging_spec (Q : unit → mm → list event → Prop) k :
  (∀ v, paging_on v → wp k (Mm v (mm_heap m)) (λ a m' o, Q a m' (paging_events ++ o))) →
  wp (zoom (zoom (W := vmm) (pmm_init kernel_end mem_upper));; zoom (vmm_init page_tables);; k) m Q.
Proof.
  intros Hk. destruct boot_pages as (Hkep & Hptk & Hramp). set (kep := kernel_end_page kernel_end) in *.
  set (ram := ram_pages mem_upper) in *. wp_steps.
  apply wp_zoom. apply wp_zoom. eapply wp_mono; [apply pmm_init_ok; [exact Hbits|lia]|].
  cbn [lens_get lens_set mm_vmm_lens vmm_frames_lens].
  intros _ s o1 (-> & Hwf & Hc & Htot & Hfree). fold kep ram in Hfree. wp_steps. apply wp_zoom.
  cbn [lens_get mm_vmm_lens mm_vmm]. set (v0 := set_frames s (mm_vmm m)).
  assert (free_set s = pool kep ram) as Hpool.
  { apply set_eq. intros p. by rewrite Hfree, elem_of_pool. }
  eapply wp_mono.
  { apply (vmm_init_spec page_tables v0); [lia|exact Hdir|exact Hoff|exact Hwf|exact Hc| |];
      change (frames v0) with s; rewrite Hfree; lia. }
  intros _ v1 o2 (Hok1 & _ & -> & Htab1 & Hdr1 & Hrt1 & g & Hg & Hw1). cbn [lens_set mm_vmm_lens mm_heap].
  change (frames v0) with s in Hg.
  destruct Hg as [[Hlow Hfs1]|[_ He]].
  2: { exfalso. rewrite Hpool in He. assert (kep ∈ pool kep ram) as Hin by (apply elem_of_pool; lia).
       rewrite He in Hin. set_solver. }
  assert (g = kep) as -> by (by eapply lowest_pool).
  rewrite Hpool, pool_tail in Hfs1. apply (Hk v1). by constructor.
Qed.

(** What the components after it can use: the tables, and the frames left. *)
Record boot_spare (v : vmm) : Prop := {
  bs_tables d : table_at v d = if d =? 0 then Some page_tables
    else if d =? 1 then Some (page_tables + 4096)
    else if d =? 4 then Some ((kernel_end_page kernel_end + 2) * 4096) else None;
  bs_free f : f ∈ free_set (frames v) → kernel_end_page kernel_end < f < ram_pages mem_upper;
  bs_dirs d : dir_rights v d = if (d =? 0) || (d =? 1) || (d =? 4) then Some 6 else None;
  bs_heap q : HEAP_START / 4096 ≤ q < (HEAP_START + HEAP_SIZE) / 4096 →
    ∃ g, walk v q = Some (g * 4096) ∧ g ∉ free_set (frames v);
  bs_size : ram_pages mem_upper - kernel_end_page kernel_end - 258 ≤ Z.of_nat (size (free_set (frames v)));
}.

(** The heap's 256 pages: their table is the second frame that is left. *)
#[local] Abbreviation heap_mapped v1 gs v2 := (mapped v1 4096 (kernel_end_page kernel_end + 2) 256 gs v2).

Lemma heap_pages v1 :
  paging_on v1 →
  wp (heap_map_pages (4096 * 4096) HEAP_SIZE) v1 (λ _ v2 o, o = [] ∧ ∃ gs, heap_mapped v1 gs v2).
Proof.
  intros [Hok1 Htab1 Hfs1 Hw1 _ _]. destruct boot_pages as (Hkep & Hptk & Hramp).
  set (kep := kernel_end_page kernel_end) in *. set (ram := ram_pages mem_upper) in *.
  apply (map_pages_spec v1 4096 256 Hok1) with (f1 := kep + 1) (f2 := kep + 2).
  - done.
  - rewrite Htab1. done.
  - intros d t. rewrite Htab1. bool_cases; intros [= <-]; dlia.
  - rewrite Hfs1, size_pool. lia.
  - intros f. rewrite Hfs1, elem_of_pool. lia.
  - split; [rewrite Hfs1; apply elem_of_pool; lia|]. intros q. rewrite Hfs1, elem_of_pool. lia.
  - rewrite Hfs1, pool_tail. replace (kep + 1 + 1) with (kep + 2) by lia.
    split; [apply elem_of_pool; lia|]. intros q. rewrite elem_of_pool. lia.
  - split; [lia|]. rewrite Hw1 by lia. bool_cases; lia || done.
  - reflexivity.
Qed.

Lemma heap_spare v1 gs v2 : paging_on v1 → heap_mapped v1 gs v2 → boot_spare v2.
Proof.
  intros [Hok1 Htab1 Hfs1 Hw1 Hrt1 Hdr1] [Hok2 Hlen Hnd Hgs Hfs2 Hw2 Htab4 Htab2 _ Hdr2].
  destruct boot_pages as (Hkep & Hptk & Hramp).
  set (kep := kernel_end_page kernel_end) in *. set (ram := ram_pages mem_upper) in *.
  change (free_set (frames v2) = free_set (frames v1) ∖ list_to_set gs ∖ {[kep + 2]}) in Hfs2.
  rewrite Hfs1 in Hfs2. constructor; fold kep ram.
  - intros d. destruct (Z.eqb_spec d 4) as [->|Hd]; [exact Htab4|]. rewrite Htab2, Htab1 by exact Hd.
    by destruct (d =? 0), (d =? 1).
  - intros f. rewrite Hfs2, !elem_of_difference, elem_of_pool. lia.
  - intros d. rewrite Hdr2, Hdr1. change (4096 / 1024) with 4. cbn [negb Z.eqb].
    rewrite andb_true_r. by destruct (d =? 4), (d =? 0), (d =? 1).
  - unfold HEAP_START, HEAP_SIZE. intros q Hq. change (4096 ≤ q < 4352) in Hq.
    destruct (lookup_lt_is_Some_2 gs (Z.to_nat (q - 4096))) as [g Hg]; [lia|]. exists g. split.
    + rewrite Hw2 by lia. rewrite (proj2 (Z.leb_le _ _)), (proj2 (Z.ltb_lt _ _)) by lia. cbn [andb]. by rewrite Hg.
    + rewrite Hfs2. apply list_elem_of_lookup_2 in Hg. set_solver.
  - assert (list_to_set gs ⊆ pool (kep + 1) ram) as Hsub.
    { intros x Hx%elem_of_list_to_set. rewrite <-Hfs1. by apply Hgs. }
    assert (kep + 2 ∉ gs) as Hk2 by (intros Hx%Hgs; by destruct Hx).
    rewrite Hfs2, !size_difference, size_pool, size_list_to_set, size_singleton by first [exact Hnd
      |exact Hsub|apply singleton_subseteq_l, elem_of_difference;
       rewrite elem_of_pool, elem_of_list_to_set; split; [lia|exact Hk2]].
    lia.
Qed.

Lemma heap_frames v1 gs v2 g :
  paging_on v1 → heap_mapped v1 gs v2 → g ∈ gs → kernel_end_page kernel_end < g < ram_pages mem_upper.
Proof.
  intros Hp Hm Hg. destruct (mp_frames _ _ _ _ _ _ Hm g Hg) as [Hin _].
  rewrite (po_free _ Hp), elem_of_pool in Hin. lia.
Qed.

Lemma heap_layout v1 gs v2 :
  paging_on v1 → heap_mapped v1 gs v2 → boot_layout v2 (kernel_end_page kernel_end) gs.
Proof.
  intros Hp Hm. pose proof (heap_frames v1 gs v2 (kernel_end_page kernel_end) Hp Hm) as Hkg.
  destruct Hp as [Hok1 Htab1 Hfs1 Hw1 Hrt1 _]. destruct Hm as [Hok2 Hlen Hnd Hgs Hfs2 Hw2 Htab4 Htab2 Hrt2 _].
  destruct boot_pages as (Hkep & Hptk & Hramp). set (kep := kernel_end_page kernel_end) in *. constructor.
  - exact Hok2.
  - split; [|lia]. constructor; [|exact Hnd]. intros Hin. specialize (Hkg Hin). lia.
  - intros va Hva Hne. replace va with (va / 4096 * 4096 + va mod 4096) at 1 by dlia.
    rewrite (walk_translate v2 _ _ (va / 4096 * 4096)); [f_equal; dlia|exact Hok2|dlia|dlia|].
    rewrite Hw2, Hw1 by dlia. assert (va / 4096 < 2048) by dlia. bool_cases; try lia. done.
  - intros off Ho. apply (walk_translate v2 0x500 off); [exact Hok2|lia|exact Ho|].
    by rewrite Hw2, Hw1 by lia.
  - intros i x off Hx Ho. pose proof (lookup_lt_Some _ _ _ Hx).
    replace (HEAP_START + Z.of_nat i * 4096 + off) with ((4096 + Z.of_nat i) * 4096 + off)
      by (unfold HEAP_START; lia).
    apply walk_translate; [exact Hok2|lia|exact Ho|]. rewrite Hw2 by lia.
    bool_cases; try lia. cbn [andb]. replace (Z.to_nat (4096 + Z.of_nat i - 4096)) with i by lia.
    by rewrite Hx.
  - unfold HEAP_START, HEAP_SIZE. intros va Hva Hnot.
    rewrite translate_walk by (apply Hok2 || lia).
    rewrite Hw2, Hw1 by dlia. assert (2048 ≤ va / 4096) by dlia.
    assert (¬ (4096 ≤ va / 4096 < 4352)) by dlia.
    bool_cases; try lia; done.
  - unfold HEAP_START, HEAP_SIZE. intros va Hva. rewrite page_rights_at, Hrt2, Hrt1 by dlia.
    case_decide; bool_cases; try dlia; done.
Qed.

Lemma memory_init_ok :
  wp (memory_init kernel_end page_tables mem_upper) m (λ _ m' o,
    o = paging_events ++
      [EvPrintf "Heap: initialised at %x, size %d KB\n" [AInt HEAP_START; AInt (HEAP_SIZE / 1024)]] ∧
    heap_rep (mm_heap m') [(HEAP_SIZE - 12, true)] ∧ boot_spare (mm_vmm m') ∧
    ∃ stack gs, boot_layout (mm_vmm m') stack gs ∧
      ∀ g, g ∈ stack :: gs → kernel_end_page kernel_end ≤ g < ram_pages mem_upper).
Proof.
  destruct boot_pages as (Hkep & Hptk & Hramp). unfold memory_init. apply paging_spec. intros v1 Hp.
  unfold heap_init. wp_steps. apply wp_zoom.
  cbn [lens_get mm_vmm_lens mm_vmm]. change HEAP_START with (4096 * 4096) at 1.
  eapply wp_mono; [exact (heap_pages v1 Hp)|].
  intros _ v2 o3 (-> & gs & Hm). cbn [lens_set mm_vmm_lens mm_heap mm_vmm].
  pose proof (heap_layout v1 gs v2 Hp Hm) as Hlay.
  destruct (lookup_lt_is_Some_2 gs 0) as [g0 Hg0]; [rewrite (proj2 (bl_frames _ _ _ Hlay)); lia|].
  wp_steps. eapply wp_lift; [exact (bl_heap _ _ _ Hlay 0%nat g0 0 Hg0 ltac:(lia))|].
  wp_steps. apply wp_zoom. eapply wp_mono; [apply heap_setup_spec|].
  intros _ h o4 (Hrep & ->). cbn [lens_set mm_heap_lens mm_heap mm_vmm].
  split; [reflexivity|]. split; [exact Hrep|]. split; [exact (heap_spare v1 gs v2 Hp Hm)|].
  exists (kernel_end_page kernel_end), gs. split; [exact Hlay|].
  intros x [-> |Hx]%elem_of_cons; [lia|]. pose proof (heap_frames v1 gs v2 x Hp Hm Hx). lia.
Qed.

(** C30.  After [pmm_init], [vmm_init] and [heap_init], on any machine with at least 8 MB
    and a kernel below 4 MB: every address below 8 MB is mapped to itself except
    the user stack's page, the stack page and the 256 heap pages are mapped to
    pairwise different frames of RAM behind the kernel, nothing else is mapped, ring 3
    can read and write everything that is, every page table can be reached by the kernel, and the heap is one free block. *)
Theorem memory_init_layout :
  ∃ m' o, memory_init kernel_end page_tables mem_upper m = Done tt m' o ∧
    heap_rep (mm_heap m') [(HEAP_SIZE - 12, true)] ∧
    ∃ stack gs, boot_layout (mm_vmm m') stack gs ∧
      ∀ g, g ∈ stack :: gs → kernel_end_page kernel_end ≤ g < ram_pages mem_upper.
Proof. destruct (wp_done _ _ _ memory_init_ok) as ([] & m' & o & E & _ & Hr & _ & H). by exists m', o. Qed.
End boot.

(** C31.  [vmm_map] of a page that holds no page table, when the next free frame is one
    the kernel can reach should a new table be needed: afterwards the page is mapped
    to the frame, with those of the rights in the flags that the directory entry has too,
    all of them if it is new, and every other address of the 4 GB is mapped as before and
    with the same rights; or there is no frame for the table, the message is printed and
    nothing changes. *)
Theorem vmm_map_translates v virt phys flags :
  vm_ok v → 0 ≤ virt < 2 ^ 32 → 0 ≤ phys < 2 ^ 32 → 0 ≤ flags < 4096 →
  (∀ d t, table_at v d = Some t → t / 4096 ≠ virt / 4096) →
  (table_at v (virt / 2 ^ 22) = None → ∀ f, lowest_frame (frames v) f →
     0 < f ∧ f ≠ virt / 4096 ∧ translate v (f * 4096) = Some (f * 4096)) →
  ∃ v' o, vmm_map virt phys flags v = Done tt v' o ∧ vm_ok v' ∧
    ((o = [] ∧ ∀ va, 0 ≤ va < 2 ^ 32 →
        translate v' va = (if va / 4096 =? virt / 4096 then Some (phys / 4096 * 4096 + va mod 4096)
                           else translate v va) ∧
        page_rights v' va = (if va / 4096 =? virt / 4096
          then Some (Z.land (default (rights_of flags) (dir_rights v (virt / 2 ^ 22))) (rights_of flags))
          else page_rights v va)) ∨
     (o = [EvPrintf "VMM: failed to get page table for 0x%x\n" [AInt virt]] ∧
      table_at v (virt / 2 ^ 22) = None ∧ free_set (frames v) = ∅ ∧ v' = v)).
Proof.
  intros Hok Hvirt Hphys Hflags Hnot Hid.
  assert (∀ f, lowest_frame (frames v) f → 0 ≤ f) as Hpos.
  { intros f [Hf _]. apply elem_of_free_set in Hf. lia. }
  destruct (wp_done _ _ _ (vmm_map_spec v virt phys flags Hok Hvirt Hphys Hflags Hnot
    ltac:(intros Habs f Hf; destruct (Hid Habs f Hf) as (H1 & H2 & H3); split; [exact H1|];
          split; [exact H2|]; rewrite translate_walk in H3 by (apply Hok || lia);
          replace (f * 4096 / 4096) with f in H3 by dlia;
          destruct (walk v f) as [x|]; [|done]; cbn [mbind option_bind] in H3;
          injection H3 as H3; f_equal; dlia)))
    as ([] & v' & o & E & Hok' & _ & H). exists v', o. split; [exact E|]. split; [exact Hok'|].
  destruct H as [(-> & Hw & _ & Hrt & _)|(-> & Habs & He & ->)]; [left|by right].
  split; [done|]. intros va Hva. split.
  - rewrite !translate_walk by (apply Hok || apply Hok' || lia).
    rewrite Hw by dlia. destruct (va / 4096 =? virt / 4096); [|done].
    cbn [mbind option_bind]. rewrite frame_of_eq by exact Hphys. do 2 f_equal. lia.
  - rewrite !page_rights_at by lia. rewrite Hrt by dlia.
    replace (virt / 4096 / 1024) with (virt / 2 ^ 22) by (rewrite Z.div_div by lia; f_equal; lia). done.
Qed.

(** ** A concrete machine: 8 MB of RAM, the kernel from 2 MB to 0x20F000 *)

Definition mm0 : mm :=
  Mm (Vmm (replicate 1024 0) pmm_boot (λ _, 0) false) (Heap 0 ∅).
Definition mm1 : mm := final mm0 (memory_init 0x20F000 0x20A000 7168 mm0).

Lemma memory_init_layout_witness :
  ∃ m' o, memory_init 0x20F000 0x20A000 7168 mm0 = Done tt m' o ∧
    heap_rep (mm_heap m') [(HEAP_SIZE - 12, true)] ∧
    ∃ stack gs, boot_layout (mm_vmm m') stack gs ∧
      ∀ g, g ∈ stack :: gs → kernel_end_page 0x20F000 ≤ g < ram_pages 7168.
Proof.
  apply (memory_init_layout 0x20F000 0x20A000 7168 mm0);
    [apply length_replicate|done|apply length_replicate|done|done|done].
Defined.

Lemma mm1_layout :
  boot_spare 0x20F000 0x20A000 7168 (mm_vmm mm1) ∧ ∃ stack gs, boot_layout (mm_vmm mm1) stack gs ∧
    ∀ g, g ∈ stack :: gs → kernel_end_page 0x20F000 ≤ g < ram_pages 7168.
Proof.
  destruct (wp_done _ _ _ (memory_init_ok 0x20F000 0x20A000 7168 mm0 ltac:(apply length_replicate)
    eq_refl ltac:(apply length_replicate) ltac:(done) ltac:(done) ltac:(done)))
    as ([] & m' & o & E & _ & _ & H).
  unfold mm1. rewrite E. exact H.
Qed.

#[local] Opaque mm1.

(** The first heap page moved to the video memory, for the kernel only. *)
Lemma vmm_map_translates_witness :
  let v := mm_vmm mm1 in vm_ok v ∧
  ∃ v' o, vmm_map HEAP_START 0xB8000 3 v = Done tt v' o ∧ vm_ok v' ∧
    ((o = [] ∧ ∀ va, 0 ≤ va < 2 ^ 32 →
        translate v' va = (if va / 4096 =? HEAP_START / 4096 then Some (0xB8000 / 4096 * 4096 + va mod 4096)
                           else translate v va) ∧
        page_rights v' va = (if va / 4096 =? HEAP_START / 4096
          then Some (Z.land (default (rights_of 3) (dir_rights v (HEAP_START / 2 ^ 22))) (rights_of 3))
          else page_rights v va)) ∨
     (o = [EvPrintf "VMM: failed to get page table for 0x%x\n" [AInt HEAP_START]] ∧
      table_at v (HEAP_START / 2 ^ 22) = None ∧ free_set (frames v) = ∅ ∧ v' = v)).
Proof.
  destruct mm1_layout as (_ & stack & gs & Hl & Hgs). set (v := mm_vmm mm1) in *. clearbody v.
  pose proof (bl_ok _ _ _ Hl) as Hok. split; [exact Hok|].
  destruct (lookup_lt_is_Some_2 gs 0) as [g0 Hg0].
  { rewrite (proj2 (bl_frames _ _ _ Hl)). lia. }
  pose proof (bl_heap _ _ _ Hl 0%nat g0 0 Hg0 ltac:(lia)) as Ht.
  assert (kernel_end_page 0x20F000 ≤ g0 < ram_pages 7168) as Hr.
  { apply Hgs. apply list_elem_of_further. eapply list_elem_of_lookup_2. exact Hg0. }
  change (ram_pages 7168) with 2048 in Hr.
  replace (HEAP_START + Z.of_nat 0 * 4096 + 0) with HEAP_START in Ht by lia.
  rewrite translate_walk in Ht by (apply Hok || done).
  destruct (walk v (HEAP_START / 4096)) as [x|] eqn:Hw; [|done].
  cbn [mbind option_bind] in Ht. change (HEAP_START mod 4096) with 0 in Ht.
  assert (x = g0 * 4096) as -> by (injection Ht; lia).
  apply (vmm_map_translates v HEAP_START 0xB8000 3 Hok); [done|done|done| |].
  - intros d t Hd E. destruct (vm_table _ Hok d t Hd) as (_ & Hal & Hwt). rewrite E, Hw in Hwt.
    injection Hwt as <-. change (HEAP_START / 4096) with 4096 in E. dlia.
  - intros Habs. exfalso. unfold walk in Hw.
    change (HEAP_START / 4096 / 1024) with (HEAP_START / 2 ^ 22) in Hw. by rewrite Habs in Hw.
Defined.
