(* ===== verification/Process.v ===== *)
(** * Processes and the scheduler: kernel/process.c, process.s and include/process.h

    Process structures live in heap blocks ([procs]: address to structure), the
    kernel stacks in [stack_mem] (word addresses), and [cpu] has the registers that
    the context switch of kernel/process.s saves and restores.  ProcessThms.v has
    the theorems. *)

From S2P Require Import Prelude Heap.

Definition KERNEL_STACK_SIZE : Z := 4096.
(** Nothing in the code reads this one. *)
Definition MAX_PROCESSES : Z := 16.
Definition MAX_FD : Z := 16.

Record file_descriptor_t := Fd {
  fd_used : Z;
  fd_name : list Z;
  fd_position : Z;
  fd_size : Z;
}.

Inductive process_state_t := PROCESS_RUNNING | PROCESS_READY | PROCESS_DEAD.

#[export] Instance process_state_dec : EqDecision process_state_t.
Proof. solve_decision. Defined.

Record process_t := Process {
  pid : Z;
  p_esp : Z;
  page_dir : Z;
  p_stack : Z;
  p_state : process_state_t;
  fds : list file_descriptor_t;
  p_next : Z;
}.

(** [sizeof(process_t)] on i386: 16 descriptors of 76 bytes and six words. *)
Definition sizeof_process : Z := 1240.

Definition set_pid (x : Z) (p : process_t) : process_t :=
  Process x (p_esp p) (page_dir p) (p_stack p) (p_state p) (fds p) (p_next p).
Definition set_esp (x : Z) (p : process_t) : process_t :=
  Process (pid p) x (page_dir p) (p_stack p) (p_state p) (fds p) (p_next p).
Definition set_page_dir (x : Z) (p : process_t) : process_t :=
  Process (pid p) (p_esp p) x (p_stack p) (p_state p) (fds p) (p_next p).
Definition set_stack (x : Z) (p : process_t) : process_t :=
  Process (pid p) (p_esp p) (page_dir p) x (p_state p) (fds p) (p_next p).
Definition set_state (x : process_state_t) (p : process_t) : process_t :=
  Process (pid p) (p_esp p) (page_dir p) (p_stack p) x (fds p) (p_next p).
Definition set_fds (x : list file_descriptor_t) (p : process_t) : process_t :=
  Process (pid p) (p_esp p) (page_dir p) (p_stack p) (p_state p) x (p_next p).
Definition set_next_proc (x : Z) (p : process_t) : process_t :=
  Process (pid p) (p_esp p) (page_dir p) (p_stack p) (p_state p) (fds p) x.

Definition set_fd_used (x : Z) (f : file_descriptor_t) : file_descriptor_t :=
  Fd x (fd_name f) (fd_position f) (fd_size f).

Record cpu_t := Cpu {
  eax : Z; ecx : Z; edx : Z; ebx : Z; ebp : Z; esi : Z; edi : Z;
  esp : Z;
  eip : Z;
}.

Record ps := Ps {
  ps_heap : heap;
  procs : gmap Z process_t;
  stack_mem : Z → Z;
  current_process : Z;
  process_list : Z;
  next_pid : Z;
  cpu : cpu_t;
}.

Definition set_heap (h : heap) (s : ps) : ps :=
  Ps h (procs s) (stack_mem s) (current_process s) (process_list s) (next_pid s) (cpu s).
Definition set_procs (m : gmap Z process_t) (s : ps) : ps :=
  Ps (ps_heap s) m (stack_mem s) (current_process s) (process_list s) (next_pid s) (cpu s).
Definition set_stack_mem (m : Z → Z) (s : ps) : ps :=
  Ps (ps_heap s) (procs s) m (current_process s) (process_list s) (next_pid s) (cpu s).
Definition set_current (p : Z) (s : ps) : ps :=
  Ps (ps_heap s) (procs s) (stack_mem s) p (process_list s) (next_pid s) (cpu s).
Definition set_process_list (p : Z) (s : ps) : ps :=
  Ps (ps_heap s) (procs s) (stack_mem s) (current_process s) p (next_pid s) (cpu s).
Definition set_next_pid (n : Z) (s : ps) : ps :=
  Ps (ps_heap s) (procs s) (stack_mem s) (current_process s) (process_list s) n (cpu s).
Definition set_cpu (c : cpu_t) (s : ps) : ps :=
  Ps (ps_heap s) (procs s) (stack_mem s) (current_process s) (process_list s) (next_pid s) c.

#[export] Instance ps_heap_lens : Lens ps heap.
Proof. refine {| lens_get := ps_heap; lens_set := set_heap |}; try done. by intros []. Defined.

(** Reading and changing a structure through a pointer; a null or dangling pointer
    is undefined. *)
Definition proc_get (p : Z) : K ps process_t := s ← kget; klift (procs s !! p).
Definition proc_update (p : Z) (f : process_t → process_t) : K ps unit :=
  x ← proc_get p; kmodify (λ s, set_procs (<[p := f x]> (procs s)) s).

(** A word of a kernel stack. *)
Definition write_stack (a x : Z) (m : Z → Z) : Z → Z := λ k, if k =? a then x else m k.
Definition stack_poke (a x : Z) : K ps unit :=
  kmodify (λ s, set_stack_mem (write_stack a x (stack_mem s)) s).

(** ** kernel/process.s *)

(** [context_switch(&prev->esp, new_esp)]: [esp] points to the return address.  The
    arguments ([esp] is at offset 4) are loaded into eax and ecx, [pusha] stores eight registers and the old
    stack pointer is saved; [popa] and [ret] take the new ones. *)
Definition context_switch (prev new_esp : Z) : K ps unit :=
  s ← kget;
  let c := cpu s in
  let sp := esp c in
  stack_poke (sp - 4) (prev + 4);;
  stack_poke (sp - 8) new_esp;;
  stack_poke (sp - 12) (edx c);;
  stack_poke (sp - 16) (ebx c);;
  stack_poke (sp - 20) sp;;
  stack_poke (sp - 24) (ebp c);;
  stack_poke (sp - 28) (esi c);;
  stack_poke (sp - 32) (edi c);;
  proc_update prev (set_esp (sp - 32));;
  s ← kget;
  let m := stack_mem s in
  kmodify (set_cpu (Cpu (m (new_esp + 28)) (m (new_esp + 24)) (m (new_esp + 20))
    (m (new_esp + 16)) (m (new_esp + 8)) (m (new_esp + 4)) (m new_esp)
    (new_esp + 36) (m (new_esp + 32)))).

(** ** kernel/process.c *)

Section process.
(** What a fresh heap block holds before it is written. *)
Variable fresh : Z → process_t.

(** [kmalloc(sizeof(process_t))]. *)
Definition kmalloc_process : K ps Z :=
  p ← zoom (kmalloc sizeof_process);
  (if p =? 0 then mret tt
   else kmodify (λ s, set_procs (<[p := fresh p]> (procs s)) s));;
  mret p.

(** [proc->fds[i].used = x]. *)
Definition set_fd (p i x : Z) : K ps unit :=
  pr ← proc_get p;
  f ← klift (aget (fds pr) i);
  l ← klift (aset (fds pr) i (set_fd_used x f));
  proc_update p (set_fds l).

Definition init_fds (p : Z) : K ps unit :=
  _ ← kfold 0 (Z.to_nat MAX_FD) (λ i _, set_fd p i 0) tt;
  set_fd p 0 1;;
  set_fd p 1 1;;
  set_fd p 2 1.

(** [proc->pid = next_pid++]. *)
Definition take_pid (p : Z) : K ps unit :=
  s ← kget;
  proc_update p (set_pid (next_pid s));;
  kmodify (set_next_pid (u32 (next_pid s + 1))).

Definition process_init : K ps unit :=
  kernel_proc ← kmalloc_process;
  take_pid kernel_proc;;
  proc_update kernel_proc (set_state PROCESS_RUNNING);;
  proc_update kernel_proc (set_next_proc 0);;
  proc_update kernel_proc (set_stack 0);;
  proc_update kernel_proc (set_page_dir 0);;
  proc_update kernel_proc (set_esp 0);;
  init_fds kernel_proc;;
  kmodify (set_process_list kernel_proc);;
  kmodify (set_current kernel_proc);;
  kprintf "Process: kernel process created (PID 0)\n" [].

(** The stores of the initial stack: the entry point, then eight zeros. *)
Definition init_stack (entry stack_top : Z) : K ps Z :=
  stack_poke (stack_top - 4) entry;;
  _ ← kfold 0 8 (λ i _, stack_poke (stack_top - 8 - 4 * i) 0) tt;
  mret (stack_top - 36).

(** [while (curr->next) curr = curr->next; curr->next = proc;]. *)
Definition list_append (proc : Z) : K ps unit :=
  s ← kget;
  last ← kwhile (S (base.size (procs s))) (λ curr,
    c ← proc_get curr;
    if p_next c =? 0 then mret (inr curr) else mret (inl (p_next c))) (process_list s);
  proc_update last (set_next_proc proc).

Definition process_create (entry : Z) : K ps Z :=
  proc ← kmalloc_process;
  if proc =? 0 then mret 0
  else
    stack ← zoom (kmalloc KERNEL_STACK_SIZE);
    proc_update proc (set_stack stack);;
    if stack =? 0 then
      zoom (kfree proc);;
      kmodify (λ s, set_procs (delete proc (procs s)) s);;
      mret 0
    else
      take_pid proc;;
      proc_update proc (set_state PROCESS_READY);;
      proc_update proc (set_page_dir 0);;
      proc_update proc (set_next_proc 0);;
      init_fds proc;;
      top ← init_stack entry (u32 (stack + KERNEL_STACK_SIZE));
      proc_update proc (set_esp top);;
      list_append proc;;
      pr ← proc_get proc;
      kprintf "Process: created PID %d\n" [AInt (pid pr)];;
      mret proc.

(** The process is dead and the processor halts. *)
Definition process_exit : K ps unit :=
  s ← kget;
  proc_update (current_process s) (set_state PROCESS_DEAD);;
  khalt.

(** The loop that skips dead processes, from [next] on. *)
Definition skip_dead (next : Z) : K ps Z :=
  s ← kget;
  kwhile (S (base.size (procs s))) (λ next,
    n ← proc_get next;
    if decide (p_state n = PROCESS_DEAD ∧ next ≠ current_process s) then
      mret (inl (if p_next n =? 0 then process_list s else p_next n))
    else mret (inr next)) next.

Definition scheduler_tick : K ps unit :=
  s ← kget;
  if current_process s =? 0 then mret tt
  else
    c ← proc_get (current_process s);
    let next := if p_next c =? 0 then process_list s else p_next c in
    next ← skip_dead next;
    if next =? current_process s then mret tt
    else
      let prev := current_process s in
      kmodify (set_current next);;
      proc_update next (set_state PROCESS_RUNNING);;
      p ← proc_get prev;
      (if decide (p_state p = PROCESS_DEAD) then mret tt
       else proc_update prev (set_state PROCESS_READY));;
      n ← proc_get next;
      context_switch prev (p_esp n).
End process.
