(* ===== verification/ProcessThms.v ===== *)
(** * The scheduler is a fair round robin

    The process list as a ring through the current process: [ring s r] says that
    following the next pointers from the current process, and going back to the head
    of the list at its end, visits [r] and returns.  A tick moves to the first living
    process of the ring. *)

From S2P Require Import Prelude Heap Process.

Lemma wp_proc_get p s x (Q : process_t → ps → list event → Prop) :
  procs s !! p = Some x → Q x s [] → wp (proc_get p) s Q.
Proof. intros Hx HQ. unfold proc_get. wp_steps. eapply wp_lift; [exact Hx|exact HQ]. Qed.

Lemma wp_proc_update p f s x (Q : unit → ps → list event → Prop) :
  procs s !! p = Some x → Q tt (set_procs (<[p := f x]> (procs s)) s) [] →
  wp (proc_update p f) s Q.
Proof.
  intros Hx HQ. unfold proc_update. wp_steps. eapply wp_proc_get; [exact Hx|]. wp_steps. exact HQ.
Qed.

(** ** The context switch *)

Lemma context_switch_spec prev new_esp s x :
  procs s !! prev = Some x →
  wp (context_switch prev new_esp) s (λ _ s' o, o = [] ∧
    procs s' = <[prev := set_esp (esp (cpu s) - 32) x]> (procs s) ∧
    ps_heap s' = ps_heap s ∧ current_process s' = current_process s ∧
    process_list s' = process_list s ∧ next_pid s' = next_pid s ∧
    (let sp := esp (cpu s) in let m := stack_mem s' in
     m (sp - 12) = edx (cpu s) ∧ m (sp - 16) = ebx (cpu s) ∧ m (sp - 24) = ebp (cpu s) ∧
     m (sp - 28) = esi (cpu s) ∧ m (sp - 32) = edi (cpu s) ∧
     (∀ a, ¬ (sp - 32 ≤ a < sp) → m a = stack_mem s a) ∧
     cpu s' = Cpu (m (new_esp + 28)) (m (new_esp + 24)) (m (new_esp + 20)) (m (new_esp + 16))
       (m (new_esp + 8)) (m (new_esp + 4)) (m new_esp) (new_esp + 36) (m (new_esp + 32)))).
Proof.
  intros Hx. unfold context_switch, stack_poke. wp_steps.
  cbn [set_stack_mem stack_mem cpu].
  eapply wp_proc_update; [exact Hx|]. wp_steps. split; [done|]. split; [done|]. split; [done|].
  split; [done|]. split; [done|]. split; [done|]. cbv zeta.
  cbn [set_cpu set_procs stack_mem cpu]. unfold write_stack.
  repeat match goal with |- _ ∧ _ => split end; try done.
  all: cbn [set_stack_mem stack_mem]; try (intros a Ha);
    repeat match goal with |- context [?a =? ?b] =>
      destruct (Z.eqb_spec a b); [done || lia|] end; done || lia.
Qed.

(** ** Rings *)

Section ring.
Implicit Types s : ps.

(** The next process in the circular list. *)
Definition circ_next s (p : Z) : option Z :=
  x ← procs s !! p; Some (if p_next x =? 0 then process_list s else p_next x).

Fixpoint follows s (r : list Z) : Prop :=
  match r with
  | p :: ((q :: _) as r') => circ_next s p = Some q ∧ follows s r'
  | _ => True
  end.

Lemma follows_app_inv s r1 p r2 :
  follows s (r1 ++ p :: r2) → follows s (r1 ++ [p]) ∧ follows s (p :: r2).
Proof.
  induction r1 as [|q r1 IH]; [done|]. cbn [app]. destruct r1 as [|q' r1]; cbn [app follows] in *.
  - intros [H1 H2]. done.
  - intros [H1 H2]. destruct (IH H2). done.
Qed.

Lemma follows_app s r1 p r2 :
  follows s (r1 ++ [p]) → follows s (p :: r2) → follows s (r1 ++ p :: r2).
Proof.
  induction r1 as [|q r1 IH]; [done|]. cbn [app]. destruct r1 as [|q' r1]; cbn [app follows] in *.
  - intros [H1 _] H2. done.
  - intros [H1 H2] H3. split; [exact H1|]. by apply IH.
Qed.

(** [circ_next] only looks at the next pointers. *)
Definition same_links s s' : Prop :=
  process_list s' = process_list s ∧
  ∀ p, p_next <$> (procs s' !! p) = p_next <$> (procs s !! p).

#[export] Instance same_links_preorder : PreOrder same_links.
Proof.
  split; [done|]. intros s1 s2 s3 [H1 H2] [H3 H4]. split; [congruence|]. intros p. by rewrite H4.
Qed.

Lemma same_links_next s s' p : same_links s s' → circ_next s' p = circ_next s p.
Proof.
  intros [Hl Hn]. unfold circ_next. specialize (Hn p). rewrite Hl.
  destruct (procs s' !! p) as [x'|], (procs s !! p) as [x|]; cbn in *; try done.
  injection Hn as ->. done.
Qed.

Lemma same_links_follows s s' r : same_links s s' → follows s r → follows s' r.
Proof.
  intros Hs. induction r as [|p [|q r] IH]; [done|done|]. cbn [follows].
  intros [H1 H2]. rewrite (same_links_next s s') by done. split; [done|by apply IH].
Qed.

Definition state_at s (p : Z) : option process_state_t := p_state <$> (procs s !! p).
Definition living s (p : Z) : Prop := state_at s p ≠ Some PROCESS_DEAD.

#[export] Instance living_dec s p : Decision (living s p).
Proof. unfold living. apply _. Defined.

Lemma living_lookup s p x : procs s !! p = Some x → living s p ↔ p_state x ≠ PROCESS_DEAD.
Proof.
  intros Hx. unfold living, state_at. rewrite Hx. cbn. split; intros H E; apply H; congruence.
Qed.

(** The ring through the current process. *)
Record ring s (r : list Z) : Prop := {
  rg_nodup : NoDup (current_process s :: r);
  rg_follows : follows s (current_process s :: r ++ [current_process s]);
  rg_null : 0 ∉ current_process s :: r;
  rg_running p : p ∈ r → state_at s p ≠ Some PROCESS_RUNNING;
}.

Lemma follows_in s r q : follows s (r ++ [q]) → ∀ p, p ∈ r → is_Some (procs s !! p).
Proof.
  induction r as [|p0 r IH]; [by intros _ p ?%not_elem_of_nil|].
  cbn [app]. intros Hf p [-> |Hp]%elem_of_cons.
  - destruct (r ++ [q]) as [|q' r'] eqn:E; [by destruct r|]. destruct Hf as [H _].
    unfold circ_next in H. destruct (procs s !! p0); [eauto|done].
  - apply IH; [|exact Hp]. destruct r as [|p1 r]; [by apply not_elem_of_nil in Hp|].
    by destruct Hf.
Qed.

(** The ring seen from another of its members. *)
Lemma ring_rotate s s' n ys zs :
  ring s (ys ++ n :: zs) → same_links s s' → current_process s' = n →
  state_at s' (current_process s) ≠ Some PROCESS_RUNNING →
  (∀ p, p ∈ ys ++ zs → state_at s' p = state_at s p) →
  ring s' (zs ++ current_process s :: ys).
Proof.
  intros [H1 H2 H3 H4] Hl Hc Hst Hsame. set (c := current_process s) in *.
  assert (n :: zs ++ c :: ys ≡ₚ c :: ys ++ n :: zs) as Hperm.
  { change (n :: zs ++ c :: ys) with ((n :: zs) ++ (c :: ys)).
    change (c :: ys ++ n :: zs) with ((c :: ys) ++ (n :: zs)). apply Permutation_app_comm. }
  constructor; rewrite ?Hc.
  - by rewrite Hperm.
  - apply (same_links_follows s s'); [exact Hl|].
    change (c :: (ys ++ n :: zs) ++ [c]) with ((c :: ys ++ n :: zs) ++ [c]) in H2.
    replace ((c :: ys ++ n :: zs) ++ [c]) with ((c :: ys) ++ n :: zs ++ [c]) in H2
      by (cbn [app]; by rewrite <-!app_assoc).
    apply follows_app_inv in H2 as [Ha Hb].
    change (n :: (zs ++ c :: ys) ++ [n]) with ((n :: zs ++ c :: ys) ++ [n]).
    replace ((n :: zs ++ c :: ys) ++ [n]) with ((n :: zs) ++ c :: ys ++ [n])
      by (cbn [app]; by rewrite <-!app_assoc).
    apply follows_app; [exact Hb|exact Ha].
  - by rewrite Hperm.
  - intros p Hp. destruct (decide (p = c)) as [->|Hne]; [exact Hst|].
    rewrite Hsame by set_solver. apply H4. set_solver.
Qed.
End ring.

(** ** One tick *)

(** The process a tick switches to: the first living one of the ring. *)
Definition next_of s (r : list Z) : Z :=
  default (current_process s) (head (filter (living s) r)).

Lemma skip_dead_loop s t : ∀ fuel,
  follows s (t ++ [current_process s]) → current_process s ∉ t →
  is_Some (procs s !! current_process s) → (length t < fuel)%nat →
  wp (kwhile fuel (λ next,
      n ← proc_get next;
      if decide (p_state n = PROCESS_DEAD ∧ next ≠ current_process s) then
        mret (inl (if p_next n =? 0 then process_list s else p_next n))
      else mret (inr next)) (default (current_process s) (head t))) s
    (λ n s' o, n = next_of s t ∧ s' = s ∧ o = []).
Proof.
  induction t as [|p t IH]; intros [|fuel] Hf Hc Hcur Hfuel; try (simpl in Hfuel; lia).
  - apply wp_kwhile_S. wp_steps. destruct Hcur as [x Hx]. eapply wp_proc_get; [exact Hx|].
    cbn [head default]. rewrite decide_False by tauto. wp_steps. done.
  - destruct (follows_in _ _ _ Hf p (list_elem_of_here _ _)) as [x Hx].
    apply wp_kwhile_S. wp_steps. eapply wp_proc_get; [exact Hx|]. cbn [head default].
    apply not_elem_of_cons in Hc as [Hpc Hct]. unfold next_of. rewrite filter_cons.
    pose proof (living_lookup s p x Hx) as Hliv. change (id p) with p.
    destruct (decide (p_state x = PROCESS_DEAD)) as [Hd|Hd].
    + rewrite decide_True by done. rewrite (decide_False (P := living s p)) by tauto.
      wp_steps.
      assert (circ_next s p = Some (default (current_process s) (head t)) ∧
        follows s (t ++ [current_process s])) as [Hn Hf'].
      { destruct t; destruct Hf; done. }
      unfold circ_next in Hn. rewrite Hx in Hn. injection Hn as ->.
      eapply wp_mono; [apply (IH fuel Hf' Hct Hcur); simpl in Hfuel; lia|].
      intros n s' o (-> & -> & ->). done.
    + rewrite decide_False by tauto. rewrite (decide_True (P := living s p)) by tauto. wp_steps. done.
Qed.

(** A process leaves the processor. *)
Definition demote (x : process_t) : process_t :=
  if decide (p_state x = PROCESS_DEAD) then x else set_state PROCESS_READY x.

(** The registers of [s] are saved below its stack pointer, and those of the process
    [y] are loaded. *)
Definition switched s s' (y : process_t) : Prop :=
  let sp := esp (cpu s) in
  let m := stack_mem s' in
  let e := p_esp y in
  m (sp - 12) = edx (cpu s) ∧ m (sp - 16) = ebx (cpu s) ∧ m (sp - 24) = ebp (cpu s) ∧
  m (sp - 28) = esi (cpu s) ∧ m (sp - 32) = edi (cpu s) ∧
  (∀ a, ¬ (sp - 32 ≤ a < sp) → m a = stack_mem s a) ∧
  cpu s' = Cpu (m (e + 28)) (m (e + 24)) (m (e + 20)) (m (e + 16))
    (m (e + 8)) (m (e + 4)) (m e) (e + 36) (m (e + 32)).

(** What a tick does on a ring. *)
Definition tick_result s (r : list Z) s' : Prop :=
  let c := current_process s in
  match filter (living s) r with
  | [] => s' = s
  | n :: _ => ∃ x y, procs s !! c = Some x ∧ procs s !! n = Some y ∧
      procs s' = <[c := set_esp (esp (cpu s) - 32) (demote x)]>
        (<[n := set_state PROCESS_RUNNING y]> (procs s)) ∧
      current_process s' = n ∧ ps_heap s' = ps_heap s ∧ process_list s' = process_list s ∧
      next_pid s' = next_pid s ∧ switched s s' y
  end.

Lemma ring_size s r : ring s r → (length r < base.size (procs s))%nat.
Proof.
  intros [H1 H2 _ _]. change (length (current_process s :: r) ≤ base.size (procs s))%nat.
  rewrite <-size_dom. rewrite <-(size_list_to_set (C := gset Z)) by exact H1.
  apply subseteq_size. intros p Hp%elem_of_list_to_set. apply elem_of_dom.
  apply (follows_in s (current_process s :: r) (current_process s)); [|exact Hp]. exact H2.
Qed.

Lemma filter_split s r n l :
  filter (living s) r = n :: l →
  ∃ ys zs, r = ys ++ n :: zs ∧ living s n ∧ ∀ p, p ∈ ys → ¬ living s p.
Proof.
  induction r as [|p r IH]; [done|]. rewrite filter_cons. case_decide as Hp.
  - intros [= -> _]. exists [], r. split; [done|]. split; [done|].
    by intros q ?%not_elem_of_nil.
  - intros H. destruct (IH H) as (ys & zs & -> & Hn & Hys). exists (p :: ys), zs.
    split; [done|]. split; [done|]. intros q [-> |Hq]%elem_of_cons; [done|by apply Hys].
Qed.

Lemma tick_spec s r :
  ring s r → wp scheduler_tick s (λ _ s' o, o = [] ∧ tick_result s r s').
Proof.
  intros Hr. pose proof (ring_size s r Hr) as Hsize. destruct Hr as [H1 H2 H3 _].
  unfold scheduler_tick. wp_steps. set (c := current_process s) in *.
  apply not_elem_of_cons in H3 as [H3 H3']. apply NoDup_cons in H1 as [H1 _].
  rewrite (proj2 (Z.eqb_neq c 0)) by congruence.
  destruct (follows_in s (c :: r) c H2 c (list_elem_of_here _ _)) as [x Hx].
  wp_steps. eapply wp_proc_get; [exact Hx|].
  assert (circ_next s c = Some (default c (head r)) ∧ follows s (r ++ [c])) as [Hn Hf].
  { destruct r; destruct H2; done. }
  unfold circ_next in Hn. rewrite Hx in Hn. injection Hn as ->. wp_steps.
  unfold skip_dead. wp_steps. fold c.
  eapply wp_mono; [apply (skip_dead_loop s r); [exact Hf|exact H1|by exists x|lia]|].
  intros n s' o (-> & -> & ->). unfold tick_result, next_of. fold c.
  destruct (filter (living s) r) as [|n l] eqn:E; cbn [head default].
  { rewrite Z.eqb_refl. wp_steps. done. }
  destruct (filter_split s r n l E) as (ys & zs & -> & _ & _).
  assert (n ≠ c) as Hnc by (intros ->; apply H1; set_solver).
  change (id n) with n. rewrite (proj2 (Z.eqb_neq n c) Hnc).
  destruct (follows_in s _ c Hf n ltac:(set_solver)) as [y Hy].
  wp_steps. eapply wp_proc_update; [exact Hy|]. wp_steps.
  eapply wp_proc_get.
  { cbn [set_procs set_current procs]. rewrite lookup_insert_ne by done. exact Hx. }
  wp_steps. eapply (wp_mono _ _ (λ _ s' o, o = [] ∧
    s' = set_procs (<[c := demote x]> (<[n := set_state PROCESS_RUNNING y]> (procs s)))
      (set_current n s))).
  { unfold demote. case_decide as Hd.
    - wp_steps. split; [done|]. rewrite (insert_id _ c x).
      + done.
      + rewrite lookup_insert_ne by done. exact Hx.
    - eapply wp_proc_update.
      { cbn [set_procs set_current procs]. rewrite lookup_insert_ne by done. exact Hx. }
      done. }
  intros _ s' o (-> & ->). wp_steps. eapply wp_proc_get.
  { cbn [set_procs procs]. rewrite lookup_insert_ne by done. apply lookup_insert_eq. }
  wp_steps. eapply wp_mono.
  { eapply context_switch_spec. cbn [set_procs procs]. apply lookup_insert_eq. }
  intros _ s' o (-> & Hp & Hh & Hc & Hl & Hpid & Hcpu). split; [done|].
  exists x, y. split; [exact Hx|]. split; [exact Hy|].
  split; [rewrite Hp; cbn [set_procs procs cpu]; by rewrite insert_insert_eq|].
  split; [exact Hc|]. split; [exact Hh|]. split; [exact Hl|]. split; [exact Hpid|].
  exact Hcpu.
Qed.

(** The links and the states after a tick. *)
Lemma tick_links s r s' : tick_result s r s' → same_links s s'.
Proof.
  unfold tick_result. destruct (filter (living s) r) as [|n l]; [by intros ->|].
  intros (x & y & Hx & Hy & Hp & _ & _ & Hl & _). split; [exact Hl|]. intros p. rewrite Hp.
  rewrite !lookup_insert. repeat case_decide; subst; rewrite ?Hx, ?Hy; try done.
  unfold demote. by case_decide.
Qed.

Lemma tick_states s r s' n l :
  ring s r → tick_result s r s' → filter (living s) r = n :: l →
  current_process s' = n ∧ state_at s' n = Some PROCESS_RUNNING ∧
  state_at s' (current_process s) = (λ x, p_state (demote x)) <$> procs s !! current_process s ∧
  ∀ p, p ≠ n → p ≠ current_process s → state_at s' p = state_at s p.
Proof.
  intros [H1 _ _ _] Ht Hf. unfold tick_result in Ht. rewrite Hf in Ht.
  destruct Ht as (x & y & Hx & Hy & Hp & Hc & _). set (c := current_process s) in *.
  apply NoDup_cons in H1 as [H1 _].
  assert (n ≠ c) as Hnc.
  { intros ->. apply H1. assert (c ∈ filter (living s) r) as Hin by (rewrite Hf; apply list_elem_of_here).
    by apply list_elem_of_filter in Hin as [_ Hin]. }
  unfold state_at. rewrite Hp. split; [exact Hc|].
  split; [rewrite lookup_insert_ne by done; by rewrite lookup_insert_eq|].
  split; [by rewrite lookup_insert_eq, Hx|]. intros p Hpn Hpc.
  by rewrite !lookup_insert_ne by done.
Qed.

Lemma demote_state x : p_state (demote x) ≠ PROCESS_RUNNING.
Proof.
  unfold demote. case_decide as H; [by rewrite H|]. done.
Qed.

(** The ring turns: the dead processes that were skipped go to the end, and then the
    one that ran. *)
Lemma tick_ring s r s' :
  ring s r → tick_result s r s' →
  match filter (living s) r with
  | [] => s' = s
  | n :: _ => ∃ ys zs, r = ys ++ n :: zs ∧ (∀ p, p ∈ ys → ¬ living s p) ∧
      current_process s' = n ∧ ring s' (zs ++ current_process s :: ys)
  end.
Proof.
  intros Hr Ht. destruct (filter (living s) r) as [|n l] eqn:E.
  { unfold tick_result in Ht. by rewrite E in Ht. }
  destruct (filter_split s r n l E) as (ys & zs & -> & Hn & Hys).
  destruct (tick_states s _ s' n l Hr Ht E) as (Hc & _ & Hst & Hsame).
  exists ys, zs. split; [done|]. split; [done|]. split; [done|].
  apply (ring_rotate s s' n); [exact Hr|by eapply tick_links|exact Hc| |].
  - rewrite Hst. destruct (procs s !! current_process s) as [x|]; cbn; [|done].
    intros [= H]. by apply demote_state in H.
  - intros p Hp. pose proof (rg_nodup _ _ Hr) as Hnd.
    apply NoDup_cons in Hnd as [Hc1 Hnd]. apply NoDup_app in Hnd as (_ & Hd1 & Hd2).
    apply NoDup_cons in Hd2 as [Hd2 _]. apply Hsame; set_solver.
Qed.
