(* ===== verification/ProcessSched.v ===== *)
(** * Scheduling over many ticks

    What happens between two ticks ([between]), fairness of the round robin, and the
    round trip of the registers through two context switches. *)

From S2P Require Import Prelude Heap Process ProcessThms.

(** Between two ticks the current process runs: it changes the registers and the
    stack memory, and it may exit. *)
Inductive between (s : ps) : ps → Prop :=
  | between_runs c m :
      between s (set_cpu c (set_stack_mem m s))
  | between_exits x :
      procs s !! current_process s = Some x →
      between s (set_procs (<[current_process s := set_state PROCESS_DEAD x]> (procs s)) s).

(** Two elements of one list, in order. *)
Lemma elem_of_app_split (ys1 : list Z) n zs1 ys p zs :
  ys ++ p :: zs = ys1 ++ n :: zs1 → p ∉ ys1 → n ≠ p →
  ∃ ys2, ys = ys1 ++ n :: ys2 ∧ zs1 = ys2 ++ p :: zs.
Proof.
  revert ys1. induction ys as [|y ys IH]; intros [|y1 ys1] Heq Hp Hne; cbn [app] in Heq.
  - congruence.
  - exfalso. injection Heq as -> _. apply Hp, list_elem_of_here.
  - injection Heq as -> <-. by exists ys.
  - injection Heq as -> Heq. apply not_elem_of_cons in Hp as [_ Hp].
    destruct (IH ys1 Heq Hp Hne) as (ys2 & -> & ->). by exists ys2.
Qed.

(** A history of ticks: the states right after each of them. *)
Inductive sched_trace : ps → list ps → Prop :=
  | trace_nil s : sched_trace s []
  | trace_cons s s1 s2 o l :
      between s s1 → scheduler_tick s1 = Done tt s2 o → sched_trace s2 l →
      sched_trace s (s2 :: l).

Lemma ring_same s s' r :
  ring s r → same_links s s' → current_process s' = current_process s →
  (∀ p, p ∈ r → state_at s' p = state_at s p) → ring s' r.
Proof.
  intros [H1 H2 H3 H4] Hl Hc Hs. constructor; rewrite ?Hc; [exact H1| |exact H3|].
  - by apply (same_links_follows s).
  - intros p Hp. rewrite Hs by done. by apply H4.
Qed.

Lemma between_ring s s' r :
  between s s' → ring s r → current_process s' = current_process s ∧ ring s' r ∧
  ∀ p, p ∈ r → living s p → living s' p.
Proof.
  intros [c m|x Hx] Hr; (split; [done|]).
  - split; [|done]. by apply (ring_same s).
  - pose proof (rg_nodup _ _ Hr) as Hnd. apply NoDup_cons in Hnd as [Hnd _].
    assert (∀ p, p ∈ r → state_at (set_procs (<[current_process s:=set_state PROCESS_DEAD x]>
      (procs s)) s) p = state_at s p) as Hs.
    { intros p Hp. unfold state_at. cbn [set_procs procs].
      rewrite lookup_insert_ne; [done|]. intros Heq. apply Hnd. by rewrite Heq. }
    split; [|intros p Hp; unfold living; by rewrite Hs]. apply (ring_same s); [done| |done|done].
    split; [done|]. intros p. cbn [set_procs procs]. rewrite lookup_insert.
    case_decide; [subst; by rewrite Hx|done].
Qed.

Lemma fair_trace l : ∀ s ys p zs,
  sched_trace s l → ring s (ys ++ p :: zs) → living s p → (length ys < length l)%nat →
  ∃ s', s' ∈ l ∧ current_process s' = p.
Proof.
  induction l as [|s2 l IH]; intros s ys p zs Htr Hr Hp Hlen; [simpl in Hlen; lia|].
  inversion Htr as [|? s1 ? o ? Hb Hstep Htr']; subst.
  destruct (between_ring _ _ _ Hb Hr) as (_ & Hr1 & Hliv).
  assert (living s1 p) as Hp1 by (apply Hliv; [set_solver|done]).
  destruct (wp_done _ _ _ (tick_spec s1 _ Hr1)) as (u & s2' & o' & E & _ & Ht).
  rewrite Hstep in E. injection E as _ <- <-.
  pose proof (tick_ring _ _ _ Hr1 Ht) as Hring.
  destruct (filter (living s1) (ys ++ p :: zs)) as [|n t] eqn:Ef.
  { exfalso. rewrite filter_app, filter_cons_True in Ef by done.
    apply app_eq_nil in Ef as [_ Ef]. done. }
  destruct Hring as (ys1 & zs1 & Heq & Hdead & Hc & Hr2).
  destruct (decide (n = p)) as [->|Hne]; [exists s2; split; [apply list_elem_of_here|done]|].
  (* n comes before p in the ring *)
  pose proof (rg_nodup _ _ Hr1) as Hnd. apply NoDup_cons in Hnd as [Hcur Hnd].
  destruct (elem_of_app_split ys1 n zs1 ys p zs) as (ys2 & -> & ->);
    [exact Heq|intros Hin; by apply (Hdead p Hin)|exact Hne|]. rewrite <-app_assoc in Hr2. cbn [app] in Hr2.
  destruct (IH s2 ys2 p (zs ++ current_process s1 :: ys1)) as (s' & Hin & Hs'); [done| | | |].
  - exact Hr2.
  - destruct (tick_states s1 _ s2 n t Hr1 Ht Ef) as (_ & _ & _ & Hsame).
    unfold living. rewrite Hsame; [exact Hp1|done|]. intros ->. apply Hcur. set_solver.
  - rewrite length_app in Hlen. simpl in Hlen. lia.
  - exists s'. split; [by right|done].
Qed.

(** ** The process list

    The list from [process_list] to the null pointer has all the processes, in the
    order of their creation, which is the order of their numbers. *)

Fixpoint plinks (s : ps) (l : list Z) : Prop :=
  match l with
  | [] => True
  | p :: l' => (∃ x, procs s !! p = Some x ∧ p_next x = default 0 (head l')) ∧ plinks s l'
  end.

(** The processes use heap blocks of their own, and have stacks of their own. *)
Record proc_blocks (s : ps) (hl : layout) : Prop := {
  pb_heap : heap_rep (ps_heap s) hl;
  pb_normal : normal hl = true;
  pb_block p x : procs s !! p = Some x → ∃ sz, (p, sz) ∈ used HEAP_START hl;
  pb_stack p x : procs s !! p = Some x → p_stack x ≠ 0 →
    ∃ sz, KERNEL_STACK_SIZE ≤ sz ∧ (p_stack x, sz) ∈ used HEAP_START hl;
  pb_stack_ne p q x y : procs s !! p = Some x → procs s !! q = Some y → p ≠ q →
    p_stack x ≠ 0 → p_stack x ≠ p_stack y;
}.

Record sched_ok (s : ps) (l : list Z) (hl : layout) : Prop := {
  so_nodup : NoDup l;
  so_null : 0 ∉ l;
  so_list : process_list s = default 0 (head l);
  so_links : plinks s l;
  so_current : current_process s ∈ l;
  so_running p : p ∈ l → p ≠ current_process s → state_at s p ≠ Some PROCESS_RUNNING;
  so_dom p : is_Some (procs s !! p) → p ∈ l;
  so_pids i p x : l !! i = Some p → procs s !! p = Some x → pid x = Z.of_nat i;
  so_next_pid : next_pid s = Z.of_nat (length l);
  so_blocks : proc_blocks s hl;
}.

Lemma plinks_app s l1 l2 : plinks s (l1 ++ l2) → plinks s l2.
Proof. induction l1 as [|p l1 IH]; [done|]. cbn [app plinks]. intros [_ H]. auto. Qed.

Lemma circ_next_link s p x q : procs s !! p = Some x → p_next x = q → 0 ≠ q → circ_next s p = Some q.
Proof.
  intros Hx <- Hq. unfold circ_next. rewrite Hx. apply (f_equal Some).
  by rewrite (proj2 (Z.eqb_neq (p_next x) 0)).
Qed.

Lemma circ_next_end s p x :
  procs s !! p = Some x → p_next x = 0 → circ_next s p = Some (process_list s).
Proof. intros Hx Hn. unfold circ_next. rewrite Hx. apply (f_equal Some). by rewrite Hn. Qed.

Lemma plinks_prefix s l1 p l2 :
  0 ∉ l1 ++ p :: l2 → plinks s (l1 ++ p :: l2) → follows s (l1 ++ [p]).
Proof.
  induction l1 as [|q l1 IH]; [done|]. cbn [app plinks].
  intros [_ Hn]%not_elem_of_cons [(x & Hx & Hnext) Hl].
  destruct l1 as [|q' l1]; cbn [app head default follows] in *.
  - apply not_elem_of_cons in Hn as [Hn _]. split; [|done]. by apply (circ_next_link s q x).
  - split; [|by apply IH]. apply not_elem_of_cons in Hn as [Hn _].
    by apply (circ_next_link s q x).
Qed.

Lemma plinks_suffix s p l :
  0 ∉ p :: l → plinks s (p :: l) → follows s ((p :: l) ++ [process_list s]).
Proof.
  revert p. induction l as [|q l IH]; intros p Hn Hl; destruct Hl as [(x & Hx & Hnext) Hl].
  - cbn [app follows]. split; [|done]. by apply (circ_next_end s p x).
  - apply not_elem_of_cons in Hn as [_ Hn]. cbn [app follows].
    split; [|apply (IH q Hn Hl)]. apply not_elem_of_cons in Hn as [Hn _].
    by apply (circ_next_link s p x).
Qed.

(** The list seen from the current process is a ring. *)
Lemma sched_ring s pre post hl :
  sched_ok s (pre ++ current_process s :: post) hl → ring s (post ++ pre).
Proof.
  intros Hok. set (c := current_process s) in *.
  assert (c :: post ++ pre ≡ₚ pre ++ c :: post) as Hperm.
  { change (c :: post ++ pre) with ((c :: post) ++ pre). apply Permutation_app_comm. }
  constructor; fold c.
  - rewrite Hperm. apply Hok.
  - pose proof (so_links _ _ _ Hok) as Hl. pose proof (so_null _ _ _ Hok) as Hn.
    pose proof (plinks_prefix s pre c post Hn Hl) as Hpre.
    assert (0 ∉ c :: post) as Hn2 by set_solver.
    pose proof (plinks_suffix s c post Hn2 (plinks_app _ _ _ Hl)) as Hpost.
    rewrite (so_list _ _ _ Hok) in Hpost.
    destruct pre as [|h pre]; cbn [app head default] in *; [by rewrite app_nil_r|].
    change (c :: (post ++ h :: pre) ++ [c]) with ((c :: post ++ h :: pre) ++ [c]).
    change (c :: post ++ h :: pre) with ((c :: post) ++ h :: pre).
    rewrite <-app_assoc. apply follows_app; [exact Hpost|exact Hpre].
  - rewrite Hperm. apply Hok.
  - intros p Hp. pose proof (so_nodup _ _ _ Hok) as Hnd. rewrite <-Hperm in Hnd.
    apply NoDup_cons in Hnd as [Hc _]. apply (so_running _ _ _ Hok).
    + rewrite <-Hperm. by right.
    + by intros ->.
Qed.

Lemma sched_ring_of s l hl :
  sched_ok s l hl → ∃ r, ring s r ∧ l ≡ₚ current_process s :: r.
Proof.
  intros Hok. destruct (list_elem_of_split _ _ (so_current _ _ _ Hok)) as (pre & post & ->).
  exists (post ++ pre). split; [by apply (sched_ring s pre post hl)|].
  change (current_process s :: post ++ pre) with ((current_process s :: post) ++ pre).
  apply Permutation_app_comm.
Qed.
