(* ===== verification/ProcessLife.v ===== *)
(** * The life of a process: kernel/process.c's creation and exit

    [process_create] allocates, initialises and appends; the invariant [sched_ok] of
    ProcessSched.v is established by [process_init] and preserved by every operation. *)

From S2P Require Import Prelude Heap Process ProcessThms ProcessSched.

(** ** What an operation keeps *)

Definition ident (x : process_t) : Z * Z * Z := (pid x, p_next x, p_stack x).

(** Only registers, stack memory, states and saved stack pointers change. *)
Record keeps (s s' : ps) : Prop := {
  kp_heap : ps_heap s' = ps_heap s;
  kp_list : process_list s' = process_list s;
  kp_next_pid : next_pid s' = next_pid s;
  kp_procs p : ident <$> procs s' !! p = ident <$> procs s !! p;
}.

Lemma ident_lookup s s' p x' :
  keeps s s' → procs s' !! p = Some x' → ∃ x, procs s !! p = Some x ∧ ident x' = ident x.
Proof.
  intros Hk Hx'. pose proof (kp_procs _ _ Hk p) as H. rewrite Hx' in H.
  destruct (procs s !! p) as [x|]; [|done]. exists x. split; [done|]. by apply (inj Some) in H.
Qed.

Lemma ident_inj x y : ident x = ident y → pid x = pid y ∧ p_next x = p_next y ∧ p_stack x = p_stack y.
Proof. unfold ident. intros H. by injection H. Qed.

Lemma keeps_plinks s s' l : keeps s s' → plinks s l → plinks s' l.
Proof.
  intros Hk. induction l as [|p l IH]; [done|]. cbn [plinks]. intros [(x & Hx & Hn) Hl].
  split; [|by apply IH]. pose proof (kp_procs _ _ Hk p) as H. rewrite Hx in H.
  destruct (procs s' !! p) as [x'|]; [|done]. exists x'. split; [done|].
  apply (inj Some), ident_inj in H as (_ & H & _). congruence.
Qed.

Lemma keeps_blocks s s' hl : keeps s s' → proc_blocks s hl → proc_blocks s' hl.
Proof.
  intros Hk [H1 H2 H3 H4 H5]. constructor.
  - by rewrite (kp_heap _ _ Hk).
  - done.
  - intros p x' Hx'. destruct (ident_lookup _ _ _ _ Hk Hx') as (x & Hx & _). by eapply H3.
  - intros p x' Hx'. destruct (ident_lookup _ _ _ _ Hk Hx') as (x & Hx & E).
    apply ident_inj in E as (_ & _ & ->). by eapply H4.
  - intros p q x' y' Hx' Hy'. destruct (ident_lookup _ _ _ _ Hk Hx') as (x & Hx & Ex).
    destruct (ident_lookup _ _ _ _ Hk Hy') as (y & Hy & Ey).
    apply ident_inj in Ex as (_ & _ & ->), Ey as (_ & _ & ->). by eapply H5.
Qed.

Lemma keeps_sched s s' l hl :
  sched_ok s l hl → keeps s s' → current_process s' ∈ l →
  (∀ p, p ∈ l → p ≠ current_process s' → state_at s' p ≠ Some PROCESS_RUNNING) →
  sched_ok s' l hl.
Proof.
  intros Hok Hk Hc Hr. constructor; try done; try apply Hok.
  - rewrite (kp_list _ _ Hk). apply Hok.
  - eapply keeps_plinks; [exact Hk|apply Hok].
  - intros p [x' Hx']. destruct (ident_lookup _ _ _ _ Hk Hx') as (x & Hx & _).
    apply (so_dom _ _ _ Hok). by exists x.
  - intros i p x' Hi Hx'. destruct (ident_lookup _ _ _ _ Hk Hx') as (x & Hx & E).
    apply ident_inj in E as (-> & _). by eapply (so_pids _ _ _ Hok).
  - rewrite (kp_next_pid _ _ Hk). apply Hok.
  - eapply keeps_blocks; [exact Hk|apply Hok].
Qed.

Lemma between_sched s s' l hl : between s s' → sched_ok s l hl → sched_ok s' l hl.
Proof.
  intros [c m|x Hx] Hok.
  - apply (keeps_sched s); [done|done|apply Hok|apply Hok].
  - apply (keeps_sched s); [done| |apply Hok|].
    + split; try done. intros p. cbn [set_procs procs]. rewrite lookup_insert.
      case_decide; [subst; by rewrite Hx|done].
    + intros p Hp Hne. unfold state_at. cbn [set_procs procs current_process] in *.
      rewrite lookup_insert_ne by done. by apply (so_running _ _ _ Hok).
Qed.

Lemma tick_keeps s r s' : tick_result s r s' → keeps s s'.
Proof.
  unfold tick_result. destruct (filter (living s) r) as [|n l]; [by intros ->|].
  intros (x & y & Hx & Hy & Hp & _ & Hh & Hl & Hpid & _). split; try done.
  intros p. rewrite Hp, !lookup_insert. unfold demote.
  repeat case_decide; subst; rewrite ?Hx, ?Hy; done.
Qed.

(** A tick ends, prints nothing and keeps the invariant. *)
Lemma tick_sched s l hl :
  sched_ok s l hl → wp scheduler_tick s (λ _ s' o, o = [] ∧ sched_ok s' l hl).
Proof.
  intros Hok. destruct (sched_ring_of s l hl Hok) as (r & Hr & Hperm).
  eapply wp_mono; [by apply (tick_spec s r)|]. intros _ s' o [-> Ht]. split; [done|].
  pose proof (tick_keeps _ _ _ Ht) as Hk.
  destruct (filter (living s) r) as [|n t] eqn:E.
  { pose proof Ht as Ht'. unfold tick_result in Ht'. rewrite E in Ht'. by subst s'. }
  destruct (tick_states s r s' n t Hr Ht E) as (Hc & Hn & Hcur & Hsame).
  assert (n ∈ r) as Hin.
  { assert (n ∈ filter (living s) r) as H by (rewrite E; apply list_elem_of_here).
    by apply list_elem_of_filter in H as [_ H]. }
  apply (keeps_sched s); [done|done| |].
  - rewrite Hc, Hperm. by right.
  - intros p Hp Hne. rewrite Hc in Hne.
    destruct (decide (p = current_process s)) as [->|Hpc].
    + rewrite Hcur. destruct (procs s !! current_process s); [|done]. cbn.
      intros [= H]. by apply demote_state in H.
    + rewrite Hsame by done. by apply (so_running _ _ _ Hok).
Qed.

(** ** Creation *)

(** [set_procs] after [set_procs] at one address. *)
Definition put_proc (p : Z) (x : process_t) (s : ps) : ps := set_procs (<[p := x]> (procs s)) s.

Lemma put_put p x y s : put_proc p x (put_proc p y s) = put_proc p x s.
Proof. unfold put_proc. cbn [set_procs procs]. by rewrite insert_insert_eq. Qed.

Lemma put_lookup p x s : procs (put_proc p x s) !! p = Some x.
Proof. apply lookup_insert_eq. Qed.

Lemma wp_put_update p f s x (Q : unit → ps → list event → Prop) :
  Q tt (put_proc p (f x) s) [] → wp (proc_update p f) (put_proc p x s) Q.
Proof.
  intros HQ. eapply wp_proc_update; [apply put_lookup|].
  change (set_procs _ _) with (put_proc p (f x) (put_proc p x s)). by rewrite put_put.
Qed.

Lemma set_fd_spec p i v s x f :
  aget (fds x) i = Some f →
  wp (set_fd p i v) (put_proc p x s) (λ _ s' o, o = [] ∧
    s' = put_proc p (set_fds (<[Z.to_nat i := set_fd_used v f]> (fds x)) x) s).
Proof.
  intros Hf. unfold set_fd. wp_steps. eapply wp_proc_get; [apply put_lookup|]. wp_steps.
  eapply wp_lift; [exact Hf|]. wp_steps.
  eapply wp_lift; [apply aset_Some; by eapply aget_Some_range|]. wp_steps.
  by apply wp_put_update.
Qed.

(** Descriptors 0, 1 and 2 are in use and no others. *)
Definition fds_ok (l : list file_descriptor_t) : Prop :=
  length l = 16%nat ∧ ∀ i f, l !! i = Some f → fd_used f = if (i <? 3)%nat then 1 else 0.

Lemma init_fds_spec p s x :
  length (fds x) = 16%nat →
  wp (init_fds p) (put_proc p x s) (λ _ s' o, o = [] ∧
    ∃ l, fds_ok l ∧ s' = put_proc p (set_fds l x) s).
Proof.
  intros Hlen. unfold init_fds. wp_steps. eapply wp_kfold with (I := λ j (_ : unit) s' o, o = [] ∧
    ∃ l, length l = 16%nat ∧ (∀ i f, (i < Z.to_nat j)%nat → l !! i = Some f → fd_used f = 0) ∧
      s' = put_proc p (set_fds l x) s).
  - split; [done|]. exists (fds x). split; [done|]. split; [lia|]. by destruct x.
  - intros j _ s' o Hj (-> & l & Hl & Hz & ->).
    unfold MAX_FD in Hj. destruct (aget_is_Some l j) as [f Hf]; [lia|].
    eapply wp_mono; [by apply set_fd_spec with (f := f)|].
    intros _ s' o (-> & ->). split; [done|]. exists (<[Z.to_nat j := set_fd_used 0 f]> l).
    split; [by rewrite length_insert|]. split; [|done].
    intros i g Hi. rewrite list_lookup_insert. case_decide as Hij.
    + by intros [= <-].
    + apply Hz. lia.
  - intros _ s' o (-> & l & Hl & Hz & ->). change (Z.to_nat (0 + _)) with 16%nat in Hz.
    destruct (lookup_lt_is_Some_2 l 0%nat ltac:(lia)) as [f0 H0].
    destruct (lookup_lt_is_Some_2 l 1%nat ltac:(lia)) as [f1 H1].
    destruct (lookup_lt_is_Some_2 l 2%nat ltac:(lia)) as [f2 H2].
    wp_steps. eapply wp_mono.
    { apply set_fd_spec with (f := f0). cbn [set_fds fds]. by rewrite aget_eq by lia. }
    intros _ s' o (-> & ->). wp_steps. eapply wp_mono.
    { apply set_fd_spec with (f := f1). cbn [set_fds fds]. rewrite aget_eq by lia.
      by rewrite list_lookup_insert_ne by done. }
    intros _ s' o (-> & ->). wp_steps. eapply wp_mono.
    { apply set_fd_spec with (f := f2). cbn [set_fds fds]. rewrite aget_eq by lia.
      by rewrite !list_lookup_insert_ne by done. }
    intros _ s' o (-> & ->). split; [done|]. eexists. split; [|done]. cbn [set_fds fds].
    split; [by rewrite !length_insert|]. intros i g.
    change (Z.to_nat 0) with 0%nat. change (Z.to_nat 1) with 1%nat.
    change (Z.to_nat 2) with 2%nat. intros Hg. destruct i as [|[|[|i]]].
    + rewrite !list_lookup_insert_ne, list_lookup_insert_eq in Hg by lia. by injection Hg as <-.
    + rewrite list_lookup_insert_ne, list_lookup_insert_eq in Hg by (rewrite ?length_insert; lia).
      by injection Hg as <-.
    + rewrite list_lookup_insert_eq in Hg by (rewrite !length_insert; lia). by injection Hg as <-.
    + rewrite !list_lookup_insert_ne in Hg by lia.
      assert (S (S (S i)) < 16)%nat by (apply lookup_lt_Some in Hg; lia).
      rewrite (Hz _ g) by (done || lia). done.
Qed.

(** A stack prepared for the first switch: eight zeros under the entry point. *)
Definition stack_ready (m m' : Z → Z) (entry top : Z) : Prop :=
  m' (top - 4) = entry ∧ (∀ i, 0 ≤ i < 8 → m' (top - 36 + 4 * i) = 0) ∧
  ∀ a, ¬ (top - 36 ≤ a < top) → m' a = m a.

Lemma init_stack_spec entry top s :
  wp (init_stack entry top) s (λ r s' o, r = top - 36 ∧ o = [] ∧
    ∃ m, stack_ready (stack_mem s) m entry top ∧ s' = set_stack_mem m s).
Proof.
  unfold init_stack, stack_poke. wp_steps.
  eapply wp_kfold with (I := λ j (_ : unit) s' o, o = [] ∧ ∃ m, m (top - 4) = entry ∧
    (∀ i, 0 ≤ i < j → m (top - 8 - 4 * i) = 0) ∧
    (∀ a, ¬ (top - 4 - 4 * j ≤ a < top) → m a = stack_mem s a) ∧ s' = set_stack_mem m s).
  - split; [done|]. eexists. split; [|split; [|split; [|done]]].
    + unfold write_stack. by rewrite Z.eqb_refl.
    + lia.
    + intros a Ha. unfold write_stack. by rewrite (proj2 (Z.eqb_neq a (top - 4))) by lia.
  - intros j _ s' o Hj (-> & m & H1 & H2 & H3 & ->). wp_steps. split; [done|]. eexists.
    cbn [set_stack_mem stack_mem]. split; [|split; [|split; [|done]]]; unfold write_stack.
    + by rewrite (proj2 (Z.eqb_neq _ _)) by lia.
    + intros i Hi. destruct (Z.eqb_spec (top - 8 - 4 * i) (top - 8 - 4 * j)); [done|].
      apply H2. lia.
    + intros a Ha. rewrite (proj2 (Z.eqb_neq _ _)) by lia. apply H3. lia.
  - intros _ s' o (-> & m & H1 & H2 & H3 & ->). wp_steps. split; [done|]. split; [done|].
    exists m. split; [|done]. split; [exact H1|]. split; [|intros a Ha; apply H3; lia].
    intros i Hi. replace (top - 36 + 4 * i) with (top - 8 - 4 * (7 - i)) by lia. apply H2. lia.
Qed.

(** ** Allocation *)

(** First fit hands out memory that was not in use. *)
Lemma first_fit_fresh n l : ∀ a p l' sz,
  sizes_ok l → a mod 4 = 0 → first_fit n a l = Some (p, l') → (p, sz) ∉ used a l.
Proof.
  induction l as [|[s fr] l IH]; intros a p l' sz Hs Ha Hff Hin; [done|].
  apply sizes_ok_cons in Hs as [[Hsz Hsz4] Hs]. cbn [first_fit] in Hff.
  assert ((a + 12 + s) mod 4 = 0) as Ha' by dlia.
  pose proof (λ x y, used_range l (a + 12 + s) x y Hs Ha') as Hr.
  destruct (fr && (n <=? s)) eqn:Hfit.
  - apply andb_true_iff in Hfit as [-> _]. injection Hff as <- _. cbn [used app] in Hin.
    apply Hr in Hin. lia.
  - destruct (first_fit n (a + 12 + s) l) as [[p2 l2]|] eqn:E; [|done]. injection Hff as -> _.
    cbn [used] in Hin. apply elem_of_app in Hin as [Hin|Hin]; [|by eapply IH].
    destruct fr; [by apply not_elem_of_nil in Hin|].
    apply list_elem_of_singleton in Hin as [= -> ->].
    assert (∀ m b q m', sizes_ok m → b mod 4 = 0 → first_fit n b m = Some (q, m') → b + 12 ≤ q)
      as Hge.
    { clear. induction m as [|[s f] m IH]; intros b q m' Hs Hb E; [done|].
      apply sizes_ok_cons in Hs as [[Hsz Hsz4] Hs]. cbn [first_fit] in E.
      destruct (f && (n <=? s)); [injection E as <- _; lia|].
      destruct (first_fit n (b + 12 + s) m) as [[q2 m2]|] eqn:E2; [|done]. injection E as -> _.
      apply IH in E2; [lia|exact Hs|dlia]. }
    apply Hge in E; [lia|exact Hs|exact Ha'].
Qed.

(** What [kmalloc] gives a scheduler whose blocks are those in use. *)
Lemma alloc_spec s hl n :
  heap_rep (ps_heap s) hl → normal hl = true → 0 < n ≤ 2 ^ 32 - 4 →
  wp (zoom (kmalloc n)) s (λ p s' o,
    match first_fit (align4 n) HEAP_START hl with
    | None => p = 0 ∧ s' = s ∧ o = [EvPrintf "kmalloc: out of heap memory!\n" []]
    | Some (q, hl') => p = q ∧ o = [] ∧ q ≠ 0 ∧ (∀ sz, (q, sz) ∉ used HEAP_START hl) ∧
        normal hl' = true ∧
        (∃ sz, n ≤ sz ∧ (q, sz) ∈ used HEAP_START hl') ∧
        (∀ x, x ∈ used HEAP_START hl → x ∈ used HEAP_START hl') ∧
        ∃ h', s' = set_heap h' s ∧ heap_rep h' hl'
    end).
Proof.
  intros Hr Hnorm Hn. apply wp_zoom.
  destruct (align4_small n Hn) as [Ha Ha4]. assert (0 ≤ align4 n) as Ha0 by lia.
  eapply wp_mono; [apply (kmalloc_spec _ hl); [exact Hr|lia]|]. intros p h' o H.
  destruct (first_fit (align4 n) HEAP_START hl) as [[q hl']|] eqn:E.
  - destruct H as (-> & Hr' & ->).
    destruct (first_fit_inv _ _ _ _ _ Ha0 Ha4 (hr_sizes _ _ Hr) E)
      as (_ & _ & sz & Hle & Hin & Hall).
    apply first_fit_pos in E as Hpos; [|done|apply Hr].
    split; [done|]. split; [done|]. split; [lia|]. split; [|split; [|split; [|split]]].
    + intros sz'. eapply first_fit_fresh; [apply Hr|done|exact E].
    + by eapply first_fit_normal.
    + exists sz. split; [lia|exact Hin].
    + intros x Hx. apply Hall. by right.
    + by exists h'.
  - destruct H as (-> & -> & ->). split; [done|]. split; [by destruct s|done].
Qed.

Section create.
Variable fresh : Z → process_t.
(** The C type: a fresh structure has its 16 descriptors, whatever their contents. *)
Hypothesis fresh_fds : ∀ p, length (fds (fresh p)) = 16%nat.
Context (s : ps) (hl : layout).
Hypothesis Hpb : proc_blocks s hl.

Lemma kmalloc_process_spec :
  wp (kmalloc_process fresh) s (λ p s' o,
    match first_fit (align4 sizeof_process) HEAP_START hl with
    | None => p = 0 ∧ s' = s ∧ o = [EvPrintf "kmalloc: out of heap memory!\n" []]
    | Some (q, hl') => p = q ∧ o = [] ∧ q ≠ 0 ∧ (∀ sz, (q, sz) ∉ used HEAP_START hl) ∧
        normal hl' = true ∧
        (∃ sz, (q, sz) ∈ used HEAP_START hl') ∧
        (∀ x, x ∈ used HEAP_START hl → x ∈ used HEAP_START hl') ∧
        ∃ h', s' = put_proc q (fresh q) (set_heap h' s) ∧ heap_rep h' hl'
    end).
Proof.
  unfold kmalloc_process. wp_steps.
  eapply wp_mono; [apply (alloc_spec s hl sizeof_process); [apply Hpb|apply Hpb|done]|].
  intros p s' o H. destruct (first_fit _ _ hl) as [[q hl']|].
  - destruct H as (-> & -> & Hq & Hnew & Hnorm & (sz & _ & Hin) & Hmono & h' & -> & Hr).
    rewrite (proj2 (Z.eqb_neq q 0)) by done. wp_steps. split; [done|]. split; [done|].
    split; [done|]. split; [done|]. split; [done|]. split; [by exists sz|]. split; [done|].
    by exists h'.
  - destruct H as (-> & -> & ->). rewrite Z.eqb_refl. wp_steps. done.
Qed.

(** Where the structure and the stack of a new process go, and the layout after. *)
Definition create_room : option (Z * Z * layout) :=
  '(p, hl1) ← first_fit (align4 sizeof_process) HEAP_START hl;
  '(st, hl2) ← first_fit (align4 KERNEL_STACK_SIZE) HEAP_START hl1;
  Some (p, st, hl2).

(** A new process [p]: ready, with the first free number, three open descriptors and
    a stack at [st] that the first switch unwinds into [entry]. *)
Record created (entry p st : Z) (s' : ps) : Prop := {
  cr_process : ∃ l, fds_ok l ∧
    procs s' !! p = Some (Process (next_pid s) (st + KERNEL_STACK_SIZE - 36) 0 st PROCESS_READY l 0);
  cr_stack : stack_ready (stack_mem s) (stack_mem s') entry (st + KERNEL_STACK_SIZE);
  cr_current : current_process s' = current_process s;
  cr_cpu : cpu s' = cpu s;
}.
End create.

(** ** Appending to the list *)

Lemma list_append_loop s z xz : ∀ l0 fuel,
  0 ∉ l0 ++ [z] → plinks s (l0 ++ [z]) → procs s !! z = Some xz → (length l0 < fuel)%nat →
  wp (kwhile fuel (λ curr,
      c ← proc_get curr;
      if p_next c =? 0 then mret (inr curr) else mret (inl (p_next c)))
    (default 0 (head (l0 ++ [z])))) s (λ r s' o, r = z ∧ s' = s ∧ o = []).
Proof.
  intros l0. induction l0 as [|q l0 IH]; intros [|fuel] Hn Hl Hz Hfuel; try (simpl in Hfuel; lia).
  - destruct Hl as [(x & Hx & Hnext) _]. apply wp_kwhile_S. wp_steps.
    eapply wp_proc_get; [exact Hx|]. rewrite Hnext. wp_steps. done.
  - cbn [app] in Hn, Hl. destruct Hl as [(x & Hx & Hnext) Hl].
    apply not_elem_of_cons in Hn as [_ Hn]. apply wp_kwhile_S. wp_steps.
    eapply wp_proc_get; [exact Hx|]. rewrite Hnext.
    rewrite (proj2 (Z.eqb_neq _ 0)).
    2: { intros E. apply Hn. rewrite <-E. destruct l0; apply list_elem_of_here. }
    wp_steps. eapply wp_mono; [apply (IH fuel Hn Hl Hz); simpl in Hfuel; lia|].
    intros r s' o (-> & -> & ->). done.
Qed.

Lemma plinks_lookup s l p : plinks s l → p ∈ l → is_Some (procs s !! p).
Proof.
  induction l as [|q l IH]; [by intros _ ?%not_elem_of_nil|]. cbn [plinks].
  intros [(x & Hx & _) Hl] [-> |Hp]%elem_of_cons; [by exists x|by apply IH].
Qed.

Lemma plinks_same s s' l :
  (∀ p, p ∈ l → procs s' !! p = procs s !! p) → plinks s l → plinks s' l.
Proof.
  induction l as [|q l IH]; [done|]. cbn [plinks]. intros Hs [(x & Hx & Hn) Hl]. split.
  - exists x. by rewrite Hs by apply list_elem_of_here.
  - apply IH; [|done]. intros p Hp. apply Hs. by right.
Qed.

Lemma plinks_size s l : NoDup l → plinks s l → (length l ≤ base.size (procs s))%nat.
Proof.
  intros Hnd Hl. rewrite <-size_dom. rewrite <-(size_list_to_set (C := gset Z)) by exact Hnd.
  apply subseteq_size. intros p Hp%elem_of_list_to_set. apply elem_of_dom.
  by eapply plinks_lookup.
Qed.

Lemma list_append_spec s l0 z p :
  NoDup (l0 ++ [z]) → 0 ∉ l0 ++ [z] → plinks s (l0 ++ [z]) →
  process_list s = default 0 (head (l0 ++ [z])) →
  ∃ xz, procs s !! z = Some xz ∧
    wp (list_append p) s (λ _ s' o, o = [] ∧ s' = put_proc z (set_next_proc p xz) s).
Proof.
  intros Hnd Hn Hl Hhead. destruct (plinks_lookup s _ z Hl ltac:(set_solver)) as [xz Hz].
  exists xz. split; [done|]. pose proof (plinks_size _ _ Hnd Hl) as Hsize.
  rewrite length_app in Hsize. simpl in Hsize. unfold list_append. wp_steps. rewrite Hhead.
  eapply wp_mono; [apply (list_append_loop s z xz l0); [done|done|done|lia]|].
  intros r s' o (-> & -> & ->). eapply wp_proc_update; [exact Hz|]. done.
Qed.

(** The list with one more process. *)
Lemma plinks_snoc s s' l0 z p xz :
  p ∉ l0 ++ [z] → NoDup (l0 ++ [z]) → plinks s (l0 ++ [z]) →
  (∀ q, q ∈ l0 ++ [z] → q ≠ z → procs s' !! q = procs s !! q) →
  procs s' !! z = Some (set_next_proc p xz) →
  (∃ x, procs s' !! p = Some x ∧ p_next x = 0) → plinks s' (l0 ++ [z] ++ [p]).
Proof.
  intros Hp Hnd Hl Hsame Hz Hx. induction l0 as [|q l0 IH].
  - cbn [app plinks head default]. split; [by eexists|]. split; [|done]. exact Hx.
  - cbn [app] in Hp, Hnd, Hl, Hsame |- *. cbn [plinks] in Hl |- *.
    destruct Hl as [(x & Hq & Hnext) Hl]. apply NoDup_cons in Hnd as [Hqz Hnd]. split.
    + exists x. split; [rewrite Hsame; [exact Hq|apply list_elem_of_here|]|].
      * intros ->. apply Hqz. set_solver.
      * rewrite Hnext. by destruct l0.
    + apply IH; [set_solver|done|done|]. intros q' Hq'. apply Hsame. by right.
Qed.

(** ** [process_create] *)

Section create_spec.
Variable fresh : Z → process_t.
Hypothesis fresh_fds : ∀ p, length (fds (fresh p)) = 16%nat.

(** Everything between the allocations and the list. *)
Lemma process_fill {A} s entry p st (f : K ps A) Q :
  0 ≤ st → st + KERNEL_STACK_SIZE < 2 ^ 32 →
  (∀ l m, fds_ok l → stack_ready (stack_mem s) m entry (st + KERNEL_STACK_SIZE) →
    wp f (put_proc p (Process (next_pid s) (st + KERNEL_STACK_SIZE - 36) 0 st PROCESS_READY l 0)
      (set_next_pid (u32 (next_pid s + 1)) (set_stack_mem m s))) Q) →
  wp (take_pid p;;
      proc_update p (set_state PROCESS_READY);;
      proc_update p (set_page_dir 0);;
      proc_update p (set_next_proc 0);;
      init_fds p;;
      top ← init_stack entry (u32 (st + KERNEL_STACK_SIZE));
      proc_update p (set_esp top);; f) (put_proc p (set_stack st (fresh p)) s) Q.
Proof.
  intros Hst Htop HQ. rewrite u32_small by (unfold KERNEL_STACK_SIZE in *; lia).
  unfold take_pid. wp_steps. apply wp_put_update. wp_steps.
  change (set_next_pid _ (put_proc p ?x ?s')) with (put_proc p x (set_next_pid (u32 (next_pid s + 1)) s)).
  apply wp_put_update. wp_steps. apply wp_put_update. wp_steps. apply wp_put_update. wp_steps.
  eapply wp_mono; [apply init_fds_spec; exact (fresh_fds p)|].
  intros _ s1 o (-> & l & Hl & ->). wp_steps.
  eapply wp_mono; [apply init_stack_spec|]. intros top s2 o (-> & -> & m & Hm & ->).
  change (set_stack_mem m (put_proc p ?x ?s')) with (put_proc p x (set_stack_mem m s')).
  wp_steps. apply wp_put_update. exact (HQ l m Hl Hm).
Qed.

(** The scheduler's state with a new process, and the new layout. *)
Lemma blocks_grow s hl p st l z xz m h' hl2 n :
  proc_blocks s hl → heap_rep h' hl2 → normal hl2 = true →
  procs s !! z = Some xz → z ≠ p → procs s !! p = None →
  (∀ x, x ∈ used HEAP_START hl → x ∈ used HEAP_START hl2) →
  (∃ sz, (p, sz) ∈ used HEAP_START hl2) →
  (∃ sz, KERNEL_STACK_SIZE ≤ sz ∧ (st, sz) ∈ used HEAP_START hl2) →
  (∀ sz, (st, sz) ∉ used HEAP_START hl) →
  proc_blocks (put_proc z (set_next_proc p xz) (put_proc p
    (Process n (st + KERNEL_STACK_SIZE - 36) 0 st PROCESS_READY l 0)
    (set_next_pid (u32 (n + 1)) (set_stack_mem m (set_heap h' s))))) hl2.
Proof.
  intros [H1 H2 H3 H4 H5] Hr Hnorm Hz Hzp Hp Hmono Hpin Hstin Hst.
  assert (∀ q x, <[z := set_next_proc p xz]> (<[p := Process n (st + KERNEL_STACK_SIZE - 36) 0 st
    PROCESS_READY l 0]> (procs s)) !! q = Some x →
    (q = p ∧ p_stack x = st) ∨ (q ≠ p ∧ ∃ y, procs s !! q = Some y ∧ p_stack x = p_stack y)) as Hinv.
  { intros q x. rewrite !lookup_insert. case_decide as Hzq; [subst q|].
    - intros [= <-]. right. split; [done|]. by exists xz.
    - case_decide as Hpq; [subst q; intros [= <-]; by left|]. intros Hq. right.
      split; [done|]. by exists x. }
  constructor; [exact Hr|exact Hnorm|..]; cbn [put_proc set_procs procs].
  - intros q x [[-> _]|(_ & y & Hy & _)]%Hinv; [exact Hpin|].
    destruct (H3 _ _ Hy) as [sz Hsz]. eauto.
  - intros q x [[_ ->]|(_ & y & Hy & ->)]%Hinv Hne; [exact Hstin|].
    destruct (H4 _ _ Hy Hne) as (sz & Hle & Hsz). eauto.
  - intros q q' x x' [[-> ->]|(Hq & y & Hy & ->)]%Hinv [[-> ->]|(Hq' & y' & Hy' & ->)]%Hinv Hne Hnz.
    + done.
    + intros Heq. rewrite Heq in Hnz, Hst. destruct (H4 _ _ Hy' Hnz) as (sz & _ & Hsz).
      by apply (Hst sz).
    + intros Heq. destruct (H4 _ _ Hy Hnz) as (sz & _ & Hsz). rewrite Heq in Hsz.
      by apply (Hst sz).
    + by eapply (H5 q q').
Qed.

(** The list and the numbers with the new process. *)
Lemma sched_grow s l0 z hl p st fl xz m h' hl2 :
  sched_ok s (l0 ++ [z]) hl → next_pid s < 2 ^ 32 - 1 → 0 ≠ p → p ∉ l0 ++ [z] →
  procs s !! z = Some xz →
  let s' := put_proc z (set_next_proc p xz) (put_proc p
    (Process (next_pid s) (st + KERNEL_STACK_SIZE - 36) 0 st PROCESS_READY fl 0)
    (set_next_pid (u32 (next_pid s + 1)) (set_stack_mem m (set_heap h' s)))) in
  proc_blocks s' hl2 → sched_ok s' ((l0 ++ [z]) ++ [p]) hl2.
Proof.
  intros Hok Hpid Hp0 Hpn Hz s' Hpb. subst s'.
  assert (z ≠ p) as Hzp by (intros ->; apply Hpn; set_solver).
  constructor; cbn [put_proc set_procs set_next_pid set_stack_mem set_heap procs process_list
    current_process next_pid].
  - apply NoDup_app. split; [apply Hok|]. split; [|apply NoDup_singleton].
    intros q Hq Hq'%list_elem_of_singleton. by subst q.
  - intros [H| H%list_elem_of_singleton]%elem_of_app; [by apply (so_null _ _ _ Hok)|done].
  - rewrite (so_list _ _ _ Hok). by destruct l0.
  - rewrite <-app_assoc. apply (plinks_snoc s) with (xz := xz); [done|apply Hok|apply Hok|..].
    + intros q Hq Hqz. unfold put_proc. cbn [set_procs procs].
      rewrite !lookup_insert_ne; [done|by intros ->|done].
    + apply lookup_insert_eq.
    + eexists. unfold put_proc. cbn [set_procs procs].
      rewrite lookup_insert_ne, lookup_insert_eq by done. done.
  - apply elem_of_app. left. apply Hok.
  - intros q Hq Hqc. unfold state_at, put_proc. cbn [set_procs procs].
    rewrite !lookup_insert. case_decide as Hq1.
    { subst q. pose proof (so_running _ _ _ Hok z ltac:(set_solver) Hqc) as H.
      unfold state_at in H. by rewrite Hz in H. }
    case_decide as Hq2; [done|]. apply (so_running _ _ _ Hok); [|done].
    apply elem_of_app in Hq as [Hq|Hq%list_elem_of_singleton]; [done|congruence].
  - intros q [x Hx]. rewrite !lookup_insert in Hx. repeat case_decide; [set_solver..|].
    apply elem_of_app. left. apply (so_dom _ _ _ Hok). by exists x.
  - intros i q x Hi Hx. rewrite lookup_app in Hi.
    destruct ((l0 ++ [z]) !! i) as [q'|] eqn:E.
    + injection Hi as ->. rewrite !lookup_insert in Hx. case_decide as Hq1.
      * subst q. injection Hx as <-. by apply (so_pids _ _ _ Hok i z xz).
      * case_decide as Hq2; [|by apply (so_pids _ _ _ Hok i q x)].
        subst q. exfalso. apply Hpn. by eapply list_elem_of_lookup_2.
    + apply list_lookup_singleton_Some in Hi as [Hi <-]. apply lookup_ge_None in E.
      rewrite lookup_insert_ne, lookup_insert_eq in Hx by done. injection Hx as <-.
      cbn [pid]. rewrite (so_next_pid _ _ _ Hok). lia.
  - rewrite u32_small by (rewrite (so_next_pid _ _ _ Hok) in *; lia).
    rewrite (so_next_pid _ _ _ Hok), !length_app. simpl. lia.
  - exact Hpb.
Qed.

Definition create_event (s : ps) : list event :=
  [EvPrintf "Process: created PID %d\n" [AInt (next_pid s)]].

(** The filled structure joins the list: the end of [process_create]. *)
Lemma process_joins s l hl q q2 szq szs hl1 hl2 fl m h2 entry :
  sched_ok s l hl → next_pid s < 2 ^ 32 - 1 → q ≠ 0 → procs s !! q = None →
  heap_rep h2 hl2 → normal hl2 = true →
  (∀ x, x ∈ used HEAP_START hl → x ∈ used HEAP_START hl1) → (∀ x, x ∈ used HEAP_START hl1 → x ∈ used HEAP_START hl2) →
  (q, szq) ∈ used HEAP_START hl1 → KERNEL_STACK_SIZE ≤ szs → (q2, szs) ∈ used HEAP_START hl2 →
  (∀ sz, (q2, sz) ∉ used HEAP_START hl1) →
  fds_ok fl → stack_ready (stack_mem s) m entry (q2 + KERNEL_STACK_SIZE) →
  wp (list_append q;;
      pr ← proc_get q;
      kprintf "Process: created PID %d\n" [AInt (pid pr)];;
      mret q)
    (put_proc q (Process (next_pid s) (q2 + KERNEL_STACK_SIZE - 36) 0 q2 PROCESS_READY fl 0)
      (set_next_pid (u32 (next_pid s + 1)) (set_stack_mem m (set_heap h2 s))))
    (λ p s' o, p = q ∧ o = create_event s ∧ created s entry p q2 s' ∧ sched_ok s' (l ++ [p]) hl2).
Proof.
  intros Hok Hpid Hq Hnone Hr2 Hn2 Hmono1 Hmono2 Hin1 Hles Hin2 Hnew2 Hfl Hm.
  assert (q ∉ l) as Hql.
  { intros Hin. destruct (plinks_lookup s l q (so_links _ _ _ Hok) Hin) as [x Hx]. congruence. }
  destruct (exists_last (l := l)) as (l0 & z & ->).
  { intros ->. by apply (not_elem_of_nil (current_process s)), (so_current _ _ _ Hok). }
  assert (z ≠ q) as Hzq by (intros ->; apply Hql; set_solver).
  wp_steps. edestruct (list_append_spec (put_proc q (Process (next_pid s)
    (q2 + KERNEL_STACK_SIZE - 36) 0 q2 PROCESS_READY fl 0) (set_next_pid (u32 (next_pid s + 1))
    (set_stack_mem m (set_heap h2 s)))) l0 z q) as (xz & Hz & Happ);
    [apply Hok|apply Hok| |apply (so_list _ _ _ Hok)|].
  { apply (plinks_same s); [|apply Hok]. intros p Hp. unfold put_proc. cbn [set_procs procs].
    apply lookup_insert_ne. by intros ->. }
  eapply wp_mono; [exact Happ|]. intros _ s3 o3 (-> & ->). wp_steps.
  unfold put_proc at 1 in Hz. cbn [set_procs procs] in Hz.
  rewrite lookup_insert_ne in Hz by done. cbn [set_next_pid set_stack_mem set_heap procs] in Hz.
  eapply wp_proc_get.
  { unfold put_proc. cbn [set_procs procs]. rewrite lookup_insert_ne by done. apply lookup_insert_eq. }
  wp_steps. split; [done|]. split; [done|]. split.
  - constructor; [|exact Hm|done|done]. exists fl. split; [exact Hfl|].
    unfold put_proc. cbn [set_procs procs]. rewrite lookup_insert_ne by done. apply lookup_insert_eq.
  - apply (sched_grow s l0 z hl q q2 fl xz m h2 hl2); try done.
    apply (blocks_grow s hl q q2 fl z xz m h2 hl2); try done; [apply Hok| | | |].
    + intros x Hx. by apply Hmono2, Hmono1.
    + exists szq. by apply Hmono2.
    + exists szs. split; [exact Hles|exact Hin2].
    + intros sz Hsz. by apply (Hnew2 sz), Hmono1.
Qed.

Lemma process_create_ok s l hl entry :
  sched_ok s l hl → next_pid s < 2 ^ 32 - 1 →
  wp (process_create fresh entry) s (λ p s' o,
    match create_room hl with
    | Some (q, st, hl2) => p = q ∧ o = create_event s ∧ created s entry p st s' ∧
        sched_ok s' (l ++ [p]) hl2
    | None => p = 0 ∧ o = [EvPrintf "kmalloc: out of heap memory!\n" []] ∧
        ∃ h', s' = set_heap h' s ∧ heap_rep h' hl
    end).
Proof.
  intros Hok Hpid. pose proof (so_blocks _ _ _ Hok) as Hpb. pose proof Hpb as [Hr Hn _ _ _].
  unfold process_create, create_room. wp_steps.
  eapply wp_mono; [by apply (kmalloc_process_spec fresh s hl)|]. intros p s1 o1 H1.
  destruct (first_fit (align4 sizeof_process) HEAP_START hl) as [[q hl1]|] eqn:E1.
  2: { destruct H1 as (-> & -> & ->). rewrite Z.eqb_refl. wp_steps. cbn [mbind option_bind].
       split; [done|]. split; [done|]. exists (ps_heap s). split; [by destruct s|done]. }
  destruct H1 as (-> & -> & Hq & Hnew & Hn1 & (szq & Hin1) & Hmono1 & h1 & -> & Hr1).
  rewrite (proj2 (Z.eqb_neq q 0)) by done. cbn [mbind option_bind].
  assert (procs s !! q = None) as Hnone.
  { destruct (procs s !! q) as [x|] eqn:Ex; [|done]. exfalso.
    destruct (pb_block _ _ Hpb q x Ex) as [sz Hsz]. by apply (Hnew sz). }
  wp_steps. eapply wp_mono; [by apply (alloc_spec _ hl1 KERNEL_STACK_SIZE)|]. intros st s2 o2 H2.
  destruct (first_fit (align4 KERNEL_STACK_SIZE) HEAP_START hl1) as [[q2 hl2]|] eqn:E2.
  - destruct H2 as (-> & -> & Hq2 & Hnew2 & Hn2 & (szs & Hles & Hin2) & Hmono2 & h2 & -> & Hr2).
    change (set_heap h2 (put_proc q ?x ?s')) with (put_proc q x (set_heap h2 s)).
    wp_steps. apply wp_put_update. rewrite (proj2 (Z.eqb_neq q2 0)) by done.
    destruct (used_range hl2 HEAP_START q2 szs (hr_sizes _ _ Hr2) eq_refl Hin2) as (R1 & R2 & _).
    rewrite (hr_total _ _ Hr2) in R2. unfold HEAP_START, HEAP_SIZE, KERNEL_STACK_SIZE in R1, R2, Hles.
    apply process_fill; [lia|unfold KERNEL_STACK_SIZE; lia|]. intros fl m Hfl Hm.
    by apply (process_joins s l hl q q2 szq szs hl1 hl2 fl m h2 entry).
  - destruct H2 as (-> & -> & ->). wp_steps. apply wp_put_update. rewrite Z.eqb_refl. wp_steps.
    apply wp_zoom. eapply wp_mono; [by apply (kfree_spec h1 hl1 q szq)|].
    intros _ h3 o3 (-> & Hr3). wp_steps. split; [done|]. split; [done|]. exists h3. split.
    + unfold put_proc, set_procs, set_heap. cbn. by rewrite delete_insert_id.
    + assert (0 ≤ align4 sizeof_process) as Ha by (by vm_compute).
      by rewrite (proj2 (release_first_fit _ _ _ _ _ Ha (hr_sizes _ _ Hr) Hn E1)) in Hr3.
Qed.
End create_spec.
