(* ===== verification/ProcessProps.v ===== *)
(** * Theorems about processes and the scheduler, with their witnesses *)

From S2P Require Import Prelude Heap Process ProcessThms ProcessSched ProcessLife.

(** ** The start *)

Section init.
Variable fresh : Z → process_t.
Hypothesis fresh_fds : ∀ p, length (fds (fresh p)) = 16%nat.

(** [process_init] on the boot state makes the kernel the only process, running. *)
Lemma process_init_ok s hl q hl1 :
  heap_rep (ps_heap s) hl → normal hl = true → procs s = ∅ → next_pid s = 0 →
  first_fit (align4 sizeof_process) HEAP_START hl = Some (q, hl1) →
  wp (process_init fresh) s (λ _ s' o,
    o = [EvPrintf "Process: kernel process created (PID 0)\n" []] ∧ sched_ok s' [q] hl1 ∧
    state_at s' q = Some PROCESS_RUNNING ∧ stack_mem s' = stack_mem s ∧ cpu s' = cpu s).
Proof.
  intros Hr Hn Hnone Hpid E. unfold process_init. wp_steps.
  assert (proc_blocks s hl) as Hpb.
  { constructor; [done|done|..]; intros p *; by rewrite Hnone, lookup_empty. }
  eapply wp_mono; [by apply (kmalloc_process_spec fresh s hl)|]. intros p s1 o1 H1.
  rewrite E in H1. destruct H1 as (-> & -> & Hq & Hnew & Hn1 & Hin & _ & h1 & -> & Hr1).
  unfold take_pid. wp_steps. apply wp_put_update. wp_steps.
  change (set_next_pid _ (put_proc q ?x ?s')) with (put_proc q x (set_next_pid (u32 (next_pid s + 1)) s')).
  do 5 (apply wp_put_update; wp_steps).
  eapply wp_mono; [apply init_fds_spec; exact (fresh_fds q)|]. intros _ s2 o (-> & l & Hl & ->).
  wp_steps. split; [done|].
  unfold put_proc; cbn [set_procs set_next_pid set_heap set_process_list set_current procs
    current_process next_pid ps_heap process_list stack_mem cpu].
  rewrite Hnone, Hpid. split; [|split; [|done]].
  - assert (∀ (p : Z) (x y : process_t), (<[q := x]> ∅ : gmap Z process_t) !! p = Some y →
      p = q ∧ y = x) as Hinv.
    { intros p x y. rewrite lookup_insert. case_decide as Hp; [|done].
      intros [= <-]. by rewrite Hp. }
    constructor; cbn [set_procs set_next_pid set_heap set_process_list set_current procs
      current_process next_pid ps_heap process_list].
    + apply NoDup_singleton.
    + intros H%list_elem_of_singleton. congruence.
    + done.
    + cbn [plinks]. split; [|done]. eexists. split; [apply lookup_insert_eq|]. done.
    + apply list_elem_of_here.
    + intros p Hp%list_elem_of_singleton. done.
    + intros p [x Hx]. apply Hinv in Hx as [-> _]. apply list_elem_of_here.
    + intros i p x Hi Hx. apply Hinv in Hx as [_ ->].
      by apply list_lookup_singleton_Some in Hi as [-> _].
    + done.
    + constructor; [exact Hr1|exact Hn1|..]; cbn [set_procs set_next_pid set_heap set_process_list
        set_current procs].
      * intros p x Hx. apply Hinv in Hx as [-> _]. exact Hin.
      * intros p x Hx. apply Hinv in Hx as [_ ->]. done.
      * intros p p' x y Hx Hy Hne. apply Hinv in Hx as [-> _], Hy as [-> _]. done.
  - unfold state_at. cbn [set_procs set_next_pid set_heap set_process_list set_current procs].
    by rewrite lookup_insert_eq.
Qed.

(** ** Histories *)

(** What happens to the scheduler's state: the current process runs or exits, a timer
    tick, or the creation of a process. *)
Inductive sched_step (s s' : ps) : Prop :=
  | step_run : between s s' → sched_step s s'
  | step_tick o : scheduler_tick s = Done tt s' o → sched_step s s'
  | step_create entry p o :
      next_pid s < 2 ^ 32 - 1 → process_create fresh entry s = Done p s' o → sched_step s s'.

Lemma set_heap_sched s l hl h : sched_ok s l hl → heap_rep h hl → sched_ok (set_heap h s) l hl.
Proof.
  intros Hok Hr. destruct Hok as [? ? ? Hl ? ? ? ? ? [? ? ? ? ?]].
  constructor; try done. eapply plinks_same; [|exact Hl]. done.
Qed.

Lemma sched_step_ok s s' l hl :
  sched_ok s l hl → sched_step s s' → ∃ l' hl', sched_ok s' (l ++ l') hl'.
Proof.
  intros Hok [Hb|o E|entry p o Hpid E].
  - exists [], hl. rewrite app_nil_r. by apply (between_sched s).
  - destruct (wp_done _ _ _ (tick_sched s l hl Hok)) as ([] & s2 & o2 & E2 & _ & H).
    rewrite E in E2. injection E2 as <- _. exists [], hl. by rewrite app_nil_r.
  - destruct (wp_done _ _ _ (process_create_ok fresh fresh_fds s l hl entry Hok Hpid))
      as (p2 & s2 & o2 & E2 & H).
    rewrite E in E2. injection E2 as <- <- <-.
    destruct (create_room hl) as [[[q st] hl2]|].
    + destruct H as (-> & _ & _ & H). by exists [q], hl2.
    + destruct H as (_ & _ & h' & -> & Hr). exists [], hl. rewrite app_nil_r.
      by apply set_heap_sched.
Qed.

Lemma sched_steps_ok s s' : rtc sched_step s s' → ∀ l hl,
  sched_ok s l hl → ∃ l' hl', sched_ok s' (l ++ l') hl'.
Proof.
  induction 1 as [s|s s1 s2 Hstep _ IH]; intros l hl Hok.
  - exists [], hl. by rewrite app_nil_r.
  - destruct (sched_step_ok s s1 l hl Hok Hstep) as (l1 & hl1 & Hok1).
    destruct (IH _ _ Hok1) as (l2 & hl2 & Hok2). exists (l1 ++ l2), hl2. by rewrite app_assoc.
Qed.
End init.

(** ** The theorems *)

Section theorems.
Variable fresh : Z → process_t.
Hypothesis fresh_fds : ∀ p, length (fds (fresh p)) = 16%nat.

(** C12.  Every state reached from a well-formed one by running, exiting, ticking and
    creating processes is well-formed: the list only grows, at its end; the i-th process
    has number i, so numbers are never reused; only the current process is marked
    running; and no two processes share stack memory. *)
Theorem scheduler_invariant s s' l hl :
  sched_ok s l hl → rtc (sched_step fresh) s s' →
  ∃ l', (∃ hl', sched_ok s' (l ++ l') hl') ∧
    (∀ p q x y, procs s' !! p = Some x → procs s' !! q = Some y → p ≠ q →
      pid x ≠ pid y ∧
      (p_stack x ≠ 0 → p_stack y ≠ 0 →
       p_stack x + KERNEL_STACK_SIZE ≤ p_stack y ∨ p_stack y + KERNEL_STACK_SIZE ≤ p_stack x)) ∧
    (∀ p, state_at s' p = Some PROCESS_RUNNING → p = current_process s').
Proof.
  intros Hok Hsteps.
  destruct (sched_steps_ok fresh fresh_fds _ _ Hsteps l hl Hok) as (l' & hl' & Hok').
  exists l'. split; [by exists hl'|]. split.
  - intros p q x y Hx Hy Hne. split.
    + destruct (list_elem_of_lookup_1 _ _ (so_dom _ _ _ Hok' p (ex_intro _ x Hx))) as [i Hi].
      destruct (list_elem_of_lookup_1 _ _ (so_dom _ _ _ Hok' q (ex_intro _ y Hy))) as [j Hj].
      rewrite (so_pids _ _ _ Hok' i p x Hi Hx), (so_pids _ _ _ Hok' j q y Hj Hy).
      intros Hij. apply Nat2Z.inj in Hij. subst j. congruence.
    + intros Hsx Hsy. destruct (so_blocks _ _ _ Hok') as [Hr _ _ Hst Hsne].
      destruct (Hst _ _ Hx Hsx) as (sz & Hle & Hin). destruct (Hst _ _ Hy Hsy) as (sz' & Hle' & Hin').
      destruct (used_disjoint _ _ _ _ _ _ (hr_sizes _ _ Hr) (eq_refl : HEAP_START mod 4 = 0) Hin Hin' (Hsne _ _ _ _ Hx Hy Hne Hsx));
        lia.
  - intros p Hp. destruct (decide (p = current_process s')) as [|Hne]; [done|]. exfalso.
    refine (so_running _ _ _ Hok' p _ Hne Hp). apply (so_dom _ _ _ Hok').
    unfold state_at in Hp. destruct (procs s' !! p); [eauto|done].
Qed.

(** More processes than process.h and the README allow. *)
Lemma process_create_ignores_limit s l hl entry p st hl' :
  sched_ok s l hl → next_pid s < 2 ^ 32 - 1 → MAX_PROCESSES ≤ Z.of_nat (length l) →
  create_room hl = Some (p, st, hl') →
  ∃ s', process_create fresh entry s = Done p s' (create_event s) ∧ sched_ok s' (l ++ [p]) hl' ∧
    MAX_PROCESSES < Z.of_nat (length (l ++ [p])).
Proof.
  intros Hok Hpid Hlim E.
  destruct (wp_done _ _ _ (process_create_ok fresh fresh_fds s l hl entry Hok Hpid)) as (q & s' & o & Eo & H).
  rewrite E in H. destruct H as (-> & -> & _ & Hok'). exists s'. split; [exact Eo|]. split; [exact Hok'|].
  rewrite length_app. cbn [length]. lia.
Qed.

(** C36.  [process_create]: the outcome is decided by the room in the heap, however many
    processes there are (nothing tests MAX_PROCESSES, [process_create_ignores_limit]).  With
    room for the structure and the stack, the new process is the last of the list, ready,
    with the next number and descriptors 0 to 2 open, and its stack unwinds into [entry];
    otherwise the result is null and the structure that was already allocated is given
    back, so that nothing but the heap's own representation has changed. *)
Theorem process_create_spec s l hl entry :
  sched_ok s l hl → next_pid s < 2 ^ 32 - 1 →
  match create_room hl with
  | Some (p, st, hl') => ∃ s', process_create fresh entry s = Done p s' (create_event s) ∧
      created s entry p st s' ∧ sched_ok s' (l ++ [p]) hl'
  | None => ∃ h', process_create fresh entry s =
        Done 0 (set_heap h' s) [EvPrintf "kmalloc: out of heap memory!\n" []] ∧
      sched_ok (set_heap h' s) l hl
  end.
Proof.
  intros Hok Hpid.
  destruct (wp_done _ _ _ (process_create_ok fresh fresh_fds s l hl entry Hok Hpid))
    as (p & s' & o & E & H).
  destruct (create_room hl) as [[[q st] hl2]|].
  - destruct H as (-> & -> & Hcr & Hok'). by exists s'.
  - destruct H as (-> & -> & h' & -> & Hr). exists h'. split; [exact E|].
    by apply set_heap_sched.
Qed.
End theorems.

(** C20.  A tick always returns, silently: the search for a living process visits
    every process at most once, also when the list has dead processes only. *)
Theorem scheduler_tick_terminates s l hl :
  sched_ok s l hl → ∃ s', scheduler_tick s = Done tt s' [] ∧ sched_ok s' l hl.
Proof.
  intros Hok. destruct (wp_done _ _ _ (tick_sched s l hl Hok)) as ([] & s' & o & E & -> & H).
  by exists s'.
Qed.

(** C13.  The scheduler is fair: whatever the running processes do and however many
    of them exit, each of [n] processes that lives is run within [n - 1] ticks. *)
Theorem round_robin_fair s l hl p tr :
  sched_ok s l hl → p ∈ l → p ≠ current_process s → living s p →
  sched_trace s tr → (length l ≤ S (length tr))%nat →
  ∃ s', s' ∈ tr ∧ current_process s' = p.
Proof.
  intros Hok Hp Hpc Hliv Htr Hlen. destruct (sched_ring_of s l hl Hok) as (r & Hr & Hperm).
  assert (p ∈ r) as Hin.
  { rewrite Hperm in Hp. by apply elem_of_cons in Hp as [|]. }
  apply list_elem_of_split in Hin as (ys & zs & ->).
  apply (fair_trace tr s ys p zs); [done|done|done|].
  rewrite Hperm in Hlen. cbn [length] in Hlen. rewrite length_app in Hlen. simpl in Hlen. lia.
Qed.

(** Switching away from a process and back: if its stack was left alone, it
    goes on right after its call of [context_switch], with its registers as they were
    (the call itself may change eax and ecx). *)
Theorem context_switch_roundtrip s prev new x :
  procs s !! prev = Some x →
  ∃ s1 x1, context_switch prev new s = Done tt s1 [] ∧ procs s1 !! prev = Some x1 ∧
  ∀ s2 other y,
    (∀ a, esp (cpu s) - 32 ≤ a < esp (cpu s) + 4 → stack_mem s2 a = stack_mem s1 a) →
    procs s2 !! other = Some y →
    esp (cpu s2) ≤ esp (cpu s) - 32 ∨ esp (cpu s) + 4 ≤ esp (cpu s2) - 32 →
  ∃ s3, context_switch other (p_esp x1) s2 = Done tt s3 [] ∧
    edx (cpu s3) = edx (cpu s) ∧ ebx (cpu s3) = ebx (cpu s) ∧ ebp (cpu s3) = ebp (cpu s) ∧
    esi (cpu s3) = esi (cpu s) ∧ edi (cpu s3) = edi (cpu s) ∧
    esp (cpu s3) = esp (cpu s) + 4 ∧ eip (cpu s3) = stack_mem s (esp (cpu s)).
Proof.
  intros Hx. destruct (wp_done _ _ _ (context_switch_spec prev new s x Hx))
    as ([] & s1 & o & E & -> & Hp & _ & _ & _ & _ & Hm). cbv zeta in Hm.
  destruct Hm as (Mdx & Mbx & Mbp & Msi & Mdi & Mout & _).
  exists s1, (set_esp (esp (cpu s) - 32) x). split; [exact E|].
  split; [rewrite Hp; apply lookup_insert_eq|]. intros s2 other y Hsame Hy Hdisj.
  cbn [set_esp p_esp]. set (sp := esp (cpu s)) in *.
  destruct (wp_done _ _ _ (context_switch_spec other (sp - 32) s2 y Hy))
    as ([] & s3 & o & E3 & -> & _ & _ & _ & _ & _ & Hm3). cbv zeta in Hm3.
  destruct Hm3 as (_ & _ & _ & _ & _ & Mout3 & Hcpu).
  exists s3. split; [exact E3|]. rewrite Hcpu. cbn [edx ebx ebp esi edi esp eip].
  rewrite !Mout3 by lia. rewrite !Hsame by lia.
  replace (sp - 32 + 20) with (sp - 12) by lia. replace (sp - 32 + 16) with (sp - 16) by lia.
  replace (sp - 32 + 8) with (sp - 24) by lia. replace (sp - 32 + 4) with (sp - 28) by lia.
  replace (sp - 32 + 32) with sp by lia. replace (sp - 32 + 36) with (sp + 4) by lia.
  do 5 (split; [done|]). split; [done|]. apply Mout. lia.
Qed.

(** The first time a new process is switched to it starts at its entry point
    with an empty stack and zeros in the other registers. *)
Theorem process_first_run s s1 entry p st prev x :
  created s entry p st s1 → procs s1 !! prev = Some x →
  esp (cpu s1) ≤ st ∨ st + KERNEL_STACK_SIZE ≤ esp (cpu s1) - 32 →
  ∃ y s2, procs s1 !! p = Some y ∧ context_switch prev (p_esp y) s1 = Done tt s2 [] ∧
    cpu s2 = Cpu 0 0 0 0 0 0 0 (st + KERNEL_STACK_SIZE) entry.
Proof.
  intros [(l & _ & Hy) (He & Hz & _) _ _] Hx Hdisj. eexists.
  destruct (wp_done _ _ _ (context_switch_spec prev (st + KERNEL_STACK_SIZE - 36) s1 x Hx))
    as ([] & s2 & o & E & -> & _ & _ & _ & _ & _ & Hm). cbv zeta in Hm.
  destruct Hm as (_ & _ & _ & _ & _ & Mout & Hcpu). exists s2. split; [exact Hy|].
  split; [exact E|]. rewrite Hcpu. unfold KERNEL_STACK_SIZE in *.
  rewrite !Mout by lia.
  replace (st + 4096 - 36 + 32) with (st + 4096 - 4) by lia. rewrite He.
  pose proof (Hz 7 ltac:(lia)) as H7. pose proof (Hz 6 ltac:(lia)) as H6.
  pose proof (Hz 5 ltac:(lia)) as H5. pose proof (Hz 4 ltac:(lia)) as H4.
  pose proof (Hz 2 ltac:(lia)) as H2. pose proof (Hz 1 ltac:(lia)) as H1.
  pose proof (Hz 0 ltac:(lia)) as H0. rewrite Z.add_0_r in H0.
  change (4 * 7) with 28 in H7. change (4 * 6) with 24 in H6. change (4 * 5) with 20 in H5.
  change (4 * 4) with 16 in H4. change (4 * 2) with 8 in H2. change (4 * 1) with 4 in H1.
  rewrite H7, H6, H5, H4, H2, H1, H0.
  f_equal; lia.
Qed.

(** ** Witnesses: a kernel with one process, and with two *)

Definition fresh0 (_ : Z) : process_t :=
  Process 0 0 0 0 PROCESS_DEAD (replicate 16 (Fd 0 [] 0 0)) 0.
Definition boot_cpu : cpu_t := Cpu 1 2 3 4 5 6 7 0x200000 0x100000.
Definition boot_ps : ps := Ps heap0 ∅ (λ _, 0) 0 0 0 boot_cpu.
Definition entry0 : Z := 0x104000.
Definition kernel_ps : ps := final boot_ps (process_init fresh0 boot_ps).
Definition two_ps : ps := final kernel_ps (process_create fresh0 entry0 kernel_ps).
Definition p0 : Z := HEAP_START + 12.
Definition p1 : Z := HEAP_START + 12 + 1240 + 12.
Definition st1 : Z := p1 + 1240 + 12.
Definition layout1 : layout := [(1240, false); (HEAP_SIZE - 12 - 1252, true)].
Definition layout2 : layout :=
  [(1240, false); (1240, false); (4096, false); (HEAP_SIZE - 12 - 1252 - 1252 - 4108, true)].

Lemma fresh0_fds p : length (fds (fresh0 p)) = 16%nat.
Proof. reflexivity. Qed.

Lemma kernel_ps_ok :
  sched_ok kernel_ps [p0] layout1 ∧ cpu kernel_ps = boot_cpu ∧ next_pid kernel_ps = 1.
Proof.
  destruct (wp_done _ _ _ (process_init_ok fresh0 fresh0_fds boot_ps _ p0 layout1 heap0_rep
    eq_refl eq_refl eq_refl eq_refl)) as (u & s & o & E & _ & Hok & _ & _ & Hc).
  unfold kernel_ps. rewrite E. cbn [final]. split; [exact Hok|]. split; [exact Hc|].
  apply (so_next_pid _ _ _ Hok).
Qed.

Lemma two_ps_ok :
  process_create fresh0 entry0 kernel_ps = Done p1 two_ps (create_event kernel_ps) ∧
  sched_ok two_ps [p0; p1] layout2 ∧ created kernel_ps entry0 p1 st1 two_ps.
Proof.
  destruct kernel_ps_ok as (Hok & _ & Hpid).
  assert (next_pid kernel_ps < 2 ^ 32 - 1) as Hlt by (rewrite Hpid; reflexivity).
  destruct (wp_done _ _ _ (process_create_ok fresh0 fresh0_fds kernel_ps [p0] layout1 entry0 Hok Hlt))
    as (p & s & o & E & H).
  replace (create_room layout1) with (Some (p1, st1, layout2)) in H by (vm_compute; reflexivity).
  destruct H as (-> & -> & Hcr & Hok'). unfold two_ps. rewrite E. cbn [final].
  split; [reflexivity|]. split; [exact Hok'|exact Hcr].
Qed.

Lemma two_ps_current : current_process two_ps = p0.
Proof.
  destruct two_ps_ok as (_ & _ & Hcr). rewrite (cr_current _ _ _ _ _ Hcr).
  destruct kernel_ps_ok as (Hok & _). pose proof (so_current _ _ _ Hok) as H.
  by apply list_elem_of_singleton in H.
Qed.

Lemma two_ps_living : living two_ps p1.
Proof.
  destruct two_ps_ok as (_ & _ & Hcr). destruct (cr_process _ _ _ _ _ Hcr) as (l & _ & Hp).
  apply (living_lookup _ _ _ Hp). done.
Qed.

Lemma p0_process : is_Some (procs two_ps !! p0).
Proof.
  apply (plinks_lookup two_ps [p0; p1]); [apply two_ps_ok|apply list_elem_of_here].
Qed.

Lemma scheduler_invariant_witness :
  ∃ l', (∃ hl', sched_ok two_ps ([p0] ++ l') hl') ∧
    (∀ p q x y, procs two_ps !! p = Some x → procs two_ps !! q = Some y → p ≠ q →
      pid x ≠ pid y ∧
      (p_stack x ≠ 0 → p_stack y ≠ 0 →
       p_stack x + KERNEL_STACK_SIZE ≤ p_stack y ∨ p_stack y + KERNEL_STACK_SIZE ≤ p_stack x)) ∧
    (∀ p, state_at two_ps p = Some PROCESS_RUNNING → p = current_process two_ps).
Proof.
  apply (scheduler_invariant fresh0 fresh0_fds kernel_ps two_ps [p0] layout1); [apply kernel_ps_ok|].
  apply rtc_once. apply (step_create fresh0 _ _ entry0 p1 (create_event kernel_ps)).
  - rewrite (proj2 (proj2 kernel_ps_ok)). reflexivity.
  - apply two_ps_ok.
Defined.

Lemma process_create_spec_witness :
  ∃ s', process_create fresh0 entry0 kernel_ps = Done p1 s' (create_event kernel_ps) ∧
    created kernel_ps entry0 p1 st1 s' ∧ sched_ok s' ([p0] ++ [p1]) layout2.
Proof.
  pose proof (process_create_spec fresh0 fresh0_fds kernel_ps [p0] layout1 entry0
    (proj1 kernel_ps_ok)) as H.
  replace (create_room layout1) with (Some (p1, st1, layout2)) in H by (vm_compute; reflexivity).
  apply H. rewrite (proj2 (proj2 kernel_ps_ok)). reflexivity.
Defined.

Lemma scheduler_tick_terminates_witness :
  ∃ s', scheduler_tick two_ps = Done tt s' [] ∧ sched_ok s' [p0; p1] layout2.
Proof. apply (scheduler_tick_terminates two_ps). apply two_ps_ok. Defined.

(** One tick of the two processes. *)
Definition ticked_ps : ps := final two_ps (scheduler_tick two_ps).

Lemma ticked_trace : sched_trace two_ps [ticked_ps].
Proof.
  destruct (wp_done _ _ _ (tick_sched two_ps _ _ (proj1 (proj2 two_ps_ok))))
    as ([] & s & o & E & _ & _).
  apply (trace_cons _ two_ps _ o); [|unfold ticked_ps; by rewrite E|constructor].
  pose proof (between_runs two_ps (cpu two_ps) (stack_mem two_ps)) as H.
  by destruct two_ps.
Qed.

Lemma round_robin_fair_witness : ∃ s', s' ∈ [ticked_ps] ∧ current_process s' = p1.
Proof.
  apply (round_robin_fair two_ps [p0; p1] layout2 p1); [apply two_ps_ok| |
    rewrite two_ps_current; discriminate|apply two_ps_living|apply ticked_trace|reflexivity].
  apply list_elem_of_further, list_elem_of_here.
Defined.

Lemma context_switch_roundtrip_witness :
  ∃ s1 x1, context_switch p0 (st1 + 4060) two_ps = Done tt s1 [] ∧ procs s1 !! p0 = Some x1 ∧
  ∀ s2 other y,
    (∀ a, esp (cpu two_ps) - 32 ≤ a < esp (cpu two_ps) + 4 → stack_mem s2 a = stack_mem s1 a) →
    procs s2 !! other = Some y →
    esp (cpu s2) ≤ esp (cpu two_ps) - 32 ∨ esp (cpu two_ps) + 4 ≤ esp (cpu s2) - 32 →
  ∃ s3, context_switch other (p_esp x1) s2 = Done tt s3 [] ∧
    edx (cpu s3) = edx (cpu two_ps) ∧ ebx (cpu s3) = ebx (cpu two_ps) ∧
    ebp (cpu s3) = ebp (cpu two_ps) ∧
    esi (cpu s3) = esi (cpu two_ps) ∧ edi (cpu s3) = edi (cpu two_ps) ∧
    esp (cpu s3) = esp (cpu two_ps) + 4 ∧ eip (cpu s3) = stack_mem two_ps (esp (cpu two_ps)).
Proof.
  destruct p0_process as [x Hx]. exact (context_switch_roundtrip two_ps p0 (st1 + 4060) x Hx).
Defined.

Lemma process_first_run_witness :
  ∃ y s2, procs two_ps !! p1 = Some y ∧ context_switch p0 (p_esp y) two_ps = Done tt s2 [] ∧
    cpu s2 = Cpu 0 0 0 0 0 0 0 (st1 + KERNEL_STACK_SIZE) entry0.
Proof.
  destruct p0_process as [x Hx].
  apply (process_first_run kernel_ps two_ps entry0 p1 st1 p0 x); [apply two_ps_ok|exact Hx|].
  left. rewrite (cr_cpu _ _ _ _ _ (proj2 (proj2 two_ps_ok))), (proj1 (proj2 kernel_ps_ok)).
  discriminate.
Defined.
