(* ===== verification/Fs.v ===== *)
(** * AshFS: kernel/fs.c and include/fs.h

    The on-disk structures and the operations of the file system, over any block
    device.  FsView.v says what the disk means and FsSpec.v proves what the
    operations do. *)

From S2P Require Import Prelude Bytes Disk.

Definition MAX_FILES : Z := 32.
Definition MAX_FILE_BLOCKS : Z := 32.
Definition BLOCK_SIZE : Z := 512.
Definition MAX_FILENAME : Z := 64.

Definition SUPERBLOCK_SECTOR : Z := 0.
Definition INODE_START_SECTOR : Z := 1.
Definition DATA_START_SECTOR : Z := 33.
Definition FS_MAGIC : Z := 0xA5075.

(** ** On-disk structures *)

Record superblock_t := Superblock {
  magic : Z;
  version : Z;
  total_blocks : Z;
  inode_start : Z;
  data_start : Z;
  free_blocks : Z;
}.

Record inode_t := Inode {
  i_name : list Z;
  i_size : Z;
  i_blocks : list Z;
  i_used : Z;
  i_padding : list Z;
}.

Definition sizeof_superblock : Z := 24.
Definition sizeof_inode : Z := 200.
Definition INODES_PER_SECTOR : Z := 512 / sizeof_inode.

(** The packed layouts, little-endian. *)
Definition superblock_of_bytes (b : list Z) : superblock_t :=
  Superblock (le_Z (slice 0 4 b)) (le_Z (slice 4 4 b)) (le_Z (slice 8 4 b))
    (le_Z (slice 12 4 b)) (le_Z (slice 16 4 b)) (le_Z (slice 20 4 b)).

Definition bytes_of_superblock (s : superblock_t) : list Z :=
  le_bytes 4 (magic s) ++ le_bytes 4 (version s) ++ le_bytes 4 (total_blocks s) ++
  le_bytes 4 (inode_start s) ++ le_bytes 4 (data_start s) ++ le_bytes 4 (free_blocks s).

(** An array of 32-bit words. *)
Fixpoint words_of_bytes (n : nat) (b : list Z) : list Z :=
  match n with
  | O => []
  | S n => le_Z (take 4 b) :: words_of_bytes n (drop 4 b)
  end.

Definition bytes_of_words (ws : list Z) : list Z := concat (map (le_bytes 4) ws).

Definition inode_of_bytes (b : list Z) : inode_t :=
  Inode (slice 0 64 b) (le_Z (slice 64 4 b)) (words_of_bytes 32 (slice 68 128 b))
    (le_Z (slice 196 1 b)) (slice 197 3 b).

Definition bytes_of_inode (i : inode_t) : list Z :=
  i_name i ++ le_bytes 4 (i_size i) ++ bytes_of_words (i_blocks i) ++
  le_bytes 1 (i_used i) ++ i_padding i.

Definition set_name (n : list Z) (i : inode_t) : inode_t :=
  Inode n (i_size i) (i_blocks i) (i_used i) (i_padding i).
Definition set_size (n : Z) (i : inode_t) : inode_t :=
  Inode (i_name i) n (i_blocks i) (i_used i) (i_padding i).
Definition set_blocks (b : list Z) (i : inode_t) : inode_t :=
  Inode (i_name i) (i_size i) b (i_used i) (i_padding i).
Definition set_used (u : Z) (i : inode_t) : inode_t :=
  Inode (i_name i) (i_size i) (i_blocks i) u (i_padding i).
Definition set_free (n : Z) (s : superblock_t) : superblock_t :=
  Superblock (magic s) (version s) (total_blocks s) (inode_start s) (data_start s) n.

(** What [fs_memset(&inode, 0, sizeof(inode_t))] leaves. *)
Definition zero_inode : inode_t := inode_of_bytes (replicate 200 0).
Definition zero_superblock : superblock_t := superblock_of_bytes (replicate 24 0).

(** ** State: the static [superblock] and the disk *)

Record fs (D : Type) := Fs {
  superblock : superblock_t;
  disk : D;
}.
Arguments Fs {D} _ _.
Arguments superblock {D} _.
Arguments disk {D} _.

Definition set_sb {D} (sb : superblock_t) (s : fs D) : fs D := Fs sb (disk s).

#[export] Instance fs_disk_lens {D} : Lens (fs D) D.
Proof.
  refine {| lens_get := disk; lens_set := λ d s, Fs (superblock s) d |}; try done.
  intros []; done.
Defined.

Section fs.
Context {D : Type} `{BlockOps D}.

Definition ata_read_sector (lba : Z) : K (fs D) (list Z) := zoom (dev_read lba).
Definition ata_write_sector (lba : Z) (buf : list Z) : K (fs D) unit :=
  zoom (dev_write lba buf).

(** ** Inode helpers *)

Definition inode_read (index : Z) : K (fs D) inode_t :=
  let sector := u32 (INODE_START_SECTOR + index / INODES_PER_SECTOR) in
  let offset := index mod INODES_PER_SECTOR in
  buf ← ata_read_sector sector;
  b ← klift (fs_memcpy (replicate 200 0) 0 buf (offset * sizeof_inode) sizeof_inode);
  mret (inode_of_bytes b).

Definition inode_write (index : Z) (inode : inode_t) : K (fs D) unit :=
  let sector := u32 (INODE_START_SECTOR + index / INODES_PER_SECTOR) in
  let offset := index mod INODES_PER_SECTOR in
  buf ← ata_read_sector sector;
  buf ← klift (fs_memcpy buf (offset * sizeof_inode) (bytes_of_inode inode) 0 sizeof_inode);
  ata_write_sector sector buf.

Definition inode_find (name : list Z) : K (fs D) Z :=
  r ← kloop 0 (Z.to_nat MAX_FILES) (λ i _,
    inode ← inode_read i;
    if i_used inode =? 0 then mret (inl tt)
    else
      c ← klift (fs_strcmp (i_name inode) name);
      if c =? 0 then mret (inr i) else mret (inl tt)) tt;
  mret (match r with inr i => i | inl _ => -1 end).

Definition inode_alloc : K (fs D) Z :=
  r ← kloop 0 (Z.to_nat MAX_FILES) (λ i _,
    inode ← inode_read i;
    if i_used inode =? 0 then mret (inr i) else mret (inl tt)) tt;
  mret (match r with inr i => i | inl _ => -1 end).

(** The first loop of [block_alloc]: a byte of [used] per data block. *)
Definition mark_used_blocks (used : list Z) : K (fs D) (list Z) :=
  kfold 0 (Z.to_nat MAX_FILES) (λ i used,
    inode ← inode_read i;
    if i_used inode =? 0 then mret used
    else
      kfold 0 (Z.to_nat MAX_FILE_BLOCKS) (λ j used,
        b ← klift (aget (i_blocks inode) j);
        if b =? 0 then mret used
        else klift (aset used (u32 (b - DATA_START_SECTOR)) 1)) used) used.

Definition block_alloc : K (fs D) Z :=
  s ← kget;
  if free_blocks (superblock s) =? 0 then mret 0
  else
    used ← klift (fs_memset (replicate 1024 0) 0 1024);
    used ← mark_used_blocks used;
    s ← kget;
    r ← kloop 0 (Z.to_nat (total_blocks (superblock s))) (λ i _,
      u ← klift (aget used i);
      if u =? 0 then
        kmodify (λ s, set_sb (set_free (u32 (free_blocks (superblock s) - 1))
                                       (superblock s)) s);;
        mret (inr (u32 (DATA_START_SECTOR + i)))
      else mret (inl tt)) tt;
    mret (match r with inr b => b | inl _ => 0 end).

(** [fs_memset(buf, 0, 512); fs_memcpy(buf, &superblock, ...);
    ata_write_sector(SUPERBLOCK_SECTOR, buf)]. *)
Definition write_superblock : K (fs D) unit :=
  s ← kget;
  buf ← klift (fs_memset (replicate 512 0) 0 512);
  buf ← klift (fs_memcpy buf 0 (bytes_of_superblock (superblock s)) 0 sizeof_superblock);
  ata_write_sector SUPERBLOCK_SECTOR buf.

(** ** Public API *)

Definition fs_format : K (fs D) unit :=
  kprintf "FS: no AshFS found, formatting...\n" [];;
  kmodify (set_sb zero_superblock);;
  kmodify (set_sb (Superblock FS_MAGIC 1 1024 INODE_START_SECTOR DATA_START_SECTOR 1024));;
  write_superblock;;
  buf ← klift (fs_memset (replicate 512 0) 0 512);
  _ ← kfold 0 32 (λ i _, ata_write_sector (u32 (INODE_START_SECTOR + i)) buf) tt;
  kprintf "FS: AshFS formatted successfully\n" [].

Definition fs_init : K (fs D) unit :=
  buf ← ata_read_sector SUPERBLOCK_SECTOR;
  b ← klift (fs_memcpy (replicate 24 0) 0 buf 0 sizeof_superblock);
  kmodify (set_sb (superblock_of_bytes b));;
  s ← kget;
  if negb (magic (superblock s) =? FS_MAGIC) then fs_format
  else kprintf "FS: AshFS found, version %d, %d free blocks\n"
         [AInt (version (superblock s)); AInt (free_blocks (superblock s))].

Definition fs_create (name : list Z) : K (fs D) Z :=
  found ← inode_find name;
  if 0 <=? found then
    kprintf "FS: file '%s' already exists\n" [AStr name];;
    mret (-1)
  else
    index ← inode_alloc;
    if index <? 0 then
      kprintf "FS: no free inodes\n" [];;
      mret (-1)
    else
      n ← klift (fs_strcpy (i_name zero_inode) name MAX_FILENAME);
      inode_write (u32 index) (set_used 1 (set_size 0 (set_name n zero_inode)));;
      kprintf "FS: created '%s'\n" [AStr name];;
      mret 0.

(** The loop of [fs_write]: the local [inode] and [written]. *)
Definition write_blocks (data : list Z) (size : Z) (inode : inode_t) (blocks_needed : Z)
  : K (fs D) (inode_t * Z + Z) :=
  kloop 0 (Z.to_nat blocks_needed) (λ i '(inode, written),
    block ← block_alloc;
    if block =? 0 then
      kprintf "FS: disk full\n" [];;
      mret (inr (-1))
    else
      bs ← klift (aset (i_blocks inode) i block);
      buf ← klift (fs_memset (replicate 512 0) 0 512);
      let to_write := u32 (size - written) in
      let to_write := if BLOCK_SIZE <? to_write then BLOCK_SIZE else to_write in
      buf ← klift (fs_memcpy buf 0 data written to_write);
      ata_write_sector block buf;;
      mret (inl (set_blocks bs inode, u32 (written + to_write)))) (inode, 0).

Definition fs_write (name data : list Z) (size : Z) : K (fs D) Z :=
  index ← inode_find name;
  if index <? 0 then
    kprintf "FS: file '%s' not found\n" [AStr name];;
    mret (-1)
  else
    inode ← inode_read (u32 index);
    let blocks_needed := u32 (u32 (size + BLOCK_SIZE) - 1) / BLOCK_SIZE in
    if MAX_FILE_BLOCKS <? blocks_needed then
      kprintf "FS: file too large\n" [];;
      mret (-1)
    else
      r ← write_blocks data size inode blocks_needed;
      match r with
      | inr err => mret err
      | inl (inode, _) =>
          inode_write (u32 index) (set_size size inode);;
          write_superblock;;
          kprintf "FS: wrote %d bytes to '%s'\n" [AInt size; AStr name];;
          mret 0
      end.

(** The loop of [fs_read]: the local [read] and the caller's [buf]. *)
Definition read_blocks (inode : inode_t) (to_read : Z) (buf : list Z)
  : K (fs D) (Z * list Z + Z * list Z) :=
  kloop 0 (Z.to_nat MAX_FILE_BLOCKS) (λ i '(read, buf),
    if negb (read <? to_read) then mret (inr (read, buf))
    else
      b ← klift (aget (i_blocks inode) i);
      if b =? 0 then mret (inr (read, buf))
      else
        data_buf ← ata_read_sector b;
        let chunk := u32 (to_read - read) in
        let chunk := if BLOCK_SIZE <? chunk then BLOCK_SIZE else chunk in
        buf ← klift (fs_memcpy buf read data_buf 0 chunk);
        mret (inl (u32 (read + chunk), buf))) (0, buf).

(** The result and the caller's buffer afterwards. *)
Definition fs_read (name buf : list Z) (size : Z) : K (fs D) (Z * list Z) :=
  index ← inode_find name;
  if index <? 0 then
    kprintf "FS: file '%s' not found\n" [AStr name];;
    mret (-1, buf)
  else
    inode ← inode_read (u32 index);
    let to_read := if size <? i_size inode then size else i_size inode in
    r ← read_blocks inode to_read buf;
    let '(read, buf) := match r with inl x => x | inr x => x end in
    mret (s32 read, buf).

Definition fs_delete (name : list Z) : K (fs D) Z :=
  index ← inode_find name;
  if index <? 0 then
    kprintf "FS: file '%s' not found\n" [AStr name];;
    mret (-1)
  else
    inode ← inode_read (u32 index);
    inode ← kfold 0 (Z.to_nat MAX_FILE_BLOCKS) (λ i inode,
      b ← klift (aget (i_blocks inode) i);
      if b =? 0 then mret inode
      else
        kmodify (λ s, set_sb (set_free (u32 (free_blocks (superblock s) + 1))
                                       (superblock s)) s);;
        bs ← klift (aset (i_blocks inode) i 0);
        mret (set_blocks bs inode)) inode;
    inode_write (u32 index) (set_used 0 inode);;
    write_superblock;;
    kprintf "FS: deleted '%s'\n" [AStr name];;
    mret 0.

Definition fs_list : K (fs D) unit :=
  kprintf "\nFiles on AshFS:\n" [];;
  kprintf "Name                             Size\n" [];;
  kprintf "----                             ----\n" [];;
  found ← kfold 0 (Z.to_nat MAX_FILES) (λ i found,
    inode ← inode_read i;
    if i_used inode =? 0 then mret found
    else
      kprintf "  %s (%d bytes)\n" [AStr (i_name inode); AInt (i_size inode)];;
      mret (s32 (found + 1))) 0;
  if found =? 0 then kprintf "(no files)\n" [] else mret tt.
End fs.
