(* ===== verification/FsCodec.v ===== *)
(** * The on-disk encodings of AshFS

    The packed structs of include/fs.h as bytes: the encodings of [superblock_t]
    and [inode_t] are bijections between the values of the C types and the byte
    strings of their size. *)

From S2P Require Import Prelude Bytes Disk Fs.

Definition word_ok (w : Z) : Prop := 0 ≤ w < 4294967296.

(** The values of the C struct types. *)
Record superblock_ok (s : superblock_t) : Prop := {
  sb_magic : word_ok (magic s);
  sb_version : word_ok (version s);
  sb_total : word_ok (total_blocks s);
  sb_istart : word_ok (inode_start s);
  sb_dstart : word_ok (data_start s);
  sb_free : word_ok (free_blocks s);
}.

Record inode_ok (i : inode_t) : Prop := {
  in_name : length (i_name i) = 64%nat ∧ bytes_ok (i_name i);
  in_size : word_ok (i_size i);
  in_blocks : length (i_blocks i) = 32%nat ∧ Forall word_ok (i_blocks i);
  in_used : byte_ok (i_used i);
  in_padding : length (i_padding i) = 3%nat ∧ bytes_ok (i_padding i);
}.

(** ** Words *)

Lemma le_Z_word l : bytes_ok l → length l = 4%nat → word_ok (le_Z l).
Proof. intros H Hl. pose proof (le_Z_range l H) as Hr. rewrite Hl in Hr. done. Qed.

Lemma le_bytes_word w : word_ok w → le_Z (le_bytes 4 w) = w.
Proof. intros H. apply le_Z_le_bytes. done. Qed.

Lemma bytes_of_words_cons w ws :
  bytes_of_words (w :: ws) = le_bytes 4 w ++ bytes_of_words ws.
Proof. done. Qed.

Lemma length_bytes_of_words ws : length (bytes_of_words ws) = (4 * length ws)%nat.
Proof.
  induction ws as [|w ws IH]; [done|].
  rewrite bytes_of_words_cons, length_app, length_le_bytes, IH. simpl. lia.
Qed.

Lemma bytes_of_words_ok ws : bytes_ok (bytes_of_words ws).
Proof.
  induction ws as [|w ws IH]; [constructor|].
  rewrite bytes_of_words_cons. apply Forall_app. split; [apply le_bytes_ok|done].
Qed.

Lemma words_of_bytes_of_words ws :
  Forall word_ok ws → words_of_bytes (length ws) (bytes_of_words ws) = ws.
Proof.
  induction 1 as [|w ws Hw Hws IH]; [done|].
  rewrite bytes_of_words_cons. cbn [length words_of_bytes].
  rewrite take_app_length', drop_app_length' by (rewrite length_le_bytes; done).
  rewrite le_bytes_word, IH by done. done.
Qed.

Lemma bytes_of_words_of_bytes n : ∀ b,
  length b = (4 * n)%nat → bytes_ok b → bytes_of_words (words_of_bytes n b) = b.
Proof.
  induction n as [|n IH]; intros b Hlen Hb.
  - destruct b; done.
  - cbn [words_of_bytes]. rewrite bytes_of_words_cons.
    assert (length (take 4 b) = 4%nat) as Ht by (rewrite length_take; lia).
    rewrite <-Ht at 1. rewrite le_bytes_le_Z by (apply Forall_take, Hb).
    rewrite IH by (apply Forall_drop, Hb || (rewrite length_drop; lia)).
    apply take_drop.
Qed.

Lemma length_words_of_bytes n b : length (words_of_bytes n b) = n.
Proof. revert b. induction n; intros b; simpl; auto. Qed.

Lemma words_of_bytes_ok n : ∀ b,
  length b = (4 * n)%nat → bytes_ok b → Forall word_ok (words_of_bytes n b).
Proof.
  induction n as [|n IH]; intros b Hlen Hb; cbn [words_of_bytes]; constructor.
  - apply le_Z_word; [apply Forall_take, Hb|rewrite length_take; lia].
  - apply IH; [rewrite length_drop; lia|apply Forall_drop, Hb].
Qed.

Lemma slice_word b (off : nat) :
  bytes_ok b → (off + 4 ≤ length b)%nat → word_ok (le_Z (slice off 4 b)).
Proof. intros. apply le_Z_word; [by apply slice_ok|by apply length_slice]. Qed.

(** ** Fields of a concatenation *)

Lemma slice_head {A} n (l1 l2 : list A) : length l1 = n → slice 0 n (l1 ++ l2) = l1.
Proof. intros H. rewrite slice_app_l by lia. apply slice_full. done. Qed.

Lemma slice_tail {A} off n (l1 l2 : list A) :
  (length l1 ≤ off)%nat → slice off n (l1 ++ l2) = slice (off - length l1) n l2.
Proof. apply slice_app_r. Qed.

Lemma le_bytes_slice b (off n : nat) :
  bytes_ok b → (off + n ≤ length b)%nat → le_bytes n (le_Z (slice off n b)) = slice off n b.
Proof.
  intros Hb Hl. rewrite <-(length_slice off n b Hl) at 1.
  apply le_bytes_le_Z. apply slice_ok, Hb.
Qed.

(** Pick a field of an encoded struct. *)
Ltac field :=
  repeat (rewrite slice_tail by (rewrite ?length_le_bytes, ?length_bytes_of_words; lia));
  rewrite ?length_le_bytes, ?length_bytes_of_words.

(** ** The superblock *)

Lemma length_bytes_of_superblock s : length (bytes_of_superblock s) = 24%nat.
Proof. unfold bytes_of_superblock. rewrite !length_app, !length_le_bytes. done. Qed.

Lemma bytes_of_superblock_ok s : bytes_ok (bytes_of_superblock s).
Proof.
  unfold bytes_of_superblock. repeat (apply Forall_app; split); apply le_bytes_ok.
Qed.

Lemma superblock_of_bytes_of s :
  superblock_ok s → superblock_of_bytes (bytes_of_superblock s) = s.
Proof.
  intros [H1 H2 H3 H4 H5 H6]. unfold superblock_of_bytes, bytes_of_superblock.
  destruct s as [m v t i d f].
  cbn [magic version total_blocks inode_start data_start free_blocks] in *.
  f_equal; field; cbn [Nat.sub]; rewrite ?slice_head by apply length_le_bytes;
    rewrite ?slice_full by apply length_le_bytes; apply le_bytes_word; done.
Qed.

Lemma superblock_of_bytes_ok b :
  length b = 24%nat → bytes_ok b → superblock_ok (superblock_of_bytes b).
Proof. intros Hl Hb. constructor; cbn; apply slice_word; done || lia. Qed.

(** ** Inodes *)

Lemma length_bytes_of_inode i : inode_ok i → length (bytes_of_inode i) = 200%nat.
Proof.
  intros [[Hn _] _ [Hb _] _ [Hp _]]. unfold bytes_of_inode.
  rewrite !length_app, !length_le_bytes, length_bytes_of_words. lia.
Qed.

Lemma bytes_of_inode_ok i : inode_ok i → bytes_ok (bytes_of_inode i).
Proof.
  intros [[_ Hn] _ _ _ [_ Hp]]. unfold bytes_of_inode.
  repeat (apply Forall_app; split); try done;
    apply le_bytes_ok || apply bytes_of_words_ok.
Qed.

Lemma inode_of_bytes_of i : inode_ok i → inode_of_bytes (bytes_of_inode i) = i.
Proof.
  intros [[Hn _] Hs [Hb Hbw] Hu [Hp _]]. unfold inode_of_bytes, bytes_of_inode.
  destruct i as [n s b u p].
  cbn [i_name i_size i_blocks i_used i_padding] in *. f_equal.
  - apply slice_head. done.
  - field. rewrite Hn. cbn [Nat.sub]. rewrite slice_head by apply length_le_bytes.
    apply le_bytes_word. done.
  - field. rewrite Hn. cbn [Nat.sub].
    rewrite slice_head by (rewrite length_bytes_of_words, Hb; done).
    rewrite <-Hb. apply words_of_bytes_of_words. done.
  - field. rewrite Hn, Hb. cbn [Nat.sub]. rewrite slice_head by apply length_le_bytes.
    apply le_Z_le_bytes. done.
  - field. rewrite Hn, Hb. cbn [Nat.sub]. apply slice_full. done.
Qed.

Lemma inode_of_bytes_ok b :
  length b = 200%nat → bytes_ok b → inode_ok (inode_of_bytes b).
Proof.
  intros Hl Hb.
  constructor; unfold inode_of_bytes; cbn [i_name i_size i_blocks i_used i_padding].
  - split; [apply length_slice; lia|by apply slice_ok].
  - apply slice_word; done || lia.
  - split; [apply length_words_of_bytes|]. apply words_of_bytes_ok; [apply length_slice; lia|by apply slice_ok].
  - pose proof (le_Z_range (slice 196 1 b) (slice_ok _ _ _ Hb)) as Hr.
    rewrite length_slice in Hr by lia. done.
  - split; [apply length_slice; lia|by apply slice_ok].
Qed.

Lemma bytes_of_inode_of b :
  length b = 200%nat → bytes_ok b → bytes_of_inode (inode_of_bytes b) = b.
Proof.
  intros Hl Hb. unfold bytes_of_inode, inode_of_bytes.
  cbn [i_name i_size i_blocks i_used i_padding].
  rewrite !le_bytes_slice by (done || lia).
  rewrite bytes_of_words_of_bytes by (apply slice_ok, Hb || (apply length_slice; lia)).
  rewrite (slice_join 196 1 3), (slice_join 68 128 4), (slice_join 64 4 132),
    (slice_join 0 64 136). apply slice_full. done.
Qed.

(** Both directions: the byte strings of 200 bytes are exactly the encodings of
    the values of [inode_t]. *)
Theorem inode_codec_bijective :
  (∀ i, inode_ok i →
     length (bytes_of_inode i) = 200%nat ∧ bytes_ok (bytes_of_inode i) ∧
     inode_of_bytes (bytes_of_inode i) = i) ∧
  (∀ b, length b = 200%nat → bytes_ok b →
     inode_ok (inode_of_bytes b) ∧ bytes_of_inode (inode_of_bytes b) = b).
Proof.
  split.
  - intros i Hi. split; [by apply length_bytes_of_inode|].
    split; [by apply bytes_of_inode_ok|by apply inode_of_bytes_of].
  - intros b Hl Hb. split; [by apply inode_of_bytes_ok|by apply bytes_of_inode_of].
Qed.
