(* ===== verification/FsView.v ===== *)
(** * What an AshFS disk means

    The inode table as a function of the disk, the invariant of the file system
    and its abstraction: a map from file names to contents. *)

From S2P Require Import Prelude Bytes Disk Fs FsCodec.

Section view.
Context {D : Type} {O : BlockOps D} {B : BlockDevice D}.

(** ** The inode table *)

Definition inode_at (d : D) (i : Z) : inode_t :=
  inode_of_bytes (slice (Z.to_nat (i mod 2 * 200)) 200 (sector d (1 + i / 2))).

Definition live (d : D) (i : Z) : bool := negb (i_used (inode_at d i) =? 0).
Definition name_at (d : D) (i : Z) : list Z := cstr (i_name (inode_at d i)).
Definition blocks_at (d : D) (i : Z) : list Z := i_blocks (inode_at d i).

(** The bytes a file's blocks hold: the sectors up to the first zero block
    number, cut at the file's size. *)
Definition file_bytes (d : D) (ino : inode_t) : list Z :=
  take (Z.to_nat (i_size ino)) (concat (map (sector d) (cstr (i_blocks ino)))).

Definition contents (d : D) (i : Z) : list Z := file_bytes d (inode_at d i).

(** A data block some file points to. *)
Definition referenced (d : D) (b : Z) : Prop :=
  ∃ i, 0 ≤ i < 32 ∧ live d i = true ∧ b ∈ blocks_at d i.

(** ** The invariant *)

Definition block_ok (b : Z) : Prop := b = 0 ∨ 33 ≤ b < 1057.

(** The inode table: every live inode has a terminated name and points to data
    blocks only, names are unique, and no data block belongs to two files. *)
Record table_ok (d : D) : Prop := {
  tb_name i : 0 ≤ i < 32 → live d i = true → terminated (i_name (inode_at d i));
  tb_blocks i : 0 ≤ i < 32 → live d i = true → Forall block_ok (blocks_at d i);
  tb_unique i j : 0 ≤ i < 32 → 0 ≤ j < 32 → live d i = true → live d j = true →
    name_at d i = name_at d j → i = j;
  tb_disjoint i j b : 0 ≤ i < 32 → 0 ≤ j < 32 → live d i = true → live d j = true →
    i ≠ j → b ∈ blocks_at d i → b ∈ blocks_at d j → b = 0;
}.

Record fs_ok (s : fs D) : Prop := {
  ok_size : 1057 ≤ dev_sectors ≤ 2 ^ 28;
  ok_dev : dev_ok (disk s);
  ok_sb : superblock_ok (superblock s);
  ok_magic : magic (superblock s) = FS_MAGIC;
  ok_total : total_blocks (superblock s) = 1024;
  ok_table : table_ok (disk s);
}.

(** The superblock on disk is the one in memory. *)
Definition synced (s : fs D) : Prop :=
  superblock_of_bytes (slice 0 24 (sector (disk s) 0)) = superblock s.

(** ** The abstraction: names to contents *)

Definition files (d : D) : list (list Z * list Z) :=
  (λ i, (name_at d i, contents d i)) <$> filter (λ i, live d i = true) (seqZ 0 32).

Definition dir (s : fs D) : gmap (list Z) (list Z) := list_to_map (files (disk s)).

Lemma elem_of_files d n c :
  (n, c) ∈ files d ↔
  ∃ i, 0 ≤ i < 32 ∧ live d i = true ∧ name_at d i = n ∧ contents d i = c.
Proof.
  unfold files. rewrite list_elem_of_fmap. split.
  - intros (i & [= -> ->] & Hi). apply list_elem_of_filter in Hi as [Hl Hi].
    apply elem_of_seqZ in Hi. exists i. repeat split; done || lia.
  - intros (i & Hi & Hl & <- & <-). exists i. split; [done|].
    apply list_elem_of_filter. split; [done|]. apply elem_of_seqZ. lia.
Qed.

Lemma files_NoDup d : table_ok d → NoDup (files d).*1.
Proof.
  intros Ht. unfold files. rewrite <-list_fmap_compose.
  apply NoDup_fmap_2_strong; [|apply NoDup_filter, NoDup_seqZ].
  intros i j Hi Hj Heq. simpl in Heq.
  apply list_elem_of_filter in Hi as [Hli Hi], Hj as [Hlj Hj].
  apply elem_of_seqZ in Hi, Hj. apply (tb_unique d Ht); done || lia.
Qed.

Lemma dir_lookup s n c :
  table_ok (disk s) →
  dir s !! n = Some c ↔
  ∃ i, 0 ≤ i < 32 ∧ live (disk s) i = true ∧ name_at (disk s) i = n ∧
       contents (disk s) i = c.
Proof.
  intros Ht. rewrite <-elem_of_files. unfold dir. split.
  - apply elem_of_list_to_map_2.
  - apply elem_of_list_to_map_1, files_NoDup, Ht.
Qed.

Lemma dir_lookup_None s n :
  table_ok (disk s) →
  dir s !! n = None ↔
  ∀ i, 0 ≤ i < 32 → live (disk s) i = true → name_at (disk s) i ≠ n.
Proof.
  intros Ht. split.
  - intros H i Hi Hl Hn. destruct (dir_lookup s n (contents (disk s) i) Ht) as [_ Hd].
    rewrite Hd in H; [done|]. eauto.
  - intros H. destruct (dir s !! n) as [c|] eqn:E; [|done].
    apply dir_lookup in E as (i & Hi & Hl & Hn & _); [|done]. exfalso. eapply H; done.
Qed.

(** Two tables with the same rows describe the same directory. *)
Lemma dir_ext s s' :
  table_ok (disk s) → table_ok (disk s') →
  (∀ i, 0 ≤ i < 32 → live (disk s') i = live (disk s) i ∧
     (live (disk s) i = true → name_at (disk s') i = name_at (disk s) i ∧
                               contents (disk s') i = contents (disk s) i)) →
  dir s' = dir s.
Proof.
  intros Ht Ht' H. apply map_eq. intros n. apply option_eq. intros c.
  rewrite !dir_lookup by done. split; intros (i & Hi & Hl & Hn & Hc);
    exists i; destruct (H i Hi) as [Hl' Hnc].
  - rewrite Hl' in Hl. destruct (Hnc Hl) as [<- <-]. done.
  - destruct (Hnc Hl) as [-> ->]. rewrite Hl'. done.
Qed.

Lemma live_block d i b :
  table_ok d → 0 ≤ i < 32 → live d i = true → b ∈ blocks_at d i → b ≠ 0 → 33 ≤ b < 1057.
Proof.
  intros Ht Hi Hl Hb Hb0. pose proof (tb_blocks d Ht i Hi Hl) as Hall.
  rewrite Forall_forall in Hall. destruct (Hall b Hb); [congruence|assumption].
Qed.

(** ** Tables with the same rows *)

Lemma referenced_ext d d' b :
  (∀ i, 0 ≤ i < 32 → inode_at d' i = inode_at d i) → referenced d b → referenced d' b.
Proof.
  intros H (i & Hi & Hl & Hb). exists i. unfold live, blocks_at in *. rewrite H by done. done.
Qed.

Lemma table_ok_ext d d' :
  (∀ i, 0 ≤ i < 32 → inode_at d' i = inode_at d i) → table_ok d → table_ok d'.
Proof.
  intros H [H1 H2 H3 H4].
  assert (∀ i, 0 ≤ i < 32 → live d' i = live d i ∧ name_at d' i = name_at d i ∧
    blocks_at d' i = blocks_at d i) as Hrow.
  { intros i Hi. unfold live, name_at, blocks_at. rewrite H by done. done. }
  constructor.
  - intros i Hi. destruct (Hrow i Hi) as (-> & _). rewrite H by done. auto.
  - intros i Hi. destruct (Hrow i Hi) as (-> & _ & ->). auto.
  - intros i j Hi Hj. destruct (Hrow i Hi) as (-> & -> & _), (Hrow j Hj) as (-> & -> & _).
    auto.
  - intros i j b Hi Hj. destruct (Hrow i Hi) as (-> & _ & ->), (Hrow j Hj) as (-> & _ & ->).
    eauto.
Qed.

(** ** States that differ only in the device's internal state *)

Definition fs_eqv (s s' : fs D) : Prop :=
  superblock s = superblock s' ∧ same_sectors (disk s) (disk s').

#[export] Instance fs_eqv_equiv : Equivalence fs_eqv.
Proof.
  split.
  - intros s. split; reflexivity.
  - intros s s' [H1 H2]. split; symmetry; done.
  - intros s1 s2 s3 [H1 H2] [H3 H4]. split; etrans; done.
Qed.

(** The facts the views depend on: the sectors of the inode table and of the
    data blocks. *)
Lemma inode_at_ext d d' i :
  sector d (1 + i / 2) = sector d' (1 + i / 2) → inode_at d i = inode_at d' i.
Proof. unfold inode_at. intros ->. done. Qed.

Lemma file_bytes_ext d d' ino :
  (∀ b, b ∈ i_blocks ino → b ≠ 0 → sector d b = sector d' b) →
  file_bytes d ino = file_bytes d' ino.
Proof.
  intros H. unfold file_bytes. do 2 f_equal.
  assert (Forall (λ b, sector d b = sector d' b) (cstr (i_blocks ino))) as Hall.
  { apply Forall_forall. intros b Hb. apply H.
    - revert Hb. generalize (i_blocks ino) as l. clear.
      induction l as [|x l IH]; simpl; [done|].
      destruct (x =? 0); set_solver.
    - pose proof (cstr_no_nul (i_blocks ino)) as Hn. unfold no_nul in Hn.
      rewrite Forall_forall in Hn. auto. }
  induction Hall as [|b l Hb Hl IH]; simpl; congruence.
Qed.

Lemma inode_sector_range i : 0 ≤ i < 32 → 1 ≤ 1 + i / 2 < 17.
Proof. dlia. Qed.

Section large_disk.
Hypothesis Hsize : 1057 ≤ dev_sectors.

Lemma same_inode_at d d' i : same_sectors d d' → 0 ≤ i < 32 → inode_at d i = inode_at d' i.
Proof.
  intros [_ H] Hi. apply inode_at_ext, H. pose proof (inode_sector_range i Hi). lia.
Qed.

Lemma same_live d d' i : same_sectors d d' → 0 ≤ i < 32 → live d i = live d' i.
Proof. intros. unfold live. erewrite same_inode_at; done. Qed.
Lemma same_name_at d d' i : same_sectors d d' → 0 ≤ i < 32 → name_at d i = name_at d' i.
Proof. intros. unfold name_at. erewrite same_inode_at; done. Qed.
Lemma same_blocks_at d d' i :
  same_sectors d d' → 0 ≤ i < 32 → blocks_at d i = blocks_at d' i.
Proof. intros. unfold blocks_at. erewrite same_inode_at; done. Qed.

Lemma same_referenced d d' b : same_sectors d d' → referenced d b → referenced d' b.
Proof. intros Hs. apply referenced_ext. intros. symmetry. by apply same_inode_at. Qed.

Lemma same_contents d d' i :
  same_sectors d d' → 0 ≤ i < 32 → live d i = true → table_ok d →
  contents d i = contents d' i.
Proof.
  intros Hs Hi Hl Ht. unfold contents. rewrite <-(same_inode_at d d') by done.
  apply file_bytes_ext. intros b Hb Hb0.
  pose proof (live_block d i b Ht Hi Hl Hb Hb0). apply Hs. lia.
Qed.

Lemma same_table_ok d d' : same_sectors d d' → table_ok d → table_ok d'.
Proof. intros Hs. apply table_ok_ext. intros. symmetry. by apply same_inode_at. Qed.

Lemma fs_eqv_dir s s' : fs_eqv s s' → table_ok (disk s) → dir s' = dir s.
Proof.
  intros [_ Hs] Ht. apply dir_ext; [done|by eapply same_table_ok|].
  intros i Hi. rewrite (same_live (disk s) (disk s')) by done. split; [done|].
  intros Hl. rewrite <-(same_live (disk s) (disk s')) in Hl by done.
  rewrite (same_name_at (disk s) (disk s')), (same_contents (disk s) (disk s')) by done.
  done.
Qed.
End large_disk.

Lemma fs_eqv_ok s s' : fs_eqv s s' → fs_ok s → fs_ok s'.
Proof.
  intros [Hsb Hs] [H1 H2 H3 H4 H5 H6]. constructor; rewrite <-?Hsb; try done.
  - apply Hs. done.
  - eapply same_table_ok; [lia|done|done].
Qed.
End view.
