(* ===== verification/FsOps.v ===== *)
(** * What the internal operations of AshFS do

    Specifications of the helpers of kernel/fs.c ([inode_read], [inode_write],
    [inode_find], [inode_alloc], [block_alloc], the superblock write-back) in
    terms of the inode table of FsView.v. *)

From S2P Require Import Prelude Bytes Disk Fs FsCodec FsView.

Section ops.
Context {D : Type} {O : BlockOps D} {B : BlockDevice D}.
Implicit Types s : fs D.

(** ** Sectors *)

Lemma read_sector_spec s k :
  dev_ok (disk s) → 0 ≤ k < dev_sectors →
  wp (ata_read_sector k) s (λ buf s' o, o = [] ∧ buf = sector (disk s) k ∧ fs_eqv s s').
Proof.
  intros Hok Hk. unfold ata_read_sector. apply wp_zoom.
  eapply wp_mono; [apply dev_read_ok; done|]. intros buf d' o (-> & -> & Hok' & Hd).
  split; [done|]. split; [done|]. split; [done|]. split; [done|].
  intros j Hj. symmetry. auto.
Qed.

Lemma write_sector_spec s k buf :
  dev_ok (disk s) → 0 ≤ k < dev_sectors → length buf = 512%nat → bytes_ok buf →
  wp (ata_write_sector k buf) s (λ _ s' o, o = [] ∧ superblock s' = superblock s ∧
    dev_ok (disk s') ∧ ∀ j, 0 ≤ j < dev_sectors →
      sector (disk s') j = if j =? k then buf else sector (disk s) j).
Proof.
  intros Hok Hk Hl Hb. unfold ata_write_sector. apply wp_zoom.
  eapply wp_mono; [apply dev_write_ok; done|]. intros [] d' o (-> & Hok' & Hd). done.
Qed.

(** ** Inodes in their sectors *)

Lemma inode_sector_u32 i :
  0 ≤ i < 32 → u32 (INODE_START_SECTOR + i / INODES_PER_SECTOR) = 1 + i / 2.
Proof.
  intros Hi. change (INODES_PER_SECTOR) with 2. unfold INODE_START_SECTOR.
  apply u32_small. pose proof (inode_sector_range i Hi). lia.
Qed.

Lemma inode_offset i :
  0 ≤ i < 32 →
  i mod INODES_PER_SECTOR * sizeof_inode = Z.of_nat (Z.to_nat (i mod 2 * 200)) ∧
  (Z.to_nat (i mod 2 * 200) = 0 ∨ Z.to_nat (i mod 2 * 200) = 200)%nat.
Proof. change INODES_PER_SECTOR with 2. unfold sizeof_inode. dlia. Qed.

Hypothesis Hsize : 1057 ≤ dev_sectors.

Lemma inode_read_spec s i :
  dev_ok (disk s) → 0 ≤ i < 32 →
  wp (inode_read i) s (λ ino s' o,
    o = [] ∧ ino = inode_at (disk s) i ∧ inode_ok ino ∧ fs_eqv s s').
Proof.
  intros Hok Hi. unfold inode_read. rewrite inode_sector_u32 by done.
  pose proof (inode_sector_range i Hi) as Hr. destruct (inode_offset i Hi) as [-> Hoff].
  wp_steps. eapply wp_mono; [apply read_sector_spec; [done|lia]|].
  intros buf s' o (-> & -> & Hs). wp_steps.
  destruct (sector_ok (disk s) (1 + i / 2) Hok) as [Hl Hb]; [lia|].
  eapply wp_lift.
  { change sizeof_inode with (Z.of_nat 200). apply fs_memcpy_whole; [done|]. lia. }
  wp_steps. split; [done|]. split; [done|]. split; [|done].
  apply inode_of_bytes_ok; [apply length_slice; lia|by apply slice_ok].
Qed.

(** The sector of an inode after the inode's bytes have been replaced. *)
Lemma slice_replaced (off off' : nat) (buf b : list Z) :
  length buf = 512%nat → length b = 200%nat →
  (off = 0 ∨ off = 200)%nat → (off' = 0 ∨ off' = 200)%nat →
  slice off' 200 (take off buf ++ slice 0 200 b ++ drop (off + 200) buf)
  = if decide (off = off') then b else slice off' 200 buf.
Proof.
  intros Hl Hb Hoff Hoff'. rewrite slice_full by done.
  assert (length (take off buf) = off) as Ht by (rewrite length_take; lia).
  case_decide as Heq.
  - subst off'. rewrite slice_tail, Ht, Nat.sub_diag by lia. apply slice_head. done.
  - destruct Hoff as [-> | ->], Hoff' as [-> | ->]; try lia.
    + rewrite take_0. cbn [app]. rewrite slice_tail, Hb by lia. unfold slice. done.
    + rewrite slice_app_l by lia. unfold slice. rewrite !drop_0, take_take. done.
Qed.

Lemma inode_write_spec s i ino :
  dev_ok (disk s) → 0 ≤ i < 32 → inode_ok ino →
  wp (inode_write i ino) s (λ _ s' o,
    o = [] ∧ superblock s' = superblock s ∧ dev_ok (disk s') ∧
    (∀ j, 0 ≤ j < 32 → inode_at (disk s') j = if j =? i then ino else inode_at (disk s) j) ∧
    (∀ k, 0 ≤ k < dev_sectors → k = 0 ∨ 17 ≤ k → sector (disk s') k = sector (disk s) k)).
Proof.
  intros Hok Hi Hino. unfold inode_write. rewrite inode_sector_u32 by done.
  pose proof (inode_sector_range i Hi) as Hr. destruct (inode_offset i Hi) as [-> Hoff].
  wp_steps. eapply wp_mono; [apply read_sector_spec; [done|lia]|].
  intros buf s1 o (-> & -> & Hsb & Hs). wp_steps.
  destruct (sector_ok (disk s) (1 + i / 2) Hok) as [Hl Hb]; [lia|].
  pose proof (length_bytes_of_inode ino Hino) as Hli.
  pose proof (bytes_of_inode_ok ino Hino) as Hbi.
  eapply wp_lift.
  { change 0 with (Z.of_nat 0). change sizeof_inode with (Z.of_nat 200).
    apply fs_memcpy_spec; lia. }
  wp_steps. eapply wp_mono.
  { apply write_sector_spec; [by apply Hs|lia| |].
    - rewrite !length_app, length_take, length_slice, length_drop by lia. lia.
    - repeat (apply Forall_app; split);
        [apply Forall_take, Hb|apply slice_ok, Hbi|apply Forall_drop, Hb]. }
  intros _ s2 o (-> & Hsb2 & Hok2 & Hsec). split; [done|]. split; [congruence|].
  split; [done|]. split.
  - intros j Hj. unfold inode_at. pose proof (inode_sector_range j Hj) as Hrj.
    destruct (inode_offset j Hj) as [_ Hoffj]. rewrite Hsec by lia.
    destruct (Z.eqb_spec (1 + j / 2) (1 + i / 2)) as [E|E].
    + rewrite slice_replaced by done. destruct (Z.eqb_spec j i) as [->|Hji].
      * rewrite decide_True by done. apply inode_of_bytes_of. done.
      * rewrite decide_False by (intros ?; dlia). rewrite E. done.
    + destruct (Z.eqb_spec j i) as [->|]; [done|].
      f_equal. f_equal. symmetry. apply Hs. lia.
  - intros k Hk Hk'. rewrite Hsec by done.
    destruct (Z.eqb_spec k (1 + i / 2)); [lia|]. symmetry. apply Hs. done.
Qed.

(** ** Searching the table *)

Lemma inode_find_spec s name :
  dev_ok (disk s) →
  (∀ i, 0 ≤ i < 32 → live (disk s) i = true → terminated (i_name (inode_at (disk s) i))) →
  bytes_ok name → terminated name →
  wp (inode_find name) s (λ r s' o, o = [] ∧ fs_eqv s s' ∧
    ((0 ≤ r < 32 ∧ live (disk s) r = true ∧ name_at (disk s) r = cstr name) ∨
     (r = -1 ∧ ∀ i, 0 ≤ i < 32 → live (disk s) i = true → name_at (disk s) i ≠ cstr name))).
Proof.
  intros Hok Ht Hb Hn. unfold inode_find. wp_steps.
  apply wp_kloop with (I := λ i _ s' o, o = [] ∧ fs_eqv s s' ∧
    ∀ j, 0 ≤ j < i → live (disk s) j = true → name_at (disk s) j ≠ cstr name).
  - split; [done|]. split; [reflexivity|lia].
  - change (Z.to_nat MAX_FILES) with 32%nat.
    intros i [] s1 o Hi (-> & Hs1 & Hbelow). wp_steps.
    eapply wp_mono; [apply inode_read_spec; [by apply Hs1|lia]|].
    intros ino s2 o (-> & -> & Hino & Hs2).
    assert (fs_eqv s s2) as Hs by (etrans; done).
    rewrite <-(same_inode_at Hsize (disk s) (disk s1)) in * by (apply Hs1 || lia).
    destruct (Z.eqb_spec (i_used (inode_at (disk s) i)) 0) as [Hu|Hu].
    { wp_steps. split; [done|]. split; [done|]. intros j Hj Hlive.
      destruct (Z.eqb_spec j i) as [->|]; [|apply Hbelow; done || lia].
      unfold live in Hlive. rewrite Hu in Hlive. done. }
    assert (live (disk s) i = true) as Hlive.
    { unfold live. apply negb_true_iff, Z.eqb_neq. done. }
    wp_steps. destruct Hino as [[_ Hnb] _ _ _ _].
    destruct (fs_strcmp_spec (i_name (inode_at (disk s) i)) name) as (r & Hr & Hr0);
      [done|done|apply Ht; done || lia|done|].
    eapply wp_lift; [done|]. rewrite Hr0. case_bool_decide as Hcmp.
    + wp_steps. split; [done|]. split; [done|]. left. done || (split; [lia|done]).
    + wp_steps. split; [done|]. split; [done|]. intros j Hj Hlj.
      destruct (Z.eqb_spec j i) as [->|]; [done|apply Hbelow; done || lia].
  - change (Z.of_nat (Z.to_nat MAX_FILES)) with 32.
    intros [] s1 o (-> & Hs1 & Hall). wp_steps. split; [done|]. split; [done|]. right.
    split; [done|]. intros i Hi. apply Hall. lia.
Qed.

Lemma inode_alloc_spec s :
  dev_ok (disk s) →
  wp inode_alloc s (λ r s' o, o = [] ∧ fs_eqv s s' ∧
    ((0 ≤ r < 32 ∧ live (disk s) r = false) ∨
     (r = -1 ∧ ∀ i, 0 ≤ i < 32 → live (disk s) i = true))).
Proof.
  intros Hok. unfold inode_alloc. wp_steps.
  apply wp_kloop with (I := λ i _ s' o, o = [] ∧ fs_eqv s s' ∧
    ∀ j, 0 ≤ j < i → live (disk s) j = true).
  - split; [done|]. split; [reflexivity|lia].
  - change (Z.to_nat MAX_FILES) with 32%nat.
    intros i [] s1 o Hi (-> & Hs1 & Hbelow). wp_steps.
    eapply wp_mono; [apply inode_read_spec; [by apply Hs1|lia]|].
    intros ino s2 o (-> & -> & _ & Hs2). assert (fs_eqv s s2) as Hs by (etrans; done).
    rewrite <-(same_inode_at Hsize (disk s) (disk s1)) by (apply Hs1 || lia).
    destruct (Z.eqb_spec (i_used (inode_at (disk s) i)) 0) as [Hu|Hu]; wp_steps;
      (split; [done|]); (split; [done|]).
    + left. split; [lia|]. unfold live. rewrite Hu. done.
    + intros j Hj. destruct (Z.eqb_spec j i) as [->|]; [|apply Hbelow; lia].
      unfold live. apply negb_true_iff, Z.eqb_neq. done.
  - change (Z.of_nat (Z.to_nat MAX_FILES)) with 32.
    intros [] s1 o (-> & Hs1 & Hall). wp_steps. split; [done|]. split; [done|]. right.
    split; [done|]. intros i Hi. apply Hall. lia.
Qed.

(** ** Allocating a block *)

(** The blocks the first [n] inodes point to. *)
Definition refd_upto (d : D) (n b : Z) : Prop :=
  ∃ i, 0 ≤ i < n ∧ live d i = true ∧ b ∈ blocks_at d i.

(** What the array [used] of [block_alloc] says. *)
Definition used_says (used : list Z) (P : Z → Prop) : Prop :=
  length used = 1024%nat ∧
  ∀ k, 0 ≤ k < 1024 → ∃ u, aget used k = Some u ∧ (u ≠ 0 ↔ P (33 + k)).

Lemma used_says_iff used P Q :
  used_says used P → (∀ b, 33 ≤ b < 1057 → P b ↔ Q b) → used_says used Q.
Proof.
  intros [Hl H] HPQ. split; [done|]. intros k Hk. destruct (H k Hk) as (u & Hu & Hiff).
  exists u. split; [done|]. rewrite Hiff. apply HPQ. lia.
Qed.

Lemma used_says_mark used P b used' :
  used_says used P → 33 ≤ b < 1057 → aset used (b - 33) 1 = Some used' →
  used_says used' (λ c, P c ∨ c = b).
Proof.
  intros [Hl H] Hb [Hr ->]%aset_inv. split; [rewrite length_insert; done|].
  intros k Hk. destruct (Z.eqb_spec k (b - 33)) as [->|Hne].
  - exists 1. rewrite aget_insert_eq by lia. split; [done|]. split; [|lia]. intros _. right. lia.
  - rewrite aget_insert_ne by lia. destruct (H k Hk) as (u & Hu & Hiff).
    exists u. split; [done|]. rewrite Hiff. split; [by left|]. intros [?|?]; [done|lia].
Qed.

Lemma mark_inode_loop s ino used P Q :
  inode_ok ino → Forall block_ok (i_blocks ino) → used_says used P →
  (∀ used', used_says used' (λ b, P b ∨ b ∈ i_blocks ino) → Q used' s []) →
  wp (kfold 0 (Z.to_nat MAX_FILE_BLOCKS) (λ j used,
        b ← klift (aget (i_blocks ino) j);
        if b =? 0 then mret used
        else klift (aset used (u32 (b - DATA_START_SECTOR)) 1)) used) s Q.
Proof.
  intros [_ _ [Hlen _] _ _] Hblk Hused HQ.
  apply wp_kfold with (I := λ j used s' o, s' = s ∧ o = [] ∧
    used_says used (λ b, P b ∨ ∃ j', 0 ≤ j' < j ∧ aget (i_blocks ino) j' = Some b)).
  - split; [done|]. split; [done|]. eapply used_says_iff; [done|].
    intros b _. split; [by left|]. intros [?|(j' & ? & _)]; [done|lia].
  - change (Z.to_nat MAX_FILE_BLOCKS) with 32%nat.
    intros j used1 s1 o Hj (-> & -> & Hs1).
    destruct (aget_is_Some (i_blocks ino) j) as [b Hb]; [lia|].
    wp_steps. eapply wp_lift; [done|].
    rewrite aget_eq in Hb by lia. pose proof (Forall_lookup_1 _ _ _ _ Hblk Hb) as Hbok.
    rewrite <-(aget_eq _ j) in Hb by lia.
    destruct (Z.eqb_spec b 0) as [->|Hb0].
    + wp_steps. split; [done|]. split; [done|]. eapply used_says_iff; [done|].
      intros c Hc. split; [naive_solver lia|]. intros [?|(j' & Hj' & Hget)]; [by left|].
      right. destruct (Z.eqb_spec j' j) as [->|]; [|exists j'; split; [lia|done]].
      rewrite Hb in Hget. inversion Hget. lia.
    + destruct Hbok as [|Hrange]; [done|].
      unfold DATA_START_SECTOR. rewrite u32_small by lia.
      eapply wp_lift; [apply aset_Some; rewrite (proj1 Hs1); lia|].
      split; [done|]. split; [done|].
      eapply used_says_iff.
      { eapply used_says_mark; [done|done|]. apply aset_Some. rewrite (proj1 Hs1). lia. }
      intros c Hc. split.
      * intros [[?|(j' & ? & ?)]| ->]; [by left|right; exists j'; split; [lia|done]|].
        right. exists j. split; [lia|done].
      * intros [?|(j' & Hj' & Hget)]; [by left; left|].
        destruct (Z.eqb_spec j' j) as [->|]; [right; congruence|].
        left. right. exists j'. split; [lia|done].
  - intros used1 s1 o (-> & -> & Hs1). apply HQ. eapply used_says_iff; [done|].
    change (Z.of_nat (Z.to_nat MAX_FILE_BLOCKS)) with 32.
    intros b _. split.
    + intros [?|(j & Hj & Hget)]; [by left|right].
      rewrite aget_eq in Hget by lia. eapply list_elem_of_lookup_2. done.
    + intros [?|Hin]; [by left|right]. apply list_elem_of_lookup in Hin as [j Hj].
      exists (Z.of_nat j). pose proof (lookup_lt_Some _ _ _ Hj).
      rewrite aget_eq, Nat2Z.id by lia. split; [lia|done].
Qed.

Lemma mark_used_blocks_spec s :
  dev_ok (disk s) → table_ok (disk s) →
  wp (mark_used_blocks (replicate 1024 0)) s (λ used s' o,
    o = [] ∧ fs_eqv s s' ∧ used_says used (referenced (disk s))).
Proof.
  intros Hok Ht. unfold mark_used_blocks.
  apply wp_kfold with (I := λ i used s' o,
    o = [] ∧ fs_eqv s s' ∧ used_says used (refd_upto (disk s) i)).
  - split; [done|]. split; [reflexivity|]. split; [reflexivity|].
    intros k Hk. exists 0. rewrite aget_replicate by lia. split; [done|].
    split; [done|]. intros (i & Hi & _). lia.
  - change (Z.to_nat MAX_FILES) with 32%nat.
    intros i used s1 o Hi (-> & Hs1 & Hused). wp_steps.
    eapply wp_mono; [apply inode_read_spec; [by apply Hs1|lia]|].
    intros ino s2 o (-> & -> & Hino & Hs2). assert (fs_eqv s s2) as Hs by (etrans; done).
    rewrite <-(same_inode_at Hsize (disk s) (disk s1)) in * by (apply Hs1 || lia).
    destruct (Z.eqb_spec (i_used (inode_at (disk s) i)) 0) as [Hu|Hu].
    + wp_steps. split; [done|]. split; [done|]. eapply used_says_iff; [done|].
      intros b _. split; intros (i' & Hi' & Hl & Hin).
      * exists i'. split; [lia|done].
      * exists i'. split; [|done]. destruct (Z.eqb_spec i' i) as [->|]; [|lia].
        unfold live in Hl. rewrite Hu in Hl. done.
    + assert (live (disk s) i = true) as Hlive.
      { unfold live. apply negb_true_iff, Z.eqb_neq. done. }
      eapply mark_inode_loop; [done|apply (tb_blocks _ Ht); done || lia|done|].
      intros used' Hused'. split; [done|]. split; [done|]. eapply used_says_iff; [done|].
      intros b _. split.
      * intros [(i' & Hi' & Hl & Hin)|Hin]; [exists i'; split; [lia|done]|].
        exists i. split; [lia|done].
      * intros (i' & Hi' & Hl & Hin). destruct (Z.eqb_spec i' i) as [->|]; [by right|].
        left. exists i'. split; [lia|done].
  - intros used s1 o (-> & Hs1 & Hused). done.
Qed.

(** A data block no file points to, lowest first. *)
Definition lowest_free (d : D) (b : Z) : Prop :=
  33 ≤ b < 1057 ∧ ¬ referenced d b ∧ ∀ c, 33 ≤ c < b → referenced d c.

Lemma lowest_free_unique d b c : lowest_free d b → lowest_free d c → b = c.
Proof.
  intros (Hb & Hnb & Hlb) (Hc & Hnc & Hlc).
  destruct (Z.lt_trichotomy b c) as [H|[H|H]]; [|done|]; exfalso.
  - apply Hnb, Hlc. lia.
  - apply Hnc, Hlb. lia.
Qed.

Lemma block_alloc_spec s :
  fs_ok s →
  wp block_alloc s (λ b s' o, o = [] ∧ same_sectors (disk s) (disk s') ∧
    ((lowest_free (disk s) b ∧ 0 < free_blocks (superblock s) ∧
      superblock s' = set_free (free_blocks (superblock s) - 1) (superblock s)) ∨
     (b = 0 ∧ superblock s' = superblock s ∧
      (free_blocks (superblock s) = 0 ∨ ∀ c, 33 ≤ c < 1057 → referenced (disk s) c)))).
Proof.
  intros [_ Hok Hsb _ Htot Ht]. pose proof (sb_free _ Hsb) as Hfree. unfold word_ok in Hfree.
  unfold block_alloc. wp_steps.
  destruct (Z.eqb_spec (free_blocks (superblock s)) 0) as [Hz|Hz].
  { wp_steps. split; [done|]. split; [reflexivity|]. right. split; [done|]. split; [done|].
    by left. }
  wp_steps. eapply wp_lift; [apply fs_memset_all; [unfold byte_ok; lia|reflexivity]|].
  wp_steps. change (Z.to_nat 1024) with 1024%nat.
  eapply wp_mono; [by apply mark_used_blocks_spec|].
  intros used s1 o (-> & Hs1 & Hlu & Hused). wp_steps.
  rewrite <-(proj1 Hs1), Htot. change (Z.to_nat 1024) with 1024%nat.
  apply wp_kloop with (I := λ i _ s' o, o = [] ∧ s' = s1 ∧
    ∀ k, 0 ≤ k < i → referenced (disk s) (33 + k)).
  - split; [done|]. split; [done|]. lia.
  - intros i [] s2 o Hi (-> & -> & Hbelow).
    destruct (Hused i) as (u & Hu & Hiff); [lia|]. wp_steps.
    eapply wp_lift; [done|]. destruct (Z.eqb_spec u 0) as [->|Hu0].
    + wp_steps. split; [done|]. split; [apply Hs1|]. left.
      unfold DATA_START_SECTOR. rewrite !u32_small by (rewrite <-?(proj1 Hs1); lia).
      split; [|split; [lia|simpl; rewrite <-(proj1 Hs1); done]].
      split; [lia|]. split; [intros Hr; by apply Hiff in Hr|].
      intros c Hc. replace c with (33 + (c - 33)) by lia. apply Hbelow. lia.
    + wp_steps. split; [done|]. split; [done|]. intros k Hk.
      destruct (Z.eqb_spec k i) as [->|]; [by apply Hiff|apply Hbelow; lia].
  - intros [] s2 o (-> & -> & Hall). wp_steps. split; [done|]. split; [apply Hs1|]. right.
    split; [done|]. split; [symmetry; apply Hs1|]. right. intros c Hc.
    replace c with (33 + (c - 33)) by lia. apply Hall. lia.
Qed.

(** ** Writing the superblock back *)

Lemma write_superblock_spec s :
  dev_ok (disk s) → superblock_ok (superblock s) →
  wp write_superblock s (λ _ s' o, o = [] ∧ superblock s' = superblock s ∧
    dev_ok (disk s') ∧ synced s' ∧
    ∀ k, 0 < k < dev_sectors → sector (disk s') k = sector (disk s) k).
Proof.
  intros Hok Hsb. unfold write_superblock. wp_steps.
  eapply wp_lift; [apply fs_memset_all; [unfold byte_ok; lia|reflexivity]|].
  change (Z.to_nat 512) with 512%nat.
  pose proof (length_bytes_of_superblock (superblock s)) as Hl.
  wp_steps. eapply wp_lift.
  { change 0 with (Z.of_nat 0). change sizeof_superblock with (Z.of_nat 24).
    apply fs_memcpy_spec; [rewrite length_replicate; lia|lia]. }
  wp_steps. rewrite take_0. cbn [app]. rewrite slice_full by done.
  eapply wp_mono.
  { apply write_sector_spec; [done|unfold SUPERBLOCK_SECTOR; lia| |].
    - rewrite length_app, Hl, length_drop, length_replicate. lia.
    - apply Forall_app. split; [apply bytes_of_superblock_ok|].
      apply Forall_drop, Forall_replicate. unfold byte_ok. lia. }
  intros _ s1 o (-> & Hsb1 & Hok1 & Hsec). split; [done|]. split; [done|]. split; [done|].
  unfold SUPERBLOCK_SECTOR in Hsec. split.
  - unfold synced. rewrite Hsec by lia. cbn [Z.eqb].
    rewrite slice_head by done. rewrite superblock_of_bytes_of by done. done.
  - intros k Hk. rewrite Hsec by lia. destruct (Z.eqb_spec k 0); [lia|done].
Qed.
End ops.
