(* ===== verification/FsDir.v ===== *)
(** * Updating the directory of an AshFS disk

    How replacing one inode changes the invariant and the map from names to
    contents; shared by the proofs about [fs_create], [fs_write] and
    [fs_delete]. *)

From S2P Require Import Prelude Bytes Disk Fs FsCodec FsView FsOps.

Section dir.
Context {D : Type} {O : BlockOps D} {B : BlockDevice D}.
Implicit Types (s : fs D) (d : D).

(** [d'] has the inode table of [d] with row [i] replaced by [ino]. *)
Definition row_set d d' (i : Z) (ino : inode_t) : Prop :=
  ∀ j, 0 ≤ j < 32 → inode_at d' j = if j =? i then ino else inode_at d j.

(** The rows other than [i] keep their files. *)
Definition others_kept d d' (i : Z) : Prop :=
  ∀ j, 0 ≤ j < 32 → j ≠ i → live d j = true → contents d' j = contents d j.

Section row.
Variables (d d' : D) (i : Z) (ino : inode_t).
Hypothesis Hi : 0 ≤ i < 32.
Hypothesis Hrow : row_set d d' i ino.

Lemma row_self : inode_at d' i = ino.
Proof. rewrite Hrow by done. rewrite Z.eqb_refl. done. Qed.

Lemma row_other j : 0 ≤ j < 32 → j ≠ i → inode_at d' j = inode_at d j.
Proof. intros Hj Hne. rewrite Hrow by done. destruct (Z.eqb_spec j i); done. Qed.

Lemma row_live j : 0 ≤ j < 32 → j ≠ i → live d' j = live d j.
Proof. intros. unfold live. rewrite row_other; done. Qed.
Lemma row_name j : 0 ≤ j < 32 → j ≠ i → name_at d' j = name_at d j.
Proof. intros. unfold name_at. rewrite row_other; done. Qed.
Lemma row_blocks j : 0 ≤ j < 32 → j ≠ i → blocks_at d' j = blocks_at d j.
Proof. intros. unfold blocks_at. rewrite row_other; done. Qed.

Lemma row_live_self : live d' i = negb (i_used ino =? 0).
Proof. unfold live. rewrite row_self. done. Qed.

(** The table invariant, when the new row is not live or fits in. *)
Lemma table_ok_row :
  table_ok d →
  (i_used ino ≠ 0 → terminated (i_name ino) ∧ Forall block_ok (i_blocks ino) ∧
    ∀ j, 0 ≤ j < 32 → j ≠ i → live d j = true →
      name_at d j ≠ cstr (i_name ino) ∧
      ∀ b, b ∈ blocks_at d j → b ∈ i_blocks ino → b = 0) →
  table_ok d'.
Proof.
  intros Ht Hnew.
  assert (live d' i = true → i_used ino ≠ 0) as Hself.
  { rewrite row_live_self, negb_true_iff, Z.eqb_neq. done. }
  constructor.
  - intros j Hj Hl. destruct (Z.eq_dec j i) as [->|Hne].
    + rewrite row_self. apply Hnew. auto.
    + rewrite row_other by done. rewrite row_live in Hl by done. by apply (tb_name d Ht).
  - intros j Hj Hl. destruct (Z.eq_dec j i) as [->|Hne].
    + unfold blocks_at. rewrite row_self. apply Hnew. auto.
    + rewrite row_blocks by done. rewrite row_live in Hl by done. by apply (tb_blocks d Ht).
  - intros j k Hj Hk Hlj Hlk Heq.
    destruct (Z.eq_dec j i) as [->|Hnj], (Z.eq_dec k i) as [->|Hnk]; [done| | |].
    + exfalso. rewrite row_live in Hlk by done. rewrite (row_name k) in Heq by done.
      destruct (Hnew (Hself Hlj)) as (_ & _ & H). apply (proj1 (H k Hk Hnk Hlk)).
      rewrite <-Heq. unfold name_at. rewrite row_self. done.
    + exfalso. rewrite row_live in Hlj by done. rewrite (row_name j) in Heq by done.
      destruct (Hnew (Hself Hlk)) as (_ & _ & H). apply (proj1 (H j Hj Hnj Hlj)).
      rewrite Heq. unfold name_at. rewrite row_self. done.
    + rewrite row_live in Hlj, Hlk by done. rewrite !row_name in Heq by done.
      by apply (tb_unique d Ht).
  - intros j k b Hj Hk Hlj Hlk Hne Hbj Hbk.
    destruct (Z.eq_dec j i) as [->|Hnj], (Z.eq_dec k i) as [->|Hnk]; [done| | |].
    + rewrite row_live in Hlk by done. rewrite row_blocks in Hbk by done.
      unfold blocks_at in Hbj. rewrite row_self in Hbj.
      destruct (Hnew (Hself Hlj)) as (_ & _ & H). by apply (proj2 (H k Hk Hnk Hlk)).
    + rewrite row_live in Hlj by done. rewrite row_blocks in Hbj by done.
      unfold blocks_at in Hbk. rewrite row_self in Hbk.
      destruct (Hnew (Hself Hlk)) as (_ & _ & H). by apply (proj2 (H j Hj Hnj Hlj)).
    + rewrite row_live in Hlj, Hlk by done. rewrite row_blocks in Hbj, Hbk by done.
      by apply (tb_disjoint d Ht j k).
Qed.
End row.

(** A row that becomes (or stays) live under its old name: one binding is set. *)
Lemma dir_row_set s s' i ino :
  0 ≤ i < 32 → row_set (disk s) (disk s') i ino → others_kept (disk s) (disk s') i →
  table_ok (disk s) → table_ok (disk s') → i_used ino ≠ 0 →
  (live (disk s) i = true → name_at (disk s) i = cstr (i_name ino)) →
  dir s' = <[cstr (i_name ino) := file_bytes (disk s') ino]> (dir s).
Proof.
  intros Hi Hrow Hkeep Ht Ht' Hu Hname.
  assert (live (disk s') i = true) as Hl.
  { rewrite (row_live_self _ _ _ _ Hi Hrow), negb_true_iff, Z.eqb_neq. done. }
  pose proof (row_self _ _ _ _ Hi Hrow) as Hself.
  apply map_eq. intros n. apply option_eq. intros c. rewrite lookup_insert.
  rewrite dir_lookup by done. case_decide as Hn.
  - subst n. split.
    + intros (j & Hj & Hlj & Hnj & Hc).
      assert (j = i) as ->.
      { apply (tb_unique _ Ht'); try done. rewrite Hnj. unfold name_at. rewrite Hself. done. }
      unfold contents in Hc. rewrite Hself in Hc. congruence.
    + intros [= <-]. exists i. unfold name_at, contents. rewrite Hself. done.
  - rewrite dir_lookup by done. split; intros (j & Hj & Hlj & Hnj & Hc).
    + destruct (Z.eq_dec j i) as [->|Hne].
      { unfold name_at in Hnj. rewrite Hself in Hnj. done. }
      rewrite (row_live _ _ _ _ Hrow) in Hlj by done.
      rewrite (row_name _ _ _ _ Hrow) in Hnj by done.
      rewrite Hkeep in Hc by done. exists j. done.
    + destruct (Z.eq_dec j i) as [->|Hne].
      { rewrite Hname in Hnj by done. done. }
      exists j. rewrite (row_live _ _ _ _ Hrow), (row_name _ _ _ _ Hrow), Hkeep by done.
      done.
Qed.

(** A live row that is freed: its binding is deleted. *)
Lemma dir_row_delete s s' i ino :
  0 ≤ i < 32 → row_set (disk s) (disk s') i ino → others_kept (disk s) (disk s') i →
  table_ok (disk s) → table_ok (disk s') → i_used ino = 0 → live (disk s) i = true →
  dir s' = delete (name_at (disk s) i) (dir s).
Proof.
  intros Hi Hrow Hkeep Ht Ht' Hu Hl.
  assert (live (disk s') i = false) as Hl'.
  { rewrite (row_live_self _ _ _ _ Hi Hrow), Hu. done. }
  apply map_eq. intros n. apply option_eq. intros c. rewrite lookup_delete_Some.
  rewrite !dir_lookup by done. split.
  - intros (j & Hj & Hlj & Hnj & Hc).
    destruct (Z.eq_dec j i) as [->|Hne]; [congruence|].
    rewrite (row_live _ _ _ _ Hrow) in Hlj by done.
    rewrite (row_name _ _ _ _ Hrow) in Hnj by done. rewrite Hkeep in Hc by done.
    split; [|exists j; done]. intros Heq. apply Hne, (tb_unique _ Ht); done || congruence.
  - intros [Hne (j & Hj & Hlj & Hnj & Hc)].
    destruct (Z.eq_dec j i) as [->|Hji]; [done|].
    exists j. rewrite (row_live _ _ _ _ Hrow), (row_name _ _ _ _ Hrow), Hkeep by done. done.
Qed.

(** The files of the other rows are kept when their data sectors are. *)
Lemma others_kept_sectors d d' i ino :
  0 ≤ i < 32 → row_set d d' i ino → table_ok d →
  (∀ j b, 0 ≤ j < 32 → j ≠ i → live d j = true → b ∈ blocks_at d j → b ≠ 0 →
     sector d' b = sector d b) →
  others_kept d d' i.
Proof.
  intros Hi Hrow Ht Hsec j Hj Hne Hl. unfold contents.
  rewrite (row_other _ _ _ _ Hrow) by done. apply file_bytes_ext.
  intros b Hb Hb0. eapply Hsec; done.
Qed.

(** ** Counting block references *)

(** The non-zero block numbers of an inode, as the loop of [fs_delete] counts
    them. *)
Definition count_blocks (bs : list Z) : Z := Z.of_nat (length (filter (λ b, b ≠ 0) bs)).

Lemma count_blocks_app bs bs' : count_blocks (bs ++ bs') = count_blocks bs + count_blocks bs'.
Proof. unfold count_blocks. rewrite filter_app, length_app. lia. Qed.

Lemma count_blocks_snoc bs b :
  count_blocks (bs ++ [b]) = count_blocks bs + if b =? 0 then 0 else 1.
Proof.
  rewrite count_blocks_app. f_equal. unfold count_blocks.
  rewrite filter_cons, filter_nil.
  destruct (Z.eqb_spec b 0) as [->|]; [by rewrite decide_False by lia|].
  by rewrite decide_True.
Qed.

Lemma count_blocks_replicate n b : b ≠ 0 → count_blocks (replicate n b) = Z.of_nat n.
Proof.
  intros Hb. induction n as [|n IH]; [reflexivity|].
  rewrite replicate_S_end, count_blocks_snoc, IH. destruct (Z.eqb_spec b 0); [done|lia].
Qed.

Lemma count_blocks_zeros n : count_blocks (replicate n 0) = 0.
Proof.
  induction n as [|n IH]; [reflexivity|]. rewrite replicate_S_end, count_blocks_snoc, IH. done.
Qed.

Lemma count_blocks_range bs : 0 ≤ count_blocks bs ≤ Z.of_nat (length bs).
Proof. unfold count_blocks. pose proof (length_filter (λ b, b ≠ 0) bs). lia. Qed.

Definition row_refs d (i : Z) : Z := if live d i then count_blocks (blocks_at d i) else 0.

(** All the block references of the live files. *)
Definition refs d : Z := foldr Z.add 0 (map (row_refs d) (seqZ 0 32)).

Lemma foldr_add_ext (f g : Z → Z) l :
  (∀ i, i ∈ l → f i = g i) → foldr Z.add 0 (map f l) = foldr Z.add 0 (map g l).
Proof.
  induction l as [|i l IH]; [done|]. intros H. simpl. rewrite H by apply list_elem_of_here.
  f_equal. apply IH. intros j Hj. apply H. by apply list_elem_of_further.
Qed.

Lemma refs_ext d d' : (∀ i, 0 ≤ i < 32 → inode_at d' i = inode_at d i) → refs d' = refs d.
Proof.
  intros H. apply foldr_add_ext. intros i Hi%elem_of_seqZ.
  unfold row_refs, live, blocks_at. rewrite H by lia. reflexivity.
Qed.

Lemma foldr_add_split (f g : Z → Z) l i :
  i ∈ l → NoDup l → (∀ j, j ∈ l → j ≠ i → g j = f j) →
  foldr Z.add 0 (map g l) = foldr Z.add 0 (map f l) - f i + g i.
Proof.
  intros Hi Hnd. revert Hi. induction Hnd as [|j l Hj Hnd IH]; [by intros ?%not_elem_of_nil|].
  intros [-> |Hi]%elem_of_cons H; simpl.
  - rewrite (foldr_add_ext g f); [lia|]. intros k Hk.
    apply H; [by apply list_elem_of_further|]. intros ->. done.
  - rewrite IH; [|exact Hi|]; [|intros k Hk; apply H; by apply list_elem_of_further].
    rewrite (H j); [lia|apply list_elem_of_here|]. intros ->. done.
Qed.

Lemma refs_row_set d d' i ino :
  0 ≤ i < 32 → row_set d d' i ino →
  refs d' = refs d - row_refs d i + if i_used ino =? 0 then 0 else count_blocks (i_blocks ino).
Proof.
  intros Hi Hrow. unfold refs. rewrite (foldr_add_split (row_refs d) (row_refs d') _ i).
  - f_equal. unfold row_refs. rewrite (row_live_self _ _ _ _ Hi Hrow).
    unfold blocks_at. rewrite (row_self _ _ _ _ Hi Hrow). by destruct (_ =? _).
  - apply elem_of_seqZ. lia.
  - apply NoDup_seqZ.
  - intros j Hj%elem_of_seqZ Hne. unfold row_refs.
    rewrite (row_live _ _ _ _ Hrow), (row_blocks _ _ _ _ Hrow) by lia. reflexivity.
Qed.

Lemma row_refs_live d i : live d i = true → row_refs d i = count_blocks (blocks_at d i).
Proof. unfold row_refs. intros ->. done. Qed.

Lemma row_refs_nonneg d i : 0 ≤ row_refs d i.
Proof. unfold row_refs. destruct (live d i); [apply count_blocks_range|lia]. Qed.

Lemma foldr_add_nonneg (f : Z → Z) l : (∀ i, 0 ≤ f i) → 0 ≤ foldr Z.add 0 (map f l).
Proof. intros Hf. induction l as [|i l IH]; [done|]. simpl. specialize (Hf i). lia. Qed.

Lemma foldr_add_le (f : Z → Z) l i :
  (∀ j, 0 ≤ f j) → i ∈ l → f i ≤ foldr Z.add 0 (map f l).
Proof.
  intros Hf. induction l as [|j l IH]; [by intros ?%not_elem_of_nil|].
  intros [-> |Hi]%elem_of_cons; simpl; pose proof (foldr_add_nonneg f l Hf);
    pose proof (Hf j); [lia|]. specialize (IH Hi). lia.
Qed.

Lemma refs_nonneg d : 0 ≤ refs d.
Proof. apply foldr_add_nonneg, row_refs_nonneg. Qed.

Lemma row_refs_le d i : 0 ≤ i < 32 → row_refs d i ≤ refs d.
Proof. intros Hi. apply foldr_add_le; [apply row_refs_nonneg|]. apply elem_of_seqZ. lia. Qed.

(** The counter and the references: what is free and what is in use fit the
    1024 data blocks. *)
Definition space_ok s : Prop := free_blocks (superblock s) + refs (disk s) ≤ 1024.
End dir.
