(* ===== verification/FsRead.v ===== *)
(** * Reading a file: [fs_read] of kernel/fs.c

    The loop copies the file's sectors up to the end of the file, the caller's
    size or the first zero block number; against the directory it returns the
    longest prefix of the contents that fits. *)

From S2P Require Import Prelude Bytes Disk Fs FsCodec FsView FsOps FsDir FsSpec.

(** ** Sectors put together *)

Lemma length_concat_sectors (ls : list (list Z)) :
  Forall (λ l, length l = 512%nat) ls → length (concat ls) = (512 * length ls)%nat.
Proof.
  induction 1 as [|l ls Hl Hls IH]; [done|]. cbn [concat length].
  rewrite length_app, Hl, IH. lia.
Qed.

Lemma slice_concat_sectors (ls : list (list Z)) : ∀ i x,
  Forall (λ l, length l = 512%nat) ls → ls !! i = Some x →
  slice (512 * i) 512 (concat ls) = x.
Proof.
  induction ls as [|l ls IH]; intros i x Hls Hx; [done|].
  inversion Hls as [|? ? Hl Hls']; subst. cbn [concat].
  destruct i as [|i]; simpl in Hx.
  - inversion Hx. subst. replace (512 * 0)%nat with 0%nat by lia. apply slice_head. done.
  - rewrite slice_tail, Hl by lia. replace (512 * S i - 512)%nat with (512 * i)%nat by lia.
    apply IH; done.
Qed.

(** ** The block numbers up to the first zero *)

Lemma cstr_next (l : list Z) : ∀ i x,
  (i ≤ length (cstr l))%nat → l !! i = Some x →
  if x =? 0 then length (cstr l) = i else cstr l !! i = Some x.
Proof.
  induction l as [|y l IH]; intros i x Hi Hx; [done|].
  simpl in *. destruct (Z.eqb_spec y 0) as [->|Hy]; simpl in *.
  - assert (i = 0%nat) as -> by lia. simpl in Hx. inversion Hx. subst. done.
  - destruct i as [|i]; simpl in Hx.
    + inversion Hx. subst. destruct (Z.eqb_spec x 0); [done|]. done.
    + specialize (IH i x ltac:(lia) Hx). destruct (x =? 0); simpl; [lia|done].
Qed.

Lemma cstr_incl (l : list Z) b : b ∈ cstr l → b ∈ l ∧ b ≠ 0.
Proof.
  induction l as [|y l IH]; simpl; [set_solver|].
  destruct (Z.eqb_spec y 0); set_solver.
Qed.

Lemma cstr_le_length (l : list Z) : (length (cstr l) ≤ length l)%nat.
Proof. induction l as [|x l IH]; simpl; [lia|]. destruct (x =? 0); simpl; lia. Qed.

Section read.
Context {D : Type} {O : BlockOps D} {B : BlockDevice D}.
Implicit Types s : fs D.

(** The bytes of all the blocks of an inode. *)
Definition all_bytes (d : D) (ino : inode_t) : list Z :=
  concat (map (sector d) (cstr (i_blocks ino))).

Lemma sectors_512 d bs :
  dev_ok d → Forall (λ b, 0 ≤ b < dev_sectors) bs →
  Forall (λ l, length l = 512%nat) (map (sector d) bs).
Proof.
  intros Hok Hbs. apply Forall_forall. intros l Hl.
  apply list_elem_of_In, in_map_iff in Hl as (b & <- & Hb%list_elem_of_In).
  rewrite Forall_forall in Hbs. apply sector_ok; auto.
Qed.

Lemma length_all_bytes d ino :
  dev_ok d → Forall (λ b, 0 ≤ b < dev_sectors) (cstr (i_blocks ino)) →
  length (all_bytes d ino) = (512 * length (cstr (i_blocks ino)))%nat.
Proof.
  intros Hok Hbs. unfold all_bytes.
  rewrite length_concat_sectors by (by apply sectors_512). rewrite length_map. done.
Qed.

(** One iteration of the copy, on the caller's buffer. *)
Lemma copy_chunk (full buf x : list Z) (i r c : nat) :
  slice (512 * i) 512 full = x → r = (512 * i)%nat → (c ≤ 512)%nat →
  length x = 512%nat → (r + c ≤ length buf)%nat → (512 * i + 512 ≤ length full)%nat →
  fs_memcpy (take r full ++ drop r buf) (Z.of_nat r) x 0 (Z.of_nat c)
  = Some (take (r + c) full ++ drop (r + c) buf).
Proof.
  intros Hx -> Hc Hlx Hbuf Hfull. change 0 with (Z.of_nat 0).
  assert (length (take (512 * i) full) = (512 * i)%nat) as Hlt
    by (rewrite length_take; lia).
  rewrite fs_memcpy_spec; [|rewrite length_app, length_drop, Hlt; lia|lia].
  rewrite take_app_length' by done. f_equal.
  rewrite drop_app_ge, Hlt by lia. rewrite drop_drop.
  replace (512 * i + (512 * i + c - 512 * i))%nat with (512 * i + c)%nat by lia.
  rewrite app_assoc. f_equal. rewrite <-Hx, slice_slice by lia.
  rewrite Nat.add_0_r. change (take (512 * i) full) with (slice 0 (512 * i) full).
  rewrite (slice_join 0 (512 * i) c). done.
Qed.

(** The size of the [k]-th chunk of [to_read] bytes. *)
Lemma read_chunk to_read (k : nat) :
  0 ≤ to_read < 2 ^ 32 → Z.of_nat (512 * k) < to_read →
  let c := (512 `min` (Z.to_nat to_read - 512 * k))%nat in
  (if BLOCK_SIZE <? u32 (to_read - Z.of_nat (512 * k)) then BLOCK_SIZE
   else u32 (to_read - Z.of_nat (512 * k))) = Z.of_nat c ∧
  (Z.to_nat to_read `min` (512 * S k))%nat = (512 * k + c)%nat.
Proof.
  intros Hto Hlt c. rewrite u32_small by lia. unfold BLOCK_SIZE, c.
  destruct (Z.ltb_spec 512 (to_read - Z.of_nat (512 * k))); lia.
Qed.

(** The [k]-th block, [full] being the bytes of all blocks. *)
Lemma read_block_spec s1 (full buf : list Z) (to_read : Z) (k : nat) b :
  dev_ok (disk s1) → 0 ≤ b < dev_sectors → slice (512 * k) 512 full = sector (disk s1) b →
  (512 * k + 512 ≤ length full)%nat → 0 ≤ to_read < 2 ^ 32 → Z.of_nat (512 * k) < to_read →
  to_read ≤ Z.of_nat (length buf) →
  wp (data_buf ← ata_read_sector b;
      let chunk := u32 (to_read - Z.of_nat (512 * k)) in
      let chunk := if BLOCK_SIZE <? chunk then BLOCK_SIZE else chunk in
      buf ← klift (fs_memcpy (take (512 * k) full ++ drop (512 * k) buf) (Z.of_nat (512 * k)) data_buf 0 chunk);
      mret (inl (u32 (Z.of_nat (512 * k) + chunk), buf) : Z * list Z + Z * list Z)) s1 (λ r s2 o, o = [] ∧
    let n := (Z.to_nat to_read `min` (512 * S k))%nat in
    fs_eqv s1 s2 ∧ r = inl (Z.of_nat n, take n full ++ drop n buf)).
Proof.
  intros Hok Hb Hslice Hfull Hto Hlt Hbuf.
  destruct (read_chunk to_read k Hto Hlt) as [Hc Hmin]. cbv zeta. rewrite Hc, Hmin.
  set (c := (512 `min` (Z.to_nat to_read - 512 * k))%nat) in *.
  wp_steps. eapply wp_mono; [by apply read_sector_spec|]. intros x s2 o (-> & -> & Hs2). apply wp_bind.
  eapply wp_lift; [apply (copy_chunk full buf _ k); [exact Hslice|done|lia|by apply sector_ok|lia|exact Hfull]|].
  wp_steps. rewrite u32_small by lia. split; [done|]. split; [exact Hs2|]. do 2 f_equal. lia.
Qed.

Lemma read_blocks_spec s ino to_read buf :
  dev_ok (disk s) → inode_ok ino →
  Forall (λ b, 0 ≤ b < dev_sectors) (cstr (i_blocks ino)) →
  0 ≤ to_read < 2 ^ 32 → to_read ≤ Z.of_nat (length buf) →
  wp (read_blocks ino to_read buf) s (λ r s' o, o = [] ∧ fs_eqv s s' ∧
    let n := (Z.to_nat to_read `min` length (all_bytes (disk s) ino))%nat in
    let res := (Z.of_nat n, take n (all_bytes (disk s) ino) ++ drop n buf) in
    r = inl res ∨ r = inr res).
Proof.
  intros Hok Hino Hbs Hto Hbuf. set (full := all_bytes (disk s) ino).
  assert (length full = (512 * length (cstr (i_blocks ino)))%nat) as Hlf
    by (by apply length_all_bytes).
  pose proof (cstr_le_length (i_blocks ino)) as Hcl.
  destruct (in_blocks _ Hino) as [Hlb _].
  unfold read_blocks.
  apply wp_kloop with (I := λ i '(read, buf') s' o, o = [] ∧ fs_eqv s s' ∧
    (Z.to_nat i ≤ length (cstr (i_blocks ino)))%nat ∧
    let n := (Z.to_nat to_read `min` (512 * Z.to_nat i))%nat in
    read = Z.of_nat n ∧ buf' = take n full ++ drop n buf).
  - split; [done|]. split; [reflexivity|]. split; [lia|].
    change (Z.to_nat 0) with 0%nat. rewrite Nat.mul_0_r, Nat.min_0_r. done.
  - change (Z.to_nat MAX_FILE_BLOCKS) with 32%nat.
    intros i [read buf1] s1 o Hi (-> & Hs1 & Hile & Hread & ->).
    destruct (Z_of_nat_complete i) as [k ->]; [lia|]. rewrite Nat2Z.id in *.
    destruct (Z.ltb_spec read to_read) as [Hlt|Hge]; simpl negb; cbv iota.
    2: { wp_steps. split; [done|]. split; [done|]. right.
         replace (Z.to_nat to_read `min` length full)%nat
           with (Z.to_nat to_read `min` (512 * k))%nat by lia. congruence. }
    destruct (lookup_lt_is_Some_2 (i_blocks ino) k) as [b Hb]; [lia|].
    pose proof (cstr_next _ _ _ Hile Hb) as Hnext.
    wp_steps. eapply wp_lift; [rewrite aget_eq, Nat2Z.id by lia; done|].
    destruct (Z.eqb_spec b 0) as [->|Hb0].
    { wp_steps. split; [done|]. split; [done|]. right.
      replace (length full) with (512 * k)%nat by lia. congruence. }
    pose proof (lookup_lt_Some _ _ _ Hnext) as Hk.
    assert (0 ≤ b < dev_sectors) as Hbr by (by eapply Forall_lookup_1 in Hbs).
    assert (read = Z.of_nat (512 * k)) as -> by lia.
    replace (Z.to_nat to_read `min` (512 * k))%nat with (512 * k)%nat by lia.
    eapply wp_mono.
    { apply read_block_spec; [by apply Hs1|exact Hbr| |lia|exact Hto|exact Hlt|exact Hbuf].
      rewrite <-(proj2 (proj2 Hs1) b Hbr). apply slice_concat_sectors; [by apply sectors_512|].
      rewrite list_lookup_fmap, Hnext. done. }
    intros r s2 o (-> & Hs2 & ->). split; [done|]. split; [by etrans|].
    replace (Z.to_nat (Z.of_nat k + 1)) with (S k) by lia. split; [lia|done].
  - change (Z.of_nat (Z.to_nat MAX_FILE_BLOCKS)) with 32.
    intros [read buf'] s' o (-> & Hs & Hile & Hread & ->). split; [done|]. split; [done|].
    left. change (Z.to_nat (0 + 32)) with 32%nat in *.
    replace (Z.to_nat to_read `min` length full)%nat
      with (Z.to_nat to_read `min` (512 * 32))%nat by lia. congruence.
Qed.

Lemma live_blocks_readable d i :
  1057 ≤ dev_sectors → table_ok d → 0 ≤ i < 32 → live d i = true →
  Forall (λ b, 0 ≤ b < dev_sectors) (cstr (i_blocks (inode_at d i))).
Proof.
  intros Hsz Ht Hi Hl. apply Forall_forall. intros b [Hb Hb0]%cstr_incl.
  pose proof (live_block d i b Ht Hi Hl Hb Hb0). lia.
Qed.

(** The prefix of the contents that the caller's size allows. *)
Lemma take_contents d i (size : Z) :
  0 ≤ size → 0 ≤ i_size (inode_at d i) →
  let full := all_bytes d (inode_at d i) in
  let n := (Z.to_nat (Z.min size (i_size (inode_at d i))) `min` length full)%nat in
  n = (Z.to_nat size `min` length (contents d i))%nat ∧
  take n full = take n (contents d i).
Proof.
  intros Hs Hi full n. unfold contents, file_bytes. fold (all_bytes d (inode_at d i)).
  fold full. rewrite length_take, take_take. split; [lia|]. f_equal. lia.
Qed.

(** [fs_read] leaves the file system alone and fills the buffer with the first
    bytes of the file, as many as the file has and the caller asks for; -1 and
    an untouched buffer when the directory has no such name. *)
Lemma fs_read_spec s name buf size :
  fs_ok s → name_arg name → 0 ≤ size < 2 ^ 32 → size ≤ Z.of_nat (length buf) →
  wp (fs_read name buf size) s (λ p s' o, fs_eqv s s' ∧
    o = match dir s !! cstr name with
        | Some _ => []
        | None => [EvPrintf "FS: file '%s' not found\n" [AStr name]]
        end ∧
    match dir s !! cstr name with
    | Some c => p.1 = Z.of_nat (Z.to_nat size `min` length c) ∧
                p.2 = take (Z.to_nat size `min` length c) c
                      ++ drop (Z.to_nat size `min` length c) buf
    | None => p.1 = -1 ∧ p.2 = buf
    end).
Proof.
  intros Hok Hname Hsize Hbuf. pose proof Hok as [Hsz Hdev _ _ _ Ht].
  assert (1057 ≤ dev_sectors) as Hsz' by lia.
  unfold fs_read. wp_steps. eapply wp_mono; [by apply find_dir|].
  intros r s1 o (-> & Hs1 & Hr).
  destruct Hr as [(Hr & Hl & _ & Hfound)|[-> Hnone]].
  2: { rewrite Hnone. simpl. wp_steps. done. }
  rewrite Hfound. destruct (Z.ltb_spec r 0); [lia|]. rewrite u32_small by lia.
  pose proof (fs_eqv_ok s s1 Hs1 Hok) as Hok1. wp_steps.
  eapply wp_mono; [apply inode_read_spec; [lia|apply Hok1|exact Hr]|].
  intros ino s2 o (-> & -> & Hino & Hs2). assert (fs_eqv s s2) as Hs by (etrans; done).
  rewrite <-(same_inode_at Hsz' (disk s) (disk s1)) in * by (apply Hs1 || exact Hr).
  pose proof (in_size _ Hino) as Hisz. unfold word_ok in Hisz.
  assert ((if size <? i_size (inode_at (disk s) r) then size
           else i_size (inode_at (disk s) r)) = Z.min size (i_size (inode_at (disk s) r))) as ->.
  { destruct (Z.ltb_spec size (i_size (inode_at (disk s) r))); lia. }
  assert (fs_ok s2) as Hok2 by (eapply fs_eqv_ok; [exact Hs|exact Hok]).
  pose proof (live_blocks_readable _ r Hsz' Ht Hr Hl) as Hbs.
  wp_steps. eapply wp_mono; [apply read_blocks_spec; [apply Hok2|exact Hino|exact Hbs|lia|lia]|].
  intros rb s3 o (-> & Hs3 & Hres).
  assert (all_bytes (disk s2) (inode_at (disk s) r) = all_bytes (disk s) (inode_at (disk s) r))
    as Hfull.
  { unfold all_bytes. f_equal. apply map_ext_in. intros b Hb%list_elem_of_In.
    rewrite Forall_forall in Hbs. symmetry. apply Hs. auto. }
  rewrite Hfull in Hres.
  destruct (take_contents (disk s) r size) as [Hn Htake]; [lia|lia|].
  cbv zeta in Hres. rewrite Htake, Hn in Hres.
  pose proof (length_all_bytes _ _ Hdev Hbs) as Hlen.
  pose proof (cstr_le_length (i_blocks (inode_at (disk s) r))) as Hcl.
  rewrite (proj1 (in_blocks _ Hino)) in Hcl.
  assert (length (contents (disk s) r) ≤ 512 * 32)%nat as Hbound.
  { unfold contents, file_bytes. fold (all_bytes (disk s) (inode_at (disk s) r)).
    rewrite length_take. lia. }
  destruct Hres as [-> | ->]; wp_steps; simpl;
    (split; [etrans; done|]);
    (split; [reflexivity|]); rewrite s32_small by lia; done.
Qed.
End read.
