(* ===== verification/FsWrite.v ===== *)
(** * Writing a file: [fs_write] of kernel/fs.c

    [block_alloc] finds free blocks by looking at the inodes on disk, and
    [fs_write] writes its inode back only after the loop: every iteration of one
    call is given the same block.  A file of one block is stored as the abstract
    file system asks; of a longer file only the last chunk survives, once per
    block.  The theorems below state both. *)

From S2P Require Import Prelude Bytes Disk Fs FsCodec FsView FsOps FsDir FsSpec FsRead.

Section write.
Context {D : Type} {O : BlockOps D} {B : BlockDevice D}.
Implicit Types s : fs D.

(** The sector written by iteration [k]: a chunk of the data, zero padded. *)
Definition chunk_len (size : Z) (k : nat) : nat := (512 `min` (Z.to_nat size - 512 * k))%nat.

Definition chunk (data : list Z) (size : Z) (k : nat) : list Z :=
  slice (512 * k) (chunk_len size k) data ++ replicate (512 - chunk_len size k) 0.

Lemma chunk_ok data size k :
  bytes_ok data → (512 * k + chunk_len size k ≤ length data)%nat →
  length (chunk data size k) = 512%nat ∧ bytes_ok (chunk data size k).
Proof.
  intros Hb Hl. assert (chunk_len size k ≤ 512)%nat by (unfold chunk_len; lia).
  unfold chunk. split.
  - rewrite length_app, length_replicate, length_slice by lia. lia.
  - apply Forall_app. split; [by apply slice_ok|]. apply Forall_replicate.
    unfold byte_ok. lia.
Qed.

Lemma chunk_memcpy data size k :
  (512 * k + chunk_len size k ≤ length data)%nat →
  fs_memcpy (replicate 512 0) 0 data (Z.of_nat (512 * k)) (Z.of_nat (chunk_len size k))
  = Some (chunk data size k).
Proof.
  intros Hl. assert (chunk_len size k ≤ 512)%nat by (unfold chunk_len; lia).
  change 0 with (Z.of_nat 0) at 2. unfold chunk. rewrite fs_memcpy_spec; [|rewrite length_replicate; lia|lia].
  rewrite take_0. cbn [app Nat.add]. rewrite drop_replicate. done.
Qed.

(** [s'] is [s] after [k] allocations of block [b], which now holds [sec]. *)
Record wrote s (b : Z) (k : nat) (sec : list Z) s' : Prop := {
  wr_block : 33 ≤ b < 1057;
  wr_free : Z.of_nat k ≤ free_blocks (superblock s);
  wr_sb : superblock s' = set_free (free_blocks (superblock s) - Z.of_nat k) (superblock s);
  wr_dev : dev_ok (disk s');
  wr_sec : sector (disk s') b = sec;
  wr_other j : 0 ≤ j < dev_sectors → j ≠ b → sector (disk s') j = sector (disk s) j;
  wr_first : k = 0%nat → sec = sector (disk s) b;
  wr_lowest : (0 < k)%nat → lowest_free (disk s) b;
}.

Lemma wrote_table s b k sec s' i :
  1057 ≤ dev_sectors → wrote s b k sec s' → 0 ≤ i < 32 →
  inode_at (disk s') i = inode_at (disk s) i.
Proof.
  intros Hsz [] Hi. pose proof (inode_sector_range i Hi).
  apply inode_at_ext, wr_other0; lia.
Qed.

Lemma wrote_fs_ok s b k sec s' : fs_ok s → wrote s b k sec s' → fs_ok s'.
Proof.
  intros Hok Hw. pose proof Hok as [H1 H2 H3 H4 H5 H6].
  pose proof (sb_free _ H3) as Hf. unfold word_ok in Hf.
  assert (1057 ≤ dev_sectors) as Hsz by lia.
  pose proof (λ i, wrote_table s b k sec s' i Hsz Hw) as Htab. destruct Hw.
  constructor; rewrite ?wr_sb0; try assumption.
  - destruct H3. constructor; try assumption. unfold word_ok. simpl. lia.
  - eapply table_ok_ext; [exact Htab|exact H6].
Qed.

Lemma wrote_lowest s b k sec s' c :
  1057 ≤ dev_sectors → wrote s b k sec s' →
  lowest_free (disk s') c → lowest_free (disk s) c.
Proof.
  intros Hsz Hw (Hc & Hn & Hall).
  pose proof (λ i, wrote_table s b k sec s' i Hsz Hw) as Htab.
  split; [done|]. split.
  - intros Hr. apply Hn. eapply referenced_ext; [|exact Hr]. exact Htab.
  - intros c' Hc'. eapply referenced_ext; [|by apply Hall]. intros i Hi. symmetry. auto.
Qed.

(** One allocation and one sector write. *)
Lemma wrote_step s b k sec s1 c s2 s3 x :
  1057 ≤ dev_sectors → wrote s b k sec s1 →
  same_sectors (disk s1) (disk s2) → lowest_free (disk s1) c →
  0 < free_blocks (superblock s1) →
  superblock s2 = set_free (free_blocks (superblock s1) - 1) (superblock s1) →
  superblock s3 = superblock s2 → dev_ok (disk s3) →
  (∀ j, 0 ≤ j < dev_sectors →
     sector (disk s3) j = if j =? c then x else sector (disk s2) j) →
  wrote s c (S k) x s3 ∧ ((0 < k)%nat → c = b).
Proof.
  intros Hsz Hw Hsame Hlow Hpos Hsb2 Hsb3 Hdev Hsec.
  pose proof (wrote_lowest _ _ _ _ _ _ Hsz Hw Hlow) as Hlow0.
  assert ((0 < k)%nat → c = b) as Hcb.
  { intros Hk. eapply lowest_free_unique; [exact Hlow0|]. by apply (wr_lowest _ _ _ _ _ Hw). }
  split; [|exact Hcb]. destruct Hw. destruct Hlow0 as (Hc & Hlow0).
  constructor; try assumption.
  - rewrite wr_sb0 in Hpos. simpl in Hpos. lia.
  - rewrite Hsb3, Hsb2, wr_sb0. unfold set_free. simpl. f_equal. lia.
  - rewrite Hsec by lia. rewrite Z.eqb_refl. reflexivity.
  - intros j Hj Hne. rewrite Hsec by assumption.
    destruct (Z.eqb_spec j c); [contradiction|].
    rewrite <-(proj2 Hsame j Hj).
    destruct (Z.eq_dec j b) as [->|Hjb]; [|auto].
    destruct (decide (k = 0%nat)) as [Hk|Hk]; [|exfalso; apply Hne; symmetry; apply Hcb; lia].
    rewrite wr_sec0. auto.
  - intros ?. lia.
  - intros _. split; assumption.
Qed.

(** How the loop of [fs_write] ends. *)
Definition write_done s (ino : inode_t) (size : Z) data (n : nat)
    (r : inode_t * Z + Z) s' (o : list event) : Prop :=
  (∃ b sec written, r = inl (set_blocks (replicate n b ++ drop n (i_blocks ino)) ino, written) ∧
     o = [] ∧ wrote s b n sec s' ∧ ((0 < n)%nat → sec = chunk data size (n - 1))) ∨
  (∃ b sec k, r = inr (-1) ∧ o = [EvPrintf "FS: disk full\n" []] ∧ wrote s b k sec s' ∧
     (k < n)%nat ∧
     (free_blocks (superblock s) = Z.of_nat k ∨
      ∀ c, 33 ≤ c < 1057 → referenced (disk s) c)).

Lemma replicate_set_block (bl : list Z) (k : nat) (b c : Z) :
  (k < length bl)%nat → ((0 < k)%nat → c = b) →
  <[k := c]> (replicate k b ++ drop k bl) = replicate (S k) c ++ drop (S k) bl.
Proof.
  intros Hk Hcb. destruct (lookup_lt_is_Some_2 bl k Hk) as [x Hx].
  rewrite (drop_S _ _ _ Hx), insert_app_r_alt by (rewrite length_replicate; lia).
  rewrite length_replicate, Nat.sub_diag, replicate_S_end, <-app_assoc.
  destruct (decide (k = 0%nat)) as [->|Hk0]; [done|]. rewrite Hcb by lia. done.
Qed.

(** The length of chunk [k] as the code computes it. *)
Lemma to_write_chunk size (k : nat) :
  0 ≤ size < 2 ^ 32 → Z.of_nat (512 * k) ≤ size →
  (if BLOCK_SIZE <? u32 (size - Z.of_nat (512 * k)) then BLOCK_SIZE
   else u32 (size - Z.of_nat (512 * k))) = Z.of_nat (chunk_len size k).
Proof.
  intros Hs Hk. rewrite u32_small by lia. unfold BLOCK_SIZE, chunk_len.
  destruct (Z.ltb_spec 512 (size - Z.of_nat (512 * k))); lia.
Qed.

(** No block for the next chunk. *)
Lemma wrote_stuck s b k sec s1 s2 :
  1057 ≤ dev_sectors → wrote s b k sec s1 → same_sectors (disk s1) (disk s2) → dev_ok (disk s1) →
  superblock s2 = superblock s1 →
  (free_blocks (superblock s1) = 0 ∨ ∀ c, 33 ≤ c < 1057 → referenced (disk s1) c) →
  wrote s b k sec s2 ∧ (free_blocks (superblock s) = Z.of_nat k ∨ ∀ c, 33 ≤ c < 1057 → referenced (disk s) c).
Proof.
  intros Hsz Hw Hsame Hok Hsb Hfull. split.
  - destruct Hw. constructor; try assumption; [congruence|by apply Hsame| |].
    + rewrite <-(proj2 Hsame) by lia. assumption.
    + intros j Hj Hne. rewrite <-(proj2 Hsame) by assumption. auto.
  - destruct Hfull as [Hz|Hall]; [left|right].
    + rewrite (wr_sb _ _ _ _ _ Hw) in Hz. simpl in Hz. lia.
    + intros c Hc. eapply referenced_ext; [|by apply Hall].
      intros i Hi'. symmetry. by eapply wrote_table.
Qed.

(** The [k]-th chunk goes to block [c], and [c] into the inode. *)
Lemma write_chunk_spec s2 ino' data size (k : nat) c :
  0 ≤ size < 2 ^ 32 → bytes_ok data → dev_ok (disk s2) → 0 ≤ c < dev_sectors →
  (k < length (i_blocks ino'))%nat → Z.of_nat (512 * k) < size → (512 * k + chunk_len size k ≤ length data)%nat →
  wp (bs ← klift (aset (i_blocks ino') (Z.of_nat k) c);
      buf ← klift (fs_memset (replicate 512 0) 0 512);
      let to_write := u32 (size - Z.of_nat (512 * k)) in
      let to_write := if BLOCK_SIZE <? to_write then BLOCK_SIZE else to_write in
      buf ← klift (fs_memcpy buf 0 data (Z.of_nat (512 * k)) to_write);
      ata_write_sector c buf;;
      mret (inl (set_blocks bs ino', u32 (Z.of_nat (512 * k) + to_write)) : inode_t * Z + Z)) s2 (λ r s3 o, o = [] ∧
    r = inl (set_blocks (<[k := c]> (i_blocks ino')) ino', Z.of_nat (Z.to_nat size `min` (512 * S k))) ∧
    superblock s3 = superblock s2 ∧ dev_ok (disk s3) ∧ ∀ j, 0 ≤ j < dev_sectors →
      sector (disk s3) j = if j =? c then chunk data size k else sector (disk s2) j).
Proof.
  intros Hsize Hdata Hok Hc Hk Hlt Hlen. wp_steps. eapply wp_lift; [apply aset_Some; lia|].
  wp_steps. eapply wp_lift; [apply fs_memset_all; [unfold byte_ok; lia|reflexivity]|].
  wp_steps. cbv zeta. change (Z.to_nat 512) with 512%nat. rewrite to_write_chunk by lia. apply wp_bind.
  eapply wp_lift; [apply chunk_memcpy; exact Hlen|]. wp_steps.
  destruct (chunk_ok data size k Hdata Hlen) as [Hlc Hbc].
  eapply wp_mono; [apply write_sector_spec; [exact Hok|exact Hc|exact Hlc|exact Hbc]|].
  intros _ s3 o (-> & Hsb3 & Hdev3 & Hsec3). wp_steps. split; [done|]. split; [|done].
  rewrite Nat2Z.id. do 2 f_equal. unfold chunk_len. rewrite u32_small by lia. lia.
Qed.

Lemma write_blocks_spec s ino data size (n : nat) :
  fs_ok s → inode_ok ino → bytes_ok data → 0 ≤ size < 2 ^ 32 →
  (n ≤ 32)%nat →
  (∀ k, (k < n)%nat → Z.of_nat (512 * k) < size ∧
                      (512 * k + chunk_len size k ≤ length data)%nat) →
  wp (write_blocks data size ino (Z.of_nat n)) s (write_done s ino size data n).
Proof.
  intros Hok Hino Hdata Hsize Hn Hneed.
  assert (1057 ≤ dev_sectors) as Hsz by (destruct Hok; lia).
  pose proof (proj1 (in_blocks _ Hino)) as Hlb. unfold write_blocks. rewrite Nat2Z.id.
  apply wp_kloop with (I := λ i '(ino', written) s' o, o = [] ∧ ∃ b sec,
    let k := Z.to_nat i in
    ino' = set_blocks (replicate k b ++ drop k (i_blocks ino)) ino ∧
    written = Z.of_nat (Z.to_nat size `min` (512 * k)) ∧ wrote s b k sec s' ∧
    ((0 < k)%nat → sec = chunk data size (k - 1))).
  - split; [done|]. exists 33, (sector (disk s) 33). cbv zeta.
    change (Z.to_nat 0) with 0%nat.
    rewrite drop_0. split; [destruct ino; done|]. split; [lia|]. split; [|lia].
    constructor; try lia; try done; [apply (sb_free _ (ok_sb _ Hok))| |apply Hok].
    destruct s as [[] ?]. simpl. unfold set_free. simpl. f_equal. lia.
  - intros i [ino' written] s1 o Hi (-> & b & sec & Hx). cbv zeta in Hx.
    destruct Hx as (-> & -> & Hw & _).
    destruct (Z_of_nat_complete i) as [k ->]; [lia|]. rewrite Nat2Z.id in *.
    assert (k < n)%nat as Hkn by lia. destruct (Hneed k Hkn) as [Hneedk Hlen].
    replace (Z.to_nat size `min` (512 * k))%nat with (512 * k)%nat by lia.
    pose proof (wrote_fs_ok _ _ _ _ _ Hok Hw) as Hok1.
    wp_steps. eapply wp_mono; [by apply block_alloc_spec|].
    intros c s2 o (-> & Hsame & Hc). destruct Hc as [(Hlow & Hpos & Hsb2)|(-> & Hsb2 & Hfull)].
    2: { simpl. wp_steps. right. exists b, sec, k. split; [done|]. split; [done|].
         destruct (wrote_stuck s b k sec s1 s2 Hsz Hw Hsame (ok_dev _ Hok1) Hsb2 Hfull) as [Hw2 Hwhy].
         split; [exact Hw2|]. split; [exact Hkn|exact Hwhy]. }
    assert (33 ≤ c < 1057) as Hcr by apply Hlow.
    destruct (Z.eqb_spec c 0); [lia|].
    eapply wp_mono.
    { apply write_chunk_spec; [exact Hsize|exact Hdata|by apply Hsame, Hok1|lia| |exact Hneedk|exact Hlen].
      cbn [set_blocks i_blocks]. rewrite length_app, length_replicate, length_drop. lia. }
    intros r s3 o (-> & -> & Hsb3 & Hdev3 & Hsec3). split; [done|].
    destruct (wrote_step s b k sec s1 c s2 s3 (chunk data size k)) as [Hw3 Hcb];
      try assumption.
    exists c, (chunk data size k). replace (Z.to_nat (Z.of_nat k + 1)) with (S k) by lia.
    cbv zeta. cbn [set_blocks i_blocks].
    rewrite (replicate_set_block _ k b c) by (lia || exact Hcb).
    split; [done|]. split; [done|]. split; [exact Hw3|].
    intros _. replace (S k - 1)%nat with k by lia. done.
  - intros [ino' written] s' o (-> & b & sec & Hx). cbv zeta in Hx.
    destruct Hx as (-> & -> & Hw & Hsec). left.
    replace (Z.to_nat (0 + Z.of_nat n)) with n in * by lia.
    eexists b, sec, _. done.
Qed.

(** ** [fs_write] *)

(** [(size + BLOCK_SIZE - 1) / BLOCK_SIZE] in 32 bits. *)
Definition blocks_needed (size : Z) : Z := u32 (u32 (size + BLOCK_SIZE) - 1) / BLOCK_SIZE.

Lemma blocks_needed_pos size (k : nat) :
  0 ≤ size < 2 ^ 32 → (k < Z.to_nat (blocks_needed size))%nat → Z.of_nat (512 * k) < size.
Proof.
  intros Hs Hk. unfold blocks_needed, BLOCK_SIZE, u32 in Hk. revert Hk. dlia.
Qed.

Lemma blocks_needed_small size :
  0 ≤ size ≤ 16384 → blocks_needed size = (size + 511) / 512.
Proof. intros Hs. unfold blocks_needed, BLOCK_SIZE, u32. dlia. Qed.

(** What a file holds after [fs_write]: the last chunk once per block, then
    what the file's remaining old blocks hold, cut at the size. *)
Definition stored (d : D) (data : list Z) (size : Z) (old : list Z) : list Z :=
  let n := Z.to_nat (blocks_needed size) in
  take (Z.to_nat size)
    (concat (replicate n (chunk data size (n - 1)) ++ map (sector d) (cstr (drop n old)))).

Lemma cstr_replicate n (b : Z) l : b ≠ 0 → cstr (replicate n b ++ l) = replicate n b ++ cstr l.
Proof.
  intros Hb. induction n as [|n IH]; [done|].
  change (replicate (S n) b) with (b :: replicate n b). simpl.
  destruct (Z.eqb_spec b 0); [done|]. rewrite IH. done.
Qed.

(** The blocks of other files, and the file's own old blocks, keep their data
    while a block is written: it is none of them. *)
Lemma wrote_keeps s b k sec s' i c :
  fs_ok s → wrote s b k sec s' → 0 ≤ i < 32 → live (disk s) i = true →
  c ∈ blocks_at (disk s) i → c ≠ 0 → sector (disk s') c = sector (disk s) c.
Proof.
  intros Hok Hw Hi Hl Hc Hc0. pose proof (live_block _ i c (ok_table _ Hok) Hi Hl Hc Hc0).
  pose proof (ok_size _ Hok). destruct (Z.eq_dec c b) as [->|Hne].
  - rewrite (wr_sec _ _ _ _ _ Hw). destruct (decide (k = 0%nat)) as [->|Hk].
    + apply (wr_first _ _ _ _ _ Hw). reflexivity.
    + exfalso. destruct (wr_lowest _ _ _ _ _ Hw) as (_ & Hn & _); [lia|].
      apply Hn. exists i. done.
  - apply (wr_other _ _ _ _ _ Hw); [lia|assumption].
Qed.

Lemma stored_file_bytes s b sec s' d4 data size ino i :
  let n := Z.to_nat (blocks_needed size) in
  fs_ok s → wrote s b n sec s' → 0 ≤ i < 32 → live (disk s) i = true →
  ino = inode_at (disk s) i → ((0 < n)%nat → sec = chunk data size (n - 1)) →
  (∀ k, 17 ≤ k < dev_sectors → sector d4 k = sector (disk s') k) →
  file_bytes d4 (set_size size (set_blocks (replicate n b ++ drop n (i_blocks ino)) ino))
  = stored (disk s) data size (i_blocks ino).
Proof.
  intros n Hok Hw Hi Hl -> Hsec Hd4. pose proof (ok_size _ Hok) as Hsz.
  pose proof (wr_block _ _ _ _ _ Hw) as Hb.
  unfold file_bytes, stored. cbn [set_size set_blocks i_size i_blocks]. fold n.
  rewrite cstr_replicate by lia. rewrite map_app, fmap_replicate. do 2 f_equal. f_equal.
  - rewrite Hd4, (wr_sec _ _ _ _ _ Hw) by lia.
    destruct n as [|n']; [done|]. rewrite Hsec by lia. done.
  - apply map_ext_in. intros c Hc%list_elem_of_In.
    apply cstr_incl in Hc as [Hc Hc0].
    assert (c ∈ blocks_at (disk s) i) as Hc'.
    { unfold blocks_at. rewrite <-(take_drop n (i_blocks _)). apply elem_of_app. by right. }
    pose proof (live_block _ i c (ok_table _ Hok) Hi Hl Hc' Hc0).
    rewrite Hd4 by lia. eapply wrote_keeps; eassumption.
Qed.

Lemma elem_of_rewritten (n : nat) (b : Z) old c :
  c ∈ replicate n b ++ drop n old → ((0 < n)%nat ∧ c = b) ∨ c ∈ old.
Proof.
  intros [Hc|Hc]%elem_of_app.
  - left. apply elem_of_replicate in Hc as [-> Hn]. split; [lia|done].
  - right. rewrite <-(take_drop n old). apply elem_of_app. by right.
Qed.

(** The inode [fs_write] commits. *)
Definition written_inode (ino : inode_t) (n : nat) (b size : Z) : inode_t :=
  set_size size (set_blocks (replicate n b ++ drop n (i_blocks ino)) ino).

Lemma written_inode_ok ino n b size :
  inode_ok ino → (n ≤ 32)%nat → word_ok b → word_ok size →
  inode_ok (written_inode ino n b size).
Proof.
  intros [I1 I2 [I3 I3'] I4 I5] Hn Hb Hs. constructor; try assumption.
  cbn [written_inode set_size set_blocks i_blocks]. split.
  - rewrite length_app, length_replicate, length_drop. lia.
  - apply Forall_app. split; [by apply Forall_replicate|by apply Forall_drop].
Qed.

Lemma written_table_ok s i b n sec s3 d4 size :
  fs_ok s → 0 ≤ i < 32 → live (disk s) i = true → wrote s b n sec s3 → (n ≤ 32)%nat →
  row_set (disk s3) d4 i (written_inode (inode_at (disk s) i) n b size) →
  table_ok d4.
Proof.
  intros Hok Hi Hl Hw Hn Hrow. pose proof (ok_size _ Hok) as Hsz.
  assert (1057 ≤ dev_sectors) as Hsz' by lia. pose proof (ok_table _ Hok) as Ht.
  assert (row_set (disk s) d4 i (written_inode (inode_at (disk s) i) n b size)) as Hrow'.
  { intros j Hj. rewrite Hrow by assumption.
    rewrite (wrote_table _ _ _ _ _ j Hsz' Hw Hj). reflexivity. }
  eapply table_ok_row; [exact Hi|exact Hrow'|exact Ht|]. intros _.
  split; [by apply (tb_name _ Ht)|]. split.
  - apply Forall_forall. intros c Hc. apply elem_of_rewritten in Hc as [[_ ->]|Hc].
    + right. apply (wr_block _ _ _ _ _ Hw).
    + pose proof (tb_blocks _ Ht i Hi Hl) as Hall. rewrite Forall_forall in Hall. auto.
  - intros j Hj Hne Hlj. split.
    + intros Heq. apply Hne, (tb_unique _ Ht); assumption.
    + intros c Hcj Hc. apply elem_of_rewritten in Hc as [[Hn0 ->]|Hc].
      * exfalso. destruct (wr_lowest _ _ _ _ _ Hw Hn0) as (_ & Hnr & _).
        apply Hnr. exists j. done.
      * eapply (tb_disjoint _ Ht j i); assumption.
Qed.

(** The new blocks replace the file's first [n] block numbers. *)
Lemma written_refs s i b n sec s3 d4 size :
  1057 ≤ dev_sectors → 0 ≤ i < 32 → live (disk s) i = true → wrote s b n sec s3 →
  row_set (disk s3) d4 i (written_inode (inode_at (disk s) i) n b size) →
  refs d4 = refs (disk s) + Z.of_nat n - count_blocks (take n (blocks_at (disk s) i)).
Proof.
  intros Hsz Hi Hl Hw Hrow. pose proof (wr_block _ _ _ _ _ Hw) as Hb.
  pose proof (λ j, wrote_table s b n sec s3 j Hsz Hw) as Htab.
  rewrite (refs_row_set _ _ _ _ Hi Hrow), (refs_ext (disk s) (disk s3) Htab).
  unfold row_refs, live, blocks_at in *. rewrite !Htab by exact Hi. rewrite Hl.
  cbn [written_inode set_size set_blocks i_used i_blocks].
  apply negb_true_iff in Hl. rewrite Hl.
  rewrite count_blocks_app, count_blocks_replicate by lia.
  rewrite <-(take_drop n (i_blocks (inode_at (disk s) i))) at 1.
  rewrite count_blocks_app. lia.
Qed.

(** The state after a successful [fs_write] of the file in row [i]. *)
Definition write_committed s name data size i s' : Prop :=
  let n := blocks_needed size in
  fs_ok s' ∧ synced s' ∧ n ≤ 32 ∧ n ≤ free_blocks (superblock s) ∧
  superblock s' = set_free (free_blocks (superblock s) - n) (superblock s) ∧
  refs (disk s') = refs (disk s) + n - count_blocks (take (Z.to_nat n) (blocks_at (disk s) i)) ∧
  (∃ b, 33 ≤ b < 1057 ∧ inode_at (disk s') i
     = written_inode (inode_at (disk s) i) (Z.to_nat n) b size) ∧
  dir s' = <[cstr name := stored (disk s) data size (blocks_at (disk s) i)]> (dir s).

Lemma fs_write_commit s s0 i b sec s3 name data size m :
  let n := Z.to_nat (blocks_needed size) in
  fs_ok s → fs_eqv s0 s → 0 ≤ i < 32 → live (disk s0) i = true →
  name_at (disk s0) i = cstr name → word_ok size → blocks_needed size ≤ 32 →
  wrote s b n sec s3 → ((0 < n)%nat → sec = chunk data size (n - 1)) →
  wp (inode_write i (written_inode (inode_at (disk s) i) n b size);;
      write_superblock;; kemit m;; mret 0) s3
    (λ r s' o, r = 0 ∧ write_committed s name data size i s').
Proof.
  intros n Hok Hs0 Hi Hl0 Hn0 Hsize Hnb Hw Hsec. pose proof (ok_size _ Hok) as Hsz.
  assert (1057 ≤ dev_sectors) as Hsz' by lia.
  rewrite (same_live Hsz' _ (disk s) i (proj2 Hs0) Hi) in Hl0.
  rewrite (same_name_at Hsz' _ (disk s) i (proj2 Hs0) Hi) in Hn0.
  pose proof (wrote_fs_ok _ _ _ _ _ Hok Hw) as Hok3.
  assert (inode_ok (inode_at (disk s) i)) as Hino.
  { destruct (wp_done _ _ _ (inode_read_spec Hsz' s i (ok_dev _ Hok) Hi))
      as (? & ? & ? & _ & _ & -> & H & _). exact H. }
  set (ino := inode_at (disk s) i) in *.
  assert (0 ≤ blocks_needed size) as Hnb0 by (unfold blocks_needed, BLOCK_SIZE, u32; dlia).
  pose proof (wr_block _ _ _ _ _ Hw) as Hb.
  eapply wp_mono.
  { apply commit_spec; [exact Hok3|exact Hi|].
    apply written_inode_ok; [exact Hino|lia|unfold word_ok; lia|exact Hsize]. }
  intros r s4 o (-> & _ & Hsb4 & Hdev4 & Hsync4 & Hrow & Hsec4). split; [reflexivity|].
  assert (table_ok (disk s4)) as Ht4.
  { eapply written_table_ok; [exact Hok|exact Hi|exact Hl0|exact Hw|lia|exact Hrow]. }
  pose proof (wr_free _ _ _ _ _ Hw) as Hf. pose proof (wr_sb _ _ _ _ _ Hw) as Hsb.
  replace (Z.of_nat n) with (blocks_needed size) in Hf, Hsb by lia.
  split; [apply (fs_ok_same_sb s3); assumption|]. split; [exact Hsync4|].
  split; [exact Hnb|]. split; [exact Hf|]. split; [congruence|].
  rewrite (written_refs s i b n sec s3 (disk s4) size) by assumption. split; [unfold n; lia|].
  split.
  { exists b. split; [exact Hb|]. exact (row_self _ _ _ _ Hi Hrow). }
  assert (row_set (disk s) (disk s4) i (written_inode ino n b size)) as Hrow'.
  { intros j Hj. rewrite Hrow by assumption.
    rewrite (wrote_table _ _ _ _ _ j Hsz' Hw Hj). reflexivity. }
  unfold blocks_at. fold ino.
  rewrite <-(stored_file_bytes s b sec s3 (disk s4) data size ino i); try assumption;
    [|reflexivity].
  rewrite <-Hn0. change (name_at (disk s) i) with (cstr (i_name (written_inode ino n b size))).
  eapply dir_row_set; [exact Hi|exact Hrow'| |apply Hok|exact Ht4| |].
  - eapply others_kept_sectors; [exact Hi|exact Hrow'|apply Hok|].
    intros j c Hj _ Hlj Hc Hc0.
    pose proof (live_block _ j c (ok_table _ Hok) Hj Hlj Hc Hc0).
    rewrite Hsec4 by lia. eapply wrote_keeps; eassumption.
  - unfold live in Hl0. apply negb_true_iff, Z.eqb_neq in Hl0. exact Hl0.
  - intros _. reflexivity.
Qed.

(** A failed [fs_write] changes no file; some blocks may have been counted. *)
Definition write_failed s name size s' : Prop :=
  fs_ok s' ∧ dir s' = dir s ∧ refs (disk s') = refs (disk s) ∧
  sector (disk s') 0 = sector (disk s) 0 ∧
  (∃ k, 0 ≤ k ≤ free_blocks (superblock s) ∧
     superblock s' = set_free (free_blocks (superblock s) - k) (superblock s)) ∧
  (dir s !! cstr name = None ∨ 32 < blocks_needed size ∨
   free_blocks (superblock s) < blocks_needed size ∨
   (0 < blocks_needed size ∧ ∀ c, 33 ≤ c < 1057 → referenced (disk s) c)).

Lemma unchanged_failed s name size s' :
  fs_ok s → unchanged s s' →
  (dir s !! cstr name = None ∨ 32 < blocks_needed size) → write_failed s name size s'.
Proof.
  intros Hok (H1 & H2 & H3 & H5 & H4) Hwhy. pose proof (sb_free _ (ok_sb _ Hok)) as Hf.
  split; [exact H1|]. split; [exact H3|]. split; [exact H5|]. split; [exact H4|].
  split; [|tauto].
  exists 0. unfold word_ok in Hf. split; [lia|]. rewrite H2, Z.sub_0_r.
  destruct (superblock s). reflexivity.
Qed.

Lemma wrote_failed s b k sec s' name size :
  fs_ok s → wrote s b k sec s' → (k < Z.to_nat (blocks_needed size))%nat →
  (free_blocks (superblock s) = Z.of_nat k ∨ ∀ c, 33 ≤ c < 1057 → referenced (disk s) c) →
  write_failed s name size s'.
Proof.
  intros Hok Hw Hk Hwhy. pose proof (ok_size _ Hok) as Hsz.
  assert (1057 ≤ dev_sectors) as Hsz' by lia.
  split; [by eapply wrote_fs_ok|]. split.
  - apply dir_ext; [apply Hok|eapply wrote_fs_ok; eassumption|]. intros i Hi.
    unfold live, name_at, contents.
    rewrite (wrote_table _ _ _ _ _ i Hsz' Hw Hi). split; [reflexivity|]. intros Hl.
    split; [reflexivity|]. apply file_bytes_ext. intros c Hc Hc0.
    eapply wrote_keeps; eassumption.
  - split.
    { apply refs_ext. intros i Hi. by eapply wrote_table. }
    split.
    { pose proof (wr_block _ _ _ _ _ Hw). apply (wr_other _ _ _ _ _ Hw); lia. }
    split.
    + exists (Z.of_nat k). split; [|apply Hw]. pose proof (wr_free _ _ _ _ _ Hw). lia.
    + destruct Hwhy as [->|Hall]; right; right; [left|right]; [|split; [|exact Hall]]; lia.
Qed.

Lemma write_failed_eqv s s0 name size s' :
  fs_ok s0 → fs_eqv s0 s →
  write_failed s name size s' → write_failed s0 name size s'.
Proof.
  intros Hok Hs (H1 & H2 & H6 & H5 & H3 & H4). pose proof (ok_size _ Hok) as Hsz.
  assert (1057 ≤ dev_sectors) as Hsz' by lia.
  pose proof (fs_eqv_dir Hsz' s0 s Hs (ok_table _ Hok)) as Hd.
  rewrite <-(proj1 Hs) in H3, H4. rewrite Hd in H2, H4.
  split; [exact H1|]. split; [exact H2|]. split.
  { rewrite H6. apply refs_ext. intros i Hi. symmetry. apply same_inode_at; [lia|apply Hs|exact Hi]. }
  split; [rewrite H5; symmetry; apply Hs; lia|]. split; [exact H3|].
  destruct H4 as [H4|[H4|[H4|[Hpos H4]]]]; [tauto|tauto|tauto|]. right; right; right.
  split; [exact Hpos|]. intros c Hc. eapply same_referenced; [exact Hsz'|symmetry; apply Hs|auto].
Qed.

(** The state a write starts from counts as the sectors it has. *)
Lemma committed_eqv s s2 name data size i s' :
  fs_ok s → fs_eqv s s2 → 0 ≤ i < 32 → live (disk s) i = true →
  write_committed s2 name data size i s' → write_committed s name data size i s'.
Proof.
  intros Hok Hs Hi Hl (H1 & H2 & H3 & H4 & H5 & H6 & H7 & H8). pose proof (ok_size _ Hok) as Hsz.
  assert (1057 ≤ dev_sectors) as Hsz' by lia. pose proof (fs_eqv_ok s s2 Hs Hok) as Hok2.
  rewrite <-(proj1 Hs) in H4, H5. rewrite (same_live Hsz' (disk s) (disk s2)) in Hl by (apply Hs || exact Hi).
  assert (blocks_at (disk s2) i = blocks_at (disk s) i) as Hb
    by (symmetry; apply (same_blocks_at Hsz'); [apply Hs|exact Hi]).
  split; [exact H1|]. split; [exact H2|]. split; [exact H3|]. split; [exact H4|]. split; [exact H5|]. split; [|split].
  - rewrite H6, Hb, (refs_ext (disk s) (disk s2)); [reflexivity|].
    intros j Hj. symmetry. apply same_inode_at; [exact Hsz'|apply Hs|exact Hj].
  - by rewrite (same_inode_at Hsz' (disk s) (disk s2)) by (apply Hs || exact Hi).
  - rewrite H8, (fs_eqv_dir Hsz' s s2 Hs (ok_table _ Hok)), Hb. f_equal. unfold stored. do 3 f_equal.
    apply map_ext_in. intros c Hc%list_elem_of_In. apply cstr_incl in Hc as [Hc Hc0].
    assert (c ∈ blocks_at (disk s2) i) as Hc'.
    { rewrite Hb, <-(take_drop (Z.to_nat (blocks_needed size)) (blocks_at _ _)). apply elem_of_app. by right. }
    pose proof (live_block _ i c (ok_table _ Hok2) Hi Hl Hc' Hc0). symmetry. apply Hs. lia.
Qed.

Lemma fs_write_spec s name data size :
  fs_ok s → name_arg name → bytes_ok data → 0 ≤ size < 2 ^ 32 →
  Z.min size (512 * blocks_needed size) ≤ Z.of_nat (length data) →
  wp (fs_write name data size) s (λ r s' o,
    (r = 0 ∧ ∃ i, 0 ≤ i < 32 ∧ live (disk s) i = true ∧ name_at (disk s) i = cstr name ∧
       write_committed s name data size i s') ∨
    (r = -1 ∧ write_failed s name size s')).
Proof.
  intros Hok Hname Hdata Hsize Hlen. pose proof (ok_size _ Hok) as Hsz.
  assert (1057 ≤ dev_sectors) as Hsz' by lia.
  unfold fs_write. wp_steps. eapply wp_mono; [by apply find_dir|].
  intros r s1 o (-> & Hs1 & Hr).
  destruct Hr as [(Hr & Hl & Hn & Hfound)|[-> Hnone]].
  2: { simpl. wp_steps. right. split; [reflexivity|].
       apply unchanged_failed; [exact Hok|by apply eqv_unchanged|by left]. }
  destruct (Z.ltb_spec r 0); [lia|]. rewrite (u32_small r) by lia.
  pose proof (fs_eqv_ok s s1 Hs1 Hok) as Hok1. wp_steps.
  eapply wp_mono; [apply inode_read_spec; [exact Hsz'|apply Hok1|exact Hr]|].
  intros ino s2 o (-> & -> & Hino & Hs2). assert (fs_eqv s s2) as Hs by (etrans; done).
  pose proof (fs_eqv_ok s s2 Hs Hok) as Hok2.
  rewrite (same_inode_at Hsz' (disk s1) (disk s2)) in * by (apply Hs2 || exact Hr).
  change (u32 (u32 (size + BLOCK_SIZE) - 1) / BLOCK_SIZE) with (blocks_needed size).
  unfold MAX_FILE_BLOCKS. destruct (Z.ltb_spec 32 (blocks_needed size)) as [Hbig|Hnb].
  { wp_steps. right. split; [reflexivity|].
    apply unchanged_failed; [exact Hok|by apply eqv_unchanged|by right]. }
  assert (0 ≤ blocks_needed size) as Hnb0 by (unfold blocks_needed, BLOCK_SIZE, u32; dlia).
  set (n := Z.to_nat (blocks_needed size)).
  replace (blocks_needed size) with (Z.of_nat n) at 1 by lia.
  wp_steps. eapply wp_mono.
  { apply write_blocks_spec; [exact Hok2|exact Hino|exact Hdata|exact Hsize|lia|].
    intros k Hk. pose proof (blocks_needed_pos size k Hsize Hk). unfold chunk_len. lia. }
  intros x s3 o [(b & sec & written & -> & -> & Hw & Hsec)|
                 (b & sec & k & -> & -> & Hw & Hk & Hwhy)].
  2: { wp_steps. right. split; [reflexivity|].
       apply (write_failed_eqv s2 s); [exact Hok|exact Hs|].
       eapply wrote_failed; [exact Hok2|exact Hw|exact Hk|exact Hwhy]. }
  eapply wp_mono.
  { apply (fs_write_commit s2 s r b sec s3 name data size (EvPrintf _ _)); assumption. }
  intros r' s4 o (-> & Hc). left. split; [reflexivity|].
  exists r. split; [exact Hr|]. split; [exact Hl|]. split; [exact Hn|].
  exact (committed_eqv s s2 name data size r s4 Hok Hs Hr Hl Hc).
Qed.
End write.
