(* ===== verification/FsBoot.v ===== *)
(** * Mounting the disk: [fs_init] and [fs_format] of kernel/fs.c

    [fs_init] formats a disk without the magic number and otherwise takes the
    superblock the disk has; the files of a mounted disk are those it had. *)

From S2P Require Import Prelude Bytes Disk Fs FsCodec FsView FsOps FsDir FsSpec.

Section boot.
Context {D : Type} {O : BlockOps D} {B : BlockDevice D}.
Implicit Types s : fs D.

(** The superblock on the disk. *)
Definition disk_superblock (d : D) : superblock_t :=
  superblock_of_bytes (slice 0 24 (sector d 0)).

(** The superblock [fs_format] writes. *)
Definition format_superblock : superblock_t := Superblock FS_MAGIC 1 1024 1 33 1024.

Lemma format_superblock_ok : superblock_ok format_superblock.
Proof. constructor; unfold word_ok; simpl; unfold FS_MAGIC; lia. Qed.

(** The inode table after formatting. *)
Lemma formatted_inode (d : D) i :
  0 ≤ i < 32 → (∀ k, 1 ≤ k < 33 → sector d k = replicate 512 0) →
  inode_at d i = zero_inode.
Proof.
  intros Hi Hz. pose proof (inode_sector_range i Hi). unfold inode_at.
  rewrite Hz by lia. unfold zero_inode. f_equal.
  destruct (inode_offset i Hi) as [_ [-> | ->]]; reflexivity.
Qed.

(** The loop of [fs_format] zeroes sectors 1 to 32. *)
Lemma format_loop s :
  1057 ≤ dev_sectors → dev_ok (disk s) →
  wp (kfold 0 32 (λ i _, ata_write_sector (u32 (INODE_START_SECTOR + i)) (replicate 512 0)) tt)
    s (λ _ s' o, o = [] ∧ superblock s' = superblock s ∧ dev_ok (disk s') ∧
      ∀ k, 0 ≤ k < dev_sectors →
        sector (disk s') k = if (1 <=? k) && (k <? 33) then replicate 512 0
                             else sector (disk s) k).
Proof.
  intros Hsz Hdev.
  apply wp_kfold with (I := λ i _ s' o, o = [] ∧ superblock s' = superblock s ∧
    dev_ok (disk s') ∧ ∀ k, 0 ≤ k < dev_sectors →
      sector (disk s') k = if (1 <=? k) && (k <? 1 + i) then replicate 512 0
                           else sector (disk s) k).
  - split; [done|]. split; [done|]. split; [done|]. intros k Hk.
    destruct (Z.leb_spec 1 k), (Z.ltb_spec k (1 + 0)); simpl; (reflexivity || lia).
  - intros i _ s1 o Hi (-> & Hsb1 & Hdev1 & Hsec1). unfold INODE_START_SECTOR.
    rewrite u32_small by lia. eapply wp_mono.
    { apply write_sector_spec; [exact Hdev1|lia|reflexivity|].
      apply Forall_replicate. unfold byte_ok. lia. }
    intros _ s2 o (-> & Hsb2 & Hdev2 & Hsec2). split; [done|]. split; [congruence|].
    split; [exact Hdev2|]. intros k Hk. rewrite Hsec2, Hsec1 by exact Hk.
    destruct (Z.eqb_spec k (1 + i)), (Z.leb_spec 1 k), (Z.ltb_spec k (1 + i)),
      (Z.ltb_spec k (1 + (i + 1))); simpl; (reflexivity || lia).
  - intros _ s1 o. exact id.
Qed.

(** What a freshly formatted file system is. *)
Definition formatted s : Prop :=
  fs_ok s ∧ synced s ∧ dir s = ∅ ∧ superblock s = format_superblock.

Lemma fs_format_spec s :
  1057 ≤ dev_sectors ≤ 2 ^ 28 → dev_ok (disk s) →
  wp fs_format s (λ _ s' o, formatted s' ∧
    o = [EvPrintf "FS: no AshFS found, formatting...\n" [];
         EvPrintf "FS: AshFS formatted successfully\n" []]).
Proof.
  intros Hsz Hdev. assert (1057 ≤ dev_sectors) as Hsz' by lia.
  unfold fs_format. wp_steps. eapply wp_mono.
  { apply write_superblock_spec; [exact Hsz'|exact Hdev|].
    exact format_superblock_ok. }
  intros _ s1 o (-> & Hsb1 & Hdev1 & Hsync1 & _). wp_steps.
  eapply wp_lift; [apply fs_memset_all; [unfold byte_ok; lia|reflexivity]|]. wp_steps.
  change (Z.to_nat 512) with 512%nat. eapply wp_mono; [by apply format_loop|].
  intros _ s2 o (-> & Hsb2 & Hdev2 & Hsec2). wp_steps. split; [|done].
  assert (superblock s2 = format_superblock) as Hsb by (rewrite Hsb2, Hsb1; reflexivity).
  assert (∀ i, 0 ≤ i < 32 → inode_at (disk s2) i = zero_inode) as Hino.
  { intros i Hi. apply formatted_inode; [exact Hi|]. intros k Hk. rewrite Hsec2 by lia.
    destruct (Z.leb_spec 1 k), (Z.ltb_spec k 33); simpl; (reflexivity || lia). }
  assert (∀ i, 0 ≤ i < 32 → live (disk s2) i = false) as Hdead.
  { intros i Hi. unfold live. rewrite Hino by exact Hi. reflexivity. }
  assert (table_ok (disk s2)) as Ht.
  { constructor.
    - intros i Hi Hl. rewrite Hdead in Hl by exact Hi. discriminate.
    - intros i Hi Hl. rewrite Hdead in Hl by exact Hi. discriminate.
    - intros i j Hi _ Hl. rewrite Hdead in Hl by exact Hi. discriminate.
    - intros i j b Hi _ Hl. rewrite Hdead in Hl by exact Hi. discriminate. }
  split; [|split; [|split; [|exact Hsb]]].
  - constructor; rewrite ?Hsb; try assumption; try reflexivity. exact format_superblock_ok.
  - unfold synced in *. rewrite Hsb2, <-Hsync1. do 2 f_equal. apply Hsec2. lia.
  - apply map_eq. intros n. rewrite lookup_empty. apply dir_lookup_None; [exact Ht|].
    intros i Hi Hl. rewrite Hdead in Hl by exact Hi. discriminate.
Qed.

Lemma fs_init_spec s :
  1057 ≤ dev_sectors ≤ 2 ^ 28 → dev_ok (disk s) →
  wp fs_init s (λ _ s' o,
    if magic (disk_superblock (disk s)) =? FS_MAGIC then
      fs_eqv (set_sb (disk_superblock (disk s)) s) s' ∧
      o = [EvPrintf "FS: AshFS found, version %d, %d free blocks\n"
             [AInt (version (disk_superblock (disk s)));
              AInt (free_blocks (disk_superblock (disk s)))]]
    else formatted s' ∧
      o = [EvPrintf "FS: no AshFS found, formatting...\n" [];
           EvPrintf "FS: AshFS formatted successfully\n" []]).
Proof.
  intros Hsz Hdev. unfold fs_init. wp_steps.
  eapply wp_mono; [apply read_sector_spec; [exact Hdev|unfold SUPERBLOCK_SECTOR; lia]|].
  intros buf s1 o (-> & -> & Hs1). unfold SUPERBLOCK_SECTOR. wp_steps.
  destruct (sector_ok (disk s) 0 Hdev ltac:(lia)) as [Hl _].
  eapply wp_lift; [apply (fs_memcpy_whole _ _ 0 24); [reflexivity|rewrite Hl; lia]|].
  wp_steps. fold (disk_superblock (disk s)). cbn [superblock set_sb].
  destruct (magic (disk_superblock (disk s)) =? FS_MAGIC); simpl negb; cbv iota.
  - wp_steps. split; [|done]. split; [reflexivity|]. apply Hs1.
  - eapply wp_mono; [apply fs_format_spec; [exact Hsz|by apply Hs1]|]. done.
Qed.

(** ** Rebooting *)

(** The superblock on the disk is one [fs_init] can mount. *)
Definition bootable s : Prop :=
  magic (disk_superblock (disk s)) = FS_MAGIC ∧
  total_blocks (disk_superblock (disk s)) = 1024.

Lemma synced_bootable s : fs_ok s → synced s → bootable s.
Proof.
  intros Hok Hs. unfold synced in Hs. unfold bootable, disk_superblock. rewrite Hs.
  split; apply Hok.
Qed.

Lemma bootable_sector s s' :
  bootable s → sector (disk s') 0 = sector (disk s) 0 → bootable s'.
Proof. unfold bootable, disk_superblock. intros H ->. exact H. Qed.

Lemma remounted_ok s :
  fs_ok s → bootable s → fs_ok (set_sb (disk_superblock (disk s)) s).
Proof.
  intros [H1 H2 _ _ _ H6] [Hm Ht]. constructor; try assumption. simpl.
  apply superblock_of_bytes_ok.
  - destruct (sector_ok (disk s) 0 H2 ltac:(lia)) as [Hl _]. rewrite length_slice by lia. done.
  - apply slice_ok, (sector_ok (disk s) 0 H2). lia.
Qed.
End boot.
