(* ===== verification/FsThms.v ===== *)
(** * AshFS against its abstract specification

    The abstract file system is a finite map from names to contents with a
    capacity of 32 files; [spec_step] is its transition relation, one rule per
    outcome of a call.  [fs_call_refines] is the forward simulation for one call
    of kernel/fs.c, [fs_trace_refines] for a sequence of calls from any state of
    the invariant, and the theorems after it are consequences and the
    behaviours outside the abstract specification. *)

From S2P Require Import Prelude Bytes Disk Fs FsCodec FsView FsOps FsDir FsSpec FsRead FsWrite FsBoot.

(** ** The abstract file system *)

Inductive fs_call :=
  | CallCreate (name : list Z)
  | CallWrite (name data : list Z) (size : Z)
  | CallRead (name buf : list Z) (size : Z)
  | CallDelete (name : list Z)
  | CallList.

(** What the caller sees: the result and, for [fs_read], the buffer. *)
Inductive fs_reply :=
  | ReplyInt (r : Z)
  | ReplyRead (r : Z) (buf : list Z)
  | ReplyVoid.

(** The arguments the C functions may be given: strings are terminated, buffers
    are as long as the size says, a new file's name fits [MAX_FILENAME] and the
    size's rounding to blocks does not overflow. *)
Definition call_ok (c : fs_call) : Prop :=
  match c with
  | CallCreate name => name_arg name ∧ (length (cstr name) < 64)%nat
  | CallWrite name data size =>
      name_arg name ∧ bytes_ok data ∧ 0 ≤ size ≤ 2 ^ 32 - 512 ∧ size ≤ Z.of_nat (length data)
  | CallRead name buf size =>
      name_arg name ∧ 0 ≤ size < 2 ^ 32 ∧ size ≤ Z.of_nat (length buf)
  | CallDelete name => name_arg name
  | CallList => True
  end.

(** What the kernel stores for [size] bytes of [data]: the bytes when one block
    is enough, the last chunk repeated when not. *)
Definition spec_contents (data : list Z) (size : Z) : list Z :=
  let n := Z.to_nat ((size + 511) / 512) in
  take (Z.to_nat size) (concat (replicate n (chunk data size (n - 1)))).

Inductive spec_step (m : gmap (list Z) (list Z))
  : fs_call → fs_reply → gmap (list Z) (list Z) → Prop :=
  | spec_create name :
      m !! cstr name = None → (size m < 32)%nat →
      spec_step m (CallCreate name) (ReplyInt 0) (<[cstr name := []]> m)
  | spec_create_fail name :
      is_Some (m !! cstr name) ∨ size m = 32%nat →
      spec_step m (CallCreate name) (ReplyInt (-1)) m
  | spec_write name data size :
      is_Some (m !! cstr name) → size ≤ 16384 →
      spec_step m (CallWrite name data size) (ReplyInt 0)
        (<[cstr name := spec_contents data size]> m)
  | spec_write_fail name data size :
      spec_step m (CallWrite name data size) (ReplyInt (-1)) m
  | spec_read name buf size c :
      m !! cstr name = Some c →
      let n := (Z.to_nat size `min` length c)%nat in
      spec_step m (CallRead name buf size)
        (ReplyRead (Z.of_nat n) (take n c ++ drop n buf)) m
  | spec_read_fail name buf size :
      m !! cstr name = None →
      spec_step m (CallRead name buf size) (ReplyRead (-1) buf) m
  | spec_delete name :
      is_Some (m !! cstr name) →
      spec_step m (CallDelete name) (ReplyInt 0) (delete (cstr name) m)
  | spec_delete_fail name :
      m !! cstr name = None →
      spec_step m (CallDelete name) (ReplyInt (-1)) m
  | spec_list : spec_step m CallList ReplyVoid m.

Inductive spec_run : gmap (list Z) (list Z) → list fs_call → list fs_reply →
    gmap (list Z) (list Z) → Prop :=
  | run_nil m : spec_run m [] [] m
  | run_cons m c r m1 cs rs m2 :
      spec_step m c r m1 → spec_run m1 cs rs m2 → spec_run m (c :: cs) (r :: rs) m2.

Section thms.
Context {D : Type} {O : BlockOps D} {B : BlockDevice D}.
Implicit Types s : fs D.

(** A call of kernel/fs.c. *)
Definition fs_run_call (c : fs_call) : K (fs D) fs_reply :=
  match c with
  | CallCreate name => r ← fs_create name; mret (ReplyInt r)
  | CallWrite name data size => r ← fs_write name data size; mret (ReplyInt r)
  | CallRead name buf size =>
      r ← fs_read name buf size; mret (ReplyRead r.1 r.2)
  | CallDelete name => r ← fs_delete name; mret (ReplyInt r)
  | CallList => fs_list;; mret ReplyVoid
  end.

Fixpoint fs_run_calls (cs : list fs_call) : K (fs D) (list fs_reply) :=
  match cs with
  | [] => mret []
  | c :: cs => r ← fs_run_call c; rs ← fs_run_calls cs; mret (r :: rs)
  end.

(** ** Capacity *)

Lemma dir_size s :
  table_ok (disk s) →
  size (dir s) = length (filter (λ i, live (disk s) i = true) (seqZ 0 32)).
Proof.
  intros Ht. unfold dir. rewrite map_size_list_to_map by (by apply files_NoDup).
  unfold files. rewrite length_fmap. reflexivity.
Qed.

Lemma dir_size_le s : table_ok (disk s) → (size (dir s) ≤ 32)%nat.
Proof.
  intros Ht. rewrite dir_size by exact Ht.
  etrans; [apply length_filter|]. rewrite length_seqZ. lia.
Qed.

Lemma dir_full s :
  table_ok (disk s) → (∀ i, 0 ≤ i < 32 → live (disk s) i = true) → size (dir s) = 32%nat.
Proof.
  intros Ht H. rewrite dir_size by exact Ht.
  assert (∀ l, Forall (λ i, live (disk s) i = true) l →
    filter (λ i, live (disk s) i = true) l = l) as Hall.
  { induction 1 as [|i l Hi Hl IH]; [done|]. rewrite filter_cons_True, IH; done. }
  rewrite Hall; [by rewrite length_seqZ|].
  apply Forall_forall. intros i Hi%elem_of_seqZ. apply H. lia.
Qed.

(** ** [fs_list] *)

Definition list_row (d : D) (i : Z) : event :=
  EvPrintf "  %s (%d bytes)\n"
    [AStr (i_name (inode_at d i)); AInt (i_size (inode_at d i))].

Definition live_rows (d : D) (n : Z) : list Z :=
  filter (λ i, live d i = true) (seqZ 0 n).

Lemma live_rows_S d n :
  0 ≤ n → live_rows d (n + 1) = live_rows d n ++ (if live d n then [n] else []).
Proof.
  intros Hn. unfold live_rows. rewrite seqZ_app by lia. rewrite filter_app.
  f_equal. rewrite Z.add_0_l. change (seqZ n 1) with [n].
  rewrite filter_cons, filter_nil. destruct (live d n); reflexivity.
Qed.

Lemma fs_list_spec s :
  fs_ok s →
  wp fs_list s (λ _ s' o, unchanged s s' ∧
    o = [EvPrintf "\nFiles on AshFS:\n" [];
         EvPrintf "Name                             Size\n" [];
         EvPrintf "----                             ----\n" []] ++
        map (list_row (disk s)) (live_rows (disk s) 32) ++
        (if decide (live_rows (disk s) 32 = []) then [EvPrintf "(no files)\n" []] else [])).
Proof.
  intros Hok. pose proof (ok_size _ Hok) as Hsz. assert (1057 ≤ dev_sectors) as Hsz' by lia.
  unfold fs_list. wp_steps.
  apply wp_kfold with (I := λ i found s' o, fs_eqv s s' ∧
    found = Z.of_nat (length (live_rows (disk s) i)) ∧
    o = map (list_row (disk s)) (live_rows (disk s) i)).
  - split; [reflexivity|]. done.
  - change (Z.of_nat (Z.to_nat MAX_FILES)) with 32.
    intros i found s1 o Hi (Hs1 & -> & ->).
    pose proof (fs_eqv_ok s s1 Hs1 Hok) as Hok1. wp_steps.
    eapply wp_mono; [apply inode_read_spec; [exact Hsz'|apply Hok1|lia]|].
    intros ino s2 o (-> & -> & Hino & Hs2). assert (fs_eqv s s2) as Hs by (etrans; done).
    rewrite <-(same_inode_at Hsz' (disk s) (disk s1)) in * by (apply Hs1 || lia).
    assert (length (live_rows (disk s) i) ≤ 32)%nat as Hlen.
    { unfold live_rows. etrans; [apply length_filter|]. rewrite length_seqZ. lia. }
    rewrite live_rows_S by lia. unfold live.
    destruct (i_used (inode_at (disk s) i) =? 0); simpl negb; cbv iota; wp_steps.
    + rewrite !app_nil_r. done.
    + rewrite map_app, length_app, s32_small by lia. split; [done|].
      split; [simpl; lia|done].
  - change (0 + Z.of_nat (Z.to_nat MAX_FILES)) with 32.
    intros found s1 o (Hs1 & -> & ->).
    pose proof (eqv_unchanged s s1 Hok Hs1) as Hun.
    destruct (decide (live_rows (disk s) 32 = [])) as [->|Hne].
    + simpl. wp_steps. done.
    + destruct (Z.eqb_spec (Z.of_nat (length (live_rows (disk s) 32))) 0) as [H0|_].
      { exfalso. apply Hne. apply length_zero_iff_nil. lia. }
      wp_steps. rewrite app_nil_r. done.
Qed.

(** ** What [fs_write] stores *)

Lemma length_repeat_chunk data size (n : nat) :
  bytes_ok data → 0 ≤ size ≤ Z.of_nat (length data) →
  Z.of_nat (512 * (n - 1)) ≤ size →
  length (concat (replicate n (chunk data size (n - 1)))) = (512 * n)%nat.
Proof.
  intros Hb Hl Hk. rewrite length_concat_sectors.
  - rewrite length_replicate. reflexivity.
  - apply Forall_replicate. apply chunk_ok; [exact Hb|]. unfold chunk_len. lia.
Qed.

(** The file's old blocks never show in what is stored. *)
Lemma stored_contents d data size old :
  bytes_ok data → 0 ≤ size ≤ Z.of_nat (length data) → size ≤ 16384 →
  stored d data size old = spec_contents data size.
Proof.
  intros Hb Hl Hs. unfold stored, spec_contents. rewrite blocks_needed_small by lia.
  cbv zeta. rewrite concat_app, take_app_le; [reflexivity|].
  assert (Z.of_nat (512 * (Z.to_nat ((size + 511) / 512) - 1)) ≤ size) by dlia.
  rewrite length_repeat_chunk by (exact Hb || lia || assumption). dlia.
Qed.

Lemma blocks_needed_large size : 0 ≤ size ≤ 2 ^ 32 - 512 → blocks_needed size ≤ 32 → size ≤ 16384.
Proof. unfold blocks_needed, BLOCK_SIZE, u32. intros Hs. dlia. Qed.

(** One block: the bytes given. *)
Lemma spec_contents_one data size :
  0 ≤ size ≤ 512 → size ≤ Z.of_nat (length data) →
  spec_contents data size = take (Z.to_nat size) data.
Proof.
  intros Hs Hl. unfold spec_contents. destruct (Z.eq_dec size 0) as [->|Hne]; [reflexivity|].
  replace ((size + 511) / 512) with 1 by dlia. cbv zeta.
  change (Z.to_nat 1 - 1)%nat with 0%nat.
  change (concat (replicate (Z.to_nat 1) (chunk data size 0))) with (chunk data size 0 ++ []).
  rewrite app_nil_r. unfold chunk, chunk_len, slice.
  replace (512 `min` (Z.to_nat size - 512 * 0))%nat with (Z.to_nat size) by lia.
  rewrite drop_0, take_app_le by (rewrite length_take; lia). rewrite take_take. f_equal. lia.
Qed.

(** ** The simulation *)

(** The invariant of a mounted file system: the tables, a superblock on disk
    that can be mounted again, and the block accounting. *)
Record mounted s : Prop := {
  mt_ok : fs_ok s;
  mt_boot : bootable s;
  mt_space : space_ok s;
}.

Lemma mounted_unchanged s s' : mounted s → unchanged s s' → mounted s' ∧ dir s' = dir s.
Proof.
  intros [_ H2 H3] (Hok & Hsb & Hd & Href & Hsec). split; [|exact Hd].
  split; [exact Hok|by eapply bootable_sector|]. unfold space_ok. by rewrite Hsb, Href.
Qed.

Lemma mounted_eqv s s' : mounted s → fs_eqv s s' → mounted s' ∧ dir s' = dir s.
Proof. intros Hm He. apply mounted_unchanged; [exact Hm|]. apply eqv_unchanged; [apply Hm|exact He]. Qed.

Lemma count_take n (bs : list Z) : count_blocks (take n bs) ≤ count_blocks bs.
Proof.
  rewrite <-(take_drop n bs) at 2. rewrite count_blocks_app.
  pose proof (count_blocks_range (drop n bs)). lia.
Qed.

(** The disk after a new file: the same blocks in use, the name in the directory. *)
Record created s (name : list Z) s' : Prop := {
  cr_mounted : mounted s';
  cr_superblock : superblock s' = superblock s;
  cr_refs : refs (disk s') = refs (disk s);
  cr_dir : dir s' = <[name := []]> (dir s);
}.

Lemma fs_create_ok s name :
  mounted s → name_arg name → (length (cstr name) < 64)%nat →
  dir s !! cstr name = None → (size (dir s) < 32)%nat →
  wp (fs_create name) s (λ r s' _, r = 0 ∧ created s (cstr name) s').
Proof.
  intros [Hok Hboot Hsp] Hname Hlen Hnew Hsize. eapply wp_mono; [by apply fs_create_spec|].
  intros r s' o (Hok' & Hsb' & Href' & Hsec & [(-> & _ & Hd')|(_ & _ & [Hs|Hall])]).
  - split; [done|]. constructor; [|done..].
    split; [exact Hok'|by eapply bootable_sector|]. unfold space_ok. by rewrite Hsb', Href'.
  - rewrite Hnew in Hs. by destruct Hs.
  - pose proof (dir_full s (ok_table _ Hok) Hall). lia.
Qed.

Lemma call_create s name :
  mounted s → name_arg name → (length (cstr name) < 64)%nat →
  wp (fs_run_call (CallCreate name)) s (λ r s' _,
    mounted s' ∧ spec_step (dir s) (CallCreate name) r (dir s')).
Proof.
  intros [Hok Hboot Hsp] Hname Hlen. simpl. wp_steps.
  eapply wp_mono; [apply fs_create_spec; assumption|].
  intros r s' o (Hok' & Hsb & Href & Hsec & Hr).
  assert (mounted s') as Hm.
  { split; [exact Hok'|by eapply bootable_sector|]. unfold space_ok. by rewrite Hsb, Href. }
  destruct Hr as [(-> & Hn & Hd)|(-> & Hd & Hwhy)]; wp_steps;
    (split; [exact Hm|]); rewrite Hd.
  - constructor; [exact Hn|]. pose proof (dir_size_le s' (ok_table _ Hok')) as Hle.
    rewrite Hd, map_size_insert_None in Hle by exact Hn. lia.
  - constructor. destruct Hwhy as [|Hall]; [by left|right].
    apply dir_full; [apply Hok|exact Hall].
Qed.

Lemma call_write s name data size :
  mounted s → call_ok (CallWrite name data size) →
  wp (fs_run_call (CallWrite name data size)) s (λ r s' _,
    mounted s' ∧ spec_step (dir s) (CallWrite name data size) r (dir s')).
Proof.
  intros [Hok Hboot Hsp] (Hname & Hdata & Hsize & Hlen). simpl. wp_steps.
  eapply wp_mono; [apply fs_write_spec; [exact Hok|exact Hname|exact Hdata|lia|lia]|].
  unfold space_ok in Hsp.
  intros r s' o [(-> & i & Hi & Hl & Hn & Hok' & Hsync & Hnb & _ & Hsb & Href & _ & Hd)|
                 (-> & Hok' & Hd & Href & Hsec & (k & Hk & Hsb) & _)]; wp_steps.
  - pose proof (blocks_needed_large size Hsize Hnb).
    split; [split; [exact Hok'|by apply synced_bootable|]|].
    { unfold space_ok. rewrite Hsb, Href. simpl.
      pose proof (count_blocks_range (take (Z.to_nat (blocks_needed size)) (blocks_at (disk s) i))).
      lia. }
    rewrite Hd, stored_contents by (assumption || lia). constructor; [|assumption].
    exists (contents (disk s) i). apply dir_lookup; [apply Hok|]. exists i. done.
  - split; [split; [exact Hok'|by eapply bootable_sector|]|].
    { unfold space_ok. rewrite Hsb, Href. simpl. lia. }
    rewrite Hd. constructor.
Qed.

Lemma call_delete s name :
  mounted s → name_arg name →
  wp (fs_run_call (CallDelete name)) s (λ r s' _,
    mounted s' ∧ spec_step (dir s) (CallDelete name) r (dir s')).
Proof.
  intros Hm Hname. pose proof Hm as [Hok Hboot Hsp]. simpl. wp_steps.
  eapply wp_mono; [by apply fs_delete_spec|]. unfold space_ok in Hsp.
  intros r s' o [(-> & Hok' & Hsync & Hn & Hd & i & Href & Hi & _ & _ & Hsb)|(-> & Hn & Hun)];
    wp_steps.
  - split; [split; [exact Hok'|by apply synced_bootable|]|rewrite Hd; by constructor].
    pose proof (count_blocks_range (blocks_at (disk s) i)).
    pose proof (refs_nonneg (disk s')). pose proof (sb_free _ (ok_sb _ Hok)) as Hf.
    unfold word_ok in Hf. unfold space_ok. rewrite Hsb. simpl. rewrite u32_small by lia. lia.
  - destruct (mounted_unchanged s s' Hm Hun) as [Hm' Hd]. split; [exact Hm'|].
    rewrite Hd. by constructor.
Qed.

Lemma call_read s name buf size :
  mounted s → call_ok (CallRead name buf size) →
  wp (fs_run_call (CallRead name buf size)) s (λ r s' _,
    mounted s' ∧ spec_step (dir s) (CallRead name buf size) r (dir s')).
Proof.
  intros Hm (Hname & Hsize & Hlen). simpl. wp_steps.
  eapply wp_mono; [apply fs_read_spec; [apply Hm|exact Hname|exact Hsize|exact Hlen]|].
  intros [r buf'] s' o (Hun & _ & Hr). wp_steps.
  destruct (mounted_eqv s s' Hm Hun) as [Hm' Hd]. split; [exact Hm'|].
  rewrite Hd. cbn [fst snd] in *. destruct (dir s !! cstr name) as [c|] eqn:E;
    destruct Hr as [-> ->]; by constructor.
Qed.

Lemma call_step s c :
  mounted s → call_ok c →
  wp (fs_run_call c) s (λ r s' _, mounted s' ∧ spec_step (dir s) c r (dir s')).
Proof.
  intros Hm Hc. destruct c as [name|name data size|name buf size|name|].
  - destruct Hc. by apply call_create.
  - by apply call_write.
  - by apply call_read.
  - by apply call_delete.
  - simpl. wp_steps. eapply wp_mono; [by apply fs_list_spec, Hm|].
    intros _ s' o (Hun & _). wp_steps.
    destruct (mounted_unchanged s s' Hm Hun) as [Hm' Hd]. split; [exact Hm'|].
    rewrite Hd. constructor.
Qed.

Lemma calls_run cs : ∀ s,
  mounted s → Forall call_ok cs →
  wp (fs_run_calls cs) s (λ rs s' _, mounted s' ∧ spec_run (dir s) cs rs (dir s')).
Proof.
  induction cs as [|c cs IH]; intros s Hm Hcs; simpl; wp_steps.
  - split; [exact Hm|constructor].
  - inversion Hcs as [|? ? Hc Hcs']; subst. eapply wp_mono; [by apply call_step|].
    intros r s1 o1 [Hm1 Hstep]. wp_steps. eapply wp_mono; [by apply IH|].
    intros rs s2 o2 [Hm2 Hrun]. wp_steps. split; [exact Hm2|]. by econstructor.
Qed.

Lemma formatted_mounted s : formatted s → mounted s.
Proof.
  intros (Hok & Hsync & Hd & Hsb). split; [exact Hok|by apply synced_bootable|].
  unfold space_ok. rewrite Hsb. simpl.
  assert (∀ i, 0 ≤ i < 32 → live (disk s) i = false) as Hdead.
  { intros i Hi. destruct (live (disk s) i) eqn:Hl; [|done]. exfalso.
    assert (dir s !! name_at (disk s) i = None) as Hn by (rewrite Hd; apply lookup_empty).
    rewrite dir_lookup_None in Hn by apply Hok. exact (Hn i Hi Hl eq_refl). }
  unfold refs. rewrite (foldr_add_ext (row_refs (disk s)) (λ _, 0)).
  - reflexivity.
  - intros i Hi%elem_of_seqZ. unfold row_refs. rewrite Hdead by lia. reflexivity.
Qed.

Lemma fresh_refs s : mounted s → superblock s = format_superblock → refs (disk s) = 0.
Proof.
  intros Hm Hsb. pose proof (mt_space _ Hm) as Hsp. unfold space_ok in Hsp. rewrite Hsb in Hsp. simpl in Hsp.
  pose proof (refs_nonneg (disk s)). lia.
Qed.

(** C3.  From a disk without an AshFS, [fs_init] followed by any sequence of
    calls with legal arguments returns, and the replies and the final
    directory are those of a run of the abstract file system that starts
    empty; the invariant of the file system holds at the end. *)
Theorem fs_fresh_disk_refines s cs :
  1057 ≤ dev_sectors ≤ 2 ^ 28 → dev_ok (disk s) →
  magic (disk_superblock (disk s)) ≠ FS_MAGIC → Forall call_ok cs →
  ∃ rs s' o, (fs_init;; fs_run_calls cs) s = Done rs s' o ∧
    mounted s' ∧ spec_run ∅ cs rs (dir s').
Proof.
  intros Hsz Hdev Hm Hcs. apply wp_done. wp_steps.
  eapply wp_mono; [by apply fs_init_spec|]. intros u s1 o1.
  rewrite (proj2 (Z.eqb_neq _ _) Hm). intros [Hf _].
  pose proof Hf as (_ & _ & Hd & _). rewrite <-Hd.
  eapply wp_mono; [by apply calls_run; [apply formatted_mounted|]|]. done.
Qed.

(** C4.  Power can be cut after any sequence of calls: mounting the disk again,
    with any contents of the kernel's memory, gives a file system with the
    same files, and the invariant holds again. *)
Theorem fs_reboot_preserves_files s cs sb :
  mounted s → Forall call_ok cs →
  ∃ rs s1 o1 s2 o2, fs_run_calls cs s = Done rs s1 o1 ∧
    fs_init (set_sb sb s1) = Done tt s2 o2 ∧
    fs_ok s2 ∧ bootable s2 ∧ dir s2 = dir s1 ∧ spec_run (dir s) cs rs (dir s2).
Proof.
  intros Hm Hcs.
  destruct (wp_done _ _ _ (calls_run cs s Hm Hcs)) as (rs & s1 & o1 & E1 & Hm1 & Hrun).
  pose proof (remounted_ok s1 (mt_ok _ Hm1) (mt_boot _ Hm1)) as Hre.
  pose proof (ok_size _ (mt_ok _ Hm1)) as Hsz.
  destruct (wp_done _ _ _ (fs_init_spec (set_sb sb s1) Hsz (ok_dev _ (mt_ok _ Hm1))))
    as ([] & s2 & o2 & E2 & H2).
  cbn [disk set_sb] in H2. rewrite (proj1 (mt_boot _ Hm1)), Z.eqb_refl in H2.
  destruct H2 as [He _].
  change (set_sb _ (set_sb sb s1)) with (set_sb (disk_superblock (disk s1)) s1) in He.
  pose proof (eqv_unchanged _ _ Hre He) as (Hok2 & _ & Hd & _ & Hsec).
  change (dir (set_sb _ s1)) with (dir s1) in Hd.
  exists rs, s1, o1, s2, o2. split; [exact E1|]. split; [exact E2|]. split; [exact Hok2|].
  split; [eapply bootable_sector; [apply (mt_boot _ Hm1)|exact Hsec]|].
  split; [exact Hd|]. by rewrite Hd.
Qed.

(** C14.  What [fs_write] stored, [fs_read] returns, for files of one block:
    after a successful write of at most 512 bytes a read of at least as many
    gives the bytes back, and every other file is as before. *)
Theorem fs_write_read_roundtrip s name data size buf n s1 o1 :
  mounted s → name_arg name → bytes_ok data → 0 ≤ size ≤ 512 →
  size ≤ Z.of_nat (length data) → fs_write name data size s = Done 0 s1 o1 →
  size ≤ n < 2 ^ 32 → n ≤ Z.of_nat (length buf) →
  (∃ s2 o2, fs_read name buf n s1
     = Done (size, take (Z.to_nat size) data ++ drop (Z.to_nat size) buf) s2 o2) ∧
  ∀ m, m ≠ cstr name → dir s1 !! m = dir s !! m.
Proof.
  intros Hm Hname Hdata Hsize Hlen E Hn Hbuf. pose proof (mt_ok _ Hm) as Hok.
  destruct (wp_done _ _ _ (fs_write_spec s name data size Hok Hname Hdata ltac:(lia) ltac:(lia)))
    as (r & s1' & o1' & E' & H). rewrite E in E'. injection E' as <- <- <-.
  destruct H as [(_ & i & _ & _ & _ & Hok1 & _ & _ & _ & _ & _ & _ & Hd)|[? _]]; [|done].
  rewrite stored_contents, spec_contents_one in Hd by (assumption || lia).
  split; [|intros m Hm'; rewrite Hd; apply lookup_insert_ne; congruence].
  destruct (wp_done _ _ _ (fs_read_spec s1 name buf n Hok1 Hname ltac:(lia) Hbuf))
    as ([r buf'] & s2 & o2 & E2 & _ & _ & H2).
  rewrite Hd, lookup_insert_eq in H2. cbn [fst snd] in H2.
  rewrite length_take in H2.
  replace (Z.to_nat n `min` (Z.to_nat size `min` length data))%nat
    with (Z.to_nat size) in H2 by lia.
  rewrite take_take, Nat.min_id in H2. destruct H2 as [-> ->].
  exists s2, o2. rewrite E2. do 2 f_equal. lia.
Qed.

(** Writing when there is room. *)
Lemma fs_write_ok s name data size c :
  mounted s → name_arg name → bytes_ok data → 0 ≤ size ≤ 16384 →
  size ≤ Z.of_nat (length data) → is_Some (dir s !! cstr name) →
  (size + 511) / 512 ≤ free_blocks (superblock s) →
  33 ≤ c < 1057 → ¬ referenced (disk s) c →
  ∃ s' o, fs_write name data size s = Done 0 s' o ∧ mounted s' ∧
    dir s' = <[cstr name := spec_contents data size]> (dir s) ∧
    free_blocks (superblock s') = free_blocks (superblock s) - (size + 511) / 512.
Proof.
  intros Hm Hname Hdata Hsize Hlen [x Hx] Hfree Hc Hnr. pose proof (mt_ok _ Hm) as Hok.
  assert (call_ok (CallWrite name data size)) as Hcall.
  { split; [exact Hname|]. split; [exact Hdata|]. lia. }
  destruct (wp_done _ _ _ (call_write s name data size Hm Hcall))
    as (rep & s1 & o1 & E1 & Hm1 & _).
  destruct (wp_done _ _ _ (fs_write_spec s name data size Hok Hname Hdata ltac:(lia) ltac:(lia)))
    as (r & s' & o & E & H).
  assert (s1 = s') as ->.
  { revert E1. simpl. unfold mbind, K_bind. rewrite E. intros H1. inversion H1. reflexivity. }
  rewrite <-blocks_needed_small in Hfree |- * by lia.
  destruct H as [(-> & i & _ & _ & _ & Hok1 & _ & _ & _ & Hsb & _ & _ & Hd)|(_ & _ & _ & _ & _ & _ & H)].
  - exists s', o. split; [exact E|]. split; [exact Hm1|]. split; [|by rewrite Hsb].
    by rewrite Hd, stored_contents by (assumption || lia).
  - exfalso. destruct H as [H|[H|[H|H]]]; [congruence| |lia|by apply Hnr, H].
    rewrite blocks_needed_small in H by lia. dlia.
Qed.

(** C15.  [fs_write] succeeds when it can: the file exists, the data fit 32
    blocks, the free-block counter covers them and the data area has a block
    no file uses. *)
Theorem fs_write_succeeds s name data size c :
  mounted s → name_arg name → bytes_ok data → 0 ≤ size ≤ 16384 →
  size ≤ Z.of_nat (length data) → is_Some (dir s !! cstr name) →
  (size + 511) / 512 ≤ free_blocks (superblock s) →
  33 ≤ c < 1057 → ¬ referenced (disk s) c →
  ∃ s' o, fs_write name data size s = Done 0 s' o ∧ mounted s' ∧
    dir s' = <[cstr name := spec_contents data size]> (dir s) ∧
    free_blocks (superblock s') = free_blocks (superblock s) - (size + 511) / 512.
Proof. apply fs_write_ok. Qed.

(** ** Where [fs_write] departs from the abstract file system *)

Lemma lookup_concat_replicate (x : list Z) (n j : nat) :
  length x = 512%nat → (j < 512 * n)%nat →
  concat (replicate n x) !! j = x !! (j mod 512)%nat.
Proof.
  intros Hx Hj. pose proof (Nat.div_mod_eq j 512) as Hdm.
  pose proof (Nat.mod_upper_bound j 512 ltac:(lia)) as Hmod.
  assert (slice (512 * (j / 512)) 512 (concat (replicate n x)) = x) as Hs.
  { apply slice_concat_sectors; [by apply Forall_replicate|]. apply lookup_replicate_2. lia. }
  rewrite <-Hs at 2. rewrite lookup_slice, <-Hdm by exact Hmod. reflexivity.
Qed.

(** C38.  A file longer than a block is not stored: after a successful write of
    513 to 16384 bytes, byte [j] of the file is byte [j mod 512] of the last
    chunk of the data, zero padded, for every [j]. *)
Theorem fs_write_repeats_last_chunk s name data size s' o :
  mounted s → name_arg name → bytes_ok data → 512 < size ≤ 16384 →
  size ≤ Z.of_nat (length data) → fs_write name data size s = Done 0 s' o →
  ∃ c, dir s' !! cstr name = Some c ∧ Z.of_nat (length c) = size ∧
    let last := (512 * (Z.to_nat ((size + 511) / 512) - 1))%nat in
    ∀ j, (Z.of_nat j < size) →
      c !! j = Some (if Z.of_nat (last + j mod 512) <? size
                     then nth (last + j mod 512) data 0 else 0).
Proof.
  intros Hm Hname Hdata Hsize Hlen E. pose proof (mt_ok _ Hm) as Hok.
  destruct (wp_done _ _ _ (fs_write_spec s name data size Hok Hname Hdata ltac:(lia) ltac:(lia)))
    as (r & s1' & o1' & E' & H). rewrite E in E'. injection E' as <- <- <-.
  destruct H as [(_ & i & _ & _ & _ & Hok1 & _ & _ & _ & _ & _ & _ & Hd)|[? _]]; [|done].
  rewrite stored_contents in Hd by (assumption || lia).
  exists (spec_contents data size). split; [rewrite Hd; apply lookup_insert_eq|].
  unfold spec_contents. set (n := Z.to_nat ((size + 511) / 512)). cbv zeta.
  assert (Z.of_nat (512 * (n - 1)) ≤ size ≤ Z.of_nat (512 * n) ∧ (0 < n)%nat) as (Hn1 & Hn0)
    by (unfold n; dlia).
  assert (length (concat (replicate n (chunk data size (n - 1)))) = (512 * n)%nat) as Hl
    by (apply length_repeat_chunk; [exact Hdata|lia|lia]).
  split; [rewrite length_take, Hl; lia|]. intros j Hj.
  rewrite lookup_take_lt by lia.
  destruct (chunk_ok data size (n - 1) Hdata) as [Hcl _]; [unfold chunk_len; lia|].
  rewrite lookup_concat_replicate by (exact Hcl || lia).
  pose proof (Nat.mod_upper_bound j 512 ltac:(lia)) as Hmod.
  revert Hmod. generalize (j mod 512)%nat as k. intros k Hk. unfold chunk.
  assert (length (slice (512 * (n - 1)) (chunk_len size (n - 1)) data)
          = chunk_len size (n - 1)) as Hsl.
  { apply length_slice. unfold chunk_len. lia. }
  destruct (Z.ltb_spec (Z.of_nat (512 * (n - 1) + k)) size) as [Hin|Hout].
  - assert (k < chunk_len size (n - 1))%nat as Hkc by (unfold chunk_len; lia).
    rewrite lookup_app_l by lia. rewrite lookup_slice by exact Hkc.
    destruct (lookup_lt_is_Some_2 data (512 * (n - 1) + k)) as [x Hx]; [lia|].
    rewrite Hx. f_equal. symmetry. by apply nth_lookup_Some.
  - assert (chunk_len size (n - 1) ≤ k)%nat as Hkc by (unfold chunk_len; lia).
    rewrite lookup_app_r, Hsl by lia. apply lookup_replicate_2. lia.
Qed.

Lemma live_row_unique s name i j :
  fs_ok s → 0 ≤ i < 32 → 0 ≤ j < 32 → live (disk s) i = true → live (disk s) j = true →
  name_at (disk s) i = cstr name → name_at (disk s) j = cstr name → i = j.
Proof. intros Hok Hi Hj Hli Hlj Hni Hnj. apply (tb_unique _ (ok_table _ Hok)); congruence. Qed.

(** The blocks of a new file come back: writing a file that has no blocks
    yet and deleting it restores the free-block counter. *)
Theorem fs_write_delete_restores_space s name data size i s1 o1 :
  mounted s → name_arg name → bytes_ok data → 0 ≤ size ≤ 2 ^ 32 - 512 →
  size ≤ Z.of_nat (length data) →
  0 ≤ i < 32 → live (disk s) i = true → name_at (disk s) i = cstr name →
  blocks_at (disk s) i = replicate 32 0 →
  fs_write name data size s = Done 0 s1 o1 →
  ∃ s2 o2, fs_delete name s1 = Done 0 s2 o2 ∧ superblock s2 = superblock s ∧
    dir s2 = delete (cstr name) (dir s).
Proof.
  intros Hm Hname Hdata Hsize Hlen Hi Hl Hn Hb E. pose proof Hm as [Hok _ Hsp].
  destruct (wp_done _ _ _ (fs_write_spec s name data size Hok Hname Hdata ltac:(lia) ltac:(lia)))
    as (r & s1' & o1' & E' & H). rewrite E in E'. injection E' as <- <- <-.
  destruct H as [(_ & j & Hj & Hlj & Hnj & Hok1 & _ & Hnb & Hf & Hsb & _ & (b & Hbr & Hrow) & Hd)
                |[? _]]; [|done].
  assert (j = i) as -> by (eapply (live_row_unique s); eassumption).
  destruct (wp_done _ _ _ (fs_delete_spec s1 name Hok1 Hname)) as (r & s2 & o2 & E2 & H2).
  destruct H2 as [(-> & _ & _ & _ & Hd2 & k & _ & Hk & Hlk & Hnk & Hsb2)|(_ & Hnone & _)].
  2: { rewrite Hd, lookup_insert_eq in Hnone. discriminate. }
  assert (k = i) as ->.
  { eapply (live_row_unique s1); try eassumption.
    - unfold live. rewrite Hrow. exact Hl.
    - unfold name_at. rewrite Hrow. exact Hn. }
  exists s2, o2. split; [exact E2|]. split.
  - assert (0 ≤ blocks_needed size) as Hnb0 by (unfold blocks_needed, BLOCK_SIZE, u32; dlia).
    pose proof (sb_free _ (ok_sb _ Hok)) as Hw. unfold word_ok in Hw.
    rewrite Hsb2, Hsb. unfold blocks_at in *. rewrite Hrow.
    cbn [written_inode set_size set_blocks i_blocks]. rewrite Hb, drop_replicate.
    rewrite count_blocks_app, count_blocks_replicate by lia.
    rewrite count_blocks_zeros. simpl. rewrite u32_small by lia.
    destruct (superblock s) as [? ? ? ? ? f]. simpl in *.
    unfold set_free. simpl. f_equal. lia.
  - rewrite Hd2, Hd. apply delete_insert_eq.
Qed.

(** Overwriting loses a block: rewriting a one-block file with 1 to 512
    bytes takes a block off the free-block counter, and the number of blocks
    the files use stays the same. *)
Theorem fs_overwrite_leaks s name data size s' o i b :
  mounted s → name_arg name → bytes_ok data → 0 < size ≤ 512 →
  size ≤ Z.of_nat (length data) →
  0 ≤ i < 32 → live (disk s) i = true → name_at (disk s) i = cstr name →
  blocks_at (disk s) i !! 0%nat = Some b → b ≠ 0 →
  fs_write name data size s = Done 0 s' o →
  free_blocks (superblock s') = free_blocks (superblock s) - 1 ∧
  refs (disk s') = refs (disk s).
Proof.
  intros Hm Hname Hdata Hsize Hlen Hi Hl Hn Hb Hb0 E. pose proof (mt_ok _ Hm) as Hok.
  assert (blocks_needed size = 1) as Hone by (rewrite blocks_needed_small by lia; dlia).
  destruct (wp_done _ _ _ (fs_write_spec s name data size Hok Hname Hdata ltac:(lia) ltac:(lia)))
    as (r & s1' & o1' & E' & H). rewrite E in E'. injection E' as <- <- <-.
  destruct H as [(_ & j & Hj & Hlj & Hnj & _ & _ & _ & _ & Hsb & Href & _)|[? _]]; [|done].
  assert (j = i) as -> by (eapply (live_row_unique s); eassumption).
  rewrite Hone in Hsb, Href. split; [by rewrite Hsb|]. rewrite Href.
  change (Z.to_nat 1) with 1%nat. destruct (blocks_at (disk s) i) as [|b' bs]; [done|].
  simpl in Hb. injection Hb as ->. change (take 1 (b :: bs)) with ([] ++ [b]).
  rewrite count_blocks_snoc. destruct (Z.eqb_spec b 0); [done|].
  change (count_blocks []) with 0. lia.
Qed.

(** A size within 511 of 2^32 rounds to no block at all: [fs_write] of an
    existing file returns 0, whatever the data, allocates nothing and leaves
    the file showing all its old blocks. *)
Theorem fs_write_size_wraps s name data size i :
  mounted s → name_arg name → bytes_ok data → 2 ^ 32 - 511 ≤ size < 2 ^ 32 →
  0 ≤ i < 32 → live (disk s) i = true → name_at (disk s) i = cstr name →
  ∃ s' o, fs_write name data size s = Done 0 s' o ∧ superblock s' = superblock s ∧
    i_size (inode_at (disk s') i) = size ∧
    dir s' = <[cstr name := all_bytes (disk s) (inode_at (disk s) i)]> (dir s).
Proof.
  intros Hm Hname Hdata Hsize Hi Hl Hn. pose proof (mt_ok _ Hm) as Hok.
  assert (blocks_needed size = 0) as Hzero by (unfold blocks_needed, BLOCK_SIZE, u32; dlia).
  destruct (wp_done _ _ _ (fs_write_spec s name data size Hok Hname Hdata ltac:(lia) ltac:(lia)))
    as (r & s' & o & E & H).
  pose proof (sb_free _ (ok_sb _ Hok)) as Hf. unfold word_ok in Hf.
  destruct H as [(-> & j & Hj & Hlj & Hnj & _ & _ & _ & _ & Hsb & _ & (b & _ & Hrow) & Hd)|
                 (_ & _ & _ & _ & _ & _ & H)].
  - assert (j = i) as -> by (eapply (live_row_unique s); eassumption).
    rewrite Hzero in Hsb, Hrow. exists s', o. split; [exact E|].
    split; [rewrite Hsb, Z.sub_0_r; by destruct (superblock s)|].
    split; [by rewrite Hrow|]. rewrite Hd. f_equal. unfold stored. rewrite Hzero.
    change (Z.to_nat 0) with 0%nat. rewrite drop_0.
    set (full := all_bytes (disk s) (inode_at (disk s) i)).
    change (take (Z.to_nat size) full = full). apply take_ge. unfold full.
    pose proof (length_all_bytes (disk s) (inode_at (disk s) i) (ok_dev _ Hok)) as Hlen.
    pose proof (ok_size _ Hok) as Hsz. assert (1057 ≤ dev_sectors) as Hsz' by lia.
    rewrite Hlen.
    + pose proof (cstr_le_length (i_blocks (inode_at (disk s) i))) as Hc.
      destruct (wp_done _ _ _ (inode_read_spec Hsz' s i (ok_dev _ Hok) Hi))
        as (? & ? & ? & _ & _ & -> & Hino & _).
      rewrite (proj1 (in_blocks _ Hino)) in Hc. lia.
    + eapply live_blocks_readable; [exact Hsz'|apply Hok|exact Hi|exact Hl].
  - exfalso. destruct H as [H|[H|[H|[H _]]]]; [|lia|lia|lia].
    rewrite dir_lookup_None in H by apply Hok. by apply (H i).
Qed.

(** A name of 64 characters or more is cut: [fs_create] returns 0 and makes
    a file under the first 63 characters, which a lookup of the name that was
    given does not find. *)
Theorem fs_create_long_name s name :
  mounted s → name_arg name → (64 ≤ length (cstr name))%nat → (size (dir s) < 32)%nat →
  ∃ s' o i, fs_create name s = Done 0 s' o ∧ 0 ≤ i < 32 ∧
    live (disk s') i = true ∧ name_at (disk s') i = take 63 (cstr name) ∧
    ∃ s'', inode_find name s' = Done (-1) s'' [].
Proof.
  intros Hm Hname Hlong Hroom. pose proof (mt_ok _ Hm) as Hok.
  pose proof (ok_size _ Hok) as Hsz. assert (1057 ≤ dev_sectors) as Hsz' by lia.
  assert (∀ i, 0 ≤ i < 32 → (length (name_at (disk s) i) < 64)%nat ∨ live (disk s) i = false)
    as Hshort.
  { intros i Hi. destruct (live (disk s) i) eqn:Hl; [left|by right].
    pose proof (cstr_length _ (tb_name _ (ok_table _ Hok) i Hi Hl)) as Hc.
    destruct (wp_done _ _ _ (inode_read_spec Hsz' s i (ok_dev _ Hok) Hi))
      as (? & ? & ? & _ & _ & -> & Hino & _).
    rewrite (proj1 (in_name _ Hino)) in Hc. exact Hc. }
  destruct (wp_done _ _ _ (fs_create_runs s name Hok Hname)) as (r & s' & o & E & Hout).
  destruct Hout as [s' _ [y Hfound]|s' _ Hall|i n s2 s' Hs _ Hi _ Hln Hbn Htn Hcn _ Hdev Hrow2 _].
  { exfalso. apply dir_lookup in Hfound as (i & Hi & Hl & Hn & _); [|apply (ok_table _ Hok)].
    destruct (Hshort i Hi) as [H|H]; [rewrite Hn in H; lia|congruence]. }
  { exfalso. rewrite (dir_full s (ok_table _ Hok) Hall) in Hroom. lia. }
  assert (row_set (disk s) (disk s') i (new_entry n)) as Hrow.
  { intros j Hj. rewrite Hrow2 by exact Hj. by rewrite (same_inode_at Hsz' (disk s) (disk s2)) by (apply Hs || exact Hj). }
  exists s', o, i. split; [exact E|]. split; [exact Hi|].
  pose proof (row_self _ _ _ _ Hi Hrow) as Hself.
  split; [unfold live; by rewrite Hself|].
  split; [unfold name_at; rewrite Hself; exact Hcn|].
  assert (∀ j, 0 ≤ j < 32 → live (disk s') j = true →
    terminated (i_name (inode_at (disk s') j)) ∧ (length (name_at (disk s') j) < 64)%nat) as Hnames.
  { intros j Hj. destruct (Z.eq_dec j i) as [->|Hne].
    - intros _. unfold name_at. rewrite Hself. cbn [new_entry set_used set_size set_name i_name].
      split; [exact Htn|]. rewrite Hcn, length_take. lia.
    - intros Hl. rewrite (row_live _ _ _ _ Hrow) in Hl by assumption.
      rewrite (row_name _ _ _ _ Hrow), (row_other _ _ _ _ Hrow) by assumption.
      split; [by apply (tb_name _ (ok_table _ Hok))|].
      destruct (Hshort j Hj) as [H|H]; [exact H|congruence]. }
  destruct Hname as [Hb Hn].
  destruct (wp_done _ _ _ (inode_find_spec Hsz' s' name Hdev (λ j Hj Hl, proj1 (Hnames j Hj Hl)) Hb Hn))
    as (r & s'' & o' & E2 & -> & _ & [(Hr & Hl & Hnr)|[-> _]]); [|by exists s''].
  exfalso. destruct (Hnames r Hr Hl) as [_ H]. rewrite Hnr in H. lia.
Qed.

(** [fs_list] prints the three header lines and then one line per live
    inode, in the order of the table, or the line that there are none; no file
    changes. *)
Theorem fs_list_prints s :
  mounted s →
  ∃ s', fs_list s = Done tt s'
    ([EvPrintf "\nFiles on AshFS:\n" [];
      EvPrintf "Name                             Size\n" [];
      EvPrintf "----                             ----\n" []] ++
     map (list_row (disk s)) (live_rows (disk s) 32) ++
     (if decide (live_rows (disk s) 32 = []) then [EvPrintf "(no files)\n" []] else [])) ∧
    mounted s' ∧ dir s' = dir s.
Proof.
  intros Hm. destruct (wp_done _ _ _ (fs_list_spec s (mt_ok _ Hm))) as ([] & s' & o & E & Hun & ->).
  exists s'. split; [exact E|]. by apply mounted_unchanged.
Qed.
End thms.
