(* ===== verification/FsWitness.v ===== *)
(** * The file system theorems at concrete disks

    Each theorem of FsThms.v with hypotheses, applied on the ideal disk of Disk.v
    to states reached by running the model: a formatted disk, the disk with an
    empty file, the disk with a one-block file. *)

From S2P Require Import Prelude Bytes Disk Fs FsCodec FsView FsOps FsDir FsSpec FsRead FsWrite FsBoot FsThms.

(** ** The disks *)

Definition ram_off : fs ram_disk := Fs zero_superblock ram_blank.
Definition ram0 : fs ram_disk := final ram_off (fs_init ram_off).

Definition name_a : list Z := [97; 0].
Definition hi : list Z := [104; 105].

Lemma name_a_arg : name_arg name_a.
Proof.
  split; [repeat constructor; unfold byte_ok; lia|]. apply list_elem_of_further, list_elem_of_here.
Qed.
Lemma hi_bytes : bytes_ok hi.
Proof. repeat constructor; unfold byte_ok; lia. Qed.

Definition setup : list fs_call := [CallCreate name_a].
Definition ram1 : fs ram_disk := final ram0 (fs_create name_a ram0).
Definition ram2 : fs ram_disk := final ram1 (fs_write name_a hi 2 ram1).

Lemma ram_off_ok : dev_ok (disk ram_off).
Proof. apply map_Forall_empty. Qed.

Lemma ram0_formatted : formatted ram0.
Proof.
  assert (1057 ≤ dev_sectors ≤ 2 ^ 28) as Hsz by (simpl; lia).
  destruct (wp_done _ _ _ (fs_init_spec ram_off Hsz ram_off_ok)) as (u & s' & o & E & H).
  unfold ram0. rewrite E. cbn [final].
  assert ((magic (disk_superblock (disk ram_off)) =? FS_MAGIC) = false) as Hm by reflexivity.
  rewrite Hm in H. apply H.
Qed.

Lemma ram0_mounted : mounted ram0.
Proof. apply formatted_mounted, ram0_formatted. Qed.

Lemma ram0_empty : dir ram0 = ∅ ∧ superblock ram0 = format_superblock ∧ refs (disk ram0) = 0.
Proof.
  pose proof ram0_formatted as (_ & _ & Hd & Hsb). split; [exact Hd|]. split; [exact Hsb|].
  by apply fresh_refs; [apply ram0_mounted|].
Qed.

Lemma setup_ok : Forall call_ok setup.
Proof. constructor; [split; [apply name_a_arg|simpl; lia]|constructor]. Qed.

(** The disk with one empty file. *)
Lemma create_spec name :
  name_arg name → (length (cstr name) < 64)%nat →
  let s' := final ram0 (fs_create name ram0) in
  mounted s' ∧ dir s' = {[cstr name := []]} ∧ superblock s' = format_superblock ∧ refs (disk s') = 0.
Proof.
  intros Hname Hlen. destruct ram0_empty as (Hd & Hsb & Href).
  destruct (wp_done _ _ _ (fs_create_ok ram0 name ram0_mounted Hname Hlen
    ltac:(by rewrite Hd, lookup_empty) ltac:(rewrite Hd, map_size_empty; lia)))
    as (r & s' & o & E & _ & [Hm' Hsb' Href' Hd']).
  rewrite E. cbn [final]. split; [exact Hm'|]. split; [by rewrite Hd', Hd|]. split; congruence.
Qed.

Lemma ram1_spec :
  mounted ram1 ∧ dir ram1 = {[[97] := []]} ∧ superblock ram1 = format_superblock ∧
  refs (disk ram1) = 0.
Proof. apply (create_spec name_a name_a_arg). simpl. lia. Qed.

#[local] Opaque ram0 ram1.

Lemma ram1_mounted : mounted ram1.
Proof. apply ram1_spec. Qed.

(** The row of a file, with no blocks when nothing is in use. *)
Lemma row_of {D} {O : BlockOps D} {B : BlockDevice D} (s : fs D) name c :
  mounted s → dir s !! cstr name = Some c →
  ∃ i, 0 ≤ i < 32 ∧ live (disk s) i = true ∧ name_at (disk s) i = cstr name.
Proof.
  intros Hm Hc. apply dir_lookup in Hc; [|apply Hm].
  destruct Hc as (i & Hi & Hl & Hn & _). by exists i.
Qed.

Lemma no_refs_row {D} {O : BlockOps D} {B : BlockDevice D} (s : fs D) i :
  mounted s → refs (disk s) = 0 → 0 ≤ i < 32 → live (disk s) i = true →
  blocks_at (disk s) i = replicate 32 0.
Proof.
  intros Hm Href Hi Hl. pose proof (mt_ok _ Hm) as Hok. pose proof (ok_size _ Hok) as Hsz.
  assert (row_refs (disk s) i = 0) as Hrow.
  { pose proof (row_refs_le (disk s) i Hi). pose proof (row_refs_nonneg (disk s) i). lia. }
  rewrite row_refs_live in Hrow by exact Hl. unfold count_blocks in Hrow.
  assert (length (filter (λ b, b ≠ 0) (blocks_at (disk s) i)) = 0%nat) as Hlen by lia.
  apply length_zero_iff_nil in Hlen. symmetry. apply replicate_as_Forall. split.
  - assert (1057 ≤ dev_sectors) as Hsz' by lia.
    destruct (wp_done _ _ _ (inode_read_spec Hsz' s i (ok_dev _ Hok) Hi))
      as (? & ? & ? & _ & _ & -> & Hino & _). apply Hino.
  - apply Forall_forall. intros b Hb. destruct (Z.eq_dec 0 b) as [|Hb0]; [done|].
    exfalso. apply (filter_nil_not_elem_of _ _ b Hlen); [congruence|exact Hb].
Qed.

(** Writing on a disk with one file and enough room succeeds. *)
Lemma write_done_0 {D} {O : BlockOps D} {B : BlockDevice D} (s : fs D) name data size c :
  mounted s → name_arg name → bytes_ok data → 0 ≤ size ≤ 16384 →
  size ≤ Z.of_nat (length data) → is_Some (dir s !! cstr name) →
  (size + 511) / 512 ≤ free_blocks (superblock s) →
  33 ≤ c < 1057 → ¬ referenced (disk s) c →
  let s' := final s (fs_write name data size s) in
  ∃ o, fs_write name data size s = Done 0 s' o ∧
    ∃ i, 0 ≤ i < 32 ∧ live (disk s) i = true ∧ name_at (disk s) i = cstr name ∧
      write_committed s name data size i s'.
Proof.
  intros Hm Hname Hdata Hsize Hlen [x Hx] Hfree Hc Hnr.
  destruct (wp_done _ _ _ (fs_write_spec s name data size (mt_ok _ Hm) Hname Hdata ltac:(lia) ltac:(lia)))
    as (r & s' & o & E & H). rewrite E. cbn [final]. exists o.
  destruct H as [(-> & H)|(_ & _ & _ & _ & _ & _ & H)]; [split; [reflexivity|exact H]|exfalso].
  rewrite blocks_needed_small in H by lia.
  destruct H as [H|[H|[H|[_ H]]]]; [congruence|dlia|lia|by apply Hnr, H].
Qed.

Lemma refs_0_unreferenced {D} {O : BlockOps D} {B : BlockDevice D} (s : fs D) c :
  mounted s → refs (disk s) = 0 → c ≠ 0 → ¬ referenced (disk s) c.
Proof.
  intros Hm Href Hc (i & Hi & Hl & Hin). rewrite (no_refs_row s i) in Hin by assumption.
  by apply elem_of_replicate in Hin as [-> _].
Qed.

Lemma write_ram1 data size :
  bytes_ok data → 0 ≤ size ≤ 16384 → size ≤ Z.of_nat (length data) →
  let s' := final ram1 (fs_write name_a data size ram1) in
  ∃ o, fs_write name_a data size ram1 = Done 0 s' o ∧
    ∃ i, 0 ≤ i < 32 ∧ live (disk ram1) i = true ∧ name_at (disk ram1) i = cstr name_a ∧
      write_committed ram1 name_a data size i s'.
Proof.
  intros Hdata Hsize Hlen. destruct ram1_spec as (Hm & Hd & Hsb & Href).
  apply (write_done_0 ram1 name_a data size 33); try assumption.
  - apply name_a_arg.
  - rewrite Hd. exists []. apply lookup_singleton_eq.
  - rewrite Hsb. clear - Hsize. simpl. dlia.
  - lia.
  - by apply refs_0_unreferenced.
Qed.

Lemma ram1_row :
  ∃ i, 0 ≤ i < 32 ∧ live (disk ram1) i = true ∧ name_at (disk ram1) i = cstr name_a ∧
    blocks_at (disk ram1) i = replicate 32 0.
Proof.
  destruct ram1_spec as (Hm & Hd & Hsb & Href).
  destruct (row_of ram1 name_a [] Hm) as (i & Hi & Hl & Hn).
  { rewrite Hd. apply lookup_singleton_eq. }
  exists i. split; [exact Hi|]. split; [exact Hl|]. split; [exact Hn|].
  by apply no_refs_row.
Qed.

(** A disk with one file of at most a block. *)
Lemma disk_with_file {D} {O : BlockOps D} {B : BlockDevice D} (s : fs D) name data :
  mounted s → superblock s = format_superblock → dir s = ∅ →
  name_arg name → (length (cstr name) < 64)%nat → bytes_ok data → Z.of_nat (length data) ≤ 512 →
  ∃ s', mounted s' ∧ dir s' !! cstr name = Some (spec_contents data (Z.of_nat (length data))).
Proof.
  intros Hm Hsb Hd Hname Hlen Hdata Hsize.
  destruct (wp_done _ _ _ (fs_create_ok s name Hm Hname Hlen
    ltac:(by rewrite Hd, lookup_empty) ltac:(rewrite Hd, map_size_empty; lia)))
    as (r1 & f1 & o1 & _ & _ & [Hm1 Hsb1 Href1 Hd1]).
  rewrite (fresh_refs s Hm Hsb) in Href1. rewrite Hsb in Hsb1. rewrite Hd in Hd1.
  destruct (fs_write_ok f1 name data (Z.of_nat (length data)) 33) as (f2 & o2 & _ & Hm2 & Hd2 & _);
    [exact Hm1|exact Hname|exact Hdata|lia|lia| | |lia| |].
  - rewrite Hd1. exists []. apply lookup_insert_eq.
  - rewrite Hsb1. cbn [format_superblock free_blocks]. dlia.
  - apply refs_0_unreferenced; [exact Hm1|exact Href1|lia].
  - exists f2. split; [exact Hm2|]. rewrite Hd2. apply lookup_insert_eq.
Qed.

(** ** The witnesses *)

Lemma fs_fresh_disk_refines_witness :
  ∃ rs s' o, (fs_init;; fs_run_calls setup) ram_off = Done rs s' o ∧
    mounted s' ∧ spec_run ∅ setup rs (dir s').
Proof.
  apply (fs_fresh_disk_refines ram_off setup);
    [simpl; lia|apply ram_off_ok|vm_compute; discriminate|apply setup_ok].
Defined.

Lemma fs_reboot_preserves_files_witness :
  ∃ rs s1 o1 s2 o2, fs_run_calls setup ram0 = Done rs s1 o1 ∧
    fs_init (set_sb zero_superblock s1) = Done tt s2 o2 ∧
    fs_ok s2 ∧ bootable s2 ∧ dir s2 = dir s1 ∧ spec_run (dir ram0) setup rs (dir s2).
Proof.
  apply (fs_reboot_preserves_files ram0 setup zero_superblock);
    [apply ram0_mounted|apply setup_ok].
Defined.

Lemma fs_write_read_roundtrip_witness :
  (∃ s2 o2, fs_read name_a (replicate 4 0) 4 ram2 = Done (2, [104; 105; 0; 0]) s2 o2) ∧
  ∀ m, m ≠ [97] → dir ram2 !! m = dir ram1 !! m.
Proof.
  destruct (write_ram1 hi 2) as (o & E & _); [apply hi_bytes|lia|simpl; lia|].
  apply (fs_write_read_roundtrip ram1 name_a hi 2 (replicate 4 0) 4 ram2 o);
    [apply ram1_mounted|apply name_a_arg|apply hi_bytes|lia|simpl; lia
    |exact E|lia|rewrite length_replicate; lia].
Defined.

Lemma fs_write_succeeds_witness :
  ∃ s' o, fs_write name_a hi 2 ram1 = Done 0 s' o ∧ mounted s' ∧
    dir s' = <[cstr name_a := spec_contents hi 2]> (dir ram1) ∧
    free_blocks (superblock s') = free_blocks (superblock ram1) - (2 + 511) / 512.
Proof.
  destruct ram1_spec as (Hm & Hd & Hsb & Href).
  apply (fs_write_succeeds ram1 name_a hi 2 33);
    [exact Hm|apply name_a_arg|apply hi_bytes|lia|simpl; lia
    |rewrite Hd; exists []; apply lookup_singleton_eq
    |rewrite Hsb; vm_compute; discriminate|lia|by apply refs_0_unreferenced].
Defined.

(** 600 bytes: a block of 'A' and 88 bytes of 'B'. *)
Definition two_blocks : list Z := replicate 512 65 ++ replicate 88 66.

Lemma two_blocks_bytes : bytes_ok two_blocks.
Proof. apply Forall_app. split; apply Forall_replicate; unfold byte_ok; lia. Qed.

(** The file reads back as 88 bytes of 'B', zeros, and 88 bytes of 'B' again. *)
Lemma fs_write_repeats_last_chunk_witness :
  ∃ c, dir (final ram1 (fs_write name_a two_blocks 600 ram1)) !! cstr name_a = Some c ∧
    Z.of_nat (length c) = 600 ∧
    let last := (512 * (Z.to_nat ((600 + 511) / 512) - 1))%nat in
    ∀ j, Z.of_nat j < 600 →
      c !! j = Some (if Z.of_nat (last + j mod 512) <? 600
                     then nth (last + j mod 512) two_blocks 0 else 0).
Proof.
  assert (600 ≤ Z.of_nat (length two_blocks)) as Hlen by (vm_compute; discriminate).
  destruct (write_ram1 two_blocks 600) as (o & E & _); [apply two_blocks_bytes|lia|exact Hlen|].
  apply (fs_write_repeats_last_chunk ram1 name_a two_blocks 600
           (final ram1 (fs_write name_a two_blocks 600 ram1)) o);
    [apply ram1_mounted|apply name_a_arg|apply two_blocks_bytes|lia|exact Hlen|exact E].
Defined.

Lemma fs_write_delete_restores_space_witness :
  ∃ s2 o2, fs_delete name_a ram2 = Done 0 s2 o2 ∧ superblock s2 = superblock ram1 ∧
    dir s2 = delete (cstr name_a) (dir ram1).
Proof.
  destruct (write_ram1 hi 2) as (o & E & _); [apply hi_bytes|lia|simpl; lia|].
  destruct ram1_row as (i & Hi & Hl & Hn & Hb).
  apply (fs_write_delete_restores_space ram1 name_a hi 2 i ram2 o);
    [apply ram1_mounted|apply name_a_arg|apply hi_bytes|lia|simpl; lia|exact Hi|exact Hl
    |exact Hn|exact Hb|exact E].
Defined.

(** The disk with one file of one block. *)
Lemma one_block_spec {D} {O : BlockOps D} {B : BlockDevice D} (s s' : fs D) i :
  superblock s = format_superblock → refs (disk s) = 0 → dir s = {[[97] := []]} →
  live (disk s) i = true → name_at (disk s) i = cstr name_a →
  blocks_at (disk s) i = replicate 32 0 → write_committed s name_a hi 2 i s' →
  mounted s' ∧ live (disk s') i = true ∧ name_at (disk s') i = cstr name_a ∧
  (∃ b, 33 ≤ b < 1057 ∧ blocks_at (disk s') i = b :: replicate 31 0) ∧
  (∃ x, dir s' = {[[97] := x]}) ∧ free_blocks (superblock s') = 1023.
Proof.
  intros Hsb Href1 Hd Hl Hn Hb (Hok & Hsync & _ & _ & Hsb2 & Href & (b & Hbr & Hrow) & Hd2).
  split.
  - split; [exact Hok|exact (synced_bootable _ Hok Hsync)|]. unfold space_ok.
    rewrite Hsb2, Href, Hsb, Href1, Hb. vm_compute. discriminate.
  - split; [unfold live; rewrite Hrow; exact Hl|].
    split; [unfold name_at; rewrite Hrow; exact Hn|]. split; [|split].
    + exists b. split; [exact Hbr|]. unfold blocks_at in *. rewrite Hrow.
      cbn [written_inode set_size set_blocks i_blocks]. rewrite Hb. reflexivity.
    + rewrite Hd2, Hd. eexists. apply insert_singleton_eq.
    + rewrite Hsb2, Hsb. reflexivity.
Qed.

Lemma single_file_unreferenced {D} {O : BlockOps D} {B : BlockDevice D} (s : fs D) name x i b c :
  mounted s → dir s = {[cstr name := x]} → 0 ≤ i < 32 → live (disk s) i = true →
  name_at (disk s) i = cstr name → blocks_at (disk s) i = b :: replicate 31 0 →
  c ≠ b → c ≠ 0 → ¬ referenced (disk s) c.
Proof.
  intros Hm Hd Hi Hl Hn Hbl Hcb Hc0 (j & Hj & Hlj & Hin).
  assert (name_at (disk s) j = cstr name) as Hnj.
  { assert (dir s !! name_at (disk s) j = Some (contents (disk s) j)) as Hlook.
    { apply dir_lookup; [apply Hm|]. by exists j. }
    rewrite Hd in Hlook. by apply lookup_singleton_Some in Hlook as [<- _]. }
  rewrite (live_row_unique s name j i (mt_ok _ Hm) Hj Hi Hlj Hl Hnj Hn), Hbl in Hin.
  apply elem_of_cons in Hin as [Heq|Hin]; [exact (Hcb Heq)|].
  apply elem_of_replicate in Hin as [-> _]. exact (Hc0 eq_refl).
Qed.

Lemma ram2_spec :
  mounted ram2 ∧ ∃ i, 0 ≤ i < 32 ∧ live (disk ram2) i = true ∧
    name_at (disk ram2) i = cstr name_a ∧
    (∃ b, 33 ≤ b < 1057 ∧ blocks_at (disk ram2) i = b :: replicate 31 0) ∧
    (∃ x, dir ram2 = {[[97] := x]}) ∧ free_blocks (superblock ram2) = 1023.
Proof.
  destruct (write_ram1 hi 2) as (o & _ & i & Hi & Hl & Hn & H);
    [apply hi_bytes|lia|simpl; lia|].
  destruct ram1_spec as (Hm & Hd & Hsb & Href).
  destruct (one_block_spec ram1 ram2 i Hsb Href Hd Hl Hn (no_refs_row ram1 i Hm Href Hi Hl) H)
    as (H1 & H2).
  split; [exact H1|]. exists i. split; [exact Hi|exact H2].
Qed.

#[local] Opaque ram2.

Lemma fs_overwrite_leaks_witness :
  free_blocks (superblock (final ram2 (fs_write name_a hi 2 ram2)))
    = free_blocks (superblock ram2) - 1 ∧
  refs (disk (final ram2 (fs_write name_a hi 2 ram2))) = refs (disk ram2).
Proof.
  destruct ram2_spec as (Hm & i & Hi & Hl & Hn & (b & Hb & Hbl) & (x & Hd) & Hf).
  assert (∃ c, 33 ≤ c < 1057 ∧ c ≠ b) as (c & Hc & Hcb).
  { destruct (Z.eq_dec b 33); [exists 34|exists 33]; lia. }
  destruct (write_done_0 ram2 name_a hi 2 c) as (o & E & _);
    [exact Hm|apply name_a_arg|apply hi_bytes|lia|simpl; lia
    |rewrite Hd; exists x; apply lookup_singleton_eq|rewrite Hf; vm_compute; discriminate
    |exact Hc| |].
  - apply (single_file_unreferenced ram2 name_a x i b c Hm Hd Hi Hl Hn Hbl Hcb).
    clear - Hc. lia.
  - apply (fs_overwrite_leaks ram2 name_a hi 2 _ o i b);
      [exact Hm|apply name_a_arg|apply hi_bytes|lia|simpl; lia|exact Hi|exact Hl|exact Hn
      |rewrite Hbl; reflexivity|clear - Hb; lia|exact E].
Defined.

Lemma fs_write_size_wraps_witness :
  ∃ i s' o, fs_write name_a [] 4294967295 ram1 = Done 0 s' o ∧
    superblock s' = superblock ram1 ∧ i_size (inode_at (disk s') i) = 4294967295 ∧
    dir s' = <[cstr name_a := all_bytes (disk ram1) (inode_at (disk ram1) i)]> (dir ram1).
Proof.
  destruct ram1_row as (i & Hi & Hl & Hn & _). exists i.
  apply (fs_write_size_wraps ram1 name_a [] 4294967295 i);
    [apply ram1_mounted|apply name_a_arg|constructor|lia|exact Hi|exact Hl|exact Hn].
Defined.

Definition long_name : list Z := with_nul (replicate 64 97).

Lemma long_name_arg : name_arg long_name.
Proof.
  split; [|apply terminated_with_nul]. apply Forall_app.
  split; [apply Forall_replicate|constructor; [|constructor]]; unfold byte_ok; lia.
Qed.

Lemma fs_create_long_name_witness :
  ∃ s' o i, fs_create long_name ram0 = Done 0 s' o ∧ 0 ≤ i < 32 ∧
    live (disk s') i = true ∧ name_at (disk s') i = take 63 (cstr long_name) ∧
    ∃ s'', inode_find long_name s' = Done (-1) s'' [].
Proof.
  apply (fs_create_long_name ram0 long_name);
    [apply ram0_mounted|apply long_name_arg|vm_compute; lia
    |rewrite (proj1 ram0_empty), map_size_empty; lia].
Defined.

Lemma fs_list_prints_witness :
  ∃ s', fs_list ram1 = Done tt s'
    ([EvPrintf "\nFiles on AshFS:\n" [];
      EvPrintf "Name                             Size\n" [];
      EvPrintf "----                             ----\n" []] ++
     map (list_row (disk ram1)) (live_rows (disk ram1) 32) ++
     (if decide (live_rows (disk ram1) 32 = []) then [EvPrintf "(no files)\n" []] else [])) ∧
    mounted s' ∧ dir s' = dir ram1.
Proof. apply (fs_list_prints ram1), ram1_mounted. Defined.

(** The file with 600 bytes. *)
Definition ram3 : fs ram_disk := final ram1 (fs_write name_a two_blocks 600 ram1).

Lemma ram3_spec :
  mounted ram3 ∧ dir ram3 !! [97] = Some (spec_contents two_blocks 600).
Proof.
  destruct ram1_spec as (Hm & Hd & Hsb & Href).
  assert (600 ≤ Z.of_nat (length two_blocks)) as Hlen by (vm_compute; discriminate).
  destruct (fs_write_ok ram1 name_a two_blocks 600 33) as (s' & o & E & Hm' & Hd' & _);
    [exact Hm|apply name_a_arg|apply two_blocks_bytes|lia|exact Hlen| | |lia| |].
  - rewrite Hd. exists []. apply lookup_singleton_eq.
  - rewrite Hsb. vm_compute. discriminate.
  - apply refs_0_unreferenced; [exact Hm|exact Href|lia].
  - unfold ram3. rewrite E. cbn [final]. split; [exact Hm'|]. rewrite Hd'. apply lookup_insert_eq.
Qed.
