(* ===== verification/Mkdisk.v ===== *)
(** * The host tool that puts a file on a disk image: tools/mkdisk.c

    [main] of the tool over the image as a block device ([fseek], [fread] and
    [fwrite] of whole sectors).  The tool and the kernel must agree on the layout:
    the theorems of MkdiskThms.v go through the kernel's own definitions. *)

From S2P Require Import Prelude Bytes Disk Fs.

Definition SECTOR_SIZE : Z := 512.

(** C's [strncpy(dst, src, n)]: the string, cut at [n], and zeros up to [n]. *)
Definition strncpy (dst src : list Z) (n : nat) : list Z :=
  let s := take n (cstr src) in s ++ replicate (n - length s) 0 ++ drop n dst.

(** "set up new inode". *)
Definition new_inode (dst_name : list Z) (file_size : Z) : inode_t :=
  set_used 1 (set_size file_size
    (set_name (strncpy (i_name zero_inode) dst_name 63) zero_inode)).

Section mkdisk.
Context {D : Type} `{BlockOps D}.

Definition read_sector (lba : Z) : K D (list Z) := dev_read lba.
Definition write_sector (lba : Z) (buf : list Z) : K D unit := dev_write lba buf.

Definition inodes_per_sector : Z := SECTOR_SIZE / sizeof_inode.

(** [read_sector(...); memcpy(&inode, sector_buf + ..., sizeof(inode_t))]. *)
Definition get_inode (i : Z) : K D inode_t :=
  let sector := u32 (INODE_START_SECTOR + i / inodes_per_sector) in
  let offset := i mod inodes_per_sector in
  buf ← read_sector sector;
  b ← klift (fs_memcpy (replicate 200 0) 0 buf (offset * sizeof_inode) sizeof_inode);
  mret (inode_of_bytes b).

(** "find free inode". *)
Definition free_inode : K D Z :=
  r ← kloop 0 (Z.to_nat MAX_FILES) (λ i _,
    inode ← get_inode i;
    if i_used inode =? 0 then mret (inr i) else mret (inl tt)) tt;
  mret (match r with inr i => i | inl _ => -1 end).

(** "mark used blocks". *)
Definition mark_used (used_blocks : list Z) : K D (list Z) :=
  kfold 0 (Z.to_nat MAX_FILES) (λ i used,
    tmp ← get_inode i;
    if i_used tmp =? 0 then mret used
    else
      kfold 0 (Z.to_nat MAX_FILE_BLOCKS) (λ j used,
        b ← klift (aget (i_blocks tmp) j);
        if b =? 0 then mret used
        else klift (aset used (u32 (b - DATA_START_SECTOR)) 1)) used) used_blocks.

(** "find free block": the block, or 0, with the table and the superblock after. *)
Definition find_block (used : list Z) (sb : superblock_t)
  : K D (Z * list Z * superblock_t) :=
  r ← kloop 0 (Z.to_nat (total_blocks sb)) (λ b _,
    u ← klift (aget used b);
    if u =? 0 then mret (inr b) else mret (inl tt)) tt;
  match r with
  | inl _ => mret (0, used, sb)
  | inr b =>
      used ← klift (aset used b 1);
      mret (u32 (DATA_START_SECTOR + b), used, Fs.set_free (u32 (free_blocks sb - 1)) sb)
  end.

(** "allocate blocks and write data": the locals are the inode, the table of used
    blocks, the superblock and [written]. *)
Definition copy_blocks (file_data : list Z) (file_size blocks_needed : Z)
    (inode : inode_t) (used : list Z) (sb : superblock_t)
  : K D (inode_t * list Z * superblock_t * Z + Z) :=
  kloop 0 (Z.to_nat blocks_needed) (λ i '(inode, used, sb, written),
    x ← find_block used sb;
    let '(block, used, sb) := x in
    if block =? 0 then
      kprintf "Error: disk full\n" [];;
      mret (inr 1)
    else
      bs ← klift (aset (i_blocks inode) i block);
      buf ← klift (fs_memset (replicate 512 0) 0 SECTOR_SIZE);
      let to_write := u32 (file_size - written) in
      let to_write := if SECTOR_SIZE <? to_write then SECTOR_SIZE else to_write in
      buf ← klift (fs_memcpy buf 0 file_data written to_write);
      write_sector block buf;;
      mret (inl (set_blocks bs inode, used, sb, u32 (written + to_write)))) (inode, used, sb, 0).

(** "write inode". *)
Definition put_inode (i : Z) (inode : inode_t) : K D unit :=
  let sector := u32 (INODE_START_SECTOR + i / inodes_per_sector) in
  let offset := i mod inodes_per_sector in
  buf ← read_sector sector;
  buf ← klift (fs_memcpy buf (offset * sizeof_inode) (bytes_of_inode inode) 0 sizeof_inode);
  write_sector sector buf.

(** "update superblock". *)
Definition put_superblock (sb : superblock_t) : K D unit :=
  buf ← klift (fs_memset (replicate 512 0) 0 SECTOR_SIZE);
  buf ← klift (fs_memcpy buf 0 (bytes_of_superblock sb) 0 sizeof_superblock);
  write_sector SUPERBLOCK_SECTOR buf.

(** [main]; [disk_opens] says whether [fopen] of the image succeeds and [src] is the
    content of the source file, if it opens. *)
Definition main (argc : Z) (argv0 disk src_file dst_name : list Z)
    (disk_opens : bool) (src : option (list Z)) : K D Z :=
  if negb (argc =? 4) then
    kprintf "Usage: %s <disk.img> <input_file> <dest_name>\n" [AStr argv0];;
    mret 1
  else if negb disk_opens then
    kprintf "Error: could not open disk image '%s'\n" [AStr disk];;
    mret 1
  else
    buf ← read_sector SUPERBLOCK_SECTOR;
    b ← klift (fs_memcpy (replicate 24 0) 0 buf 0 sizeof_superblock);
    let sb := superblock_of_bytes b in
    if negb (magic sb =? FS_MAGIC) then
      kprintf "Error: no AshFS found on disk image\n" [];;
      mret 1
    else
      kprintf "AshFS found, %d free blocks\n" [AInt (free_blocks sb)];;
      match src with
      | None =>
          kprintf "Error: could not open '%s'\n" [AStr src_file];;
          mret 1
      | Some file_data =>
          let file_size := u32 (Z.of_nat (length file_data)) in
          kprintf "File size: %d bytes\n" [AInt file_size];;
          let blocks_needed := u32 (u32 (file_size + SECTOR_SIZE) - 1) / SECTOR_SIZE in
          if MAX_FILE_BLOCKS <? blocks_needed then
            kprintf "Error: file too large (max %d blocks)\n" [AInt MAX_FILE_BLOCKS];;
            mret 1
          else
            inode_index ← free_inode;
            if inode_index <? 0 then
              kprintf "Error: no free inodes\n" [];;
              mret 1
            else
              used_blocks ← mark_used (replicate 1024 0);
              r ← copy_blocks file_data file_size blocks_needed
                    (new_inode dst_name file_size) used_blocks sb;
              match r with
              | inr err => mret err
              | inl (inode, _, sb, _) =>
                  put_inode inode_index inode;;
                  put_superblock sb;;
                  kprintf "Successfully copied '%s' to AshFS as '%s'\n"
                    [AStr src_file; AStr dst_name];;
                  mret 0
              end
      end.
End mkdisk.
