(* ===== verification/MkdiskThms.v ===== *)
(** * mkdisk and the kernel agree

    The pieces of the tool are the kernel's own operations on the image; a
    successful run adds one file to the image's directory, of any length up to 32
    blocks, and the kernel reads it back byte for byte. *)

From S2P Require Import Prelude Bytes Disk Fs FsCodec FsView FsOps FsDir FsSpec FsRead FsWrite FsBoot FsThms FsWitness Mkdisk.

Lemma wp_of_ext {S A} (m m' : K S A) s Q : m s = m' s → wp m' s Q → wp m s Q.
Proof. unfold wp. by intros ->. Qed.

Section thms.
Context {D : Type} {O : BlockOps D} {B : BlockDevice D}.
Implicit Types d : D.

(** ** The chunks of a file put together *)

Lemma concat_chunks data (n : nat) :
  (512 * n < length data + 512)%nat →
  concat (map (chunk data (Z.of_nat (length data))) (seq 0 n))
  = take (512 * n) data ++ replicate (512 * n - length data) 0.
Proof.
  induction n as [|n IH]; intros Hn; [done|].
  rewrite seq_S, map_app, concat_app, IH by lia.
  change (concat (map (chunk data (Z.of_nat (length data))) [(0 + n)%nat]))
    with (chunk data (Z.of_nat (length data)) n ++ []). rewrite app_nil_r.
  replace (512 * n - length data)%nat with 0%nat by lia.
  change (replicate 0 0) with (@nil Z). rewrite app_nil_r.
  unfold chunk, chunk_len, slice. rewrite Nat2Z.id, app_assoc. f_equal; [|f_equal; lia].
  destruct (decide (512 * n + 512 <= length data)%nat) as [H|H].
  - rewrite Nat.min_l by lia. rewrite take_take_drop. f_equal. lia.
  - rewrite Nat.min_r by lia. rewrite take_take_drop. rewrite !take_ge by lia. done.
Qed.

Lemma take_chunks data (n : nat) :
  (512 * n < length data + 512)%nat → (length data <= 512 * n)%nat →
  take (length data) (concat (map (chunk data (Z.of_nat (length data))) (seq 0 n))) = data.
Proof.
  intros H1 H2. rewrite concat_chunks by exact H1.
  rewrite (take_ge data) by exact H2. by rewrite take_app_length.
Qed.

(** ** The name the tool stores *)

Lemma strncpy_name dst :
  name_arg dst →
  let n := strncpy (i_name zero_inode) dst 63 in
  length n = 64%nat ∧ bytes_ok n ∧ terminated n ∧ cstr n = take 63 (cstr dst).
Proof.
  intros [Hb _] n. unfold n, strncpy. change (i_name zero_inode) with (replicate 64 0).
  rewrite drop_replicate. change (replicate (64 - 63) 0) with [0].
  set (t := take 63 (cstr dst)).
  assert (length t ≤ 63)%nat as Ht by (unfold t; rewrite length_take; lia).
  assert (no_nul t) as Hn by (apply Forall_take, cstr_no_nul).
  split; [rewrite !length_app, length_replicate; simpl; lia|].
  split; [|split].
  - apply Forall_app. split; [apply Forall_take, cstr_bytes_ok, Hb|].
    apply Forall_app. split; [apply Forall_replicate|constructor; [|constructor]];
      unfold byte_ok; lia.
  - unfold terminated. set_solver.
  - destruct (63 - length t)%nat; [apply cstr_app_nul, Hn|].
    change (replicate (S n0) 0) with (0 :: replicate n0 0). apply cstr_app_nul, Hn.
Qed.

Lemma new_inode_ok dst size bs :
  name_arg dst → word_ok size → (length bs ≤ 32)%nat → Forall word_ok bs →
  inode_ok (set_blocks (bs ++ drop (length bs) (i_blocks (new_inode dst size)))
              (new_inode dst size)).
Proof.
  intros Hdst Hsize Hl Hbs. destruct (strncpy_name dst Hdst) as (H1 & H2 & _).
  destruct zero_inode_ok as [_ _ _ _ H5]. constructor; try done.
  split.
  - cbn [set_blocks i_blocks]. change (i_blocks (new_inode dst size)) with (i_blocks zero_inode).
    rewrite zero_inode_blocks, length_app, length_drop, length_replicate. lia.
  - cbn [set_blocks i_blocks]. apply Forall_app. split; [exact Hbs|].
    change (i_blocks (new_inode dst size)) with (i_blocks zero_inode).
    rewrite zero_inode_blocks. apply Forall_drop, Forall_replicate. unfold word_ok. lia.
Qed.

(** ** The tool's pieces against the kernel's *)

Lemma get_inode_zoom i (s : fs D) : zoom (get_inode i) s = inode_read i s.
Proof.
  unfold get_inode, inode_read. rewrite zoom_bind. apply bind_ext; [reflexivity|].
  intros buf s1. rewrite zoom_bind. apply bind_ext; [apply zoom_lift|].
  intros b s2. apply zoom_ret.
Qed.

Lemma free_inode_zoom (s : fs D) : zoom free_inode s = inode_alloc s.
Proof.
  unfold free_inode, inode_alloc. rewrite zoom_bind. apply bind_ext.
  - apply zoom_kloop. intros i [] w. rewrite zoom_bind. apply bind_ext; [apply get_inode_zoom|].
    intros ino w'. destruct (i_used ino =? 0); apply zoom_ret.
  - intros r w. apply zoom_ret.
Qed.

Lemma mark_used_zoom used (s : fs D) : zoom (mark_used used) s = mark_used_blocks used s.
Proof.
  apply zoom_kfold. intros i u w. rewrite zoom_bind. apply bind_ext; [apply get_inode_zoom|].
  intros ino w'. destruct (i_used ino =? 0); [apply zoom_ret|].
  apply zoom_kfold. intros j u' w2. rewrite zoom_bind. apply bind_ext; [apply zoom_lift|].
  intros b w3. destruct (b =? 0); [apply zoom_ret|apply zoom_lift].
Qed.

Lemma put_inode_zoom i ino (s : fs D) : zoom (put_inode i ino) s = inode_write i ino s.
Proof.
  unfold put_inode, inode_write. rewrite zoom_bind. apply bind_ext; [reflexivity|].
  intros buf s1. rewrite zoom_bind. apply bind_ext; [apply zoom_lift|]. reflexivity.
Qed.

Lemma put_superblock_zoom sb d :
  zoom (put_superblock sb) (Fs sb d) = write_superblock (Fs sb d).
Proof.
  unfold write_superblock. rewrite bind_get. unfold put_superblock. rewrite zoom_bind.
  apply bind_ext; [apply zoom_lift|]. intros buf s1. rewrite zoom_bind.
  apply bind_ext; [apply zoom_lift|]. reflexivity.
Qed.

(** ** Specifications on the image *)

Section large.
Hypothesis Hsz : 1057 ≤ dev_sectors.

Lemma free_inode_spec d :
  dev_ok d →
  wp free_inode d (λ r d' o, o = [] ∧ same_sectors d d' ∧
    ((0 ≤ r < 32 ∧ live d r = false) ∨ (r = -1 ∧ ∀ i, 0 ≤ i < 32 → live d i = true))).
Proof.
  intros Hok. change d with (lens_get (Fs zero_superblock d)) at 1. apply wp_unzoom.
  eapply wp_of_ext; [apply free_inode_zoom|].
  eapply wp_mono; [by apply inode_alloc_spec|]. intros r s' o (-> & [_ Hs] & H). done.
Qed.

Lemma mark_used_spec d :
  dev_ok d → table_ok d →
  wp (mark_used (replicate 1024 0)) d (λ used d' o, o = [] ∧ same_sectors d d' ∧
    used_says used (referenced d)).
Proof.
  intros Hok Ht. change d with (lens_get (Fs zero_superblock d)) at 1. apply wp_unzoom.
  eapply wp_of_ext; [apply mark_used_zoom|].
  eapply wp_mono; [by apply mark_used_blocks_spec|]. intros u s' o (-> & [_ Hs] & H). done.
Qed.

Lemma put_inode_spec d i ino :
  dev_ok d → 0 ≤ i < 32 → inode_ok ino →
  wp (put_inode i ino) d (λ _ d' o, o = [] ∧ dev_ok d' ∧ row_set d d' i ino ∧
    ∀ k, 0 ≤ k < dev_sectors → k = 0 ∨ 17 ≤ k → sector d' k = sector d k).
Proof.
  intros Hok Hi Hino. change d with (lens_get (Fs zero_superblock d)) at 1. apply wp_unzoom.
  eapply wp_of_ext; [apply put_inode_zoom|].
  eapply wp_mono; [by apply inode_write_spec|]. intros u s' o (-> & _ & H). done.
Qed.

Lemma put_superblock_spec d sb :
  dev_ok d → superblock_ok sb →
  wp (put_superblock sb) d (λ _ d' o, o = [] ∧ dev_ok d' ∧ disk_superblock d' = sb ∧
    ∀ k, 0 < k < dev_sectors → sector d' k = sector d k).
Proof.
  intros Hok Hsb. change d with (lens_get (Fs sb d)) at 1. apply wp_unzoom.
  eapply wp_of_ext; [apply put_superblock_zoom|].
  eapply wp_mono; [by apply write_superblock_spec|].
  intros u s' o (-> & Hsb' & Hok' & Hsync & H). unfold synced in Hsync.
  split; [done|]. split; [exact Hok'|]. split; [|exact H].
  unfold disk_superblock. simpl. rewrite Hsync. exact Hsb'.
Qed.

(** ** Finding a block *)

Lemma find_block_spec d used sb P :
  used_says used P → total_blocks sb = 1024 →
  wp (find_block used sb) d (λ '(b, used', sb') d' o, d' = d ∧ o = [] ∧
    ((33 ≤ b < 1057 ∧ ¬ P b ∧ used_says used' (λ c, P c ∨ c = b) ∧
      sb' = Fs.set_free (u32 (free_blocks sb - 1)) sb) ∨
     (b = 0 ∧ ∀ c, 33 ≤ c < 1057 → P c))).
Proof.
  intros Hused Htot. unfold find_block. rewrite Htot.
  change (Z.to_nat 1024) with 1024%nat. wp_steps.
  apply wp_kloop with (I := λ i _ d' o, d' = d ∧ o = [] ∧
    ∀ c, 33 ≤ c < 33 + i → P c).
  - split; [done|]. split; [done|]. lia.
  - intros i [] d1 o Hi (-> & -> & Hbelow).
    destruct (proj2 Hused i) as (u & Hu & Hiff); [lia|]. wp_steps.
    eapply wp_lift; [exact Hu|]. destruct (Z.eqb_spec u 0) as [->|Hu0]; wp_steps.
    + eapply wp_lift; [apply aset_Some; rewrite (proj1 Hused); lia|]. wp_steps.
      unfold DATA_START_SECTOR. rewrite (u32_small (33 + i)) by lia.
      split; [done|]. split; [done|]. left. split; [lia|]. split; [tauto|]. split; [|done].
      apply (used_says_mark used P (33 + i)); [exact Hused|lia|].
      replace (33 + i - 33) with i by lia. apply aset_Some. rewrite (proj1 Hused). lia.
    + split; [done|]. split; [done|]. intros c Hc.
      destruct (Z.eq_dec c (33 + i)) as [->|]; [by apply Hiff|apply Hbelow; lia].
  - intros [] d1 o (-> & -> & Hall). wp_steps. split; [done|]. split; [done|]. right.
    split; [done|]. intros c Hc. apply Hall. lia.
Qed.

(** ** Copying the file *)

(** [d'] is [d] after [k] iterations of the loop, which took the blocks [bs]. *)
Record copied d (ino : inode_t) (sb : superblock_t) (data : list Z) (k : nat) (bs : list Z)
    (ino' : inode_t) (used' : list Z) (sb' : superblock_t) d' : Prop := {
  cp_len : length bs = k;
  cp_nodup : NoDup bs;
  cp_free b : b ∈ bs → 33 ≤ b < 1057 ∧ ¬ referenced d b;
  cp_ino : ino' = set_blocks (bs ++ drop k (i_blocks ino)) ino;
  cp_used : used_says used' (λ c, referenced d c ∨ c ∈ bs);
  cp_sb : sb' = Fs.set_free (u32 (free_blocks sb - Z.of_nat k)) sb;
  cp_dev : dev_ok d';
  cp_data j b : bs !! j = Some b → sector d' b = chunk data (Z.of_nat (length data)) j;
  cp_other b : 0 ≤ b < dev_sectors → b ∉ bs → sector d' b = sector d b;
}.

Lemma copied_start d ino sb data used :
  dev_ok d → superblock_ok sb → used_says used (referenced d) →
  copied d ino sb data 0 [] ino used sb d.
Proof.
  intros Hok Hsb Hused. constructor; try done.
  - constructor.
  - intros b Hb. by apply not_elem_of_nil in Hb.
  - by destruct ino.
  - eapply used_says_iff; [exact Hused|]. intros b _. rewrite elem_of_nil. tauto.
  - pose proof (sb_free _ Hsb) as Hf. unfold word_ok in Hf.
    destruct sb. unfold Fs.set_free. cbn in *. rewrite u32_small by lia. f_equal. lia.
Qed.

Lemma u32_sub_idemp a b : u32 (u32 a - b) = u32 (a - b).
Proof. unfold u32. apply Zminus_mod_idemp_l. Qed.

(** One iteration: a fresh block that now holds the next chunk. *)
Lemma copied_step d ino sb data k bs ino' used' sb' d' b used'' d'' :
  length (i_blocks ino) = 32%nat → (k < 32)%nat →
  copied d ino sb data k bs ino' used' sb' d' →
  33 ≤ b < 1057 → ¬ (referenced d b ∨ b ∈ bs) →
  used_says used'' (λ c, (referenced d c ∨ c ∈ bs) ∨ c = b) →
  dev_ok d'' →
  (∀ j, 0 ≤ j < dev_sectors →
     sector d'' j = if j =? b then chunk data (Z.of_nat (length data)) k else sector d' j) →
  copied d ino sb data (S k) (bs ++ [b]) (set_blocks (<[k := b]> (i_blocks ino')) ino') used''
    (Fs.set_free (u32 (free_blocks sb' - 1)) sb') d''.
Proof.
  intros Hlen Hk [] Hb Hfresh Hused Hdev Hsec.
  constructor; try done.
  - rewrite length_app. simpl. lia.
  - apply NoDup_app. split; [done|]. split; [|apply NoDup_singleton].
    intros c Hc ->%list_elem_of_singleton. tauto.
  - intros c [Hc| ->%list_elem_of_singleton]%elem_of_app; [by apply cp_free0|]. tauto.
  - subst ino'. unfold set_blocks. cbn [i_blocks i_name i_size i_used i_padding]. f_equal.
    destruct (lookup_lt_is_Some_2 (i_blocks ino) k) as [x Hx]; [lia|].
    rewrite (drop_S _ _ _ Hx), insert_app_r_alt by lia.
    rewrite cp_len0, Nat.sub_diag, <-app_assoc. done.
  - eapply used_says_iff; [exact Hused|]. intros c _.
    rewrite elem_of_app, list_elem_of_singleton. tauto.
  - subst sb'. unfold Fs.set_free.
    cbn [magic version total_blocks inode_start data_start free_blocks].
    rewrite u32_sub_idemp. do 2 f_equal. lia.
  - intros j c [Hj|[Hj Hc]]%lookup_app_Some.
    + assert (c ∈ bs) as Hin by (eapply list_elem_of_lookup_2; exact Hj).
      rewrite Hsec by (destruct (cp_free0 c Hin); lia).
      destruct (Z.eqb_spec c b) as [->|]; [tauto|by apply cp_data0].
    + apply list_lookup_singleton_Some in Hc as [Hjk <-].
      rewrite Hsec by lia. rewrite Z.eqb_refl. f_equal. lia.
  - intros c Hc Hnin. rewrite elem_of_app, list_elem_of_singleton in Hnin.
    rewrite Hsec by done. destruct (Z.eqb_spec c b); [tauto|]. apply cp_other0; tauto.
Qed.

(** How the loop ends. *)
Definition copy_done d ino sb data (n : nat)
    (r : inode_t * list Z * superblock_t * Z + Z) d' (o : list event) : Prop :=
  (∃ bs ino' used' sb' written, r = inl (ino', used', sb', written) ∧ o = [] ∧
     copied d ino sb data n bs ino' used' sb' d') ∨
  (∃ k bs ino' used' sb', r = inr 1 ∧ o = [EvPrintf "Error: disk full\n" []] ∧ (k < n)%nat ∧
     copied d ino sb data k bs ino' used' sb' d' ∧
     ∀ c, 33 ≤ c < 1057 → referenced d c ∨ c ∈ bs).

Lemma copy_blocks_spec d ino sb data used (n : nat) :
  dev_ok d → inode_ok ino → superblock_ok sb → total_blocks sb = 1024 → bytes_ok data →
  Z.of_nat (length data) < 2 ^ 32 → (n ≤ 32)%nat →
  (∀ k, (k < n)%nat → Z.of_nat (512 * k) < Z.of_nat (length data)) →
  used_says used (referenced d) →
  wp (copy_blocks data (Z.of_nat (length data)) (Z.of_nat n) ino used sb) d
    (copy_done d ino sb data n).
Proof.
  intros Hok Hino Hsb Htot Hdata Hlen Hn Hneed Hused.
  pose proof (proj1 (in_blocks _ Hino)) as Hlb. unfold copy_blocks. rewrite Nat2Z.id.
  apply wp_kloop with (I := λ i '(ino', used', sb', written) d' o, o = [] ∧
    written = Z.of_nat (length data `min` (512 * Z.to_nat i)) ∧
    ∃ bs, copied d ino sb data (Z.to_nat i) bs ino' used' sb' d').
  - split; [done|]. split; [lia|]. exists []. by apply copied_start.
  - intros i [[[ino' used'] sb'] written] d1 o Hi (-> & -> & bs & Hcp).
    destruct (Z_of_nat_complete i) as [k ->]; [lia|]. rewrite Nat2Z.id in *.
    assert (k < n)%nat as Hk by lia. pose proof (Hneed k Hk) as Hoff.
    assert (total_blocks sb' = 1024) as Htot' by (rewrite (cp_sb _ _ _ _ _ _ _ _ _ _ Hcp); done).
    wp_steps. eapply wp_mono; [apply (find_block_spec d1 used' sb' _ (cp_used _ _ _ _ _ _ _ _ _ _ Hcp) Htot')|].
    intros [[b used''] sb''] d2 o (-> & -> & Hb).
    destruct Hb as [(Hb & Hfresh & Hused'' & ->)|(-> & Hall)].
    2: { simpl. wp_steps. right. exists k, bs, ino', used', sb'. done. }
    destruct (Z.eqb_spec b 0) as [|_]; [lia|]. wp_steps.
    assert (length (i_blocks ino') = 32%nat) as Hlb'.
    { rewrite (cp_ino _ _ _ _ _ _ _ _ _ _ Hcp). simpl.
      rewrite length_app, length_drop, (cp_len _ _ _ _ _ _ _ _ _ _ Hcp). lia. }
    eapply wp_lift; [apply aset_Some; lia|]. rewrite Nat2Z.id. wp_steps.
    eapply wp_lift; [apply fs_memset_all; [unfold byte_ok; lia|reflexivity]|]. wp_steps.
    change (Z.to_nat SECTOR_SIZE) with 512%nat. change SECTOR_SIZE with BLOCK_SIZE.
    rewrite Nat.min_r by lia. rewrite to_write_chunk by lia.
    assert (512 * k + chunk_len (Z.of_nat (length data)) k ≤ length data)%nat as Hfit
      by (unfold chunk_len; lia).
    eapply wp_lift; [by apply chunk_memcpy|]. wp_steps.
    destruct (chunk_ok data (Z.of_nat (length data)) k Hdata Hfit) as [Hcl Hcb].
    eapply wp_mono; [apply dev_write_ok; [apply (cp_dev _ _ _ _ _ _ _ _ _ _ Hcp)|lia|exact Hcl|exact Hcb]|].
    intros _ d3 o (-> & Hdev3 & Hsec3). wp_steps. split; [done|]. split.
    + rewrite u32_small by (unfold chunk_len; lia). unfold chunk_len. lia.
    + exists (bs ++ [b]). replace (Z.to_nat (Z.of_nat k + 1)) with (S k) by lia.
      apply (copied_step d ino sb data k bs ino' used' sb' d1); (assumption || lia).
  - intros [[[ino' used'] sb'] written] d' o (-> & _ & bs & Hcp).
    rewrite Z.add_0_l, Nat2Z.id in Hcp. left. exists bs, ino', used', sb', written. done.
Qed.

(** ** The image after a run *)

Lemma cstr_block_list bs n :
  (∀ b, b ∈ bs → 33 ≤ b < 1057) → cstr (bs ++ replicate n 0) = bs.
Proof.
  induction bs as [|b bs IH]; intros H; simpl.
  - by destruct n.
  - assert (33 ≤ b < 1057) by (apply H, list_elem_of_here).
    destruct (Z.eqb_spec b 0); [lia|]. f_equal. apply IH. intros c Hc.
    apply H. by apply list_elem_of_further.
Qed.

Lemma drop_zero_blocks dst size n :
  drop n (i_blocks (new_inode dst size)) = replicate (32 - n) 0.
Proof.
  change (i_blocks (new_inode dst size)) with (i_blocks zero_inode).
  by rewrite zero_inode_blocks, drop_replicate.
Qed.

Section copied.
Variables (d d1 : D) (dst data : list Z) (sb sb' : superblock_t) (n : nat)
  (bs used : list Z) (ino : inode_t).
Hypothesis Hok : fs_ok (Fs sb d).
Hypothesis Hdst : name_arg dst.
Hypothesis Hcp : copied d (new_inode dst (Z.of_nat (length data))) sb data n bs ino used sb' d1.
Hypothesis Hn : (n ≤ 32)%nat.

Lemma copied_keeps_table i : 0 ≤ i < 32 → inode_at d1 i = inode_at d i.
Proof.
  intros Hi. pose proof (inode_sector_range i Hi). apply inode_at_ext.
  apply (cp_other _ _ _ _ _ _ _ _ _ _ Hcp); [lia|].
  intros Hb. destruct (cp_free _ _ _ _ _ _ _ _ _ _ Hcp _ Hb). lia.
Qed.

Lemma copied_keeps_data i b :
  0 ≤ i < 32 → live d i = true → b ∈ blocks_at d i → b ≠ 0 → sector d1 b = sector d b.
Proof.
  intros Hi Hl Hb Hb0. pose proof (live_block d i b (ok_table _ Hok) Hi Hl Hb Hb0).
  apply (cp_other _ _ _ _ _ _ _ _ _ _ Hcp); [lia|]. intros Hin.
  apply (proj2 (cp_free _ _ _ _ _ _ _ _ _ _ Hcp b Hin)). exists i. done.
Qed.

Lemma copied_inode_ok : Z.of_nat (length data) < 2 ^ 32 → inode_ok ino.
Proof.
  intros Hlen. rewrite (cp_ino _ _ _ _ _ _ _ _ _ _ Hcp).
  rewrite <-(cp_len _ _ _ _ _ _ _ _ _ _ Hcp).
  apply new_inode_ok; [exact Hdst|unfold word_ok; lia| |].
  - rewrite (cp_len _ _ _ _ _ _ _ _ _ _ Hcp). exact Hn.
  - apply Forall_forall. intros b Hb.
    destruct (cp_free _ _ _ _ _ _ _ _ _ _ Hcp b Hb). unfold word_ok. lia.
Qed.

Lemma copied_superblock_ok : superblock_ok sb'.
Proof.
  rewrite (cp_sb _ _ _ _ _ _ _ _ _ _ Hcp). destruct (ok_sb _ Hok).
  constructor; try assumption. apply u32_range.
Qed.

(** Out of space: the blocks written belong to no file. *)
Lemma copied_abandoned s1 : disk s1 = d1 → dir s1 = dir (Fs sb d) ∧ table_ok d1.
Proof.
  intros Hd1. assert (table_ok d1) as Ht1.
  { apply (table_ok_ext d); [exact copied_keeps_table|apply Hok]. }
  split; [|exact Ht1]. apply dir_ext; [apply Hok|by rewrite Hd1|]. cbn [disk].
  rewrite Hd1. intros i Hi.
  unfold live, name_at, contents. rewrite copied_keeps_table by exact Hi.
  split; [done|]. intros Hl. split; [done|]. apply file_bytes_ext. intros b Hb Hb0.
  apply (copied_keeps_data i); done.
Qed.

(** The inode and the superblock written: the file is there. *)
Lemma copied_table_ok i s3 :
  0 ≤ i < 32 → row_set d (disk s3) i ino → dir (Fs sb d) !! take 63 (cstr dst) = None → table_ok (disk s3).
Proof.
  intros Hi Hrow Hnone. destruct (strncpy_name dst Hdst) as (_ & _ & Hterm & Hname).
  pose proof (cp_ino _ _ _ _ _ _ _ _ _ _ Hcp) as Hino. rewrite drop_zero_blocks in Hino.
  eapply (table_ok_row d (disk s3) i ino Hi Hrow); [apply Hok|]. intros _.
  rewrite Hino. cbn [i_name i_blocks set_blocks]. split; [exact Hterm|]. split.
  { apply Forall_app. split.
    - apply Forall_forall. intros b Hb. right. apply (cp_free _ _ _ _ _ _ _ _ _ _ Hcp b Hb).
    - apply Forall_replicate. by left. }
  intros j Hj _ Hl. split.
  { pose proof (proj1 (dir_lookup_None (Fs sb d) _ (ok_table _ Hok)) Hnone j Hj Hl) as Hne.
    intros Heq. apply Hne. cbn [disk]. rewrite Heq. exact Hname. }
  intros b Hb [Hin|Hz%elem_of_replicate_inv]%elem_of_app; [|exact Hz].
  destruct (cp_free _ _ _ _ _ _ _ _ _ _ Hcp b Hin) as [_ Hnr]. exfalso. apply Hnr.
  exists j. done.
Qed.

Lemma copied_bytes (d3 : D) :
  (∀ k, 17 ≤ k < dev_sectors → sector d3 k = sector d1 k) →
  (512 * n < length data + 512)%nat → (length data <= 512 * n)%nat → file_bytes d3 ino = data.
Proof.
  intros Hsec Hlo Hhi. pose proof (cp_ino _ _ _ _ _ _ _ _ _ _ Hcp) as Hino. rewrite drop_zero_blocks in Hino.
  rewrite Hino. unfold file_bytes. cbn [i_size i_blocks set_blocks].
  change (i_size (new_inode dst (Z.of_nat (length data)))) with (Z.of_nat (length data)).
  rewrite Nat2Z.id, cstr_block_list
    by (intros b Hb; apply (cp_free _ _ _ _ _ _ _ _ _ _ Hcp b Hb)).
  rewrite <-(take_chunks data n Hlo Hhi) at 2. do 2 f_equal.
  apply list_eq. intros j. rewrite !list_lookup_fmap.
  destruct (decide (j < n)%nat) as [Hj|Hj].
  - rewrite lookup_seq_lt by exact Hj.
    destruct (lookup_lt_is_Some_2 bs j) as [b Hb];
      [rewrite (cp_len _ _ _ _ _ _ _ _ _ _ Hcp); exact Hj|].
    rewrite Hb. cbn [fmap option_fmap option_map]. f_equal.
    assert (b ∈ bs) as Hin by (eapply list_elem_of_lookup_2; exact Hb).
    rewrite Hsec by (destruct (cp_free _ _ _ _ _ _ _ _ _ _ Hcp b Hin); lia).
    apply (cp_data _ _ _ _ _ _ _ _ _ _ Hcp). exact Hb.
  - rewrite lookup_seq_ge, lookup_ge_None_2 by
      (rewrite ?(cp_len _ _ _ _ _ _ _ _ _ _ Hcp); lia). done.
Qed.

Lemma copied_committed i s3 :
  0 ≤ i < 32 → live d i = false → row_set d1 (disk s3) i ino → dev_ok (disk s3) →
  superblock s3 = sb' → (∀ k, 17 ≤ k < dev_sectors → sector (disk s3) k = sector d1 k) →
  dir (Fs sb d) !! take 63 (cstr dst) = None →
  (512 * n < length data + 512)%nat → (length data <= 512 * n)%nat →
  fs_ok s3 ∧ dir s3 = <[take 63 (cstr dst) := data]> (dir (Fs sb d)).
Proof.
  intros Hi Hdead Hrow1 Hdev Hsb3 Hsec Hnone Hlo Hhi.
  destruct (strncpy_name dst Hdst) as (_ & _ & _ & Hname).
  pose proof (cp_ino _ _ _ _ _ _ _ _ _ _ Hcp) as Hino.
  assert (row_set d (disk s3) i ino) as Hrow.
  { intros j Hj. rewrite Hrow1 by exact Hj. by rewrite copied_keeps_table. }
  assert (others_kept d (disk s3) i) as Hkeep.
  { eapply others_kept_sectors; [exact Hi|exact Hrow|apply Hok|]. intros j b Hj _ Hl Hb Hb0.
    pose proof (live_block d j b (ok_table _ Hok) Hj Hl Hb Hb0).
    rewrite Hsec by lia. by apply (copied_keeps_data j). }
  pose proof (copied_table_ok i s3 Hi Hrow Hnone) as Ht3.
  split.
  { pose proof (ok_magic _ Hok). pose proof (ok_total _ Hok).
    apply (fs_ok_row (Fs sb d)); rewrite ?Hsb3; try assumption; [exact copied_superblock_ok| |];
      rewrite (cp_sb _ _ _ _ _ _ _ _ _ _ Hcp); done. }
  assert (cstr (i_name ino) = take 63 (cstr dst)) as Hcn by (rewrite Hino; exact Hname).
  rewrite <-Hcn, <-(copied_bytes (disk s3) Hsec Hlo Hhi).
  eapply (dir_row_set (Fs sb d) s3 i ino); [exact Hi|exact Hrow|exact Hkeep|apply Hok|exact Ht3| |].
  - rewrite Hino. discriminate.
  - cbn [disk]. congruence.
Qed.
End copied.
End large.

(** ** The tool as a whole *)

(** The file system on an image, as [fs_init] sees it. *)
Definition on_image d : fs D := Fs (disk_superblock d) d.

(** An unused inode, and as many blocks that no file has as the data needs. *)
Definition room d (data : list Z) : Prop :=
  (∃ i, 0 ≤ i < 32 ∧ live d i = false) ∧
  ∃ bs, NoDup bs ∧ Z.of_nat (length bs) = (Z.of_nat (length data) + 511) / 512 ∧
    ∀ b, b ∈ bs → 33 ≤ b < 1057 ∧ ¬ referenced d b.

(** What a run with legal arguments does: the file is added, or there is no inode or
    not enough blocks. *)
Definition main_result d (dst data : list Z) (r : Z) d' : Prop :=
  let n := (Z.of_nat (length data) + 511) / 512 in
  fs_ok (on_image d') ∧
  ((r = 0 ∧ room d data ∧ dir (on_image d') = <[take 63 (cstr dst) := data]> (dir (on_image d)) ∧
    free_blocks (disk_superblock d') = u32 (free_blocks (disk_superblock d) - n)) ∨
   (r = 1 ∧ dir (on_image d') = dir (on_image d) ∧
    ((∀ i, 0 ≤ i < 32 → live d i = true) ∨
     ∃ bs, Z.of_nat (length bs) < n ∧ ∀ c, 33 ≤ c < 1057 → referenced d c ∨ c ∈ bs))).

Lemma room_excludes d data :
  room d data → ¬ ((∀ i, 0 ≤ i < 32 → live d i = true) ∨
    ∃ bs, Z.of_nat (length bs) < (Z.of_nat (length data) + 511) / 512 ∧
      ∀ c, 33 ≤ c < 1057 → referenced d c ∨ c ∈ bs).
Proof.
  intros ((i & Hi & Hdead) & fs & Hnd & Hlen & Hfs) [Hall|(bs & Hbs & Hfull)]; [by rewrite Hall in Hdead|].
  assert (length fs ≤ length bs)%nat; [|lia]. apply submseteq_length, NoDup_submseteq; [exact Hnd|].
  intros b Hb. destruct (Hfs b Hb) as [Hr Hnot]. by destruct (Hfull b Hr).
Qed.

Lemma on_image_eqv d d' : 1057 ≤ dev_sectors → same_sectors d d' → fs_eqv (on_image d) (on_image d').
Proof.
  intros Hsz Hs. split; [|exact Hs]. unfold on_image, disk_superblock. cbn [superblock].
  rewrite (proj2 Hs 0) by lia. done.
Qed.

Lemma read_image_superblock d :
  1057 ≤ dev_sectors → dev_ok d →
  wp (buf ← Mkdisk.read_sector SUPERBLOCK_SECTOR;
      b ← klift (fs_memcpy (replicate 24 0) 0 buf 0 sizeof_superblock);
      mret (superblock_of_bytes b)) d (λ sb d' o, o = [] ∧ sb = disk_superblock d ∧
        same_sectors d d').
Proof.
  intros Hsz Hok. wp_steps. eapply wp_mono; [apply dev_read_ok; [exact Hok|unfold SUPERBLOCK_SECTOR; lia]|].
  intros buf d1 o (-> & -> & Hok1 & Hsec). wp_steps. unfold SUPERBLOCK_SECTOR.
  destruct (sector_ok d 0 Hok ltac:(lia)) as [Hl _].
  eapply wp_lift; [apply (fs_memcpy_whole _ _ 0 24); [reflexivity|rewrite Hl; lia]|].
  wp_steps. split; [done|]. split; [done|]. split; [tauto|]. intros j Hj. symmetry. auto.
Qed.

Section ends.
Context (Hsz : 1057 ≤ dev_sectors) (d d1 : D) (dst data : list Z) (sb sb' : superblock_t) (k : nat)
  (bs used : list Z) (ino : inode_t).
Hypothesis Hok : fs_ok (Fs sb d).
Hypothesis Hcp : copied d (new_inode dst (Z.of_nat (length data))) sb data k bs ino used sb' d1.
Hypothesis Hk : (k ≤ 32)%nat.

(** All blocks are copied: the last steps of [main]. *)
Lemma main_commits src_file i :
  name_arg dst → 0 ≤ i < 32 → live d i = false → dir (Fs sb d) !! take 63 (cstr dst) = None →
  (512 * k < length data + 512)%nat → (length data <= 512 * k)%nat → Z.of_nat (length data) < 2 ^ 32 →
  wp (put_inode i ino;;
      put_superblock sb';;
      kprintf "Successfully copied '%s' to AshFS as '%s'\n" [AStr src_file; AStr dst];;
      mret 0) d1 (λ r d' _, r = 0 ∧ fs_ok (on_image d') ∧ disk_superblock d' = sb' ∧
    dir (on_image d') = <[take 63 (cstr dst) := data]> (dir (Fs sb d))).
Proof.
  intros Hdst Hi Hdead Hnone Hlo Hhi Hlen. wp_steps. eapply wp_mono.
  { apply (put_inode_spec Hsz d1 i ino); [apply (cp_dev _ _ _ _ _ _ _ _ _ _ Hcp)|exact Hi|].
    exact (copied_inode_ok d d1 dst data sb sb' k bs used ino Hdst Hcp Hk Hlen). }
  intros _ d4 o (-> & Hdev4 & Hrow4 & Hsec4). wp_steps. eapply wp_mono.
  { apply (put_superblock_spec Hsz d4 sb'); [exact Hdev4|].
    exact (copied_superblock_ok d d1 dst data sb sb' k bs used ino Hok Hcp). }
  intros _ d5 o (-> & Hdev5 & Hsb5 & Hsec5). wp_steps.
  destruct (copied_committed Hsz d d1 dst data sb sb' k bs used ino Hok Hdst Hcp Hk i
    (on_image d5)) as [Hok5 Hdir5]; try assumption; [| |done].
  - intros j Hj. rewrite <-Hrow4 by exact Hj. apply inode_at_ext, Hsec5.
    pose proof (inode_sector_range j Hj). lia.
  - intros c Hc. cbn [disk on_image]. rewrite Hsec5, Hsec4 by lia. done.
Qed.

(** The disk is full: nothing refers to what was copied. *)
Lemma main_gives_up :
  disk_superblock d = sb → fs_ok (on_image d1) ∧ dir (on_image d1) = dir (Fs sb d).
Proof.
  intros Esb. assert (disk_superblock d1 = sb) as Esb1.
  { rewrite <-Esb. unfold disk_superblock. do 2 f_equal.
    apply (cp_other _ _ _ _ _ _ _ _ _ _ Hcp); [lia|].
    intros Hin. destruct (cp_free _ _ _ _ _ _ _ _ _ _ Hcp _ Hin). lia. }
  destruct (copied_abandoned Hsz d d1 dst data sb sb' k bs used ino Hok Hcp Hk
    (on_image d1) eq_refl) as [Hdir3 Ht3].
  split; [|exact Hdir3]. apply (fs_ok_same_sb (Fs sb d)); [exact Hok|exact Esb1| |exact Ht3].
  apply (cp_dev _ _ _ _ _ _ _ _ _ _ Hcp).
Qed.
End ends.

(** An image with the same sectors gives the same result. *)
Lemma main_result_eqv d d1 dst data r d' :
  fs_ok (on_image d) → same_sectors d d1 → main_result d1 dst data r d' → main_result d dst data r d'.
Proof.
  intros Hok Hs (Hok' & H). pose proof (ok_size _ Hok) as Hsz. assert (1057 ≤ dev_sectors) as Hsz' by lia.
  pose proof (on_image_eqv d d1 Hsz' Hs) as He. split; [exact Hok'|].
  assert (dir (on_image d1) = dir (on_image d)) as Hdir by (apply (fs_eqv_dir Hsz'); [exact He|apply Hok]).
  assert (disk_superblock d = disk_superblock d1) as Esb by apply He.
  rewrite Hdir, <-Esb in H. destruct H as [(Hr & Hroom & Hd)|(Hr & Hd & Hwhy)]; [left|right].
  { split; [exact Hr|]. split; [|exact Hd]. destruct Hroom as ((i & Hi & Hdead) & bs & Hnd & Hlen & Hbs).
    split; [exists i; split; [exact Hi|]; rewrite (same_live Hsz' d d1 i Hs Hi); exact Hdead|].
    exists bs. split; [exact Hnd|]. split; [exact Hlen|].
    intros b Hb. destruct (Hbs b Hb) as [Hr' Hnot]. split; [exact Hr'|]. intros Href. apply Hnot.
    exact (same_referenced Hsz' d d1 b Hs Href). }
  split; [exact Hr|]. split; [exact Hd|]. destruct Hwhy as [Hall|(bs & Hbs & Hfull)].
  - left. intros i Hi. rewrite (same_live Hsz' d d1 i Hs Hi). auto.
  - right. exists bs. split; [exact Hbs|]. intros c Hc. destruct (Hfull c Hc) as [Hr'|]; [left|by right].
    eapply (same_referenced Hsz'); [symmetry; exact Hs|exact Hr'].
Qed.

Lemma blocks_of_size (data : list Z) :
  Z.of_nat (length data) ≤ 16384 →
  let n := Z.to_nat ((Z.of_nat (length data) + 511) / 512) in
  (Z.of_nat (length data) + 511) / 512 = Z.of_nat n ∧ (n ≤ 32)%nat ∧
  (512 * n < length data + 512)%nat ∧ (length data <= 512 * n)%nat.
Proof. intros Hlen n. unfold n. dlia. Qed.

(** From the choice of the blocks on. *)
Lemma main_copies d src_file dst data used i :
  fs_ok (on_image d) → name_arg dst → bytes_ok data →
  Z.of_nat (length data) ≤ 16384 → dir (on_image d) !! take 63 (cstr dst) = None →
  used_says used (referenced d) → 0 ≤ i < 32 → live d i = false →
  let size := Z.of_nat (length data) in
  wp (r ← copy_blocks data size ((size + 511) / 512) (new_inode dst size) used (disk_superblock d);
      match r with
      | inr err => mret err
      | inl (inode, _, sb, _) =>
          put_inode i inode;;
          put_superblock sb;;
          kprintf "Successfully copied '%s' to AshFS as '%s'\n"
            [AStr src_file; AStr dst];;
          mret 0
      end) d (λ r d' _, main_result d dst data r d').
Proof.
  intros Hok Hdst Hdata Hlen Hnone Hused Hi Hdead size. pose proof (ok_size _ Hok) as Hsz.
  assert (1057 ≤ dev_sectors) as Hsz' by lia. set (sb := disk_superblock d).
  destruct (blocks_of_size data Hlen) as (Hn & Hn32 & Hlo & Hhi). cbv zeta in *. fold size in Hn, Hn32, Hlo, Hhi.
  set (n := Z.to_nat ((size + 511) / 512)) in *. change (on_image d) with (Fs sb d) in Hok, Hnone.
  unfold main_result. fold size. rewrite Hn. wp_steps. eapply wp_mono.
  { apply (copy_blocks_spec Hsz' d); [apply Hok| |apply Hok|apply Hok|exact Hdata|lia|exact Hn32| |exact Hused].
    - apply (new_inode_ok dst size []); [exact Hdst|unfold word_ok, size; lia|simpl; lia|constructor].
    - intros k Hk. lia. }
  intros r d3 o [(bs & ino & used' & sb' & written & -> & -> & Hcp)|
                 (k & bs & ino & used' & sb' & -> & -> & Hk & Hcp & Hfull)].
  - cbv beta iota. eapply wp_mono.
    { by apply (main_commits Hsz' d d3 dst data sb sb' n bs used' ino Hok Hcp Hn32 src_file i); try lia. }
    intros r d5 o (-> & Hok5 & Hsb5 & Hdir5). split; [exact Hok5|]. left. split; [done|]. split; [|split; [exact Hdir5|]].
    { split; [by exists i|]. exists bs. split; [apply Hcp|]. split; [|apply Hcp].
      fold size. rewrite (cp_len _ _ _ _ _ _ _ _ _ _ Hcp). by rewrite Hn. }
    rewrite Hsb5, (cp_sb _ _ _ _ _ _ _ _ _ _ Hcp). done.
  - wp_steps. destruct (main_gives_up Hsz' d d3 dst data sb sb' k bs used' ino Hok Hcp ltac:(lia) eq_refl) as [Hok3 Hdir3].
    split; [exact Hok3|]. right. split; [done|]. split; [exact Hdir3|]. right. exists bs.
    split; [rewrite (cp_len _ _ _ _ _ _ _ _ _ _ Hcp); lia|]. exact Hfull.
Qed.

(** From the choice of the inode on. *)
Lemma main_adds d src_file dst data :
  fs_ok (on_image d) → name_arg dst → bytes_ok data →
  Z.of_nat (length data) ≤ 16384 → dir (on_image d) !! take 63 (cstr dst) = None →
  let size := Z.of_nat (length data) in
  wp (inode_index ← free_inode;
      if inode_index <? 0 then kprintf "Error: no free inodes\n" [];; mret 1
      else
        used_blocks ← mark_used (replicate 1024 0);
        r ← copy_blocks data size ((size + 511) / 512) (new_inode dst size) used_blocks (disk_superblock d);
        match r with
        | inr err => mret err
        | inl (inode, _, sb, _) =>
            put_inode inode_index inode;;
            put_superblock sb;;
            kprintf "Successfully copied '%s' to AshFS as '%s'\n"
              [AStr src_file; AStr dst];;
            mret 0
        end) d (λ r d' _, main_result d dst data r d').
Proof.
  intros Hok Hdst Hdata Hlen Hnone size. pose proof (ok_size _ Hok) as Hsz. assert (1057 ≤ dev_sectors) as Hsz' by lia.
  wp_steps. eapply wp_mono; [apply (free_inode_spec Hsz' d), Hok|].
  intros i d1 o (-> & Hs1 & [(Hi & Hdead)|(-> & Hall)]).
  2: { simpl. wp_steps. pose proof (on_image_eqv d d1 Hsz' Hs1) as He.
       split; [by eapply fs_eqv_ok|]. right. split; [done|].
       split; [apply (fs_eqv_dir Hsz'); [exact He|apply Hok]|]. by left. }
  destruct (Z.ltb_spec i 0); [lia|]. wp_steps.
  pose proof (fs_eqv_ok _ _ (on_image_eqv d d1 Hsz' Hs1) Hok) as Hok1.
  eapply wp_mono; [apply (mark_used_spec Hsz' d1); apply Hok1|].
  intros used d2 o (-> & Hs2 & Hused). assert (same_sectors d d2) as Hs by (etrans; done).
  pose proof (on_image_eqv d d2 Hsz' Hs) as He. pose proof (fs_eqv_ok _ _ He Hok) as Hok2.
  rewrite (proj1 He : disk_superblock d = disk_superblock d2). eapply wp_mono.
  { apply main_copies; [exact Hok2|exact Hdst|exact Hdata|exact Hlen| | |exact Hi|].
    - rewrite (fs_eqv_dir Hsz' _ _ He) by apply Hok. exact Hnone.
    - eapply used_says_iff; [exact Hused|]. intros b _.
      split; apply (same_referenced Hsz'); [exact Hs2|by symmetry].
    - rewrite <-(same_live Hsz' d d2 i Hs Hi). exact Hdead. }
  intros r d' o H'. by apply (main_result_eqv d d2).
Qed.

Lemma main_spec d argv0 disk src_file dst data :
  fs_ok (on_image d) → name_arg dst → bytes_ok data → Z.of_nat (length data) ≤ 16384 →
  dir (on_image d) !! take 63 (cstr dst) = None →
  wp (main 4 argv0 disk src_file dst true (Some data)) d (λ r d' _, main_result d dst data r d').
Proof.
  intros Hok Hdst Hdata Hlen Hnone. pose proof (ok_size _ Hok) as Hsz.
  assert (1057 ≤ dev_sectors) as Hsz' by lia. unfold main. cbn [Z.eqb negb Pos.eqb].
  wp_steps. eapply wp_mono; [apply dev_read_ok; [apply Hok|unfold SUPERBLOCK_SECTOR; lia]|].
  intros buf d1 o (-> & -> & Hdev1 & Hsec1). unfold SUPERBLOCK_SECTOR. wp_steps.
  destruct (sector_ok d 0 (ok_dev _ Hok) ltac:(lia)) as [Hl _].
  eapply wp_lift; [apply (fs_memcpy_whole _ _ 0 24); [reflexivity|rewrite Hl; lia]|].
  change (superblock_of_bytes _) with (superblock (on_image d)).
  rewrite (ok_magic _ Hok), Z.eqb_refl. cbn [negb]. wp_steps. rewrite (u32_small (Z.of_nat _)) by lia.
  assert (same_sectors d d1) as Hs1.
  { split; [split; intros _; [exact Hdev1|apply Hok]|]. intros j Hj. symmetry. auto. }
  pose proof (on_image_eqv d d1 Hsz' Hs1) as He.
  assert (dir (on_image d1) = dir (on_image d)) as Hdir
    by (apply (fs_eqv_dir Hsz'); [exact He|apply Hok]).
  set (size := Z.of_nat (length data)) in *.
  assert (u32 (u32 (size + SECTOR_SIZE) - 1) / SECTOR_SIZE = (size + 511) / 512) as ->.
  { unfold SECTOR_SIZE, size. rewrite (u32_small (_ + _)) by lia. rewrite u32_small by lia. f_equal. lia. }
  assert (0 ≤ (size + 511) / 512 ≤ 32) as Hq by (unfold size; dlia).
  unfold MAX_FILE_BLOCKS. destruct (Z.ltb_spec 32 ((size + 511) / 512)); [lia|].
  assert (fs_ok (on_image d1)) as Hok1 by (eapply fs_eqv_ok; [exact He|exact Hok]).
  rewrite <-Hdir in Hnone.
  rewrite (proj1 He : superblock (on_image d) = disk_superblock d1).
  pose proof (main_adds d1 src_file dst data Hok1 Hdst Hdata Hlen Hnone) as Hm.
  cbv zeta in Hm. fold size in Hm. eapply wp_mono; [exact Hm|].
  intros r d' o Hr. by apply (main_result_eqv d d1).
Qed.

(** C27.  The tool with legal arguments, a file of at most 32 blocks and a name the image
    does not have: it returns and the invariant of the file system holds on the image.
    Exactly when there is an unused inode and a free block for every 512 bytes, the exit
    code is 0 and the directory has gained the file, under the first 63 characters of the
    name given and with all its bytes; otherwise the exit code is 1 and the directory is
    as it was. *)
Theorem mkdisk_adds_file d argv0 disk src_file dst data :
  fs_ok (on_image d) → name_arg dst → bytes_ok data → Z.of_nat (length data) ≤ 16384 →
  dir (on_image d) !! take 63 (cstr dst) = None →
  ∃ r d' o, main 4 argv0 disk src_file dst true (Some data) d = Done r d' o ∧
    fs_ok (on_image d') ∧
    (room d data → r = 0 ∧ dir (on_image d') = <[take 63 (cstr dst) := data]> (dir (on_image d))) ∧
    (¬ room d data → r = 1 ∧ dir (on_image d') = dir (on_image d)).
Proof.
  intros Hok Hdst Hdata Hlen Hnone.
  destruct (wp_done _ _ _ (main_spec d argv0 disk src_file dst data Hok Hdst Hdata Hlen Hnone))
    as (r & d' & o & E & Hok' & H). exists r, d', o. split; [exact E|]. split; [exact Hok'|].
  destruct H as [(-> & Hroom & Hd & _)|(-> & Hd & Hwhy)]; split; intros Hr.
  - split; [reflexivity|exact Hd].
  - destruct (Hr Hroom).
  - destruct (room_excludes d data Hr Hwhy).
  - split; [reflexivity|exact Hd].
Qed.

(** C26.  What the tool stored the kernel reads: after a successful run on an image,
    the kernel that boots from it, with anything in memory, mounts it, and
    [fs_read] of the file returns its first bytes, as many as asked for; a file of
    several blocks included. *)
Theorem mkdisk_kernel_reads d argv0 disk src_file dst data d' o sb name buf n :
  fs_ok (on_image d) → name_arg dst → bytes_ok data → Z.of_nat (length data) ≤ 16384 →
  dir (on_image d) !! take 63 (cstr dst) = None →
  main 4 argv0 disk src_file dst true (Some data) d = Done 0 d' o →
  name_arg name → cstr name = take 63 (cstr dst) →
  0 ≤ n < 2 ^ 32 → n ≤ Z.of_nat (length buf) →
  ∃ s2 o2 s3 o3, fs_init (Fs sb d') = Done tt s2 o2 ∧
    let k := (Z.to_nat n `min` length data)%nat in
    fs_read name buf n s2 = Done (Z.of_nat k, take k data ++ drop k buf) s3 o3.
Proof.
  intros Hok Hdst Hdata Hlen Hnone E Hname Hcn Hn Hbuf.
  destruct (wp_done _ _ _ (main_spec d argv0 disk src_file dst data Hok Hdst Hdata Hlen Hnone))
    as (r & d1 & o1 & E1 & Hok' & H). rewrite E in E1. injection E1 as <- <- <-.
  destruct H as [(_ & _ & Hd & _)|[? _]]; [|done]. pose proof (ok_size _ Hok) as Hsz.
  destruct (wp_done _ _ _ (fs_init_spec (Fs sb d') Hsz (ok_dev _ Hok')))
    as ([] & s2 & o2 & E2 & H2). cbn [Fs.disk] in H2.
  change (disk_superblock d') with (superblock (on_image d')) in H2.
  rewrite (ok_magic _ Hok'), Z.eqb_refl in H2. destruct H2 as [He _].
  change (set_sb _ _) with (on_image d') in He.
  destruct (eqv_unchanged _ _ Hok' He) as (Hok2 & _ & Hd2 & _).
  destruct (wp_done _ _ _ (fs_read_spec s2 name buf n Hok2 Hname Hn Hbuf))
    as ([r buf'] & s3 & o3 & E3 & _ & _ & H3).
  rewrite Hd2, Hd, Hcn, lookup_insert_eq in H3. destruct H3 as [Hr Hbuf'].
  cbn [fst snd] in Hr, Hbuf'. subst r buf'. exists s2, o2, s3, o3. split; [exact E2|exact E3].
Qed.

(** The tool never looks at the counter of free blocks: on an image whose
    counter has reached 0 (overwriting files in the kernel leaks it) a successful
    run of a non-empty file leaves a counter just below 2^32. *)
Theorem mkdisk_counter_wraps d argv0 disk src_file dst data d' o :
  fs_ok (on_image d) → name_arg dst → bytes_ok data → 0 < Z.of_nat (length data) ≤ 16384 →
  dir (on_image d) !! take 63 (cstr dst) = None → free_blocks (disk_superblock d) = 0 →
  main 4 argv0 disk src_file dst true (Some data) d = Done 0 d' o →
  free_blocks (disk_superblock d') = 2 ^ 32 - (Z.of_nat (length data) + 511) / 512.
Proof.
  intros Hok Hdst Hdata Hlen Hnone Hzero E.
  destruct (wp_done _ _ _ (main_spec d argv0 disk src_file dst data Hok Hdst Hdata
    ltac:(lia) Hnone)) as (r & d1 & o1 & E1 & _ & H).
  rewrite E in E1. injection E1 as <- <- <-. destruct H as [(_ & _ & _ & H)|[? _]]; [|done].
  rewrite H, Hzero. clear -Hlen. unfold u32. dlia.
Qed.
End thms.

(** ** The theorems at concrete images *)

(** An image without files: a run succeeds. *)
(** Room on an image without files. *)
Lemma empty_image_room d data :
  fs_ok (on_image d) → dir (on_image d) = ∅ → Z.of_nat (length data) ≤ 512 → room d data.
Proof.
  intros Hok Hd Hlen.
  assert (∀ i, 0 ≤ i < 32 → live d i ≠ true) as Hdead.
  { intros i Hi Hl. assert (dir (on_image d) !! name_at d i = None) as Hn by (rewrite Hd; apply lookup_empty).
    rewrite dir_lookup_None in Hn by apply Hok. exact (Hn i Hi Hl eq_refl). }
  split; [exists 0; split; [lia|apply not_true_is_false, Hdead; lia]|].
  exists (seqZ 33 ((Z.of_nat (length data) + 511) / 512)). split; [apply NoDup_seqZ|].
  split; [rewrite length_seqZ; dlia|]. intros b [Hb1 Hb2]%elem_of_seqZ. split; [dlia|].
  intros (i & Hi & Hl & _). exact (Hdead i Hi Hl).
Qed.

Lemma main_empty_image d dst data :
  fs_ok (on_image d) → dir (on_image d) = ∅ → name_arg dst → bytes_ok data →
  Z.of_nat (length data) ≤ 512 →
  ∃ o, main 4 [] [] [] dst true (Some data) d
       = Done 0 (final d (main 4 [] [] [] dst true (Some data) d)) o.
Proof.
  intros Hok Hd Hdst Hdata Hlen.
  assert (dir (on_image d) !! take 63 (cstr dst) = None) as Hnone by (rewrite Hd; apply lookup_empty).
  destruct (wp_done _ _ _ (main_spec d [] [] [] dst data Hok Hdst Hdata ltac:(lia) Hnone))
    as (r & d' & o & E & _ & H). rewrite E. cbn [final]. exists o.
  destruct H as [(-> & _)|(_ & _ & Hwhy)]; [reflexivity|].
  destruct (room_excludes d data (empty_image_room d data Hok Hd Hlen) Hwhy).
Qed.

Definition image0 : ram_disk := Fs.disk ram0.

Lemma image0_ok : fs_ok (on_image image0) ∧ dir (on_image image0) = ∅ ∧ refs image0 = 0.
Proof.
  destruct ram0_empty as (Hd & _ & Href). pose proof ram0_mounted as [Hok Hboot _].
  split; [exact (remounted_ok _ Hok Hboot)|]. split; [exact Hd|exact Href].
Qed.

(** The same image with a counter that has leaked to 0. *)
Definition leaked : superblock_t := Fs.set_free 0 format_superblock.
Definition image1 : ram_disk := final image0 (put_superblock leaked image0).

#[local] Opaque image0.

Lemma image1_ok :
  fs_ok (on_image image1) ∧ dir (on_image image1) = ∅ ∧ refs image1 = 0 ∧
  free_blocks (disk_superblock image1) = 0.
Proof.
  destruct image0_ok as (Hok & Hd & Href). pose proof (ok_size _ Hok) as Hsz.
  assert (1057 ≤ dev_sectors) as Hsz' by lia.
  assert (superblock_ok leaked) as Hsb.
  { constructor; unfold word_ok; simpl; unfold FS_MAGIC; lia. }
  destruct (wp_done _ _ _ (put_superblock_spec Hsz' image0 leaked (ok_dev _ Hok) Hsb))
    as (u & d' & o & E & _ & Hdev & Hsb' & Hsec). unfold image1. rewrite E. cbn [final].
  assert (∀ i, 0 ≤ i < 32 → inode_at d' i = inode_at image0 i) as Hrow.
  { intros i Hi. apply inode_at_ext, Hsec. pose proof (inode_sector_range i Hi). lia. }
  assert (table_ok d') as Ht by (eapply table_ok_ext; [exact Hrow|apply Hok]).
  split; [|split; [|split; [|by rewrite Hsb']]].
  - constructor; cbn [superblock on_image Fs.disk]; rewrite ?Hsb'; try assumption; reflexivity.
  - rewrite <-Hd. apply (dir_ext (on_image image0) (on_image d')); [apply Hok|exact Ht|].
    cbn [Fs.disk on_image]. intros i Hi. unfold live, name_at, contents. rewrite Hrow by exact Hi.
    split; [done|]. intros Hl. exfalso.
    assert (dir (on_image image0) !! name_at image0 i = None) as Hn by (rewrite Hd; apply lookup_empty).
    rewrite dir_lookup_None in Hn by apply Hok. exact (Hn i Hi Hl eq_refl).
  - rewrite <-Href. apply refs_ext. exact Hrow.
Qed.

#[local] Opaque image1.

Lemma image_no_file d n : dir (on_image d) = (∅ : gmap (list Z) (list Z)) → dir (on_image (D := ram_disk) d) !! n = None.
Proof. intros ->. apply lookup_empty. Qed.

Lemma hi_length :
  Z.of_nat (length hi) ≤ 512 ∧ Z.of_nat (length hi) ≤ 16384 ∧ 0 < Z.of_nat (length hi) ≤ 16384.
Proof. simpl. lia. Qed.

Lemma mkdisk_adds_file_witness :
  ∃ d' o, main 4 [] [] [] name_a true (Some hi) image0 = Done 0 d' o ∧
    fs_ok (on_image d') ∧ dir (on_image d') = <[ [97] := hi ]> (dir (on_image image0)).
Proof.
  destruct (mkdisk_adds_file image0 [] [] [] name_a hi (proj1 image0_ok) name_a_arg hi_bytes
    (proj1 (proj2 hi_length)) (image_no_file _ _ (proj1 (proj2 image0_ok))))
    as (r & d' & o & E & Hok & Hadd & _).
  destruct (Hadd (empty_image_room image0 hi (proj1 image0_ok) (proj1 (proj2 image0_ok)) (proj1 hi_length)))
    as [Hr Hd]. rewrite Hr in E. exists d', o. split; [exact E|]. split; [exact Hok|exact Hd].
Defined.

Lemma mkdisk_kernel_reads_witness :
  let d' := final image0 (main 4 [] [] [] name_a true (Some hi) image0) in
  ∃ s2 o2 s3 o3, fs_init (Fs zero_superblock d') = Done tt s2 o2 ∧
    fs_read name_a [0; 0; 0] 3 s2 = Done (2, [104; 105; 0]) s3 o3.
Proof.
  destruct image0_ok as (Hok & Hd & Href). pose proof hi_length as (H512 & H16 & _).
  assert (0 ≤ 3 < 2 ^ 32) as H3 by lia.
  assert (3 ≤ Z.of_nat (length [0; 0; 0])) as H3' by (simpl; lia).
  destruct (main_empty_image image0 name_a hi Hok Hd name_a_arg hi_bytes H512)
    as [o E].
  exact (mkdisk_kernel_reads image0 [] [] [] name_a hi _ o zero_superblock name_a [0; 0; 0] 3
    Hok name_a_arg hi_bytes H16 (image_no_file _ _ Hd) E name_a_arg eq_refl H3 H3').
Defined.

Lemma mkdisk_counter_wraps_witness :
  let d' := final image1 (main 4 [] [] [] name_a true (Some hi) image1) in
  free_blocks (disk_superblock d') = 4294967295.
Proof.
  destruct image1_ok as (Hok & Hd & Href & Hz). pose proof hi_length as (H512 & _ & H16).
  destruct (main_empty_image image1 name_a hi Hok Hd name_a_arg hi_bytes H512)
    as [o E].
  exact (mkdisk_counter_wraps image1 [] [] [] name_a hi _ o Hok name_a_arg hi_bytes
    H16 (image_no_file _ _ Hd) Hz E).
Defined.
