(* ===== verification/Ata.v ===== *)
(** * The ATA disk driver: drivers/ata.c and include/ata.h

    The driver's port-level code over a bus whose behaviour is a parameter:
    [AtaBus] has the four port instructions and [AtaDrive] states what the ATA
    standard says the drive does with them (the task file, the command phases,
    BSY and DRQ, at most [latency] busy polls).  The driver is shown to be a block
    device; [sim_bus] is a concrete drive. *)

From S2P Require Import Prelude Bytes Disk.

Definition ATA_DATA : Z := 0x1F0.
Definition ATA_SECTOR_CNT : Z := 0x1F2.
Definition ATA_LBA_LOW : Z := 0x1F3.
Definition ATA_LBA_MID : Z := 0x1F4.
Definition ATA_LBA_HIGH : Z := 0x1F5.
Definition ATA_DRIVE_HEAD : Z := 0x1F6.
Definition ATA_STATUS : Z := 0x1F7.
Definition ATA_COMMAND : Z := 0x1F7.
Definition ATA_SR_BSY : Z := 0x80.
Definition ATA_SR_DRQ : Z := 0x08.
Definition ATA_CMD_READ : Z := 0x20.
Definition ATA_CMD_WRITE : Z := 0x30.

(** The port instructions, acting on the state of the drive. *)
Class AtaBus (D : Type) := {
  bus_inb : Z → D → Z * D;
  bus_outb : Z → Z → D → D;
  bus_inw : Z → D → Z * D;
  bus_outw : Z → Z → D → D;
}.

(** ** The driver *)

Section driver.
Context {D : Type} `{AtaBus D}.

Definition inb (port : Z) : K D Z := λ d, let (x, d') := bus_inb port d in Done x d' [].
Definition outb (port value : Z) : K D unit := λ d, Done tt (bus_outb port value d) [].
Definition inw (port : Z) : K D Z := λ d, let (x, d') := bus_inw port d in Done x d' [].
Definition outw (port value : Z) : K D unit := λ d, Done tt (bus_outw port value d) [].

(** The polling loops run under [fuel]. *)
Context (fuel : nat).

Definition ata_wait : K D unit :=
  kwhile fuel (λ _,
    s ← inb ATA_STATUS;
    if negb (Z.land s ATA_SR_BSY =? 0) then mret (inl tt) else mret (inr tt)) tt.

Definition ata_wait_drq : K D unit :=
  kwhile fuel (λ _,
    s ← inb ATA_STATUS;
    if Z.land s ATA_SR_DRQ =? 0 then mret (inl tt) else mret (inr tt)) tt.

Definition ata_init : K D unit :=
  outb ATA_DRIVE_HEAD 0xA0;;
  ata_wait;;
  kprintf "ATA: initialised primary bus\n" [].

Definition ata_reset : K D unit :=
  outb ATA_DRIVE_HEAD 0xA0;;
  _ ← kfold 0 (Z.to_nat 10000) (λ _ _, mret tt) tt;
  ata_wait.

(** The task file writes shared by the two transfers. *)
Definition ata_setup (lba : Z) : K D unit :=
  outb ATA_DRIVE_HEAD (u8 (Z.lor 0xE0 (Z.land (Z.shiftr lba 24) 0x0F)));;
  outb ATA_SECTOR_CNT 1;;
  outb ATA_LBA_LOW (Z.land lba 0xFF);;
  outb ATA_LBA_MID (Z.land (Z.shiftr lba 8) 0xFF);;
  outb ATA_LBA_HIGH (Z.land (Z.shiftr lba 16) 0xFF).

(** [buf16[i] = w] and [buf16[i]], on the bytes of the buffer. *)
Definition set_word (buf : list Z) (i w : Z) : option (list Z) :=
  buf ← aset buf (2 * i) (w mod 256); aset buf (2 * i + 1) (w / 256).
Definition get_word (buf : list Z) (i : Z) : option Z :=
  lo ← aget buf (2 * i); hi ← aget buf (2 * i + 1); Some (lo + 256 * hi).

Definition ata_read_sector (lba : Z) (buf : list Z) : K D (list Z) :=
  ata_reset;;
  ata_wait;;
  ata_setup lba;;
  outb ATA_COMMAND ATA_CMD_READ;;
  ata_wait_drq;;
  kfold 0 256 (λ i buf,
    w ← inw ATA_DATA;
    klift (set_word buf i w)) buf.

Definition ata_write_sector (lba : Z) (buf : list Z) : K D unit :=
  ata_wait;;
  ata_setup lba;;
  outb ATA_COMMAND ATA_CMD_WRITE;;
  ata_wait_drq;;
  _ ← kfold 0 256 (λ i _,
    w ← klift (get_word buf i);
    outw ATA_DATA w) tt;
  outb ATA_COMMAND 0xE7;;
  ata_wait.
End driver.

(** ** The drive *)

Inductive phase :=
  | Idle
  | Reading (lba : Z) (k : nat)
  | Writing (lba : Z) (data : list Z).

Record taskfile := Taskfile {
  tf_count : Z; tf_low : Z; tf_mid : Z; tf_high : Z; tf_head : Z;
}.

(** What the standard lets the host know of the drive: the media, the task file,
    the phase of the current command and for how many polls BSY stays set. *)
Record view := View {
  media : Z → list Z;
  regs : taskfile;
  ph : phase;
  busy : nat;
}.

Definition set_busy (n : nat) (v : view) : view := View (media v) (regs v) (ph v) n.
Definition set_regs (r : taskfile) (v : view) : view := View (media v) r (ph v) (busy v).
Definition enter (p : phase) (n : nat) (v : view) : view := View (media v) (regs v) p n.
Definition store (lba : Z) (data : list Z) (v : view) : view :=
  View (λ k, if k =? lba then data else media v k) (regs v) (ph v) (busy v).

Definition set_reg (port x : Z) (r : taskfile) : taskfile :=
  if port =? 0x1F2 then Taskfile x (tf_low r) (tf_mid r) (tf_high r) (tf_head r)
  else if port =? 0x1F3 then Taskfile (tf_count r) x (tf_mid r) (tf_high r) (tf_head r)
  else if port =? 0x1F4 then Taskfile (tf_count r) (tf_low r) x (tf_high r) (tf_head r)
  else if port =? 0x1F5 then Taskfile (tf_count r) (tf_low r) (tf_mid r) x (tf_head r)
  else if port =? 0x1F6 then Taskfile (tf_count r) (tf_low r) (tf_mid r) (tf_high r) x
  else r.

(** The 28-bit address in the task file. *)
Definition tf_lba (r : taskfile) : Z :=
  tf_low r + 256 * tf_mid r + 65536 * tf_high r + 16777216 * (tf_head r mod 16).

(** A one-sector transfer in LBA mode on the master drive. *)
Definition tf_single (r : taskfile) : Prop :=
  tf_count r = 1 ∧ Z.testbit (tf_head r) 6 = true ∧ Z.testbit (tf_head r) 4 = false.

Definition wants_data (p : phase) : bool := match p with Idle => false | _ => true end.

(** The drive, as the standard describes it.  Beyond it, two behaviours of real
    and emulated drives the driver relies on: DRQ is clear while BSY is set, and a
    command written while BSY is set (the cache flush right after the last data
    word) does no harm. *)
Class AtaDrive (D : Type) `{AtaBus D} := {
  sectors : Z;
  latency : nat;
  drive_view : D → view;
  sectors_28 : 0 ≤ sectors ≤ 2 ^ 28;
  drive_status d :
    let '(s, d') := bus_inb ATA_STATUS d in
    match busy (drive_view d) with
    | S n => Z.testbit s 7 = true ∧ Z.testbit s 3 = false ∧
             drive_view d' = set_busy n (drive_view d)
    | O => Z.testbit s 7 = false ∧ Z.testbit s 3 = wants_data (ph (drive_view d)) ∧
           drive_view d' = drive_view d
    end;
  drive_reg d port x : 0x1F2 ≤ port ≤ 0x1F6 → ph (drive_view d) = Idle →
    ∃ r, drive_view (bus_outb port x d) = set_regs r (drive_view d) ∧
         (busy (drive_view d) = 0%nat → r = set_reg port x (regs (drive_view d)));
  drive_read d : let v := drive_view d in
    ph v = Idle → busy v = 0%nat → tf_single (regs v) →
    ∃ n, (n ≤ latency)%nat ∧ drive_view (bus_outb ATA_COMMAND ATA_CMD_READ d) =
      enter (if tf_lba (regs v) <? sectors then Reading (tf_lba (regs v)) 0 else Idle) n v;
  drive_write d : let v := drive_view d in
    ph v = Idle → busy v = 0%nat → tf_single (regs v) →
    ∃ n, (n ≤ latency)%nat ∧ drive_view (bus_outb ATA_COMMAND ATA_CMD_WRITE d) =
      enter (if tf_lba (regs v) <? sectors then Writing (tf_lba (regs v)) [] else Idle) n v;
  drive_flush d : ph (drive_view d) = Idle →
    ∃ n, (n ≤ latency)%nat ∧
      drive_view (bus_outb ATA_COMMAND 0xE7 d) = set_busy n (drive_view d);
  drive_data_in d lba k : let v := drive_view d in
    ph v = Reading lba k → busy v = 0%nat → (k < 256)%nat →
    let '(w, d') := bus_inw ATA_DATA d in
    w = le_Z (slice (2 * k) 2 (media v lba)) ∧
    drive_view d' = enter (if decide (k = 255)%nat then Idle else Reading lba (S k)) 0 v;
  drive_data_out d lba data w : let v := drive_view d in
    ph v = Writing lba data → busy v = 0%nat → (length data < 512)%nat →
    let data' := data ++ le_bytes 2 w in
    if decide (length data' = 512)%nat
    then ∃ n, (n ≤ latency)%nat ∧
           drive_view (bus_outw ATA_DATA w d) = store lba data' (enter Idle n v)
    else drive_view (bus_outw ATA_DATA w d) = enter (Writing lba data') 0 v;
}.

(** ** The driver over the drive *)

Lemma land_pow2_zero s k : 0 ≤ k → (Z.land s (2 ^ k) =? 0) = negb (Z.testbit s k).
Proof.
  intros Hk. destruct (Z.testbit s k) eqn:E; simpl.
  - apply Z.eqb_neq. intros H. apply (f_equal (λ z, Z.testbit z k)) in H.
    rewrite Z.land_spec, E, Z.pow2_bits_true, Z.bits_0 in H by lia. discriminate.
  - apply Z.eqb_eq, Z.bits_inj_0. intros j. rewrite Z.land_spec, Z.pow2_bits_eqb by lia.
    destruct (Z.eqb_spec k j) as [->|]; [by rewrite E|apply andb_false_r].
Qed.

(** The task file set up for sector [lba]. *)
Lemma tf_lba_setup lba :
  0 ≤ lba →
  let r := Taskfile 1 (Z.land lba 255) (Z.land (Z.shiftr lba 8) 255)
             (Z.land (Z.shiftr lba 16) 255)
             (u8 (Z.lor 0xE0 (Z.land (Z.shiftr lba 24) 0x0F))) in
  tf_single r ∧ tf_lba r = lba mod 2 ^ 28.
Proof.
  intros Hl. cbv zeta. change 255 with (Z.ones 8). change 0x0F with (Z.ones 4).
  rewrite !Z.land_ones by lia. rewrite !Z.shiftr_div_pow2 by lia.
  set (h := (lba / 2 ^ 24) mod 2 ^ 4).
  assert (0 ≤ h < 16) as Hh by (unfold h; dlia).
  assert (Z.lor 0xE0 h = 0xE0 + h) as ->.
  { change 0xE0 with (Z.shiftl 14 4). rewrite <-(Z.add_lor_land (Z.shiftl 14 4) h).
    replace (Z.land (Z.shiftl 14 4) h) with 0; [lia|]. symmetry. apply Z.bits_inj_0.
    intros j. rewrite Z.land_spec. destruct (Z.ltb_spec j 4).
    - rewrite Z.shiftl_spec_low by lia. reflexivity.
    - rewrite <-(Z.mod_small h (2 ^ 4)) by lia. rewrite Z.mod_pow2_bits_high by lia.
      apply andb_false_r. }
  rewrite u8_small by lia. split.
  - split; [reflexivity|]. simpl tf_head.
    assert (h = 0 ∨ h = 1 ∨ h = 2 ∨ h = 3 ∨ h = 4 ∨ h = 5 ∨ h = 6 ∨ h = 7 ∨ h = 8 ∨ h = 9 ∨
      h = 10 ∨ h = 11 ∨ h = 12 ∨ h = 13 ∨ h = 14 ∨ h = 15) as Hc by lia.
    repeat destruct Hc as [Hc|Hc]; rewrite Hc; split; reflexivity.
  - unfold tf_lba. cbn [tf_low tf_mid tf_high tf_head].
    replace ((0xE0 + h) mod 16) with h by dlia. unfold h. dlia.
Qed.

Section spec.
Context {D : Type} `{AtaDrive D}.
Context (fuel : nat) (Hfuel : (latency < fuel)%nat).
Implicit Types (d : D) (v : view).

Definition sector_bytes (v : view) : Prop :=
  ∀ k, 0 ≤ k < sectors → length (media v k) = 512%nat ∧ bytes_ok (media v k).

(** Between two driver calls the drive is idle. *)
Definition ready (v : view) : Prop := ph v = Idle ∧ busy v = 0%nat ∧ sector_bytes v.

Lemma inb_status d :
  wp (inb ATA_STATUS) d (λ s d' o, o = [] ∧
    match busy (drive_view d) with
    | S n => Z.testbit s 7 = true ∧ Z.testbit s 3 = false ∧
             drive_view d' = set_busy n (drive_view d)
    | O => Z.testbit s 7 = false ∧ Z.testbit s 3 = wants_data (ph (drive_view d)) ∧
           drive_view d' = drive_view d
    end).
Proof.
  pose proof (drive_status d) as Hs. unfold wp, inb.
  destruct (bus_inb ATA_STATUS d) as [s d']. split; [reflexivity|exact Hs].
Qed.

(** Polling until a status bit says so, when BSY going down makes it so. *)
Lemma poll_spec (test : Z → bool) d :
  (busy (drive_view d) < fuel)%nat →
  (∀ s, Z.testbit s 7 = true → Z.testbit s 3 = false → test s = true) →
  (∀ s, Z.testbit s 7 = false → Z.testbit s 3 = wants_data (ph (drive_view d)) →
     test s = false) →
  wp (kwhile fuel (λ _ : unit, s ← inb ATA_STATUS;
        if test s then mret (inl tt) else mret (inr tt)) tt) d
    (λ _ d' o, o = [] ∧ drive_view d' = set_busy 0 (drive_view d)).
Proof.
  intros Hb Hbusy Hdone.
  apply wp_kwhile with (measure := λ _ d', busy (drive_view d'))
    (I := λ _ d' o, o = [] ∧ ∃ n, drive_view d' = set_busy n (drive_view d)).
  - exact Hb.
  - split; [reflexivity|]. exists (busy (drive_view d)). by destruct (drive_view d).
  - intros _ d' o (-> & n & Hn). wp_steps. eapply wp_mono; [apply inb_status|].
    intros s d2 o (-> & Hs). rewrite Hn in Hs. cbn [set_busy busy] in Hs.
    destruct n as [|n]; destruct Hs as (H7 & H3 & Hv).
    + rewrite Hdone by assumption. wp_steps. split; [reflexivity|]. rewrite Hv. reflexivity.
    + rewrite Hbusy by assumption. wp_steps. rewrite Hv, Hn. simpl. split; [lia|].
      split; [reflexivity|]. by exists n.
Qed.

Lemma ata_wait_spec d :
  (busy (drive_view d) < fuel)%nat →
  wp (ata_wait fuel) d (λ _ d' o, o = [] ∧ drive_view d' = set_busy 0 (drive_view d)).
Proof.
  intros Hb. apply (poll_spec (λ s, negb (Z.land s ATA_SR_BSY =? 0))); [exact Hb| |];
    intros s H7 _; change ATA_SR_BSY with (2 ^ 7); rewrite land_pow2_zero, H7 by lia;
    reflexivity.
Qed.

Lemma ata_wait_drq_spec d :
  (busy (drive_view d) < fuel)%nat → wants_data (ph (drive_view d)) = true →
  wp (ata_wait_drq fuel) d (λ _ d' o, o = [] ∧ drive_view d' = set_busy 0 (drive_view d)).
Proof.
  intros Hb Hw. apply (poll_spec (λ s, Z.land s ATA_SR_DRQ =? 0)); [exact Hb| |];
    intros s _ H3; change ATA_SR_DRQ with (2 ^ 3); rewrite land_pow2_zero, H3 by lia;
    [reflexivity|by rewrite Hw].
Qed.

Lemma wp_outb port x d (Q : unit → D → list event → Prop) :
  Q tt (bus_outb port x d) [] → wp (outb port x) d Q.
Proof. done. Qed.

(** Writing a task file register of an idle drive. *)
Lemma outb_reg_spec d port x :
  0x1F2 ≤ port ≤ 0x1F6 → ph (drive_view d) = Idle → busy (drive_view d) = 0%nat →
  wp (outb port x) d (λ _ d' o, o = [] ∧
    drive_view d' = set_regs (set_reg port x (regs (drive_view d))) (drive_view d)).
Proof.
  intros Hp Hi Hb. split; [reflexivity|].
  destruct (drive_reg d port x Hp Hi) as (r & Hv & Hr). by rewrite Hv, Hr.
Qed.

Lemma ata_reset_spec d :
  ready (drive_view d) →
  wp (ata_reset fuel) d (λ _ d' o, o = [] ∧
    ∃ r, drive_view d' = set_regs r (drive_view d)).
Proof.
  intros (Hi & Hb & _). unfold ata_reset. wp_steps.
  eapply wp_mono; [apply outb_reg_spec; [unfold ATA_DRIVE_HEAD; lia|exact Hi|exact Hb]|].
  intros _ d1 o (-> & Hv1). wp_steps.
  apply wp_kfold with (I := λ _ _ d' o, d' = d1 ∧ o = []); [done| |].
  - intros j u d2 o _ (-> & ->). wp_steps. done.
  - intros u d2 o (-> & ->). eapply wp_mono.
    { apply ata_wait_spec. rewrite Hv1. simpl. rewrite Hb. lia. }
    intros _ d3 o (-> & Hv3). split; [reflexivity|]. rewrite Hv3, Hv1.
    exists (set_reg ATA_DRIVE_HEAD 0xA0 (regs (drive_view d))).
    destruct (drive_view d) as [m r p b]. simpl in *. by subst b.
Qed.

Lemma ata_init_spec d :
  ready (drive_view d) →
  wp (ata_init fuel) d (λ _ d' o, o = [EvPrintf "ATA: initialised primary bus\n" []] ∧
    ∃ r, drive_view d' = set_regs r (drive_view d)).
Proof.
  intros (Hi & Hb & _). unfold ata_init. wp_steps.
  eapply wp_mono; [apply outb_reg_spec; [unfold ATA_DRIVE_HEAD; lia|exact Hi|exact Hb]|].
  intros _ d1 o (-> & Hv1). wp_steps. eapply wp_mono.
  { apply ata_wait_spec. rewrite Hv1. simpl. rewrite Hb. lia. }
  intros _ d3 o (-> & Hv3). wp_steps. split; [reflexivity|]. rewrite Hv3, Hv1.
  exists (set_reg ATA_DRIVE_HEAD 0xA0 (regs (drive_view d))).
  destruct (drive_view d) as [m r p b]. simpl in *. by subst b.
Qed.

Lemma ata_setup_spec d lba :
  0 ≤ lba < 2 ^ 32 → ready (drive_view d) →
  wp (ata_setup lba) d (λ _ d' o, o = [] ∧ ∃ r, drive_view d' = set_regs r (drive_view d) ∧
    tf_single r ∧ tf_lba r = lba mod 2 ^ 28).
Proof.
  intros Hl (Hi & Hb & _). unfold ata_setup. wp_steps.
  eapply wp_mono; [apply outb_reg_spec; [unfold ATA_DRIVE_HEAD; lia|assumption|assumption]|].
  intros _ d1 o (-> & Hv1). wp_steps.
  eapply wp_mono; [apply outb_reg_spec; [unfold ATA_SECTOR_CNT; lia|rewrite Hv1; assumption..]|].
  intros _ d2 o (-> & Hv2). rewrite Hv1 in Hv2. wp_steps.
  eapply wp_mono; [apply outb_reg_spec; [unfold ATA_LBA_LOW; lia|rewrite Hv2; assumption..]|].
  intros _ d3 o (-> & Hv3). rewrite Hv2 in Hv3. wp_steps.
  eapply wp_mono; [apply outb_reg_spec; [unfold ATA_LBA_MID; lia|rewrite Hv3; assumption..]|].
  intros _ d4 o (-> & Hv4). rewrite Hv3 in Hv4. wp_steps.
  eapply wp_mono; [apply outb_reg_spec; [unfold ATA_LBA_HIGH; lia|rewrite Hv4; assumption..]|].
  intros _ d5 o (-> & Hv5). rewrite Hv4 in Hv5. split; [reflexivity|].
  eexists. split; [exact Hv5|]. apply (tf_lba_setup lba). lia.
Qed.

(** ** Transfers *)

(** One word moved into the buffer. *)
Lemma set_word_slice (sec buf : list Z) (k : nat) :
  bytes_ok sec → length sec = 512%nat → length buf = 512%nat → (k < 256)%nat →
  set_word (take (2 * k) sec ++ drop (2 * k) buf) (Z.of_nat k) (le_Z (slice (2 * k) 2 sec))
  = Some (take (2 * S k) sec ++ drop (2 * S k) buf).
Proof.
  intros Hb Hs Hl Hk.
  destruct (lookup_lt_is_Some_2 sec (2 * k)) as [x Hx]; [lia|].
  destruct (lookup_lt_is_Some_2 sec (S (2 * k))) as [y Hy]; [lia|].
  assert (byte_ok x ∧ byte_ok y) as [Hbx Hby].
  { split; eapply Forall_lookup_1; eassumption. }
  unfold byte_ok in Hbx, Hby. unfold slice.
  rewrite (drop_S sec x (2 * k) Hx), (drop_S sec y (S (2 * k)) Hy).
  assert (le_Z (take 2 (x :: y :: drop (S (S (2 * k))) sec)) = x + 256 * y) as -> by (simpl; lia).
  unfold set_word. replace ((x + 256 * y) mod 256) with x by dlia.
  replace ((x + 256 * y) / 256) with y by dlia.
  set (l := take (2 * k) sec ++ drop (2 * k) buf).
  assert (length l = 512%nat) as Hll.
  { unfold l. rewrite length_app, length_take, length_drop. lia. }
  rewrite aset_Some by lia. simpl mbind. rewrite aset_Some by (rewrite length_insert; lia).
  f_equal. apply list_eq. intros j.
  replace (Z.to_nat (2 * Z.of_nat k)) with (2 * k)%nat by lia.
  replace (Z.to_nat (2 * Z.of_nat k + 1)) with (S (2 * k))%nat by lia.
  assert (∀ m, (m ≤ 512)%nat → (take m sec ++ drop m buf) !! j
    = if decide (j < m)%nat then sec !! j else buf !! j) as Hlook.
  { intros m Hm. destruct (decide (j < m)%nat).
    - rewrite lookup_app_l by (rewrite length_take; lia). by apply lookup_take_lt.
    - rewrite lookup_app_r, length_take, lookup_drop by (rewrite length_take; lia).
      f_equal. lia. }
  rewrite !list_lookup_insert, length_insert, Hll. unfold l. rewrite !Hlook by lia.
  repeat case_decide; try lia; try congruence; intuition (subst; congruence || lia).
Qed.

Lemma read_loop d lba buf :
  ph (drive_view d) = Reading lba 0 → busy (drive_view d) = 0%nat →
  bytes_ok (media (drive_view d) lba) → length (media (drive_view d) lba) = 512%nat →
  length buf = 512%nat →
  wp (kfold 0 256 (λ i buf, w ← inw ATA_DATA; klift (set_word buf i w)) buf) d
    (λ buf' d' o, o = [] ∧ buf' = media (drive_view d) lba ∧
       drive_view d' = enter Idle 0 (drive_view d)).
Proof.
  intros Hph Hb Hsec Hlen Hbuf. set (v := drive_view d) in *. set (sec := media v lba) in *.
  apply wp_kfold with (I := λ i buf' d' o, o = [] ∧
    buf' = take (2 * Z.to_nat i) sec ++ drop (2 * Z.to_nat i) buf ∧
    drive_view d' = enter (if decide (Z.to_nat i = 256)%nat then Idle
                           else Reading lba (Z.to_nat i)) 0 v).
  - split; [reflexivity|]. split; [reflexivity|]. fold v. destruct v. simpl in *. by subst.
  - intros i buf' d1 o Hi (-> & -> & Hv). destruct (Z_of_nat_complete i) as [k ->]; [lia|].
    rewrite Nat2Z.id in *. assert (k < 256)%nat as Hk by lia.
    rewrite decide_False in Hv by lia. wp_steps.
    pose proof (drive_data_in d1 lba k) as Hin. rewrite Hv in Hin.
    specialize (Hin eq_refl eq_refl Hk). unfold wp at 1, inw.
    destruct (bus_inw ATA_DATA d1) as [w d2]. destruct Hin as [-> Hv2].
    eapply wp_lift; [by apply set_word_slice|]. split; [reflexivity|].
    replace (Z.to_nat (Z.of_nat k + 1)) with (S k) by lia. split; [reflexivity|].
    rewrite Hv2. unfold enter. simpl. f_equal.
    destruct (decide (k = 255)%nat), (decide (S k = 256)%nat); reflexivity || lia.
  - change (Z.to_nat (0 + Z.of_nat 256)) with 256%nat.
    intros buf' d' o (-> & -> & Hv). split; [reflexivity|].
    split; [|by rewrite decide_True in Hv].
    rewrite take_ge, drop_ge by lia. apply app_nil_r.
Qed.

Lemma get_word_pair (buf : list Z) (k : nat) x y :
  bytes_ok buf → buf !! (2 * k)%nat = Some x → buf !! S (2 * k) = Some y →
  get_word buf (Z.of_nat k) = Some (x + 256 * y) ∧ le_bytes 2 (x + 256 * y) = [x; y].
Proof.
  intros Hb Hx Hy. split.
  - unfold get_word. rewrite !aget_eq by lia.
    replace (Z.to_nat (2 * Z.of_nat k)) with (2 * k)%nat by lia.
    replace (Z.to_nat (2 * Z.of_nat k + 1)) with (S (2 * k))%nat by lia.
    by rewrite Hx, Hy.
  - assert (byte_ok x ∧ byte_ok y) as [Hbx Hby].
    { split; eapply Forall_lookup_1; eassumption. }
    unfold byte_ok in *.
    change (le_bytes 2 (x + 256 * y))
      with [(x + 256 * y) mod 256; (x + 256 * y) / 256 mod 256].
    replace ((x + 256 * y) mod 256) with x by dlia.
    replace ((x + 256 * y) / 256) with y by dlia. by rewrite Z.mod_small by lia.
Qed.

Lemma write_loop d lba buf :
  ph (drive_view d) = Writing lba [] → busy (drive_view d) = 0%nat →
  bytes_ok buf → length buf = 512%nat →
  wp (kfold 0 256 (λ i _, w ← klift (get_word buf i); outw ATA_DATA w) tt) d
    (λ _ d' o, o = [] ∧ ∃ n, (n ≤ latency)%nat ∧
       drive_view d' = store lba buf (enter Idle n (drive_view d))).
Proof.
  intros Hph Hb Hbuf Hlen. set (v := drive_view d) in *.
  apply wp_kfold with (I := λ i _ d' o, o = [] ∧
    let k := Z.to_nat i in
    if decide (k = 256)%nat
    then ∃ n, (n ≤ latency)%nat ∧ drive_view d' = store lba buf (enter Idle n v)
    else drive_view d' = enter (Writing lba (take (2 * k) buf)) 0 v).
  - split; [reflexivity|]. change (Z.to_nat 0) with 0%nat. cbv zeta.
    rewrite decide_False by lia. fold v. destruct v. simpl in *. by subst.
  - intros i u d1 o Hi (-> & Hv). destruct (Z_of_nat_complete i) as [k ->]; [lia|].
    rewrite Nat2Z.id in Hv. assert (k < 256)%nat as Hk by lia. cbv zeta in Hv.
    rewrite decide_False in Hv by lia.
    destruct (lookup_lt_is_Some_2 buf (2 * k)) as [x Hx]; [lia|].
    destruct (lookup_lt_is_Some_2 buf (S (2 * k))) as [y Hy]; [lia|].
    destruct (get_word_pair buf k x y Hbuf Hx Hy) as [Hget Hle].
    wp_steps. eapply wp_lift; [exact Hget|]. split; [reflexivity|]. cbv zeta.
    replace (Z.to_nat (Z.of_nat k + 1)) with (S k) by lia.
    pose proof (drive_data_out d1 lba (take (2 * k) buf) (x + 256 * y)) as Hout.
    cbv zeta in Hout. rewrite Hv, Hle in Hout.
    assert (take (2 * k) buf ++ [x; y] = take (2 * S k) buf) as Htk.
    { replace (2 * S k)%nat with (S (S (2 * k))) by lia.
      rewrite (take_S_r _ _ _ Hy), (take_S_r _ _ _ Hx), <-app_assoc. reflexivity. }
    rewrite Htk, !length_take in Hout.
    specialize (Hout eq_refl eq_refl ltac:(lia)).
    destruct (decide (S k = 256)%nat) as [HSk|Hk'].
    + rewrite decide_True in Hout by lia. rewrite take_ge in Hout by lia. exact Hout.
    + rewrite decide_False in Hout by lia. exact Hout.
  - change (Z.to_nat (0 + Z.of_nat 256)) with 256%nat. intros u d' o (-> & Hv).
    split; [reflexivity|]. exact Hv.
Qed.

Lemma ready_set_regs r v : ready v → ready (set_regs r v).
Proof. intros (H1 & H2 & H3). split; [exact H1|]. split; [exact H2|exact H3]. Qed.

(** Waiting and setting up the task file: the state in which a command is
    written. *)
Lemma ata_prepare {A} d lba (m : K D A) Q :
  0 ≤ lba < 2 ^ 32 → ready (drive_view d) →
  (∀ d' r, drive_view d' = set_regs r (drive_view d) → tf_single r →
     tf_lba r = lba mod 2 ^ 28 → wp m d' Q) →
  wp (ata_wait fuel;; ata_setup lba;; m) d Q.
Proof.
  intros Hl Hr HQ. wp_steps. eapply wp_mono.
  { apply ata_wait_spec. rewrite (proj1 (proj2 Hr)). lia. }
  intros _ d1 o (-> & Hv1). wp_steps.
  assert (drive_view d1 = drive_view d) as Hv1'.
  { rewrite Hv1. destruct Hr as (_ & Hb & _). destruct (drive_view d). simpl in *. by subst. }
  eapply wp_mono; [apply ata_setup_spec; [exact Hl|by rewrite Hv1']|].
  intros _ d2 o (-> & r & Hv2 & Hsingle & Hlba). rewrite Hv1' in Hv2.
  exact (HQ d2 r Hv2 Hsingle Hlba).
Qed.

(** Waiting for DRQ after a command that entered a data phase. *)
Lemma ata_await_data d (p : phase) (n : nat) v :
  drive_view d = enter p n v → (n ≤ latency)%nat → wants_data p = true →
  wp (ata_wait_drq fuel) d (λ _ d' o, o = [] ∧ drive_view d' = enter p 0 v).
Proof.
  intros Hv Hn Hp. eapply wp_mono.
  { apply ata_wait_drq_spec; rewrite Hv; [simpl; lia|exact Hp]. }
  intros _ d' o (-> & Hv'). split; [reflexivity|]. rewrite Hv', Hv. reflexivity.
Qed.

Lemma ata_read_sector_spec d lba buf :
  0 ≤ lba < sectors → ready (drive_view d) → length buf = 512%nat →
  wp (ata_read_sector fuel lba buf) d (λ buf' d' o, o = [] ∧
    buf' = media (drive_view d) lba ∧ ready (drive_view d') ∧
    media (drive_view d') = media (drive_view d)).
Proof.
  intros Hl Hr Hbuf. pose proof sectors_28 as H28. unfold ata_read_sector. wp_steps.
  eapply wp_mono; [by apply ata_reset_spec|]. intros _ d0 o (-> & r0 & Hv0).
  pose proof (ready_set_regs r0 _ Hr) as Hr0. rewrite <-Hv0 in Hr0.
  apply ata_prepare; [lia|exact Hr0|]. intros d1 r Hv1 Hsingle Hlba.
  rewrite Z.mod_small in Hlba by lia. rewrite Hv0 in Hv1. wp_steps.
  pose proof (drive_read d1) as Hcmd. cbv zeta in Hcmd. rewrite Hv1 in Hcmd.
  destruct (Hcmd (proj1 Hr) (proj1 (proj2 Hr)) Hsingle) as (n & Hn & Hv2).
  simpl in Hv2. rewrite Hlba in Hv2. destruct (Z.ltb_spec lba sectors); [|lia].
  apply wp_outb. wp_steps. eapply wp_mono; [eapply ata_await_data; [exact Hv2|exact Hn|reflexivity]|].
  intros _ d3 o (-> & Hv3). destruct Hr as (Hi & Hb & Hs). destruct (Hs lba Hl) as [Hsl Hsb].
  eapply wp_mono; [apply (read_loop d3 lba); rewrite ?Hv3; done|].
  intros buf' d4 o (-> & -> & Hv4). split; [reflexivity|]. rewrite Hv4, Hv3.
  split; [reflexivity|]. split; [|reflexivity]. split; [reflexivity|]. split; [reflexivity|exact Hs].
Qed.

Lemma ata_write_sector_spec d lba buf :
  0 ≤ lba < sectors → ready (drive_view d) → length buf = 512%nat → bytes_ok buf →
  wp (ata_write_sector fuel lba buf) d (λ _ d' o, o = [] ∧ ready (drive_view d') ∧
    ∀ k, media (drive_view d') k = if k =? lba then buf else media (drive_view d) k).
Proof.
  intros Hl Hr Hlen Hbuf. pose proof sectors_28 as H28. unfold ata_write_sector.
  apply ata_prepare; [lia|exact Hr|]. intros d1 r Hv1 Hsingle Hlba.
  rewrite Z.mod_small in Hlba by lia. wp_steps.
  pose proof (drive_write d1) as Hcmd. cbv zeta in Hcmd. rewrite Hv1 in Hcmd.
  destruct (Hcmd (proj1 Hr) (proj1 (proj2 Hr)) Hsingle) as (n & Hn & Hv2).
  simpl in Hv2. rewrite Hlba in Hv2. destruct (Z.ltb_spec lba sectors); [|lia].
  apply wp_outb. wp_steps. eapply wp_mono; [eapply ata_await_data; [exact Hv2|exact Hn|reflexivity]|].
  intros _ d3 o (-> & Hv3). wp_steps.
  eapply wp_mono; [apply (write_loop d3 lba); rewrite ?Hv3; done|].
  intros _ d4 o (-> & n4 & Hn4 & Hv4). rewrite Hv3 in Hv4. wp_steps.
  destruct (drive_flush d4) as (n5 & Hn5 & Hv5); [by rewrite Hv4|].
  apply wp_outb. eapply wp_mono.
  { apply ata_wait_spec. rewrite Hv5. simpl. lia. }
  intros _ d6 o (-> & Hv6). split; [reflexivity|]. rewrite Hv6, Hv5, Hv4.
  split; [|done]. split; [reflexivity|]. split; [reflexivity|].
  intros k Hk. simpl. destruct (k =? lba); [by split|]. by apply Hr.
Qed.

(** ** The block device the driver implements *)

#[export] Instance ata_ops : BlockOps D := {
  dev_read lba := ata_read_sector fuel lba (replicate 512 0);
  dev_write lba buf := ata_write_sector fuel lba buf;
}.

#[export] Instance ata_device : BlockDevice D.
Proof.
  refine {| dev_sectors := sectors; dev_ok := λ d, ready (drive_view d);
            sector := λ d, media (drive_view d) |}.
  - intros d k (_ & _ & Hs) Hk. by apply Hs.
  - intros d k Hr Hk. unfold dev_read, ata_ops.
    eapply wp_mono; [apply ata_read_sector_spec; [exact Hk|exact Hr|reflexivity]|].
    intros buf d' o (-> & -> & Hr' & Hm). split; [reflexivity|]. split; [reflexivity|].
    split; [exact Hr'|]. intros j _. by rewrite Hm.
  - intros d k buf Hr Hk Hlen Hb. unfold dev_write, ata_ops.
    eapply wp_mono; [by apply ata_write_sector_spec|].
    intros _ d' o (-> & Hr' & Hm). split; [reflexivity|]. split; [exact Hr'|].
    intros j _. apply Hm.
Defined.
End spec.

(** ** A concrete drive

    2048 sectors; BSY stays set for three polls after every command and after the
    last data word. *)

Section sim.
Definition sim_sectors : Z := 2048.

Definition sim_inb (port : Z) (v : view) : Z * view :=
  if port =? ATA_STATUS then
    match busy v with
    | S n => (0x80, set_busy n v)
    | O => (if wants_data (ph v) then 0x48 else 0x40, v)
    end
  else (0, v).

Definition sim_outb (port x : Z) (v : view) : view :=
  if port =? ATA_COMMAND then
    if x =? ATA_CMD_READ then
      enter (if tf_lba (regs v) <? sim_sectors then Reading (tf_lba (regs v)) 0 else Idle) 3 v
    else if x =? ATA_CMD_WRITE then
      enter (if tf_lba (regs v) <? sim_sectors then Writing (tf_lba (regs v)) [] else Idle) 3 v
    else set_busy 3 v
  else set_regs (set_reg port x (regs v)) v.

Definition sim_inw (port : Z) (v : view) : Z * view :=
  match ph v with
  | Reading lba k =>
      (le_Z (slice (2 * k) 2 (media v lba)),
       enter (if decide (k = 255)%nat then Idle else Reading lba (S k)) 0 v)
  | _ => (0, v)
  end.

Definition sim_outw (port w : Z) (v : view) : view :=
  match ph v with
  | Writing lba data =>
      let data' := data ++ le_bytes 2 w in
      if decide (length data' = 512)%nat then store lba data' (enter Idle 3 v)
      else enter (Writing lba data') 0 v
  | _ => v
  end.

#[export] Instance sim_bus : AtaBus view := {
  bus_inb := sim_inb; bus_outb := sim_outb; bus_inw := sim_inw; bus_outw := sim_outw;
}.

#[export] Instance sim_drive : AtaDrive view.
Proof.
  refine {| sectors := sim_sectors; latency := 3%nat; drive_view := id |}.
  - unfold sim_sectors. lia.
  - intros v. simpl. unfold sim_inb. simpl. destruct (busy v) as [|n] eqn:Hb.
    + destruct (wants_data (ph v)) eqn:Hw; simpl; unfold id; rewrite ?Hb, ?Hw;
        repeat split; reflexivity.
    + simpl. unfold id. rewrite ?Hb. repeat split; reflexivity.
  - intros v port x Hp _. exists (set_reg port x (regs v)). split; [|done].
    simpl. unfold sim_outb, ATA_COMMAND. destruct (Z.eqb_spec port 0x1F7); [lia|reflexivity].
  - intros v w _ _ _. exists 3%nat. split; [lia|reflexivity].
  - intros v w _ _ _. exists 3%nat. split; [lia|reflexivity].
  - intros v _. exists 3%nat. split; [lia|reflexivity].
  - intros v lba k w Hph _ _. simpl. unfold sim_inw. subst w. unfold id in *. rewrite Hph.
    split; reflexivity.
  - intros v lba data x w Hph _ _ data'. simpl. unfold sim_outw. subst w. unfold id in *.
    rewrite Hph. fold data'. destruct (decide (length data' = 512%nat)); [|reflexivity].
    exists 3%nat. split; [lia|reflexivity].
Defined.
End sim.
