(* ===== verification/AtaThms.v ===== *)
(** * The disk driver's theorems, and the file system over the driver *)

From S2P Require Import Prelude Bytes Disk Fs FsCodec FsView FsBoot FsThms Ata.

Section thms.
Context {D : Type} `{AtaDrive D}.
Context (fuel : nat) (Hfuel : (latency < fuel)%nat).

(** Transfers: on an idle drive [ata_write_sector] returns, and a following
    [ata_read_sector] of any sector returns the bytes written for the sector
    that was written and the old bytes for every other; the caller's buffer is
    filled whatever it held, and the drive is idle again. *)
Theorem ata_transfers d lba buf k buf0 :
  0 ≤ lba < sectors → 0 ≤ k < sectors → ready (drive_view d) →
  length buf = 512%nat → bytes_ok buf → length buf0 = 512%nat →
  ∃ d1 d2, ata_write_sector fuel lba buf d = Done tt d1 [] ∧ ready (drive_view d1) ∧
    ata_read_sector fuel k buf0 d1
      = Done (if k =? lba then buf else media (drive_view d) k) d2 [] ∧
    ready (drive_view d2) ∧ media (drive_view d2) = media (drive_view d1).
Proof.
  intros Hl Hk Hr Hlen Hb Hlen0.
  destruct (wp_done _ _ _ (ata_write_sector_spec fuel Hfuel d lba buf Hl Hr Hlen Hb))
    as ([] & d1 & o1 & E1 & -> & Hr1 & Hm1).
  destruct (wp_done _ _ _ (ata_read_sector_spec fuel Hfuel d1 k buf0 Hk Hr1 Hlen0))
    as (x & d2 & o2 & E2 & -> & -> & Hr2 & Hm2).
  exists d1, d2. split; [exact E1|]. split; [exact Hr1|]. rewrite <-Hm1. split; [exact E2|].
  split; [exact Hr2|exact Hm2].
Qed.

(** Polling an idle drive for DRQ never ends. *)
Lemma wait_drq_idle n : ∀ d,
  ph (drive_view d) = Idle → ata_wait_drq n d = Diverged.
Proof.
  unfold ata_wait_drq. induction n as [|n IH]; intros d Hph; [reflexivity|].
  change (kwhile (S n) ?b tt) with (x ← b tt; match x with
    | inl a' => kwhile n b a' | inr r => mret r end).
  pose proof (drive_status d) as Hs. unfold mbind, K_bind, inb.
  destruct (bus_inb ATA_STATUS d) as [s d'].
  assert (Z.testbit s 3 = false ∧ ph (drive_view d') = Idle) as [H3 Hph'].
  { destruct (busy (drive_view d)) as [|m]; destruct Hs as (_ & H3 & Hv);
      rewrite Hv, H3; [rewrite Hph|simpl]; done. }
  change ATA_SR_DRQ with (2 ^ 3). rewrite land_pow2_zero, H3 by lia.
  cbn. unfold mbind, K_bind in IH. by rewrite IH.
Qed.

Lemma bind_diverges {A B} (m : K D A) (f : A → K D B) d :
  wp m d (λ a d' _, f a d' = Diverged) → (m ≫= f) d = Diverged.
Proof.
  unfold wp, mbind, K_bind. destruct (m d) as [a d' o| | |]; try done. by intros ->.
Qed.

(** A sector beyond the end of the drive hangs the kernel: the drive
    reports the error in the status register, which the driver does not look
    at, and DRQ never comes.  (Addresses are cut to 28 bits.) *)
Theorem ata_read_out_of_range_hangs d lba buf :
  0 ≤ lba < 2 ^ 32 → sectors ≤ lba mod 2 ^ 28 → ready (drive_view d) →
  ata_read_sector fuel lba buf d = Diverged.
Proof.
  intros Hl Hout Hr. unfold ata_read_sector. apply bind_diverges.
  eapply wp_mono; [by apply (ata_reset_spec fuel Hfuel)|]. intros _ d0 o (-> & r0 & Hv0).
  pose proof (ready_set_regs r0 _ Hr) as Hr0. rewrite <-Hv0 in Hr0.
  set (m := outb ATA_COMMAND ATA_CMD_READ;; _).
  assert (wp (ata_wait fuel;; ata_setup lba;; kget) d0 (λ d1 _ _, m d1 = Diverged)) as Hw.
  { apply (ata_prepare fuel Hfuel); [exact Hl|exact Hr0|].
    intros d1 r Hv1 Hsingle Hlba. rewrite Hv0 in Hv1. wp_steps.
    pose proof (drive_read d1) as Hcmd. cbv zeta in Hcmd. rewrite Hv1 in Hcmd.
    destruct (Hcmd (proj1 Hr) (proj1 (proj2 Hr)) Hsingle) as (n & _ & Hv2).
    simpl in Hv2. rewrite Hlba in Hv2. destruct (Z.ltb_spec (lba mod 2 ^ 28) sectors); [lia|].
    unfold m. apply bind_diverges, wp_outb.
    unfold mbind at 1, K_bind at 1. rewrite wait_drq_idle by (rewrite Hv2; reflexivity).
    reflexivity. }
  revert Hw. unfold wp, mbind, K_bind, kget.
  destruct (ata_wait fuel d0) as [u1 e1 o1| | |]; try done.
  destruct (ata_setup lba e1) as [u2 e2 o2| | |]; try done. by intros ->.
Qed.

(** C5.  The two layers together: AshFS over the driver over an idle drive of
    at least 1057 sectors without an AshFS; every sequence of calls with legal
    arguments returns and its replies are those of the abstract file system. *)
Theorem ashfs_on_ata_refines (s : fs D) cs :
  1057 ≤ sectors → ready (drive_view (disk s)) →
  magic (superblock_of_bytes (slice 0 24 (media (drive_view (disk s)) 0))) ≠ FS_MAGIC →
  Forall call_ok cs →
  let O := ata_ops fuel in let B := ata_device fuel Hfuel in
  ∃ rs s' o, (fs_init;; fs_run_calls cs) s = Done rs s' o ∧ ready (drive_view (disk s')) ∧
    spec_run ∅ cs rs (dir s').
Proof.
  intros Hsz Hr Hm Hcs O B. pose proof sectors_28 as H28.
  assert (1057 ≤ dev_sectors ≤ 2 ^ 28) as Hdev by (simpl; lia).
  assert (wp (fs_init;; fs_run_calls cs) s (λ rs s' _, mounted s' ∧ spec_run ∅ cs rs (dir s')))
    as Hw.
  { wp_steps. eapply wp_mono; [by apply (fs_init_spec s Hdev Hr)|]. intros u s1 o1.
    change (disk_superblock (disk s))
      with (superblock_of_bytes (slice 0 24 (media (drive_view (disk s)) 0))).
    rewrite (proj2 (Z.eqb_neq _ _) Hm). intros [Hf _].
    pose proof Hf as (_ & _ & Hd & _). rewrite <-Hd.
    eapply wp_mono; [by apply calls_run; [apply formatted_mounted|]|]. done. }
  destruct (wp_done _ _ _ Hw) as (rs & s' & o & E & Hmt & Hrun).
  exists rs, s', o. split; [exact E|]. split; [|exact Hrun]. apply (ok_dev _ (mt_ok _ Hmt)).
Qed.
End thms.

(** ** At the concrete drive *)

Definition sim_off : view :=
  View (λ _, replicate 512 0) (Taskfile 0 0 0 0 0) Idle 0.

Lemma sim_ready : ready sim_off.
Proof.
  split; [reflexivity|]. split; [reflexivity|]. intros k _. split; [reflexivity|].
  apply Forall_replicate. unfold byte_ok. lia.
Qed.

Lemma sim_fuel : (latency < 4)%nat.
Proof. simpl. lia. Qed.

Definition sector_77 : list Z := replicate 512 77.

Lemma sector_77_bytes : bytes_ok sector_77.
Proof. apply Forall_replicate. unfold byte_ok. lia. Qed.

Lemma ata_transfers_witness :
  ∃ d1 d2, ata_write_sector 4 1000 sector_77 sim_off = Done tt d1 [] ∧ ready d1 ∧
    ata_read_sector 4 1000 (replicate 512 1) d1 = Done sector_77 d2 [] ∧
    ready d2 ∧ media d2 = media d1.
Proof.
  apply (ata_transfers 4 sim_fuel sim_off 1000 sector_77 1000 (replicate 512 1));
    [simpl; unfold sim_sectors; lia|simpl; unfold sim_sectors; lia|apply sim_ready
    |reflexivity|apply sector_77_bytes|reflexivity].
Defined.

Lemma ata_read_out_of_range_hangs_witness :
  ata_read_sector 4 4096 (replicate 512 0) sim_off = Diverged.
Proof.
  apply (ata_read_out_of_range_hangs 4 sim_fuel);
    [lia|vm_compute; discriminate|apply sim_ready].
Defined.

Lemma ashfs_on_ata_refines_witness :
  let O := ata_ops 4 in let B := ata_device 4 sim_fuel in
  ∃ rs s' o, (fs_init;; fs_run_calls [CallList]) (Fs zero_superblock sim_off) = Done rs s' o ∧
    ready (disk s') ∧ spec_run ∅ [CallList] rs (dir s').
Proof.
  apply (ashfs_on_ata_refines 4 sim_fuel (Fs zero_superblock sim_off));
    [simpl; unfold sim_sectors; lia|apply sim_ready|vm_compute; discriminate
    |constructor; [exact I|constructor]].
Defined.
