(* ===== verification/Console.v ===== *)
(** * The screen and the serial port: kernel/kernel.c and drivers/serial.c

    The VGA text terminal of kernel/kernel.c (its four static variables and the 80
    by 25 cells of video memory) and the serial driver, over port instructions
    whose behaviour is a parameter.  [ConsoleHw] states what the UART and the CRT
    controller do; ConsoleThms.v has the theorems. *)

From S2P Require Import Prelude Bytes.

(** ** Ports *)

Class PortIo (P : Type) := {
  port_in : Z → P → Z * P;
  port_out : Z → Z → P → P;
}.

Definition inb {P} `{PortIo P} (port : Z) : K P Z :=
  λ p, let (x, p') := port_in port p in Done x p' [].
Definition outb {P} `{PortIo P} (port value : Z) : K P unit :=
  λ p, Done tt (port_out port value p) [].

(** ** drivers/serial.c *)

Definition COM1 : Z := 0x3F8.

Section serial.
Context {P : Type} `{PortIo P}.

Definition serial_init : K P unit :=
  outb (COM1 + 1) 0x00;;
  outb (COM1 + 3) 0x80;;
  outb (COM1 + 0) 0x03;;
  outb (COM1 + 1) 0x00;;
  outb (COM1 + 3) 0x03;;
  outb (COM1 + 2) 0xC7;;
  outb (COM1 + 4) 0x0B.

(** The polling loop runs under [fuel]. *)
Definition serial_putchar (fuel : nat) (c : Z) : K P unit :=
  kwhile fuel (λ _,
    s ← inb (COM1 + 5);
    if Z.land s 0x20 =? 0 then mret (inl tt) else mret (inr tt)) tt;;
  outb COM1 c.

(** The loop sends the characters up to the first NUL. *)
Fixpoint serial_write (fuel : nat) (str : list Z) : K P unit :=
  match str with
  | [] => kundefined
  | c :: str => if c =? 0 then mret tt else serial_putchar fuel c;; serial_write fuel str
  end.
End serial.

(** ** kernel/kernel.c: the VGA text mode *)

Definition VGA_WIDTH : Z := 80.
Definition VGA_HEIGHT : Z := 25.
Definition VGA_MEMORY : Z := 0xB8000.

Inductive vga_color :=
  | VGA_COLOR_BLACK | VGA_COLOR_BLUE | VGA_COLOR_GREEN | VGA_COLOR_CYAN
  | VGA_COLOR_RED | VGA_COLOR_MAGENTA | VGA_COLOR_BROWN | VGA_COLOR_LIGHT_GREY
  | VGA_COLOR_DARK_GREY | VGA_COLOR_LIGHT_BLUE | VGA_COLOR_LIGHT_GREEN
  | VGA_COLOR_LIGHT_CYAN | VGA_COLOR_LIGHT_RED | VGA_COLOR_LIGHT_MAGENTA
  | VGA_COLOR_LIGHT_BROWN | VGA_COLOR_WHITE.

Definition color_value (c : vga_color) : Z :=
  match c with
  | VGA_COLOR_BLACK => 0 | VGA_COLOR_BLUE => 1 | VGA_COLOR_GREEN => 2
  | VGA_COLOR_CYAN => 3 | VGA_COLOR_RED => 4 | VGA_COLOR_MAGENTA => 5
  | VGA_COLOR_BROWN => 6 | VGA_COLOR_LIGHT_GREY => 7 | VGA_COLOR_DARK_GREY => 8
  | VGA_COLOR_LIGHT_BLUE => 9 | VGA_COLOR_LIGHT_GREEN => 10
  | VGA_COLOR_LIGHT_CYAN => 11 | VGA_COLOR_LIGHT_RED => 12
  | VGA_COLOR_LIGHT_MAGENTA => 13 | VGA_COLOR_LIGHT_BROWN => 14
  | VGA_COLOR_WHITE => 15
  end.

Definition vga_entry_color (fg bg : vga_color) : Z :=
  u8 (Z.lor (color_value fg) (Z.shiftl (color_value bg) 4)).

Definition vga_entry (uc color : Z) : Z := u16 (Z.lor uc (Z.shiftl color 8)).

(** ** The terminal *)

(** The static variables, the cells of video memory and the ports.  The pointer
    [terminal_buffer] is null until [terminal_initialize] runs. *)
Record console (P : Type) := Console {
  terminal_row : Z;
  terminal_column : Z;
  terminal_color : Z;
  terminal_buffer : Z;
  vga : list Z;
  ports : P;
}.
Arguments Console {P} _ _ _ _ _ _.
Arguments terminal_row {P} _.
Arguments terminal_column {P} _.
Arguments terminal_color {P} _.
Arguments terminal_buffer {P} _.
Arguments vga {P} _.
Arguments ports {P} _.

Section fields.
Context {P : Type}.
Implicit Types t : console P.
Definition set_row (r : Z) t : console P :=
  Console r (terminal_column t) (terminal_color t) (terminal_buffer t) (vga t) (ports t).
Definition set_column (c : Z) t : console P :=
  Console (terminal_row t) c (terminal_color t) (terminal_buffer t) (vga t) (ports t).
Definition set_color (c : Z) t : console P :=
  Console (terminal_row t) (terminal_column t) c (terminal_buffer t) (vga t) (ports t).
Definition set_buffer (b : Z) t : console P :=
  Console (terminal_row t) (terminal_column t) (terminal_color t) b (vga t) (ports t).
Definition set_vga (v : list Z) t : console P :=
  Console (terminal_row t) (terminal_column t) (terminal_color t) (terminal_buffer t) v (ports t).
Definition set_ports (p : P) t : console P :=
  Console (terminal_row t) (terminal_column t) (terminal_color t) (terminal_buffer t) (vga t) p.
End fields.

#[export] Instance console_ports_lens {P} : Lens (console P) P.
Proof.
  refine {| lens_get := ports; lens_set := set_ports |}; try done. by intros [].
Defined.

Definition VGA_CTRL_PORT : Z := 0x3D4.
Definition VGA_DATA_PORT : Z := 0x3D5.

Definition chr_tab : Z := 9.
Definition chr_bs : Z := 8.
Definition chr_nl : Z := 10.
Definition chr_cr : Z := 13.
Definition chr_space : Z := 32.

Section terminal.
Context {P : Type} `{PortIo P}.

(** [terminal_buffer[i]] and [terminal_buffer[i] = x]. *)
Definition cell_get (i : Z) : K (console P) Z :=
  t ← kget;
  if terminal_buffer t =? VGA_MEMORY then klift (aget (vga t) i) else kundefined.
Definition cell_set (i x : Z) : K (console P) unit :=
  t ← kget;
  if terminal_buffer t =? VGA_MEMORY then
    v ← klift (aset (vga t) i x); kmodify (set_vga v)
  else kundefined.

Definition terminal_update_cursor : K (console P) unit :=
  t ← kget;
  let pos := u16 (terminal_row t * VGA_WIDTH + terminal_column t) in
  zoom (outb VGA_CTRL_PORT 0x0F);;
  zoom (outb VGA_DATA_PORT (u8 (Z.land pos 0xFF)));;
  zoom (outb VGA_CTRL_PORT 0x0E);;
  zoom (outb VGA_DATA_PORT (u8 (Z.land (Z.shiftr pos 8) 0xFF))).

Definition terminal_initialize : K (console P) unit :=
  kmodify (set_row 0);;
  kmodify (set_column 0);;
  kmodify (set_color (vga_entry_color VGA_COLOR_LIGHT_GREY VGA_COLOR_BLACK));;
  kmodify (set_buffer VGA_MEMORY);;
  _ ← kfold 0 (Z.to_nat VGA_HEIGHT) (λ y _,
    kfold 0 (Z.to_nat VGA_WIDTH) (λ x _,
      t ← kget;
      cell_set (y * VGA_WIDTH + x) (vga_entry chr_space (terminal_color t))) tt) tt;
  terminal_update_cursor.

Definition terminal_setcolor (color : Z) : K (console P) unit := kmodify (set_color color).

Definition terminal_putentryat (c color x y : Z) : K (console P) unit :=
  cell_set (y * VGA_WIDTH + x) (vga_entry c color).

Definition terminal_scroll : K (console P) unit :=
  _ ← kfold 0 (Z.to_nat (VGA_HEIGHT - 1)) (λ y _,
    kfold 0 (Z.to_nat VGA_WIDTH) (λ x _,
      e ← cell_get ((y + 1) * VGA_WIDTH + x);
      cell_set (y * VGA_WIDTH + x) e) tt) tt;
  kfold 0 (Z.to_nat VGA_WIDTH) (λ x _,
    t ← kget;
    cell_set ((VGA_HEIGHT - 1) * VGA_WIDTH + x) (vga_entry chr_space (terminal_color t))) tt.

(** [terminal_column = 0; if (++terminal_row == VGA_HEIGHT) {...}]. *)
Definition terminal_newline : K (console P) unit :=
  kmodify (set_column 0);;
  kmodify (λ t, set_row (u32 (terminal_row t + 1)) t);;
  t ← kget;
  if terminal_row t =? VGA_HEIGHT then
    terminal_scroll;;
    kmodify (set_row (VGA_HEIGHT - 1))
  else mret tt.

Definition terminal_putchar (c : Z) : K (console P) unit :=
  if c =? chr_nl then terminal_newline
  else if c =? chr_cr then kmodify (set_column 0)
  else if c =? chr_tab then
    kmodify (λ t, set_column (Z.land (u32 (terminal_column t + 8)) (u32 (Z.lnot 7))) t);;
    t ← kget;
    if VGA_WIDTH <=? terminal_column t then terminal_newline else mret tt
  else if c =? chr_bs then
    t ← kget;
    (if 0 <? terminal_column t then kmodify (set_column (terminal_column t - 1))
     else if 0 <? terminal_row t then
       kmodify (set_row (terminal_row t - 1));;
       kmodify (set_column (VGA_WIDTH - 1))
     else mret tt);;
    t ← kget;
    terminal_putentryat chr_space (terminal_color t) (terminal_column t) (terminal_row t);;
    terminal_update_cursor
  else
    t ← kget;
    terminal_putentryat c (terminal_color t) (terminal_column t) (terminal_row t);;
    kmodify (λ t, set_column (u32 (terminal_column t + 1)) t);;
    t ← kget;
    (if terminal_column t =? VGA_WIDTH then terminal_newline else mret tt);;
    terminal_update_cursor.

Definition terminal_write (data : list Z) (size : Z) : K (console P) unit :=
  kfold 0 (Z.to_nat size) (λ i _, c ← klift (aget data i); terminal_putchar c) tt.

(** ** Minimal stdlib *)

(** [len] counts up to the first NUL. *)
Fixpoint strlen (str : list Z) : option Z :=
  match str with
  | [] => None
  | c :: str => if c =? 0 then Some 0 else n ← strlen str; Some (u32 (n + 1))
  end.

Definition terminal_writestring (data : list Z) : K (console P) unit :=
  n ← klift (strlen data);
  terminal_write data n.

(** [while (i-- > 0) put(buf[i])]. *)
Fixpoint put_backwards (put : Z → K (console P) unit) (buf : list Z) (i : nat)
  : K (console P) unit :=
  match i with
  | O => mret tt
  | S i => c ← klift (aget buf (Z.of_nat i)); put c;; put_backwards put buf i
  end.

(** The digits go into [buf], which has 10 bytes: the loop stops after 10 digits
    or overruns the buffer in its eleventh iteration. *)
Definition terminal_writeuint (n : Z) : K (console P) unit :=
  if n =? 0 then terminal_putchar 48
  else
    r ← kwhile 11 (λ '(n, buf, i),
      if 0 <? n then
        buf ← klift (aset buf i (48 + n mod 10));
        mret (inl (n / 10, buf, i + 1))
      else mret (inr (buf, i))) (n, replicate 10 0, 0);
    put_backwards terminal_putchar r.1 (Z.to_nat r.2).
End terminal.
