(* ===== verification/ConsoleThms.v ===== *)
(** * The terminal is a screen of 25 lines

    The video memory seen as 25 lines of 80 cells: [screen_putchar] is the
    specification of a character terminal, and [terminal_putchar] implements it on
    every screen.  [ConsoleHw] states what the serial port and the CRT controller
    do with the bytes the kernel sends them. *)

From S2P Require Import Prelude Bytes Console.

(** ** The abstract screen *)

Record screen := Screen {
  lines : list (list Z);
  row : Z;
  col : Z;
  attr : Z;
}.

Definition blank_line (a : Z) : list Z := replicate 80 (vga_entry 32 a).

Definition screen_blank (a : Z) : screen := Screen (replicate 25 (blank_line a)) 0 0 a.

(** The next line; at the bottom the lines move up and a blank one appears. *)
Definition screen_newline (s : screen) : screen :=
  if row s =? 24 then Screen (drop 1 (lines s) ++ [blank_line (attr s)]) 24 0 (attr s)
  else Screen (lines s) (row s + 1) 0 (attr s).

Definition screen_move (y x : Z) (s : screen) : screen := Screen (lines s) y x (attr s).

(** Write at the cursor, without moving it. *)
Definition screen_draw (c : Z) (s : screen) : screen :=
  Screen (alter (λ l, <[Z.to_nat (col s) := vga_entry c (attr s)]> l) (Z.to_nat (row s)) (lines s))
    (row s) (col s) (attr s).

(** The next tab stop, a multiple of 8. *)
Definition tab_stop (x : Z) : Z := 8 * (x / 8 + 1).

Definition screen_putchar (c : Z) (s : screen) : screen :=
  if c =? 10 then screen_newline s
  else if c =? 13 then screen_move (row s) 0 s
  else if c =? 9 then
    if tab_stop (col s) <? 80 then screen_move (row s) (tab_stop (col s)) s
    else screen_newline s
  else if c =? 8 then
    screen_draw 32
      (if 0 <? col s then screen_move (row s) (col s - 1) s
       else if 0 <? row s then screen_move (row s - 1) 79 s
       else s)
  else
    let s := screen_draw c s in
    if col s =? 79 then screen_newline s else screen_move (row s) (col s + 1) s.

Definition screen_write (cs : list Z) (s : screen) : screen := foldl (λ s c, screen_putchar c s) s cs.

(** The shape of the screen, which every operation keeps. *)
Record screen_ok (s : screen) : Prop := {
  so_lines : length (lines s) = 25%nat;
  so_line : Forall (λ l, length l = 80%nat ∧ Forall (λ e, 0 ≤ e < 65536) l) (lines s);
  so_row : 0 ≤ row s < 25;
  so_col : 0 ≤ col s < 80;
  so_attr : byte_ok (attr s);
}.

(** The terminal's variables and the video memory show the screen. *)
Record shows {P} (t : console P) (s : screen) : Prop := {
  sh_ok : screen_ok s;
  sh_row : terminal_row t = row s;
  sh_col : terminal_column t = col s;
  sh_color : terminal_color t = attr s;
  sh_buffer : terminal_buffer t = VGA_MEMORY;
  sh_vga : vga t = concat (lines s);
}.

(** ** The abstract screen keeps its shape *)

Lemma vga_entry_u16 c a : 0 ≤ vga_entry c a < 65536.
Proof. apply u16_range. Qed.

Lemma blank_line_ok a :
  length (blank_line a) = 80%nat ∧ Forall (λ e, 0 ≤ e < 65536) (blank_line a).
Proof. split; [reflexivity|]. apply Forall_replicate, vga_entry_u16. Qed.

Lemma screen_newline_ok s : screen_ok s → screen_ok (screen_newline s).
Proof.
  intros [H1 H2 H3 H4 H5]. unfold screen_newline. destruct (Z.eqb_spec (row s) 24).
  - constructor; cbn [lines row col attr]; try lia; try assumption.
    + rewrite length_app, length_drop, H1. reflexivity.
    + apply Forall_app. split; [by apply Forall_drop|]. constructor; [apply blank_line_ok|done].
  - constructor; cbn [lines row col attr]; try lia; assumption.
Qed.

Lemma screen_move_ok s y x : screen_ok s → 0 ≤ y < 25 → 0 ≤ x < 80 → screen_ok (screen_move y x s).
Proof. intros [H1 H2 H3 H4 H5] Hy Hx. constructor; assumption. Qed.

Lemma screen_draw_ok c s : screen_ok s → screen_ok (screen_draw c s).
Proof.
  intros [H1 H2 H3 H4 H5]. constructor; cbn [screen_draw lines row col attr]; try assumption.
  - by rewrite length_alter.
  - apply Forall_alter; [exact H2|]. intros l _ [Hl Hc]. split; [by rewrite length_insert|].
    apply Forall_insert; [exact Hc|apply vga_entry_u16].
Qed.

Lemma screen_putchar_ok c s : screen_ok s → screen_ok (screen_putchar c s).
Proof.
  intros Hok. pose proof Hok as [_ _ H3 H4 _]. unfold screen_putchar.
  destruct (Z.eqb_spec c 10); [by apply screen_newline_ok|].
  destruct (Z.eqb_spec c 13); [apply screen_move_ok; (assumption || lia)|].
  destruct (Z.eqb_spec c 9).
  { destruct (Z.ltb_spec (tab_stop (col s)) 80); [|by apply screen_newline_ok].
    apply screen_move_ok; try assumption. unfold tab_stop in *. dlia. }
  destruct (Z.eqb_spec c 8).
  { apply screen_draw_ok. destruct (Z.ltb_spec 0 (col s)); [apply screen_move_ok; (assumption || lia)|].
    destruct (Z.ltb_spec 0 (row s)); [apply screen_move_ok; (assumption || lia)|done]. }
  cbv zeta. pose proof (screen_draw_ok c s Hok) as Hd.
  destruct (Z.eqb_spec (col (screen_draw c s)) 79) as [|Hne]; [by apply screen_newline_ok|].
  apply screen_move_ok; [exact Hd|apply Hd|]. pose proof (so_col _ Hd). lia.
Qed.

Lemma screen_blank_ok a : byte_ok a → screen_ok (screen_blank a).
Proof.
  intros Ha. constructor; cbn [screen_blank lines row col attr]; try lia; try assumption.
  - reflexivity.
  - apply Forall_replicate, blank_line_ok.
Qed.

(** ** Lists of cells *)

Section cells.
Implicit Types (a b : list Z).

(** The first [i] cells of [a] and the rest of [b]. *)
Definition blend (i : nat) a b : list Z := take i a ++ drop i b.

Lemma length_blend i a b : length a = length b → length (blend i a b) = length b.
Proof. intros H. unfold blend. rewrite length_app, length_take, length_drop. lia. Qed.

Lemma blend_set i a b x :
  length a = length b → a !! i = Some x →
  aset (blend i a b) (Z.of_nat i) x = Some (blend (S i) a b).
Proof.
  intros Hl Hx. pose proof (lookup_lt_Some _ _ _ Hx).
  rewrite aset_Some by (rewrite length_blend by done; lia). rewrite Nat2Z.id. f_equal.
  destruct (lookup_lt_is_Some_2 b i) as [y Hy]; [lia|]. unfold blend.
  rewrite (drop_S _ _ _ Hy), insert_app_r_alt by (rewrite length_take; lia).
  rewrite length_take_le, Nat.sub_diag by lia. cbn [insert list_insert].
  rewrite (take_S_r _ _ _ Hx), <-app_assoc. reflexivity.
Qed.

Lemma blend_get i j a b : (i ≤ j)%nat → (i ≤ length a)%nat → blend i a b !! j = b !! j.
Proof.
  intros Hij Hi. unfold blend. rewrite lookup_app_r by (rewrite length_take; lia).
  rewrite length_take_le, lookup_drop by lia. f_equal. lia.
Qed.

Lemma blend_0 a b : blend 0 a b = b.
Proof. reflexivity. Qed.
Lemma blend_full a b : length a = length b → blend (length b) a b = a.
Proof. intros H. unfold blend. rewrite take_ge, drop_ge, app_nil_r by lia. reflexivity. Qed.
End cells.

Lemma length_concat_lines (ls : list (list Z)) :
  Forall (λ l, length l = 80%nat ∧ Forall (λ e, 0 ≤ e < 65536) l) ls →
  length (concat ls) = (80 * length ls)%nat.
Proof.
  induction 1 as [|l ls [Hl _] Hls IH]; [done|]. cbn [concat length].
  rewrite length_app, IH, Hl. lia.
Qed.

Lemma insert_concat_lines (ls : list (list Z)) : ∀ y x e,
  Forall (λ l, length l = 80%nat ∧ Forall (λ e, 0 ≤ e < 65536) l) ls →
  (x < 80)%nat →
  <[(y * 80 + x)%nat := e]> (concat ls) = concat (alter (λ l, <[x := e]> l) y ls).
Proof.
  induction ls as [|l ls IH]; intros y x e Hls Hx; [done|].
  inversion Hls as [|? ? [Hl _] Hls']; subst. cbn [concat]. destruct y as [|y]; cbn [alter list_alter].
  - cbn [concat]. rewrite insert_app_l by lia. reflexivity.
  - cbn [concat]. rewrite insert_app_r_alt by lia. f_equal. rewrite <-IH by done. f_equal. lia.
Qed.

(** ** The terminal implements the screen *)

Section terminal.
Context {P : Type} `{PortIo P}.
Implicit Types (t : console P) (s : screen).

(** The four port writes that move the hardware cursor to line [y], cell [x]. *)
Definition cursor_ports (y x : Z) (p : P) : P :=
  let pos := y * 80 + x in
  port_out 0x3D5 (pos / 256) (port_out 0x3D4 0x0E
    (port_out 0x3D5 (pos mod 256) (port_out 0x3D4 0x0F p))).

(** The characters after which the code moves the hardware cursor. *)
Definition moves_cursor (c : Z) : bool := negb ((c =? 10) || (c =? 13) || (c =? 9)).

Lemma shows_length t s : shows t s → length (vga t) = 2000%nat.
Proof.
  intros Hs. rewrite (sh_vga _ _ Hs), length_concat_lines by apply Hs.
  by rewrite (so_lines _ (sh_ok _ _ Hs)).
Qed.

Lemma wp_cell_set t i x (Q : unit → console P → list event → Prop) :
  terminal_buffer t = VGA_MEMORY → 0 ≤ i < Z.of_nat (length (vga t)) →
  Q tt (set_vga (<[Z.to_nat i := x]> (vga t)) t) [] → wp (cell_set i x) t Q.
Proof.
  intros Hb Hi HQ. unfold cell_set. wp_steps. rewrite Hb, Z.eqb_refl. wp_steps.
  eapply wp_lift; [by apply aset_Some|]. apply wp_modify. exact HQ.
Qed.

(** Two nested loops over the screen that write cell [y * 80 + x] in turn. *)
Lemma fill_lines (body : Z → Z → K (console P) unit) (target : list Z) t (n : nat) :
  length target = 2000%nat → length (vga t) = 2000%nat → (n ≤ 25)%nat →
  (∀ y x, 0 ≤ y < Z.of_nat n → 0 ≤ x < 80 → ∀ Q,
     let i := Z.to_nat (y * 80 + x) in
     Q tt (set_vga (blend (S i) target (vga t)) t) [] →
     wp (body y x) (set_vga (blend i target (vga t)) t) Q) →
  wp (kfold 0 n (λ y _, kfold 0 (Z.to_nat VGA_WIDTH) (λ x _, body y x) tt) tt) t
    (λ _ t' o, o = [] ∧ t' = set_vga (blend (80 * n) target (vga t)) t).
Proof.
  intros Hl Hv Hn Hbody.
  apply wp_kfold with (I := λ y _ t' o, o = [] ∧
    t' = set_vga (blend (Z.to_nat (y * 80)) target (vga t)) t).
  - split; [done|]. rewrite blend_0. by destruct t.
  - intros y _ t1 o Hy (-> & ->).
    apply wp_kfold with (I := λ x _ t' o, o = [] ∧
      t' = set_vga (blend (Z.to_nat (y * 80 + x)) target (vga t)) t).
    + split; [done|]. by rewrite Z.add_0_r.
    + change (Z.to_nat VGA_WIDTH) with 80%nat. intros x _ t1 o Hx (-> & ->).
      apply Hbody; [lia|lia|]. split; [done|].
      replace (Z.to_nat (y * 80 + (x + 1))) with (S (Z.to_nat (y * 80 + x))) by lia. done.
    + change (0 + Z.of_nat (Z.to_nat VGA_WIDTH)) with 80. intros _ t1 o (-> & ->).
      split; [done|]. replace (y * 80 + 80) with ((y + 1) * 80) by lia. done.
  - intros _ t1 o (-> & ->). split; [done|].
    replace (Z.to_nat ((0 + Z.of_nat n) * 80)) with (80 * n)%nat by lia. done.
Qed.

Lemma scroll_spec t :
  terminal_buffer t = VGA_MEMORY → length (vga t) = 2000%nat →
  wp terminal_scroll t (λ _ t' o, o = [] ∧
    t' = set_vga (drop 80 (vga t) ++ blank_line (terminal_color t)) t).
Proof.
  intros Hb Hv. set (target := drop 80 (vga t) ++ blank_line (terminal_color t)).
  assert (length target = 2000%nat) as Hl.
  { unfold target. rewrite length_app, length_drop, Hv. reflexivity. }
  unfold terminal_scroll. wp_steps. change (Z.to_nat (VGA_HEIGHT - 1)) with 24%nat.
  eapply wp_mono; [apply (fill_lines _ target); [exact Hl|exact Hv|lia|]|].
  { intros y x Hy Hx Q i HQ. unfold cell_get. wp_steps.
    cbn [set_vga terminal_buffer vga]. rewrite Hb, Z.eqb_refl.
    destruct (lookup_lt_is_Some_2 (vga t) (i + 80)) as [e He]; [unfold i; lia|].
    eapply wp_lift.
    { unfold VGA_WIDTH. rewrite aget_eq by lia.
      replace (Z.to_nat ((y + 1) * 80 + x)) with (i + 80)%nat by (unfold i; lia).
      rewrite blend_get by (unfold i; lia). exact He. }
    unfold cell_set. wp_steps. cbn [set_vga terminal_buffer vga]. rewrite Hb, Z.eqb_refl. wp_steps.
    eapply wp_lift.
    { unfold VGA_WIDTH. replace (y * 80 + x) with (Z.of_nat i) by (unfold i; lia).
      apply blend_set; [congruence|]. unfold target.
      rewrite lookup_app_l by (rewrite length_drop; unfold i; lia).
      rewrite lookup_drop, Nat.add_comm. exact He. }
    apply wp_modify. exact HQ. }
  intros _ t1 o (-> & ->). change (80 * 24)%nat with 1920%nat.
  apply wp_kfold with (I := λ x _ t' o, o = [] ∧
    t' = set_vga (blend (1920 + Z.to_nat x) target (vga t)) t).
  - done.
  - change (Z.to_nat VGA_WIDTH) with 80%nat. intros x _ t1 o Hx (-> & ->). wp_steps.
    unfold cell_set. wp_steps. cbn [set_vga terminal_buffer vga terminal_color].
    rewrite Hb, Z.eqb_refl. wp_steps. eapply wp_lift.
    { change ((VGA_HEIGHT - 1) * VGA_WIDTH) with 1920.
      replace (1920 + x) with (Z.of_nat (1920 + Z.to_nat x)) by lia.
      apply blend_set; [congruence|]. unfold target.
      rewrite lookup_app_r by (rewrite length_drop; lia).
      rewrite length_drop, Hv. apply lookup_replicate_2. lia. }
    apply wp_modify. split; [done|].
    replace (1920 + Z.to_nat (x + 1))%nat with (S (1920 + Z.to_nat x)) by lia. done.
  - change (1920 + Z.to_nat (0 + Z.of_nat (Z.to_nat VGA_WIDTH)))%nat with 2000%nat.
    intros _ t1 o (-> & ->). split; [done|]. rewrite <-Hv, blend_full by congruence. done.
Qed.

Lemma newline_spec t s x :
  shows t s →
  wp terminal_newline (set_column x t) (λ _ t' o, o = [] ∧ shows t' (screen_newline s) ∧ ports t' = ports t).
Proof.
  intros Hs. pose proof Hs as [Hok Hr Hc Ha Hb Hv]. pose proof (so_row _ Hok).
  pose proof (screen_newline_ok s Hok) as Hok'. pose proof (shows_length t s Hs) as Hlen.
  unfold terminal_newline. wp_steps. cbn [set_row set_column terminal_row].
  rewrite Hr, u32_small by lia. unfold VGA_HEIGHT, screen_newline in *.
  destruct (Z.eqb_spec (row s + 1) 25), (Z.eqb_spec (row s) 24); try lia.
  - wp_steps. eapply wp_mono; [apply scroll_spec; [exact Hb|exact Hlen]|].
    intros _ t1 o (-> & ->). wp_steps. split; [done|]. split; [|done].
    constructor; try done. cbn [set_vga set_row set_column vga terminal_color lines].
    rewrite Hv, Ha, concat_app. cbn [concat]. rewrite app_nil_r. f_equal.
    pose proof (so_lines _ Hok) as Hl. pose proof (so_line _ Hok) as Hll.
    destruct (lines s) as [|l ls]; [done|]. inversion Hll as [|? ? [H80 _] _]; subst.
    cbn [concat drop]. rewrite <-H80, drop_app_length. reflexivity.
  - wp_steps. split; [done|]. split; [|done]. constructor; done.
Qed.

Lemma update_cursor_spec t s :
  shows t s →
  wp terminal_update_cursor t (λ _ t' o, o = [] ∧
    t' = set_ports (cursor_ports (row s) (col s) (ports t)) t).
Proof.
  intros [Hok Hr Hc _ _ _]. pose proof (so_row _ Hok). pose proof (so_col _ Hok).
  unfold terminal_update_cursor. wp_steps. rewrite Hr, Hc. unfold VGA_WIDTH.
  rewrite u16_small by lia.
  change 0xFF with (Z.ones 8). rewrite !Z.land_ones, Z.shiftr_div_pow2 by lia.
  set (pos := row s * 80 + col s). rewrite !u8_small by (unfold pos; dlia).
  repeat (wp_steps; apply wp_zoom; unfold wp at 1, outb).
  wp_steps. unfold wp. cbn. split; [done|]. unfold cursor_ports. fold pos.
  change (2 ^ 8) with 256. rewrite (Z.mod_small (pos / 256)) by (unfold pos; dlia). done.
Qed.

Lemma putentryat_spec t s c :
  shows t s →
  wp (terminal_putentryat c (terminal_color t) (terminal_column t) (terminal_row t)) t
    (λ _ t' o, o = [] ∧ shows t' (screen_draw c s) ∧ ports t' = ports t).
Proof.
  intros Hs. pose proof Hs as [Hok Hr Hc Ha Hb Hv]. pose proof (shows_length t s Hs) as Hlen.
  pose proof (so_row _ Hok). pose proof (so_col _ Hok).
  unfold terminal_putentryat, VGA_WIDTH. rewrite Hr, Hc, Ha.
  apply wp_cell_set; [exact Hb|lia|]. split; [done|]. split; [|done].
  constructor; try done; [by apply screen_draw_ok|].
  cbn [set_vga vga screen_draw lines]. rewrite Hv, <-insert_concat_lines by (apply Hok || lia).
  f_equal. lia.
Qed.

Lemma shows_move t s y x :
  shows t s → 0 ≤ y < 25 → 0 ≤ x < 80 →
  shows (set_column x (set_row y t)) (screen_move y x s).
Proof. intros [] Hy Hx. constructor; try done. by apply screen_move_ok. Qed.

Lemma tab_land x : 0 ≤ x < 80 → Z.land (u32 (x + 8)) (u32 (Z.lnot 7)) = tab_stop x.
Proof.
  intros Hx. unfold tab_stop. rewrite u32_small by lia.
  assert (∀ y, 0 ≤ y < 2 ^ 32 → Z.land y (u32 (Z.lnot 7)) = 8 * (y / 8)) as Hland.
  { intros y Hy. apply Z.bits_inj'. intros j Hj.
    rewrite Z.land_spec. unfold u32.
    replace (8 * (y / 8)) with (Z.shiftl (Z.shiftr y 3) 3)
      by (rewrite Z.shiftr_div_pow2, Z.shiftl_mul_pow2 by lia; change (2 ^ 3) with 8; lia).
    destruct (Z.ltb_spec j 32) as [Hj32|Hj32].
    - rewrite Z.mod_pow2_bits_low, Z.lnot_spec by lia. change 7 with (Z.ones 3).
      destruct (Z.ltb_spec j 3).
      + rewrite Z.ones_spec_low, Z.shiftl_spec_low by lia. apply andb_false_r.
      + rewrite Z.ones_spec_high, Z.shiftl_spec, Z.shiftr_spec by lia.
        rewrite andb_true_r. f_equal. lia.
    - rewrite (testbit_high y) by lia. rewrite Z.shiftl_spec, Z.shiftr_spec by lia.
      replace (j - 3 + 3) with j by lia. rewrite (testbit_high y) by lia. reflexivity. }
  rewrite Hland by lia. dlia.
Qed.

(** A move in the line. *)
Lemma shows_column t s x : shows t s → 0 ≤ x < 80 → shows (set_column x t) (screen_move (row s) x s).
Proof.
  intros Hs Hx. pose proof Hs as [Hok Hr _ _ _ _]. pose proof (so_row _ Hok). rewrite <-Hr.
  assert (set_column x t = set_column x (set_row (terminal_row t) t)) as -> by (by destruct t).
  apply shows_move; [exact Hs|lia|lia].
Qed.

(** Back one character, to the end of the line above from the start of a line. *)
Definition screen_back (s : screen) : screen :=
  if 0 <? col s then screen_move (row s) (col s - 1) s
  else if 0 <? row s then screen_move (row s - 1) 79 s
  else s.

Lemma back_spec t s :
  shows t s →
  wp (if 0 <? terminal_column t then kmodify (set_column (terminal_column t - 1))
      else if 0 <? terminal_row t then
        kmodify (set_row (terminal_row t - 1));;
        kmodify (set_column (VGA_WIDTH - 1))
      else mret tt) t (λ _ t' o, o = [] ∧ shows t' (screen_back s) ∧ ports t' = ports t).
Proof.
  intros Hs. pose proof Hs as [Hok Hr Hc _ _ _]. pose proof (so_row _ Hok). pose proof (so_col _ Hok).
  unfold screen_back. rewrite Hc, Hr. destruct (Z.ltb_spec 0 (col s)); wp_steps.
  - split; [done|]. split; [|done]. apply shows_column; [exact Hs|lia].
  - destruct (Z.ltb_spec 0 (row s)); wp_steps; [|done].
    split; [done|]. split; [|done]. apply shows_move; [exact Hs|lia|lia].
Qed.

(** The tail of the printing branches. *)
Lemma cursor_follows t s :
  shows t s →
  wp terminal_update_cursor t (λ _ t' o, o = [] ∧ shows t' s ∧ ports t' = cursor_ports (row s) (col s) (ports t)).
Proof.
  intros Hs. eapply wp_mono; [apply (update_cursor_spec t s Hs)|]. intros _ t' o (-> & ->).
  split; [done|]. split; [|done]. destruct Hs. constructor; done.
Qed.

(** [terminal_column] has just been set to [x]: a move to column [y], or a new line. *)
Lemma column_or_newline t s x y (b b' : bool) :
  shows t s → b' = negb b → (b = false → x = y ∧ 0 ≤ y < 80) →
  wp (if b then terminal_newline else mret tt) (set_column x t) (λ _ t' o, o = [] ∧
    shows t' (if b' then screen_move (row s) y s else screen_newline s) ∧ ports t' = ports t).
Proof.
  intros Hs -> Hx. destruct b; cbn [negb]; [by apply newline_spec|]. destruct (Hx eq_refl) as [-> Hy].
  wp_steps. split; [done|]. split; [|done]. by apply shows_column.
Qed.

Lemma putchar_spec t s c :
  shows t s →
  wp (terminal_putchar c) t (λ _ t' o, o = [] ∧ shows t' (screen_putchar c s) ∧
    ports t' = if moves_cursor c
               then cursor_ports (row (screen_putchar c s)) (col (screen_putchar c s)) (ports t)
               else ports t).
Proof.
  intros Hs. unfold terminal_putchar, screen_putchar, moves_cursor, chr_nl, chr_cr, chr_tab, chr_bs, chr_space.
  destruct (Z.eqb_spec c 10); [by apply newline_spec|].
  destruct (Z.eqb_spec c 13).
  { apply wp_modify. split; [done|]. split; [|done]. apply shows_column; [exact Hs|lia]. }
  destruct (Z.eqb_spec c 9); cbn [orb negb].
  { wp_steps. pose proof (so_col _ (sh_ok _ _ Hs)) as Hcol. cbn [set_column terminal_column].
    rewrite (sh_col _ _ Hs), tab_land by lia. unfold VGA_WIDTH.
    apply column_or_newline; [exact Hs|by rewrite Z.leb_antisym, negb_involutive|].
    intros Hlt%Z.leb_gt. split; [done|]. unfold tab_stop in *. dlia. }
  destruct (Z.eqb_spec c 8).
  - wp_steps. eapply wp_mono; [by apply back_spec|]. intros _ t1 o (-> & Hs1 & Hp1). wp_steps.
    eapply wp_mono; [apply putentryat_spec; exact Hs1|]. intros _ t2 o (-> & Hs2 & Hp2).
    eapply wp_mono; [apply (cursor_follows t2 _ Hs2)|]. intros _ t3 o (-> & Hs3 & Hp3).
    split; [done|]. split; [exact Hs3|]. by rewrite Hp3, Hp2, Hp1.
  - wp_steps. eapply wp_mono; [by apply putentryat_spec|]. intros _ t1 o (-> & Hs1 & Hp1).
    wp_steps. pose proof (so_col _ (sh_ok _ _ Hs1)) as Hcol. cbn [set_column terminal_column].
    rewrite (sh_col _ _ Hs1), u32_small by lia. unfold VGA_WIDTH. cbv zeta. set (s1 := screen_draw c s) in *.
    eapply (wp_mono _ _ (λ _ t' o, o = [] ∧
      shows t' (if col s1 =? 79 then screen_newline s1 else screen_move (row s1) (col s1 + 1) s1) ∧ ports t' = ports t1)).
    { rewrite <-(negb_involutive (col s1 =? 79)), if_negb. apply column_or_newline; [exact Hs1| |].
      - destruct (Z.eqb_spec (col s1 + 1) 80), (Z.eqb_spec (col s1) 79); try lia; done.
      - intros Hne%Z.eqb_neq. split; [done|lia]. }
    intros _ t2 o (-> & Hs2 & Hp2).
    eapply wp_mono; [apply (cursor_follows t2 _ Hs2)|]. intros _ t3 o (-> & Hs3 & Hp3).
    split; [done|]. split; [exact Hs3|]. by rewrite Hp3, Hp2, Hp1.
Qed.

(** From any contents of the video memory. *)
Lemma initialize_spec t :
  length (vga t) = 2000%nat →
  wp terminal_initialize t (λ _ t' o, o = [] ∧ shows t' (screen_blank 7) ∧
    ports t' = cursor_ports 0 0 (ports t)).
Proof.
  intros Hv. unfold terminal_initialize. wp_steps.
  change (vga_entry_color VGA_COLOR_LIGHT_GREY VGA_COLOR_BLACK) with 7.
  set (t0 := set_buffer VGA_MEMORY (set_color 7 (set_column 0 (set_row 0 t)))).
  set (target := replicate 2000 (vga_entry 32 7)).
  assert (length target = 2000%nat) as Hl by apply length_replicate.
  eapply wp_mono.
  { apply (fill_lines _ target t0); [exact Hl|exact Hv|reflexivity|].
    change (Z.of_nat (Z.to_nat VGA_HEIGHT)) with 25.
    intros y x Hy Hx Q i HQ. wp_steps. unfold cell_set. wp_steps.
    cbn [set_vga terminal_buffer vga terminal_color]. change (terminal_buffer t0) with VGA_MEMORY.
    rewrite Z.eqb_refl. wp_steps. eapply wp_lift.
    { unfold VGA_WIDTH. replace (y * 80 + x) with (Z.of_nat i) by (unfold i; lia).
      apply blend_set; [by rewrite Hl|]. apply lookup_replicate_2. unfold i. lia. }
    apply wp_modify. exact HQ. }
  intros _ t1 o (-> & ->). change (80 * Z.to_nat VGA_HEIGHT)%nat with 2000%nat.
  change (vga t0) with (vga t). rewrite <-Hv, blend_full by congruence.
  assert (shows (set_vga target t0) (screen_blank 7)) as Hs.
  { constructor; try done. apply screen_blank_ok. unfold byte_ok. lia. }
  eapply wp_mono; [apply (update_cursor_spec _ _ Hs)|]. intros _ t2 o (-> & ->).
  split; [done|]. split; [|done]. destruct Hs. constructor; done.
Qed.

Lemma setcolor_spec t s a :
  shows t s → byte_ok a →
  wp (terminal_setcolor a) t (λ _ t' o, o = [] ∧
    shows t' (Screen (lines s) (row s) (col s) a) ∧ ports t' = ports t).
Proof.
  intros [Hok H1 H2 H3 H4 H5] Ha. apply wp_modify. split; [done|]. split; [|done].
  constructor; try done. destruct Hok. constructor; done.
Qed.

(** ** Theorems *)

(** C19.  [terminal_putchar] is the screen's [screen_putchar], on every character and
    every position, scrolling, tabs and backspace at the edges included; in
    particular it never writes outside the 2000 cells of the screen. *)
Theorem terminal_refines_screen t s cs :
  shows t s →
  ∃ t', foldr (λ c m, terminal_putchar c;; m) (mret tt) cs t = Done tt t' [] ∧
    shows t' (screen_write cs s).
Proof.
  revert t s. induction cs as [|c cs IH]; intros t s Hs; cbn [foldr].
  - exists t. split; [done|exact Hs].
  - destruct (wp_done _ _ _ (putchar_spec t s c Hs)) as ([] & t1 & o & E & -> & Hs1 & _).
    destruct (IH t1 _ Hs1) as (t2 & E2 & Hs2). exists t2. split; [|exact Hs2].
    by rewrite (kbind_done _ _ _ _ _ E).
Qed.
End terminal.
