(* ===== verification/Kprintf.v ===== *)
(** * Formatted printing: kernel/kprintf.c

    Every character goes to the terminal and to the serial port.  [console_event]
    gives the console events of the other components their meaning. *)

From S2P Require Import Prelude Bytes Console.

(** The value of a C string literal: escapes and the final NUL. *)
Fixpoint unescape (l : list Z) : list Z :=
  match l with
  | 92 :: 110 :: l => 10 :: unescape l
  | 92 :: 116 :: l => 9 :: unescape l
  | 92 :: 98 :: l => 8 :: unescape l
  | 92 :: 114 :: l => 13 :: unescape l
  | c :: l => c :: unescape l
  | [] => []
  end.
Definition ascii_codes (s : string) : list Z :=
  map (λ a, Z.of_N (Ascii.N_of_ascii a)) (String.list_ascii_of_string s).
Definition c_literal (s : string) : list Z := with_nul (unescape (ascii_codes s)).

(** [static const char digits[] = ...]. *)
Definition digits : list Z := c_literal "0123456789abcdef".

Section kprintf.
Context {P : Type} `{PortIo P}.
Context (fuel : nat).

Definition put (c : Z) : K (console P) unit :=
  terminal_putchar c;;
  zoom (serial_putchar fuel c).

Fixpoint puts (s : list Z) : K (console P) unit :=
  match s with
  | [] => kundefined
  | c :: s =>
      if c =? 0 then mret tt
      else
        terminal_putchar c;;
        zoom (serial_putchar fuel c);;
        puts s
  end.

(** [buf] has 32 bytes: the loop stops after 32 digits or overruns the buffer in
    its next iteration.  Division by a base of 0 is undefined. *)
Definition print_uint (n base : Z) : K (console P) unit :=
  if n =? 0 then put 48
  else
    r ← kwhile 33 (λ '(n, buf, i),
      if 0 <? n then
        if base =? 0 then kundefined
        else
          d ← klift (aget digits (n mod base));
          buf ← klift (aset buf i d);
          mret (inl (n / base, buf, i + 1))
      else mret (inr (buf, i))) (n, replicate 32 0, 0);
    put_backwards put r.1 (Z.to_nat r.2).

(** Negating the least [int] overflows, which C leaves undefined. *)
Definition print_int (n : Z) : K (console P) unit :=
  if n <? 0 then
    put 45;;
    if n =? - 2 ^ 31 then kundefined else print_uint (u32 (- n)) 10
  else print_uint (u32 n) 10.

(** [va_arg(args, T)]: the next argument, read as an [int], an [uint32_t] or a
    string ([None] for a null pointer). *)
Definition va_int (args : list karg) : K (console P) (Z * list karg) :=
  match args with AInt z :: args => mret (s32 z, args) | _ => kundefined end.
Definition va_uint (args : list karg) : K (console P) (Z * list karg) :=
  match args with AInt z :: args => mret (u32 z, args) | _ => kundefined end.
Definition va_str (args : list karg) : K (console P) (option (list Z) * list karg) :=
  match args with
  | AStr s :: args => mret (Some s, args)
  | AInt 0 :: args => mret (None, args)
  | _ => kundefined
  end.

(** The character after a [%]: the arguments left. *)
Definition kprintf_conversion (c : Z) (args : list karg) : K (console P) (list karg) :=
  if c =? 100 then x ← va_int args; print_int x.1;; mret x.2
  else if c =? 117 then x ← va_uint args; print_uint x.1 10;; mret x.2
  else if c =? 120 then
    puts (c_literal "0x");;
    x ← va_uint args; print_uint x.1 16;; mret x.2
  else if c =? 115 then
    x ← va_str args; puts (default (c_literal "(null)") x.1);; mret x.2
  else if c =? 99 then x ← va_int args; put (u8 x.1);; mret x.2
  else if c =? 37 then put 37;; mret args
  else put 37;; put c;; mret args.

Fixpoint kprintf (fmt : list Z) (args : list karg) : K (console P) unit :=
  match fmt with
  | [] => kundefined
  | c :: fmt =>
      if c =? 0 then mret tt
      else if negb (c =? 37) then put c;; kprintf fmt args
      else
        match fmt with
        | [] => kundefined
        | d :: fmt => args ← kprintf_conversion d args; kprintf fmt args
        end
  end.

(** The console events of the other components. *)
Definition console_event (e : event) : K (console P) unit :=
  match e with
  | EvPrintf fmt args => kprintf (c_literal fmt) args
  | EvPutchar c => terminal_putchar c
  | EvSetColor c => terminal_setcolor c
  | EvClear => terminal_initialize
  end.

Fixpoint console_events (es : list event) : K (console P) unit :=
  match es with
  | [] => mret tt
  | e :: es => console_event e;; console_events es
  end.
End kprintf.
