(* ===== verification/KprintfThms.v ===== *)
(** * What kprintf prints

    [format] is the text of a format string and its arguments, a pure function;
    [kprintf] puts exactly its characters, one by one, whatever the terminal and the
    ports do.  [number] is the usual positional notation, and the digit loops of
    kernel/kprintf.c and kernel/kernel.c compute it. *)

From S2P Require Import Prelude Bytes Console ConsoleThms Kprintf.

(** ** Numbers *)

(** The digits of [n], least significant first. *)
Fixpoint udigits (cap : nat) (base n : Z) : list Z :=
  match cap with
  | O => []
  | S cap => if 0 <? n then (n mod base) :: udigits cap base (n / base) else []
  end.

Definition digit_char (d : Z) : Z := if d <? 10 then 48 + d else 87 + d.

(** The characters of a 32-bit number in a base from 2 to 16. *)
Definition number (base n : Z) : list Z :=
  if n =? 0 then [48] else rev (map digit_char (udigits 32 base n)).

(** Reading a number back, most significant digit first. *)
Definition digit_value (c : Z) : Z := if c <? 58 then c - 48 else c - 87.
Definition parse_number (base : Z) (cs : list Z) : Z :=
  fold_left (λ n c, n * base + digit_value c) cs 0.

Lemma udigits_range base n cap : 0 < base → Forall (λ d, 0 ≤ d < base) (udigits cap base n).
Proof.
  intros Hb. revert n. induction cap as [|cap IH]; intros n; simpl; [done|].
  destruct (0 <? n); [|done]. constructor; [apply Z.mod_pos_bound; lia|apply IH].
Qed.

Lemma udigits_value base n cap :
  2 ≤ base → 0 ≤ n < base ^ Z.of_nat cap →
  foldr (λ d acc, d + base * acc) 0 (udigits cap base n) = n.
Proof.
  intros Hb. revert n. induction cap as [|cap IH]; intros n Hn; simpl.
  - rewrite Z.pow_0_r in Hn. lia.
  - destruct (Z.ltb_spec 0 n); [|simpl; lia]. cbn [foldr]. rewrite IH.
    + pose proof (Z.div_mod n base ltac:(lia)). lia.
    + rewrite Nat2Z.inj_succ, Z.pow_succ_r in Hn by lia. split; [apply Z.div_pos; lia|].
      apply Z.div_lt_upper_bound; lia.
Qed.

(** The digits do not run out before the number does. *)
Lemma udigits_cap base n cap cap' :
  2 ≤ base → 0 ≤ n < base ^ Z.of_nat cap → (cap ≤ cap')%nat →
  udigits cap' base n = udigits cap base n.
Proof.
  intros Hb. revert n cap'. induction cap as [|cap IH]; intros n cap' Hn Hc.
  - rewrite Z.pow_0_r in Hn. assert (n = 0) as -> by lia. by destruct cap'.
  - destruct cap' as [|cap']; [lia|]. simpl. destruct (0 <? n); [|done]. f_equal.
    apply IH; [|lia].
    rewrite Nat2Z.inj_succ, Z.pow_succ_r in Hn by lia. split; [apply Z.div_pos; lia|].
    apply Z.div_lt_upper_bound; lia.
Qed.

Lemma length_udigits base n cap : (length (udigits cap base n) ≤ cap)%nat.
Proof.
  revert n. induction cap as [|cap IH]; intros n; simpl; [lia|].
  destruct (0 <? n); simpl; [|lia]. specialize (IH (n / base)). lia.
Qed.

Lemma digit_value_char d : 0 ≤ d < 16 → digit_value (digit_char d) = d.
Proof.
  intros Hd. unfold digit_value, digit_char. destruct (Z.ltb_spec d 10).
  - destruct (Z.ltb_spec (48 + d) 58); lia.
  - destruct (Z.ltb_spec (87 + d) 58); lia.
Qed.

Lemma parse_rev base ds :
  Forall (λ d, 0 ≤ d < 16) ds →
  parse_number base (rev (map digit_char ds)) = foldr (λ d acc, d + base * acc) 0 ds.
Proof.
  intros Hds. unfold parse_number.
  induction Hds as [|d ds Hd Hds IH]; [done|]. cbn [map rev foldr].
  rewrite fold_left_app. cbn [fold_left]. rewrite IH, digit_value_char by done. lia.
Qed.

(** The top digit of a positive number is not 0. *)
Lemma udigits_last base n cap :
  2 ≤ base → 0 < n < base ^ Z.of_nat cap → ∃ ds d, udigits cap base n = ds ++ [d] ∧ d ≠ 0.
Proof.
  intros Hb. revert n. induction cap as [|cap IH]; intros n Hn; simpl.
  - rewrite Z.pow_0_r in Hn. lia.
  - destruct (Z.ltb_spec 0 n); [|lia].
    rewrite Nat2Z.inj_succ, Z.pow_succ_r in Hn by lia.
    destruct (Z.eq_dec (n / base) 0) as [Hz|Hz].
    + exists [], (n mod base). rewrite Hz. split; [by destruct cap|].
      pose proof (Z.div_mod n base ltac:(lia)). nia.
    + assert (0 < n / base < base ^ Z.of_nat cap) as Hq.
      { assert (0 ≤ n / base) by (apply Z.div_pos; lia). split; [lia|].
        apply Z.div_lt_upper_bound; lia. }
      destruct (IH _ Hq) as (ds & d & -> & Hd). by exists (n mod base :: ds), d.
Qed.

(** ** The text of a format string *)

Definition decimal (n : Z) : list Z := if n <? 0 then 45 :: number 10 (- n) else number 10 n.

(** One conversion: its characters and the arguments left; [None] where C leaves
    the behaviour undefined. *)
Definition format_spec (c : Z) (args : list karg) : option (list Z * list karg) :=
  if c =? 100 then
    match args with
    | AInt z :: args => if s32 z =? - 2 ^ 31 then None else Some (decimal (s32 z), args)
    | _ => None
    end
  else if c =? 117 then
    match args with AInt z :: args => Some (number 10 (u32 z), args) | _ => None end
  else if c =? 120 then
    match args with
    | AInt z :: args => Some (48 :: 120 :: number 16 (u32 z), args)
    | _ => None
    end
  else if c =? 115 then
    match args with
    | AStr s :: args => if decide (terminated s) then Some (cstr s, args) else None
    | AInt 0 :: args => Some (cstr (c_literal "(null)"), args)
    | _ => None
    end
  else if c =? 99 then
    match args with AInt z :: args => Some ([u8 (s32 z)], args) | _ => None end
  else if c =? 37 then Some ([37], args)
  else Some ([37; c], args).

Fixpoint format (fmt : list Z) (args : list karg) : option (list Z) :=
  match fmt with
  | [] => None
  | c :: fmt =>
      if c =? 0 then Some []
      else if negb (c =? 37) then cs ← format fmt args; Some (c :: cs)
      else
        match fmt with
        | [] => None
        | d :: fmt => x ← format_spec d args; cs ← format fmt x.2; Some (x.1 ++ cs)
        end
  end.

(** ** The loops *)

Section loops.
Context {P : Type} `{PortIo P}.
Implicit Types t : console P.

(** Putting the characters of a text. *)
Fixpoint put_all (f : Z → K (console P) unit) (cs : list Z) : K (console P) unit :=
  match cs with
  | [] => mret tt
  | c :: cs => f c;; put_all f cs
  end.

Lemma put_all_app f cs cs' t : put_all f (cs ++ cs') t = (put_all f cs;; put_all f cs') t.
Proof.
  revert t. induction cs as [|c cs IH]; intros t; simpl.
  - symmetry. exact (kret_bind tt (λ _, put_all f cs') t).
  - rewrite kbind_assoc. apply bind_ext; [done|]. intros [] t'. apply IH.
Qed.

Lemma put_all_one f c t : put_all f [c] t = f c t.
Proof.
  simpl. etrans; [|apply (kbind_ret (f c) t)]. apply bind_ext; [done|]. by intros [] t'.
Qed.

Lemma put_backwards_spec f cs rest t :
  put_backwards f (cs ++ rest) (length cs) t = put_all f (rev cs) t.
Proof.
  revert rest t. induction cs as [|c cs IH] using rev_ind; intros rest t; [done|].
  rewrite length_app, Nat.add_1_r, rev_app_distr. cbn [put_backwards rev app put_all].
  rewrite aget_eq, Nat2Z.id, <-app_assoc, lookup_app_r, Nat.sub_diag by lia.
  cbn [app lookup list_lookup klift]. rewrite kret_bind. apply bind_ext; [done|].
  intros [] t'. apply IH.
Qed.

(** The digit loop of both printers, for any body that stores one digit. *)
Lemma digit_loop (body : Z * list Z * Z → K (console P) (Z * list Z * Z + list Z * Z))
    base cap t :
  2 ≤ base →
  (∀ n buf i, 0 < n → 0 ≤ i < Z.of_nat (length buf) →
     body (n, buf, i) t
     = Done (inl (n / base, <[Z.to_nat i := digit_char (n mod base)]> buf, i + 1)) t []) →
  (∀ buf i, body (0, buf, i) t = Done (inr (buf, i)) t []) →
  ∀ n, 0 ≤ n < base ^ Z.of_nat cap →
  ∃ rest, kwhile (S cap) body (n, replicate cap 0, 0) t
    = Done (map digit_char (udigits cap base n) ++ rest,
            Z.of_nat (length (udigits cap base n))) t [].
Proof.
  intros Hb Hstep Hstop.
  assert (∀ k n done rest, 0 ≤ n < base ^ Z.of_nat k → (k ≤ length rest)%nat →
    ∃ rest', kwhile (S k) body (n, done ++ rest, Z.of_nat (length done)) t
      = Done (done ++ map digit_char (udigits k base n) ++ rest',
              Z.of_nat (length done + length (udigits k base n))) t []) as Hgen.
  { induction k as [|k IH]; intros n dn rest Hn Hrest.
    - rewrite Z.pow_0_r in Hn. assert (n = 0) as -> by lia. exists rest.
      unfold kwhile. rewrite (kbind_done _ _ _ _ _ (Hstop _ _)). simpl.
      rewrite Nat.add_0_r. done.
    - simpl udigits. destruct (Z.ltb_spec 0 n).
      + assert (0 ≤ n / base < base ^ Z.of_nat k) as Hq.
        { rewrite Nat2Z.inj_succ, Z.pow_succ_r in Hn by lia. split; [apply Z.div_pos; lia|].
          apply Z.div_lt_upper_bound; lia. }
        destruct rest as [|x rest]; [simpl in Hrest; lia|]. simpl in Hrest.
        destruct (IH (n / base) (dn ++ [digit_char (n mod base)]) rest Hq ltac:(lia))
          as [rest' E]. exists rest'.
        change (kwhile (S (S k)) body) with
          (λ a, x ← body a; match x with inl a' => kwhile (S k) body a' | inr r => mret r end).
        cbv beta. erewrite kbind_done; [|apply Hstep; [done|rewrite length_app; simpl; lia]].
        cbv beta iota. rewrite Nat2Z.id, insert_app_r_alt, Nat.sub_diag by lia.
        cbn [insert list_insert].
        rewrite length_app in E. cbn [length map] in E |- *. rewrite <-!app_assoc in E.
        cbn [app] in E |- *.
        replace (Z.of_nat (length dn) + 1) with (Z.of_nat (length dn + 1)) by lia.
        rewrite E. do 2 f_equal. lia.
      + assert (n = 0) as -> by lia. exists rest.
        change (kwhile (S (S k)) body) with
          (λ a, x ← body a; match x with inl a' => kwhile (S k) body a' | inr r => mret r end).
        cbv beta. rewrite (kbind_done _ _ _ _ _ (Hstop _ _)). simpl.
        rewrite Nat.add_0_r. done. }
  intros n Hn. destruct (Hgen cap n [] (replicate cap 0) Hn) as [rest E].
  { rewrite length_replicate. lia. }
  exists rest. exact E.
Qed.
End loops.

(** ** The printers *)

Lemma digits_lookup d : 0 ≤ d < 16 → aget digits d = Some (digit_char d).
Proof.
  intros Hd. rewrite aget_eq by lia.
  assert (∀ k, (k < 16)%nat → digits !! k = Some (digit_char (Z.of_nat k))) as H.
  { intros k Hk. do 16 (destruct k as [|k]; [reflexivity|]). lia. }
  rewrite H by lia. do 2 f_equal. lia.
Qed.

Lemma base_pow32 base : 2 ≤ base → 2 ^ 32 ≤ base ^ Z.of_nat 32.
Proof. intros Hb. apply Z.pow_le_mono_l. lia. Qed.

Section printers.
Context {P : Type} `{PortIo P}.
Context (fuel : nat).
Implicit Types t : console P.

Lemma put_number {f : Z → K (console P) unit} base ds rest n t :
  n ≠ 0 → ds = udigits 32 base n →
  put_backwards f (map digit_char ds ++ rest) (length ds) t = put_all f (number base n) t.
Proof.
  intros Hn ->. rewrite <-(length_map digit_char), put_backwards_spec. unfold number.
  destruct (Z.eqb_spec n 0); [contradiction|done].
Qed.

Lemma print_uint_number n base t :
  2 ≤ base ≤ 16 → 0 ≤ n < 2 ^ 32 →
  print_uint fuel n base t = put_all (put fuel) (number base n) t.
Proof.
  intros Hb Hn. unfold print_uint. destruct (Z.eqb_spec n 0) as [->|Hn0].
  { symmetry. apply put_all_one. }
  destruct (digit_loop (P := P) (λ '(n, buf, i),
      if 0 <? n then
        if base =? 0 then kundefined
        else
          d ← klift (aget digits (n mod base));
          buf ← klift (aset buf i d);
          mret (inl (n / base, buf, i + 1))
      else mret (inr (buf, i))) base 32 t ltac:(lia)) with (n := n) as [rest E].
  - intros m buf i Hm Hi. destruct (Z.ltb_spec 0 m); [|lia]. destruct (Z.eqb_spec base 0); [lia|].
    pose proof (Z.mod_pos_bound m base ltac:(lia)).
    rewrite digits_lookup by lia. cbn [klift]. rewrite kret_bind.
    rewrite aset_Some by lia. cbn [klift]. by rewrite kret_bind.
  - done.
  - pose proof (base_pow32 base ltac:(lia)). lia.
  - rewrite (kbind_done _ _ _ _ _ E). cbn [fst snd]. rewrite Nat2Z.id.
    by apply put_number.
Qed.

Lemma print_int_decimal n t :
  - 2 ^ 31 < n < 2 ^ 31 → print_int fuel n t = put_all (put fuel) (decimal n) t.
Proof.
  intros Hn. unfold print_int, decimal. destruct (Z.ltb_spec n 0).
  - cbn [put_all]. apply bind_ext; [done|]. intros [] t'. destruct (Z.eqb_spec n (- 2 ^ 31)); [lia|].
    rewrite u32_small by lia. apply print_uint_number; lia.
  - rewrite u32_small by lia. apply print_uint_number; lia.
Qed.

Lemma writeuint_number n t :
  0 ≤ n < 2 ^ 32 → terminal_writeuint n t = put_all terminal_putchar (number 10 n) t.
Proof.
  intros Hn. unfold terminal_writeuint. destruct (Z.eqb_spec n 0) as [->|Hn0].
  { symmetry. apply put_all_one. }
  destruct (digit_loop (P := P) (λ '(n, buf, i),
      if 0 <? n then
        buf ← klift (aset buf i (48 + n mod 10));
        mret (inl (n / 10, buf, i + 1))
      else mret (inr (buf, i))) 10 10 t ltac:(lia)) with (n := n) as [rest E].
  - intros m buf i Hm Hi. destruct (Z.ltb_spec 0 m); [|lia].
    rewrite aset_Some by lia. cbn [klift]. rewrite kret_bind. unfold digit_char.
    pose proof (Z.mod_pos_bound m 10 ltac:(lia)). destruct (Z.ltb_spec (m mod 10) 10); [done|lia].
  - done.
  - change (10 ^ Z.of_nat 10) with 10000000000. lia.
  - rewrite (kbind_done _ _ _ _ _ E). cbn [fst snd]. rewrite Nat2Z.id.
    apply put_number; [exact Hn0|]. symmetry. apply udigits_cap; [lia| |lia].
    change (10 ^ Z.of_nat 10) with 10000000000. lia.
Qed.

Lemma puts_cstr s t : terminated s → puts fuel s t = put_all (put fuel) (cstr s) t.
Proof.
  unfold terminated. revert t. induction s as [|c s IH]; intros t Hs; [by apply not_elem_of_nil in Hs|].
  cbn [puts cstr]. destruct (Z.eqb_spec c 0) as [->|Hc]; [done|]. cbn [put_all]. unfold put.
  rewrite kbind_assoc. apply bind_ext; [done|]. intros [] t1. apply bind_ext; [done|].
  intros [] t2. apply IH. by apply elem_of_cons in Hs as [?|?].
Qed.

(** ** [kprintf] *)

Lemma kprintf_spec_format c args cs args' t :
  format_spec c args = Some (cs, args') →
  kprintf_conversion fuel c args t = (put_all (put fuel) cs;; mret args') t.
Proof.
  unfold format_spec, kprintf_conversion.
  assert (∀ z, - 2 ^ 31 ≤ s32 z < 2 ^ 31) as Hs32.
  { intros z. unfold s32. pose proof (u32_range z). destruct (Z.ltb_spec (u32 z) (2 ^ 31)); lia. }
  destruct (c =? 100).
  { destruct args as [|[z|] args]; try discriminate.
    destruct (Z.eqb_spec (s32 z) (- 2 ^ 31)); [discriminate|]. intros [= <- <-].
    cbn [va_int]. rewrite kret_bind. cbn [fst snd]. apply bind_ext; [|done].
    apply print_int_decimal. specialize (Hs32 z). lia. }
  destruct (c =? 117).
  { destruct args as [|[z|] args]; try discriminate. intros [= <- <-].
    cbn [va_uint]. rewrite kret_bind. cbn [fst snd]. apply bind_ext; [|done].
    apply print_uint_number; [lia|]. apply u32_range. }
  destruct (c =? 120).
  { destruct args as [|[z|] args]; try discriminate. intros [= <- <-]. cbn [va_uint].
    change (48 :: 120 :: number 16 (u32 z)) with ([48; 120] ++ number 16 (u32 z)).
    etrans; [|apply bind_ext; [symmetry; apply put_all_app|intros; reflexivity]].
    rewrite kbind_assoc. apply bind_ext.
    - rewrite puts_cstr by apply terminated_with_nul. reflexivity.
    - intros [] t'. rewrite kret_bind. cbn [fst snd]. apply bind_ext; [|done].
      apply print_uint_number; [lia|]. apply u32_range. }
  destruct (c =? 115).
  { destruct args as [|[[| |]|s] args]; try discriminate.
    - intros [= <- <-]. cbn [va_str]. rewrite kret_bind. cbn [fst snd default]. apply bind_ext; [|done].
      apply puts_cstr. apply terminated_with_nul.
    - destruct (decide (terminated s)); [|discriminate]. intros [= <- <-].
      cbn [va_str]. rewrite kret_bind. cbn [fst snd default]. apply bind_ext; [|done].
      by apply puts_cstr. }
  destruct (c =? 99).
  { destruct args as [|[z|] args]; try discriminate. intros [= <- <-].
    cbn [va_int]. rewrite kret_bind. cbn [fst snd]. apply bind_ext; [|done].
    symmetry. apply put_all_one. }
  destruct (c =? 37).
  { intros [= <- <-]. apply bind_ext; [|done]. symmetry. apply put_all_one. }
  intros [= <- <-]. cbn [put_all]. rewrite kbind_assoc. apply bind_ext; [done|]. intros [] t1.
  apply bind_ext; [|done]. symmetry. apply put_all_one.
Qed.

Lemma kprintf_eq fmt : ∀ args t,
  kprintf fuel fmt args t =
  match fmt with
  | [] => kundefined
  | c :: fmt =>
      if c =? 0 then mret tt
      else if negb (c =? 37) then put fuel c;; kprintf fuel fmt args
      else
        match fmt with
        | [] => kundefined
        | d :: fmt => args ← kprintf_conversion fuel d args; kprintf fuel fmt args
        end
  end t.
Proof. by destruct fmt. Qed.

Lemma format_eq fmt args :
  format fmt args =
  match fmt with
  | [] => None
  | c :: fmt =>
      if c =? 0 then Some []
      else if negb (c =? 37) then cs ← format fmt args; Some (c :: cs)
      else
        match fmt with
        | [] => None
        | d :: fmt => x ← format_spec d args; cs ← format fmt x.2; Some (x.1 ++ cs)
        end
  end.
Proof. by destruct fmt. Qed.

Lemma kprintf_format (n : nat) : ∀ fmt args cs t,
  (length fmt ≤ n)%nat → format fmt args = Some cs →
  kprintf fuel fmt args t = put_all (put fuel) cs t.
Proof.
  induction n as [|n IH]; intros fmt args cs t Hn; [by destruct fmt; [|simpl in Hn; lia]|].
  rewrite format_eq, kprintf_eq. destruct fmt as [|c fmt]; [done|]. simpl in Hn.
  destruct (c =? 0); [by intros [= <-]|]. destruct (negb (c =? 37)).
  - intros (cs' & Hcs & [= <-])%bind_Some. cbn [put_all]. apply bind_ext; [done|].
    intros [] t'. apply IH; [lia|exact Hcs].
  - destruct fmt as [|d fmt]; [done|]. simpl in Hn.
    intros ([cs1 args'] & Hs & (cs2 & Hcs & [= <-])%bind_Some)%bind_Some.
    cbn [fst snd] in *. rewrite put_all_app.
    etrans; [eapply bind_ext; [by apply kprintf_spec_format|intros; reflexivity]|].
    rewrite kbind_assoc. apply bind_ext; [done|]. intros [] t'. rewrite kret_bind.
    apply IH; [lia|exact Hcs].
Qed.

(** ** Theorems *)

(** The numbers printed read back: for every 32-bit number and base from 2 to 16
    the digit loop of [print_uint] puts the positional notation, which reads back as
    the number and has no leading zero; in base 10 the separate loop of
    [terminal_writeuint] puts the same digits. *)
Theorem printed_numbers_read_back n base t :
  2 ≤ base ≤ 16 → 0 ≤ n < 2 ^ 32 →
  print_uint fuel n base t = put_all (put fuel) (number base n) t ∧
  parse_number base (number base n) = n ∧
  (n ≠ 0 → head (number base n) ≠ Some 48) ∧
  terminal_writeuint n t = put_all terminal_putchar (number 10 n) t.
Proof.
  intros Hb Hn. split; [by apply print_uint_number|].
  pose proof (base_pow32 base ltac:(lia)) as Hpow.
  pose proof (udigits_range base n 32 ltac:(lia)) as Hr.
  assert (Forall (λ d, 0 ≤ d < 16) (udigits 32 base n)) as Hr16.
  { eapply Forall_impl; [exact Hr|]. simpl. intros d Hd. lia. }
  split; [|split; [|by apply writeuint_number]].
  - unfold number. destruct (Z.eqb_spec n 0) as [->|]; [reflexivity|].
    rewrite parse_rev by exact Hr16. apply udigits_value; lia.
  - intros Hn0. unfold number. destruct (Z.eqb_spec n 0); [contradiction|].
    destruct (udigits_last base n 32) as (ds & d & E & Hd); [lia|lia|].
    rewrite E, map_app, rev_app_distr. cbn [map rev app head].
    rewrite E in Hr16. apply Forall_app in Hr16 as [_ Hr16]. inversion Hr16; subst.
    unfold digit_char. destruct (Z.ltb_spec d 10); intros [= H5]; lia.
Qed.

(** A format string that ends in a single per cent sign: its final NUL is printed as
    the conversion and the loop goes on behind the string. *)
Lemma kprintf_trailing_percent (cs : list Z) args : ∀ t,
  Forall (λ c, c ≠ 0 ∧ c ≠ 37) cs →
  kprintf fuel (cs ++ [37; 0]) args t = (put_all (put fuel) (cs ++ [37; 0]);; kundefined) t.
Proof.
  induction cs as [|c cs IH]; intros t Hcs; rewrite kprintf_eq; cbn [app put_all].
  - cbn [Z.eqb Pos.eqb negb]. unfold kprintf_conversion. cbn [Z.eqb Pos.eqb].
    rewrite !kbind_assoc. apply bind_ext; [done|]. intros [] t1.
    rewrite !kbind_assoc. apply bind_ext; [done|]. intros [] t2.
    rewrite !kret_bind. done.
  - inversion Hcs as [|? ? [H0 H37] Hcs']; subst.
    destruct (Z.eqb_spec c 0); [contradiction|]. destruct (Z.eqb_spec c 37); [contradiction|].
    cbn [negb]. rewrite kbind_assoc. apply bind_ext; [done|]. intros [] t1. by apply IH.
Qed.
End printers.
