(* ===== verification/ConsoleHw.v ===== *)
(** * The console on its hardware

    [ConsoleHw] is what the documentation of the 16550 UART and of the VGA CRT
    controller says about the ports the kernel uses; [sim_hw] is a machine that
    behaves so.  The theorems put the pieces together: what [kprintf] sends to the
    serial line and shows on the screen. *)

From S2P Require Import Prelude Bytes Console ConsoleThms Kprintf KprintfThms.

(** ** The devices *)

(** The UART: divisor latch, divisor, bytes sent, polls until the transmitter is
    empty.  The CRT controller: index and registers. *)
Record hw := Hw {
  dlab : bool;
  div_lo : Z;
  div_hi : Z;
  sent : list Z;
  busy : nat;
  crt_index : Z;
  crt_reg : Z → Z;
}.

Definition set_busy (n : nat) (h : hw) : hw :=
  Hw (dlab h) (div_lo h) (div_hi h) (sent h) n (crt_index h) (crt_reg h).
Definition set_dlab (b : bool) (h : hw) : hw :=
  Hw b (div_lo h) (div_hi h) (sent h) (busy h) (crt_index h) (crt_reg h).
Definition set_divisor (lo hi : Z) (h : hw) : hw :=
  Hw (dlab h) lo hi (sent h) (busy h) (crt_index h) (crt_reg h).
Definition send (c : Z) (n : nat) (h : hw) : hw :=
  Hw (dlab h) (div_lo h) (div_hi h) (sent h ++ [c]) n (crt_index h) (crt_reg h).
Definition set_crt (i : Z) (r : Z → Z) (h : hw) : hw :=
  Hw (dlab h) (div_lo h) (div_hi h) (sent h) (busy h) i r.

(** One register of the CRT controller written. *)
Definition write_reg (i v : Z) (r : Z → Z) : Z → Z := λ k, if k =? i then v else r k.

Class ConsoleHw (P : Type) `{PortIo P} := {
  latency : nat;
  hw_view : P → hw;
  hw_status p : let (x, p') := port_in (COM1 + 5) p in
    match busy (hw_view p) with
    | S n => Z.testbit x 5 = false ∧ hw_view p' = set_busy n (hw_view p)
    | O => Z.testbit x 5 = true ∧ hw_view p' = hw_view p
    end;
  hw_data p c : dlab (hw_view p) = false → busy (hw_view p) = 0%nat →
    ∃ n, (n ≤ latency)%nat ∧ hw_view (port_out COM1 c p) = send (u8 c) n (hw_view p);
  hw_divisor_lo p c : dlab (hw_view p) = true →
    hw_view (port_out COM1 c p) = set_divisor c (div_hi (hw_view p)) (hw_view p);
  hw_divisor_hi p c : dlab (hw_view p) = true →
    hw_view (port_out (COM1 + 1) c p) = set_divisor (div_lo (hw_view p)) c (hw_view p);
  hw_interrupts p c : dlab (hw_view p) = false →
    hw_view (port_out (COM1 + 1) c p) = hw_view p;
  hw_line p c : hw_view (port_out (COM1 + 3) c p) = set_dlab (Z.testbit c 7) (hw_view p);
  hw_fifo p c : busy (hw_view p) = 0%nat → hw_view (port_out (COM1 + 2) c p) = hw_view p;
  hw_modem p c : hw_view (port_out (COM1 + 4) c p) = hw_view p;
  hw_crt_index p c :
    hw_view (port_out 0x3D4 c p) = set_crt c (crt_reg (hw_view p)) (hw_view p);
  hw_crt_data p c :
    hw_view (port_out 0x3D5 c p)
    = set_crt (crt_index (hw_view p))
        (write_reg (crt_index (hw_view p)) c (crt_reg (hw_view p))) (hw_view p);
}.

(** ** A machine *)

Definition sim_out (port c : Z) (h : hw) : hw :=
  if port =? 0x3F8 then
    if dlab h then set_divisor c (div_hi h) h else send (u8 c) 2 h
  else if port =? 0x3F9 then
    if dlab h then set_divisor (div_lo h) c h else h
  else if port =? 0x3FB then set_dlab (Z.testbit c 7) h
  else if port =? 0x3D4 then set_crt c (crt_reg h) h
  else if port =? 0x3D5 then set_crt (crt_index h) (write_reg (crt_index h) c (crt_reg h)) h
  else h.

#[export] Instance sim_io : PortIo hw := {
  port_in port h := match busy h with
                    | S n => (0, set_busy n h)
                    | O => (0x20, h)
                    end;
  port_out := sim_out;
}.

#[export] Instance sim_hw : ConsoleHw hw.
Proof.
  refine {| latency := 2; hw_view := λ h, h |}.
  - intros p. simpl. by destruct (busy p).
  - intros p c Hd Hb. exists 2%nat. split; [lia|]. simpl. unfold sim_out. simpl. by rewrite Hd.
  - intros p c Hd. simpl. unfold sim_out. simpl. by rewrite Hd.
  - intros p c Hd. simpl. unfold sim_out. simpl. by rewrite Hd.
  - intros p c Hd. simpl. unfold sim_out. simpl. by rewrite Hd.
  - done.
  - done.
  - done.
  - done.
  - done.
Defined.

(** ** The drivers *)

Section hw.
Context {P : Type} `{ConsoleHw P}.
Context (fuel : nat) (Hfuel : (latency < fuel)%nat).
Implicit Types (p : P) (t : console P) (s : screen).

(** The serial line is set up and at most [latency] polls from being ready. *)
Definition line_ok p : Prop := dlab (hw_view p) = false ∧ (busy (hw_view p) ≤ latency)%nat.

Lemma wait_spec p (n : nat) :
  (busy (hw_view p) < n)%nat →
  wp (kwhile n (λ _ : unit,
      s ← inb (COM1 + 5);
      if Z.land s 0x20 =? 0 then mret (inl tt) else mret (inr tt)) tt) p
    (λ _ p' o, o = [] ∧ hw_view p' = set_busy 0 (hw_view p)).
Proof.
  intros Hn. apply wp_kwhile with (measure := λ _ p, busy (hw_view p))
    (I := λ _ p' o, o = [] ∧ set_busy 0 (hw_view p') = set_busy 0 (hw_view p)); [exact Hn|done|].
  intros [] p1 o (-> & Hp1). wp_steps. pose proof (hw_status p1) as Hst.
  unfold wp at 1, inb. destruct (port_in (COM1 + 5) p1) as [x p2].
  change 0x20 with (2 ^ 5).
  assert ((Z.land x (2 ^ 5) =? 0) = negb (Z.testbit x 5)) as ->.
  { change (2 ^ 5) with (bit32 5). by apply land_bit32_zero. }
  destruct (busy (hw_view p1)) as [|k] eqn:Hb; destruct Hst as [-> Hv]; simpl; wp_steps.
  - split; [done|]. rewrite Hv, <-Hp1. unfold set_busy. rewrite <-Hb. by destruct (hw_view p1).
  - rewrite Hv. split; [simpl; lia|]. split; [done|]. by rewrite <-Hp1.
Qed.

Lemma serial_putchar_spec p c :
  line_ok p → byte_ok c →
  wp (serial_putchar fuel c) p (λ _ p' o, o = [] ∧ line_ok p' ∧
    ∃ n, hw_view p' = send c n (hw_view p)).
Proof.
  intros [Hd Hb] Hc. unfold byte_ok in Hc. unfold serial_putchar. wp_steps.
  eapply wp_mono; [apply wait_spec; lia|]. intros _ p1 o (-> & Hv). unfold wp, outb.
  destruct (hw_data p1 c) as (n & Hn & Hv'); [by rewrite Hv|by rewrite Hv|].
  rewrite u8_small in Hv' by lia. rewrite Hv in Hv'. split; [done|].
  split; [split; rewrite Hv'; simpl; done|]. exists n. exact Hv'.
Qed.

(** Moving the cursor. *)
Lemma cursor_ports_view y x p :
  hw_view (cursor_ports y x p)
  = set_crt 0x0E (write_reg 0x0E ((y * 80 + x) / 256)
      (write_reg 0x0F ((y * 80 + x) mod 256) (crt_reg (hw_view p)))) (hw_view p).
Proof. unfold cursor_ports. by rewrite hw_crt_data, hw_crt_index, hw_crt_data, hw_crt_index. Qed.

(** The position the CRT controller shows the cursor at. *)
Definition hw_cursor p : Z := crt_reg (hw_view p) 0x0E * 256 + crt_reg (hw_view p) 0x0F.

Lemma cursor_ports_cursor y x p : hw_cursor (cursor_ports y x p) = y * 80 + x.
Proof.
  unfold hw_cursor. rewrite cursor_ports_view. unfold write_reg. cbn [set_crt crt_reg Z.eqb Pos.eqb].
  dlia.
Qed.

Lemma put_spec t s c :
  shows t s → line_ok (ports t) → byte_ok c →
  wp (put fuel c) t (λ _ t' o, o = [] ∧ shows t' (screen_putchar c s) ∧ line_ok (ports t') ∧
    sent (hw_view (ports t')) = sent (hw_view (ports t)) ++ [c] ∧
    hw_cursor (ports t') = if moves_cursor c
      then row (screen_putchar c s) * 80 + col (screen_putchar c s)
      else hw_cursor (ports t)).
Proof.
  intros Hs Hl Hc. unfold put. wp_steps. eapply wp_mono; [by apply putchar_spec|].
  intros _ t1 o (-> & Hs1 & Hp1). apply wp_zoom.
  assert (line_ok (ports t1) ∧ sent (hw_view (ports t1)) = sent (hw_view (ports t)) ∧
    hw_cursor (ports t1) = if moves_cursor c
      then row (screen_putchar c s) * 80 + col (screen_putchar c s)
      else hw_cursor (ports t)) as (Hl1 & Hsent1 & Hcur1).
  { unfold line_ok. rewrite Hp1. destruct (moves_cursor c); [|done].
    rewrite cursor_ports_view, <-cursor_ports_view. split; [|split].
    - rewrite cursor_ports_view. exact Hl.
    - by rewrite cursor_ports_view.
    - apply cursor_ports_cursor. }
  eapply wp_mono; [by apply serial_putchar_spec|]. cbn [lens_get lens_set console_ports_lens].
  intros _ p2 o (-> & Hl2 & n & Hv). split; [done|]. split; [destruct Hs1; constructor; done|].
  cbn [set_ports ports]. split; [exact Hl2|]. split.
  - rewrite Hv. cbn [send sent]. by rewrite Hsent1.
  - rewrite <-Hcur1. unfold hw_cursor. by rewrite Hv.
Qed.

Lemma put_all_spec cs : ∀ t s,
  shows t s → line_ok (ports t) → bytes_ok cs →
  wp (put_all (put fuel) cs) t (λ _ t' o, o = [] ∧ shows t' (screen_write cs s) ∧
    line_ok (ports t') ∧ sent (hw_view (ports t')) = sent (hw_view (ports t)) ++ cs).
Proof.
  induction cs as [|c cs IH]; intros t s Hs Hl Hcs; cbn [put_all screen_write foldl]; wp_steps.
  - by rewrite app_nil_r.
  - inversion Hcs; subst. eapply wp_mono; [by apply (put_spec t s c)|].
    intros _ t1 o (-> & Hs1 & Hl1 & Hsent1 & _).
    eapply wp_mono; [by apply IH|]. intros _ t2 o (-> & Hs2 & Hl2 & Hsent2).
    split; [done|]. split; [exact Hs2|]. split; [exact Hl2|].
    by rewrite Hsent2, Hsent1, <-app_assoc.
Qed.

End hw.

(** ** Formatted text is bytes *)

Definition arg_ok (a : karg) : Prop := match a with AInt _ => True | AStr s => bytes_ok s end.

Lemma number_bytes base n : 2 ≤ base ≤ 16 → bytes_ok (number base n).
Proof.
  intros Hb. unfold number. destruct (n =? 0); [constructor; [unfold byte_ok; lia|constructor]|].
  apply Forall_rev, Forall_map. eapply Forall_impl; [apply (udigits_range base n 32); lia|].
  simpl. intros d Hd. unfold byte_ok, digit_char. destruct (Z.ltb_spec d 10); lia.
Qed.

Lemma format_spec_bytes c args cs args' :
  byte_ok c → Forall arg_ok args → format_spec c args = Some (cs, args') →
  bytes_ok cs ∧ Forall arg_ok args'.
Proof.
  intros Hc Hargs. unfold format_spec.
  assert (bytes_ok [37]) as H37 by (constructor; [unfold byte_ok; lia|constructor]).
  destruct (c =? 100).
  { destruct args as [|[z|] args]; try discriminate. inversion Hargs; subst.
    destruct (s32 z =? - 2 ^ 31); [discriminate|]. intros [= <- <-]. split; [|done].
    unfold decimal. pose proof number_bytes.
    destruct (s32 z <? 0); [constructor; [unfold byte_ok; lia|]|]; apply number_bytes; lia. }
  destruct (c =? 117).
  { destruct args as [|[z|] args]; try discriminate. inversion Hargs; subst.
    intros [= <- <-]. split; [apply number_bytes; lia|done]. }
  destruct (c =? 120).
  { destruct args as [|[z|] args]; try discriminate. inversion Hargs; subst.
    intros [= <- <-]. split; [|done]. do 2 (constructor; [unfold byte_ok; lia|]).
    apply number_bytes. lia. }
  destruct (c =? 115).
  { destruct args as [|[[| |]|s] args]; try discriminate; inversion Hargs; subst.
    - intros [= <- <-]. split; [|done]. repeat (constructor; [unfold byte_ok; lia|]). constructor.
    - destruct (decide (terminated s)); [|discriminate]. intros [= <- <-].
      split; [by apply cstr_bytes_ok|done]. }
  destruct (c =? 99).
  { destruct args as [|[z|] args]; try discriminate. inversion Hargs; subst.
    intros [= <- <-]. split; [|done]. constructor; [apply u8_range|constructor]. }
  destruct (c =? 37); intros [= <- <-]; [done|]. split; [|done].
  constructor; [unfold byte_ok; lia|]. constructor; [done|constructor].
Qed.

Lemma format_bytes (n : nat) : ∀ fmt args cs,
  (length fmt ≤ n)%nat → bytes_ok fmt → Forall arg_ok args → format fmt args = Some cs →
  bytes_ok cs.
Proof.
  induction n as [|n IH]; intros fmt args cs Hn Hfmt Hargs; [by destruct fmt; [|simpl in Hn; lia]|].
  rewrite format_eq. destruct fmt as [|c fmt]; [done|]. simpl in Hn. inversion Hfmt as [|? ? Hc Hfmt']; subst.
  destruct (c =? 0); [intros [= <-]; constructor|]. destruct (negb (c =? 37)).
  - intros (cs' & Hcs & [= <-])%bind_Some. constructor; [done|]. by apply (IH fmt args); [lia|..].
  - destruct fmt as [|d fmt]; [done|]. simpl in Hn. inversion Hfmt' as [|? ? Hd Hfmt2]; subst.
    intros ([cs1 args'] & Hs & (cs2 & Hcs & [= <-])%bind_Some)%bind_Some. cbn [fst snd] in *.
    destruct (format_spec_bytes _ _ _ _ Hd Hargs Hs) as [H7 H8].
    apply Forall_app. split; [exact H7|]. by apply (IH fmt args'); [lia|..].
Qed.
Lemma c_literal_bytes fmt : bytes_ok (c_literal fmt).
Proof.
  unfold c_literal, with_nul. apply Forall_app. split; [|constructor; [unfold byte_ok; lia|constructor]].
  assert (bytes_ok (ascii_codes fmt)) as Ha.
  { apply Forall_map, Forall_forall. intros a _. unfold byte_ok. simpl.
    pose proof (Ascii.N_ascii_bounded a). lia. }
  assert (∀ n l, (length l ≤ n)%nat → bytes_ok l → bytes_ok (unescape l)) as Hu.
  { assert (byte_ok 8 ∧ byte_ok 9 ∧ byte_ok 10 ∧ byte_ok 13) as (H8 & H9 & H10 & H13)
      by (unfold byte_ok; lia).
    induction n as [|n IH]; intros l Hn Hl; [by destruct l; [|simpl in Hn; lia]|].
    destruct l as [|c l]; [constructor|]. simpl in Hn. inversion Hl as [|? ? Hc Hl']; subst.
    assert (bytes_ok (c :: unescape l)) as Hcons by (constructor; [done|apply IH; [lia|done]]).
    destruct (decide (c = 92)) as [->|Hne].
    - destruct l as [|d l]; [exact Hcons|]. simpl in Hn. inversion Hl' as [|? ? Hd Hl2]; subst.
      assert (bytes_ok (unescape l)) as Hrec by (apply IH; [lia|done]).
      destruct (decide (d = 110)) as [->|]; [by constructor|].
      destruct (decide (d = 116)) as [->|]; [by constructor|].
      destruct (decide (d = 98)) as [->|]; [by constructor|].
      destruct (decide (d = 114)) as [->|]; [by constructor|].
      assert (unescape (92 :: d :: l) = 92 :: unescape (d :: l)) as ->; [|exact Hcons].
      cbn [unescape]. repeat (case_match; try congruence; try done).
    - assert (unescape (c :: l) = c :: unescape l) as ->; [|exact Hcons].
      cbn [unescape]. repeat (case_match; try congruence; try done). }
  eapply Hu; [reflexivity|exact Ha].
Qed.


(** ** Theorems *)

Section prints.
Context {P : Type} `{ConsoleHw P}.
Context (fuel : nat) (Hfuel : (latency < fuel)%nat).
Implicit Types (p : P) (t : console P) (s : screen).

Lemma kprintf_ok t s fmt args cs :
  shows t s → line_ok (ports t) → bytes_ok fmt → Forall arg_ok args →
  format fmt args = Some cs →
  wp (Kprintf.kprintf fuel fmt args) t (λ _ t' o, o = [] ∧ shows t' (screen_write cs s) ∧
    line_ok (ports t') ∧ sent (hw_view (ports t')) = sent (hw_view (ports t)) ++ cs).
Proof.
  intros Hs Hl Hfmt Hargs Hcs. unfold wp.
  rewrite (kprintf_format fuel (length fmt) fmt args cs t ltac:(lia) Hcs).
  apply put_all_spec; [exact Hfuel|exact Hs|exact Hl|]. exact (format_bytes (length fmt) fmt args cs ltac:(lia) Hfmt Hargs Hcs).
Qed.

(** C28.  A [kprintf] whose arguments match its format prints exactly the formatted
    text: it goes out on the serial line and onto the screen, and the line is ready
    for the next one. *)
Theorem kprintf_prints t s fmt args cs :
  shows t s → line_ok (ports t) → bytes_ok fmt → Forall arg_ok args →
  format fmt args = Some cs →
  ∃ t', Kprintf.kprintf fuel fmt args t = Done tt t' [] ∧ shows t' (screen_write cs s) ∧
    line_ok (ports t') ∧ sent (hw_view (ports t')) = sent (hw_view (ports t)) ++ cs.
Proof.
  intros Hs Hl Hfmt Hargs Hcs.
  destruct (wp_done _ _ _ (kprintf_ok t s fmt args cs Hs Hl Hfmt Hargs Hcs))
    as ([] & t' & o & E & -> & H'). by exists t'.
Qed.

(** The messages of the other components the console can print. *)
Definition event_ok (e : event) : Prop :=
  match e with
  | EvPrintf fmt args => Forall arg_ok args ∧ is_Some (format (c_literal fmt) args)
  | EvSetColor c => byte_ok c
  | EvPutchar _ | EvClear => True
  end.

Lemma console_event_ok t s e :
  shows t s → line_ok (ports t) → event_ok e →
  wp (console_event fuel e) t (λ _ t' o, o = [] ∧ (∃ s', shows t' s') ∧ line_ok (ports t')).
Proof.
  intros Hs Hl He. assert (∀ y x, line_ok (cursor_ports y x (ports t))) as Hcur.
  { intros y x. unfold line_ok. rewrite cursor_ports_view. exact Hl. }
  destruct e as [fmt args|c|c|]; cbn [console_event event_ok] in *.
  - destruct He as [Hargs [cs Hcs]]. eapply wp_mono.
    { apply (kprintf_ok t s _ args cs); try assumption. apply c_literal_bytes. }
    intros _ t' o (-> & Hs' & Hl' & _). split; [done|]. split; [by eexists|exact Hl'].
  - eapply wp_mono; [by apply putchar_spec|]. intros _ t' o (-> & Hs' & Hp).
    split; [done|]. split; [by eexists|]. rewrite Hp. destruct (moves_cursor c); [apply Hcur|exact Hl].
  - eapply wp_mono; [by apply setcolor_spec|]. intros _ t' o (-> & Hs' & Hp).
    split; [done|]. split; [by eexists|]. by rewrite Hp.
  - eapply wp_mono; [apply initialize_spec; by apply (shows_length t s)|].
    intros _ t' o (-> & Hs' & Hp). split; [done|]. split; [by eexists|]. rewrite Hp. apply Hcur.
Qed.

(** C29.  Type safety of the console: whatever messages the other components send, as
    long as the arguments match the formats, the console handles them all and its
    variables stay well typed: the cursor inside the 25 lines of 80 cells, every
    cell a 16-bit word, the colour a byte, the serial line set up. *)
Theorem console_type_safe es : ∀ t s,
  shows t s → line_ok (ports t) → Forall event_ok es →
  ∃ t' s', console_events fuel es t = Done tt t' [] ∧ shows t' s' ∧ screen_ok s' ∧
    line_ok (ports t').
Proof.
  induction es as [|e es IH]; intros t s Hs Hl Hes.
  - exists t, s. split; [done|]. split; [exact Hs|]. split; [apply Hs|exact Hl].
  - inversion Hes as [|? ? He Hes']; subst.
    destruct (wp_done _ _ _ (console_event_ok t s e Hs Hl He))
      as ([] & t1 & o & E & -> & (s1 & Hs1) & Hl1).
    destruct (IH t1 s1 Hs1 Hl1 Hes') as (t2 & s2 & E2 & H2). exists t2, s2.
    split; [|exact H2]. cbn [console_events]. by rewrite (kbind_done _ _ _ _ _ E).
Qed.

(** The hardware cursor follows the terminal's after every printed character
    and backspace, but a newline, carriage return or tab leaves it where it was. *)
Theorem hw_cursor_tracks t s c :
  shows t s → line_ok (ports t) → byte_ok c →
  ∃ t', put fuel c t = Done tt t' [] ∧ shows t' (screen_putchar c s) ∧
    hw_cursor (ports t') =
      if (c =? 10) || (c =? 13) || (c =? 9) then hw_cursor (ports t)
      else terminal_row t' * 80 + terminal_column t'.
Proof.
  intros Hs Hl Hc.
  destruct (wp_done _ _ _ (put_spec fuel Hfuel t s c Hs Hl Hc))
    as ([] & t' & o & E & -> & Hs' & _ & _ & Hcur). exists t'. split; [exact E|].
  split; [exact Hs'|]. rewrite Hcur, (sh_row _ _ Hs'), (sh_col _ _ Hs'). unfold moves_cursor.
  by destruct ((c =? 10) || (c =? 13) || (c =? 9)).
Qed.

Lemma hw_wp_outb p port c (Q : unit → P → list event → Prop) :
  Q tt (port_out port c p) [] → wp (outb port c) p Q.
Proof. done. Qed.

(** [serial_init] leaves the line at 115200 / 3 baud, ready to send. *)
Lemma serial_init_spec p :
  busy (hw_view p) = 0%nat →
  wp serial_init p (λ _ p' o, o = [] ∧ line_ok p' ∧
    div_lo (hw_view p') = 3 ∧ div_hi (hw_view p') = 0 ∧
    sent (hw_view p') = sent (hw_view p)).
Proof.
  intros Hb. unfold serial_init. do 6 (apply wp_bind, hw_wp_outb). apply hw_wp_outb.
  set (p1 := port_out (COM1 + 1) 0 p).
  assert (busy (hw_view p1) = 0%nat ∧ sent (hw_view p1) = sent (hw_view p)) as [Hb1 Hs1].
  { unfold p1. destruct (dlab (hw_view p)) eqn:Hd; [by rewrite hw_divisor_hi|by rewrite hw_interrupts]. }
  set (p2 := port_out (COM1 + 3) 0x80 p1).
  assert (hw_view p2 = set_dlab true (hw_view p1)) as E2 by (apply (hw_line p1 0x80)).
  set (p3 := port_out (COM1 + 0) 0x03 p2).
  assert (hw_view p3 = set_divisor 3 (div_hi (hw_view p2)) (hw_view p2)) as E3
    by (apply (hw_divisor_lo p2 3); by rewrite E2).
  set (p4 := port_out (COM1 + 1) 0x00 p3).
  assert (hw_view p4 = set_divisor (div_lo (hw_view p3)) 0 (hw_view p3)) as E4
    by (apply (hw_divisor_hi p3 0); by rewrite E3, E2).
  set (p5 := port_out (COM1 + 3) 0x03 p4).
  assert (hw_view p5 = set_dlab false (hw_view p4)) as E5 by (apply (hw_line p4 0x03)).
  assert (busy (hw_view p5) = 0%nat) as Hb5 by (by rewrite E5, E4, E3, E2).
  rewrite hw_modem, hw_fifo by exact Hb5.
  split; [done|]. split.
  { unfold line_ok. rewrite hw_modem, hw_fifo by exact Hb5. rewrite Hb5, E5. split; [done|lia]. }
  rewrite E5, E4, E3, E2. split; [done|]. split; [done|]. exact Hs1.
Qed.
End prints.

(** ** The theorems on the simulated machine *)

Definition hw0 : hw := Hw false 3 0 [] 0 0 (λ _, 0).
Definition console0 : console hw :=
  Console 0 0 7 VGA_MEMORY (concat (lines (screen_blank 7))) hw0.

Lemma console0_shows : shows console0 (screen_blank 7).
Proof. constructor; try done. apply screen_blank_ok. unfold byte_ok. lia. Qed.

Lemma console0_line : line_ok (ports console0).
Proof. split; [done|]. simpl. lia. Qed.

Lemma hw_fuel : (latency (P := hw) < 3)%nat.
Proof. simpl. lia. Qed.

(** "n=-7\n". *)
Definition fmt_n : list Z := c_literal "n=%d\n".
Definition text_n : list Z := [110; 61; 45; 55; 10].

Lemma terminal_refines_screen_witness :
  ∃ t', foldr (λ c m, terminal_putchar c;; m) (mret tt) [65; 10; 9; 8] console0 = Done tt t' [] ∧
    shows t' (screen_write [65; 10; 9; 8] (screen_blank 7)).
Proof. exact (terminal_refines_screen console0 (screen_blank 7) [65; 10; 9; 8] console0_shows). Defined.

Lemma kprintf_prints_witness :
  ∃ t', Kprintf.kprintf 3 fmt_n [AInt (-7)] console0 = Done tt t' [] ∧
    shows t' (screen_write text_n (screen_blank 7)) ∧ line_ok (ports t') ∧
    sent (hw_view (ports t')) = text_n.
Proof.
  exact (kprintf_prints 3 hw_fuel console0 (screen_blank 7) fmt_n [AInt (-7)] text_n
    console0_shows console0_line (c_literal_bytes _) (Forall_cons_2 arg_ok (AInt (-7)) [] I (Forall_nil_2 _))
    eq_refl).
Defined.

Lemma console_type_safe_witness :
  ∃ t' s', console_events 3 [EvClear; EvPutchar 65; EvSetColor 4; EvPrintf "%s" [AInt 0]] console0
    = Done tt t' [] ∧ shows t' s' ∧ screen_ok s' ∧ line_ok (ports t').
Proof.
  apply (console_type_safe 3 hw_fuel _ console0 (screen_blank 7) console0_shows console0_line).
  constructor; [done|]. constructor; [done|]. constructor; [unfold event_ok, byte_ok; lia|].
  constructor; [|constructor]. split; [|by eexists]. constructor; [done|constructor].
Defined.

Lemma hw_cursor_tracks_witness :
  ∃ t', put 3 10 console0 = Done tt t' [] ∧ shows t' (screen_putchar 10 (screen_blank 7)) ∧
    hw_cursor (ports t') = 0.
Proof.
  exact (hw_cursor_tracks 3 hw_fuel console0 (screen_blank 7) 10 console0_shows console0_line
    ltac:(unfold byte_ok; lia)).
Defined.

Lemma printed_numbers_read_back_witness :
  print_uint 3 255 16 console0 = put_all (put 3) [102; 102] console0 ∧
  parse_number 16 [102; 102] = 255 ∧ (255 ≠ 0 → head [102; 102] ≠ Some 48) ∧
  terminal_writeuint 255 console0 = put_all terminal_putchar [50; 53; 53] console0.
Proof.
  exact (printed_numbers_read_back 3 255 16 console0 ltac:(lia) ltac:(lia)).
Defined.
