(* ===== verification/Keyboard.v ===== *)
(** * The keyboard: drivers/keyboard.c

    The modifier state and the interrupt handler, over the port of the keyboard
    controller and over what the shell does with a character.  The theorems compare
    the handler with somebody typing a text on a US keyboard. *)

From S2P Require Import Prelude Bytes Console Kprintf.

Definition KEYBOARD_DATA_PORT : Z := 0x60.

Definition scancode_table : list Z :=
  [0; 0] ++ ascii_codes "1234567890-=" ++ [8; 9] ++ ascii_codes "qwertyuiop[]" ++ [10; 0] ++
  ascii_codes "asdfghjkl;'`" ++ [0] ++ ascii_codes "\zxcvbnm,./" ++ [0; 42; 0; 32].

Definition scancode_table_shifted : list Z :=
  [0; 0] ++ ascii_codes "!@#$%^&*()_+" ++ [8; 9] ++ ascii_codes "QWERTYUIOP{}" ++ [10; 0] ++
  ascii_codes "ASDFGHJKL:" ++ [34] ++ ascii_codes "~" ++ [0] ++ ascii_codes "|ZXCVBNM<>?" ++
  [0; 42; 0; 32].

Definition SCANCODE_LSHIFT : Z := 0x2A.
Definition SCANCODE_RSHIFT : Z := 0x36.
Definition SCANCODE_LSHIFT_REL : Z := 0xAA.
Definition SCANCODE_RSHIFT_REL : Z := 0xB6.
Definition SCANCODE_CAPS_LOCK : Z := 0x3A.

Section keyboard.
Context {P : Type} `{PortIo P}.
Context {S : Type} (shell_process_char : Z → K S unit).

(** The two modifier variables, the controller and the state under the shell. *)
Record keyboard := Keyboard {
  shift_held : Z;
  caps_lock : Z;
  kbd_port : P;
  kbd_shell : S;
}.

Definition set_shift (x : Z) (k : keyboard) : keyboard :=
  Keyboard x (caps_lock k) (kbd_port k) (kbd_shell k).
Definition set_caps (x : Z) (k : keyboard) : keyboard :=
  Keyboard (shift_held k) x (kbd_port k) (kbd_shell k).

#[export] Instance kbd_port_lens : Lens keyboard P.
Proof.
  refine {| lens_get := kbd_port;
    lens_set := λ p k, Keyboard (shift_held k) (caps_lock k) p (kbd_shell k) |}; try done.
  by intros [].
Defined.
#[export] Instance kbd_shell_lens : Lens keyboard S.
Proof.
  refine {| lens_get := kbd_shell;
    lens_set := λ s k, Keyboard (shift_held k) (caps_lock k) (kbd_port k) s |}; try done.
  by intros [].
Defined.

Definition keyboard_handler : K keyboard unit :=
  scancode ← zoom (inb KEYBOARD_DATA_PORT);
  if (scancode =? SCANCODE_LSHIFT) || (scancode =? SCANCODE_RSHIFT) then
    kmodify (set_shift 1)
  else if (scancode =? SCANCODE_LSHIFT_REL) || (scancode =? SCANCODE_RSHIFT_REL) then
    kmodify (set_shift 0)
  else if scancode =? SCANCODE_CAPS_LOCK then
    kmodify (λ k, set_caps (if caps_lock k =? 0 then 1 else 0) k)
  else if negb (Z.land scancode 0x80 =? 0) then mret tt
  else if scancode <? 58 then
    k ← kget;
    let use_shift := Z.lxor (shift_held k) (caps_lock k) in
    c ← klift (aget (if use_shift =? 0 then scancode_table else scancode_table_shifted) scancode);
    if c =? 0 then mret tt else zoom (shell_process_char c)
  else mret tt.

Definition keyboard_init : K keyboard unit := mret tt.

(** [n] keyboard interrupts. *)
Fixpoint keyboard_events (n : nat) : K keyboard unit :=
  match n with
  | O => mret tt
  | Datatypes.S n => keyboard_handler;; keyboard_events n
  end.

Fixpoint type_chars (text : list Z) : K S unit :=
  match text with
  | [] => mret tt
  | c :: text => shell_process_char c;; type_chars text
  end.
End keyboard.
Arguments keyboard : clear implicits.
Arguments Keyboard {P S} _ _ _ _.

(** ** The controller

    It delivers the scan codes of the keys, one per read of its data port. *)
Class KeyboardPort (P : Type) `{PortIo P} := {
  kbd_queue : P → list Z;
  kbd_read p sc q : kbd_queue p = sc :: q →
    ∃ p', port_in KEYBOARD_DATA_PORT p = (sc, p') ∧ kbd_queue p' = q;
}.

#[export] Instance queue_io : PortIo (list Z) := {
  port_in _ q := match q with [] => (0, []) | x :: q => (x, q) end;
  port_out _ _ q := q;
}.

#[export] Instance queue_port : KeyboardPort (list Z).
Proof. refine {| kbd_queue := id |}. intros p sc q Hq. cbn in *. subst p. by exists q. Defined.

(** ** Typing

    A US keyboard as its own documentation gives it (scan code set 1, IBM PC/AT Technical
    Reference): the code of each key under the character printed on it, and the
    characters above them.  The driver's tables play no part in it. *)

Definition us_letters : list (Z * Z) :=
  zip (ascii_codes "abcdefghijklmnopqrstuvwxyz")
    [0x1E; 0x30; 0x2E; 0x20; 0x12; 0x21; 0x22; 0x23; 0x17; 0x24; 0x25; 0x26; 0x32;
     0x31; 0x18; 0x19; 0x10; 0x13; 0x1F; 0x14; 0x16; 0x2F; 0x11; 0x2D; 0x15; 0x2C].
Definition us_digits : list (Z * Z) :=
  zip (ascii_codes "1234567890") [0x02; 0x03; 0x04; 0x05; 0x06; 0x07; 0x08; 0x09; 0x0A; 0x0B].
Definition us_signs : list (Z * Z) :=
  zip (ascii_codes "-=[];'`\,./") [0x0C; 0x0D; 0x1A; 0x1B; 0x27; 0x28; 0x29; 0x2B; 0x33; 0x34; 0x35].
(** Space, Enter, Backspace and Tab. *)
Definition us_others : list (Z * Z) := [(32, 0x39); (10, 0x1C); (8, 0x0E); (9, 0x0F)].
Definition us_keys : list (Z * Z) := us_letters ++ us_digits ++ us_signs ++ us_others.

(** The upper characters and the lower ones on the same keys. *)
Definition us_upper : list (Z * Z) :=
  zip (ascii_codes "ABCDEFGHIJKLMNOPQRSTUVWXYZ") (ascii_codes "abcdefghijklmnopqrstuvwxyz") ++
  zip (ascii_codes "!@#$%^&*()_+{}:~|<>?") (ascii_codes "1234567890-=[];`\,./") ++ [(34, 39)].

Definition assoc (l : list (Z * Z)) (c : Z) : option Z :=
  (λ x, x.2.2) <$> list_find (λ x, x.1 = c) l.

(** What a typist does for a character: press and release its key, inside a press and
    release of the left shift key when the character is an upper one. *)
Definition strokes (c : Z) : option (list Z) :=
  match assoc us_keys c with
  | Some k => Some [k; k + 0x80]
  | None =>
      b ← assoc us_upper c;
      k ← assoc us_keys b;
      Some [0x2A; k; k + 0x80; 0xAA]
  end.

Definition all_strokes (text : list Z) : option (list Z) := mjoin <$> mapM strokes text.

(** A scan code of an ordinary key. *)
Definition key_code (sc : Z) : bool :=
  (0 <=? sc) && (sc <? 58) &&
  negb ((sc =? SCANCODE_LSHIFT) || (sc =? SCANCODE_RSHIFT)).

Section typing.
Context {P : Type} `{KeyboardPort P}.
Context {S : Type} (shell_process_char : Z → K S unit).
Implicit Types (p : P) (s : S).

#[local] Abbreviation handler := (keyboard_handler shell_process_char).

Lemma read_spec p sc q sh cl s Q :
  kbd_queue p = sc :: q →
  (∀ p', kbd_queue p' = q → Q sc (Keyboard sh cl p' s) []) →
  wp (zoom (inb KEYBOARD_DATA_PORT)) (Keyboard sh cl p s) Q.
Proof.
  intros Hq HQ. destruct (kbd_read p sc q Hq) as (p' & Hin & Hq').
  apply wp_zoom. cbn [lens_get kbd_port_lens kbd_port]. unfold wp, inb. rewrite Hin. by apply HQ.
Qed.

(** One interrupt, by kind of key. *)
Lemma handler_shift p sc q sh cl s x :
  kbd_queue p = sc :: q → (sc, x) ∈ [(SCANCODE_LSHIFT, 1); (SCANCODE_RSHIFT, 1);
    (SCANCODE_LSHIFT_REL, 0); (SCANCODE_RSHIFT_REL, 0)] →
  wp handler (Keyboard sh cl p s) (λ _ k o, o = [] ∧
    ∃ p', kbd_queue p' = q ∧ k = Keyboard x cl p' s).
Proof.
  intros Hq Hsc. unfold keyboard_handler. wp_steps. eapply read_spec; [exact Hq|]. intros p' Hq'.
  repeat (apply elem_of_cons in Hsc as [[= -> ->]|Hsc]; [cbn; eauto|]).
  by apply not_elem_of_nil in Hsc.
Qed.

(** What a press does: the character of the key in the table that the modifiers
    choose, if it has one. *)
Definition key_char (sh cl sc : Z) : option Z :=
  aget (if Z.lxor sh cl =? 0 then scancode_table else scancode_table_shifted) sc.

Lemma handler_press p sc q sh cl s c s' o :
  kbd_queue p = sc :: q → key_code sc = true → key_char sh cl sc = Some c → c ≠ 0 →
  shell_process_char c s = Done tt s' o →
  wp handler (Keyboard sh cl p s) (λ _ k o', o' = o ∧
    ∃ p', kbd_queue p' = q ∧ k = Keyboard sh cl p' s').
Proof.
  intros Hq Hsc Hc Hc0 Hrun. unfold key_code in Hsc. unbool.
  unfold SCANCODE_LSHIFT, SCANCODE_RSHIFT in *.
  unfold keyboard_handler. wp_steps. eapply read_spec; [exact Hq|]. intros p' Hq'.
  unfold SCANCODE_LSHIFT, SCANCODE_RSHIFT, SCANCODE_LSHIFT_REL, SCANCODE_RSHIFT_REL,
    SCANCODE_CAPS_LOCK.
  assert (sc ≠ 0x3A) as Hcaps by lia.
  rewrite !(proj2 (Z.eqb_neq sc _)) by lia. cbn [orb].
  assert (Z.land sc 0x80 = 0) as Hl.
  { rewrite <-Z.eqb_eq. change 0x80 with (bit32 7). rewrite land_bit32_zero by lia.
    apply negb_true_iff, Z.testbit_false; [lia|]. change (2 ^ 7) with 128. dlia. }
  rewrite Hl. cbn [negb Z.eqb]. rewrite (proj2 (Z.ltb_lt sc 58)) by lia. wp_steps.
  eapply wp_lift; [exact Hc|]. rewrite (proj2 (Z.eqb_neq c 0)) by done.
  apply wp_zoom. cbn [lens_get kbd_shell_lens kbd_shell]. eapply wp_of_done; [exact Hrun|]. eauto.
Qed.

Lemma handler_caps p q sh cl s :
  kbd_queue p = SCANCODE_CAPS_LOCK :: q →
  wp handler (Keyboard sh cl p s) (λ _ k o, o = [] ∧
    ∃ p', kbd_queue p' = q ∧ k = Keyboard sh (if cl =? 0 then 1 else 0) p' s).
Proof.
  intros Hq. unfold keyboard_handler. wp_steps. eapply read_spec; [exact Hq|]. intros p' Hq'.
  cbn. eauto.
Qed.

Lemma handler_release p sc q sh cl s :
  kbd_queue p = (sc + 0x80) :: q → key_code sc = true →
  wp handler (Keyboard sh cl p s) (λ _ k o, o = [] ∧
    ∃ p', kbd_queue p' = q ∧ k = Keyboard sh cl p' s).
Proof.
  intros Hq Hsc. unfold key_code in Hsc. unbool.
  unfold SCANCODE_LSHIFT, SCANCODE_RSHIFT in *.
  unfold keyboard_handler. wp_steps. eapply read_spec; [exact Hq|]. intros p' Hq'.
  unfold SCANCODE_LSHIFT, SCANCODE_RSHIFT, SCANCODE_LSHIFT_REL, SCANCODE_RSHIFT_REL,
    SCANCODE_CAPS_LOCK.
  rewrite !(proj2 (Z.eqb_neq (sc + 0x80) _)) by lia. cbn [orb].
  assert (Z.land (sc + 0x80) 0x80 ≠ 0) as Hl.
  { change 0x80 with (bit32 7) at 2. rewrite <-Z.eqb_neq, land_bit32_zero by lia.
    apply negb_false_iff, Z.testbit_true; [lia|]. change (2 ^ 7) with 128. dlia. }
  rewrite (proj2 (Z.eqb_neq _ 0) Hl). cbn [negb]. wp_steps. eauto.
Qed.

Lemma events_app n m k o1 k1 o2 k2 :
  keyboard_events shell_process_char n k = Done tt k1 o1 →
  keyboard_events shell_process_char m k1 = Done tt k2 o2 →
  keyboard_events shell_process_char (n + m) k = Done tt k2 (o1 ++ o2).
Proof.
  revert k o1. induction n as [|n IH]; intros k o1 H1 H2.
  - injection H1 as <- <-. exact H2.
  - cbn [keyboard_events Nat.add] in *. unfold mbind, K_bind in *.
    destruct (keyboard_handler shell_process_char k) as [[] k0 o0| | |]; try done.
    destruct (keyboard_events shell_process_char n k0) as [[] k3 o3| | |] eqn:E; try done.
    injection H1 as <- <-. rewrite (IH k0 o3 E H2). by rewrite app_assoc.
Qed.

Lemma event_step k k1 o1 m o2 k2 :
  wp handler k (λ _ k' o', o' = o1 ∧ k' = k1) →
  keyboard_events shell_process_char m k1 = Done tt k2 o2 →
  keyboard_events shell_process_char (Datatypes.S m) k = Done tt k2 (o1 ++ o2).
Proof.
  intros H1 H2. destruct (wp_done _ _ _ H1) as ([] & k' & o' & E & -> & ->).
  cbn [keyboard_events]. unfold mbind, K_bind. rewrite E, H2. done.
Qed.

(** The driver's tables have the characters of a US keyboard. *)
Lemma assoc_elem l c k : assoc l c = Some k → (c, k) ∈ l.
Proof.
  unfold assoc. intros ([j [x y]] & (Hl & Hx & _)%list_find_Some & ->)%fmap_Some.
  cbn in *. subst x. by eapply list_elem_of_lookup_2.
Qed.

Lemma us_plain c k : assoc us_keys c = Some k → key_code k = true ∧ key_char 0 0 k = Some c ∧ c ≠ 0.
Proof.
  intros Hk%assoc_elem.
  assert (Forall (λ x, key_code x.2 = true ∧ key_char 0 0 x.2 = Some x.1 ∧ x.1 ≠ 0) us_keys) as Hall
    by (apply (bool_decide_unpack _); vm_compute; exact I).
  rewrite Forall_forall in Hall. exact (Hall (c, k) Hk).
Qed.

Lemma us_shifted c b k : assoc us_upper c = Some b → assoc us_keys b = Some k →
  key_code k = true ∧ key_char 1 0 k = Some c ∧ c ≠ 0.
Proof.
  intros Hb%assoc_elem Hk.
  assert (Forall (λ x, Forall (λ k, key_code k = true ∧ key_char 1 0 k = Some x.1 ∧ x.1 ≠ 0)
      (option_list (assoc us_keys x.2))) us_upper) as Hall by (apply (bool_decide_unpack _); vm_compute; exact I).
  pose proof (proj1 (Forall_forall _ _) Hall (c, b) Hb) as H1. cbn [fst snd] in H1. rewrite Hk in H1.
  exact (Forall_inv H1).
Qed.

(** One character. *)
Lemma type_one c scs p rest s s' o :
  strokes c = Some scs → kbd_queue p = scs ++ rest → shell_process_char c s = Done tt s' o →
  ∃ p', kbd_queue p' = rest ∧
    keyboard_events shell_process_char (length scs) (Keyboard 0 0 p s) = Done tt (Keyboard 0 0 p' s') o.
Proof.
  unfold strokes. destruct (assoc us_keys c) as [k|] eqn:Ek.
  - intros [= <-] Hq Hrun. destruct (us_plain c k Ek) as (Hk & Hget & Hc).
    destruct (wp_done _ _ _ (handler_press p _ _ 0 0 s c s' o Hq Hk Hget Hc Hrun))
      as ([] & k1 & o1 & E1 & -> & p1 & Hq1 & ->).
    destruct (wp_done _ _ _ (handler_release p1 _ _ 0 0 s' Hq1 Hk))
      as ([] & k2 & o2 & E2 & -> & p2 & Hq2 & ->).
    exists p2. split; [exact Hq2|]. cbn [length keyboard_events]. unfold mbind, K_bind.
    rewrite E1, E2. cbn. by rewrite app_nil_r.
  - destruct (assoc us_upper c) as [b|] eqn:Eb; [|done]. cbn [mbind option_bind].
    destruct (assoc us_keys b) as [k|] eqn:Ek'; [|done]. cbn [mbind option_bind].
    intros [= <-] Hq Hrun. destruct (us_shifted c b k Eb Ek') as (Hk & Hget & Hc).
    destruct (wp_done _ _ _ (handler_shift p _ _ 0 0 s 1 Hq (list_elem_of_here _ _)))
      as ([] & k1 & o1 & E1 & -> & p1 & Hq1 & ->).
    destruct (wp_done _ _ _ (handler_press p1 _ _ 1 0 s c s' o Hq1 Hk Hget Hc Hrun))
      as ([] & k2 & o2 & E2 & -> & p2 & Hq2 & ->).
    destruct (wp_done _ _ _ (handler_release p2 _ _ 1 0 s' Hq2 Hk))
      as ([] & k3 & o3 & E3 & -> & p3 & Hq3 & ->).
    destruct (wp_done _ _ _ (handler_shift p3 _ _ 1 0 s' 0 Hq3
      ltac:(do 2 apply list_elem_of_further; apply list_elem_of_here)))
      as ([] & k4 & o4 & E4 & -> & p4 & Hq4 & ->).
    exists p4. split; [exact Hq4|]. cbn [length keyboard_events]. unfold mbind, K_bind.
    rewrite E1, E2, E3, E4. cbn. by rewrite !app_nil_r.
Qed.

Lemma type_text text : ∀ scs p rest s s' o,
  all_strokes text = Some scs → kbd_queue p = scs ++ rest →
  type_chars shell_process_char text s = Done tt s' o →
  ∃ p', kbd_queue p' = rest ∧
    keyboard_events shell_process_char (length scs) (Keyboard 0 0 p s) = Done tt (Keyboard 0 0 p' s') o.
Proof.
  induction text as [|c text IH]; intros scs p rest s s' o Hs Hq Hrun.
  - injection Hs as <-. injection Hrun as <- <-. by exists p.
  - unfold all_strokes in Hs. cbn [mapM] in Hs.
    destruct (strokes c) as [s1|] eqn:E1; [|done]. cbn in Hs.
    destruct (mapM strokes text) as [s2|] eqn:E2; [|done]. injection Hs as <-.
    cbn [type_chars] in Hrun. unfold mbind, K_bind in Hrun.
    destruct (shell_process_char c s) as [[] sm om| | |] eqn:Ec; try done.
    destruct (type_chars shell_process_char text sm) as [[] sn on| | |] eqn:Et; try done.
    injection Hrun as <- <-. cbn [mjoin list_join] in Hq. rewrite <-app_assoc in Hq.
    destruct (type_one c s1 p _ s sm om E1 Hq Ec) as (p1 & Hq1 & H1).
    destruct (IH (mjoin s2) p1 rest sm sn on) as (p2 & Hq2 & H2); [|exact Hq1|exact Et|].
    { unfold all_strokes. by rewrite E2. }
    exists p2. split; [exact Hq2|]. cbn [mjoin list_join]. rewrite length_app.
    by eapply events_app.
Qed.
End typing.

(** C21.  Typing a text on a US keyboard: for every text of its characters, the scan codes
    of the keys, one interrupt each, hand exactly the characters of the text to the shell,
    in order, and leave the modifiers released. *)
Theorem keyboard_types_text {P S} `{KeyboardPort P} (process : Z → K S unit)
    text scs (p : P) rest (s s' : S) o :
  all_strokes text = Some scs → kbd_queue p = scs ++ rest →
  type_chars process text s = Done tt s' o →
  ∃ p', kbd_queue p' = rest ∧
    keyboard_events process (length scs) (Keyboard 0 0 p s) = Done tt (Keyboard 0 0 p' s') o.
Proof. apply type_text. Qed.

(** Caps lock acts on every key: with it on, and no shift key held, each key types the
    upper character, the digit keys included. *)
Theorem caps_lock_shifts_every_key {P S} `{KeyboardPort P} (process : Z → K S unit)
    sc c (p : P) q (s s' : S) o :
  kbd_queue p = sc :: q → key_code sc = true → aget scancode_table_shifted sc = Some c → c ≠ 0 →
  process c s = Done tt s' o →
  ∃ p', keyboard_handler process (Keyboard 0 1 p s) = Done tt (Keyboard 0 1 p' s') o.
Proof.
  intros Hq Hk Hc Hc0 Hrun.
  destruct (wp_done _ _ _ (handler_press process p sc q 0 1 s c s' o Hq Hk Hc Hc0 Hrun))
    as ([] & k & o1 & E & -> & p' & _ & ->). by exists p'.
Qed.

(** With both shift keys held, releasing one of them ends the shift. *)
Theorem one_release_ends_shift {P S} `{KeyboardPort P} (process : Z → K S unit) (p : P) (s : S) :
  kbd_queue p = [SCANCODE_LSHIFT; SCANCODE_RSHIFT; SCANCODE_RSHIFT_REL] →
  ∃ p', keyboard_events process 3 (Keyboard 0 0 p s) = Done tt (Keyboard 0 0 p' s) [].
Proof.
  intros Hq.
  destruct (wp_done _ _ _ (handler_shift process p _ _ 0 0 s 1 Hq (list_elem_of_here _ _)))
    as ([] & k1 & o1 & E1 & -> & p1 & Hq1 & ->).
  destruct (wp_done _ _ _ (handler_shift process p1 _ _ 1 0 s 1 Hq1
    ltac:(apply list_elem_of_further, list_elem_of_here))) as ([] & k2 & o2 & E2 & -> & p2 & Hq2 & ->).
  destruct (wp_done _ _ _ (handler_shift process p2 _ _ 1 0 s 0 Hq2
    ltac:(do 3 apply list_elem_of_further; apply list_elem_of_here)))
    as ([] & k3 & o3 & E3 & -> & p3 & _ & ->).
  exists p3. cbn [keyboard_events]. unfold mbind, K_bind. by rewrite E1, E2, E3.
Qed.

(** "Hi!" on the keyboard, for a shell that keeps what it gets. *)
Definition collect (c : Z) : K (list Z) unit := kmodify (λ l, l ++ [c]).

Lemma keyboard_types_text_witness :
  ∃ p', kbd_queue p' = [] ∧
    keyboard_events collect 10 (Keyboard 0 0 [42; 35; 163; 170; 23; 151; 42; 2; 130; 170] [])
    = Done tt (Keyboard 0 0 p' (ascii_codes "Hi!")) [].
Proof.
  apply (keyboard_types_text collect (ascii_codes "Hi!")
    [42; 35; 163; 170; 23; 151; 42; 2; 130; 170] _ []); vm_compute; reflexivity.
Defined.
