(* ===== verification/Gdt.v ===== *)
(** * Segments, the task state segment and ring 3: kernel/gdt.c, gdt.s, tss.c, usermode.c

    The six descriptors as the packed structures of include/gdt.h, and the processor's
    reading of their bytes ([descriptor], after the Intel manual), so that the theorems
    say what the selectors the kernel loads mean. *)

From S2P Require Import Prelude Bytes.

(** ** include/gdt.h *)

Record gdt_entry_t := Gdt_entry {
  limit_low : Z;
  base_low : Z;
  base_middle : Z;
  access : Z;
  granularity : Z;
  base_high : Z;
}.

Record gdt_descriptor_t := Gdt_descriptor {
  gd_limit : Z;
  gd_base : Z;
}.

Definition sizeof_gdt_entry : Z := 8.

(** The packed structure in memory. *)
Definition bytes_of_gdt_entry (e : gdt_entry_t) : list Z :=
  le_bytes 2 (limit_low e) ++ le_bytes 2 (base_low e) ++ le_bytes 1 (base_middle e) ++
  le_bytes 1 (access e) ++ le_bytes 1 (granularity e) ++ le_bytes 1 (base_high e).

Definition zero_gdt_entry : gdt_entry_t := Gdt_entry 0 0 0 0 0 0.

(** ** The state: the tables and the registers that refer to them *)

Record seg := Seg {
  gdt : list gdt_entry_t;
  gdt_descriptor : gdt_descriptor_t;
  tss : list Z;
  gdtr : gdt_descriptor_t;
  tr : Z;
  seg_cs : Z; seg_ss : Z; seg_ds : Z; seg_es : Z; seg_fs : Z; seg_gs : Z;
  eflags : Z;
  kstack : list Z;
  seg_eip : Z; seg_esp : Z;
}.

Definition set_gdt x s := Seg x (gdt_descriptor s) (tss s) (gdtr s) (tr s) (seg_cs s) (seg_ss s) (seg_ds s)
  (seg_es s) (seg_fs s) (seg_gs s) (eflags s) (kstack s) (seg_eip s) (seg_esp s).
Definition set_gdt_descriptor x s := Seg (gdt s) x (tss s) (gdtr s) (tr s) (seg_cs s) (seg_ss s) (seg_ds s)
  (seg_es s) (seg_fs s) (seg_gs s) (eflags s) (kstack s) (seg_eip s) (seg_esp s).
Definition set_tss x s := Seg (gdt s) (gdt_descriptor s) x (gdtr s) (tr s) (seg_cs s) (seg_ss s) (seg_ds s)
  (seg_es s) (seg_fs s) (seg_gs s) (eflags s) (kstack s) (seg_eip s) (seg_esp s).
Definition set_tr x s := Seg (gdt s) (gdt_descriptor s) (tss s) (gdtr s) x (seg_cs s) (seg_ss s) (seg_ds s)
  (seg_es s) (seg_fs s) (seg_gs s) (eflags s) (kstack s) (seg_eip s) (seg_esp s).
Definition set_eflags x s := Seg (gdt s) (gdt_descriptor s) (tss s) (gdtr s) (tr s) (seg_cs s) (seg_ss s)
  (seg_ds s) (seg_es s) (seg_fs s) (seg_gs s) x (kstack s) (seg_eip s) (seg_esp s).
Definition set_data_segments x s := Seg (gdt s) (gdt_descriptor s) (tss s) (gdtr s) (tr s) (seg_cs s)
  (seg_ss s) x x x x (eflags s) (kstack s) (seg_eip s) (seg_esp s).
Definition set_kstack x s := Seg (gdt s) (gdt_descriptor s) (tss s) (gdtr s) (tr s) (seg_cs s) (seg_ss s)
  (seg_ds s) (seg_es s) (seg_fs s) (seg_gs s) (eflags s) x (seg_eip s) (seg_esp s).

(** ** kernel/gdt.c, kernel/gdt.s *)

Definition gdt_set_entry (index base limit acc gran : Z) : K seg unit :=
  s ← kget;
  g ← klift (aset (gdt s) index (Gdt_entry
    (Z.land limit 0xFFFF) (Z.land base 0xFFFF) (Z.land (Z.shiftr base 16) 0xFF) acc
    (Z.lor (Z.land (Z.shiftr limit 16) 0x0F) (Z.land gran 0xF0))
    (Z.land (Z.shiftr base 24) 0xFF)));
  kmodify (set_gdt g).

Definition gdt_set_tss (base limit : Z) : K seg unit := gdt_set_entry 5 base limit 0x89 0x00.

(** [lgdt], the data segment registers, and the far jump that loads CS. *)
Definition gdt_flush (d : gdt_descriptor_t) : K seg unit :=
  kmodify (λ s, Seg (gdt s) (gdt_descriptor s) (tss s) d (tr s) 0x08 0x10 0x10 0x10 0x10 0x10
    (eflags s) (kstack s) (seg_eip s) (seg_esp s)).

(** [gdt_addr] is the address of the static array. *)
Definition gdt_init (gdt_addr : Z) : K seg unit :=
  kmodify (set_gdt_descriptor (Gdt_descriptor (u16 (sizeof_gdt_entry * 6 - 1)) gdt_addr));;
  gdt_set_entry 0 0 0x00000000 0x00 0x00;;
  gdt_set_entry 1 0 0xFFFFFFFF 0x9A 0xCF;;
  gdt_set_entry 2 0 0xFFFFFFFF 0x92 0xCF;;
  gdt_set_entry 3 0 0xFFFFFFFF 0xFA 0xCF;;
  gdt_set_entry 4 0 0xFFFFFFFF 0xF2 0xCF;;
  gdt_set_entry 5 0 0x00000000 0x00 0x00;;
  s ← kget;
  gdt_flush (gdt_descriptor s).

(** ** kernel/tss.c, include/tss.h: the structure as its 104 bytes *)

Definition sizeof_tss : Z := 104.
Definition TSS_ESP0 : Z := 4.
Definition TSS_SS0 : Z := 8.

(** [tss.field = x] for the word at [off]. *)
Definition tss_store (off x : Z) : K seg unit :=
  s ← kget;
  t ← klift (fs_memcpy (tss s) off (le_bytes 4 x) 0 4);
  kmodify (set_tss t).

(** [tss_addr] is the address of the static structure; [base + sizeof(tss_t)] is
    passed on as the limit. *)
Definition tss_init (tss_addr kernel_stack : Z) : K seg unit :=
  let base := tss_addr in
  let limit := u32 (base + sizeof_tss) in
  _ ← kfold 0 (Z.to_nat sizeof_tss) (λ i _,
    s ← kget;
    t ← klift (aset (tss s) i 0);
    kmodify (set_tss t)) tt;
  tss_store TSS_SS0 0x10;;
  tss_store TSS_ESP0 kernel_stack;;
  gdt_set_tss base limit;;
  kmodify (set_tr 0x28);;
  kprintf "TSS: initialised, kernel stack at %x\n" [AInt kernel_stack].

Definition tss_set_kernel_stack (stack : Z) : K seg unit := tss_store TSS_ESP0 stack.

(** ** kernel/usermode.c *)

Definition push (x : Z) : K seg unit := kmodify (λ s, set_kstack (x :: kstack s) s).
Definition pop : K seg Z :=
  s ← kget;
  match kstack s with
  | x :: l => kmodify (set_kstack l);; mret x
  | [] => kundefined
  end.

(** [iret] to an outer ring pops five words. *)
Definition iret : K seg unit :=
  new_eip ← pop; new_cs ← pop; new_eflags ← pop; new_esp ← pop; new_ss ← pop;
  kmodify (λ s, Seg (gdt s) (gdt_descriptor s) (tss s) (gdtr s) (tr s) new_cs new_ss (seg_ds s)
    (seg_es s) (seg_fs s) (seg_gs s) new_eflags (kstack s) new_eip new_esp).

(** The processor continues in ring 3: the caller is never resumed. *)
Definition enter_usermode (entry user_stack : Z) : K seg unit :=
  kprintf "Entering ring 3 at 0x%x\n" [AInt entry];;
  kmodify (λ s, set_eflags (Z.land (eflags s) (u32 (Z.lnot 0x200))) s);;
  kmodify (set_data_segments 0x23);;
  push 0x23;;
  push user_stack;;
  s ← kget;
  push (eflags s);;
  eax ← pop;
  push (Z.lor eax 0x200);;
  push 0x1B;;
  push entry;;
  iret;;
  khalt.

(** ** What the processor reads *)

Record descriptor := Descriptor {
  d_base : Z;
  d_limit : Z;
  d_present : bool;
  d_dpl : Z;
  d_type : Z;
}.

(** The eight bytes of a descriptor (Intel SDM, volume 3, 3.4.5): the limit is scaled
    by 4096 when the granularity bit is set; [d_type] is the S bit and the type. *)
Definition decode_descriptor (b : list Z) : descriptor :=
  let byte i := nth i b 0 in
  let limit20 := byte 0%nat + 256 * byte 1%nat + 65536 * (byte 6%nat mod 16) in
  Descriptor (byte 2%nat + 256 * byte 3%nat + 65536 * byte 4%nat + 16777216 * byte 7%nat)
    (if Z.testbit (byte 6%nat) 7 then 4096 * limit20 + 4095 else limit20)
    (Z.testbit (byte 5%nat) 7) (byte 5%nat / 32 mod 4) (byte 5%nat mod 32).

(** The descriptor a selector denotes; [None] beyond the limit of the table. *)
Definition segment (s : seg) (sel : Z) : option descriptor :=
  if 8 * (sel / 8) + 7 <=? gd_limit (gdtr s) then
    decode_descriptor ∘ bytes_of_gdt_entry <$> aget (gdt s) (sel / 8)
  else None.

(** Access bytes of the manual: code and data segments, and an available 32-bit TSS. *)
Definition CODE_RX : Z := 26.
Definition DATA_RW : Z := 18.
Definition TSS_AVAILABLE : Z := 9.
Definition flat (dpl type : Z) : descriptor := Descriptor 0 0xFFFFFFFF true dpl type.

(** ** The descriptor format *)

Lemma land_mask x n : 0 ≤ n → Z.land x (Z.ones n) = x mod 2 ^ n.
Proof. intros Hn. by apply Z.land_ones. Qed.

(** The two halves of the granularity byte. *)
Lemma granularity_byte l g :
  0 ≤ l < 16 → 0 ≤ g < 256 → Z.lor l (Z.land g 0xF0) = l + 16 * (g / 16).
Proof.
  intros Hl Hg.
  assert (Forall (λ l, Forall (λ g, Z.lor l (Z.land g 0xF0) = l + 16 * (g / 16)) (seqZ 0 256))
    (seqZ 0 16)) as H by (apply (bool_decide_unpack _); vm_compute; exact I).
  rewrite Forall_forall in H. specialize (H l). rewrite Forall_forall in H.
  apply H; apply elem_of_seqZ; lia.
Qed.

Definition gdt_entry (base limit acc gran : Z) : gdt_entry_t :=
  Gdt_entry (Z.land limit 0xFFFF) (Z.land base 0xFFFF) (Z.land (Z.shiftr base 16) 0xFF) acc
    (Z.lor (Z.land (Z.shiftr limit 16) 0x0F) (Z.land gran 0xF0))
    (Z.land (Z.shiftr base 24) 0xFF).

Lemma gdt_entry_fields base limit acc gran :
  0 ≤ base < 2 ^ 32 → 0 ≤ limit < 2 ^ 32 → 0 ≤ acc < 256 → 0 ≤ gran < 256 →
  gdt_entry base limit acc gran =
  Gdt_entry (limit mod 65536) (base mod 65536) (base / 65536 mod 256) acc
    (limit / 65536 mod 16 + 16 * (gran / 16)) (base / 16777216).
Proof.
  intros Hb Hl Ha Hg. unfold gdt_entry. rewrite !Z.shiftr_div_pow2 by lia.
  change 0xFFFF with (Z.ones 16). change 0xFF with (Z.ones 8). change 0x0F with (Z.ones 4).
  rewrite !land_mask by lia. change (2 ^ 16) with 65536. change (2 ^ 8) with 256.
  change (2 ^ 4) with 16. change (2 ^ 24) with 16777216.
  rewrite granularity_byte by (try apply Z.mod_pos_bound; lia).
  rewrite (Z.mod_small (base / 16777216)) by dlia. done.
Qed.

Lemma decode_gdt_entry base limit acc gran :
  0 ≤ base < 2 ^ 32 → 0 ≤ limit < 2 ^ 32 → 0 ≤ acc < 256 → 0 ≤ gran < 256 →
  decode_descriptor (bytes_of_gdt_entry (gdt_entry base limit acc gran)) =
  Descriptor base
    (if Z.testbit gran 7 then 4096 * (limit mod 2 ^ 20) + 4095 else limit mod 2 ^ 20)
    (Z.testbit acc 7) (acc / 32 mod 4) (acc mod 32).
Proof.
  intros Hb Hl Ha Hg. rewrite gdt_entry_fields by done. unfold bytes_of_gdt_entry.
  cbn [limit_low base_low base_middle access granularity base_high].
  unfold le_bytes. cbn [app]. unfold decode_descriptor. cbn [nth].
  assert (Z.testbit ((limit / 65536 mod 16 + 16 * (gran / 16)) mod 256) 7 = Z.testbit gran 7) as ->.
  { apply eq_true_iff_eq. rewrite !Z.testbit_true by lia. change (2 ^ 7) with 128. dlia. }
  rewrite (Z.mod_small acc 256) by lia. f_equal.
  - dlia.
  - replace (limit mod 65536 mod 256 + 256 * (limit mod 65536 / 256 mod 256)
      + 65536 * ((limit / 65536 mod 16 + 16 * (gran / 16)) mod 256 mod 16))
      with (limit mod 2 ^ 20); [done|]. change (2 ^ 20) with 1048576. dlia.
Qed.

(** ** The operations *)

Lemma gdt_set_entry_spec s i base limit acc gran :
  0 ≤ i < Z.of_nat (length (gdt s)) →
  wp (gdt_set_entry i base limit acc gran) s (λ _ s' o, o = [] ∧
    s' = set_gdt (<[Z.to_nat i := gdt_entry base limit acc gran]> (gdt s)) s).
Proof.
  intros Hi. unfold gdt_set_entry. wp_steps. eapply wp_lift; [by apply aset_Some|]. wp_steps. done.
Qed.

(** The table that [gdt_init] builds. *)
Definition boot_gdt : list gdt_entry_t :=
  [gdt_entry 0 0 0 0; gdt_entry 0 0xFFFFFFFF 0x9A 0xCF; gdt_entry 0 0xFFFFFFFF 0x92 0xCF;
   gdt_entry 0 0xFFFFFFFF 0xFA 0xCF; gdt_entry 0 0xFFFFFFFF 0xF2 0xCF; gdt_entry 0 0 0 0].

Lemma gdt_init_spec s addr :
  length (gdt s) = 6%nat →
  wp (gdt_init addr) s (λ _ s' o, o = [] ∧
    s' = Seg boot_gdt (Gdt_descriptor 47 addr) (tss s) (Gdt_descriptor 47 addr) (tr s)
      0x08 0x10 0x10 0x10 0x10 0x10 (eflags s) (kstack s) (seg_eip s) (seg_esp s)).
Proof.
  intros Hlen. destruct s as [g gd t r tr0 c0 s0 d0 e0 f0 g0 fl k ip sp]. cbn [gdt] in Hlen.
  do 6 (destruct g as [|? g]; [done|]). destruct g; [|done].
  unfold gdt_init, gdt_set_entry, gdt_flush. wp_steps.
  do 6 (eapply wp_lift; [reflexivity|]; wp_steps). done.
Qed.

(** Storing one byte after another zeroes the structure. *)
Lemma tss_zero_loop s :
  length (tss s) = 104%nat →
  wp (kfold 0 (Z.to_nat sizeof_tss) (λ i _,
    s ← kget;
    t ← klift (aset (tss s) i 0);
    kmodify (set_tss t)) tt) s (λ _ s' o, o = [] ∧ s' = set_tss (replicate 104 0) s).
Proof.
  intros Hlen. apply wp_kfold with (I := λ j _ s' o, o = [] ∧ ∃ t, s' = set_tss t s ∧
    length t = 104%nat ∧ ∀ i, (i < Z.to_nat j)%nat → t !! i = Some 0).
  - split; [done|]. exists (tss s). split; [by destruct s|]. split; [done|]. intros i Hi. lia.
  - intros j _ s' o Hj (-> & t & -> & Ht & Hz). change (Z.of_nat (Z.to_nat sizeof_tss)) with 104 in Hj.
    wp_steps. eapply wp_lift; [apply aset_Some; cbn [set_tss tss]; lia|]. wp_steps.
    split; [done|]. eexists. split; [reflexivity|]. rewrite length_insert. split; [done|].
    intros i Hi. cbn [set_tss tss]. rewrite list_lookup_insert. case_decide; [done|].
    apply Hz. lia.
  - intros _ s' o (-> & t & -> & Ht & Hz). split; [done|]. f_equal.
    apply list_eq_same_length with (n := 104%nat); [by rewrite length_replicate|done|].
    intros i x y Hi Hx Hy. rewrite Hz in Hx by exact Hi. rewrite lookup_replicate_2 in Hy by lia.
    congruence.
Qed.

(** The contents [tss_init] leaves: ss0, esp0 and zeros. *)
Definition tss_bytes (kernel_stack : Z) : list Z :=
  replicate 4 0 ++ le_bytes 4 kernel_stack ++ le_bytes 4 0x10 ++ replicate 92 0.

Lemma tss_init_spec s addr stack :
  length (tss s) = 104%nat → length (gdt s) = 6%nat →
  wp (tss_init addr stack) s (λ _ s' o,
    o = [EvPrintf "TSS: initialised, kernel stack at %x\n" [AInt stack]] ∧
    s' = set_tr 0x28 (set_gdt (<[5%nat := gdt_entry addr (u32 (addr + 104)) 0x89 0]> (gdt s))
      (set_tss (tss_bytes stack) s))).
Proof.
  intros Ht Hg. unfold tss_init. wp_steps. eapply wp_mono; [by apply tss_zero_loop|].
  intros _ s1 o (-> & ->). unfold tss_store. wp_steps.
  eapply wp_lift; [reflexivity|]. wp_steps.
  eapply wp_lift; [reflexivity|]. wp_steps.
  eapply wp_mono; [apply gdt_set_entry_spec; cbn [set_tss gdt]; lia|].
  intros _ s2 o (-> & ->). wp_steps. done.
Qed.

(** The kernel stack can be changed later; nothing else of the structure is. *)
Lemma tss_set_kernel_stack_spec s old stack :
  tss s = tss_bytes old →
  wp (tss_set_kernel_stack stack) s (λ _ s' o, o = [] ∧ s' = set_tss (tss_bytes stack) s).
Proof.
  intros Ht. unfold tss_set_kernel_stack, tss_store. wp_steps. rewrite Ht.
  eapply wp_lift; [reflexivity|]. wp_steps. done.
Qed.

(** ** Theorems *)

(** The descriptor format loses nothing but the limit's high bits: what
    [gdt_set_entry] packs, the processor unpacks, and no other selector changes. *)
Theorem gdt_set_entry_roundtrip s i base limit acc gran :
  0 ≤ i < Z.of_nat (length (gdt s)) → 8 * i + 7 ≤ gd_limit (gdtr s) →
  0 ≤ base < 2 ^ 32 → 0 ≤ limit < 2 ^ 32 → 0 ≤ acc < 256 → 0 ≤ gran < 256 →
  ∃ s', gdt_set_entry i base limit acc gran s = Done tt s' [] ∧
    segment s' (8 * i) = Some (Descriptor base
      (if Z.testbit gran 7 then 4096 * (limit mod 2 ^ 20) + 4095 else limit mod 2 ^ 20)
      (Z.testbit acc 7) (acc / 32 mod 4) (acc mod 32)) ∧
    ∀ sel, 0 ≤ sel → sel / 8 ≠ i → segment s' sel = segment s sel.
Proof.
  intros Hi Hlim Hb Hl Ha Hg.
  destruct (wp_done _ _ _ (gdt_set_entry_spec s i base limit acc gran Hi)) as ([] & s' & o & E & -> & ->).
  eexists. split; [exact E|]. unfold segment. cbn [set_gdt gdt gdtr]. split.
  - replace (8 * i / 8) with i by dlia. rewrite (proj2 (Z.leb_le _ _)) by lia.
    rewrite aget_insert_eq by lia. cbn. by rewrite decode_gdt_entry.
  - intros sel Hsel Hne. rewrite aget_insert_ne by lia. done.
Qed.

(** The segments of ring 0 and ring 3, and nothing in the null and the TSS slot. *)
Definition flat_segments (s : seg) : Prop :=
  segment s 0x08 = Some (flat 0 CODE_RX) ∧ segment s 0x10 = Some (flat 0 DATA_RW) ∧
  segment s 0x1B = Some (flat 3 CODE_RX) ∧ segment s 0x23 = Some (flat 3 DATA_RW).

Lemma boot_gdt_flat s : gdt s = boot_gdt → gd_limit (gdtr s) = 47 → flat_segments s.
Proof.
  intros Hg Hl. unfold flat_segments, segment. rewrite Hg, Hl. repeat split; vm_compute; reflexivity.
Qed.

(** After [gdt_init] the table has exactly six descriptors, the code and data
    selectors of rings 0 and 3 cover the whole 4 GB address space with the right
    privilege, every other selector is absent, and the processor runs on the kernel's
    segments. *)
Theorem gdt_init_flat s addr :
  length (gdt s) = 6%nat →
  ∃ s', gdt_init addr s = Done tt s' [] ∧ flat_segments s' ∧
    gdtr s' = Gdt_descriptor 47 addr ∧ seg_cs s' = 0x08 ∧ seg_ss s' = 0x10 ∧ seg_ds s' = 0x10 ∧
    (∀ sel d, 0 ≤ sel → segment s' sel = Some d → d_present d = true → 1 ≤ sel / 8 ≤ 4).
Proof.
  intros Hlen. destruct (wp_done _ _ _ (gdt_init_spec s addr Hlen)) as ([] & s' & o & E & -> & ->).
  eexists. split; [exact E|]. split; [by apply boot_gdt_flat|].
  do 4 (split; [done|]). intros sel d Hsel. unfold segment. cbn [gdtr gdt gd_limit].
  destruct (Z.leb_spec (8 * (sel / 8) + 7) 47); [|done].
  assert (0 ≤ sel / 8 ≤ 5) as Hr by dlia.
  destruct (Z.eqb_spec (sel / 8) 0) as [->|]; [vm_compute; by intros [= <-]|].
  destruct (Z.eqb_spec (sel / 8) 5) as [->|]; [vm_compute; by intros [= <-]|]. lia.
Qed.

(** [tss_init] loads a present, available 32-bit TSS at the structure's address,
    with the kernel stack and data segment in it and zeros elsewhere.  Its limit is not
    [sizeof(tss_t) - 1] but the end address of the structure, cut to 20 bits: it depends on
    where the linker put the structure, and is never the right one. *)
Theorem tss_init_segment s addr stack :
  length (tss s) = 104%nat → length (gdt s) = 6%nat → 47 ≤ gd_limit (gdtr s) →
  0 ≤ addr < 2 ^ 32 → addr mod 4 = 0 →
  ∃ s' limit, tss_init addr stack s = Done tt s'
      [EvPrintf "TSS: initialised, kernel stack at %x\n" [AInt stack]] ∧
    tr s' = 0x28 ∧ segment s' (tr s') = Some (Descriptor addr limit true 0 TSS_AVAILABLE) ∧
    limit = (addr + 104) mod 2 ^ 20 ∧ limit ≠ sizeof_tss - 1 ∧
    tss s' = tss_bytes stack ∧
    ∀ sel, 0 ≤ sel < 40 → segment s' sel = segment s sel.
Proof.
  intros Ht Hg Hl Ha Ha4.
  destruct (wp_done _ _ _ (tss_init_spec s addr stack Ht Hg)) as ([] & s' & o & E & -> & ->).
  eexists _, ((addr + 104) mod 2 ^ 20). split; [exact E|]. split; [done|].
  assert (u32 (addr + 104) mod 2 ^ 20 = (addr + 104) mod 2 ^ 20) as Hmod.
  { unfold u32. change (2 ^ 32) with 4294967296. change (2 ^ 20) with 1048576. dlia. }
  split; [|split; [done|split; [|split; [done|]]]].
  - unfold segment. cbn [set_tr set_gdt set_tss tr gdt gdtr].
    change (0x28 / 8) with 5. rewrite (proj2 (Z.leb_le _ _)) by lia.
    rewrite aget_eq by lia. change (Z.to_nat 5) with 5%nat.
    rewrite list_lookup_insert_eq by lia. cbn [fmap option_fmap option_map compose].
    pose proof (u32_range (addr + 104)).
    rewrite decode_gdt_entry by lia. cbn [Z.testbit]. rewrite Hmod. reflexivity.
  - unfold sizeof_tss. change (2 ^ 20) with 1048576. dlia.
  - intros sel Hsel. unfold segment. cbn [set_tr set_gdt set_tss gdt gdtr].
    change 5%nat with (Z.to_nat 5). rewrite aget_insert_ne by dlia. done.
Qed.

(** The processor's state in a program. *)
Record in_ring3 (s : seg) (entry user_stack : Z) : Prop := {
  r3_eip : seg_eip s = entry;
  r3_esp : seg_esp s = user_stack;
  r3_interrupts : Z.testbit (eflags s) 9 = true;
  r3_code : segment s (seg_cs s) = Some (flat 3 CODE_RX) ∧ seg_cs s mod 4 = 3;
  r3_stack : segment s (seg_ss s) = Some (flat 3 DATA_RW) ∧ seg_ss s mod 4 = 3;
  r3_data : seg_ds s = seg_ss s ∧ seg_es s = seg_ss s ∧ seg_fs s = seg_ss s ∧ seg_gs s = seg_ss s;
}.

(** [enter_usermode] leaves the kernel for good: the processor continues at the
    entry point on the given stack in ring 3, with interrupts enabled, and its code, stack
    and data segments are the flat ones of ring 3; the kernel's stack is as before. *)
Lemma enter_usermode_ok s entry user_stack :
  flat_segments s →
  ∃ s', enter_usermode entry user_stack s =
      Halted s' [EvPrintf "Entering ring 3 at 0x%x\n" [AInt entry]] ∧
    in_ring3 s' entry user_stack ∧ kstack s' = kstack s ∧ gdt s' = gdt s ∧ tss s' = tss s.
Proof.
  intros (_ & _ & Hcode & Hdata). destruct s as [g gd t r tr0 c0 s0 d0 e0 f0 g0 fl k ip sp].
  eexists. split.
  { cbv beta iota delta [enter_usermode push pop iret kprintf mbind K_bind kmodify kget kemit mret
      K_ret khalt set_eflags set_data_segments set_kstack Gdt.gdt gdt_descriptor tss gdtr tr seg_cs seg_ss
      seg_ds seg_es seg_fs seg_gs eflags kstack seg_eip seg_esp app]. reflexivity. }
  split; [|done]. constructor; try done.
  cbn [eflags]. rewrite Z.lor_spec. apply orb_true_r.
Qed.

(** ** Witnesses: a machine before and after [gdt_init] *)

Definition seg0 : seg :=
  Seg (replicate 6 zero_gdt_entry) (Gdt_descriptor 0 0) (replicate 104 0) (Gdt_descriptor 39 0x5000)
    0 0x10 0x18 0x18 0x18 0x18 0x18 2 [] 0x100000 0x90000.
Definition seg1 : seg := final seg0 (gdt_init 0x10A000 seg0).

Lemma seg1_gdt : gdt seg1 = boot_gdt ∧ gd_limit (gdtr seg1) = 47 ∧ tss seg1 = replicate 104 0.
Proof. split; [|split]; reflexivity. Qed.

Lemma gdt_set_entry_roundtrip_witness :
  ∃ s', gdt_set_entry 3 0x12345678 0x9ABCD 0xFA 0x40 seg1 = Done tt s' [] ∧
    segment s' (8 * 3) = Some (Descriptor 0x12345678 0x9ABCD true 3 26) ∧
    ∀ sel, 0 ≤ sel → sel / 8 ≠ 3 → segment s' sel = segment seg1 sel.
Proof.
  apply (gdt_set_entry_roundtrip seg1 3 0x12345678 0x9ABCD 0xFA 0x40); vm_compute; intuition discriminate.
Defined.

Lemma gdt_init_flat_witness :
  ∃ s', gdt_init 0x10A000 seg0 = Done tt s' [] ∧ flat_segments s' ∧
    gdtr s' = Gdt_descriptor 47 0x10A000 ∧ seg_cs s' = 0x08 ∧ seg_ss s' = 0x10 ∧ seg_ds s' = 0x10 ∧
    (∀ sel d, 0 ≤ sel → segment s' sel = Some d → d_present d = true → 1 ≤ sel / 8 ≤ 4).
Proof. apply (gdt_init_flat seg0 0x10A000). reflexivity. Defined.

Lemma tss_init_segment_witness :
  ∃ s' limit, tss_init 0x10B000 0x200000 seg1 = Done tt s'
      [EvPrintf "TSS: initialised, kernel stack at %x\n" [AInt 0x200000]] ∧
    tr s' = 0x28 ∧ segment s' (tr s') = Some (Descriptor 0x10B000 limit true 0 TSS_AVAILABLE) ∧
    limit = (0x10B000 + 104) mod 2 ^ 20 ∧ limit ≠ sizeof_tss - 1 ∧
    tss s' = tss_bytes 0x200000 ∧
    ∀ sel, 0 ≤ sel < 40 → segment s' sel = segment seg1 sel.
Proof.
  apply (tss_init_segment seg1 0x10B000 0x200000); vm_compute; intuition discriminate.
Defined.

Lemma enter_usermode_ok_witness :
  ∃ s', enter_usermode 0x400000 0x500000 seg1 =
      Halted s' [EvPrintf "Entering ring 3 at 0x%x\n" [AInt 0x400000]] ∧
    in_ring3 s' 0x400000 0x500000 ∧ kstack s' = kstack seg1 ∧ gdt s' = gdt seg1 ∧ tss s' = tss seg1.
Proof.
  apply (enter_usermode_ok seg1 0x400000 0x500000). apply boot_gdt_flat; reflexivity.
Defined.
