(* ===== verification/Idt.v ===== *)
(** * Interrupt vectors and the interrupt controllers: kernel/idt.c

    The interrupt descriptor table, the gate format as the processor reads it, the
    remapping of the two 8259A controllers, and the two dispatchers.  The addresses of
    the assembly stubs of kernel/idt.s are parameters. *)

From S2P Require Import Bytes Console Kprintf Prelude.

(** ** include/idt.h *)

Record idt_entry_t := Idt_entry {
  ie_base_low : Z;
  ie_selector : Z;
  ie_zero : Z;
  ie_flags : Z;
  ie_base_high : Z;
}.

Record idt_descriptor_t := Idt_descriptor { id_limit : Z; id_base : Z }.

Definition sizeof_idt_entry : Z := 8.

Definition bytes_of_idt_entry (e : idt_entry_t) : list Z :=
  le_bytes 2 (ie_base_low e) ++ le_bytes 2 (ie_selector e) ++ le_bytes 1 (ie_zero e) ++
  le_bytes 1 (ie_flags e) ++ le_bytes 2 (ie_base_high e).

Definition PIC1_COMMAND : Z := 0x20.
Definition PIC1_DATA : Z := 0x21.
Definition PIC2_COMMAND : Z := 0xA0.
Definition PIC2_DATA : Z := 0xA1.
Definition PIC_EOI : Z := 0x20.

Definition exception_names : list string :=
  ["Division By Zero"; "Debug"; "Non Maskable Interrupt"; "Breakpoint";
   "Overflow"; "Bound Range Exceeded"; "Invalid Opcode"; "Device Not Available";
   "Double Fault"; "Coprocessor Segment Overrun"; "Invalid TSS"; "Segment Not Present";
   "Stack-Segment Fault"; "General Protection Fault"; "Page Fault"; "Reserved";
   "x87 Floating Point"; "Alignment Check"; "Machine Check"; "SIMD Floating Point";
   "Virtualization"; "Reserved"; "Reserved"; "Reserved"; "Reserved"; "Reserved";
   "Reserved"; "Reserved"; "Reserved"; "Reserved"; "Security Exception"; "Reserved"]%string.

(** ** include/registers.h: what the stubs push *)

Record registers_t := Registers {
  r_ds : Z;
  r_edi : Z; r_esi : Z; r_ebp : Z; r_esp : Z; r_ebx : Z; r_edx : Z; r_ecx : Z; r_eax : Z;
  int_no : Z; err_code : Z;
  r_eip : Z; r_cs : Z; r_eflags : Z; useresp : Z; r_ss : Z;
}.

(** ** State: the table, IDTR and the interrupt flag, and the controllers' ports *)

Section idt.
Context {P : Type} `{PortIo P}.

Record intr := Intr {
  idt : list idt_entry_t;
  idt_descriptor : idt_descriptor_t;
  idtr : idt_descriptor_t;
  interrupts_on : bool;
  pic_port : P;
}.

Definition set_idt x s := Intr x (idt_descriptor s) (idtr s) (interrupts_on s) (pic_port s).
Definition set_idt_descriptor x s := Intr (idt s) x (idtr s) (interrupts_on s) (pic_port s).
Definition set_idtr x s := Intr (idt s) (idt_descriptor s) x (interrupts_on s) (pic_port s).
Definition set_interrupts x s := Intr (idt s) (idt_descriptor s) (idtr s) x (pic_port s).

#[export] Instance pic_lens : Lens intr P.
Proof.
  refine {| lens_get := pic_port;
    lens_set := λ p s, Intr (idt s) (idt_descriptor s) (idtr s) (interrupts_on s) p |}; try done.
  by intros [].
Defined.

Definition io_wait : K P unit := outb 0x80 0.

Definition idt_set_gate (num base sel flags : Z) : K intr unit :=
  s ← kget;
  t ← klift (aset (idt s) num (Idt_entry (Z.land base 0xFFFF) sel 0 flags
    (Z.land (Z.shiftr base 16) 0xFFFF)));
  kmodify (set_idt t).

Definition pic_remap : K P unit :=
  let mask1 := 0xFC in
  let mask2 := 0xFF in
  outb PIC1_COMMAND 0x11;; io_wait;;
  outb PIC2_COMMAND 0x11;; io_wait;;
  outb PIC1_DATA 0x20;; io_wait;;
  outb PIC2_DATA 0x28;; io_wait;;
  outb PIC1_DATA 0x04;; io_wait;;
  outb PIC2_DATA 0x02;; io_wait;;
  outb PIC1_DATA 0x01;; io_wait;;
  outb PIC2_DATA 0x01;; io_wait;;
  outb PIC1_DATA mask1;;
  outb PIC2_DATA mask2.

(** [isr] and [irq] are the addresses of the stubs, [idt_addr] that of the table.  The
    calls for the vectors 0 to 31 and 32 to 47, which the code writes out one by one,
    are loops here. *)
Definition idt_init (isr irq : Z → Z) (idt_addr : Z) : K intr unit :=
  kmodify (set_idt_descriptor (Idt_descriptor (u16 (sizeof_idt_entry * 256 - 1)) idt_addr));;
  _ ← kfold 0 32 (λ i _, idt_set_gate i (isr i) 0x08 0x8E) tt;
  idt_set_gate 128 (isr 128) 0x08 0xEE;;
  zoom pic_remap;;
  _ ← kfold 0 16 (λ i _, idt_set_gate (32 + i) (irq i) 0x08 0x8E) tt;
  s ← kget;
  kmodify (set_idtr (idt_descriptor s));;
  kmodify (set_interrupts true).
End idt.
Arguments intr : clear implicits.
Arguments Intr {P} _ _ _ _ _.

(** ** The dispatchers, over the kernel's state [W] *)

Section dispatch.
Context {W P : Type} `{PortIo P} `{Lens W P}.
Context (syscall_handler : registers_t → K W registers_t).
Context (scheduler_tick keyboard_handler : K W unit).

(** The registers at the end go back to the interrupted program; after an exception the
    processor halts. *)
Definition isr_handler (regs : registers_t) : K W registers_t :=
  if int_no regs =? 128 then syscall_handler regs
  else
    kemit (EvSetColor 0x04);;
    kprintf "\n*** KERNEL EXCEPTION ***\n" [];;
    name ← klift (aget exception_names (int_no regs));
    kprintf "Exception: %s\n" [AStr (c_literal name)];;
    kprintf "Error code: %d\n" [AInt (err_code regs)];;
    kprintf "System halted.\n" [];;
    khalt.

Definition irq_handler (regs : registers_t) : K W unit :=
  (if int_no regs =? 32 then scheduler_tick else mret tt);;
  (if int_no regs =? 33 then keyboard_handler else mret tt);;
  (if 40 <=? int_no regs then zoom (outb PIC2_COMMAND PIC_EOI) else mret tt);;
  zoom (outb PIC1_COMMAND PIC_EOI).
End dispatch.

(** ** The 8259A (Intel data sheet)

    [expect] is the initialisation word a chip waits for: 0 when it is operating. *)
Record chip := Chip {
  expect : Z;
  vector_base : Z;
  cascade : Z;
  mask : Z;
  in_service : Z;
}.

(** ICW1 (bit 4 set) starts the initialisation and clears the mask and the in-service
    register; a non-specific EOI ends the interrupt of highest priority, which is the
    lowest bit in service. *)
Definition chip_command (v : Z) (c : chip) : chip :=
  if Z.testbit v 4 then Chip 2 (vector_base c) (cascade c) 0 0
  else if v =? 0x20 then
    Chip (expect c) (vector_base c) (cascade c) (mask c)
      (Z.land (in_service c) (in_service c - 1))
  else c.

Definition chip_data (v : Z) (c : chip) : chip :=
  if expect c =? 2 then Chip 3 (Z.land v 0xF8) (cascade c) (mask c) (in_service c)
  else if expect c =? 3 then Chip 4 (vector_base c) v (mask c) (in_service c)
  else if expect c =? 4 then Chip 0 (vector_base c) (cascade c) (mask c) (in_service c)
  else Chip 0 (vector_base c) (cascade c) v (in_service c).

Record pics := Pics { master : chip; slave : chip }.

Definition pic_write (port v : Z) (p : pics) : pics :=
  if port =? PIC1_COMMAND then Pics (chip_command v (master p)) (slave p)
  else if port =? PIC1_DATA then Pics (chip_data v (master p)) (slave p)
  else if port =? PIC2_COMMAND then Pics (master p) (chip_command v (slave p))
  else if port =? PIC2_DATA then Pics (master p) (chip_data v (slave p))
  else p.

(** A machine whose ports reach the two chips. *)
Class PicPort (P : Type) `{PortIo P} := {
  pic_view : P → pics;
  pic_out port v p : pic_view (port_out port v p) = pic_write port v (pic_view p);
}.

#[export] Instance pics_io : PortIo pics := {
  port_in _ p := (0, p);
  port_out := pic_write;
}.
#[export] Instance pics_port : PicPort pics.
Proof. by refine {| pic_view := id |}. Defined.

(** The priority of a line: the eight of the slave come in at line 2 of the master. *)
Definition serves (c : chip) (line : Z) : bool :=
  negb (Z.testbit (mask c) line) && (Z.land (in_service c) (2 ^ (line + 1) - 1) =? 0).

(** The vector that a raised line delivers, if it is delivered now. *)
Definition delivers (p : pics) (line : Z) : option Z :=
  if line <? 8 then
    if serves (master p) line then Some (vector_base (master p) + line) else None
  else if serves (master p) 2 && serves (slave p) (line - 8) then
    Some (vector_base (slave p) + (line - 8))
  else None.

(** The state once the processor has acknowledged it. *)
Definition acknowledge (line : Z) (p : pics) : pics :=
  let served l c := Chip (expect c) (vector_base c) (cascade c) (mask c)
    (Z.lor (in_service c) (2 ^ l)) in
  if line <? 8 then Pics (served line (master p)) (slave p)
  else Pics (served 2 (master p)) (served (line - 8) (slave p)).

(** ** Gates *)

Record gate := Gate {
  g_offset : Z;
  g_selector : Z;
  g_present : bool;
  g_dpl : Z;
  g_type : Z;
}.

(** The eight bytes of a gate (Intel SDM, volume 3, 6.11). *)
Definition decode_gate (b : list Z) : gate :=
  let byte i := nth i b 0 in
  Gate (byte 0%nat + 256 * byte 1%nat + 65536 * byte 6%nat + 16777216 * byte 7%nat)
    (byte 2%nat + 256 * byte 3%nat)
    (Z.testbit (byte 5%nat) 7) (byte 5%nat / 32 mod 4) (byte 5%nat mod 32).

(** A 32-bit interrupt gate: interrupts are off in its handler. *)
Definition INTERRUPT_GATE : Z := 14.

Definition idt_entry (base sel flags : Z) : idt_entry_t :=
  Idt_entry (Z.land base 0xFFFF) sel 0 flags (Z.land (Z.shiftr base 16) 0xFFFF).

Lemma decode_idt_entry base sel flags :
  0 ≤ base < 2 ^ 32 → 0 ≤ sel < 2 ^ 16 → 0 ≤ flags < 256 →
  decode_gate (bytes_of_idt_entry (idt_entry base sel flags)) =
  Gate base sel (Z.testbit flags 7) (flags / 32 mod 4) (flags mod 32).
Proof.
  intros Hb Hs Hf. unfold idt_entry. rewrite Z.shiftr_div_pow2 by lia.
  change 0xFFFF with (Z.ones 16). rewrite !Z.land_ones by lia. change (2 ^ 16) with 65536 in *.
  unfold bytes_of_idt_entry. cbn [ie_base_low ie_selector ie_zero ie_flags ie_base_high].
  unfold le_bytes. cbn [app]. unfold decode_gate. cbn [nth].
  rewrite (Z.mod_small flags 256) by lia. f_equal; dlia.
Qed.

Section idt_thms.
Context {P : Type} `{PicPort P}.
Implicit Types s : intr P.

(** What the processor finds for a vector. *)
Definition vector_gate (t : list idt_entry_t) (v : Z) : option gate :=
  decode_gate ∘ bytes_of_idt_entry <$> aget t v.

Lemma set_gate_spec s num base sel flags :
  0 ≤ num < Z.of_nat (length (idt s)) →
  wp (idt_set_gate num base sel flags) s (λ _ s' o, o = [] ∧
    s' = set_idt (<[Z.to_nat num := idt_entry base sel flags]> (idt s)) s).
Proof.
  intros Hn. unfold idt_set_gate. wp_steps. eapply wp_lift; [by apply aset_Some|]. wp_steps. done.
Qed.

(** A run of gates from [lo]. *)
Lemma set_gates_spec s lo n (h : Z → Z) sel flags :
  0 ≤ lo → lo + Z.of_nat n ≤ Z.of_nat (length (idt s)) →
  wp (kfold 0 n (λ i _, idt_set_gate (lo + i) (h i) sel flags) tt) s (λ _ s' o, o = [] ∧
    ∃ t, s' = set_idt t s ∧ length t = length (idt s) ∧
      ∀ v, 0 ≤ v → aget t v = if decide (lo ≤ v < lo + Z.of_nat n)
        then Some (idt_entry (h (v - lo)) sel flags) else aget (idt s) v).
Proof.
  intros Hlo Hlen. apply wp_kfold with (I := λ j _ s' o, o = [] ∧ ∃ t, s' = set_idt t s ∧
    length t = length (idt s) ∧ ∀ v, 0 ≤ v → aget t v = if decide (lo ≤ v < lo + j)
        then Some (idt_entry (h (v - lo)) sel flags) else aget (idt s) v).
  - split; [done|]. exists (idt s). split; [by destruct s|]. split; [done|]. intros v Hv.
    rewrite decide_False by lia. done.
  - intros j _ s' o Hj (-> & t & -> & Ht & Hv). eapply wp_mono.
    { apply set_gate_spec. cbn [set_idt idt]. lia. }
    intros _ s2 o (-> & ->). split; [done|]. eexists. split; [reflexivity|].
    cbn [set_idt idt]. split; [by rewrite length_insert|]. intros v Hv0.
    destruct (decide (v = lo + j)) as [->|Hne].
    + rewrite aget_insert_eq, decide_True by lia. by replace (lo + j - lo) with j by lia.
    + rewrite aget_insert_ne, Hv by lia.
      destruct (decide (lo ≤ v < lo + j)); [rewrite decide_True by lia; done|].
      rewrite decide_False by lia. done.
  - intros _ s' o (-> & t & Hs & Ht & Hv). rewrite Z.add_0_l in Hv. eauto.
Qed.

(** ** The remapping *)

Definition remapped (b casc m : Z) : chip := Chip 0 b casc m 0.

Lemma wp_pic_out port v (p : P) (Q : unit → P → list event → Prop) :
  (∀ p', pic_view p' = pic_write port v (pic_view p) → Q tt p' []) → wp (outb port v) p Q.
Proof. intros HQ. unfold wp, outb. apply HQ, pic_out. Qed.

Lemma pic_remap_spec (p : P) :
  wp pic_remap p (λ _ p' o, o = [] ∧
    pic_view p' = Pics (remapped 0x20 0x04 0xFC) (remapped 0x28 0x02 0xFF)).
Proof.
  unfold pic_remap, io_wait.
  do 17 (apply wp_bind, wp_pic_out; intros ? ?). apply wp_pic_out. intros pn Hpn.
  split; [done|]. rewrite Hpn.
  repeat match goal with Hv : pic_view _ = _ |- _ => rewrite Hv; clear Hv end.
  destruct (pic_view p) as [[] []]. reflexivity.
Qed.

Lemma idt_init_spec s isr irq addr :
  length (idt s) = 256%nat →
  wp (idt_init isr irq addr) s (λ _ s' o, o = [] ∧
    pic_view (pic_port s') = Pics (remapped 0x20 0x04 0xFC) (remapped 0x28 0x02 0xFF) ∧
    interrupts_on s' = true ∧ idtr s' = Idt_descriptor 2047 addr ∧ length (idt s') = 256%nat ∧
    ∀ v, 0 ≤ v < 256 → aget (idt s') v =
      if decide (v < 32) then Some (idt_entry (isr v) 0x08 0x8E)
      else if decide (v < 48) then Some (idt_entry (irq (v - 32)) 0x08 0x8E)
      else if decide (v = 128) then Some (idt_entry (isr 128) 0x08 0xEE)
      else aget (idt s) v).
Proof.
  intros Hlen. unfold idt_init. wp_steps.
  eapply wp_mono.
  { apply (set_gates_spec (set_idt_descriptor _ s) 0 32 isr); cbn [set_idt_descriptor idt]; lia. }
  intros _ s1 o (-> & t1 & -> & Ht1 & Hv1). cbn [set_idt_descriptor idt] in *. wp_steps.
  eapply wp_mono; [apply set_gate_spec; cbn [set_idt idt]; lia|]. intros _ s2 o (-> & ->). wp_steps.
  apply wp_zoom. eapply wp_mono; [apply pic_remap_spec|]. intros _ p' o (-> & Hp'). wp_steps.
  eapply wp_mono.
  { apply (set_gates_spec _ 32 16 irq); [lia|].
    cbn [lens_set pic_lens set_idt idt]. rewrite length_insert. lia. }
  intros _ s3 o (-> & t3 & -> & Ht3 & Hv3). cbn [lens_set pic_lens set_idt idt] in Ht3, Hv3.
  wp_steps. split; [done|]. split; [exact Hp'|]. split; [done|]. split; [done|].
  rewrite length_insert in Ht3. cbn [set_interrupts set_idtr set_idt idt].
  split; [congruence|]. intros v Hv. rewrite Hv3 by lia.
  destruct (decide (v = 128)) as [->|H128].
  - repeat case_decide; try lia.
    exact (aget_insert_eq t1 128 _ ltac:(lia)).
  - rewrite aget_insert_ne, Hv1 by lia.
    repeat case_decide; try done; try lia. by rewrite Z.sub_0_r.
Qed.
End idt_thms.

(** ** Theorems *)

Definition absent_entry : idt_entry_t := Idt_entry 0 0 0 0 0.

(** After [idt_init] the processor finds, for every one of the 256 vectors, the gate
    it should: the stubs of the exceptions and of the 16 hardware interrupts behind
    ring-0 interrupt gates, the system call behind the only gate that ring 3 may use,
    and no gate for any other vector. *)
Theorem idt_init_vectors {P} `{PicPort P} (s : intr P) isr irq addr :
  idt s = replicate 256 absent_entry → (∀ v, 0 ≤ isr v < 2 ^ 32) → (∀ v, 0 ≤ irq v < 2 ^ 32) →
  ∃ s', idt_init isr irq addr s = Done tt s' [] ∧
    idtr s' = Idt_descriptor 2047 addr ∧ interrupts_on s' = true ∧
    ∀ v, 0 ≤ v < 256 → ∃ g, vector_gate (idt s') v = Some g ∧
      (g_present g = true ↔ v < 48 ∨ v = 128) ∧
      (g_present g = true → g_selector g = 0x08 ∧ g_type g = INTERRUPT_GATE ∧
        g_dpl g = (if decide (v = 128) then 3 else 0) ∧
        g_offset g = (if decide (32 ≤ v < 48) then irq (v - 32) else isr v)).
Proof.
  intros Hidt Hisr Hirq.
  destruct (wp_done _ _ _ (idt_init_spec s isr irq addr ltac:(by rewrite Hidt, length_replicate)))
    as ([] & s' & o & E & -> & _ & Hon & Hreg & _ & Hv).
  exists s'. split; [exact E|]. split; [exact Hreg|]. split; [exact Hon|]. intros v Hv0.
  unfold vector_gate. rewrite (Hv v Hv0), Hidt, aget_replicate by lia.
  destruct (decide (v < 32)); [|destruct (decide (v < 48)); [|destruct (decide (v = 128)) as [->|]]];
    (eexists; split; [reflexivity|]); cbn [compose]; rewrite ?decode_idt_entry by (done || lia).
  - split; [split; [lia|done]|]. intros _. rewrite !decide_False by lia. done.
  - split; [split; [lia|done]|]. intros _. rewrite (decide_True (P := 32 ≤ v < 48)) by lia.
    by rewrite decide_False by lia.
  - split; [split; [lia|done]|]. done.
  - split; [split; [done|lia]|]. done.
Qed.

(** The remapped controllers deliver the timer and the keyboard as vectors 32 and
    33, clear of the exceptions, and no other line. *)
Theorem only_timer_and_keyboard {P} `{PicPort P} (p : P) :
  ∃ p', pic_remap p = Done tt p' [] ∧ ∀ line, 0 ≤ line < 16 →
    delivers (pic_view p') line = if decide (line < 2) then Some (32 + line) else None.
Proof.
  destruct (wp_done _ _ _ (pic_remap_spec p)) as ([] & p' & o & E & -> & Hp).
  exists p'. split; [exact E|]. intros line Hl. rewrite Hp.
  assert (Forall (λ l, delivers (Pics (remapped 32 4 252) (remapped 40 2 255)) l
    = if decide (l < 2) then Some (32 + l) else None) (seqZ 0 16)) as Hall
    by (apply (bool_decide_unpack _); vm_compute; exact I).
  rewrite Forall_forall in Hall. apply Hall, elem_of_seqZ. lia.
Qed.

(** ** The end of an interrupt *)

(** Clearing the lowest bit undoes setting a bit below all others. *)
Lemma clear_lowest x l :
  0 ≤ x → 0 ≤ l → Z.land x (2 ^ (l + 1) - 1) = 0 →
  Z.land (Z.lor x (2 ^ l)) (Z.lor x (2 ^ l) - 1) = x.
Proof.
  intros Hx Hl Hlow. replace (2 ^ (l + 1) - 1) with (Z.ones (l + 1)) in Hlow by (rewrite Z.ones_equiv; lia).
  rewrite Z.land_ones in Hlow by lia.
  assert (Z.land x (2 ^ l) = 0) as H1.
  { apply Z.bits_inj_0. intros j. rewrite Z.land_spec, Z.pow2_bits_eqb by lia.
    destruct (Z.eqb_spec l j) as [->|]; [|apply andb_false_r]. rewrite andb_true_r.
    rewrite <-(Z.mod_pow2_bits_low x (j + 1) j) by lia. by rewrite Hlow, Z.bits_0. }
  assert (Z.land x (Z.ones l) = 0) as H2.
  { rewrite Z.land_ones by lia. apply Z.bits_inj_0. intros j.
    destruct (Z.ltb_spec j 0); [by apply Z.testbit_neg_r|].
    destruct (Z.ltb_spec j l).
    - rewrite Z.mod_pow2_bits_low by lia.
      rewrite <-(Z.mod_pow2_bits_low x (l + 1) j) by lia. by rewrite Hlow, Z.bits_0.
    - by rewrite Z.mod_pow2_bits_high by lia. }
  assert (Z.lor x (2 ^ l) - 1 = Z.lor x (Z.ones l)) as ->.
  { pose proof (Z.add_lor_land x (2 ^ l)). pose proof (Z.add_lor_land x (Z.ones l)) as H4.
    rewrite Z.ones_equiv in *. lia. }
  rewrite <-Z.lor_land_distr_r. replace (Z.land (2 ^ l) (Z.ones l)) with 0; [apply Z.lor_0_r|].
  symmetry. rewrite Z.land_ones by lia. apply Z.mod_same. lia.
Qed.

(** A well-formed chip is operating. *)
Definition chip_ok (c : chip) : Prop := expect c = 0 ∧ 0 ≤ in_service c.

Definition served (l : Z) (c : chip) : chip :=
  Chip (expect c) (vector_base c) (cascade c) (mask c) (Z.lor (in_service c) (2 ^ l)).

Lemma eoi_served c l :
  chip_ok c → 0 ≤ l → serves c l = true → chip_command PIC_EOI (served l c) = c.
Proof.
  intros [He Hi] Hl Hs. unfold serves in Hs. apply andb_true_iff in Hs as [_ Hs%Z.eqb_eq].
  unfold chip_command, PIC_EOI. change (Z.testbit 0x20 4) with false. rewrite Z.eqb_refl.
  cbn [served expect vector_base cascade mask in_service].
  rewrite clear_lowest by done. by destruct c.
Qed.

(** A callback that leaves the controllers alone. *)
Definition keeps_pics {W P} `{PicPort P} `{Lens W P} (m : K W unit) : Prop :=
  ∀ w, wp m w (λ _ w' _, lens_get w' = lens_get w).

Lemma wp_zoom_out {W P} `{PicPort P} `{Lens W P} port v (w : W) (Q : unit → W → list event → Prop) :
  (∀ w', pic_view (lens_get w') = pic_write port v (pic_view (lens_get w)) → Q tt w' []) →
  wp (zoom (outb port v)) w Q.
Proof.
  intros HQ. apply wp_zoom, wp_pic_out. intros p' Hp'. apply HQ. by rewrite lens_get_set.
Qed.

(** A hardware interrupt that the controllers delivered is over when [irq_handler]
    returns: whatever the line, the end-of-interrupt commands reach exactly the chips
    that have it in service, and the controllers are as before the interrupt, ready for
    the next one. *)
Lemma irq_end_of_interrupt {W P} `{PicPort P} `{Lens W P} (tick kbd : K W unit) (w : W) regs line before :
  keeps_pics tick → keeps_pics kbd →
  0 ≤ line < 16 → int_no regs = 32 + line →
  chip_ok (master before) → chip_ok (slave before) → delivers before line ≠ None →
  pic_view (lens_get w) = acknowledge line before →
  ∃ w' o, irq_handler tick kbd regs w = Done tt w' o ∧ pic_view (lens_get w') = before.
Proof.
  intros Htick Hkbd Hline Hno Hm Hs Hdel Hack.
  assert (wp (irq_handler tick kbd regs) w (λ _ w' _, pic_view (lens_get w') = before)) as Hwp.
  2: { destruct (wp_done _ _ _ Hwp) as ([] & w' & o & E & Hw'). by exists w', o. }
  unfold irq_handler. wp_steps. rewrite Hno.
  eapply (wp_mono _ _ (λ _ w' _, lens_get w' = lens_get w)).
  { destruct (32 + line =? 32); [apply Htick|]. wp_steps. done. }
  intros _ w1 o1 K1. wp_steps. eapply (wp_mono _ _ (λ _ w' _, lens_get w' = lens_get w)).
  { destruct (32 + line =? 33); [|by wp_steps].
    eapply wp_mono; [apply Hkbd|]. intros u w3 o3 K3. cbv beta in K3. by rewrite K3. }
  intros _ w2 o2 K3. wp_steps. rewrite <-K3 in Hack. unfold acknowledge, delivers in *.
  destruct (Z.ltb_spec line 8) as [Hl|Hl].
  - rewrite (proj2 (Z.leb_gt 40 (32 + line))) by lia. wp_steps. apply wp_zoom_out.
    intros w3 Hw3. rewrite Hw3, Hack. unfold pic_write. cbn [Z.eqb]. rewrite Z.eqb_refl.
    cbn [master slave]. destruct (serves (master before) line) eqn:Hsv; [|done].
    change (Chip _ _ _ _ _) with (served line (master before)).
    rewrite eoi_served by (done || lia). by destruct before.
  - rewrite (proj2 (Z.leb_le 40 (32 + line))) by lia. apply wp_zoom_out. intros w3 Hw3.
    apply wp_zoom_out. intros w4 Hw4. rewrite Hw4, Hw3, Hack.
    destruct (serves (master before) 2) eqn:Hsv; [|done].
    destruct (serves (slave before) (line - 8)) eqn:Hsv2; [|done].
    unfold pic_write. change (PIC2_COMMAND =? PIC1_COMMAND) with false.
    change (PIC2_COMMAND =? PIC1_DATA) with false. rewrite !Z.eqb_refl. cbn [master slave].
    change (Chip _ _ _ _ (Z.lor _ (2 ^ 2))) with (served 2 (master before)).
    change (Chip _ _ _ _ (Z.lor _ (2 ^ (line - 8)))) with (served (line - 8) (slave before)).
    rewrite !eoi_served by (done || lia). by destruct before.
Qed.

(** Every processor exception prints its name, its number being a vector of
    [idt_init], and stops the machine; only vector 128 goes on to the system calls. *)
Theorem exception_halts {W} (syscall_handler : registers_t → K W registers_t) (w : W) regs :
  0 ≤ int_no regs < 32 →
  ∃ name, exception_names !! Z.to_nat (int_no regs) = Some name ∧
    isr_handler syscall_handler regs w = Halted w
      [EvSetColor 0x04; EvPrintf "\n*** KERNEL EXCEPTION ***\n" [];
       EvPrintf "Exception: %s\n" [AStr (c_literal name)];
       EvPrintf "Error code: %d\n" [AInt (err_code regs)]; EvPrintf "System halted.\n" []].
Proof.
  intros Hn. destruct (aget_is_Some exception_names (int_no regs)) as [name Hname].
  { change (Z.of_nat (length exception_names)) with 32. lia. }
  exists name. split; [by rewrite <-aget_eq by lia|]. unfold isr_handler.
  rewrite (proj2 (Z.eqb_neq (int_no regs) 128)) by lia. rewrite Hname. reflexivity.
Qed.

(** ** Witnesses *)

Definition chip0 : chip := Chip 0 0 0 0 0.
Definition intr0 : intr pics :=
  Intr (replicate 256 absent_entry) (Idt_descriptor 0 0) (Idt_descriptor 0 0) false (Pics chip0 chip0).
Definition stub (base v : Z) : Z := u32 (base + 16 * v).

Lemma idt_init_vectors_witness :
  ∃ s', idt_init (stub 0x100000) (stub 0x101000) 0x10C000 intr0 = Done tt s' [] ∧
    idtr s' = Idt_descriptor 2047 0x10C000 ∧ interrupts_on s' = true ∧
    ∀ v, 0 ≤ v < 256 → ∃ g, vector_gate (idt s') v = Some g ∧
      (g_present g = true ↔ v < 48 ∨ v = 128) ∧
      (g_present g = true → g_selector g = 0x08 ∧ g_type g = INTERRUPT_GATE ∧
        g_dpl g = (if decide (v = 128) then 3 else 0) ∧
        g_offset g = (if decide (32 ≤ v < 48) then stub 0x101000 (v - 32) else stub 0x100000 v)).
Proof.
  apply (idt_init_vectors intr0 (stub 0x100000) (stub 0x101000) 0x10C000);
    [reflexivity|intros v; apply u32_range|intros v; apply u32_range].
Defined.

(** The timer interrupts while nothing is in service. *)
Definition quiet_pics : pics := Pics (remapped 0x20 0x04 0xFC) (remapped 0x28 0x02 0xFF).
Definition regs0 (n : Z) : registers_t := Registers 0x10 0 0 0 0 0 0 0 0 n 0 0x100000 0x08 0x202 0 0.
Definition timer_intr : intr pics :=
  Intr (replicate 256 absent_entry) (Idt_descriptor 0 0) (Idt_descriptor 0 0) false
    (acknowledge 0 quiet_pics).

Lemma irq_end_of_interrupt_witness :
  ∃ w' o, irq_handler (mret tt) (mret tt) (regs0 32) timer_intr = Done tt w' o ∧
    pic_view (lens_get w') = quiet_pics.
Proof.
  apply (irq_end_of_interrupt (mret tt) (mret tt) timer_intr (regs0 32) 0 quiet_pics);
    try reflexivity; try lia; try done; intros w; reflexivity.
Defined.

Lemma exception_halts_witness :
  ∃ name, exception_names !! Z.to_nat 13 = Some name ∧
    isr_handler (W := unit) mret (regs0 13) tt = Halted tt
      [EvSetColor 0x04; EvPrintf "\n*** KERNEL EXCEPTION ***\n" [];
       EvPrintf "Exception: %s\n" [AStr (c_literal name)];
       EvPrintf "Error code: %d\n" [AInt 0]; EvPrintf "System halted.\n" []].
Proof. apply (exception_halts (W := unit) mret tt (regs0 13)). simpl. lia. Defined.
