(* ===== verification/Kernel.v ===== *)
(** * The state of the whole kernel

    One record with a lens per component, for the parts that use several of them: the
    loader, the system calls, the shell and the boot sequence.  The heap is inside the
    scheduler's state, the page allocator inside the virtual memory's. *)

From S2P Require Import Prelude Bytes Pmm Heap Vmm Process Fs Gdt.

(** What memory holds before it is written, [n] bytes of it. *)
Class Uninit := {
  garbage : Z → list Z;
  garbage_length n : 0 ≤ n → Z.of_nat (length (garbage n)) = n;
  garbage_bytes n : bytes_ok (garbage n);
}.

#[export] Instance zeros_uninit : Uninit.
Proof.
  refine {| garbage n := replicate (Z.to_nat n) 0 |}.
  - intros n Hn. rewrite length_replicate. lia.
  - intros n. apply Forall_replicate. unfold byte_ok. lia.
Defined.

(** The shell's static line buffer and its position. *)
Record line := Line {
  buffer : list Z;
  buffer_pos : Z;
}.

Section kernel.
Context {D : Type}.

(** [k_ram]: the bytes of the physical memory that programs use.  Page tables, heap
    headers, kernel stacks and the kernel's variables are in the other components. *)
Record kernel := Kernel {
  k_sched : ps;
  k_vm : vmm;
  k_fs : fs D;
  k_seg : seg;
  k_line : line;
  k_ram : Z → Z;
}.

Definition set_sched x s := Kernel x (k_vm s) (k_fs s) (k_seg s) (k_line s) (k_ram s).
Definition set_vm x s := Kernel (k_sched s) x (k_fs s) (k_seg s) (k_line s) (k_ram s).
Definition set_kfs x s := Kernel (k_sched s) (k_vm s) x (k_seg s) (k_line s) (k_ram s).
Definition set_kseg x s := Kernel (k_sched s) (k_vm s) (k_fs s) x (k_line s) (k_ram s).
Definition set_line x s := Kernel (k_sched s) (k_vm s) (k_fs s) (k_seg s) x (k_ram s).
Definition set_ram x s := Kernel (k_sched s) (k_vm s) (k_fs s) (k_seg s) (k_line s) x.

#[export] Instance sched_lens : Lens kernel ps.
Proof. refine {| lens_get := k_sched; lens_set := set_sched |}; try done. by intros []. Defined.
#[export] Instance vm_lens : Lens kernel vmm.
Proof. refine {| lens_get := k_vm; lens_set := set_vm |}; try done. by intros []. Defined.
#[export] Instance kfs_lens : Lens kernel (fs D).
Proof. refine {| lens_get := k_fs; lens_set := set_kfs |}; try done. by intros []. Defined.
#[export] Instance kseg_lens : Lens kernel seg.
Proof. refine {| lens_get := k_seg; lens_set := set_kseg |}; try done. by intros []. Defined.
#[export] Instance line_lens : Lens kernel line.
Proof. refine {| lens_get := k_line; lens_set := set_line |}; try done. by intros []. Defined.

#[export] Instance kheap_lens : Lens kernel heap.
Proof.
  refine {| lens_get s := ps_heap (k_sched s);
    lens_set h s := set_sched (set_heap h (k_sched s)) s |}; try done.
  by intros [[] ? ? ? ? ?].
Defined.
#[export] Instance kpmm_lens : Lens kernel pmm.
Proof.
  refine {| lens_get s := frames (k_vm s);
    lens_set x s := set_vm (set_frames x (k_vm s)) s |}; try done.
  by intros [? [] ? ? ? ?].
Defined.

(** ** Accesses through the page tables; a page fault ends the run *)

Definition load_byte (va : Z) : K kernel Z :=
  s ← kget; pa ← klift (translate (k_vm s) va); mret (k_ram s pa).

Definition write_byte (a x : Z) (m : Z → Z) : Z → Z := λ k, if k =? a then x else m k.
Definition store_byte (va x : Z) : K kernel unit :=
  s ← kget; pa ← klift (translate (k_vm s) va);
  kmodify (λ s, set_ram (write_byte pa x (k_ram s)) s).

(** The bytes that can be read from [va] on, at most [n]: the object a pointer given to
    the file system points to. *)
Fixpoint readable (s : kernel) (va : Z) (n : nat) : list Z :=
  match n with
  | O => []
  | S n => match translate (k_vm s) va with
           | Some pa => k_ram s pa :: readable s (u32 (va + 1)) n
           | None => []
           end
  end.

(** Bytes that the file system stored through such a pointer. *)
Fixpoint store_bytes (va : Z) (l : list Z) : K kernel unit :=
  match l with
  | [] => mret tt
  | b :: l => store_byte va b;; store_bytes (u32 (va + 1)) l
  end.
End kernel.
Arguments kernel : clear implicits.
Arguments Kernel {D} _ _ _ _ _ _.

(** The block that [kmalloc] returned, as the object its users see: a null pointer
    points to nothing. *)
Definition block_at `{Uninit} (p n : Z) : list Z := if p =? 0 then [] else garbage n.
