(* ===== verification/KernelThms.v ===== *)
(** * Lemmas about the state of the whole kernel

    Heap blocks that a handler takes and gives back, and the memory of a program as a
    window of physical addresses behind the page tables. *)

From S2P Require Import Prelude Bytes Pmm Heap Vmm Process ProcessLife Fs Gdt Kernel.

(** ** Runs that end in a halt

    [hp m s Q]: started in [s], [m] stops the machine in a state and with events that
    satisfy [Q]. *)

Definition hp {S A} (m : K S A) (s : S) (Q : S → list event → Prop) : Prop :=
  match m s with Halted s' o => Q s' o | _ => False end.

Lemma hp_halted {S A} (m : K S A) s Q : hp m s Q → ∃ s' o, m s = Halted s' o ∧ Q s' o.
Proof. unfold hp. destruct (m s) as [| s' o | |]; try done. intros HQ. by exists s', o. Qed.
Lemma hp_of_halted {S A} (m : K S A) s s' o (Q : S → list event → Prop) : m s = Halted s' o → Q s' o → hp m s Q.
Proof. unfold hp. by intros ->. Qed.

Lemma hp_bind {S A B} (m : K S A) (f : A → K S B) s (Q : S → list event → Prop) :
  wp m s (λ a s1 o1, hp (f a) s1 (λ s2 o2, Q s2 (o1 ++ o2))) → hp (m ≫= f) s Q.
Proof.
  unfold wp, hp, mbind, K_bind. destruct (m s) as [a s1 o1| | |]; try done. by destruct (f a s1).
Qed.

Lemma hp_bind_halt {S A B} (m : K S A) (f : A → K S B) s (Q : S → list event → Prop) :
  hp m s Q → hp (m ≫= f) s Q.
Proof. unfold hp, mbind, K_bind. by destruct (m s). Qed.

Lemma hp_zoom {W S A} `{Lens W S} (m : K S A) w (Q : W → list event → Prop) :
  hp m (lens_get w) (λ s o, Q (lens_set s w) o) → hp (zoom m) w Q.
Proof. unfold hp, zoom. by destruct (m (lens_get w)). Qed.

Lemma hp_mono {S A} (m : K S A) s (P Q : S → list event → Prop) :
  hp m s P → (∀ s' o, P s' o → Q s' o) → hp m s Q.
Proof. unfold hp. destruct (m s); naive_solver. Qed.

Section kernel.
Context {D : Type}.
Implicit Types s : kernel D.

(** ** Heap blocks *)

Definition put_heap (h : heap) s : kernel D := set_sched (set_heap h (k_sched s)) s.
Definition heap_ready s (hl : layout) : Prop :=
  heap_rep (ps_heap (k_sched s)) hl ∧ normal hl = true.

Lemma kalloc_spec s hl n :
  heap_ready s hl → 0 < n ≤ 2 ^ 32 - 4 →
  wp (zoom (kmalloc n)) s (λ p s' o,
    match first_fit (align4 n) HEAP_START hl with
    | None => p = 0 ∧ s' = s ∧ o = [EvPrintf "kmalloc: out of heap memory!\n" []]
    | Some (q, hl') => p = q ∧ q ≠ 0 ∧ o = [] ∧ (∃ sz, (q, sz) ∈ used HEAP_START hl') ∧
        ∃ h', s' = put_heap h' s ∧ heap_rep h' hl'
    end).
Proof.
  intros [Hr Hnorm] Hn. apply wp_zoom. cbn [lens_get lens_set kheap_lens].
  destruct (align4_small n Hn) as [Ha Ha4]. assert (0 ≤ align4 n) as Ha0 by lia.
  eapply wp_mono; [apply (kmalloc_spec _ hl); [exact Hr|lia]|]. intros p h' o Hp.
  destruct (first_fit (align4 n) HEAP_START hl) as [[q hl']|] eqn:E.
  - destruct Hp as (-> & Hr' & ->).
    destruct (first_fit_inv _ _ _ _ _ Ha0 Ha4 (hr_sizes _ _ Hr) E) as (_ & _ & sz & _ & Hin & _).
    apply first_fit_pos in E as Hpos; [|done|apply Hr].
    split; [done|]. split; [lia|]. split; [done|]. split; [by exists sz|]. by exists h'.
  - destruct Hp as (-> & -> & ->). split; [done|]. split; [|done].
    by destruct s as [[] ? ? ? ? ?].
Qed.

Lemma put_heap_again h h' f s : put_heap h (set_kfs f (put_heap h' s)) = put_heap h (set_kfs f s).
Proof. reflexivity. Qed.

(** Giving back what was just allocated restores the layout. *)
Lemma kfree_back s hl hl' n q :
  heap_rep (ps_heap (k_sched s)) hl' → heap_rep (ps_heap (k_sched s)) hl' →
  sizes_ok hl → normal hl = true → 0 ≤ align4 n →
  first_fit (align4 n) HEAP_START hl = Some (q, hl') → (∃ sz, (q, sz) ∈ used HEAP_START hl') →
  wp (zoom (kfree q)) s (λ _ s' o, o = [] ∧ ∃ h', s' = put_heap h' s ∧ heap_rep h' hl).
Proof.
  intros Hr _ Hs Hnorm Hn E [sz Hin]. apply wp_zoom. cbn [lens_get lens_set kheap_lens].
  eapply wp_mono; [by apply (kfree_spec _ hl' q sz)|]. intros _ h' o (-> & Hr').
  split; [done|]. exists h'. split; [done|].
  by rewrite (proj2 (release_first_fit _ _ _ _ _ Hn Hs Hnorm E)) in Hr'.
Qed.

(** ** Program memory *)

(** The physical addresses behind [va], [va + 1], ... *)
Fixpoint window (vm : vmm) (va : Z) (pas : list Z) : Prop :=
  match pas with
  | [] => True
  | pa :: pas => translate vm va = Some pa ∧ window vm (u32 (va + 1)) pas
  end.

Lemma window_lookup vm pas : ∀ va i pa,
  0 ≤ va < 2 ^ 32 → window vm va pas → pas !! i = Some pa →
  translate vm (u32 (va + Z.of_nat i)) = Some pa.
Proof.
  induction pas as [|p pas IH]; intros va [|i] pa Hva Hw Hi; try done; destruct Hw as [Ht Hw].
  - cbn in Hi. simplify_eq. rewrite u32_small by (simpl; lia). by rewrite Z.add_0_r.
  - cbn in Hi. pose proof (IH (u32 (va + 1)) i pa (u32_range _) Hw Hi) as H.
    rewrite <-H. unfold u32. rewrite Zplus_mod_idemp_l. f_equal. f_equal. lia.
Qed.

Lemma window_app vm pas1 pas2 : ∀ va,
  0 ≤ va < 2 ^ 32 → window vm va (pas1 ++ pas2) →
  window vm va pas1 ∧ window vm (u32 (va + Z.of_nat (length pas1))) pas2.
Proof.
  induction pas1 as [|p pas1 IH]; intros va Hva Hw; cbn [app window length] in *.
  - split; [done|]. by rewrite Z.add_0_r, u32_small by lia.
  - destruct Hw as [Ht Hw]. apply IH in Hw as [H1 H2]; [|apply u32_range].
    split; [done|]. unfold u32 in H2. rewrite Zplus_mod_idemp_l in H2.
    replace (va + Z.of_nat (S (length pas1))) with (va + 1 + Z.of_nat (length pas1)) by lia. exact H2.
Qed.

(** What a program's memory holds. *)
Definition memory_at s (pas : list Z) : list Z := map (k_ram s) pas.

Lemma readable_window s pas : ∀ va,
  window (k_vm s) va pas → readable s va (length pas) = memory_at s pas.
Proof.
  induction pas as [|p pas IH]; intros va Hw; [done|]. destruct Hw as [Ht Hw].
  cbn [readable length memory_at map]. rewrite Ht. f_equal. by apply IH.
Qed.

Lemma readable_same s s' n : ∀ va,
  k_vm s' = k_vm s → k_ram s' = k_ram s → readable s' va n = readable s va n.
Proof.
  induction n as [|n IH]; intros va Hv Hr; [done|]. cbn [readable]. rewrite Hv, Hr.
  destruct (translate (k_vm s) va); [|done]. by rewrite IH.
Qed.

Lemma wp_load_byte s va pa (Q : Z → kernel D → list event → Prop) :
  translate (k_vm s) va = Some pa → Q (k_ram s pa) s [] → wp (load_byte va) s Q.
Proof. intros Ht HQ. unfold load_byte. wp_steps. rewrite Ht. exact HQ. Qed.

Lemma wp_store_byte s va pa x (Q : unit → kernel D → list event → Prop) :
  translate (k_vm s) va = Some pa → Q tt (set_ram (write_byte pa x (k_ram s)) s) [] →
  wp (store_byte va x) s Q.
Proof. intros Ht HQ. unfold store_byte. wp_steps. rewrite Ht. exact HQ. Qed.

(** The physical memory changed at [pas] only, to [l]. *)
Definition stored (pas l : list Z) (m m' : Z → Z) : Prop :=
  map m' pas = l ∧ ∀ a, a ∉ pas → m' a = m a.

Lemma stored_cons p pas x l m m' :
  p ∉ pas → stored pas l (write_byte p x m) m' → stored (p :: pas) (x :: l) m m'.
Proof.
  intros Hp [H1 H2]. split.
  - cbn [map]. rewrite H1, H2 by done. unfold write_byte. by rewrite Z.eqb_refl.
  - intros a [Ha Hn]%not_elem_of_cons. rewrite H2 by done. unfold write_byte.
    by rewrite (proj2 (Z.eqb_neq a p)).
Qed.

Lemma store_bytes_spec pas : ∀ s va l,
  window (k_vm s) va pas → NoDup pas → length l = length pas →
  wp (store_bytes va l) s (λ _ s' o, o = [] ∧ ∃ m, s' = set_ram m s ∧ stored pas l (k_ram s) m).
Proof.
  induction pas as [|p pas IH]; intros s va [|x l] Hw Hnd Hlen; try done; cbn [store_bytes].
  - wp_steps. split; [done|]. exists (k_ram s). split; [by destruct s|done].
  - destruct Hw as [Ht Hw]. apply NoDup_cons in Hnd as [Hp Hnd]. wp_steps.
    eapply wp_store_byte; [exact Ht|]. eapply wp_mono; [apply IH; [exact Hw|done|simpl in Hlen; lia]|].
    intros _ s' o (-> & m & -> & Hst). split; [done|]. exists m. split; [done|].
    by apply stored_cons.
Qed.

Lemma stored_app p1 p2 l1 l2 m m1 m2 :
  NoDup (p1 ++ p2) → stored p1 l1 m m1 → stored p2 l2 m1 m2 → stored (p1 ++ p2) (l1 ++ l2) m m2.
Proof.
  intros (_ & Hd & _)%NoDup_app [H1 H2] [H3 H4]. split.
  - rewrite map_app, H3. f_equal. rewrite <-H1. apply map_ext_in. intros a Ha. apply H4. apply Hd.
    by apply list_elem_of_In.
  - intros a [Ha1 Ha2]%not_elem_of_app. by rewrite H4, H2.
Qed.

Lemma window_intro vm : ∀ pas va, 0 ≤ va < 2 ^ 32 →
  (∀ i pa, pas !! i = Some pa → translate vm (u32 (va + Z.of_nat i)) = Some pa) → window vm va pas.
Proof.
  induction pas as [|p pas IH]; intros va Hva H; [done|]. split.
  - specialize (H 0%nat p eq_refl). by rewrite Z.add_0_r, u32_small in H by lia.
  - apply IH; [apply u32_range|]. intros i pa Hi. rewrite <-(H (S i) pa Hi).
    unfold u32. rewrite Zplus_mod_idemp_l. f_equal. f_equal. lia.
Qed.

(** A loop that stores one byte per iteration. *)
Lemma store_loop s dst pas l (body : Z → unit → K (kernel D) unit) :
  0 ≤ dst < 2 ^ 32 → window (k_vm s) dst pas → NoDup pas → length l = length pas →
  (∀ j x pa s' (Q : unit → kernel D → list event → Prop),
     l !! j = Some x → pas !! j = Some pa → translate (k_vm s) (u32 (dst + Z.of_nat j)) = Some pa → k_vm s' = k_vm s →
     Q tt (set_ram (write_byte pa x (k_ram s')) s') [] → wp (body (Z.of_nat j) tt) s' Q) →
  wp (kfold 0 (length l) body tt) s (λ _ s' o, o = [] ∧
    ∃ m, s' = set_ram m s ∧ stored pas l (k_ram s) m).
Proof.
  intros Hdst Hw Hnd Hlen Hbody. apply wp_kfold with (I := λ j _ s' o, o = [] ∧ ∃ m,
    s' = set_ram m s ∧ stored (take (Z.to_nat j) pas) (take (Z.to_nat j) l) (k_ram s) m).
  - split; [done|]. exists (k_ram s). split; [by destruct s|]. done.
  - intros j [] s' o Hj (-> & m & -> & Hst).
    destruct (lookup_lt_is_Some_2 pas (Z.to_nat j)) as [pa Hpa]; [lia|].
    destruct (lookup_lt_is_Some_2 l (Z.to_nat j)) as [x Hx]; [lia|].
    replace j with (Z.of_nat (Z.to_nat j)) at 1 by lia.
    eapply (Hbody _ x pa); [exact Hx|exact Hpa|by eapply window_lookup|done|]. split; [done|].
    eexists. split; [reflexivity|]. replace (Z.to_nat (j + 1)) with (S (Z.to_nat j)) by lia.
    rewrite (take_S_r _ _ pa), (take_S_r _ _ x) by done.
    apply (stored_app _ [pa] _ [x] _ m); [|exact Hst|].
    + rewrite <-take_S_r by done. rewrite <-(take_drop (S (Z.to_nat j)) pas) in Hnd.
      by apply NoDup_app in Hnd as [Hnd _].
    + split; [cbn; unfold write_byte; by rewrite Z.eqb_refl|].
      intros a Ha. cbn [set_ram k_ram]. unfold write_byte. rewrite (proj2 (Z.eqb_neq a pa)); [done|].
      intros ->. apply Ha, list_elem_of_here.
  - intros [] s' o (-> & m & -> & Hst). split; [done|]. exists m. split; [done|].
    rewrite Z.add_0_l, Nat2Z.id, !take_ge in Hst by lia. exact Hst.
Qed.
End kernel.

(** ** A kernel with paging off, an idle scheduler and a disk, for the witnesses *)

Definition vm0 : vmm := Vmm [] pmm_boot (λ _, 0) false.
Definition idle_ps : ps := Ps heap0 ∅ (λ _, 0) 0 0 0 (Cpu 0 0 0 0 0 0 0 0x200000 0x100000).
Definition empty_line : line := Line (replicate 256 0) 0.
Definition kernel_on (v : vmm) {D} (f : fs D) : kernel D :=
  Kernel idle_ps v f seg0 empty_line (λ _, 0).
Definition kernel_with {D} (f : fs D) : kernel D := kernel_on vm0 f.

Lemma heap0_ready v {D} (f : fs D) : heap_ready (kernel_on v f) [(HEAP_SIZE - 12, true)].
Proof. split; [apply heap0_rep|reflexivity]. Qed.
