(* ===== verification/Elf.v ===== *)
(** * The program loader: kernel/elf.c and include/elf.h

    [elf_load] reads a file into a heap block, checks the ELF header and maps and fills
    the segments.  The header fields are read from the bytes of the block at the offsets
    of the packed structures.

    The loader maps whatever pages the file asks for and reloads CR3 after each, without
    looking whether the kernel itself lives there.  The heap block with the file, the heap
    and the kernel's variables are data of the model that a new mapping does not reach, so
    the model stops where the code would take them away from under itself: a mapping over
    a page of the kernel, and a store into a frame of the kernel, are [Undefined]. *)

From S2P Require Import Prelude Bytes Disk Pmm Heap Vmm Process Fs Gdt Kernel.

Definition ELF_MAGIC : Z := 0x464C457F.
Definition ET_EXEC : Z := 2.
Definition EM_386 : Z := 3.
Definition PT_LOAD : Z := 1.

(** A little-endian field of [n] bytes; [None] past the end of the object. *)
Definition field (buf : list Z) (off : Z) (n : nat) : option Z :=
  if (0 <=? off) && (off + Z.of_nat n <=? Z.of_nat (length buf))
  then Some (le_Z (slice (Z.to_nat off) n buf)) else None.

(** ** [elf_header_t], [elf_program_header_t]: the fields the loader uses *)

Definition eh_magic (buf : list Z) : option Z := field buf 0 4.
Definition eh_bits (buf : list Z) : option Z := field buf 4 1.
Definition eh_type (buf : list Z) : option Z := field buf 16 2.
Definition eh_machine (buf : list Z) : option Z := field buf 18 2.
Definition eh_entry (buf : list Z) : option Z := field buf 24 4.
Definition eh_ph_offset (buf : list Z) : option Z := field buf 28 4.
Definition eh_ph_count (buf : list Z) : option Z := field buf 44 2.

Definition sizeof_program_header : Z := 32.

Record elf_program_header_t := Program_header {
  ph_type : Z;
  ph_offset : Z;
  ph_vaddr : Z;
  ph_file_size : Z;
  ph_mem_size : Z;
}.

Definition program_header (buf : list Z) (base : Z) : option elf_program_header_t :=
  ty ← field buf base 4;
  off ← field buf (base + 4) 4;
  va ← field buf (base + 8) 4;
  fsz ← field buf (base + 16) 4;
  msz ← field buf (base + 20) 4;
  Some (Program_header ty off va fsz msz).

(** ** The kernel's own memory *)

(** The linker's symbol [kernel_end]; below it lie the image with its tables, stacks and
    variables, and under that the video memory. *)
Class KernelEnd := kernel_end : Z.

Section kernel_memory.
Context `{KernelEnd}.

Definition table_frame (v : vmm) (f : Z) : bool :=
  existsb (λ d, bool_decide (table_at v d = Some (f * 4096))) (seqZ 0 1024).

(** Pages through which the kernel reaches its own data: the image, the heap, and the
    page tables at their own addresses. *)
Definition kernel_page (v : vmm) (q : Z) : bool :=
  (q * 4096 <? kernel_end) ||
  ((HEAP_START <=? q * 4096) && (q * 4096 <? HEAP_START + HEAP_SIZE)) || table_frame v q.

(** Frames that hold it. *)
Definition kernel_frame (v : vmm) (f : Z) : bool :=
  (f * 4096 <? kernel_end) ||
  existsb (λ q, bool_decide (walk v q = Some (f * 4096))) (seqZ (HEAP_START / 4096) (HEAP_SIZE / 4096)) ||
  table_frame v f.
End kernel_memory.

Section elf.
Context {D : Type} `{BlockOps D} `{Uninit} {L : KernelEnd}.

(** [vmm_map] and the reload of CR3. *)
Definition elf_map (virt phys flags : Z) : K (kernel D) unit :=
  s ← kget;
  if kernel_page (k_vm s) (virt / 4096) then kundefined else zoom (vmm_map virt phys flags).

(** [d[i] = x]. *)
Definition elf_store (va x : Z) : K (kernel D) unit :=
  s ← kget;
  pa ← klift (translate (k_vm s) va);
  if kernel_frame (k_vm s) (pa / 4096) then kundefined else store_byte va x.

(** [elf_memcpy(dst, buf + off, size)] into program memory. *)
Definition elf_memcpy (dst : Z) (buf : list Z) (off size : Z) : K (kernel D) unit :=
  _ ← kfold 0 (Z.to_nat size) (λ i _,
    b ← klift (aget buf (off + i)); elf_store (u32 (dst + i)) b) tt;
  mret tt.

Definition elf_memset (ptr val size : Z) : K (kernel D) unit :=
  _ ← kfold 0 (Z.to_nat size) (λ i _, elf_store (u32 (ptr + i)) (u8 val)) tt;
  mret tt.

(** The pages of one segment: [inr (-1)] when physical memory runs out. *)
Definition map_segment (bufp : Z) (ph : elf_program_header_t) : K (kernel D) (unit + Z) :=
  let pages := u32 (ph_mem_size ph + 4095) / 4096 in
  kloop 0 (Z.to_nat pages) (λ p _,
    phys ← zoom pmm_alloc;
    if phys =? 0 then
      kprintf "ELF: out of physical memory\n" [];;
      zoom (kfree bufp);;
      mret (inr (-1))
    else
      elf_map (u32 (ph_vaddr ph + p * 4096)) phys
        (Z.lor (Z.lor PAGE_PRESENT PAGE_WRITABLE) PAGE_USER);;
      mret (inl tt)) tt.

(** One iteration of the loop over the program headers. *)
Definition load_segment (bufp : Z) (buf : list Z) (base i : Z) : K (kernel D) (unit + Z) :=
  ph ← klift (program_header buf (base + sizeof_program_header * i));
  if negb (ph_type ph =? PT_LOAD) then mret (inl tt)
  else
    kprintf "ELF: segment %d: vaddr=%x size=%d\n" [AInt i; AInt (ph_vaddr ph); AInt (ph_mem_size ph)];;
    r ← map_segment bufp ph;
    match r with
    | inr e => mret (inr e)
    | inl _ =>
        elf_memcpy (ph_vaddr ph) buf (ph_offset ph) (ph_file_size ph);;
        (if ph_file_size ph <? ph_mem_size ph then
           elf_memset (u32 (ph_vaddr ph + ph_file_size ph)) 0 (ph_mem_size ph - ph_file_size ph)
         else mret tt);;
        mret (inl tt)
    end.

(** A failure of the checks: message, [kfree(buf)], -1. *)
Definition elf_reject (bufp : Z) (msg : string) (args : list karg) : K (kernel D) (Z * Z) :=
  kprintf msg args;;
  zoom (kfree bufp);;
  mret (-1, 0).

(** The result and the entry point (0 when it is not set, as its callers initialise it). *)
Definition elf_load (filename : list Z) : K (kernel D) (Z * Z) :=
  bufp ← zoom (kmalloc 8192);
  if bufp =? 0 then
    kprintf "ELF: out of memory\n" [];;
    mret (-1, 0)
  else
    r ← zoom (fs_read filename (block_at bufp 8192) 8192);
    let '(bytes, buf) := r in
    if bytes <=? 0 then elf_reject bufp "ELF: could not read '%s'\n" [AStr filename]
    else
      m ← klift (eh_magic buf);
      if negb (m =? ELF_MAGIC) then elf_reject bufp "ELF: invalid magic number\n" []
      else
        bits ← klift (eh_bits buf);
        machine ← klift (eh_machine buf);
        if negb (bits =? 1) || negb (machine =? EM_386) then
          elf_reject bufp "ELF: not a 32-bit x86 binary\n" []
        else
          ty ← klift (eh_type buf);
          if negb (ty =? ET_EXEC) then elf_reject bufp "ELF: not an executable\n" []
          else
            entry ← klift (eh_entry buf);
            kprintf "ELF: loading '%s', entry at %x\n" [AStr filename; AInt entry];;
            base ← klift (eh_ph_offset buf);
            count ← klift (eh_ph_count buf);
            r ← kloop 0 (Z.to_nat count) (λ i _, load_segment bufp buf base i) tt;
            match r with
            | inr e => mret (e, 0)
            | inl _ =>
                zoom (kfree bufp);;
                kprintf "ELF: loaded successfully\n" [];;
                mret (0, entry)
            end.
End elf.
