(* ===== verification/ElfThms.v ===== *)
(** * What the program loader does

    One page, one segment, all segments: after [load_segment] the program's memory holds
    the bytes of the file and zeros behind them, in frames that were free. *)

From S2P Require Import Prelude Bytes Disk Pmm Heap Vmm Memory Process ProcessLife Fs FsView FsSpec FsRead FsThms.
From S2P Require Import Gdt Kernel KernelThms Elf.

(** ** Segments *)

Definition seg_first (ph : elf_program_header_t) : Z := ph_vaddr ph / 4096.
Definition seg_count (ph : elf_program_header_t) : Z := (ph_mem_size ph + 4095) / 4096.
Definition in_seg (ph : elf_program_header_t) (q : Z) : Prop :=
  seg_first ph ≤ q < seg_first ph + seg_count ph.

(** What a segment holds once it is loaded: bytes of the file, then zeros. *)
Definition seg_content (c : list Z) (ph : elf_program_header_t) : list Z :=
  slice (Z.to_nat (ph_offset ph)) (Z.to_nat (ph_file_size ph)) c ++
  replicate (Z.to_nat (ph_mem_size ph - ph_file_size ph)) 0.

(** A segment that can be loaded: page aligned, inside the file and the address space,
    over page tables that exist and are open to programs, and clear of the kernel's own
    pages. *)
Record seg_ok `{KernelEnd} (v : vmm) (c : list Z) (ph : elf_program_header_t) : Prop := {
  sg_vaddr : 0 ≤ ph_vaddr ph ∧ ph_vaddr ph mod 4096 = 0;
  sg_end : seg_first ph + seg_count ph ≤ 2 ^ 20;
  sg_sizes : 0 ≤ ph_file_size ph ≤ ph_mem_size ph;
  sg_file : 0 ≤ ph_offset ph ∧ ph_offset ph + ph_file_size ph ≤ Z.of_nat (length c);
  sg_tables q : in_seg ph q → dir_rights v (q / 1024) = Some 6;
  sg_apart q : in_seg ph q → kernel_page v q = false;
}.

Section pages.
Context {D : Type} {O : BlockOps D} {U : Uninit} {L : KernelEnd}.
Implicit Types s : kernel D.
Implicit Types v : vmm.

(** No free frame is in use by the kernel. *)
Definition spare_frames v : Prop := ∀ f, f ∈ free_set (frames v) → 0 < f ∧ kernel_frame v f = false.

Lemma existsb_ext_in {A} (f g : A → bool) l : (∀ x, x ∈ l → f x = g x) → existsb f l = existsb g l.
Proof.
  induction l as [|x l IH]; intros Hfg; [done|]. cbn [existsb].
  rewrite (Hfg x), IH; [done| |apply list_elem_of_here]. intros y Hy. by apply Hfg, list_elem_of_further.
Qed.

Lemma table_frame_ext v v' f : (∀ d, table_at v' d = table_at v d) → table_frame v' f = table_frame v f.
Proof. intros E. apply existsb_ext_in. intros d _. by rewrite E. Qed.

Lemma kernel_page_ext v v' q : (∀ d, table_at v' d = table_at v d) → kernel_page v' q = kernel_page v q.
Proof. intros E. unfold kernel_page. by rewrite (table_frame_ext v v'). Qed.

(** The pages of the heap. *)
Definition heap_page (q : Z) : Prop := HEAP_START / 4096 ≤ q < (HEAP_START + HEAP_SIZE) / 4096.

Lemma kernel_frame_ext v v' f :
  (∀ d, table_at v' d = table_at v d) → (∀ q, heap_page q → walk v' q = walk v q) →
  kernel_frame v' f = kernel_frame v f.
Proof.
  intros E Ew. unfold kernel_frame. rewrite (table_frame_ext v v') by exact E. do 2 f_equal.
  apply existsb_ext_in. intros q Hq%elem_of_seqZ. by rewrite (Ew q) by exact Hq.
Qed.

Lemma kernel_page_heap v q : kernel_page v q = false → ¬ heap_page q.
Proof.
  unfold kernel_page, heap_page. intros [[_ Hh]%orb_false_iff _]%orb_false_iff Hq.
  change (4096 ≤ q < 4352) in Hq. change HEAP_START with 0x1000000 in Hh. change HEAP_SIZE with 0x100000 in Hh.
  destruct (Z.leb_spec 0x1000000 (q * 4096)), (Z.ltb_spec (q * 4096) (0x1000000 + 0x100000)); cbn in Hh; (lia || done).
Qed.

Lemma kernel_page_table v q d t :
  vm_ok v → kernel_page v q = false → table_at v d = Some t → t / 4096 ≠ q.
Proof.
  intros Hok Hq Ht E. destruct (vm_table _ Hok d t Ht) as (_ & Hal & _).
  unfold kernel_page in Hq. apply orb_false_iff in Hq as [_ Hq].
  assert (table_frame v q = true); [|congruence]. apply existsb_exists. exists d. split.
  - apply list_elem_of_In, elem_of_seqZ. unfold table_at in Ht.
    destruct (aget (page_directory v) d) eqn:Ed; [|done]. pose proof (aget_Some_range _ _ _ Ed) as Hr.
    rewrite (vm_dir _ Hok) in Hr. lia.
  - apply bool_decide_eq_true. rewrite Ht. f_equal. dlia.
Qed.

Lemma dir_rights_table v d r : dir_rights v d = Some r → is_Some (table_at v d).
Proof. unfold dir_rights. rewrite table_at_pde. by destruct (pde_at v d); [eexists|]. Qed.

(** The kernel's page allocator is the one inside its virtual memory. *)
Lemma wp_zoom_frames {A} (m : K pmm A) s Q :
  wp (zoom (W := vmm) m) (k_vm s) (λ a v o, Q a (set_vm v s) o) → wp (zoom (W := kernel D) m) s Q.
Proof. unfold wp, zoom. cbn. by destruct (m (frames (k_vm s))). Qed.

(** The pages from [P] on that are mapped so far, with their frames. *)
Record extended (v0 : vmm) (P : Z) (gs : list Z) (v : vmm) : Prop := {
  ex_ok : vm_ok v;
  ex_nodup : NoDup gs;
  ex_frames g : g ∈ gs → g ∈ free_set (frames v0);
  ex_free : free_set (frames v) = free_set (frames v0) ∖ list_to_set gs;
  ex_walk q : 0 ≤ q < 2 ^ 20 → walk v q =
    if (P <=? q) && (q <? P + Z.of_nat (length gs)) then
      (g ← gs !! Z.to_nat (q - P); Some (g * 4096))
    else walk v0 q;
  ex_tables d : table_at v d = table_at v0 d;
  ex_dirs d : dir_rights v d = dir_rights v0 d;
  ex_rights q : 0 ≤ q < 2 ^ 20 → rights v q =
    if (P <=? q) && (q <? P + Z.of_nat (length gs)) then Some 6 else rights v0 q;
}.

Lemma extended_nil v P : vm_ok v → extended v P [] v.
Proof.
  intros Hok. constructor; try done.
  - constructor.
  - intros g Hg. by apply not_elem_of_nil in Hg.
  - cbn [list_to_set]. set_solver.
  - intros q Hq. cbn [length]. destruct (Z.leb_spec P q), (Z.ltb_spec q (P + Z.of_nat 0)); done || lia.
  - intros q Hq. cbn [length]. destruct (Z.leb_spec P q), (Z.ltb_spec q (P + Z.of_nat 0)); done || lia.
Qed.

(** One iteration of the loop that maps a segment. *)
Lemma extended_step v0 P gs s virt flags :
  extended v0 P gs (k_vm s) → spare_frames v0 → 0 ≤ P → P + Z.of_nat (length gs) < 2 ^ 20 →
  virt = (P + Z.of_nat (length gs)) * 4096 → 0 ≤ flags < 4096 → rights_of flags = 6 →
  (length gs < size (free_set (frames v0)))%nat →
  dir_rights v0 ((P + Z.of_nat (length gs)) / 1024) = Some 6 →
  kernel_page v0 (P + Z.of_nat (length gs)) = false →
  wp (zoom pmm_alloc) s (λ phys s1 o1, o1 = [] ∧ phys ≠ 0 ∧ ∃ g, phys = g * 4096 ∧
    wp (elf_map virt phys flags) s1 (λ _ s2 o2, o2 = [] ∧
      ∃ v, s2 = set_vm v s ∧ extended v0 P (gs ++ [g]) v)).
Proof.
  intros [E1 E2 E3 E4 E5 E6 E7 E8] Hlow HP0 HP -> Hflags H6 Hsize Hdir Hkp.
  destruct (dir_rights_table _ _ _ Hdir) as [t Ht]. apply wp_zoom_frames.
  eapply wp_mono; [by apply alloc_frame|].
  intros a v1 o (-> & [(p & Hp & Hpr & -> & Hv1 & Hok1 & _ & Hfs)|(He & _)]).
  2: { exfalso. rewrite E4 in He. assert (free_set (frames v0) ⊆ list_to_set gs) as Hsub%subseteq_size by set_solver.
       rewrite size_list_to_set in Hsub by exact E2. lia. }
  assert (p ∈ free_set (frames v0) ∧ p ∉ gs) as [Hp0 Hpgs].
  { pose proof (proj1 Hp) as Hin. rewrite E4 in Hin. set_solver. }
  pose proof (proj1 (Hlow p Hp0)). split; [done|]. split; [lia|]. exists p. split; [done|].
  set (n := P + Z.of_nat (length gs)) in *. unfold MAX_PAGES in Hpr.
  assert (n * 4096 / 4096 = n) as Epage by dlia.
  assert (n * 4096 / 2 ^ 22 = n / 1024) as Edir.
  { change (2 ^ 22) with (4096 * 1024). rewrite <-Z.div_div, Epage by lia. done. }
  assert (∀ d, table_at v1 d = table_at v0 d) as Ht1 by (intros d; rewrite Hv1; apply E6).
  assert (∀ q, walk v1 q = walk (k_vm s) q) as Hw1 by (by rewrite Hv1).
  assert (kernel_page v1 n = false) as Hkp1 by (by rewrite (kernel_page_ext v0 v1)).
  unfold elf_map. wp_steps. cbn [set_vm k_vm]. rewrite Epage, Hkp1.
  apply wp_zoom. cbn [lens_get lens_set vm_lens set_vm k_vm]. eapply wp_mono.
  { apply (vmm_map_spec v1 (n * 4096) (p * 4096)); [exact Hok1|lia|lia|exact Hflags| |].
    - rewrite Epage. intros d t' Ht'. by apply (kernel_page_table v1 n d t').
    - rewrite Edir, Ht1, Ht. done. }
  rewrite Epage, Edir.
  intros _ v2 o (Hok2 & _ & [(-> & Hw2 & [Hother Hself] & [Hr2 Hd2])|(_ & Habs & _)]).
  2: { rewrite Ht1, Ht in Habs. done. }
  rewrite Ht1, Ht in Hself. destruct Hself as [Hself Hfr]. split; [done|]. exists v2.
  split; [reflexivity|]. constructor.
  - exact Hok2.
  - apply NoDup_app. split; [exact E2|]. split; [|apply NoDup_singleton].
    intros g Hg ->%list_elem_of_singleton. done.
  - intros g [Hg| ->%list_elem_of_singleton]%elem_of_app; [by apply E3|done].
  - rewrite Hfr, Hfs, E4, list_to_set_app_L. cbn [list_to_set]. set_solver.
  - intros q Hq. rewrite Hw2 by exact Hq. rewrite length_app. cbn [length].
    destruct (Z.eqb_spec q n) as [->|Hne].
    + destruct (Z.leb_spec P n), (Z.ltb_spec n (P + Z.of_nat (length gs + 1))); try lia. cbn [andb].
      replace (Z.to_nat (n - P)) with (length gs) by lia.
      rewrite lookup_app_r, Nat.sub_diag by lia. cbn [lookup list_lookup mbind option_bind].
      rewrite frame_of_eq by lia. f_equal. dlia.
    + rewrite Hw1, E5 by exact Hq.
      destruct (Z.leb_spec P q), (Z.ltb_spec q n),
        (Z.ltb_spec q (P + Z.of_nat (length gs + 1))); try (unfold n in *; lia); cbn [andb]; try done.
      rewrite lookup_app_l by (unfold n in *; lia). done.
  - intros d. destruct (decide (d = n / 1024)) as [->|Hd]; [by rewrite Hself, Ht|].
    by rewrite Hother, Ht1.
  - intros d. rewrite Hd2, <-E7, Hv1. destruct (Z.eqb_spec d (n / 1024)) as [->|]; [|done].
    change (dir_rights (set_frames (frames v1) (k_vm s))) with (dir_rights (k_vm s)). by rewrite E7, Hdir.
  - intros q Hq. rewrite Hr2, Hv1, H6 by exact Hq. rewrite length_app. cbn [length].
    change (dir_rights (set_frames (frames v1) (k_vm s))) with (dir_rights (k_vm s)).
    change (rights (set_frames (frames v1) (k_vm s)) q) with (rights (k_vm s) q).
    rewrite E7, Hdir, E8 by exact Hq. cbn [default]. change (Z.land 6 6) with 6.
    destruct (Z.eqb_spec q n), (Z.leb_spec P q), (Z.ltb_spec q n),
      (Z.ltb_spec q (P + Z.of_nat (length gs + 1))); try (unfold n in *; lia); done.
Qed.

Lemma map_segment_spec s c ph bufp :
  vm_ok (k_vm s) → seg_ok (k_vm s) c ph → spare_frames (k_vm s) → ph_mem_size ph + 4095 < 2 ^ 32 →
  seg_count ph ≤ Z.of_nat (size (free_set (frames (k_vm s)))) →
  wp (map_segment bufp ph) s (λ r s' o, r = inl tt ∧ o = [] ∧
    ∃ gs v, s' = set_vm v s ∧ extended (k_vm s) (seg_first ph) gs v ∧ Z.of_nat (length gs) = seg_count ph).
Proof.
  intros Hok [[Hva Hal] Hend Hsizes _ Htab Hapart] Hlow Hmax Hfree. unfold map_segment.
  rewrite u32_small by lia. fold (seg_count ph).
  assert (0 ≤ seg_count ph) as Hc0 by (unfold seg_count; dlia).
  assert (0 ≤ seg_first ph) as Hf0 by (unfold seg_first; dlia).
  assert (ph_vaddr ph = seg_first ph * 4096) as Hvf by (unfold seg_first; dlia).
  apply wp_kloop with (I := λ i _ s' o, o = [] ∧ ∃ gs v, s' = set_vm v s ∧
    extended (k_vm s) (seg_first ph) gs v ∧ Z.of_nat (length gs) = i).
  - split; [done|]. exists [], (k_vm s). split; [by destruct s|]. split; [by apply extended_nil|done].
  - intros i [] s' o Hi (-> & gs & v & -> & Hex & Hlen). wp_steps.
    assert (in_seg ph (seg_first ph + Z.of_nat (length gs))) as Hin by (unfold in_seg; lia).
    eapply wp_mono.
    { apply (extended_step (k_vm s) (seg_first ph) gs (set_vm v s) (u32 (ph_vaddr ph + i * 4096))
        (Z.lor (Z.lor PAGE_PRESENT PAGE_WRITABLE) PAGE_USER)); try done; try lia.
      - rewrite u32_small; lia.
      - by apply Htab.
      - by apply Hapart. }
    intros phys s1 o1 (-> & Hphys & g & -> & Hmap). rewrite (proj2 (Z.eqb_neq _ 0)) by exact Hphys.
    wp_steps. eapply wp_mono; [exact Hmap|]. intros _ s2 o2 (-> & v2 & -> & Hex2). wp_steps.
    split; [done|]. exists (gs ++ [g]), v2. split; [done|]. split; [exact Hex2|].
    rewrite length_app. cbn [length]. lia.
  - intros [] s' o (-> & gs & v & -> & Hex & Hlen). split; [done|]. split; [done|].
    exists gs, v. split; [done|]. split; [exact Hex|]. lia.
Qed.

(** ** The bytes of a segment *)

Definition seg_address (gs : list Z) (j : Z) : Z := default 0 (gs !! Z.to_nat (j / 4096)) * 4096 + j mod 4096.
Definition seg_pas (gs : list Z) (n : Z) : list Z := map (seg_address gs) (seqZ 0 n).

Lemma seg_pas_lookup gs n i pa : seg_pas gs n !! i = Some pa → pa = seg_address gs (Z.of_nat i) ∧ Z.of_nat i < n.
Proof.
  unfold seg_pas. rewrite list_lookup_fmap. intros (j & Hj & ->)%fmap_Some.
  apply lookup_seqZ in Hj as [-> Hi]. by rewrite Z.add_0_l.
Qed.

Lemma length_seg_pas gs n : length (seg_pas gs n) = Z.to_nat n.
Proof. unfold seg_pas. by rewrite length_map, length_seqZ. Qed.

Lemma seg_frame gs n j :
  n ≤ Z.of_nat (length gs) * 4096 → 0 ≤ j < n →
  ∃ g, gs !! Z.to_nat (j / 4096) = Some g ∧ seg_address gs j = g * 4096 + j mod 4096.
Proof.
  intros Hn Hj. destruct (lookup_lt_is_Some_2 gs (Z.to_nat (j / 4096))) as [g Hg]; [dlia|].
  exists g. split; [exact Hg|]. unfold seg_address. by rewrite Hg.
Qed.

Lemma seg_pas_nodup gs n : NoDup gs → n ≤ Z.of_nat (length gs) * 4096 → NoDup (seg_pas gs n).
Proof.
  intros Hnd Hn. apply NoDup_alt. intros i j x Hi Hj.
  apply seg_pas_lookup in Hi as [Hi Hin], Hj as [Hj Hjn].
  destruct (seg_frame gs n (Z.of_nat i)) as (g & Hg & Ei); [lia|lia|].
  destruct (seg_frame gs n (Z.of_nat j)) as (g' & Hg' & Ej); [lia|lia|].
  rewrite Ei in Hi. rewrite Ej in Hj. assert (g = g' ∧ Z.of_nat i mod 4096 = Z.of_nat j mod 4096) as [-> Hmod] by dlia.
  pose proof (NoDup_lookup _ _ _ _ Hnd Hg Hg'). dlia.
Qed.

Lemma seg_pas_frames gs n pa : n ≤ Z.of_nat (length gs) * 4096 → pa ∈ seg_pas gs n → pa / 4096 ∈ gs.
Proof.
  intros Hn [i Hi]%list_elem_of_lookup_1. apply seg_pas_lookup in Hi as [-> Hin].
  destruct (seg_frame gs n (Z.of_nat i)) as (g & Hg & ->); [lia|lia|].
  replace ((g * 4096 + Z.of_nat i mod 4096) / 4096) with g by dlia. by eapply list_elem_of_lookup_2.
Qed.

Lemma seg_window v0 v P gs n :
  extended v0 P gs v → 0 ≤ P → P + Z.of_nat (length gs) ≤ 2 ^ 20 → n ≤ Z.of_nat (length gs) * 4096 →
  0 < n → window v (P * 4096) (seg_pas gs n).
Proof.
  intros Hex HP Hend Hn Hpos. apply window_intro; [lia|]. intros i pa Hi.
  apply seg_pas_lookup in Hi as [-> Hin].
  destruct (seg_frame gs n (Z.of_nat i)) as (g & Hg & ->); [lia|lia|].
  rewrite u32_small by lia. rewrite translate_walk by (apply (ex_ok _ _ _ _ Hex) || lia).
  assert ((P * 4096 + Z.of_nat i) / 4096 = P + Z.of_nat i / 4096) as -> by dlia.
  rewrite (ex_walk _ _ _ _ Hex) by dlia.
  destruct (Z.leb_spec P (P + Z.of_nat i / 4096)); [|dlia].
  destruct (Z.ltb_spec (P + Z.of_nat i / 4096) (P + Z.of_nat (length gs))); [|dlia]. cbn [andb].
  replace (P + Z.of_nat i / 4096 - P) with (Z.of_nat i / 4096) by lia. rewrite Hg. cbn [mbind option_bind].
  f_equal. dlia.
Qed.

(** Stores to frames that the kernel does not use. *)
Definition clear_of_kernel v (pas : list Z) : Prop := ∀ pa, pa ∈ pas → kernel_frame v (pa / 4096) = false.

Lemma wp_elf_store s va pa x (Q : unit → kernel D → list event → Prop) :
  translate (k_vm s) va = Some pa → kernel_frame (k_vm s) (pa / 4096) = false →
  Q tt (set_ram (write_byte pa x (k_ram s)) s) [] → wp (elf_store va x) s Q.
Proof.
  intros Ht Hk HQ. unfold elf_store. wp_steps. eapply wp_lift; [exact Ht|]. rewrite Hk.
  by eapply wp_store_byte.
Qed.

Lemma elf_memcpy_spec s dst pas buf off size :
  0 ≤ dst < 2 ^ 32 → window (k_vm s) dst pas → NoDup pas → length pas = Z.to_nat size →
  clear_of_kernel (k_vm s) pas → 0 ≤ off → off + size ≤ Z.of_nat (length buf) →
  wp (elf_memcpy dst buf off size) s (λ _ s' o, o = [] ∧
    ∃ m, s' = set_ram m s ∧ stored pas (slice (Z.to_nat off) (Z.to_nat size) buf) (k_ram s) m).
Proof.
  intros Hdst Hw Hnd Hlen Hclear Hoff Hbuf. unfold elf_memcpy. wp_steps.
  assert (length (slice (Z.to_nat off) (Z.to_nat size) buf) = Z.to_nat size) as Hl
    by (unfold slice; rewrite length_take, length_drop; lia).
  rewrite <-Hl at 1. eapply wp_mono.
  { apply (store_loop s dst pas (slice (Z.to_nat off) (Z.to_nat size) buf)); [exact Hdst|exact Hw|exact Hnd|lia|].
    intros j x pa s' Q Hx Hin Hpa Hv HQ. unfold slice in Hx.
    apply lookup_take_Some in Hx as [Hx Hj]. rewrite lookup_drop in Hx. wp_steps.
    eapply (wp_lift _ x).
    { rewrite aget_eq by lia. by replace (Z.to_nat (off + Z.of_nat j)) with (Z.to_nat off + j)%nat by lia. }
    eapply wp_elf_store; rewrite ?Hv; [exact Hpa|eapply Hclear, list_elem_of_lookup_2; exact Hin|exact HQ]. }
  intros [] s' o (-> & m & -> & Hst). wp_steps. split; [done|]. by exists m.
Qed.

Lemma elf_memset_spec s ptr pas size :
  0 ≤ ptr < 2 ^ 32 → window (k_vm s) ptr pas → NoDup pas → length pas = Z.to_nat size →
  clear_of_kernel (k_vm s) pas → wp (elf_memset ptr 0 size) s (λ _ s' o, o = [] ∧
    ∃ m, s' = set_ram m s ∧ stored pas (replicate (Z.to_nat size) 0) (k_ram s) m).
Proof.
  intros Hdst Hw Hnd Hlen Hclear. unfold elf_memset. wp_steps.
  rewrite <-(length_replicate (Z.to_nat size) 0) at 1. eapply wp_mono.
  { apply (store_loop s ptr pas (replicate (Z.to_nat size) 0)); [exact Hdst|exact Hw|exact Hnd
      |by rewrite length_replicate|].
    intros j x pa s' Q Hx Hin Hpa Hv HQ. apply lookup_replicate in Hx as [-> _].
    change (u8 0) with 0.
    eapply wp_elf_store; rewrite ?Hv; [exact Hpa|eapply Hclear, list_elem_of_lookup_2; exact Hin|exact HQ]. }
  intros [] s' o (-> & m & -> & Hst). wp_steps. split; [done|]. by exists m.
Qed.

(** [elf_memcpy] and [elf_memset] of one segment. *)
Lemma fill_segment s pas buf ph :
  0 ≤ ph_vaddr ph < 2 ^ 32 → window (k_vm s) (ph_vaddr ph) pas → NoDup pas →
  length pas = Z.to_nat (ph_mem_size ph) → clear_of_kernel (k_vm s) pas →
  0 ≤ ph_file_size ph ≤ ph_mem_size ph → 0 ≤ ph_offset ph → ph_offset ph + ph_file_size ph ≤ Z.of_nat (length buf) →
  wp (elf_memcpy (ph_vaddr ph) buf (ph_offset ph) (ph_file_size ph);;
      (if ph_file_size ph <? ph_mem_size ph then
         elf_memset (u32 (ph_vaddr ph + ph_file_size ph)) 0 (ph_mem_size ph - ph_file_size ph)
       else mret tt);;
      mret (inl tt)) s (λ r s' o, r = inl (B := Z) tt ∧ o = [] ∧
    ∃ m, s' = set_ram m s ∧ stored pas (seg_content buf ph) (k_ram s) m).
Proof.
  intros Hva Hw Hnd Hlen Hclear Hsz Hoff Hbuf. unfold seg_content.
  assert (∀ k, clear_of_kernel (k_vm s) (take k pas) ∧ clear_of_kernel (k_vm s) (drop k pas)) as Hc.
  { intros k. split; intros pa Hpa; apply Hclear; rewrite <-(take_drop k pas); apply elem_of_app; [by left|by right]. }
  set (n := Z.to_nat (ph_file_size ph)). rewrite <-(take_drop n pas) in Hw, Hnd |- *.
  apply window_app in Hw as [Hw1 Hw2]; [|exact Hva].
  assert (length (take n pas) = n) as Ht by (rewrite length_take; lia). rewrite Ht in Hw2.
  pose proof Hnd as (Hnd1 & _ & Hnd2)%NoDup_app. wp_steps. eapply wp_mono.
  { apply (elf_memcpy_spec s (ph_vaddr ph) (take n pas)); [exact Hva|exact Hw1|exact Hnd1|exact Ht|apply Hc|exact Hoff|exact Hbuf]. }
  fold n. intros _ s1 o1 (-> & m1 & -> & Hst1). wp_steps.
  destruct (Z.ltb_spec (ph_file_size ph) (ph_mem_size ph)) as [Hlt|Hge].
  - eapply wp_mono.
    { apply (elf_memset_spec _ _ (drop n pas)); [apply u32_range| |exact Hnd2|rewrite length_drop; lia|apply Hc].
      replace (ph_vaddr ph + ph_file_size ph) with (ph_vaddr ph + Z.of_nat n) by lia. exact Hw2. }
    intros _ s2 o2 (-> & m2 & -> & Hst2). wp_steps. split; [done|]. split; [done|]. exists m2.
    split; [done|]. by eapply stored_app.
  - wp_steps. split; [done|]. split; [done|]. exists m1. split; [done|].
    replace (ph_mem_size ph - ph_file_size ph) with 0 by lia. change (replicate (Z.to_nat 0) 0) with (@nil Z).
    assert (drop n pas = []) as -> by (apply drop_ge; lia). by rewrite !app_nil_r.
Qed.

(** The frames of a segment are nobody else's. *)
Lemma extended_kernel_frame v0 P gs v f :
  extended v0 P gs v → (∀ q, P ≤ q < P + Z.of_nat (length gs) → kernel_page v0 q = false) →
  kernel_frame v f = kernel_frame v0 f.
Proof.
  intros Hex Hkp. apply kernel_frame_ext; [apply Hex|]. intros q Hq.
  assert (0 ≤ q < 2 ^ 20) as Hr by (unfold heap_page in Hq; change (4096 ≤ q < 4352) in Hq; lia).
  rewrite (ex_walk _ _ _ _ Hex) by exact Hr.
  destruct (Z.leb_spec P q), (Z.ltb_spec q (P + Z.of_nat (length gs))); try done.
  destruct (kernel_page_heap v0 q); [apply Hkp; lia|exact Hq].
Qed.

Lemma seg_clear v0 v P gs n :
  spare_frames v0 → extended v0 P gs v →
  (∀ q, P ≤ q < P + Z.of_nat (length gs) → kernel_page v0 q = false) →
  n ≤ Z.of_nat (length gs) * 4096 → clear_of_kernel v (seg_pas gs n).
Proof.
  intros Hlow Hex Hkp Hn pa Hpa%seg_pas_frames; [|exact Hn].
  rewrite (extended_kernel_frame v0 P gs v) by done. by apply Hlow, (ex_frames _ _ _ _ Hex).
Qed.

Definition segment_event (i : Z) (ph : elf_program_header_t) : event :=
  EvPrintf "ELF: segment %d: vaddr=%x size=%d\n" [AInt i; AInt (ph_vaddr ph); AInt (ph_mem_size ph)].

Lemma load_segment_spec s buf bufp base i ph :
  program_header buf (base + sizeof_program_header * i) = Some ph → ph_type ph = PT_LOAD →
  vm_ok (k_vm s) → seg_ok (k_vm s) buf ph → spare_frames (k_vm s) →
  0 < ph_mem_size ph ∧ ph_mem_size ph + 4095 < 2 ^ 32 →
  seg_count ph ≤ Z.of_nat (size (free_set (frames (k_vm s)))) →
  wp (load_segment bufp buf base i) s (λ r s' o, r = inl tt ∧ o = [segment_event i ph] ∧
    ∃ gs v m, s' = set_ram m (set_vm v s) ∧ extended (k_vm s) (seg_first ph) gs v ∧
      Z.of_nat (length gs) = seg_count ph ∧
      stored (seg_pas gs (ph_mem_size ph)) (seg_content buf ph) (k_ram s) m).
Proof.
  intros Hph Hty Hok Hseg Hlow [Hpos Hmax] Hfree. unfold load_segment. wp_steps.
  eapply wp_lift; [exact Hph|]. rewrite Hty, Z.eqb_refl. cbn [negb]. wp_steps.
  eapply wp_mono; [by apply (map_segment_spec s buf ph)|].
  intros r s1 o1 (-> & -> & gs & v & -> & Hex & Hlen).
  pose proof Hseg as [[Hva Hal] Hend Hsizes [Hoff Hbuf] _ Hapart].
  assert (0 ≤ seg_first ph ∧ ph_vaddr ph = seg_first ph * 4096 ∧ ph_mem_size ph ≤ seg_count ph * 4096)
    as (Hf0 & Hvf & Hsc) by (unfold seg_first, seg_count; dlia).
  eapply wp_mono.
  { apply (fill_segment (set_vm v s) (seg_pas gs (ph_mem_size ph))); cbn [set_vm k_vm]; try done.
    - lia.
    - rewrite Hvf. eapply seg_window; [exact Hex|lia|lia|lia|lia].
    - apply seg_pas_nodup; [apply Hex|lia].
    - apply length_seg_pas.
    - apply (seg_clear (k_vm s) v (seg_first ph) gs); [exact Hlow|exact Hex| |lia].
      intros q Hq. apply Hapart. unfold in_seg. lia. }
  intros r s2 o2 (-> & -> & m & -> & Hst). split; [done|]. split; [done|]. by exists gs, v, m.
Qed.

Lemma kbind_reaches {S A R} (m : K S A) (f : A → K S R) (s : S) a (s' : S) o :
  m s = Done a s' o → f a s' = Undefined → (m ≫= f) s = Undefined.
Proof. unfold mbind, K_bind. by intros -> ->. Qed.

(** Nothing compares the addresses in the file with the kernel's: a segment that begins on
    a page of the kernel takes that page away from it. *)
Lemma load_segment_over_kernel s buf bufp base i ph :
  program_header buf (base + sizeof_program_header * i) = Some ph → ph_type ph = PT_LOAD →
  vm_ok (k_vm s) → spare_frames (k_vm s) → free_set (frames (k_vm s)) ≠ ∅ →
  0 < ph_mem_size ph ∧ ph_mem_size ph + 4095 < 2 ^ 32 → 0 ≤ ph_vaddr ph < 2 ^ 32 →
  kernel_page (k_vm s) (ph_vaddr ph / 4096) = true →
  load_segment bufp buf base i s = Undefined.
Proof.
  intros Hph Hty Hok Hlow Hne [Hpos Hmax] Hva Hk. unfold load_segment.
  etrans; [apply (kbind_done _ _ _ ph s); by rewrite Hph|]. cbv beta. rewrite Hty, Z.eqb_refl. cbn [negb].
  eapply kbind_reaches; [reflexivity|]. apply kbind_undefined. unfold map_segment. rewrite u32_small by lia.
  destruct (Z.to_nat ((ph_mem_size ph + 4095) / 4096)) as [|n] eqn:En; [dlia|]. cbn [kloop].
  apply kbind_undefined.
  assert (wp (zoom pmm_alloc) s (λ a s1 _, a ≠ 0 ∧ ∃ x, s1 = set_vm (set_frames x (k_vm s)) s)) as Ha.
  { apply wp_zoom_frames. eapply wp_mono; [by apply alloc_frame|].
    intros a v o (_ & [(g & Hg & _ & -> & -> & _)|(He & _)]); [|done].
    destruct (Hlow g (proj1 Hg)). split; [lia|]. by eexists. }
  destruct (wp_done _ _ _ Ha) as (a & s1 & o1 & E & Ha0 & x & ->).
  eapply kbind_reaches; [exact E|]. cbv beta. rewrite (proj2 (Z.eqb_neq _ _) Ha0). apply kbind_undefined.
  unfold elf_map. etrans; [by apply kbind_done|]. cbv beta. rewrite Z.mul_0_l, Z.add_0_r, u32_small by lia.
  cbn [set_vm k_vm]. rewrite (kernel_page_ext (k_vm s)), Hk by done. reflexivity.
Qed.
End pages.
