(* ===== verification/ElfProps.v ===== *)
(** * Theorems about the program loader, with their witnesses

    All the segments of a file, and [elf_load] on files it accepts and files it rejects. *)

From S2P Require Import Prelude Bytes Disk Pmm Heap Vmm Memory Process ProcessLife Fs FsView FsSpec FsRead FsThms FsWitness.
From S2P Require Import Gdt Kernel KernelThms Elf ElfThms.

Section segments.
Context {D : Type} {O : BlockOps D} {U : Uninit} {L : KernelEnd}.
Implicit Types s : kernel D.
Implicit Types v : vmm.

(** A segment in memory, in frames that nobody else gets. *)
Record loaded s (c : list Z) (ph : elf_program_header_t) : Prop := {
  ld_bytes : readable s (ph_vaddr ph) (Z.to_nat (ph_mem_size ph)) = seg_content c ph;
  ld_frames q : in_seg ph q →
    ∃ g, walk (k_vm s) q = Some (g * 4096) ∧ g ∉ free_set (frames (k_vm s));
  ld_rights q : in_seg ph q → rights (k_vm s) q = Some 6;
}.

Lemma seg_bounds v c ph : seg_ok v c ph →
  0 ≤ seg_first ph ∧ ph_vaddr ph = seg_first ph * 4096 ∧ 0 ≤ seg_count ph ∧
  0 ≤ ph_mem_size ph ≤ seg_count ph * 4096.
Proof. intros [[H1 H2] _ H3 _ _ _]. unfold seg_first, seg_count. dlia. Qed.

Lemma segment_loaded s c ph gs v m :
  seg_ok (k_vm s) c ph → 0 < ph_mem_size ph → extended (k_vm s) (seg_first ph) gs v →
  Z.of_nat (length gs) = seg_count ph → stored (seg_pas gs (ph_mem_size ph)) (seg_content c ph) (k_ram s) m →
  loaded (set_ram m (set_vm v s)) c ph.
Proof.
  intros Hseg Hpos Hex Hlen [Hst _]. destruct (seg_bounds _ _ _ Hseg) as (Hf & Hva & _ & Hms).
  pose proof (sg_end _ _ _ Hseg) as Hend. constructor.
  - rewrite <-Hst, <-(length_seg_pas gs (ph_mem_size ph)). rewrite readable_window; [done|].
    cbn [set_ram set_vm k_vm]. rewrite Hva. eapply seg_window; [exact Hex|lia|lia|lia|lia].
  - intros q Hq. unfold in_seg in Hq. cbn [set_ram set_vm k_vm].
    destruct (lookup_lt_is_Some_2 gs (Z.to_nat (q - seg_first ph))) as [g Hg]; [lia|]. exists g. split.
    + rewrite (ex_walk _ _ _ _ Hex) by lia.
      rewrite (proj2 (Z.leb_le _ _)), (proj2 (Z.ltb_lt _ _)) by lia. cbn [andb]. by rewrite Hg.
    + rewrite (ex_free _ _ _ _ Hex). apply list_elem_of_lookup_2 in Hg. set_solver.
  - intros q Hq. unfold in_seg in Hq. cbn [set_ram set_vm k_vm]. rewrite (ex_rights _ _ _ _ Hex) by lia.
    by rewrite (proj2 (Z.leb_le _ _)), (proj2 (Z.ltb_lt _ _)) by lia.
Qed.

Lemma readable_ext s s' n : ∀ va, 0 ≤ va < 2 ^ 32 →
  (∀ i, 0 ≤ i < Z.of_nat n → translate (k_vm s') (u32 (va + i)) = translate (k_vm s) (u32 (va + i)) ∧
     ∀ pa, translate (k_vm s) (u32 (va + i)) = Some pa → k_ram s' pa = k_ram s pa) →
  readable s' va n = readable s va n.
Proof.
  induction n as [|n IH]; intros va Hva H; [done|]. cbn [readable].
  destruct (H 0 ltac:(lia)) as [Ht Hr]. rewrite Z.add_0_r, u32_small in Ht, Hr by lia. rewrite Ht.
  destruct (translate (k_vm s) va) as [pa|]; [|done]. rewrite (Hr pa eq_refl). f_equal.
  apply IH; [apply u32_range|]. intros i Hi. specialize (H (i + 1) ltac:(lia)).
  assert (u32 (u32 (va + 1) + i) = u32 (va + (i + 1))) as ->; [|exact H].
  unfold u32. rewrite Zplus_mod_idemp_l. f_equal. lia.
Qed.

(** Loading another segment keeps it. *)
Lemma loaded_kept s c ph P gs v n l m :
  vm_ok (k_vm s) → seg_ok (k_vm s) c ph → loaded s c ph → extended (k_vm s) P gs v →
  n ≤ Z.of_nat (length gs) * 4096 → stored (seg_pas gs n) l (k_ram s) m →
  (∀ q, in_seg ph q → ¬ (P ≤ q < P + Z.of_nat (length gs))) → loaded (set_ram m (set_vm v s)) c ph.
Proof.
  intros Hok Hseg [Hb Hfr Hrt] Hex Hn [_ Hst] Hapart.
  destruct (seg_bounds _ _ _ Hseg) as (Hf & Hva & Hc0 & Hms). pose proof (sg_end _ _ _ Hseg) as Hend.
  assert (∀ q, in_seg ph q → walk v q = walk (k_vm s) q) as Hwalk.
  { intros q Hq. rewrite (ex_walk _ _ _ _ Hex) by (unfold in_seg in Hq; lia). specialize (Hapart q Hq).
    destruct (Z.leb_spec P q), (Z.ltb_spec q (P + Z.of_nat (length gs))); try done; lia. }
  constructor.
  - rewrite <-Hb. destruct (decide (ph_mem_size ph = 0)) as [E|Hne]; [by rewrite E|].
    assert (ph_vaddr ph < 2 ^ 32) as Hva2 by lia.
    apply readable_ext; [lia|]. intros i Hi. rewrite u32_small by lia.
    assert (in_seg ph ((ph_vaddr ph + i) / 4096)) as Hin by (unfold in_seg; dlia).
    cbn [set_ram set_vm k_vm k_ram]. rewrite !translate_walk by (apply Hex || apply Hok || lia).
    rewrite Hwalk by exact Hin. split; [done|]. destruct (Hfr _ Hin) as (g & -> & Hg).
    cbn [mbind option_bind]. intros pa [= <-]. apply Hst. intros Hpa.
    apply seg_pas_frames in Hpa; [|exact Hn]. apply Hg. apply (ex_frames _ _ _ _ Hex).
    by replace ((g * 4096 + (ph_vaddr ph + i) mod 4096) / 4096) with g in Hpa by dlia.
  - intros q Hq. cbn [set_ram set_vm k_vm]. rewrite Hwalk by exact Hq.
    destruct (Hfr q Hq) as (g & Hw & Hg). exists g. split; [exact Hw|].
    rewrite (ex_free _ _ _ _ Hex). set_solver.
  - intros q Hq. cbn [set_ram set_vm k_vm].
    rewrite (ex_rights _ _ _ _ Hex) by (unfold in_seg in Hq; lia). specialize (Hapart q Hq).
    destruct (Z.leb_spec P q), (Z.ltb_spec q (P + Z.of_nat (length gs))); try lia; by apply Hrt.
Qed.

(** ** All program headers *)

Definition is_load (ph : elf_program_header_t) : Prop := ph_type ph = PT_LOAD.
Fixpoint frames_needed (phs : list elf_program_header_t) : Z :=
  match phs with
  | [] => 0
  | ph :: phs => (if ph_type ph =? PT_LOAD then seg_count ph else 0) + frames_needed phs
  end.
Definition segment_events (phs : list elf_program_header_t) : list event :=
  concat (imap (λ i ph, if ph_type ph =? PT_LOAD then [segment_event (Z.of_nat i) ph] else []) phs).

(** The headers of a file whose segments fit a given mapping. *)
Record segments_ok v (c : list Z) (phs : list elf_program_header_t) : Prop := {
  sm_each ph : ph ∈ phs → is_load ph →
    seg_ok v c ph ∧ 0 < ph_mem_size ph ∧ ph_mem_size ph + 4095 < 2 ^ 32;
  sm_apart i j ph ph' q : phs !! i = Some ph → phs !! j = Some ph' → i ≠ j →
    is_load ph → is_load ph' → in_seg ph q → ¬ in_seg ph' q;
}.

Lemma seg_ok_tables v v' c ph :
  (∀ d, table_at v' d = table_at v d) → (∀ d, dir_rights v' d = dir_rights v d) → seg_ok v c ph → seg_ok v' c ph.
Proof.
  intros E Er [H1 H2 H3 H4 H5 H6]. constructor; try done.
  - intros q Hq. rewrite Er. by apply H5.
  - intros q Hq. rewrite (kernel_page_ext v v') by exact E. by apply H6.
Qed.

Lemma segment_events_snoc phs i ph : phs !! i = Some ph →
  segment_events (take (S i) phs) = segment_events (take i phs) ++
    (if ph_type ph =? PT_LOAD then [segment_event (Z.of_nat i) ph] else []).
Proof.
  intros Hi. unfold segment_events. rewrite (take_S_r _ _ _ Hi), imap_app, concat_app. f_equal.
  rewrite length_take_le by (apply lookup_lt_Some in Hi; lia). cbn. by rewrite Nat.add_0_r, app_nil_r.
Qed.

(** After the first [i] headers. *)
Record progress s0 (c : list Z) (phs : list elf_program_header_t) (i : Z) s : Prop := {
  pg_rest : ∃ v m, s = set_ram m (set_vm v s0);
  pg_ok : vm_ok (k_vm s);
  pg_tables d : table_at (k_vm s) d = table_at (k_vm s0) d;
  pg_dirs d : dir_rights (k_vm s) d = dir_rights (k_vm s0) d;
  pg_kernel f : kernel_frame (k_vm s) f = kernel_frame (k_vm s0) f;
  pg_free : free_set (frames (k_vm s)) ⊆ free_set (frames (k_vm s0));
  pg_enough : frames_needed (drop (Z.to_nat i) phs) ≤ Z.of_nat (size (free_set (frames (k_vm s))));
  pg_loaded ph : ph ∈ take (Z.to_nat i) phs → is_load ph → loaded s c ph;
  pg_walk q : 0 ≤ q < 2 ^ 20 → (∀ ph, ph ∈ phs → is_load ph → ¬ in_seg ph q) →
    walk (k_vm s) q = walk (k_vm s0) q ∧ rights (k_vm s) q = rights (k_vm s0) q;
}.

Lemma frames_needed_nonneg phs c v : (∀ ph, ph ∈ phs → is_load ph → seg_ok v c ph) → 0 ≤ frames_needed phs.
Proof.
  induction phs as [|ph phs IH]; intros H; cbn [frames_needed]; [lia|].
  assert (0 ≤ frames_needed phs) by (apply IH; intros ph' Hin; apply H; by apply list_elem_of_further).
  destruct (Z.eqb_spec (ph_type ph) PT_LOAD) as [E|]; [|lia].
  destruct (seg_bounds v c ph) as (_ & _ & ? & _); [apply H; [apply list_elem_of_here|exact E]|lia].
Qed.

(** A header that is not loaded. *)
Lemma progress_skip s0 c phs i ph s :
  phs !! Z.to_nat i = Some ph → 0 ≤ i → ph_type ph ≠ PT_LOAD → progress s0 c phs i s → progress s0 c phs (i + 1) s.
Proof.
  intros Hi Hi0 Hty [Hs Hok Htab Hdirs Hkern Hfree Henough Hld Hwalk].
  rewrite (drop_S _ _ _ Hi) in Henough. cbn [frames_needed] in Henough.
  rewrite (proj2 (Z.eqb_neq _ _) Hty) in Henough.
  constructor; try done; replace (Z.to_nat (i + 1)) with (S (Z.to_nat i)) by lia; [lia|].
  intros ph' Hin' Hl'. rewrite (take_S_r _ _ _ Hi) in Hin'.
  apply elem_of_app in Hin' as [Hin'|Hin'%list_elem_of_singleton]; [by apply Hld|]. by subst ph'.
Qed.

Lemma progress_step s0 c phs bufp base i ph s :
  segments_ok (k_vm s0) c phs → spare_frames (k_vm s0) → phs !! Z.to_nat i = Some ph → 0 ≤ i →
  program_header c (base + sizeof_program_header * i) = Some ph → progress s0 c phs i s →
  wp (load_segment bufp c base i) s (λ r s' o, r = inl tt ∧
    o = (if ph_type ph =? PT_LOAD then [segment_event i ph] else []) ∧ progress s0 c phs (i + 1) s').
Proof.
  intros [Hall Hap] Hlow Hi Hi0 Hph Hpg. pose proof Hpg as [(v0 & m0 & Hs) Hok Htab Hdirs Hkern Hfree Henough Hld Hwalk].
  pose proof (list_elem_of_lookup_2 _ _ _ Hi) as Hin. replace (Z.to_nat (i + 1)) with (S (Z.to_nat i)) by lia.
  rewrite (drop_S _ _ _ Hi) in Henough. cbn [frames_needed] in Henough.
  assert (0 ≤ frames_needed (drop (S (Z.to_nat i)) phs)) as Hnn.
  { apply (frames_needed_nonneg _ c (k_vm s0)). intros ph' Hin'. apply Hall.
    rewrite <-(take_drop (S (Z.to_nat i)) phs). apply elem_of_app. by right. }
  destruct (Z.eqb_spec (ph_type ph) PT_LOAD) as [Hty|Hty].
  - destruct (Hall ph Hin Hty) as (Hseg & Hpos & Hmax). apply (seg_ok_tables _ (k_vm s)) in Hseg; [|exact Htab|exact Hdirs].
    eapply wp_mono.
    { apply (load_segment_spec s c bufp base i ph Hph Hty Hok Hseg); [|done|lia].
      intros f Hf. rewrite Hkern. apply Hlow, Hfree, Hf. }
    intros r s' o (-> & -> & gs & v & m & -> & Hex & Hlen & Hst). split; [done|]. split; [done|].
    destruct (seg_bounds _ _ _ Hseg) as (Hf0 & Hva & Hc0 & Hms). constructor; cbn [set_ram set_vm k_vm].
    + exists v, m. by rewrite Hs.
    + apply Hex.
    + intros d. rewrite (ex_tables _ _ _ _ Hex). apply Htab.
    + intros d. rewrite (ex_dirs _ _ _ _ Hex). apply Hdirs.
    + intros f. rewrite (extended_kernel_frame (k_vm s) (seg_first ph) gs v) by
        (exact Hex || (intros q Hq; apply (sg_apart _ _ _ Hseg); unfold in_seg; lia)). apply Hkern.
    + rewrite (ex_free _ _ _ _ Hex). set_solver.
    + rewrite (ex_free _ _ _ _ Hex), size_difference, size_list_to_set.
      * replace (Z.to_nat (i + 1)) with (S (Z.to_nat i)) by lia. lia.
      * apply Hex.
      * intros g Hg%elem_of_list_to_set. by apply (ex_frames _ _ _ _ Hex).
    + replace (Z.to_nat (i + 1)) with (S (Z.to_nat i)) by lia. intros ph' Hin' Hl'.
      rewrite (take_S_r _ _ _ Hi) in Hin'. apply elem_of_app in Hin' as [Hin'|Hin'%list_elem_of_singleton].
      * apply list_elem_of_lookup_1 in Hin' as [j Hj]. pose proof Hj as [Hj' Hlt]%lookup_take_Some.
        pose proof (list_elem_of_lookup_2 _ _ _ Hj') as Hin2.
        destruct (Hall ph' Hin2 Hl') as (Hseg' & _).
        apply (loaded_kept s c ph' (seg_first ph) gs v (ph_mem_size ph) (seg_content c ph) m); try done.
        -- by apply (seg_ok_tables (k_vm s0)).
        -- apply Hld; [by eapply list_elem_of_lookup_2|exact Hl'].
        -- lia.
        -- intros q Hq. rewrite Hlen. apply (Hap j (Z.to_nat i) ph' ph q Hj' Hi); (lia || done).
      * subst ph'. by apply (segment_loaded s c ph gs v m).
    + intros q Hq Hnone. rewrite (ex_walk _ _ _ _ Hex), (ex_rights _ _ _ _ Hex) by exact Hq.
      pose proof (Hnone ph Hin Hty) as Hn. unfold in_seg in Hn. destruct (Hwalk q Hq Hnone) as [<- <-].
      destruct (Z.leb_spec (seg_first ph) q), (Z.ltb_spec q (seg_first ph + Z.of_nat (length gs))); try done; lia.
  - unfold load_segment. wp_steps. eapply wp_lift; [exact Hph|].
    rewrite (proj2 (Z.eqb_neq _ _) Hty). cbn [negb]. wp_steps. split; [done|]. split; [done|].
    by apply (progress_skip s0 c phs i ph).
Qed.

Lemma load_all_spec s0 c phs bufp base :
  vm_ok (k_vm s0) → segments_ok (k_vm s0) c phs → spare_frames (k_vm s0) →
  frames_needed phs ≤ Z.of_nat (size (free_set (frames (k_vm s0)))) →
  (∀ i ph, phs !! i = Some ph → program_header c (base + sizeof_program_header * Z.of_nat i) = Some ph) →
  wp (kloop 0 (length phs) (λ i _, load_segment bufp c base i) tt) s0 (λ r s' o,
    r = inl (B := Z) tt ∧ o = segment_events phs ∧ progress s0 c phs (Z.of_nat (length phs)) s').
Proof.
  intros Hok Hsegs Hlow Hfree Hph.
  apply wp_kloop with (I := λ i _ s' o, o = segment_events (take (Z.to_nat i) phs) ∧ progress s0 c phs i s').
  - split; [done|]. constructor; try done. { exists (k_vm s0), (k_ram s0). by destruct s0. }
    intros ph Hin. by apply not_elem_of_nil in Hin.
  - intros i [] s o Hi (-> & Hpg). destruct (lookup_lt_is_Some_2 phs (Z.to_nat i)) as [ph Hl]; [lia|].
    eapply wp_mono.
    { apply (progress_step s0 c phs bufp base i ph); try done; [lia|].
      rewrite <-(Hph _ _ Hl). by rewrite Z2Nat.id by lia. }
    intros r s' o' (-> & -> & Hpg'). split; [|exact Hpg'].
    replace (Z.to_nat (i + 1)) with (S (Z.to_nat i)) by lia. rewrite (segment_events_snoc _ _ _ Hl).
    by rewrite Z2Nat.id by lia.
  - intros [] s o (-> & Hpg). rewrite Z.add_0_l in *. rewrite Nat2Z.id, firstn_all. done.
Qed.
End segments.

(** ** The file in its block: bytes of the heap behind it change nothing *)

Lemma field_app c r off n x : field c off n = Some x → field (c ++ r) off n = Some x.
Proof.
  unfold field. rewrite length_app.
  destruct (Z.leb_spec 0 off), (Z.leb_spec (off + Z.of_nat n) (Z.of_nat (length c))); try done. cbn [andb].
  intros [= <-]. rewrite (proj2 (Z.leb_le _ _)) by lia. f_equal. f_equal.
  unfold slice. rewrite drop_app_le, take_app_le by (rewrite ?length_drop; lia). done.
Qed.

Lemma nonempty_field c off n x : field c off (S n) = Some x → 0 < Z.of_nat (length c).
Proof.
  unfold field. destruct (Z.leb_spec 0 off), (Z.leb_spec (off + Z.of_nat (S n)) (Z.of_nat (length c))); (lia || done).
Qed.

Lemma program_header_app c r base ph : program_header c base = Some ph → program_header (c ++ r) base = Some ph.
Proof.
  unfold program_header.
  destruct (field c base 4) as [x1|] eqn:E1; [|done]. rewrite (field_app _ r _ _ _ E1).
  destruct (field c (base + 4) 4) as [x2|] eqn:E2; [|done]. rewrite (field_app _ r _ _ _ E2).
  destruct (field c (base + 8) 4) as [x3|] eqn:E3; [|done]. rewrite (field_app _ r _ _ _ E3).
  destruct (field c (base + 16) 4) as [x4|] eqn:E4; [|done]. rewrite (field_app _ r _ _ _ E4).
  destruct (field c (base + 20) 4) as [x5|] eqn:E5; [|done]. by rewrite (field_app _ r _ _ _ E5).
Qed.

Lemma seg_ok_app {L : KernelEnd} v c r ph : seg_ok v c ph → seg_ok v (c ++ r) ph ∧ seg_content (c ++ r) ph = seg_content c ph.
Proof.
  intros [H1 H2 H3 H4 H5 H6]. split.
  - constructor; try done. rewrite length_app. lia.
  - unfold seg_content. f_equal. unfold slice. rewrite drop_app_le, take_app_le by (rewrite ?length_drop; lia). done.
Qed.

Lemma segments_ok_app {L : KernelEnd} v c r phs : segments_ok v c phs → segments_ok v (c ++ r) phs.
Proof.
  intros [H1 H2]. constructor; [|exact H2]. intros ph Hin Hl. destruct (H1 ph Hin Hl) as (Hs & Hp).
  split; [by apply seg_ok_app|exact Hp].
Qed.

(** ** ELF files *)

(** A 32-bit x86 executable with an entry point and program headers. *)
Record elf_file (c : list Z) (entry : Z) (phs : list elf_program_header_t) : Prop := {
  ef_magic : eh_magic c = Some ELF_MAGIC;
  ef_bits : eh_bits c = Some 1;
  ef_machine : eh_machine c = Some EM_386;
  ef_type : eh_type c = Some ET_EXEC;
  ef_entry : eh_entry c = Some entry;
  ef_count : eh_ph_count c = Some (Z.of_nat (length phs));
  ef_headers : ∃ base, eh_ph_offset c = Some base ∧
    ∀ i ph, phs !! i = Some ph → program_header c (base + sizeof_program_header * Z.of_nat i) = Some ph;
}.

Lemma elf_file_app c r entry phs : elf_file c entry phs → elf_file (c ++ r) entry phs.
Proof.
  intros [H1 H2 H3 H4 H5 H6 (base & H7 & H8)]. constructor; try (by apply field_app).
  exists base. split; [by apply field_app|]. intros i ph Hi. by apply program_header_app, H8.
Qed.

(** Why a file is rejected, and what is printed. *)
Inductive rejected (name : list Z) : option (list Z) → list event → Prop :=
  | reject_missing : rejected name None
      [EvPrintf "FS: file '%s' not found\n" [AStr name]; EvPrintf "ELF: could not read '%s'\n" [AStr name]]
  | reject_empty : rejected name (Some []) [EvPrintf "ELF: could not read '%s'\n" [AStr name]]
  | reject_magic c m : eh_magic c = Some m → m ≠ ELF_MAGIC →
      rejected name (Some c) [EvPrintf "ELF: invalid magic number\n" []]
  | reject_machine c b m : eh_magic c = Some ELF_MAGIC → eh_bits c = Some b → eh_machine c = Some m →
      b ≠ 1 ∨ m ≠ EM_386 → rejected name (Some c) [EvPrintf "ELF: not a 32-bit x86 binary\n" []]
  | reject_type c t : eh_magic c = Some ELF_MAGIC → eh_bits c = Some 1 → eh_machine c = Some EM_386 →
      eh_type c = Some t → t ≠ ET_EXEC → rejected name (Some c) [EvPrintf "ELF: not an executable\n" []].

Section load.
Context {D : Type} {O : BlockOps D} {B : BlockDevice D} {U : Uninit} {L : KernelEnd}.
Implicit Types s : kernel D.

(** The heap block and what [fs_read] leaves in it. *)
Definition file_buffer (c : list Z) : list Z := c ++ drop (length c) (garbage 8192).

Lemma read_file s name hl q hl' err (f : Z → list Z → Z → K (kernel D) (Z * Z)) Q :
  mounted (k_fs s) → name_arg name → heap_ready s hl →
  first_fit (align4 8192) HEAP_START hl = Some (q, hl') →
  (∀ c, dir (k_fs s) !! cstr name = Some c → Z.of_nat (length c) ≤ 8192) →
  (∀ fs' h, fs_eqv (k_fs s) fs' → heap_rep h hl' →
     let s1 := set_kfs fs' (put_heap h s) in
     match dir (k_fs s) !! cstr name with
     | Some c => wp (f (Z.of_nat (length c)) (file_buffer c) q) s1 Q
     | None => ∀ buf, wp (f (-1) buf q) s1 (λ r s' o, Q r s' (EvPrintf "FS: file '%s' not found\n" [AStr name] :: o))
     end) →
  wp (bufp ← zoom (kmalloc 8192);
      if bufp =? 0 then err
      else r ← zoom (fs_read name (block_at bufp 8192) 8192);
           let '(bytes, buf) := r in f bytes buf bufp) s Q.
Proof.
  intros Hm Hname Hheap E Hlen Hf. wp_steps. eapply wp_mono; [by apply (kalloc_spec s hl 8192)|].
  intros p s1 o1 H1. rewrite E in H1. destruct H1 as (-> & Hq & -> & _ & h & -> & Hr).
  unfold block_at. rewrite (proj2 (Z.eqb_neq q 0)) by exact Hq. wp_steps. apply wp_zoom.
  pose proof (garbage_length 8192 ltac:(lia)) as Hg.
  eapply wp_mono; [apply (fs_read_spec (k_fs s)); [apply Hm|exact Hname|lia|lia]|].
  intros [bytes buf] fs' o2 (He & Ho & Hres). specialize (Hf fs' h He Hr). cbv zeta in Hf.
  destruct (dir (k_fs s) !! cstr name) as [c|] eqn:Hd.
  - specialize (Hlen c eq_refl). cbn [fst snd] in Hres. destruct Hres as [-> ->]. subst o2.
    rewrite Nat.min_r by lia. rewrite take_ge by lia. exact Hf.
  - destruct Hres as [Hb _]. cbn [fst] in Hb. subst bytes o2. exact (Hf buf).
Qed.

Lemma free_buffer s hl q hl' :
  heap_rep (ps_heap (k_sched s)) hl' → sizes_ok hl → normal hl = true →
  first_fit (align4 8192) HEAP_START hl = Some (q, hl') →
  wp (zoom (kfree q)) s (λ _ s' o, o = [] ∧ ∃ h, s' = put_heap h s ∧ heap_rep h hl).
Proof.
  intros Hr Hs Hn E. assert (0 ≤ align4 8192 ∧ align4 8192 mod 4 = 0) as [Ha Ha4] by (vm_compute; done).
  destruct (first_fit_inv _ _ _ _ _ Ha Ha4 Hs E) as (_ & _ & sz & _ & Hin & _).
  apply (kfree_back s hl hl' 8192 q); try done. by exists sz.
Qed.

Lemma elf_reject_spec s hl q hl' msg args :
  heap_rep (ps_heap (k_sched s)) hl' → sizes_ok hl → normal hl = true →
  first_fit (align4 8192) HEAP_START hl = Some (q, hl') →
  wp (elf_reject q msg args) s (λ r s' o, r = (-1, 0) ∧ o = [EvPrintf msg args] ∧
    ∃ h, s' = put_heap h s ∧ heap_rep h hl).
Proof.
  intros Hr Hs Hn E. unfold elf_reject. wp_steps. eapply wp_mono; [by apply (free_buffer s hl q hl')|].
  intros _ s' o (-> & h & -> & Hr'). wp_steps. split; [done|]. split; [done|]. by exists h.
Qed.

(** What every outcome leaves alone. *)
Definition kept s s' (hl : layout) : Prop :=
  mounted (k_fs s') ∧ dir (k_fs s') = dir (k_fs s) ∧ heap_rep (ps_heap (k_sched s')) hl ∧
  procs (k_sched s') = procs (k_sched s) ∧ current_process (k_sched s') = current_process (k_sched s) ∧
  k_line s' = k_line s ∧ k_seg s' = k_seg s.

Lemma elf_load_ok s name c entry phs hl q hl' :
  mounted (k_fs s) → name_arg name → heap_ready s hl →
  first_fit (align4 8192) HEAP_START hl = Some (q, hl') →
  dir (k_fs s) !! cstr name = Some c → Z.of_nat (length c) ≤ 8192 → elf_file c entry phs →
  vm_ok (k_vm s) → segments_ok (k_vm s) c phs → spare_frames (k_vm s) →
  frames_needed phs ≤ Z.of_nat (size (free_set (frames (k_vm s)))) →
  wp (elf_load name) s (λ r s' o, r = (0, entry) ∧
    o = [EvPrintf "ELF: loading '%s', entry at %x\n" [AStr name; AInt entry]] ++ segment_events phs ++
        [EvPrintf "ELF: loaded successfully\n" []] ∧ kept s s' hl ∧
    ∃ s1 s2, k_vm s1 = k_vm s ∧ progress s1 (file_buffer c) phs (Z.of_nat (length phs)) s2 ∧
      k_vm s' = k_vm s2 ∧ k_ram s' = k_ram s2).
Proof.
  intros Hm Hname Hheap E Hdir Hlen Helf Hvm Hsegs Hlow Hfree.
  pose proof (hr_sizes _ _ (proj1 Hheap)) as Hsz. pose proof (proj2 Hheap) as Hnorm. unfold elf_load.
  eapply (read_file s name hl q hl'); [exact Hm|exact Hname|exact Hheap|exact E| |].
  { intros c'. rewrite Hdir. by intros [= <-]. }
  intros fs' h He Hr. cbv zeta. rewrite Hdir. set (s1 := set_kfs fs' (put_heap h s)).
  pose proof (elf_file_app c (drop (length c) (garbage 8192)) _ _ Helf) as Hbuf. fold (file_buffer c) in Hbuf.
  destruct (mounted_eqv _ _ Hm He) as [Hm' Hd'].
  pose proof (nonempty_field _ _ _ _ (ef_magic _ _ _ Helf)) as Hpos.
  destruct Hbuf as [H1 H2 H3 H4 H5 H6 (base & H7 & H8)].
  destruct (Z.leb_spec (Z.of_nat (length c)) 0); [lia|]. wp_steps.
  eapply wp_lift; [exact H1|]. rewrite Z.eqb_refl. cbn [negb]. wp_steps.
  eapply wp_lift; [exact H2|]. wp_steps. eapply wp_lift; [exact H3|]. cbn [Z.eqb negb orb EM_386 Pos.eqb]. wp_steps.
  eapply wp_lift; [exact H4|]. rewrite Z.eqb_refl. cbn [negb]. wp_steps.
  eapply wp_lift; [exact H5|]. wp_steps. eapply wp_lift; [exact H7|]. wp_steps.
  eapply wp_lift; [exact H6|]. wp_steps. rewrite Nat2Z.id. eapply wp_mono.
  { apply (load_all_spec s1 (file_buffer c) phs q base); [exact Hvm|by apply segments_ok_app|exact Hlow|exact Hfree|exact H8]. }
  intros r s2 o2 (-> & -> & Hpg). destruct (pg_rest _ _ _ _ _ Hpg) as (v & m & Hs2). wp_steps.
  eapply wp_mono; [apply (free_buffer s2 hl q hl'); [by rewrite Hs2|exact Hsz|exact Hnorm|exact E]|].
  intros _ s3 o3 (-> & h3 & -> & Hr3). wp_steps. split; [reflexivity|]. split.
  { rewrite !app_nil_l. reflexivity. }
  split; [|exists s1, s2; split; [reflexivity|]; split; [exact Hpg|split; reflexivity]].
  rewrite Hs2. split; [exact Hm'|]. split; [exact Hd'|]. split; [exact Hr3|].
  split; [reflexivity|]. split; [reflexivity|]. split; reflexivity.
Qed.

Lemma elf_load_rejected s name hl q hl' o :
  mounted (k_fs s) → name_arg name → heap_ready s hl →
  first_fit (align4 8192) HEAP_START hl = Some (q, hl') →
  (∀ c, dir (k_fs s) !! cstr name = Some c → Z.of_nat (length c) ≤ 8192) →
  rejected name (dir (k_fs s) !! cstr name) o →
  wp (elf_load name) s (λ r s' o', r = (-1, 0) ∧ o' = o ∧ kept s s' hl ∧ k_vm s' = k_vm s ∧ k_ram s' = k_ram s).
Proof.
  intros Hm Hname Hheap E Hlen Hrej.
  pose proof (hr_sizes _ _ (proj1 Hheap)) as Hsz. pose proof (proj2 Hheap) as Hnorm. unfold elf_load.
  eapply (read_file s name hl q hl'); [exact Hm|exact Hname|exact Hheap|exact E|exact Hlen|].
  intros fs' h He Hr. cbv zeta. set (s1 := set_kfs fs' (put_heap h s)).
  destruct (mounted_eqv _ _ Hm He) as [Hm' Hd'].
  assert (∀ msg args o0, wp (elf_reject q msg args) s1 (λ r s' o', r = (-1, 0) ∧
      o0 ++ o' = o0 ++ [EvPrintf msg args] ∧ kept s s' hl ∧ k_vm s' = k_vm s ∧ k_ram s' = k_ram s)) as Hout.
  { intros msg args o0. eapply wp_mono; [apply (elf_reject_spec s1 hl q hl'); [exact Hr|exact Hsz|exact Hnorm|exact E]|].
    intros r s' o' (-> & -> & h' & -> & Hr'). split; [reflexivity|]. split; [reflexivity|].
    split; [|split; reflexivity]. split; [exact Hm'|]. split; [exact Hd'|]. split; [exact Hr'|].
    split; [reflexivity|]. split; [reflexivity|]. split; reflexivity. }
  assert (∀ c off n x, field c off (S n) = Some x → 0 < Z.of_nat (length c) ∧ field (file_buffer c) off (S n) = Some x)
    as Hf by (intros c off n x Hx; split; [by eapply nonempty_field|by apply field_app]).
  destruct Hrej as [| |c m Hmg Hne|c b m Hmg Hb Hmach Hne|c t Hmg Hb Hmach Ht Hne].
  - intros buf. exact (Hout _ _ [EvPrintf "FS: file '%s' not found\n" [AStr name]]).
  - exact (Hout _ _ []).
  - apply Hf in Hmg as [Hpos Hmg]. destruct (Z.leb_spec (Z.of_nat (length c)) 0); [lia|]. wp_steps.
    eapply wp_lift; [exact Hmg|]. rewrite (proj2 (Z.eqb_neq _ _) Hne). exact (Hout _ _ []).
  - apply Hf in Hmg as [Hpos Hmg], Hb as [_ Hb], Hmach as [_ Hmach].
    destruct (Z.leb_spec (Z.of_nat (length c)) 0); [lia|]. wp_steps.
    eapply wp_lift; [exact Hmg|]. rewrite Z.eqb_refl. cbn [negb]. wp_steps.
    eapply wp_lift; [exact Hb|]. wp_steps. eapply wp_lift; [exact Hmach|].
    assert (negb (b =? 1) || negb (m =? EM_386) = true) as ->.
    { destruct Hne as [Hne|Hne]; rewrite (proj2 (Z.eqb_neq _ _) Hne); [reflexivity|apply orb_true_r]. }
    exact (Hout _ _ []).
  - apply Hf in Hmg as [Hpos Hmg], Hb as [_ Hb], Hmach as [_ Hmach], Ht as [_ Ht].
    destruct (Z.leb_spec (Z.of_nat (length c)) 0); [lia|]. wp_steps.
    eapply wp_lift; [exact Hmg|]. rewrite Z.eqb_refl. cbn [negb]. wp_steps.
    eapply wp_lift; [exact Hb|]. wp_steps. eapply wp_lift; [exact Hmach|]. cbn [Z.eqb negb orb EM_386 Pos.eqb]. wp_steps.
    eapply wp_lift; [exact Ht|]. rewrite (proj2 (Z.eqb_neq _ _) Hne). exact (Hout _ _ []).
Qed.

(** A name whose file can be loaded, in a machine with room for it. *)
Record loadable s (name c : list Z) (entry : Z) (phs : list elf_program_header_t) : Prop := {
  lo_mounted : mounted (k_fs s);
  lo_name : name_arg name;
  lo_file : dir (k_fs s) !! cstr name = Some c ∧ Z.of_nat (length c) ≤ 8192;
  lo_elf : elf_file c entry phs;
  lo_vm : vm_ok (k_vm s) ∧ spare_frames (k_vm s);
  lo_segments : segments_ok (k_vm s) c phs;
  lo_frames : frames_needed phs ≤ Z.of_nat (size (free_set (frames (k_vm s))));
}.

(** The program's memory afterwards: the segments, open to ring 3, and nothing else
    changed. *)
Definition program_loaded s (c : list Z) (phs : list elf_program_header_t) s' : Prop :=
  (∀ ph, ph ∈ phs → is_load ph →
     readable s' (ph_vaddr ph) (Z.to_nat (ph_mem_size ph)) = seg_content c ph ∧
     ∀ write va, in_seg ph (va / 4096) →
       is_Some (user_translate (k_vm s') write va) ∧ user_translate (k_vm s') write va = translate (k_vm s') va) ∧
  (∀ va, 0 ≤ va < 2 ^ 32 → (∀ ph, ph ∈ phs → is_load ph → ¬ in_seg ph (va / 4096)) →
     translate (k_vm s') va = translate (k_vm s) va ∧ page_rights (k_vm s') va = page_rights (k_vm s) va) ∧
  vm_ok (k_vm s').

Lemma elf_load_state s name c entry phs hl q hl' :
  loadable s name c entry phs → heap_ready s hl →
  first_fit (align4 8192) HEAP_START hl = Some (q, hl') →
  wp (elf_load name) s (λ r s' o, r = (0, entry) ∧
    o = [EvPrintf "ELF: loading '%s', entry at %x\n" [AStr name; AInt entry]] ++ segment_events phs ++
        [EvPrintf "ELF: loaded successfully\n" []] ∧ program_loaded s c phs s' ∧ kept s s' hl).
Proof.
  intros [Hm Hname [Hdir Hlen] Helf [Hvm Hlow] Hsegs Hfree] Hheap E. eapply wp_mono.
  { exact (elf_load_ok s name c entry phs hl q hl' Hm Hname Hheap E Hdir Hlen Helf Hvm Hsegs Hlow Hfree). }
  intros r s' o (-> & -> & Hkept & s1 & s2 & Hv1 & Hpg & Hv & Hram).
  split; [reflexivity|]. split; [reflexivity|]. split; [|exact Hkept]. split; [|split].
  - intros ph Hin Hl. destruct (sm_each _ _ _ Hsegs ph Hin Hl) as (Hseg & _).
    destruct (seg_bounds _ _ _ Hseg) as (Hf0 & Hva & _ & Hms). pose proof (sg_end _ _ _ Hseg).
    pose proof (pg_loaded _ _ _ _ _ Hpg ph ltac:(by rewrite Nat2Z.id, firstn_all) Hl) as Hld. split.
    + rewrite <-(proj2 (seg_ok_app _ _ (drop (length c) (garbage 8192)) _ Hseg)). fold (file_buffer c).
      rewrite <-(ld_bytes _ _ _ Hld).
      destruct (decide (ph_mem_size ph = 0)) as [E0|Hne]; [by rewrite E0|].
      apply readable_ext; [lia|]. intros i _. rewrite Hv, Hram. done.
    + intros write va Hq. assert (0 ≤ va) as Hva0 by (unfold in_seg in Hq; dlia). rewrite Hv.
      rewrite user_translate_open by (rewrite page_rights_at by exact Hva0; by apply (ld_rights _ _ _ Hld)).
      split; [|done]. rewrite translate_walk by (apply Hpg || exact Hva0).
      destruct (ld_frames _ _ _ Hld _ Hq) as (g & -> & _). by eexists.
  - intros va Hva Hout. rewrite Hv.
    destruct (pg_walk _ _ _ _ _ Hpg (va / 4096) ltac:(dlia) Hout) as [Ew Er]. rewrite Hv1 in Ew, Er.
    rewrite !translate_walk, !page_rights_at by (apply Hpg || apply Hvm || lia). by rewrite Ew, Er.
  - rewrite Hv. apply Hpg.
Qed.

(** C8.  Loading a 32-bit executable whose segments are clear of the kernel's own pages:
    [elf_load] returns 0 with the entry point, and afterwards every loadable segment is in
    the program's memory, the bytes of the file followed by zeros, in pages that ring 3 can
    read and write; every page outside the segments is mapped as before and with the same
    rights, and files, heap, processes and the shell are as they were. *)
Theorem elf_load_loads s name c entry phs hl q hl' :
  loadable s name c entry phs → heap_ready s hl →
  first_fit (align4 8192) HEAP_START hl = Some (q, hl') →
  ∃ s', elf_load name s = Done (0, entry) s'
      ([EvPrintf "ELF: loading '%s', entry at %x\n" [AStr name; AInt entry]] ++ segment_events phs ++
       [EvPrintf "ELF: loaded successfully\n" []]) ∧
    program_loaded s c phs s' ∧ kept s s' hl.
Proof.
  intros Hload Hheap E.
  destruct (wp_done _ _ _ (elf_load_state s name c entry phs hl q hl' Hload Hheap E))
    as (r & s' & o & Eo & -> & -> & H). exists s'. split; [exact Eo|exact H].
Qed.

(** C33.  A file that is not there, is empty or is not a 32-bit x86 executable is rejected:
    the result is -1, the message says why, and memory, mapping, files and heap are as
    they were. *)
Theorem elf_load_rejects s name hl q hl' o :
  mounted (k_fs s) → name_arg name → heap_ready s hl →
  first_fit (align4 8192) HEAP_START hl = Some (q, hl') →
  (∀ c, dir (k_fs s) !! cstr name = Some c → Z.of_nat (length c) ≤ 8192) →
  rejected name (dir (k_fs s) !! cstr name) o →
  ∃ s', elf_load name s = Done (-1, 0) s' o ∧ kept s s' hl ∧ k_vm s' = k_vm s ∧ k_ram s' = k_ram s.
Proof.
  intros Hm Hname Hheap E Hlen Hrej.
  destruct (wp_done _ _ _ (elf_load_rejected s name hl q hl' o Hm Hname Hheap E Hlen Hrej))
    as (r & s' & o' & Eo & -> & -> & Hk). exists s'. split; [exact Eo|exact Hk].
Qed.
End load.

(** ** Witnesses: an executable of one segment on a disk, on the machine that has booted *)

(** Four bytes of code and four zeros at 0x400000, where user/user.ld puts programs. *)
Definition tiny_ph : elf_program_header_t := Program_header PT_LOAD 84 0x400000 4 8.
Definition tiny_elf : list Z :=
  le_bytes 4 ELF_MAGIC ++ [1; 1; 1] ++ replicate 9 0 ++ le_bytes 2 ET_EXEC ++ le_bytes 2 EM_386 ++
  le_bytes 4 1 ++ le_bytes 4 0x400000 ++ le_bytes 4 52 ++ replicate 8 0 ++ le_bytes 2 52 ++
  le_bytes 2 32 ++ le_bytes 2 1 ++ replicate 6 0 ++
  le_bytes 4 PT_LOAD ++ le_bytes 4 84 ++ le_bytes 4 0x400000 ++ le_bytes 4 0x400000 ++
  le_bytes 4 4 ++ le_bytes 4 8 ++ le_bytes 4 5 ++ le_bytes 4 0x1000 ++
  [235; 254; 144; 144].
Definition ram4 : fs ram_disk := final ram1 (fs_write name_a tiny_elf 88 ram1).

Lemma tiny_elf_file : elf_file tiny_elf 0x400000 [tiny_ph].
Proof.
  constructor; try reflexivity. exists 52. split; [reflexivity|].
  intros [|i] ph; [|by destruct i]. intros [= <-]. reflexivity.
Qed.

Lemma ram4_spec : mounted ram4 ∧ dir ram4 = {[[97] := tiny_elf]}.
Proof.
  destruct ram1_spec as (Hm & Hd & Hsb & Href).
  destruct (fs_write_ok ram1 name_a tiny_elf 88 33) as (s' & o & E & Hm' & Hd' & _);
    [exact Hm|apply name_a_arg| |lia|vm_compute; discriminate| | |lia| |].
  - apply (bool_decide_unpack _). vm_compute. exact I.
  - rewrite Hd. exists []. apply lookup_singleton_eq.
  - rewrite Hsb. vm_compute. discriminate.
  - apply refs_0_unreferenced; [exact Hm|exact Href|lia].
  - unfold ram4. rewrite E. cbn [final]. split; [exact Hm'|]. rewrite Hd', Hd.
    rewrite insert_singleton_eq. reflexivity.
Qed.

#[local] Opaque mm1 ram4.

(** After booting no free frame is the kernel's. *)
Lemma boot_spare_frames {L : KernelEnd} page_tables mem_upper v :
  0 ≤ kernel_end ≤ 0x400000 → vm_ok v → boot_spare kernel_end page_tables mem_upper v → spare_frames v.
Proof.
  intros Hend Hok [_ Hfree _ Hheap _] f Hf. specialize (Hfree f Hf).
  unfold kernel_end_page, PAGE_SIZE in Hfree. rewrite u32_small in Hfree by lia. split; [dlia|].
  unfold kernel_frame. apply orb_false_iff. split; [apply orb_false_iff; split|].
  - apply Z.ltb_ge. dlia.
  - apply not_true_is_false. intros (q & Hq & Hw%bool_decide_eq_true)%existsb_exists.
    apply list_elem_of_In, elem_of_seqZ in Hq. destruct (Hheap q Hq) as (g & Hw' & Hg). rewrite Hw' in Hw.
    apply Hg. replace g with f by (injection Hw; lia). exact Hf.
  - apply not_true_is_false. intros (d & _ & Ht%bool_decide_eq_true)%existsb_exists.
    apply (vm_owned _ Hok d _ Ht). by replace (f * 4096 / 4096) with f by dlia.
Qed.

Section tiny.
Context {L : KernelEnd} (HL : kernel_end = 0x20F000).

Lemma tiny_segments :
  segments_ok (mm_vmm mm1) tiny_elf [tiny_ph] ∧ spare_frames (mm_vmm mm1) ∧ vm_ok (mm_vmm mm1) ∧
  frames_needed [tiny_ph] ≤ Z.of_nat (size (free_set (frames (mm_vmm mm1)))).
Proof.
  destruct mm1_layout as (Hspare & stack & gs & Hl & _). pose proof (bl_ok _ _ _ Hl) as Hok.
  assert (spare_frames (mm_vmm mm1)) as Hsf
    by (apply (boot_spare_frames 0x20A000 7168); [rewrite HL; lia|exact Hok|rewrite HL; exact Hspare]).
  destruct Hspare as [Htab _ Hdirs _ Hsize]. set (v := mm_vmm mm1) in *. clearbody v.
  change (kernel_end_page 0x20F000) with 527 in *. change (ram_pages 7168) with 2048 in *.
  split; [|split; [exact Hsf|split; [exact Hok|change (frames_needed [tiny_ph]) with 1; lia]]].
  constructor.
  - intros ph ->%list_elem_of_singleton _. split; [|split; [reflexivity|reflexivity]].
    constructor.
    + split; [discriminate|reflexivity].
    + discriminate.
    + split; discriminate.
    + split; discriminate.
    + intros q Hq. change (1024 ≤ q < 1024 + 1) in Hq. assert (q = 1024) as -> by lia. apply Hdirs.
    + intros q Hq. change (1024 ≤ q < 1024 + 1) in Hq. assert (q = 1024) as -> by lia.
      unfold kernel_page. rewrite HL. apply orb_false_iff. split; [reflexivity|].
      apply not_true_is_false. intros (d & _ & Ht%bool_decide_eq_true)%existsb_exists. rewrite Htab in Ht.
      destruct (d =? 0); [|destruct (d =? 1); [|destruct (d =? 4); [|discriminate]]]; discriminate.
  - intros [|i] [|j] ph ph' q Hi Hj Hne; try done; by destruct i || destruct j.
Qed.

Lemma tiny_loadable {D} {O : BlockOps D} {B : BlockDevice D} {U : Uninit} (f : fs D) :
  mounted f → dir f !! [97] = Some tiny_elf →
  loadable (kernel_on (mm_vmm mm1) f) name_a tiny_elf 0x400000 [tiny_ph].
Proof.
  intros Hm Hd. destruct tiny_segments as (Hsegs & Hlow & Hok & Hfree).
  constructor; [exact Hm|apply name_a_arg| |apply tiny_elf_file|split; [exact Hok|exact Hlow]|exact Hsegs|exact Hfree].
  split; [exact Hd|vm_compute; discriminate].
Qed.
End tiny.

#[local] Instance witness_end : KernelEnd := 0x20F000.

Lemma elf_load_loads_witness :
  ∃ s', elf_load name_a (kernel_on (mm_vmm mm1) ram4) = Done (0, 0x400000) s'
      ([EvPrintf "ELF: loading '%s', entry at %x\n" [AStr name_a; AInt 0x400000]] ++ segment_events [tiny_ph] ++
       [EvPrintf "ELF: loaded successfully\n" []]) ∧
    program_loaded (kernel_on (mm_vmm mm1) ram4) tiny_elf [tiny_ph] s' ∧
    kept (kernel_on (mm_vmm mm1) ram4) s' [(HEAP_SIZE - 12, true)].
Proof.
  destruct ram4_spec as [Hm Hd].
  apply (elf_load_loads (kernel_on (mm_vmm mm1) ram4) name_a tiny_elf 0x400000 [tiny_ph]
    [(HEAP_SIZE - 12, true)] (HEAP_START + 12) [(8192, false); (HEAP_SIZE - 12 - 8204, true)]);
    [apply (tiny_loadable eq_refl); [exact Hm|rewrite Hd; apply lookup_singleton_eq]|apply heap0_ready|reflexivity].
Defined.

Lemma elf_load_rejects_witness :
  ∃ s', elf_load name_a (kernel_with ram3) = Done (-1, 0) s' [EvPrintf "ELF: invalid magic number\n" []] ∧
    kept (kernel_with ram3) s' [(HEAP_SIZE - 12, true)] ∧ k_vm s' = vm0 ∧ k_ram s' = λ _, 0.
Proof.
  destruct ram3_spec as [Hm Hd].
  apply (elf_load_rejects (kernel_with ram3) name_a [(HEAP_SIZE - 12, true)] (HEAP_START + 12)
    [(8192, false); (HEAP_SIZE - 12 - 8204, true)]);
    [exact Hm|apply name_a_arg|apply heap0_ready|reflexivity| |].
  - intros c Hc. pose proof (eq_trans (eq_sym Hd) Hc) as E. apply (inj Some) in E. rewrite <-E.
    vm_compute. discriminate.
  - change (dir (k_fs (kernel_with ram3)) !! cstr name_a) with (dir ram3 !! [97]). rewrite Hd.
    eapply reject_magic; [vm_compute; reflexivity|discriminate].
Defined.
