(* ===== verification/Syscall.v ===== *)
(** * System calls: kernel/syscall.c and include/syscall.h

    [syscall_handler] on the saved registers, with the file descriptors of the current
    process.  Pointers of the program are read and written through the page tables. *)

From S2P Require Import Bytes Console Kprintf Disk Heap Vmm Process Fs Idt Gdt Kernel Prelude.

Definition SYS_EXIT : Z := 0.
Definition SYS_WRITE : Z := 1.
Definition SYS_READ : Z := 2.
Definition SYS_OPEN : Z := 3.
Definition SYS_CLOSE : Z := 4.

(** [(uint32_t)-1] *)
Definition MINUS_1 : Z := 0xFFFFFFFF.

Definition set_eax (x : Z) (r : registers_t) : registers_t :=
  Registers (r_ds r) (r_edi r) (r_esi r) (r_ebp r) (r_esp r) (r_ebx r) (r_edx r) (r_ecx r) x
    (int_no r) (err_code r) (r_eip r) (r_cs r) (r_eflags r) (useresp r) (r_ss r).

Section syscall.
Context {D : Type} `{BlockOps D} `{Uninit}.

(** [current_process->fds[fd]] and assignments to its fields. *)
Definition current_fd (fd : Z) : K (kernel D) file_descriptor_t :=
  s ← kget;
  pr ← zoom (proc_get (current_process (k_sched s)));
  klift (aget (fds pr) fd).

Definition update_fd (fd : Z) (f : file_descriptor_t → file_descriptor_t) : K (kernel D) unit :=
  s ← kget;
  let cur := current_process (k_sched s) in
  pr ← zoom (proc_get cur);
  x ← klift (aget (fds pr) fd);
  l ← klift (aset (fds pr) fd (f x));
  zoom (proc_update cur (set_fds l)).

Definition set_position (x : Z) (f : file_descriptor_t) : file_descriptor_t :=
  Fd (fd_used f) (fd_name f) x (fd_size f).
Definition set_fd_size (x : Z) (f : file_descriptor_t) : file_descriptor_t :=
  Fd (fd_used f) (fd_name f) (fd_position f) x.
Definition set_fd_name (x : list Z) (f : file_descriptor_t) : file_descriptor_t :=
  Fd (fd_used f) x (fd_position f) (fd_size f).

(** [fd < MAX_FD && current_process->fds[fd].used] *)
Definition fd_open (fd : Z) : K (kernel D) bool :=
  if fd <? MAX_FD then f ← current_fd fd; mret (negb (fd_used f =? 0)) else mret false.

Definition sys_exit (regs : registers_t) : K (kernel D) registers_t :=
  s ← kget;
  pr ← zoom (proc_get (current_process (k_sched s)));
  kprintf "[PID %d exited with code %d]\n" [AInt (pid pr); AInt (r_ebx regs)];;
  zoom process_exit;;
  mret regs.

Definition sys_write (regs : registers_t) : K (kernel D) registers_t :=
  let fd := r_ebx regs in
  let str := r_ecx regs in
  let len := r_edx regs in
  if (fd =? 1) || (fd =? 2) then
    _ ← kfold 0 (Z.to_nat len) (λ i _, c ← load_byte (u32 (str + i)); kemit (EvPutchar c)) tt;
    mret (set_eax len regs)
  else
    o ← fd_open fd;
    if o : bool then
      f ← current_fd fd;
      s ← kget;
      _ ← zoom (fs_write (fd_name f) (readable s str (Z.to_nat len)) len);
      mret (set_eax len regs)
    else mret (set_eax MINUS_1 regs).

(** The file system stores into the program's buffer: it gets the bytes it can, and they
    are put back. *)
Definition sys_read (regs : registers_t) : K (kernel D) registers_t :=
  let fd := r_ebx regs in
  let buf := r_ecx regs in
  let size := r_edx regs in
  o ← fd_open fd;
  if o : bool then
    f ← current_fd fd;
    s ← kget;
    r ← zoom (fs_read (fd_name f) (readable s buf (Z.to_nat size)) size);
    store_bytes buf r.2;;
    mret (set_eax (u32 r.1) regs)
  else mret (set_eax MINUS_1 regs).

(** The copy into [safe_name], at most 63 characters, and its length. *)
Definition copy_name (filename : Z) : K (kernel D) (list Z * Z) :=
  r ← kwhile 64 (λ '(safe, n),
    c ← load_byte (u32 (filename + n));
    if negb (c =? 0) && (n <? 63) then
      safe ← klift (aset safe n c);
      mret (inl (safe, n + 1))
    else mret (inr (safe, n))) (garbage 64, 0);
  let '(safe, n) := r in
  safe ← klift (aset safe n 0);
  mret (safe, n).

(** The first free descriptor from 3 on, or -1. *)
Definition free_fd : K (kernel D) Z :=
  r ← kloop 3 (Z.to_nat (MAX_FD - 3)) (λ i _,
    f ← current_fd i;
    if fd_used f =? 0 then mret (inr i) else mret (inl tt)) tt;
  mret (match r with inr i => i | inl _ => -1 end).

Definition sys_open (regs : registers_t) : K (kernel D) registers_t :=
  let filename := r_ebx regs in
  x ← copy_name filename;
  let '(safe_name, n) := x in
  fd ← free_fd;
  if fd <? 0 then mret (set_eax MINUS_1 regs)
  else
    tmp ← zoom (kmalloc 512);
    r ← zoom (fs_read safe_name (block_at tmp 512) 512);
    zoom (kfree tmp);;
    let bytes := r.1 in
    if bytes <? 0 then mret (set_eax MINUS_1 regs)
    else
      update_fd fd (set_fd_used 1);;
      update_fd fd (set_position 0);;
      update_fd fd (set_fd_size bytes);;
      _ ← kfold 0 (Z.to_nat (n + 1)) (λ i _,
        f ← current_fd fd;
        c ← klift (aget safe_name i);
        name ← klift (aset (fd_name f) i c);
        update_fd fd (set_fd_name name)) tt;
      mret (set_eax fd regs).

Definition sys_close (regs : registers_t) : K (kernel D) registers_t :=
  let fd := r_ebx regs in
  o ← (if 3 <=? fd then fd_open fd else mret false);
  if o : bool then
    update_fd fd (set_fd_used 0);;
    mret (set_eax 0 regs)
  else mret (set_eax MINUS_1 regs).

Definition syscall_handler (regs : registers_t) : K (kernel D) registers_t :=
  let n := r_eax regs in
  if n =? SYS_EXIT then sys_exit regs
  else if n =? SYS_WRITE then sys_write regs
  else if n =? SYS_READ then sys_read regs
  else if n =? SYS_OPEN then sys_open regs
  else if n =? SYS_CLOSE then sys_close regs
  else
    kprintf "syscall: unknown call %d\n" [AInt n];;
    mret (set_eax MINUS_1 regs).

Definition syscall_init : K (kernel D) unit := kprintf "Syscall: int 0x80 handler installed\n" [].
End syscall.
