(* ===== verification/SyscallThms.v ===== *)
(** * What the system calls do

    Each call of kernel/syscall.c against the table of descriptors of the process that
    runs, the directory of the file system and the program's memory. *)

From S2P Require Import Prelude Bytes Disk Pmm Heap Vmm Process ProcessThms ProcessLife Fs FsView FsSpec FsRead FsThms.
From S2P Require Import Idt Gdt Kernel KernelThms Syscall.

(** ** The descriptor table *)

Definition fd_ok (f : file_descriptor_t) : Prop := length (fd_name f) = 64%nat ∧ bytes_ok (fd_name f).
Definition table_fds (l : list file_descriptor_t) : Prop := length l = 16%nat ∧ Forall fd_ok l.

Definition slot_used (l : list file_descriptor_t) (i : Z) : bool :=
  match aget l i with Some f => negb (fd_used f =? 0) | None => false end.

(** The descriptor that an [open] gets. *)
Definition first_free (l : list file_descriptor_t) (r : Z) : Prop :=
  3 ≤ r < 16 ∧ slot_used l r = false ∧ ∀ i, 3 ≤ i < r → slot_used l i = true.

Lemma slot_used_Some l i : slot_used l i = true → ∃ f, aget l i = Some f ∧ fd_used f ≠ 0.
Proof.
  unfold slot_used. destruct (aget l i) as [f|]; [|done]. intros H%negb_true_iff%Z.eqb_neq. by exists f.
Qed.

Lemma slot_used_insert l i f : 0 ≤ i < Z.of_nat (length l) →
  slot_used (<[Z.to_nat i := f]> l) i = negb (fd_used f =? 0).
Proof. intros Hi. unfold slot_used. by rewrite aget_insert_eq. Qed.

Lemma table_insert l i f : table_fds l → fd_ok f → table_fds (<[i := f]> l).
Proof. intros [H1 H2] Hf. split; [by rewrite length_insert|by apply Forall_insert]. Qed.

Section thms.
Context {D : Type} {O : BlockOps D} {B : BlockDevice D} {U : Uninit}.
Implicit Types s : kernel D.

Definition running s : option process_t := procs (k_sched s) !! current_process (k_sched s).
Definition put_running (x : process_t) s : kernel D :=
  set_sched (put_proc (current_process (k_sched s)) x (k_sched s)) s.

Lemma put_running_running x s : running (put_running x s) = Some x.
Proof. apply put_lookup. Qed.
Lemma put_running_again x y s : put_running x (put_running y s) = put_running x s.
Proof.
  unfold put_running. cbn [set_sched k_sched put_proc set_procs current_process].
  unfold set_sched. cbn [k_vm k_fs k_seg k_line k_ram k_sched]. f_equal. apply put_put.
Qed.
Lemma set_sched_same s : set_sched (k_sched s) s = s.
Proof. by destruct s. Qed.

Lemma current_fd_spec s pr fd f (Q : file_descriptor_t → kernel D → list event → Prop) :
  running s = Some pr → aget (fds pr) fd = Some f → Q f s [] → wp (current_fd fd) s Q.
Proof.
  intros Hr Hf HQ. unfold current_fd. wp_steps. apply wp_zoom. cbn [lens_get lens_set sched_lens].
  eapply wp_proc_get; [exact Hr|]. rewrite set_sched_same. eapply wp_lift; [exact Hf|]. exact HQ.
Qed.

Lemma update_fd_spec s pr fd f g (Q : unit → kernel D → list event → Prop) :
  running s = Some pr → aget (fds pr) fd = Some f →
  Q tt (put_running (set_fds (<[Z.to_nat fd := g f]> (fds pr)) pr) s) [] → wp (update_fd fd g) s Q.
Proof.
  intros Hr Hf HQ. pose proof (aget_Some_range _ _ _ Hf). unfold update_fd. wp_steps.
  apply wp_zoom. cbn [lens_get lens_set sched_lens].
  eapply wp_proc_get; [exact Hr|]. rewrite set_sched_same. wp_steps. eapply wp_lift; [exact Hf|].
  wp_steps. eapply wp_lift; [by apply aset_Some|]. apply wp_zoom. cbn [lens_get lens_set sched_lens].
  eapply wp_proc_update; [exact Hr|]. exact HQ.
Qed.

Lemma fd_open_spec s pr fd (Q : bool → kernel D → list event → Prop) :
  running s = Some pr → table_fds (fds pr) → 0 ≤ fd →
  Q (slot_used (fds pr) fd) s [] → wp (fd_open fd) s Q.
Proof.
  intros Hr [Hlen _] Hfd HQ. unfold fd_open, MAX_FD. destruct (Z.ltb_spec fd 16).
  - destruct (aget_is_Some (fds pr) fd) as [f Hf]; [lia|]. wp_steps.
    eapply current_fd_spec; [exact Hr|exact Hf|]. wp_steps. unfold slot_used in HQ. by rewrite Hf in HQ.
  - wp_steps. unfold slot_used in HQ. destruct (aget (fds pr) fd) as [f|] eqn:E; [|done].
    apply aget_Some_range in E. lia.
Qed.

Lemma free_fd_spec s pr :
  running s = Some pr → table_fds (fds pr) →
  wp free_fd s (λ r s' o, s' = s ∧ o = [] ∧
    (first_free (fds pr) r ∨ (r = -1 ∧ ∀ i, 3 ≤ i < 16 → slot_used (fds pr) i = true))).
Proof.
  intros Hr [Hlen _]. unfold free_fd, MAX_FD. wp_steps.
  apply wp_kloop with (I := λ j _ s' o, s' = s ∧ o = [] ∧ ∀ i, 3 ≤ i < j → slot_used (fds pr) i = true).
  - split; [done|]. split; [done|]. intros i Hi. lia.
  - intros j _ s' o Hj (-> & -> & Hused). change (Z.to_nat (16 - 3)) with 13%nat in Hj.
    destruct (aget_is_Some (fds pr) j) as [f Hf]; [lia|]. wp_steps.
    eapply current_fd_spec; [exact Hr|exact Hf|]. assert (slot_used (fds pr) j = negb (fd_used f =? 0)) as Hs.
    { unfold slot_used. by rewrite Hf. }
    destruct (fd_used f =? 0); wp_steps; split; [done| |done|].
    + split; [done|]. left. split; [lia|]. split; [exact Hs|exact Hused].
    + split; [done|]. intros i Hi. destruct (decide (i = j)) as [->|]; [exact Hs|]. apply Hused. lia.
  - intros _ s' o (-> & -> & Hused). wp_steps. split; [done|]. split; [done|]. by right.
Qed.

(** ** Names in program memory *)

(** A C string of a program: the name and its NUL. *)
Definition path_at s (va : Z) (pas name : list Z) : Prop :=
  0 ≤ va < 2 ^ 32 ∧ window (k_vm s) va pas ∧ memory_at s pas = name ++ [0] ∧
  no_nul name ∧ bytes_ok name ∧ (length name ≤ 63)%nat.

Lemma path_load s va pas name i (Q : Z → kernel D → list event → Prop) :
  path_at s va pas name → (i ≤ length name)%nat →
  Q (default 0 (name !! i)) s [] → wp (load_byte (u32 (va + Z.of_nat i))) s Q.
Proof.
  intros (Hva & Hw & Hm & _) Hi HQ.
  assert (length pas = S (length name)) as Hlen.
  { apply (f_equal length) in Hm. unfold memory_at in Hm. rewrite length_map, length_app in Hm. simpl in Hm. lia. }
  destruct (lookup_lt_is_Some_2 pas i) as [pa Hpa]; [lia|].
  eapply wp_load_byte; [by eapply window_lookup|].
  assert (memory_at s pas !! i = Some (k_ram s pa)) as Hl.
  { unfold memory_at. by rewrite list_lookup_fmap, Hpa. }
  rewrite Hm in Hl. destruct (decide (i < length name)%nat).
  - rewrite lookup_app_l in Hl by lia. by rewrite Hl in HQ.
  - rewrite lookup_app_r in Hl by lia. replace (i - length name)%nat with 0%nat in Hl by lia.
    rewrite lookup_ge_None_2 in HQ by lia. cbn in *. by injection Hl as <-.
Qed.

Lemma copy_name_spec s va pas name :
  path_at s va pas name →
  wp (copy_name va) s (λ r s' o, s' = s ∧ o = [] ∧ r.2 = Z.of_nat (length name) ∧
    bytes_ok r.1 ∧ length r.1 = 64%nat ∧ ∃ junk, r.1 = name ++ 0 :: junk).
Proof.
  intros Hp. pose proof Hp as (_ & _ & _ & Hn & Hb & Hlen). unfold copy_name. wp_steps.
  pose proof (garbage_length 64 ltac:(lia)) as Hg. pose proof (garbage_bytes 64) as Hgb.
  apply wp_kwhile with
    (I := λ a s' o, s' = s ∧ o = [] ∧ length a.1 = 64%nat ∧ bytes_ok a.1 ∧
      0 ≤ a.2 ≤ Z.of_nat (length name) ∧ take (Z.to_nat a.2) a.1 = take (Z.to_nat a.2) name)
    (measure := λ a _, (length name - Z.to_nat a.2)%nat).
  - cbn [snd]. lia.
  - cbn [fst snd]. split; [done|]. split; [done|]. split; [lia|]. split; [done|]. split; [lia|done].
  - intros [safe n] s' o (-> & -> & Hl & Hok & Hr & Ht). cbn [fst snd] in *. wp_steps.
    replace n with (Z.of_nat (Z.to_nat n)) at 1 by lia.
    eapply path_load; [exact Hp|lia|]. destruct (decide (n = Z.of_nat (length name))) as [->|Hne].
    + rewrite lookup_ge_None_2 by lia. cbn [default negb Z.eqb andb]. wp_steps.
      eapply wp_lift; [apply aset_Some; lia|]. wp_steps. rewrite Nat2Z.id in *. cbn [fst snd].
      split; [done|]. split; [done|]. split; [done|].
      split; [apply Forall_insert; [done|unfold byte_ok; lia]|]. split; [by rewrite length_insert|].
      exists (drop (S (length name)) safe). rewrite insert_take_drop by lia. f_equal.
      by rewrite Ht, firstn_all.
    + destruct (lookup_lt_is_Some_2 name (Z.to_nat n)) as [c Hc]; [lia|]. rewrite Hc.
      change (default 0 (Some c)) with c.
      pose proof (Forall_lookup_1 _ _ _ _ Hn Hc) as Hc0. pose proof (Forall_lookup_1 _ _ _ _ Hb Hc) as Hcb.
      rewrite (proj2 (Z.eqb_neq c 0)) by done. rewrite (proj2 (Z.ltb_lt n 63)) by lia. cbn [negb andb].
      wp_steps. eapply wp_lift; [apply aset_Some; lia|]. wp_steps. cbn [fst snd].
      split; [lia|]. split; [done|]. split; [done|]. split; [by rewrite length_insert|].
      split; [by apply Forall_insert|]. split; [lia|].
      replace (Z.to_nat (n + 1)) with (S (Z.to_nat n)) by lia.
      rewrite (take_S_r _ _ c) by (apply list_lookup_insert_eq; lia).
      rewrite (take_S_r name _ c) by done. by rewrite take_insert_ge, Ht by lia.
Qed.

(** ** One slot of the table *)

Definition with_fd (pr : process_t) (fd : Z) (x : file_descriptor_t) : process_t :=
  set_fds (<[Z.to_nat fd := x]> (fds pr)) pr.

Lemma with_fd_again pr fd x y : with_fd (with_fd pr fd x) fd y = with_fd pr fd y.
Proof. unfold with_fd. cbn [set_fds fds]. by rewrite list_insert_insert_eq. Qed.
Lemma with_fd_get pr fd x : table_fds (fds pr) → 0 ≤ fd < 16 → aget (fds (with_fd pr fd x)) fd = Some x.
Proof. intros [Hl _] Hfd. cbn [with_fd set_fds fds]. apply aget_insert_eq. lia. Qed.

Lemma update_slot s pr fd x g (Q : unit → kernel D → list event → Prop) :
  table_fds (fds pr) → 0 ≤ fd < 16 →
  Q tt (put_running (with_fd pr fd (g x)) s) [] →
  wp (update_fd fd g) (put_running (with_fd pr fd x) s) Q.
Proof.
  intros Ht Hfd HQ. eapply update_fd_spec; [apply put_running_running|by apply with_fd_get|].
  rewrite put_running_again. change (set_fds (<[Z.to_nat fd := g x]> (fds (with_fd pr fd x))) (with_fd pr fd x))
    with (with_fd (with_fd pr fd x) fd (g x)). by rewrite with_fd_again.
Qed.

(** The loop that copies the name into the descriptor. *)
Lemma fd_name_loop s pr fd x name junk :
  table_fds (fds pr) → 0 ≤ fd < 16 → fd_ok x → no_nul name → bytes_ok (name ++ 0 :: junk) →
  length (name ++ 0 :: junk) = 64%nat →
  wp (kfold 0 (Z.to_nat (Z.of_nat (length name) + 1)) (λ i _,
      f ← current_fd fd;
      c ← klift (aget (name ++ 0 :: junk) i);
      nm ← klift (aset (fd_name f) i c);
      update_fd fd (set_fd_name nm)) tt) (put_running (with_fd pr fd x) s)
    (λ _ s' o, o = [] ∧ ∃ nm, s' = put_running (with_fd pr fd (set_fd_name nm x)) s ∧
      cstr nm = name ∧ terminated nm ∧ length nm = 64%nat ∧ bytes_ok nm).
Proof.
  intros Ht Hfd [Hxl Hxb] Hn Hb Hlen.
  set (safe := name ++ 0 :: junk) in *.
  assert (length name < 64)%nat as Hn64 by (unfold safe in Hlen; rewrite length_app in Hlen; simpl in Hlen; lia).
  apply wp_kfold with (I := λ j _ s' o, o = [] ∧ ∃ nm, s' = put_running (with_fd pr fd (set_fd_name nm x)) s ∧
    length nm = 64%nat ∧ bytes_ok nm ∧ take (Z.to_nat j) nm = take (Z.to_nat j) safe).
  - split; [done|]. exists (fd_name x). split; [by destruct x|]. done.
  - intros j _ s' o Hj (-> & nm & -> & Hnl & Hnb & Htk). wp_steps.
    eapply current_fd_spec; [apply put_running_running|by apply with_fd_get|]. wp_steps.
    destruct (aget_is_Some safe j) as [c Hc]; [lia|]. eapply wp_lift; [exact Hc|]. wp_steps.
    cbn [set_fd_name fd_name]. eapply wp_lift; [apply aset_Some; lia|].
    apply update_slot; [done|done|]. split; [done|]. eexists. split; [reflexivity|].
    rewrite aget_eq in Hc by lia.
    split; [by rewrite length_insert|]. split.
    { apply Forall_insert; [done|]. by apply (Forall_lookup_1 byte_ok safe (Z.to_nat j)). }
    replace (Z.to_nat (j + 1)) with (S (Z.to_nat j)) by lia.
    rewrite (take_S_r _ _ c) by (apply list_lookup_insert_eq; lia).
    rewrite (take_S_r safe _ c) by done. by rewrite take_insert_ge, Htk by lia.
  - intros _ s' o (-> & nm & -> & Hnl & Hnb & Htk). split; [done|]. exists nm. split; [done|].
    replace (Z.to_nat (0 + Z.of_nat (Z.to_nat (Z.of_nat (length name) + 1)))) with (S (length name)) in Htk by lia.
    unfold safe in Htk. rewrite (take_app_ge name) in Htk by lia.
    replace (S (length name) - length name)%nat with 1%nat in Htk by lia. cbn [take] in Htk.
    assert (nm = name ++ 0 :: drop (S (length name)) nm) as Hnm.
    { rewrite <-(take_drop (S (length name)) nm) at 1. rewrite Htk, <-app_assoc. done. }
    split; [rewrite Hnm; by apply cstr_app_nul|]. split; [|done].
    rewrite Hnm. unfold terminated. set_solver.
Qed.

(** ** The calls *)

Record prog_ok s (pr : process_t) (hl : layout) : Prop := {
  po_running : running s = Some pr;
  po_table : table_fds (fds pr);
  po_fs : mounted (k_fs s);
  po_heap : heap_ready s hl;
}.

(** What [open] puts into its slot. *)
Definition opened (x : file_descriptor_t) (name c : list Z) : Prop :=
  fd_used x = 1 ∧ fd_position x = 0 ∧ fd_size x = Z.of_nat (512 `min` length c) ∧
  cstr (fd_name x) = name ∧ terminated (fd_name x) ∧ fd_ok x.

Lemma sys_open_ok s pr hl q hl' regs pas name :
  prog_ok s pr hl → first_fit (align4 512) HEAP_START hl = Some (q, hl') →
  path_at s (r_ebx regs) pas name →
  wp (sys_open regs) s (λ regs' s' o,
    (o = [] ∧ regs' = set_eax MINUS_1 regs ∧ s' = s ∧ ∀ i, 3 ≤ i < 16 → slot_used (fds pr) i = true) ∨
    ∃ fd f' h', first_free (fds pr) fd ∧ fs_eqv (k_fs s) f' ∧ heap_rep h' hl ∧
      match dir (k_fs s) !! name with
      | None => regs' = set_eax MINUS_1 regs ∧ s' = put_heap h' (set_kfs f' s) ∧
          ∃ nm, o = [EvPrintf "FS: file '%s' not found\n" [AStr nm]] ∧ cstr nm = name
      | Some c => o = [] ∧ regs' = set_eax fd regs ∧ ∃ x, opened x name c ∧
          s' = put_running (with_fd pr fd x) (put_heap h' (set_kfs f' s))
      end).
Proof.
  intros [Hrun Htab Hm Hheap] E Hpath. pose proof Hpath as (_ & _ & _ & Hn & _ & _).
  unfold sys_open. wp_steps. eapply wp_mono; [by apply (copy_name_spec s _ pas name)|].
  intros [safe n] s1 o1 (-> & -> & Hlen & Hsb & Hsl & junk & Hsafe). cbn [fst snd] in *. subst n safe.
  wp_steps. eapply wp_mono; [by apply (free_fd_spec s pr)|].
  intros fd s1 o1 (-> & -> & [Hfd|[-> Hall]]); [|left; by wp_steps].
  pose proof Hfd as (Hfd3 & _ & _). rewrite (proj2 (Z.ltb_ge fd 0)) by lia. wp_steps.
  eapply wp_mono; [by apply (kalloc_spec s hl 512)|]. intros p s1 o1 H1. rewrite E in H1.
  destruct H1 as (-> & Hq & -> & Hused & h1 & -> & Hr1). wp_steps. apply wp_zoom.
  unfold block_at. rewrite (proj2 (Z.eqb_neq q 0)) by done.
  pose proof (garbage_length 512 ltac:(lia)) as Hg.
  assert (name_arg (name ++ 0 :: junk)) as Harg by (split; [done|unfold terminated; set_solver]).
  eapply wp_mono; [apply (fs_read_spec (k_fs s)); [apply Hm|exact Harg|lia|lia]|].
  intros [bytes buf] f' o2 (Hun & Ho2 & Hr). rewrite cstr_app_nul in Ho2, Hr by done.
  cbn [fst snd] in Hr. wp_steps.
  eapply wp_mono.
  { apply (kfree_back _ hl hl' 512 q); [exact Hr1|exact Hr1|apply Hheap|apply Hheap|by vm_compute
      |exact E|exact Hused]. }
  intros _ s3 o3 (-> & h3 & -> & Hr3).
  match goal with |- context [put_heap h3 ?x] =>
    change (put_heap h3 x) with (put_heap h3 (set_kfs f' s)) end.
  set (s4 := put_heap h3 (set_kfs f' s)).
  destruct (dir (k_fs s) !! name) as [c|] eqn:Hdir.
  2: { destruct Hr as [-> _]. wp_steps. right. exists fd, f', h3. split; [done|]. split; [done|].
       split; [exact Hr3|]. split; [done|]. split; [done|]. rewrite !app_nil_r. subst o2.
       eexists. split; [reflexivity|]. by apply cstr_app_nul. }
  destruct Hr as [-> _]. subst o2.
  cbn [fst]. destruct (Z.ltb_spec (Z.of_nat (Z.to_nat 512 `min` length c)) 0); [lia|]. wp_steps.
  destruct (aget_is_Some (fds pr) fd) as [x0 Hx0]; [destruct Htab as [-> _]; lia|].
  assert (fd_ok x0) as Hx0ok.
  { destruct Htab as [_ Hall]. rewrite aget_eq in Hx0 by lia. by apply (Forall_lookup_1 _ _ _ _ Hall Hx0). }
  assert (running s4 = Some pr) as Hrun4 by exact Hrun.
  eapply update_fd_spec; [exact Hrun4|exact Hx0|].
  change (set_fds (<[Z.to_nat fd := ?g]> (fds pr)) pr) with (with_fd pr fd g).
  wp_steps. apply update_slot; [done|lia|]. wp_steps. apply update_slot; [done|lia|]. wp_steps.
  eapply wp_mono; [apply fd_name_loop; [done|lia|exact Hx0ok|exact Hn|exact Hsb|exact Hsl]|].
  intros _ s5 o5 (-> & nm & -> & Hc & Hterm & Hnl & Hnb). wp_steps. right. exists fd, f', h3.
  split; [done|]. split; [done|]. split; [exact Hr3|]. split; [done|]. split; [done|].
  eexists. split; [|reflexivity]. unfold opened, fd_ok.
  cbn [set_fd_name set_fd_size set_position set_fd_used fd_used fd_position fd_size fd_name].
  split; [done|]. split; [done|]. split; [|done].
  by change (Z.to_nat 512) with 512%nat.
Qed.

Lemma stored_memory s pas l m : stored pas l (k_ram s) m → memory_at (set_ram m s) pas = l.
Proof. by intros [H _]. Qed.

Lemma length_memory s pas : length (memory_at s pas) = length pas.
Proof. apply length_map. Qed.

Lemma sys_read_ok s pr hl regs pas x c :
  prog_ok s pr hl → 0 ≤ r_ebx regs → aget (fds pr) (r_ebx regs) = Some x → fd_used x ≠ 0 →
  name_arg (fd_name x) → dir (k_fs s) !! cstr (fd_name x) = Some c →
  window (k_vm s) (r_ecx regs) pas → NoDup pas → 0 ≤ r_edx regs < 2 ^ 32 →
  length pas = Z.to_nat (r_edx regs) →
  wp (sys_read regs) s (λ regs' s' o,
    let n := (length pas `min` length c)%nat in
    o = [] ∧ regs' = set_eax (Z.of_nat n) regs ∧
    ∃ f' m, s' = set_ram m (set_kfs f' s) ∧ fs_eqv (k_fs s) f' ∧
      stored pas (take n c ++ drop n (memory_at s pas)) (k_ram s) m).
Proof.
  intros [Hrun Htab Hm Hheap] Hfd Hx Hu Harg Hdir Hw Hnd Hsz Hlen. unfold sys_read. wp_steps.
  eapply fd_open_spec; [exact Hrun|exact Htab|exact Hfd|]. unfold slot_used. rewrite Hx.
  rewrite (proj2 (Z.eqb_neq _ _) Hu). cbn [negb]. wp_steps.
  eapply current_fd_spec; [exact Hrun|exact Hx|]. wp_steps. apply wp_zoom.
  rewrite <-Hlen, readable_window by exact Hw.
  eapply wp_mono.
  { apply (fs_read_spec (k_fs s)); [apply Hm|exact Harg|exact Hsz|rewrite length_memory; lia]. }
  intros [bytes buf] f' o2 (Hun & Ho2 & Hr). rewrite Hdir in Ho2, Hr. cbn [fst snd] in Hr.
  destruct Hr as [-> ->]. subst o2. rewrite <-Hlen. wp_steps. cbn [fst snd].
  eapply wp_mono.
  { apply (store_bytes_spec pas); [exact Hw|exact Hnd|].
    rewrite length_app, length_take, length_drop, length_memory. lia. }
  intros _ s' o (-> & m & -> & Hst). wp_steps. split; [done|].
  rewrite u32_small by lia. split; [done|]. by exists f', m.
Qed.

Lemma sys_write_ok s pr hl regs pas x b :
  prog_ok s pr hl → r_ebx regs ≠ 1 → r_ebx regs ≠ 2 → 0 ≤ r_ebx regs →
  aget (fds pr) (r_ebx regs) = Some x → fd_used x ≠ 0 →
  name_arg (fd_name x) → is_Some (dir (k_fs s) !! cstr (fd_name x)) →
  window (k_vm s) (r_ecx regs) pas → bytes_ok (memory_at s pas) → 0 ≤ r_edx regs →
  length pas = Z.to_nat (r_edx regs) → (length pas ≤ 512)%nat →
  1 ≤ free_blocks (superblock (k_fs s)) → 33 ≤ b < 1057 → ¬ referenced (disk (k_fs s)) b →
  wp (sys_write regs) s (λ regs' s' o, regs' = set_eax (r_edx regs) regs ∧
    ∃ f', s' = set_kfs f' s ∧ mounted f' ∧
      dir f' = <[cstr (fd_name x) := memory_at s pas]> (dir (k_fs s))).
Proof.
  intros [Hrun Htab Hm Hheap] H1 H2 Hfd Hx Hu Harg Hdir Hw Hb Hsz Hlen H512 Hfree Hblk Hnr.
  unfold sys_write. rewrite (proj2 (Z.eqb_neq _ _) H1), (proj2 (Z.eqb_neq _ _) H2). cbn [orb].
  wp_steps. eapply fd_open_spec; [exact Hrun|exact Htab|exact Hfd|]. unfold slot_used. rewrite Hx.
  rewrite (proj2 (Z.eqb_neq _ _) Hu). cbn [negb]. wp_steps.
  eapply current_fd_spec; [exact Hrun|exact Hx|]. wp_steps. apply wp_zoom.
  rewrite <-Hlen, readable_window by exact Hw. pose proof (length_memory s pas) as Hml.
  destruct (fs_write_ok (k_fs s) (fd_name x) (memory_at s pas) (r_edx regs) b)
    as (f' & o & E & Hm' & Hd' & _); try done; [lia|lia| |].
  { destruct (decide (r_edx regs = 0)) as [->|]; [change ((0 + 511) / 512) with 0; lia|].
    replace ((r_edx regs + 511) / 512) with 1 by dlia. done. }
  eapply wp_of_done; [exact E|]. wp_steps. split; [done|]. exists f'. split; [done|].
  split; [exact Hm'|]. rewrite Hd', spec_contents_one by lia.
  by rewrite <-Hlen, <-(length_memory s pas), firstn_all.
Qed.

Lemma wp_exact {A} (m : K (kernel D) A) s a s' o :
  wp m s (λ a' s'' o', a' = a ∧ s'' = s' ∧ o' = o) → m s = Done a s' o.
Proof. intros H. by destruct (wp_done _ _ _ H) as (? & ? & ? & -> & -> & -> & ->). Qed.

(** Standard output and error go to the terminal, character by character. *)
Lemma sys_stdout_ok s regs pas :
  r_ebx regs = 1 ∨ r_ebx regs = 2 → 0 ≤ r_ecx regs < 2 ^ 32 → window (k_vm s) (r_ecx regs) pas →
  length pas = Z.to_nat (r_edx regs) →
  sys_write regs s = Done (set_eax (r_edx regs) regs) s (map EvPutchar (memory_at s pas)).
Proof.
  intros Hfd Hva Hw Hlen. apply wp_exact. unfold sys_write. assert ((r_ebx regs =? 1) || (r_ebx regs =? 2) = true) as ->.
  { destruct Hfd as [-> | ->]; reflexivity. }
  wp_steps. apply wp_kfold with (I := λ j _ s' o, s' = s ∧
    o = map EvPutchar (memory_at s (take (Z.to_nat j) pas))).
  - by change (Z.to_nat 0) with 0%nat.
  - intros j _ s' o Hj (-> & ->). wp_steps.
    destruct (lookup_lt_is_Some_2 pas (Z.to_nat j)) as [pa Hpa]; [lia|].
    replace j with (Z.of_nat (Z.to_nat j)) at 1 by lia.
    eapply wp_load_byte; [by eapply window_lookup|]. wp_steps. split; [done|].
    replace (Z.to_nat (j + 1)) with (S (Z.to_nat j)) by lia.
    rewrite (take_S_r _ _ pa) by done. unfold memory_at. by rewrite !map_app.
  - intros _ s' o (-> & ->). wp_steps. split; [done|]. split; [done|].
    rewrite Z.add_0_l, Nat2Z.id, <-Hlen, firstn_all, app_nil_r. done.
Qed.

Lemma sys_close_ok s pr hl regs x :
  prog_ok s pr hl → 3 ≤ r_ebx regs → aget (fds pr) (r_ebx regs) = Some x → fd_used x ≠ 0 →
  sys_close regs s =
    Done (set_eax 0 regs) (put_running (with_fd pr (r_ebx regs) (set_fd_used 0 x)) s) [].
Proof.
  intros [Hrun Htab Hm Hheap] Hfd Hx Hu. apply wp_exact. unfold sys_close. wp_steps. rewrite (proj2 (Z.leb_le _ _) Hfd).
  eapply fd_open_spec; [exact Hrun|exact Htab|lia|]. unfold slot_used. rewrite Hx.
  rewrite (proj2 (Z.eqb_neq _ _) Hu). cbn [negb]. wp_steps.
  eapply update_fd_spec; [exact Hrun|exact Hx|]. wp_steps. done.
Qed.

(** ** Descriptors that are not open *)

Lemma bad_fd_spec s pr hl fd (Q : bool → kernel D → list event → Prop) :
  prog_ok s pr hl → 0 ≤ fd → slot_used (fds pr) fd = false → Q false s [] → wp (fd_open fd) s Q.
Proof.
  intros [Hrun Htab _ _] Hfd Hs HQ. eapply fd_open_spec; [exact Hrun|exact Htab|exact Hfd|].
  by rewrite Hs.
Qed.

Lemma bad_fd_read s pr hl regs :
  prog_ok s pr hl → 0 ≤ r_ebx regs → slot_used (fds pr) (r_ebx regs) = false →
  sys_read regs s = Done (set_eax MINUS_1 regs) s [].
Proof.
  intros Hok Hfd Hs. apply wp_exact. unfold sys_read. wp_steps.
  eapply bad_fd_spec; [exact Hok|exact Hfd|exact Hs|]. wp_steps. done.
Qed.

Lemma bad_fd_write s pr hl regs :
  prog_ok s pr hl → 0 ≤ r_ebx regs → r_ebx regs ≠ 1 → r_ebx regs ≠ 2 →
  slot_used (fds pr) (r_ebx regs) = false →
  sys_write regs s = Done (set_eax MINUS_1 regs) s [].
Proof.
  intros Hok Hfd H1 H2 Hs. apply wp_exact. unfold sys_write.
  rewrite (proj2 (Z.eqb_neq _ _) H1), (proj2 (Z.eqb_neq _ _) H2). cbn [orb]. wp_steps.
  eapply bad_fd_spec; [exact Hok|exact Hfd|exact Hs|]. wp_steps. done.
Qed.

Lemma bad_fd_close s pr hl regs :
  prog_ok s pr hl → 0 ≤ r_ebx regs → r_ebx regs < 3 ∨ slot_used (fds pr) (r_ebx regs) = false →
  sys_close regs s = Done (set_eax MINUS_1 regs) s [].
Proof.
  intros Hok Hfd Hs. apply wp_exact. unfold sys_close. wp_steps.
  destruct (Z.leb_spec 3 (r_ebx regs)); [|by wp_steps].
  eapply bad_fd_spec; [exact Hok|exact Hfd|by destruct Hs; [lia|]|]. wp_steps. done.
Qed.

(** ** The end of a process *)

Definition exit_event (pr : process_t) (code : Z) : event :=
  EvPrintf "[PID %d exited with code %d]\n" [AInt (pid pr); AInt code].

Lemma sys_exit_halts s pr regs :
  running s = Some pr →
  sys_exit regs s = Halted (put_running (set_state PROCESS_DEAD pr) s) [exit_event pr (r_ebx regs)].
Proof.
  intros Hrun. unfold sys_exit. rewrite bind_get.
  assert (zoom (proc_get (current_process (k_sched s))) s = Done pr s []) as Hget.
  { unfold zoom, proc_get. cbn [lens_get lens_set sched_lens]. rewrite bind_get.
    unfold running in Hrun. rewrite Hrun. cbn [klift mret K_ret]. by rewrite set_sched_same. }
  rewrite (kbind_done _ _ _ _ _ Hget).
  unfold kprintf, kemit, mbind, K_bind, zoom, process_exit. cbn [lens_get lens_set sched_lens].
  unfold mbind, K_bind, kget, proc_update, proc_get, mbind, K_bind, kget.
  unfold running in Hrun. rewrite Hrun. reflexivity.
Qed.
End thms.
