(* ===== verification/SyscallProps.v ===== *)
(** * Theorems about the system calls, with their witnesses *)

From S2P Require Import Prelude Bytes Disk Pmm Heap Vmm Process ProcessThms ProcessSched ProcessLife.
From S2P Require Import ProcessProps Fs FsView FsSpec FsRead FsThms FsWitness Idt Gdt Kernel KernelThms Syscall SyscallThms.

Section thms.
Context {D : Type} {O : BlockOps D} {B : BlockDevice D} {U : Uninit}.
Implicit Types s : kernel D.

(** ** The dispatch *)

Lemma handler_eq regs n s : r_eax regs = n →
  syscall_handler regs s =
    (if n =? SYS_EXIT then sys_exit regs else if n =? SYS_WRITE then sys_write regs
     else if n =? SYS_READ then sys_read regs else if n =? SYS_OPEN then sys_open regs
     else if n =? SYS_CLOSE then sys_close regs
     else kprintf "syscall: unknown call %d\n" [AInt n];; mret (set_eax MINUS_1 regs)) s.
Proof. by intros <-. Qed.

Lemma handler_exit s pr regs :
  running s = Some pr → r_eax regs = SYS_EXIT →
  syscall_handler regs s = Halted (put_running (set_state PROCESS_DEAD pr) s) [exit_event pr (r_ebx regs)].
Proof. intros Hr Hn. rewrite (handler_eq _ _ s Hn). by apply sys_exit_halts. Qed.

Lemma free_fd_unique l r r' : first_free l r → first_free l r' → r = r'.
Proof.
  intros (H1 & H2 & H3) (H4 & H5 & H6). destruct (Z.lt_trichotomy r r') as [Hlt|[->|Hlt]]; [|done|].
  - rewrite H6 in H2 by lia. done.
  - rewrite H3 in H5 by lia. done.
Qed.

(** The state of a session: the program's own memory and mapping are as they were, the
    descriptor [fd] is open on [name]. *)
Record session s0 (pr : process_t) (hl : layout) (fd : Z) (name : list Z) s : Prop := {
  ss_vm : k_vm s = k_vm s0;
  ss_current : current_process (k_sched s) = current_process (k_sched s0);
  ss_heap : heap_ready s hl;
  ss_fs : mounted (k_fs s);
  ss_fd : ∃ x, running s = Some (with_fd pr fd x) ∧ fd_used x = 1 ∧ cstr (fd_name x) = name ∧
    terminated (fd_name x) ∧ fd_ok x;
}.

Lemma session_ram s0 pr hl fd name s m : session s0 pr hl fd name s → session s0 pr hl fd name (set_ram m s).
Proof. intros [Hv Hc Hh Hf Hx]. constructor; [exact Hv|exact Hc|exact Hh|exact Hf|exact Hx]. Qed.

Lemma session_prog s0 pr hl fd name s :
  table_fds (fds pr) → 3 ≤ fd < 16 → session s0 pr hl fd name s → ∃ x, prog_ok s (with_fd pr fd x) hl ∧
    aget (fds (with_fd pr fd x)) fd = Some x ∧ fd_used x ≠ 0 ∧ cstr (fd_name x) = name ∧
    name_arg (fd_name x) ∧ fd_ok x.
Proof.
  intros Ht Hfd [_ _ Hh Hm (x & Hr & Hu & Hn & Hterm & Hok)]. exists x. split.
  - constructor; [done|by apply table_insert|done|done].
  - split; [apply with_fd_get; [done|lia]|]. split; [lia|]. split; [done|]. split; [|done].
    split; [apply Hok|done].
Qed.

Lemma first_free_open l fd : first_free l fd → 3 ≤ fd < 16 ∧ slot_used l fd = false.
Proof. intros (H1 & H2 & _). done. Qed.

Lemma prog_frame s pr hl f h :
  prog_ok s pr hl → fs_eqv (k_fs s) f → heap_rep h hl →
  prog_ok (put_heap h (set_kfs f s)) pr hl ∧ dir f = dir (k_fs s).
Proof.
  intros [Hrun Ht Hm [_ Hnorm]] He Hr. destruct (mounted_eqv _ _ Hm He) as [Hm' Hd'].
  split; [|exact Hd']. constructor; [exact Hrun|exact Ht|exact Hm'|split; [exact Hr|exact Hnorm]].
Qed.

Lemma open_missing s pr hl q hl' regs pas name fd :
  prog_ok s pr hl → first_fit (align4 512) HEAP_START hl = Some (q, hl') →
  path_at s (r_ebx regs) pas name → dir (k_fs s) !! name = None → first_free (fds pr) fd →
  ∃ h f nm, let s' := put_heap h (set_kfs f s) in
    sys_open regs s = Done (set_eax MINUS_1 regs) s' [EvPrintf "FS: file '%s' not found\n" [AStr nm]] ∧
    cstr nm = name ∧ prog_ok s' pr hl ∧ dir f = dir (k_fs s).
Proof.
  intros Hok E Hpath Hdir Hfree. destruct (first_free_open _ _ Hfree) as [Hfd Hunused].
  destruct (wp_done _ _ _ (sys_open_ok s pr hl q hl' regs pas name Hok E Hpath))
    as (ra & s1 & o1 & E1 & [(_ & _ & _ & Hall)|(fd' & f1 & h1 & _ & He1 & Hr1 & Hres)]).
  { rewrite Hall in Hunused by done. done. }
  rewrite Hdir in Hres. destruct Hres as (-> & -> & nm & -> & Hnm). exists h1, f1, nm.
  destruct (prog_frame _ _ _ _ _ Hok He1 Hr1) as [Hok' Hd']. exact (conj E1 (conj Hnm (conj Hok' Hd'))).
Qed.

Lemma session_open s pr hl q hl' regs pas name c fd :
  prog_ok s pr hl → first_fit (align4 512) HEAP_START hl = Some (q, hl') →
  path_at s (r_ebx regs) pas name → dir (k_fs s) !! name = Some c → first_free (fds pr) fd →
  ∃ s', sys_open regs s = Done (set_eax fd regs) s' [] ∧ session s pr hl fd name s' ∧
    fs_eqv (k_fs s) (k_fs s') ∧ k_ram s' = k_ram s.
Proof.
  intros Hok E Hpath Hdir Hfree. destruct (first_free_open _ _ Hfree) as [Hfd Hunused].
  destruct (wp_done _ _ _ (sys_open_ok s pr hl q hl' regs pas name Hok E Hpath))
    as (ra & s1 & o1 & E1 & [(_ & _ & _ & Hall)|(fd' & f1 & h1 & Hfree' & He1 & Hr1 & Hres)]).
  { rewrite Hall in Hunused by done. done. }
  rewrite Hdir in Hres. destruct Hres as (-> & -> & x & Hx & Hs1).
  rewrite (free_fd_unique _ _ _ Hfree' Hfree) in *.
  destruct Hx as (Hxu & _ & _ & Hxn & Hxt & Hxok). exists s1. split; [exact E1|]. rewrite Hs1.
  split; [|split; [exact He1|reflexivity]].
  constructor; [reflexivity|reflexivity|split; [exact Hr1|apply (po_heap _ _ _ Hok)]| |].
  - exact (proj1 (mounted_eqv _ _ (po_fs _ _ _ Hok) He1)).
  - exists x. split; [apply put_running_running|]. exact (conj Hxu (conj Hxn (conj Hxt Hxok))).
Qed.

Section session.
Context (s0 : kernel D) (pr : process_t) (hl : layout) (fd : Z) (name : list Z).
Hypothesis Htab : table_fds (fds pr).
Hypothesis Hfd : 3 ≤ fd < 16.

Lemma session_write s regs src b :
  session s0 pr hl fd name s → is_Some (dir (k_fs s) !! name) →
  r_ebx regs = fd → window (k_vm s0) (r_ecx regs) src →
  bytes_ok (memory_at s src) → r_edx regs = Z.of_nat (length src) → (length src ≤ 512)%nat →
  1 ≤ free_blocks (superblock (k_fs s)) → 33 ≤ b < 1057 → ¬ referenced (disk (k_fs s)) b →
  ∃ s' o, sys_write regs s = Done (set_eax (r_edx regs) regs) s' o ∧ session s0 pr hl fd name s' ∧
    dir (k_fs s') = <[name := memory_at s src]> (dir (k_fs s)) ∧ k_ram s' = k_ram s.
Proof.
  intros Hs Hdir Hb2 Hw Hbytes Hd2 Hlen Hfb Hb Hnr.
  destruct (session_prog _ _ _ _ _ _ Htab Hfd Hs) as (x & Hok & Hg & Hu & Hn & Harg & _).
  rewrite <-(ss_vm _ _ _ _ _ _ Hs) in Hw. rewrite <-Hn in Hdir.
  assert (aget (fds (with_fd pr fd x)) (r_ebx regs) = Some x) as Hg' by (by rewrite Hb2).
  destruct (wp_done _ _ _ (sys_write_ok s _ hl regs src x b Hok ltac:(lia) ltac:(lia) ltac:(lia)
    Hg' Hu Harg Hdir Hw Hbytes ltac:(lia) ltac:(lia) Hlen Hfb Hb Hnr))
    as (ra & s' & o & E & -> & f & -> & Hm & Hd).
  exists (set_kfs f s), o. split; [exact E|]. rewrite Hn in Hd.
  split; [|split; [exact Hd|reflexivity]]. destruct Hs as [Hv Hc Hh _ Hx].
  constructor; [exact Hv|exact Hc|exact Hh|exact Hm|exact Hx].
Qed.

Lemma session_read s regs dst c :
  session s0 pr hl fd name s → dir (k_fs s) !! name = Some c →
  r_ebx regs = fd → window (k_vm s0) (r_ecx regs) dst → NoDup dst →
  r_edx regs = Z.of_nat (length dst) → Z.of_nat (length dst) < 2 ^ 32 →
  let n := (length dst `min` length c)%nat in
  ∃ s', sys_read regs s = Done (set_eax (Z.of_nat n) regs) s' [] ∧ session s0 pr hl fd name s' ∧
    stored dst (take n c ++ drop n (memory_at s dst)) (k_ram s) (k_ram s') ∧ dir (k_fs s') = dir (k_fs s).
Proof.
  intros Hs Hdir Hb Hw Hnd Hd Hmax n.
  destruct (session_prog _ _ _ _ _ _ Htab Hfd Hs) as (x & Hok & Hg & Hu & Hn & Harg & _).
  rewrite <-(ss_vm _ _ _ _ _ _ Hs) in Hw. rewrite <-Hn in Hdir.
  assert (aget (fds (with_fd pr fd x)) (r_ebx regs) = Some x) as Hg' by (by rewrite Hb).
  destruct (wp_done _ _ _ (sys_read_ok s _ hl regs dst x c Hok ltac:(lia) Hg' Hu Harg Hdir Hw Hnd
    ltac:(lia) ltac:(lia))) as (ra & s' & o & E & -> & -> & f & m & -> & He & Hst).
  destruct (mounted_eqv _ _ (ss_fs _ _ _ _ _ _ Hs) He) as [Hm Hdir'].
  exists (set_ram m (set_kfs f s)). split; [exact E|].
  split; [|split; [exact Hst|exact Hdir']]. destruct Hs as [Hv Hc Hh _ Hx].
  constructor; [exact Hv|exact Hc|exact Hh|exact Hm|exact Hx].
Qed.

Lemma session_close s regs :
  session s0 pr hl fd name s → r_ebx regs = fd →
  ∃ s' x, sys_close regs s = Done (set_eax 0 regs) s' [] ∧ heap_ready s' hl ∧
    k_fs s' = k_fs s ∧ running s' = Some (with_fd pr fd x) ∧ fd_used x = 0.
Proof.
  intros Hs Hb.
  destruct (session_prog _ _ _ _ _ _ Htab Hfd Hs) as (x & Hok & Hg & Hu & _).
  assert (aget (fds (with_fd pr fd x)) (r_ebx regs) = Some x) as Hg' by (by rewrite Hb).
  pose proof (sys_close_ok s _ hl regs x Hok ltac:(lia) Hg' Hu) as E.
  eexists _, (set_fd_used 0 x). split; [exact E|]. split; [apply Hs|]. split; [reflexivity|].
  split; [|reflexivity]. rewrite put_running_running, Hb. by rewrite with_fd_again.
Qed.
End session.

(** ** The theorems *)

(** C10.  A program that opens an existing file, writes at most a block to the descriptor
    and reads back gets its own bytes: [open] returns the lowest free descriptor, the
    directory then maps the name to exactly the bytes written, [read] fills the buffer
    with them, a second [read] starts again at the first byte, and after [close] the
    descriptor is free again and the heap is as before. *)
Theorem syscall_file_session s pr hl q hl' r1 r2 r3 r4 pas name c0 fd src dst b :
  prog_ok s pr hl → first_fit (align4 512) HEAP_START hl = Some (q, hl') →
  path_at s (r_ebx r1) pas name → dir (k_fs s) !! name = Some c0 → first_free (fds pr) fd →
  r_eax r1 = SYS_OPEN →
  r_eax r2 = SYS_WRITE → r_ebx r2 = fd → window (k_vm s) (r_ecx r2) src →
  bytes_ok (memory_at s src) → r_edx r2 = Z.of_nat (length src) → (length src ≤ 512)%nat →
  r_eax r3 = SYS_READ → r_ebx r3 = fd → window (k_vm s) (r_ecx r3) dst → NoDup dst →
  r_edx r3 = Z.of_nat (length dst) → Z.of_nat (length dst) < 2 ^ 32 →
  r_eax r4 = SYS_CLOSE → r_ebx r4 = fd →
  1 ≤ free_blocks (superblock (k_fs s)) → 33 ≤ b < 1057 → ¬ referenced (disk (k_fs s)) b →
  let n := (length dst `min` length src)%nat in
  let got := take n (memory_at s src) ++ drop n (memory_at s dst) in
  ∃ s1 s2 s3 s4 s5 o2 pr',
    syscall_handler r1 s = Done (set_eax fd r1) s1 [] ∧
    syscall_handler r2 s1 = Done (set_eax (r_edx r2) r2) s2 o2 ∧
    syscall_handler r3 s2 = Done (set_eax (Z.of_nat n) r3) s3 [] ∧ memory_at s3 dst = got ∧
    syscall_handler r3 s3 = Done (set_eax (Z.of_nat n) r3) s4 [] ∧ memory_at s4 dst = got ∧
    syscall_handler r4 s4 = Done (set_eax 0 r4) s5 [] ∧
    dir (k_fs s5) = <[name := memory_at s src]> (dir (k_fs s)) ∧ heap_ready s5 hl ∧
    running s5 = Some pr' ∧ slot_used (fds pr') fd = false.
Proof.
  intros Hok E Hpath Hdir Hfree H1 H2 Hb2 Hw2 Hbytes Hd2 Hlen H3 Hb3 Hw3 Hnd Hd3 Hmax H4 Hb4 Hfb Hb Hnr n got.
  pose proof (po_table _ _ _ Hok) as Htab. destruct (first_free_open _ _ Hfree) as [Hfd _].
  pose proof (ok_size _ (mt_ok _ (po_fs _ _ _ Hok))) as Hsz.
  destruct (session_open s pr hl q hl' r1 pas name c0 fd Hok E Hpath Hdir Hfree)
    as (s1 & E1 & Hs1 & He1 & Hram1).
  pose proof (proj2 (mounted_eqv _ _ (po_fs _ _ _ Hok) He1)) as Hdir1.
  assert (memory_at s1 src = memory_at s src) as Hms by (unfold memory_at; by rewrite Hram1).
  destruct (session_write s pr hl fd name Htab Hfd s1 r2 src b Hs1) as (s2 & o2 & E2 & Hs2 & Hdir2 & Hram2);
    [rewrite Hdir1, Hdir; by eexists|exact Hb2|exact Hw2|by rewrite Hms|exact Hd2|exact Hlen
    |by rewrite <-(proj1 He1)|exact Hb| |].
  { intros Href. apply Hnr. eapply same_referenced; [lia|symmetry; apply He1|exact Href]. }
  rewrite Hms, Hdir1 in Hdir2. pose proof (length_memory s src) as Hml.
  destruct (session_read s pr hl fd name Htab Hfd s2 r3 dst (memory_at s src) Hs2)
    as (s3 & E3 & Hs3 & [Hm3 _] & Hdir3);
    [rewrite Hdir2; apply lookup_insert_eq|exact Hb3|exact Hw3|exact Hnd|exact Hd3|exact Hmax|].
  destruct (session_read s pr hl fd name Htab Hfd s3 r3 dst (memory_at s src) Hs3)
    as (s4 & E4 & Hs4 & [Hm4 _] & Hdir4);
    [rewrite Hdir3, Hdir2; apply lookup_insert_eq|exact Hb3|exact Hw3|exact Hnd|exact Hd3|exact Hmax|].
  destruct (session_close s pr hl fd name Htab Hfd s4 r4 Hs4 Hb4) as (s5 & y & E5 & Hh5 & Hf5 & Hr5 & Hu5).
  change (map (k_ram s3) dst) with (memory_at s3 dst) in Hm3. change (map (k_ram s4) dst) with (memory_at s4 dst) in Hm4.
  rewrite Hml in E3, Hm3, E4, Hm4. fold n in E3, Hm3, E4, Hm4.
  assert (memory_at s2 dst = memory_at s dst) as Hmd by (unfold memory_at; by rewrite Hram2, Hram1).
  rewrite Hmd in Hm3. fold got in Hm3.
  assert (memory_at s4 dst = got) as Hm4'.
  { rewrite Hm4, Hm3. unfold got. pose proof (length_memory s dst).
    rewrite drop_app_length'; [done|]. rewrite length_take. lia. }
  assert (slot_used (fds (with_fd pr fd y)) fd = false) as Hcl.
  { unfold slot_used. rewrite with_fd_get; [|exact Htab|lia]. rewrite Hu5. reflexivity. }
  exists s1, s2, s3, s4, s5, o2, (with_fd pr fd y). rewrite (handler_eq r1 _ s H1), (handler_eq r2 _ s1 H2),
    (handler_eq r3 _ s2 H3), (handler_eq r3 _ s3 H3), (handler_eq r4 _ s4 H4).
  split; [exact E1|]. split; [exact E2|]. split; [exact E3|]. split; [exact Hm3|].
  split; [exact E4|]. split; [exact Hm4'|]. split; [exact E5|].
  split; [by rewrite Hf5, Hdir4, Hdir3|]. exact (conj Hh5 (conj Hr5 Hcl)).
Qed.

(** The calls that the handler refuses. *)
Inductive refused s (pr : process_t) (regs : registers_t) : Prop :=
  | refused_read : r_eax regs = SYS_READ → slot_used (fds pr) (r_ebx regs) = false → refused s pr regs
  | refused_write : r_eax regs = SYS_WRITE → r_ebx regs ≠ 1 → r_ebx regs ≠ 2 →
      slot_used (fds pr) (r_ebx regs) = false → refused s pr regs
  | refused_close : r_eax regs = SYS_CLOSE →
      r_ebx regs < 3 ∨ slot_used (fds pr) (r_ebx regs) = false → refused s pr regs
  | refused_full pas name : r_eax regs = SYS_OPEN → path_at s (r_ebx regs) pas name →
      (∀ i, 3 ≤ i < 16 → slot_used (fds pr) i = true) → refused s pr regs
  | refused_missing pas name : r_eax regs = SYS_OPEN → path_at s (r_ebx regs) pas name →
      dir (k_fs s) !! name = None → refused s pr regs
  | refused_number : r_eax regs > SYS_CLOSE → refused s pr regs.

(** C39.  Every call with a descriptor that is not open, with an unknown number, an [open]
    without a free descriptor or of a name the directory does not have returns -1; the
    process, its memory and mapping, the directory and the heap are as before. *)
Theorem syscall_refuses s pr hl q hl' regs :
  prog_ok s pr hl → first_fit (align4 512) HEAP_START hl = Some (q, hl') →
  0 ≤ r_ebx regs → refused s pr regs →
  ∃ s' o, syscall_handler regs s = Done (set_eax MINUS_1 regs) s' o ∧
    prog_ok s' pr hl ∧ k_ram s' = k_ram s ∧ k_vm s' = k_vm s ∧ dir (k_fs s') = dir (k_fs s).
Proof.
  intros Hok E Hfd Href.
  assert (∀ o, syscall_handler regs s = Done (set_eax MINUS_1 regs) s o → ∃ s' o,
    syscall_handler regs s = Done (set_eax MINUS_1 regs) s' o ∧
    prog_ok s' pr hl ∧ k_ram s' = k_ram s ∧ k_vm s' = k_vm s ∧ dir (k_fs s') = dir (k_fs s)) as Hsame.
  { intros o Eo. exists s, o. repeat (split; [assumption || reflexivity|]). reflexivity. }
  destruct Href as [Hn Hs|Hn H1 H2 Hs|Hn Hs|pas name Hn Hp Hall|pas name Hn Hp Hd|Hn].
  - apply (Hsame []). rewrite (handler_eq _ _ s Hn). by eapply bad_fd_read.
  - apply (Hsame []). rewrite (handler_eq _ _ s Hn). by eapply bad_fd_write.
  - apply (Hsame []). rewrite (handler_eq _ _ s Hn). by eapply bad_fd_close.
  - rewrite (handler_eq _ _ s Hn) in Hsame |- *.
    destruct (wp_done _ _ _ (sys_open_ok s pr hl q hl' regs pas name Hok E Hp))
      as (ra & s1 & o1 & E1 & [(-> & -> & -> & _)|(fd & f1 & h1 & (Hr & Hu & _) & _)]).
    + by apply (Hsame []).
    + rewrite Hall in Hu by exact Hr. done.
  - rewrite (handler_eq _ _ s Hn) in Hsame |- *.
    destruct (wp_done _ _ _ (sys_open_ok s pr hl q hl' regs pas name Hok E Hp))
      as (ra & s1 & o1 & E1 & [(-> & -> & -> & _)|(fd & f1 & h1 & _ & He & Hr & H)]).
    + by apply (Hsame []).
    + rewrite Hd in H. destruct H as (-> & -> & _). exists (put_heap h1 (set_kfs f1 s)), o1.
      destruct (prog_frame _ _ _ _ _ Hok He Hr) as [Hok' Hd']. split; [exact E1|]. split; [exact Hok'|].
      split; [reflexivity|]. split; [reflexivity|exact Hd'].
  - apply (Hsame [EvPrintf "syscall: unknown call %d\n" [AInt (r_eax regs)]]).
    rewrite (handler_eq _ _ s eq_refl). unfold SYS_CLOSE in Hn.
    do 5 (match goal with |- context [?a =? ?b] =>
      rewrite (proj2 (Z.eqb_neq a b)) by (unfold SYS_EXIT, SYS_WRITE, SYS_READ, SYS_OPEN, SYS_CLOSE; lia) end).
    reflexivity.
Qed.

(** A program that prints to standard output or error and exits: the bytes of its
    buffer appear on the terminal in order, the exit message has its number and code,
    and the processor halts with the process dead in a list of processes that is still
    well-formed. *)
Theorem syscall_print_and_exit s pr r1 r2 pas l hl :
  running s = Some pr → sched_ok (k_sched s) l hl →
  r_eax r1 = SYS_WRITE → r_ebx r1 = 1 ∨ r_ebx r1 = 2 → 0 ≤ r_ecx r1 < 2 ^ 32 →
  window (k_vm s) (r_ecx r1) pas → length pas = Z.to_nat (r_edx r1) → r_eax r2 = SYS_EXIT →
  ∃ s', syscall_handler r1 s = Done (set_eax (r_edx r1) r1) s (map EvPutchar (memory_at s pas)) ∧
    syscall_handler r2 s =
      Halted s' [exit_event pr (r_ebx r2)] ∧
    sched_ok (k_sched s') l hl ∧ state_at (k_sched s') (current_process (k_sched s')) = Some PROCESS_DEAD.
Proof.
  intros Hrun Hsched H1 Hfd Hva Hw Hlen H2.
  exists (put_running (set_state PROCESS_DEAD pr) s).
  rewrite (handler_eq _ _ s H1), (handler_eq _ _ s H2).
  split; [by apply sys_stdout_ok|]. split; [|split].
  - by apply sys_exit_halts.
  - apply (between_sched (k_sched s)); [|exact Hsched]. by apply between_exits.
  - unfold state_at. change (procs (k_sched _)) with (<[current_process (k_sched s) := set_state PROCESS_DEAD pr]> (procs (k_sched s))).
    change (current_process (k_sched (put_running _ s))) with (current_process (k_sched s)).
    by rewrite lookup_insert_eq.
Qed.
End thms.

(** ** Witnesses: a program with a name, a text and a buffer in its memory *)

Definition std_fd : file_descriptor_t := Fd 1 (replicate 64 0) 0 0.
Definition no_fd : file_descriptor_t := Fd 0 (replicate 64 0) 0 0.
Definition prog_pr : process_t :=
  Process 1 0 0 4096 PROCESS_RUNNING (replicate 3 std_fd ++ replicate 13 no_fd) 0.
Definition prog_ps : ps :=
  Ps heap0 {[8192 := prog_pr]} (λ _, 0) 8192 8192 2 (Cpu 0 0 0 0 0 0 0 0x200000 0x100000).
(** The name [a] at 4096 and the text [hi] at 5000; paging is off. *)
Definition prog_ram (k : Z) : Z :=
  if k =? 4096 then 97 else if k =? 5000 then 104 else if k =? 5001 then 105 else 0.
Definition prog_kernel (p : ps) : kernel ram_disk :=
  Kernel p (Vmm [] pmm_boot (λ _, 0) false) ram1 seg0 (Line (replicate 256 0) 0) prog_ram.
Definition call (n b c d : Z) : registers_t := Registers 0x23 0 0 0 0 b d c n 128 0 0x400000 0x1B 0x202 0 0x23.

Lemma std_fd_ok : fd_ok std_fd ∧ fd_ok no_fd.
Proof.
  assert (bytes_ok (replicate 64 0)) by (apply Forall_replicate; unfold byte_ok; lia). done.
Qed.

Lemma prog_kernel_ok : prog_ok (prog_kernel prog_ps) prog_pr [(HEAP_SIZE - 12, true)].
Proof.
  constructor.
  - apply lookup_singleton_eq.
  - split; [reflexivity|]. apply Forall_app. split; apply Forall_replicate; apply std_fd_ok.
  - exact (proj1 ram1_spec).
  - split; [apply heap0_rep|reflexivity].
Qed.

Lemma prog_path : path_at (prog_kernel prog_ps) 4096 [4096; 4097] [97].
Proof.
  split; [lia|]. split; [split; [reflexivity|split; [reflexivity|exact I]]|]. split; [reflexivity|].
  split; [by repeat constructor|]. split; [repeat constructor; unfold byte_ok; lia|simpl; lia].
Qed.

Lemma syscall_file_session_witness :
  ∃ s1 s2 s3 s4 s5 o2 pr',
    syscall_handler (call 3 4096 0 0) (prog_kernel prog_ps) = Done (set_eax 3 (call 3 4096 0 0)) s1 [] ∧
    syscall_handler (call 1 3 5000 2) s1 = Done (set_eax 2 (call 1 3 5000 2)) s2 o2 ∧
    syscall_handler (call 2 3 6000 3) s2 = Done (set_eax 2 (call 2 3 6000 3)) s3 [] ∧
    memory_at s3 [6000; 6001; 6002] = [104; 105; 0] ∧
    syscall_handler (call 2 3 6000 3) s3 = Done (set_eax 2 (call 2 3 6000 3)) s4 [] ∧
    memory_at s4 [6000; 6001; 6002] = [104; 105; 0] ∧
    syscall_handler (call 4 3 0 0) s4 = Done (set_eax 0 (call 4 3 0 0)) s5 [] ∧
    dir (k_fs s5) = <[[97] := [104; 105]]> (dir ram1) ∧ heap_ready s5 [(HEAP_SIZE - 12, true)] ∧
    running s5 = Some pr' ∧ slot_used (fds pr') 3 = false.
Proof.
  destruct ram1_spec as (Hm & Hd & Hsb & Href).
  apply (syscall_file_session (prog_kernel prog_ps) prog_pr [(HEAP_SIZE - 12, true)] (HEAP_START + 12)
    [(512, false); (HEAP_SIZE - 12 - 524, true)] (call 3 4096 0 0) (call 1 3 5000 2)
    (call 2 3 6000 3) (call 4 3 0 0) [4096; 4097] [97] [] 3 [5000; 5001] [6000; 6001; 6002] 33);
    [apply prog_kernel_ok|reflexivity|apply prog_path| | |reflexivity|reflexivity|reflexivity| | |
    reflexivity|simpl; lia|reflexivity|reflexivity| | |reflexivity|reflexivity|reflexivity|reflexivity| |lia|].
  - cbn [prog_kernel k_fs]. rewrite Hd. apply lookup_singleton_eq.
  - split; [lia|]. split; [reflexivity|]. intros i Hi. lia.
  - split; [reflexivity|]. split; [reflexivity|exact I].
  - change (bytes_ok [104; 105]). repeat constructor; unfold byte_ok; lia.
  - split; [reflexivity|]. split; [reflexivity|]. split; [reflexivity|exact I].
  - apply (bool_decide_unpack _). reflexivity.
  - cbn [prog_kernel k_fs]. rewrite Hsb. vm_compute. discriminate.
  - apply refs_0_unreferenced; [exact Hm|exact Href|lia].
Defined.

Lemma syscall_refuses_witness :
  ∃ s' o, syscall_handler (call 2 7 6000 3) (prog_kernel prog_ps)
      = Done (set_eax MINUS_1 (call 2 7 6000 3)) s' o ∧
    prog_ok s' prog_pr [(HEAP_SIZE - 12, true)] ∧ k_ram s' = prog_ram ∧
    k_vm s' = k_vm (prog_kernel prog_ps) ∧ dir (k_fs s') = dir ram1.
Proof.
  apply (syscall_refuses (prog_kernel prog_ps) prog_pr [(HEAP_SIZE - 12, true)] (HEAP_START + 12)
    [(512, false); (HEAP_SIZE - 12 - 524, true)] (call 2 7 6000 3));
    [apply prog_kernel_ok|reflexivity|vm_compute; discriminate|].
  apply refused_read; reflexivity.
Defined.

Definition boot_pr : process_t := default (fresh0 0) (procs kernel_ps !! current_process kernel_ps).

Lemma syscall_print_and_exit_witness :
  ∃ s', syscall_handler (call 1 1 5000 2) (prog_kernel kernel_ps)
      = Done (set_eax 2 (call 1 1 5000 2)) (prog_kernel kernel_ps) [EvPutchar 104; EvPutchar 105] ∧
    syscall_handler (call 0 7 0 0) (prog_kernel kernel_ps) =
      Halted s' [exit_event boot_pr 7] ∧
    sched_ok (k_sched s') [p0] layout1 ∧
    state_at (k_sched s') (current_process (k_sched s')) = Some PROCESS_DEAD.
Proof.
  destruct kernel_ps_ok as [Hok _].
  apply (syscall_print_and_exit (prog_kernel kernel_ps) boot_pr (call 1 1 5000 2) (call 0 7 0 0)
    [5000; 5001] [p0] layout1); [|exact Hok|reflexivity|by left| | |reflexivity|reflexivity].
  - destruct (plinks_lookup _ _ _ (so_links _ _ _ Hok) (so_current _ _ _ Hok)) as [x Hx].
    unfold running, boot_pr. cbn [prog_kernel k_sched]. by rewrite Hx.
  - split; [discriminate|reflexivity].
  - split; [reflexivity|]. split; [reflexivity|exact I].
Defined.
