(* ===== verification/User.v ===== *)
(** * Programs in ring 3: user/libash.h, hello.c, readfile.c and usertest.c

    The wrappers of libash over the system call handler and the programs on top of them.
    A string constant or a buffer of a program is the address the linker gives it.  The
    entry and return of the interrupt (kernel/idt.s) hand the four registers to
    [syscall_handler] and its eax back, as Stubs.v shows.  The programs read and write their
    own pages through [translate]; that ring 3 may do so is what elf.c's flags are for
    ([program_loaded] in ElfProps.v). *)

From S2P Require Import Prelude Bytes Disk Heap Vmm Process Fs Idt Gdt Kernel Syscall.

Section user.
Context {D : Type} `{BlockOps D} `{Uninit}.

(** What the registers hold that a wrapper does not set, and the iterations after which
    a run of [strlen] counts as endless. *)
Context (junk_ecx junk_edx : Z) (fuel : nat).

Definition int80 (a b c d : Z) : K (kernel D) Z :=
  r ← syscall_handler (Registers 0x23 0 0 0 0 b d c a 128 0 0x400000 0x1B 0x202 0 0x23);
  mret (s32 (r_eax r)).

(** ** user/libash.h *)

Definition sys_exit (code : Z) : K (kernel D) unit :=
  _ ← int80 SYS_EXIT (u32 code) junk_ecx junk_edx;
  kdiverge.

Definition sys_write (str len : Z) : K (kernel D) Z := int80 SYS_WRITE 1 str (u32 len).
Definition sys_open (filename : Z) : K (kernel D) Z := int80 SYS_OPEN filename junk_ecx junk_edx.
Definition sys_read_fd (fd buf size : Z) : K (kernel D) Z := int80 SYS_READ (u32 fd) buf (u32 size).
Definition sys_close (fd : Z) : K (kernel D) unit :=
  _ ← int80 SYS_CLOSE (u32 fd) junk_ecx junk_edx; mret tt.

Definition strlen (str : Z) : K (kernel D) Z :=
  kwhile fuel (λ len,
    c ← load_byte (u32 (str + len));
    if c =? 0 then mret (inr len) else mret (inl (len + 1))) 0.

Definition print (str : Z) : K (kernel D) unit :=
  n ← strlen str; _ ← sys_write str n; mret tt.

(** [newline] is the address of the constant "\n". *)
Definition println (newline str : Z) : K (kernel D) unit :=
  print str;; _ ← sys_write newline 1; mret tt.

(** ** user/hello.c *)

Definition hello_main (newline hello libash : Z) : K (kernel D) unit :=
  println newline hello;;
  println newline libash;;
  sys_exit 0.

(** ** user/readfile.c: [_start] *)

Definition readfile_start (newline notes error contents buf : Z) : K (kernel D) unit :=
  fd ← sys_open notes;
  (if fd <? 0 then println newline error;; sys_exit 1 else mret tt);;
  bytes ← sys_read_fd fd buf 255;
  (if 0 <? bytes then
     store_byte (u32 (buf + bytes)) 0;;
     print contents;;
     println newline buf
   else mret tt);;
  sys_close fd;;
  sys_exit 0.

(** ** user/usertest.c: its own wrapper passes descriptor 0 *)

Definition usertest_write (str len : Z) : K (kernel D) unit :=
  _ ← int80 SYS_WRITE 0 str (u32 len); mret tt.
Definition usertest_exit (code : Z) : K (kernel D) unit :=
  _ ← int80 SYS_EXIT (u32 code) junk_ecx junk_edx; mret tt.

Definition user_program (hello i_am : Z) : K (kernel D) unit :=
  usertest_write hello 19;;
  usertest_write i_am 26;;
  usertest_exit 0;;
  kdiverge.
End user.
