(* ===== verification/UserThms.v ===== *)
(** * What the user programs print

    The programs of user/ on the kernel: their output and their end, through the system
    calls, the file system and the heap. *)

From S2P Require Import Prelude Bytes Kprintf Disk Pmm Heap Vmm Process ProcessThms ProcessSched ProcessLife.
From S2P Require Import ProcessProps Fs FsView FsSpec FsRead FsThms FsWitness Idt Gdt Kernel KernelThms Syscall SyscallThms SyscallProps User.

Section thms.
Context {D : Type} {O : BlockOps D} {B : BlockDevice D} {U : Uninit}.
Context (jc jd : Z) (fuel : nat).
Implicit Types s : kernel D.

(** A C string in program memory, perhaps with more behind it. *)
Definition text_at s (va : Z) (pas t : list Z) : Prop :=
  0 ≤ va < 2 ^ 32 ∧ window (k_vm s) va pas ∧ no_nul t ∧ (length t < fuel)%nat ∧
  ∃ rest, memory_at s pas = t ++ 0 :: rest.

Lemma text_length s va pas t : text_at s va pas t → (length t < length pas)%nat.
Proof.
  intros (_ & _ & _ & _ & rest & Hm). apply (f_equal length) in Hm.
  rewrite length_memory, length_app in Hm. simpl in Hm. lia.
Qed.

Lemma text_lookup s va pas t i :
  text_at s va pas t → (i ≤ length t)%nat →
  ∃ pa, translate (k_vm s) (u32 (va + Z.of_nat i)) = Some pa ∧ k_ram s pa = default 0 (t !! i).
Proof.
  intros Ht Hi. pose proof (text_length _ _ _ _ Ht). destruct Ht as (Hva & Hw & _ & _ & rest & Hm).
  destruct (lookup_lt_is_Some_2 pas i) as [pa Hpa]; [lia|]. exists pa.
  split; [by eapply window_lookup|].
  assert (memory_at s pas !! i = Some (k_ram s pa)) as Hl.
  { unfold memory_at. by rewrite list_lookup_fmap, Hpa. }
  rewrite Hm in Hl. destruct (decide (i < length t)%nat).
  - rewrite lookup_app_l in Hl by lia. by rewrite Hl.
  - rewrite lookup_app_r in Hl by lia. replace (i - length t)%nat with 0%nat in Hl by lia.
    rewrite lookup_ge_None_2 by lia. cbn in *. by injection Hl as <-.
Qed.

Lemma user_strlen_spec s va pas t :
  text_at s va pas t →
  wp (strlen fuel va) s (λ n s' o, n = Z.of_nat (length t) ∧ s' = s ∧ o = []).
Proof.
  intros Ht. pose proof Ht as (_ & _ & Hn & Hf & _). unfold strlen.
  apply wp_kwhile with (I := λ n s' o, 0 ≤ n ≤ Z.of_nat (length t) ∧ s' = s ∧ o = [])
    (measure := λ n _, (length t - Z.to_nat n)%nat); [lia|split; [lia|done]|].
  intros n s' o (Hr & -> & ->). destruct (text_lookup s va pas t (Z.to_nat n) Ht) as (pa & Hpa & Hv); [lia|].
  rewrite Z2Nat.id in Hpa by lia. wp_steps. eapply wp_load_byte; [exact Hpa|]. rewrite Hv.
  destruct (decide (n = Z.of_nat (length t))) as [->|Hne].
  - rewrite lookup_ge_None_2 by lia. wp_steps. done.
  - destruct (lookup_lt_is_Some_2 t (Z.to_nat n)) as [c Hc]; [lia|]. rewrite Hc.
    change (default 0 (Some c)) with c.
    rewrite (proj2 (Z.eqb_neq c 0)) by (by apply (Forall_lookup_1 _ _ _ _ Hn Hc)).
    wp_steps. split; [lia|]. split; [lia|done].
Qed.

(** The stub hands the registers over and the result back. *)
Lemma int80_spec a b c d s r s' o :
  syscall_handler (Registers 0x23 0 0 0 0 b d c a 128 0 0x400000 0x1B 0x202 0 0x23) s = Done r s' o →
  int80 a b c d s = Done (s32 (r_eax r)) s' o.
Proof. intros E. unfold int80, mbind, K_bind, mret, K_ret. rewrite E. by rewrite app_nil_r. Qed.

Lemma user_write_spec s va pas t n :
  text_at s va pas t → n = Z.of_nat (length t) → n < 2 ^ 31 →
  sys_write va n s = Done n s (map EvPutchar t).
Proof.
  intros Ht -> Hmax. pose proof (text_length _ _ _ _ Ht). destruct Ht as (Hva & Hw & _ & _ & rest & Hm).
  rewrite <-(take_drop (length t) pas) in Hw, Hm. apply window_app in Hw as [Hw _]; [|exact Hva].
  unfold memory_at in Hm. rewrite map_app in Hm. apply app_inj_1 in Hm as [Hm _].
  2: { rewrite length_map, length_take. lia. }
  unfold sys_write. rewrite u32_small by lia.
  set (regs := Registers 0x23 0 0 0 0 1 (Z.of_nat (length t)) va SYS_WRITE 128 0 0x400000 0x1B 0x202 0 0x23).
  assert (syscall_handler regs s = Done (set_eax (r_edx regs) regs) s
    (map EvPutchar (memory_at s (take (length t) pas)))) as E.
  { rewrite (handler_eq regs SYS_WRITE s eq_refl). apply sys_stdout_ok; [by left|exact Hva|exact Hw|].
    cbn [regs r_edx]. rewrite length_take. lia. }
  rewrite (int80_spec _ _ _ _ _ _ _ _ E). cbn [set_eax r_eax regs r_edx]. rewrite s32_small by lia.
  unfold memory_at. by rewrite Hm.
Qed.

Lemma print_spec s va pas t (Q : unit → kernel D → list event → Prop) :
  text_at s va pas t → Z.of_nat (length t) < 2 ^ 31 → Q tt s (map EvPutchar t) → wp (print fuel va) s Q.
Proof.
  intros Ht Hmax HQ. unfold print. wp_steps. eapply wp_mono; [by eapply user_strlen_spec|].
  intros n s' o (-> & -> & ->). wp_steps. eapply wp_of_done; [by eapply user_write_spec|].
  wp_steps. by rewrite app_nil_r.
Qed.

Lemma println_spec s nl va pas pas_nl t (Q : unit → kernel D → list event → Prop) :
  text_at s va pas t → text_at s nl pas_nl [10] → Z.of_nat (length t) < 2 ^ 31 →
  Q tt s (map EvPutchar (t ++ [10])) → wp (println fuel nl va) s Q.
Proof.
  intros Ht Hnl Hmax HQ. unfold println. wp_steps. eapply print_spec; [exact Ht|exact Hmax|]. wp_steps.
  eapply wp_of_done; [eapply user_write_spec; [exact Hnl|done|done]|]. wp_steps.
  rewrite map_app in HQ. by rewrite app_nil_r.
Qed.

Lemma user_exit_spec s pr code (Q : kernel D → list event → Prop) :
  running s = Some pr → 0 ≤ code < 2 ^ 32 →
  Q (put_running (set_state PROCESS_DEAD pr) s) [exit_event pr code] → hp (sys_exit jc jd code) s Q.
Proof.
  intros Hr Hc HQ. unfold sys_exit. apply hp_bind_halt. unfold int80. apply hp_bind_halt.
  eapply hp_of_halted; [by apply (handler_exit s pr)|]. cbn [r_ebx]. by rewrite u32_small.
Qed.

(** ** Reading a file *)

(** The memory of readfile: its constants, and 256 bytes of buffer that none of the
    constants it prints later shares. *)
Record readfile_memory s (nl notes contents buf : Z) (pas_nl pas_notes pas_con pas_buf : list Z) : Prop := {
  rm_notes : path_at s notes pas_notes (ascii_codes "notes.txt");
  rm_contents : text_at s contents pas_con (ascii_codes "File contents: ");
  rm_nl : text_at s nl pas_nl [10];
  rm_buf : 0 ≤ buf < 2 ^ 32 ∧ window (k_vm s) buf pas_buf ∧ NoDup pas_buf ∧ length pas_buf = 256%nat;
  rm_apart : Forall (λ a, ¬ (a ∈ pas_con) ∧ ¬ (a ∈ pas_nl)) pas_buf;
  rm_fuel : (256 ≤ fuel)%nat;
}.

Lemma text_elsewhere s s' va pas t :
  text_at s va pas t → k_vm s' = k_vm s → (∀ a, a ∈ pas → k_ram s' a = k_ram s a) → text_at s' va pas t.
Proof.
  intros (Hva & Hw & Hn & Hf & rest & Hm) Hv Hr. split; [exact Hva|]. split; [by rewrite Hv|].
  split; [exact Hn|]. split; [exact Hf|]. exists rest. rewrite <-Hm. unfold memory_at.
  apply map_ext_in. intros a Ha. apply Hr. by apply list_elem_of_In.
Qed.

(** The buffer after [read] and [buf[bytes] = 0]. *)
Lemma terminated_buffer s s' buf pas n c old m :
  0 ≤ buf < 2 ^ 32 → window (k_vm s') buf pas → NoDup pas → length pas = 256%nat →
  n = Nat.min 255 (length c) → (256 ≤ fuel)%nat →
  stored (take 255 pas) (take n c ++ drop n old) (k_ram s) (k_ram s') → length old = 255%nat →
  pas !! n = Some m →
  text_at (set_ram (write_byte m 0 (k_ram s')) s') buf pas (cstr (take n c)).
Proof.
  intros Hbuf Hw Hnd Hlen Hn Hf [Hst _] Hold Hm.
  assert (length (take n c) = n) as Htn by (rewrite length_take; lia).
  assert (memory_at s' pas = take n c ++ drop n (map (k_ram s') pas)) as Hmem.
  { unfold memory_at. rewrite <-(take_drop 255 pas) at 1. rewrite map_app, Hst, <-app_assoc. f_equal.
    rewrite <-(take_drop 255 pas) at 2. rewrite map_app, Hst, <-app_assoc.
    rewrite drop_app_length'; [done|exact (eq_sym Htn)]. }
  assert (memory_at (set_ram (write_byte m 0 (k_ram s')) s') pas =
    take n c ++ 0 :: drop (S n) (map (k_ram s') pas)) as Hmem'.
  { transitivity (<[n := 0]> (memory_at s' pas)).
    - unfold memory_at. apply list_eq. intros i. rewrite !list_lookup_fmap.
      destruct (decide (i = n)) as [->|Hne].
      + rewrite list_lookup_insert_eq by (rewrite length_map; lia). rewrite Hm. cbn.
        unfold write_byte. by rewrite Z.eqb_refl.
      + rewrite list_lookup_insert_ne, list_lookup_fmap by done. destruct (pas !! i) as [a|] eqn:Ha; [|done].
        cbn. unfold write_byte. rewrite (proj2 (Z.eqb_neq a m)); [done|]. intros ->.
        apply Hne. by eapply NoDup_lookup.
    - rewrite Hmem. rewrite insert_app_r_alt by lia. rewrite Htn, Nat.sub_diag. f_equal.
      destruct (drop n (map (k_ram s') pas)) as [|y l] eqn:Ed.
      { apply (f_equal length) in Ed. rewrite length_drop, length_map in Ed. simpl in Ed. lia. }
      cbn. f_equal. replace (S n) with (n + 1)%nat by lia. by rewrite <-drop_drop, Ed. }
  split; [exact Hbuf|]. split; [exact Hw|]. split; [apply cstr_no_nul|]. split.
  { pose proof (cstr_le_length (take n c)). lia. }
  rewrite Hmem'. clear. generalize (take n c) as l, (drop (S n) (map (k_ram s') pas)) as r. intros l r.
  induction l as [|x l IH]; [by exists r|]. cbn [cstr app]. destruct (Z.eqb_spec x 0) as [->|].
  - by eexists.
  - destruct IH as [rest IH]. exists rest. cbn [app]. by rewrite IH.
Qed.

(** What is printed after [read]: nothing for an empty file. *)
Definition readfile_output (c : list Z) : list Z :=
  match c with
  | [] => []
  | _ => ascii_codes "File contents: " ++ cstr (take 255 c) ++ [10]
  end.

Lemma readfile_print s s' pr hl fd name nl notes contents buf pas_nl pas_notes pas_con pas_buf c old
    (Q : unit → kernel D → list event → Prop) :
  readfile_memory s nl notes contents buf pas_nl pas_notes pas_con pas_buf →
  session s pr hl fd name s' → length old = 255%nat →
  let n := Nat.min 255 (length c) in
  stored (take 255 pas_buf) (take n c ++ drop n old) (k_ram s) (k_ram s') →
  (∀ m, session s pr hl fd name (set_ram m s') → Q tt (set_ram m s') (map EvPutchar (readfile_output c))) →
  wp (if 0 <? Z.of_nat n then
        store_byte (u32 (buf + Z.of_nat n)) 0;; print fuel contents;; println fuel nl buf
      else mret tt) s' Q.
Proof.
  intros [_ Hcon Hnl (Hbuf & Hw & Hnd & Hlen) Hapart Hf] Hs Hold n Hst HQ.
  destruct (Z.ltb_spec 0 (Z.of_nat n)) as [Hpos|Hz].
  2: { wp_steps. assert (c = []) as -> by (destruct c; [done|simpl in *; lia]).
       specialize (HQ (k_ram s') (session_ram _ _ _ _ _ _ _ Hs)). by destruct s'. }
  destruct (lookup_lt_is_Some_2 pas_buf n) as [m Hm]; [lia|].
  pose proof (ss_vm _ _ _ _ _ _ Hs) as Hv. rewrite <-Hv in Hw. wp_steps.
  eapply wp_store_byte; [by eapply window_lookup|].
  pose proof (terminated_buffer s s' buf pas_buf n c old m Hbuf Hw Hnd Hlen eq_refl Hf Hst Hold Hm) as Htext.
  set (s3 := set_ram (write_byte m 0 (k_ram s')) s') in *.
  assert (∀ va pas t, text_at s va pas t → (∀ a, a ∈ pas_buf → a ∉ pas) → text_at s3 va pas t) as Hother.
  { intros va pas t Ht Hne. apply (text_elsewhere s s3); [exact Ht|exact Hv|]. intros a Ha.
    cbn [s3 set_ram k_ram]. unfold write_byte. destruct (Z.eqb_spec a m) as [->|].
    - exfalso. apply (Hne m); [by eapply list_elem_of_lookup_2|exact Ha].
    - destruct Hst as [_ Hst]. apply Hst. intros Hin. apply (Hne a); [|exact Ha].
      rewrite <-(take_drop 255 pas_buf). apply elem_of_app. by left. }
  rewrite Forall_forall in Hapart. wp_steps.
  eapply print_spec; [apply (Hother _ _ _ Hcon); intros a Ha; by apply Hapart|done|].
  eapply println_spec; [exact Htext|apply (Hother _ _ _ Hnl); intros a Ha; by apply Hapart| |].
  { pose proof (cstr_le_length (take n c)). rewrite length_take in *. lia. }
  specialize (HQ _ (session_ram _ _ _ _ _ _ (write_byte m 0 (k_ram s')) Hs)).
  assert (take n c = take 255 c) as Hn.
  { unfold n. destruct (decide (255 ≤ length c)%nat); [by rewrite Nat.min_l by lia|].
    rewrite Nat.min_r by lia. by rewrite !take_ge by lia. }
  rewrite Hn. destruct c as [|x c]; [simpl in *; lia|]. cbn [readfile_output] in HQ.
  rewrite map_app in HQ. exact HQ.
Qed.

Definition user_regs (a b c d : Z) : registers_t :=
  Registers 0x23 0 0 0 0 b d c a 128 0 0x400000 0x1B 0x202 0 0x23.

Lemma readfile_missing s pr hl q hl' fd nl notes error contents buf pas_nl pas_notes pas_err :
  prog_ok s pr hl → first_fit (align4 512) HEAP_START hl = Some (q, hl') → first_free (fds pr) fd →
  path_at s notes pas_notes (ascii_codes "notes.txt") → text_at s nl pas_nl [10] →
  text_at s error pas_err (ascii_codes "Error: could not open notes.txt") →
  dir (k_fs s) !! ascii_codes "notes.txt" = None →
  hp (readfile_start jc jd fuel nl notes error contents buf) s (λ s' o,
    (∃ nm, cstr nm = ascii_codes "notes.txt" ∧ o = EvPrintf "FS: file '%s' not found\n" [AStr nm] ::
      map EvPutchar (ascii_codes "Error: could not open notes.txt" ++ [10]) ++ [exit_event pr 1]) ∧
    running s' = Some (set_state PROCESS_DEAD pr) ∧ dir (k_fs s') = dir (k_fs s) ∧ heap_ready s' hl).
Proof.
  intros Hok E Hfree Hpath Hnl Herr Hdir.
  destruct (open_missing s pr hl q hl' (user_regs SYS_OPEN notes jc jd) pas_notes _ fd Hok E Hpath Hdir Hfree)
    as (h & f & nm & Eo & Hnm & Hok' & Hd'). cbv zeta in Eo.
  set (s1 := put_heap h (set_kfs f s)) in *.
  assert (sys_open jc jd notes s = Done (-1) s1 [EvPrintf "FS: file '%s' not found\n" [AStr nm]]) as E1.
  { unfold sys_open. rewrite (int80_spec SYS_OPEN notes jc jd s _ _ _ Eo). reflexivity. }
  unfold readfile_start. apply hp_bind. eapply wp_of_done; [exact E1|].
  change (-1 <? 0) with true. cbn iota. apply hp_bind_halt, hp_bind.
  assert (∀ va pas t, text_at s va pas t → text_at s1 va pas t) as Hkeep.
  { intros va pas t Ht. apply (text_elsewhere s s1); [exact Ht|reflexivity|reflexivity]. }
  eapply println_spec; [apply Hkeep, Herr|apply Hkeep, Hnl|reflexivity|].
  eapply (user_exit_spec s1 pr); [apply Hok'|lia|]. split.
  { exists nm. split; [exact Hnm|reflexivity]. }
  split; [apply put_running_running|]. exact (conj Hd' (po_heap _ _ _ Hok')).
Qed.

Lemma readfile_found s pr hl q hl' fd nl notes error contents buf pas_nl pas_notes pas_con pas_buf c :
  prog_ok s pr hl → first_fit (align4 512) HEAP_START hl = Some (q, hl') → first_free (fds pr) fd →
  readfile_memory s nl notes contents buf pas_nl pas_notes pas_con pas_buf →
  dir (k_fs s) !! ascii_codes "notes.txt" = Some c →
  hp (readfile_start jc jd fuel nl notes error contents buf) s (λ s' o,
    o = map EvPutchar (readfile_output c) ++ [exit_event pr 0] ∧
    ∃ x, running s' = Some (set_state PROCESS_DEAD (with_fd pr fd x)) ∧
    dir (k_fs s') = dir (k_fs s) ∧ heap_ready s' hl).
Proof.
  intros Hok E Hfree Hmem Hdir. destruct (first_free_open _ _ Hfree) as [Hfd _].
  pose proof (po_table _ _ _ Hok) as Htab. pose proof (rm_buf _ _ _ _ _ _ _ _ _ Hmem) as (Hbuf & Hw & Hnd & Hlen).
  destruct (session_open s pr hl q hl' (user_regs SYS_OPEN notes jc jd) pas_notes _ c fd Hok E
    (rm_notes _ _ _ _ _ _ _ _ _ Hmem) Hdir Hfree) as (s1 & E1 & Hs1 & He1 & Hram1).
  pose proof (proj2 (mounted_eqv _ _ (po_fs _ _ _ Hok) He1)) as Hdir1.
  rewrite <-(take_drop 255 pas_buf) in Hw. apply window_app in Hw as [Hw _]; [|exact Hbuf].
  assert (length (take 255 pas_buf) = 255%nat) as Hl255 by (rewrite length_take; lia).
  destruct (session_read s pr hl fd _ Htab Hfd s1 (user_regs SYS_READ fd buf 255) (take 255 pas_buf) c Hs1)
    as (s2 & E2 & Hs2 & Hst & Hdir2);
    [rewrite Hdir1; exact Hdir|reflexivity|exact Hw| |cbn [user_regs r_edx]; lia|lia|].
  { rewrite <-(take_drop 255 pas_buf) in Hnd. by apply NoDup_app in Hnd as [Hnd _]. }
  cbv zeta in E2, Hst. rewrite Hl255 in E2, Hst. set (n := Nat.min 255 (length c)) in *.
  assert (sys_open jc jd notes s = Done fd s1 []) as E1'.
  { unfold sys_open. rewrite (int80_spec SYS_OPEN notes jc jd s _ _ _ E1). cbn [set_eax r_eax].
    rewrite s32_small by lia. reflexivity. }
  assert (sys_read_fd fd buf 255 s1 = Done (Z.of_nat n) s2 []) as E2'.
  { unfold sys_read_fd. rewrite !u32_small by lia. rewrite (int80_spec SYS_READ fd buf 255 s1 _ _ _ E2).
    cbn [set_eax r_eax]. rewrite s32_small by lia. reflexivity. }
  unfold readfile_start. apply hp_bind. eapply wp_of_done; [exact E1'|].
  destruct (Z.ltb_spec fd 0); [lia|]. apply hp_bind, wp_ret, hp_bind. eapply wp_of_done; [exact E2'|].
  apply hp_bind. eapply (readfile_print s s2 pr hl fd _ _ _ _ _ _ _ _ _ c (memory_at s1 (take 255 pas_buf)));
    [exact Hmem|exact Hs2|rewrite length_memory; exact Hl255|rewrite <-Hram1; exact Hst|].
  intros m Hs3. set (s3 := set_ram m s2) in *.
  destruct (session_close s pr hl fd _ Htab Hfd s3 (user_regs SYS_CLOSE fd jc jd) Hs3 eq_refl)
    as (s4 & y & E4 & Hh4 & Hf4 & Hr4 & _).
  apply hp_bind. eapply wp_of_done.
  { unfold sys_close. rewrite u32_small by lia. unfold mbind, K_bind.
    rewrite (int80_spec SYS_CLOSE fd jc jd s3 _ _ _ E4). reflexivity. }
  eapply (user_exit_spec s4); [exact Hr4|lia|]. split; [reflexivity|]. exists y.
  split; [apply put_running_running|]. split; [|exact Hh4].
  change (k_fs (put_running _ s4)) with (k_fs s4). rewrite Hf4. change (k_fs s3) with (k_fs s2).
  exact (eq_trans Hdir2 Hdir1).
Qed.

(** ** The theorems *)

(** C9.  readfile prints the file: whatever notes.txt holds, the program writes the
    heading, the first 255 bytes up to a NUL and a newline to the terminal (nothing for an
    empty file) and exits with code 0; without the file it prints its error message and
    exits with code 1.  Files and heap are as before, the process is dead. *)
Theorem readfile_prints s pr hl q hl' fd nl notes error contents buf pas_nl pas_notes pas_err pas_con pas_buf :
  prog_ok s pr hl → first_fit (align4 512) HEAP_START hl = Some (q, hl') → first_free (fds pr) fd →
  readfile_memory s nl notes contents buf pas_nl pas_notes pas_con pas_buf →
  text_at s error pas_err (ascii_codes "Error: could not open notes.txt") →
  ∃ s' o pr', readfile_start jc jd fuel nl notes error contents buf s = Halted s' o ∧
    match dir (k_fs s) !! ascii_codes "notes.txt" with
    | Some c => o = map EvPutchar (readfile_output c) ++ [exit_event pr 0]
    | None => ∃ nm, cstr nm = ascii_codes "notes.txt" ∧
        o = EvPrintf "FS: file '%s' not found\n" [AStr nm] ::
            map EvPutchar (ascii_codes "Error: could not open notes.txt" ++ [10]) ++ [exit_event pr 1]
    end ∧
    running s' = Some pr' ∧ p_state pr' = PROCESS_DEAD ∧ dir (k_fs s') = dir (k_fs s) ∧ heap_ready s' hl.
Proof.
  intros Hok E Hfree Hmem Herr. destruct (dir (k_fs s) !! ascii_codes "notes.txt") as [c|] eqn:Hdir.
  - destruct (hp_halted _ _ _ (readfile_found s pr hl q hl' fd nl notes error contents buf pas_nl pas_notes
      pas_con pas_buf c Hok E Hfree Hmem Hdir)) as (s' & o & Eo & -> & x & Hr & Hd & Hh).
    eexists s', _, _. split; [exact Eo|]. split; [reflexivity|]. split; [exact Hr|]. split; [reflexivity|].
    exact (conj Hd Hh).
  - destruct (hp_halted _ _ _ (readfile_missing s pr hl q hl' fd nl notes error contents buf pas_nl pas_notes
      pas_err Hok E Hfree (rm_notes _ _ _ _ _ _ _ _ _ Hmem) (rm_nl _ _ _ _ _ _ _ _ _ Hmem) Herr Hdir))
      as (s' & o & Eo & (nm & Hnm & ->) & Hr & Hd & Hh).
    eexists s', _, _. split; [exact Eo|].
    split; [exists nm; split; [exact Hnm|reflexivity]|]. split; [exact Hr|].
    split; [reflexivity|]. exact (conj Hd Hh).
Qed.

(** hello prints its two lines and exits with code 0. *)
Theorem hello_prints s pr nl hello libash pas_nl pas1 pas2 :
  running s = Some pr → text_at s nl pas_nl [10] →
  text_at s hello pas1 (ascii_codes "Hello from ELF!") → text_at s libash pas2 (ascii_codes "Using libash!") →
  hello_main jc jd fuel nl hello libash s = Halted (put_running (set_state PROCESS_DEAD pr) s)
    (map EvPutchar (ascii_codes "Hello from ELF!" ++ [10] ++ ascii_codes "Using libash!" ++ [10])
     ++ [exit_event pr 0]).
Proof.
  intros Hr Hnl H1 H2. assert (hp (hello_main jc jd fuel nl hello libash) s (λ s' o,
    s' = put_running (set_state PROCESS_DEAD pr) s ∧ o = map EvPutchar (ascii_codes "Hello from ELF!" ++
      [10] ++ ascii_codes "Using libash!" ++ [10]) ++ [exit_event pr 0])) as H.
  { unfold hello_main. apply hp_bind. eapply println_spec; [exact H1|exact Hnl|reflexivity|].
    apply hp_bind. eapply println_spec; [exact H2|exact Hnl|reflexivity|].
    eapply user_exit_spec; [exact Hr|lia|]. split; reflexivity. }
  destruct (hp_halted _ _ _ H) as (? & ? & E & -> & ->). exact E.
Qed.

(** A write to a descriptor whose name the directory does not have. *)
Lemma write_nowhere (f : fs D) name data size :
  mounted f → name_arg name → dir f !! cstr name = None →
  wp (fs_write name data size) f (λ r f' o, r = -1 ∧ fs_eqv f f' ∧
    o = [EvPrintf "FS: file '%s' not found\n" [AStr name]]).
Proof.
  intros Hm Hname Hdir. unfold fs_write. wp_steps.
  eapply wp_mono; [apply (find_dir f name); [apply Hm|exact Hname]|].
  intros r f' o (-> & He & [(_ & _ & _ & H)|[-> _]]); [congruence|]. wp_steps. done.
Qed.

Lemma usertest_write_lost s pr hl x str len :
  prog_ok s pr hl → aget (fds pr) 0 = Some x → fd_used x ≠ 0 → name_arg (fd_name x) →
  dir (k_fs s) !! cstr (fd_name x) = None →
  wp (usertest_write str len) s (λ _ s' o, prog_ok s' pr hl ∧ dir (k_fs s') = dir (k_fs s) ∧
    o = [EvPrintf "FS: file '%s' not found\n" [AStr (fd_name x)]]).
Proof.
  intros [Hrun Htab Hm Hheap] Hx Hu Hname Hdir. set (regs := user_regs SYS_WRITE 0 str (u32 len)).
  assert (wp (Syscall.sys_write regs) s (λ _ s' o, prog_ok s' pr hl ∧ dir (k_fs s') = dir (k_fs s) ∧
    o = [EvPrintf "FS: file '%s' not found\n" [AStr (fd_name x)]])) as H.
  { unfold Syscall.sys_write. cbn [regs user_regs r_ebx Z.eqb orb]. wp_steps.
    eapply fd_open_spec; [exact Hrun|exact Htab|lia|]. unfold slot_used. rewrite Hx.
    rewrite (proj2 (Z.eqb_neq _ _) Hu). cbn [negb]. wp_steps.
    eapply current_fd_spec; [exact Hrun|exact Hx|]. wp_steps. apply wp_zoom.
    eapply wp_mono; [by apply write_nowhere|]. intros r f o (-> & He & ->). wp_steps.
    destruct (mounted_eqv _ _ Hm He) as [Hm' Hd']. split; [|split; [exact Hd'|reflexivity]].
    constructor; [exact Hrun|exact Htab|exact Hm'|exact Hheap]. }
  destruct (wp_done _ _ _ H) as (r & s' & o & E & Hs'). unfold usertest_write. wp_steps.
  pose proof (handler_eq regs SYS_WRITE s eq_refl) as E2. cbn [Z.eqb SYS_WRITE SYS_EXIT] in E2.
  eapply wp_of_done; [exact (int80_spec _ _ _ _ _ _ _ _ (eq_trans E2 E))|]. wp_steps. by rewrite app_nil_r.
Qed.

(** What usertest means to print never reaches the terminal: its wrapper passes
    descriptor 0, which is in use in every process and stands for a file whose name was
    never set; the file system prints an error instead, twice. *)
Theorem usertest_output_lost s pr hl x hello i_am :
  prog_ok s pr hl → aget (fds pr) 0 = Some x → fd_used x ≠ 0 → name_arg (fd_name x) →
  dir (k_fs s) !! cstr (fd_name x) = None →
  ∃ s', user_program jc jd hello i_am s = Halted s'
    [EvPrintf "FS: file '%s' not found\n" [AStr (fd_name x)];
     EvPrintf "FS: file '%s' not found\n" [AStr (fd_name x)]; exit_event pr 0].
Proof.
  intros Hok Hx Hu Hname Hdir.
  assert (hp (user_program jc jd hello i_am) s (λ s' o, o =
    [EvPrintf "FS: file '%s' not found\n" [AStr (fd_name x)];
     EvPrintf "FS: file '%s' not found\n" [AStr (fd_name x)]; exit_event pr 0])) as H.
  { unfold user_program. apply hp_bind. eapply wp_mono; [exact (usertest_write_lost s pr hl x _ _ Hok Hx Hu Hname Hdir)|].
    intros _ s1 o1 (Hok1 & Hd1 & ->). apply hp_bind.
    rewrite <-Hd1 in Hdir.
    eapply wp_mono; [exact (usertest_write_lost s1 pr hl x _ _ Hok1 Hx Hu Hname Hdir)|].
    intros _ s2 o2 (Hok2 & _ & ->). apply hp_bind_halt. unfold usertest_exit. apply hp_bind_halt.
    unfold int80. apply hp_bind_halt. eapply hp_of_halted; [apply (handler_exit s2 pr (user_regs SYS_EXIT 0 jc jd)); [apply Hok2|reflexivity]|].
    reflexivity. }
  destruct (hp_halted _ _ _ H) as (s' & o & E & ->). by exists s'.
Qed.
End thms.

(** ** Witnesses: a program with its constants in memory, a disk with notes.txt *)

Definition place (a : Z) (l : list Z) (m : Z → Z) (k : Z) : Z :=
  if k <? a then m k else default (m k) (l !! Z.to_nat (k - a)).
Definition user_ram : Z → Z :=
  place 4096 (c_literal "notes.txt") (place 4200 [10; 0] (place 4300 (c_literal "Error: could not open notes.txt")
    (place 4400 (c_literal "File contents: ") (place 5400 (c_literal "Hello from ELF!")
      (place 5500 (c_literal "Using libash!") (λ _, 0)))))).

Definition notes_name : list Z := c_literal "notes.txt".
Definition notes0 : fs ram_disk := final ram0 (fs_create notes_name ram0).
Definition notes1 : fs ram_disk := final notes0 (fs_write notes_name hi 2 notes0).
Definition user_kernel (f : fs ram_disk) : kernel ram_disk :=
  Kernel prog_ps (Vmm [] pmm_boot (λ _, 0) false) f seg0 (Line (replicate 256 0) 0) user_ram.

Lemma flat_window n : ∀ a, 0 ≤ a → a + Z.of_nat n ≤ 2 ^ 32 - 1 →
  window (Vmm [] pmm_boot (λ _, 0) false) a (seqZ a (Z.of_nat n)).
Proof.
  induction n as [|n IH]; intros a Ha Hn; [done|]. rewrite seqZ_cons by lia.
  replace (Z.pred (Z.of_nat (S n))) with (Z.of_nat n) by lia.
  replace (Z.succ a) with (u32 (a + 1)) by (rewrite u32_small; lia).
  split; [reflexivity|]. apply IH; rewrite u32_small; lia.
Qed.

Lemma user_text f a t :
  0 ≤ a < 10000 → no_nul t → (length t < 300)%nat →
  map user_ram (seqZ a (Z.of_nat (S (length t)))) = t ++ [0] →
  text_at 300 (user_kernel f) a (seqZ a (Z.of_nat (S (length t)))) t.
Proof.
  intros Ha Hn Hl Hm. split; [lia|]. split; [apply (flat_window (S (length t))); lia|].
  split; [exact Hn|]. split; [exact Hl|]. exists []. exact Hm.
Qed.

Lemma notes1_spec : mounted notes1 ∧ dir notes1 = {[ascii_codes "notes.txt" := hi]}.
Proof.
  assert (name_arg notes_name) as Hname by (apply (bool_decide_unpack _); vm_compute; exact I).
  destruct (create_spec notes_name Hname ltac:(simpl; lia)) as (Hm & Hd & Hsb & Href).
  fold notes0 in Hm, Hd, Hsb, Href.
  destruct (fs_write_ok notes0 notes_name hi 2 33) as (s' & o & E & Hm' & Hd' & _);
    [exact Hm|exact Hname|repeat constructor; unfold byte_ok; lia|lia|simpl; lia| | |lia| |].
  - rewrite Hd. exists []. apply lookup_singleton_eq.
  - rewrite Hsb. vm_compute. discriminate.
  - apply refs_0_unreferenced; [exact Hm|exact Href|lia].
  - unfold notes1. rewrite E. cbn [final]. split; [exact Hm'|]. rewrite Hd', Hd.
    rewrite insert_singleton_eq. reflexivity.
Qed.

Lemma user_prog_ok f : mounted f → prog_ok (user_kernel f) prog_pr [(HEAP_SIZE - 12, true)].
Proof.
  intros Hm. destruct prog_kernel_ok as [Hr Ht _ Hh]. constructor; [exact Hr|exact Ht|exact Hm|exact Hh].
Qed.

Lemma readfile_memory0 f :
  readfile_memory 300 (user_kernel f) 4200 4096 4400 5000 (seqZ 4200 2) (seqZ 4096 10) (seqZ 4400 16) (seqZ 5000 256).
Proof.
  constructor.
  - split; [lia|]. split; [apply (flat_window 10); lia|]. split; [reflexivity|].
    split; [apply (bool_decide_unpack _); vm_compute; exact I|].
    split; [apply (bool_decide_unpack _); vm_compute; exact I|simpl; lia].
  - apply (user_text f 4400 (ascii_codes "File contents: "));
      [lia|apply (bool_decide_unpack _); vm_compute; exact I|simpl; lia|reflexivity].
  - apply (user_text f 4200 [10]); [lia|by repeat constructor|simpl; lia|reflexivity].
  - split; [lia|]. split; [apply (flat_window 256); lia|]. split; [apply NoDup_seqZ|reflexivity].
  - apply Forall_forall. intros a Ha%elem_of_seqZ. rewrite !elem_of_seqZ. lia.
  - lia.
Qed.

Lemma readfile_prints_witness :
  ∃ s' o pr', readfile_start 0 0 300 4200 4096 4300 4400 5000 (user_kernel notes1) = Halted s' o ∧
    o = map EvPutchar (ascii_codes "File contents: " ++ hi ++ [10]) ++ [exit_event prog_pr 0] ∧
    running s' = Some pr' ∧ p_state pr' = PROCESS_DEAD ∧ dir (k_fs s') = dir notes1 ∧
    heap_ready s' [(HEAP_SIZE - 12, true)].
Proof.
  destruct notes1_spec as [Hm Hd].
  assert (dir (k_fs (user_kernel notes1)) !! ascii_codes "notes.txt" = Some hi) as Hl.
  { cbn [user_kernel k_fs]. rewrite Hd. apply lookup_singleton_eq. }
  pose proof (readfile_prints 0 0 300 (user_kernel notes1) prog_pr [(HEAP_SIZE - 12, true)] (HEAP_START + 12)
    [(512, false); (HEAP_SIZE - 12 - 524, true)] 3 4200 4096 4300 4400 5000 (seqZ 4200 2) (seqZ 4096 10)
    (seqZ 4300 32) (seqZ 4400 16) (seqZ 5000 256) (user_prog_ok _ Hm) eq_refl) as H.
  rewrite Hl in H. apply H.
  - split; [lia|]. split; [reflexivity|]. intros i Hi. lia.
  - apply readfile_memory0.
  - apply (user_text notes1 4300 (ascii_codes "Error: could not open notes.txt"));
      [lia|apply (bool_decide_unpack _); vm_compute; exact I|simpl; lia|reflexivity].
Defined.

Lemma hello_prints_witness :
  hello_main 0 0 300 4200 5400 5500 (user_kernel notes1) =
    Halted (put_running (set_state PROCESS_DEAD prog_pr) (user_kernel notes1))
    (map EvPutchar (ascii_codes "Hello from ELF!" ++ [10] ++ ascii_codes "Using libash!" ++ [10])
     ++ [exit_event prog_pr 0]).
Proof.
  apply (hello_prints 0 0 300 (user_kernel notes1) prog_pr 4200 5400 5500 (seqZ 4200 2) (seqZ 5400 16) (seqZ 5500 14)).
  - apply lookup_singleton_eq.
  - apply (user_text notes1 4200 [10]); [lia|by repeat constructor|simpl; lia|reflexivity].
  - apply (user_text notes1 5400 (ascii_codes "Hello from ELF!"));
      [lia|apply (bool_decide_unpack _); vm_compute; exact I|simpl; lia|reflexivity].
  - apply (user_text notes1 5500 (ascii_codes "Using libash!"));
      [lia|apply (bool_decide_unpack _); vm_compute; exact I|simpl; lia|reflexivity].
Defined.

Lemma usertest_output_lost_witness :
  ∃ s', user_program 0 0 5400 5500 (user_kernel notes1) = Halted s'
    [EvPrintf "FS: file '%s' not found\n" [AStr (replicate 64 0)];
     EvPrintf "FS: file '%s' not found\n" [AStr (replicate 64 0)]; exit_event prog_pr 0].
Proof.
  destruct notes1_spec as [Hm Hd].
  apply (usertest_output_lost 0 0 (user_kernel notes1) prog_pr [(HEAP_SIZE - 12, true)] std_fd 5400 5500).
  - by apply user_prog_ok.
  - reflexivity.
  - discriminate.
  - split; [apply std_fd_ok|apply (bool_decide_unpack _); reflexivity].
  - cbn [user_kernel k_fs]. rewrite Hd. apply lookup_singleton_ne. discriminate.
Defined.
