(* ===== verification/Stubs.v ===== *)
(** * The interrupt stubs: kernel/idt.s

    Between the interrupted instruction and the C handlers: what the processor pushes, what
    the stubs push, the record the handler sees and the way back.  The theorems say that an
    interrupt is invisible to the code it interrupts, and that a system call is a call. *)

From S2P Require Import Prelude Bytes Disk Heap Vmm Process Fs FsWitness Idt Kernel KernelThms Syscall User.

(** ** The processor

    General and segment registers, the words on the stack in use from the stack pointer on,
    those of the user stack while the kernel runs, and the state the handlers work on. *)

Section core.
Context {W : Type}.

Record core := Core {
  c_cpu : cpu_t;
  c_flags : Z;
  c_cs : Z; c_ss : Z;
  c_ds : Z; c_es : Z; c_fs : Z; c_gs : Z;
  c_stack : list Z;
  c_user : list Z;
  c_world : W;
}.

Definition with_cpu (f : cpu_t → cpu_t) (c : core) : core :=
  Core (f (c_cpu c)) (c_flags c) (c_cs c) (c_ss c) (c_ds c) (c_es c) (c_fs c) (c_gs c)
    (c_stack c) (c_user c) (c_world c).
Definition with_stack (l : list Z) (c : core) : core :=
  Core (c_cpu c) (c_flags c) (c_cs c) (c_ss c) (c_ds c) (c_es c) (c_fs c) (c_gs c)
    l (c_user c) (c_world c).
Definition with_flags (x : Z) (c : core) : core :=
  Core (c_cpu c) x (c_cs c) (c_ss c) (c_ds c) (c_es c) (c_fs c) (c_gs c)
    (c_stack c) (c_user c) (c_world c).
Definition with_data_segments (x : Z) (c : core) : core :=
  Core (c_cpu c) (c_flags c) (c_cs c) (c_ss c) x x x x (c_stack c) (c_user c) (c_world c).

#[export] Instance world_lens : Lens core W.
Proof.
  refine {| lens_get := c_world; lens_set w c := Core (c_cpu c) (c_flags c) (c_cs c) (c_ss c)
    (c_ds c) (c_es c) (c_fs c) (c_gs c) (c_stack c) (c_user c) w |}; try done.
  by intros [].
Defined.

Definition put_eax (x : Z) (r : cpu_t) : cpu_t :=
  Cpu x (ecx r) (edx r) (ebx r) (ebp r) (esi r) (edi r) (esp r) (eip r).
Definition put_esp (x : Z) (r : cpu_t) : cpu_t :=
  Cpu (eax r) (ecx r) (edx r) (ebx r) (ebp r) (esi r) (edi r) x (eip r).

(** *** Instructions *)

Definition pushl (x : Z) : K core unit :=
  kmodify (λ c, with_stack (x :: c_stack c) (with_cpu (λ r, put_esp (u32 (esp r - 4)) r) c)).
Definition popl : K core Z :=
  c ← kget;
  match c_stack c with
  | x :: l => kmodify (λ c, with_stack l (with_cpu (λ r, put_esp (u32 (esp r + 4)) r) c));; mret x
  | [] => kundefined
  end.

Definition pusha : K core unit :=
  c ← kget;
  let r := c_cpu c in
  pushl (eax r);; pushl (ecx r);; pushl (edx r);; pushl (ebx r);;
  pushl (esp r);; pushl (ebp r);; pushl (esi r);; pushl (edi r).

(** [popa] skips the saved stack pointer. *)
Definition popa : K core unit :=
  di ← popl; si ← popl; bp ← popl; _ ← popl;
  bx ← popl; dx ← popl; cx ← popl; ax ← popl;
  kmodify (with_cpu (λ r, Cpu ax cx dx bx bp si di (esp r) (eip r))).

Definition cli : K core unit := kmodify (λ c, with_flags (Z.land (c_flags c) (u32 (Z.lnot 0x200))) c).

(** [mov x, %ax] leaves the upper half of eax. *)
Definition mov_ax (x : Z) : K core unit :=
  kmodify (with_cpu (λ r, put_eax (Z.lor (Z.land (eax r) 0xFFFF0000) (Z.land x 0xFFFF)) r)).
(** [mov %ax, %ds], es, fs and gs. *)
Definition mov_segments : K core unit :=
  kmodify (λ c, with_data_segments (Z.land (eax (c_cpu c)) 0xFFFF) c).

(** *** Interrupts (Intel SDM, volume 3, 6.12.1)

    From ring 3 the stack is the one of the task state segment, and the interrupted stack
    pointer is saved; TF, IF, NT, RF and VM are cleared. *)
Definition interrupt (esp0 ss0 : Z) (g : gate) (err : list Z) : K core unit :=
  kmodify (λ c,
    let r := c_cpu c in
    let at_gate sp := Cpu (eax r) (ecx r) (edx r) (ebx r) (ebp r) (esi r) (edi r)
      (u32 (sp - 4 * Z.of_nat (length err))) (g_offset g) in
    let flags := Z.land (c_flags c) (u32 (Z.lnot 0x34300)) in
    if Z.land (c_cs c) 3 =? 0 then
      Core (at_gate (esp r - 12)) flags (g_selector g) (c_ss c) (c_ds c) (c_es c) (c_fs c) (c_gs c)
        (err ++ [eip r; c_cs c; c_flags c] ++ c_stack c) (c_user c) (c_world c)
    else
      Core (at_gate (esp0 - 20)) flags (g_selector g) ss0 (c_ds c) (c_es c) (c_fs c) (c_gs c)
        (err ++ [eip r; c_cs c; c_flags c; esp r; c_ss c]) (c_stack c) (c_world c)).

(** [iret] pops the stack pointer too when it goes back to an outer ring. *)
Definition iret : K core unit :=
  c ← kget;
  ip ← popl; cs ← popl; flags ← popl;
  if Z.land (c_cs c) 3 <? Z.land cs 3 then
    sp ← popl; ss ← popl;
    kmodify (λ c, let r := c_cpu c in
      Core (Cpu (eax r) (ecx r) (edx r) (ebx r) (ebp r) (esi r) (edi r) sp ip) flags cs ss
        (c_ds c) (c_es c) (c_fs c) (c_gs c) (c_user c) [] (c_world c))
  else
    kmodify (λ c, let r := c_cpu c in
      Core (Cpu (eax r) (ecx r) (edx r) (ebx r) (ebp r) (esi r) (edi r) (esp r) ip) flags cs (c_ss c)
        (c_ds c) (c_es c) (c_fs c) (c_gs c) (c_stack c) (c_user c) (c_world c)).

(** ** The stubs *)

(** The structure of include/registers.h over the words of the stack. *)
Definition words_of (r : registers_t) : list Z :=
  [r_ds r; r_edi r; r_esi r; r_ebp r; r_esp r; r_ebx r; r_edx r; r_ecx r; r_eax r;
   int_no r; err_code r; r_eip r; r_cs r; r_eflags r; useresp r; r_ss r].

Definition regs_at (l : list Z) : option (registers_t * list Z) :=
  match l with
  | ds :: di :: si :: bp :: sp :: bx :: dx :: cx :: ax :: n :: e :: ip :: cs :: fl :: usp :: ss :: rest =>
      Some (Registers ds di si bp sp bx dx cx ax n e ip cs fl usp ss, rest)
  | _ => None
  end.

(** The C functions: what [isr_handler] and [irq_handler] do with the record, and what
    they leave in the three registers a callee may change. *)
Context (junk : Z * Z * Z).

(** [call handler]: its argument is on top of the stack and points to the words below it. *)
Definition call_handler (handler : registers_t → K W registers_t) : K core unit :=
  c ← kget;
  match c_stack c with
  | regs :: l =>
      if regs =? u32 (esp (c_cpu c) + 4) then
        x ← klift (regs_at l);
        r ← zoom (handler x.1);
        kmodify (with_stack (regs :: words_of r ++ x.2));;
        kmodify (with_cpu (λ r, Cpu junk.1.1 junk.1.2 junk.2 (ebx r) (ebp r) (esi r) (edi r) (esp r) (eip r)))
      else kundefined
  | [] => kundefined
  end.

(** [isr_common] and [irq_common] differ in the function they call: up to the call, and
    from its return on. *)
Definition enter_common : K core unit :=
  pusha;;
  c ← kget;
  mov_ax (c_ds c);;
  c ← kget;
  pushl (eax (c_cpu c));;
  mov_ax 0x10;;
  mov_segments;;
  c ← kget;
  pushl (esp (c_cpu c)).

Definition leave_common : K core unit :=
  _ ← popl;
  x ← popl;
  kmodify (with_cpu (put_eax x));;
  mov_segments;;
  popa;;
  _ ← popl;
  _ ← popl;
  iret.

Definition common (handler : registers_t → K W registers_t) : K core unit :=
  enter_common;;
  call_handler handler;;
  leave_common.

(** The vectors that idt.s gives to [ISR_ERRCODE]. *)
Definition has_error_code (v : Z) : bool :=
  bool_decide (v ∈ [8; 10; 11; 12; 13; 14; 17; 30]).

Definition isr_stub (isr_handler : registers_t → K W registers_t) (v : Z) : K core unit :=
  cli;;
  (if has_error_code v then mret tt else pushl 0);;
  pushl v;;
  common isr_handler.

Definition irq_stub (irq_handler : registers_t → K W unit) (v : Z) : K core unit :=
  cli;;
  pushl 0;;
  pushl v;;
  common (λ regs, irq_handler regs;; mret regs).
End core.
Arguments core : clear implicits.
Arguments Core {W} _ _ _ _ _ _ _ _ _ _ _.

(** ** The stubs run *)

Ltac core_simpl :=
  cbv beta iota zeta delta [c_cpu c_flags c_cs c_ss c_ds c_es c_fs c_gs c_stack c_user c_world with_cpu with_stack
    with_data_segments with_flags lens_get lens_set world_lens put_esp put_eax eax ecx edx ebx ebp esi edi esp eip].

Section runs.
Context {W : Type} (junk : Z * Z * Z).
Implicit Types c : core W.

Lemma wp_same {S A} (m m' : K S A) s s' Q : m s = m' s' → wp m' s' Q → wp m s Q.
Proof. unfold wp. by intros ->. Qed.
Lemma hp_same {S A} (m m' : K S A) s s' Q : m s = m' s' → hp m' s' Q → hp m s Q.
Proof. unfold hp. by intros ->. Qed.

Lemma wp_pushl x c Q :
  Q tt (with_stack (x :: c_stack c) (with_cpu (λ r, put_esp (u32 (esp r - 4)) r) c)) [] → wp (pushl x) c Q.
Proof. done. Qed.

Lemma wp_popl x l c Q :
  c_stack c = x :: l →
  Q x (with_stack l (with_cpu (λ r, put_esp (u32 (esp r + 4)) r) c)) [] → wp popl c Q.
Proof. intros Hl HQ. unfold popl. wp_steps. rewrite Hl. wp_steps. exact HQ. Qed.

Lemma u32_shift x y : u32 (u32 x + y) = u32 (x + y).
Proof. unfold u32. by rewrite Zplus_mod_idemp_l. Qed.
Lemma u32_shift_sub x y : u32 (u32 x - y) = u32 (x - y).
Proof. apply (u32_shift x (- y)). Qed.

Lemma segment_half a d :
  Z.land (Z.lor (Z.land a 0xFFFF0000) (Z.land d 0xFFFF)) 0xFFFF = Z.land d 0xFFFF.
Proof.
  rewrite Z.land_lor_distr_l, <-!Z.land_assoc. change (Z.land 0xFFFF0000 0xFFFF) with 0.
  rewrite Z.land_0_r, Z.lor_0_l, Z.land_diag. reflexivity.
Qed.

(** The record that the handler finds: [l] are the five words of the interrupt, [v] and [e]
    the vector and the error code. *)
Definition saved_ds c : Z := Z.lor (Z.land (eax (c_cpu c)) 0xFFFF0000) (Z.land (c_ds c) 0xFFFF).
Definition saved c (v e ip cs fl usp ss : Z) : registers_t :=
  let r := c_cpu c in
  Registers (saved_ds c)
    (edi r) (esi r) (ebp r) (esp r) (ebx r) (edx r) (ecx r) (eax r) v e ip cs fl usp ss.

(** The registers on the way back, [x] in eax. *)
Definition resumed c (x sp ip : Z) : cpu_t :=
  let r := c_cpu c in Cpu x (ecx r) (edx r) (ebx r) (ebp r) (esi r) (edi r) sp ip.

(** The state at the call of the handler. *)
Definition entered c : core W :=
  let r := c_cpu c in
  Core (Cpu (Z.lor (Z.land (saved_ds c) 0xFFFF0000) (Z.land 0x10 0xFFFF)) (ecx r) (edx r) (ebx r) (ebp r) (esi r) (edi r)
      (u32 (esp r - 40)) (eip r)) (c_flags c) (c_cs c) (c_ss c) 0x10 0x10 0x10 0x10
    (u32 (esp r - 36) :: saved_ds c :: edi r :: esi r :: ebp r :: esp r :: ebx r :: edx r :: ecx r :: eax r :: c_stack c)
    (c_user c) (c_world c).

(** The whole of [pusha] and [popa]. *)
Lemma wp_pusha c Q :
  (let r := c_cpu c in
   Q tt (with_stack (edi r :: esi r :: ebp r :: esp r :: ebx r :: edx r :: ecx r :: eax r :: c_stack c)
     (with_cpu (put_esp (u32 (esp r - 32))) c)) []) → wp pusha c Q.
Proof.
  destruct c as [[a cx dx bx bp si di sp ip] fl cs ss ds es fs gs st us w]. core_simpl. intros HQ. unfold pusha. wp_steps.
  apply wp_pushl. do 6 apply wp_bind, wp_pushl. apply wp_pushl.
  core_simpl.
  repeat rewrite u32_shift_sub, <-Z.sub_add_distr. exact HQ.
Qed.

Lemma wp_popa di si bp sp bx dx cx ax l c Q :
  c_stack c = di :: si :: bp :: sp :: bx :: dx :: cx :: ax :: l →
  Q tt (with_stack l (with_cpu (λ r, Cpu ax cx dx bx bp si di (u32 (esp r + 32)) (eip r)) c)) [] →
  wp popa c Q.
Proof.
  destruct c as [[? ? ? ? ? ? ? sp0 ip] fl cs ss ds es fs gs st us w]. core_simpl. intros -> HQ. unfold popa.
  do 8 (apply wp_bind; eapply wp_popl; [reflexivity|]). wp_steps.
  core_simpl.
  repeat rewrite u32_shift, <-Z.add_assoc. exact HQ.
Qed.

Lemma wp_enter_common c Q : Q tt (entered c) [] → wp enter_common c Q.
Proof.
  destruct c as [[a cx dx bx bp si di sp i0] fl cs ss ds es fs gs st us w]. unfold entered, saved_ds. core_simpl.
  intros HQ. unfold enter_common. apply wp_bind, wp_pusha. core_simpl. unfold mov_ax, mov_segments. wp_steps.
  core_simpl. apply wp_pushl. wp_steps. core_simpl. apply wp_pushl. core_simpl.
  rewrite segment_half. change (Z.land 0x10 0xFFFF) with 0x10 at 2 3 4 5.
  repeat rewrite u32_shift_sub, <-Z.sub_add_distr. exact HQ.
Qed.

(** Back from the handler, [sp] being what [pusha] saved. *)
Lemma wp_leave_common p a di si bp sp bx dx cx ax v e ip cs fl usp ss rest c (Q : unit → core W → list event → Prop) :
  c_stack c = p :: a :: di :: si :: bp :: sp :: bx :: dx :: cx :: ax :: v :: e :: ip :: cs :: fl :: usp :: ss :: rest →
  (let d := Z.land a 0xFFFF in
   Q tt (if Z.land (c_cs c) 3 <? Z.land cs 3
         then Core (Cpu ax cx dx bx bp si di usp ip) fl cs ss d d d d (c_user c) [] (c_world c)
         else Core (Cpu ax cx dx bx bp si di (u32 (esp (c_cpu c) + 60)) ip) fl cs (c_ss c) d d d d
           (usp :: ss :: rest) (c_user c) (c_world c)) []) →
  wp leave_common c Q.
Proof.
  destruct c as [[? ? ? ? ? ? ? sp0 i0] f0 cs0 ss0 ds es fs gs st us w]. core_simpl. intros -> HQ.
  unfold leave_common. apply wp_bind. eapply wp_popl; [reflexivity|]. apply wp_bind. eapply wp_popl; [reflexivity|].
  unfold mov_segments. wp_steps. core_simpl.
  eapply wp_popa; [reflexivity|]. do 2 (apply wp_bind; eapply wp_popl; [reflexivity|]). core_simpl.
  unfold iret. wp_steps. eapply wp_popl; [reflexivity|]. do 2 (apply wp_bind; eapply wp_popl; [reflexivity|]).
  core_simpl. destruct (Z.land cs0 3 <? Z.land cs 3).
  - do 2 (apply wp_bind; eapply wp_popl; [reflexivity|]). wp_steps. exact HQ.
  - wp_steps. repeat rewrite u32_shift, <-?Z.add_assoc. exact HQ.
Qed.

(** The call itself: the handler has the record above its argument. *)
Lemma call_frame handler c v e ip cs fl usp ss rest :
  c_stack c = v :: e :: ip :: cs :: fl :: usp :: ss :: rest →
  call_handler junk handler (entered c) =
    (r ← zoom (handler (saved c v e ip cs fl usp ss));
     kmodify (with_stack (u32 (esp (c_cpu c) - 36) :: words_of r ++ rest));;
     kmodify (with_cpu (λ r, Cpu junk.1.1 junk.1.2 junk.2 (ebx r) (ebp r) (esi r) (edi r) (esp r) (eip r)))) (entered c).
Proof.
  intros Hst. unfold call_handler. etrans; [apply kbind_done; reflexivity|]. unfold entered at 1. cbn [c_stack].
  rewrite Hst. unfold entered at 1. cbn [c_cpu esp]. rewrite u32_shift.
  replace (esp (c_cpu c) - 40 + 4) with (esp (c_cpu c) - 36) by lia. rewrite Z.eqb_refl. etrans; [apply kbind_done; reflexivity|]. reflexivity.
Qed.

Lemma common_runs handler c v e ip cs fl usp ss rest (Q : unit → core W → list event → Prop) :
  c_stack c = v :: e :: ip :: cs :: fl :: usp :: ss :: rest →
  wp (handler (saved c v e ip cs fl usp ss)) (c_world c) (λ r' w o, ∃ x,
    r' = set_eax x (saved c v e ip cs fl usp ss) ∧
    let d := Z.land (c_ds c) 0xFFFF in
    Q tt (if Z.land (c_cs c) 3 <? Z.land cs 3
          then Core (resumed c x usp ip) fl cs ss d d d d (c_user c) [] w
          else Core (resumed c x (u32 (esp (c_cpu c) + 20)) ip) fl cs (c_ss c) d d d d
            (usp :: ss :: rest) (c_user c) w) o) →
  wp (common junk handler) c Q.
Proof.
  intros Hst Hh. unfold common. apply wp_bind, wp_enter_common, wp_bind.
  eapply wp_same; [exact (call_frame handler c v e ip cs fl usp ss rest Hst)|]. apply wp_bind, wp_zoom.
  eapply wp_mono; [exact Hh|]. intros r' w' o (x & -> & HQ). cbv zeta in HQ. wp_steps.
  eapply wp_leave_common; [reflexivity|].
  cbv beta iota zeta delta [words_of set_eax saved r_ds r_edi r_esi r_ebp r_esp r_ebx r_edx r_ecx r_eax int_no err_code
    r_eip r_cs r_eflags useresp r_ss saved_ds]. rewrite segment_half.
  unfold resumed in HQ. destruct c as [[a cx dx bx bp si di sp i0] f0 cs0 ss0 ds es fs gs st us w]. unfold entered. core_simpl.
  rewrite u32_shift. replace (sp - 40 + 60) with (sp + 20) by lia. cbn [app]. rewrite !app_nil_r. exact HQ.
Qed.

(** A handler that does not come back. *)
Lemma common_stops handler c v e ip cs fl usp ss rest (Q : core W → list event → Prop) :
  c_stack c = v :: e :: ip :: cs :: fl :: usp :: ss :: rest →
  hp (handler (saved c v e ip cs fl usp ss)) (c_world c) (λ w o, ∀ c', c_world c' = w → c_flags c' = c_flags c → Q c' o) →
  hp (common junk handler) c Q.
Proof.
  intros Hst Hh. unfold common. apply hp_bind, wp_enter_common, hp_bind_halt.
  eapply hp_same; [exact (call_frame handler c v e ip cs fl usp ss rest Hst)|]. apply hp_bind_halt, hp_zoom.
  eapply hp_mono; [exact Hh|]. intros w' o HQ. cbn [app]. apply HQ; reflexivity.
Qed.
End runs.

(** ** Interrupt and stub together *)

Section stubs.
Context {W : Type} (junk : Z * Z * Z) (esp0 ss0 : Z).
Implicit Types c : core W.

(** What an interrupt may find: flat data segments and, in ring 0, a stack with something
    on it (kernel_main's arguments are there); in ring 3 no stack is set aside. *)
Record interruptible c : Prop := {
  in_esp : 0 ≤ esp (c_cpu c) < 2 ^ 32;
  in_ds : 0 ≤ c_ds c < 2 ^ 16;
  in_segments : c_es c = c_ds c ∧ c_fs c = c_ds c ∧ c_gs c = c_ds c;
  in_stack : if Z.land (c_cs c) 3 =? 0 then (2 ≤ length (c_stack c))%nat else c_user c = [];
}.

(** The record the handler gets for vector [v] with the error code [e]. *)
Definition seen c (v e : Z) : registers_t :=
  let r := c_cpu c in
  let outer := negb (Z.land (c_cs c) 3 =? 0) in
  Registers (Z.lor (Z.land (eax r) 0xFFFF0000) (Z.land (c_ds c) 0xFFFF))
    (edi r) (esi r) (ebp r) (u32 (if outer then esp0 - 28 else esp r - 20))
    (ebx r) (edx r) (ecx r) (eax r) v e (eip r) (c_cs c) (c_flags c)
    (if outer then esp r else nth 0 (c_stack c) 0) (if outer then c_ss c else nth 1 (c_stack c) 0).

Definition after c (x : Z) (w : W) : core W :=
  Core (put_eax x (c_cpu c)) (c_flags c) (c_cs c) (c_ss c) (c_ds c) (c_es c) (c_fs c) (c_gs c)
    (c_stack c) (c_user c) w.

(** The processor pushes the error code ([err = [e]]) or the stub pushes a 0. *)
Definition delivery (g : gate) (err : list Z) (v : Z) handler : K (core W) unit :=
  interrupt esp0 ss0 g err;;
  cli;;
  (if bool_decide (err = []) then pushl 0 else mret tt);;
  pushl v;;
  common junk handler.

(** The state in which [common] starts. *)
Definition entry (g : gate) (e v : Z) c : core W :=
  let r := c_cpu c in
  let outer := negb (Z.land (c_cs c) 3 =? 0) in
  Core (Cpu (eax r) (ecx r) (edx r) (ebx r) (ebp r) (esi r) (edi r)
      (u32 (if outer then esp0 - 28 else esp r - 20)) (g_offset g))
    (Z.land (Z.land (c_flags c) (u32 (Z.lnot 0x34300))) (u32 (Z.lnot 0x200)))
    (g_selector g) (if outer then ss0 else c_ss c) (c_ds c) (c_es c) (c_fs c) (c_gs c)
    (v :: e :: eip r :: c_cs c :: c_flags c :: if outer then [esp r; c_ss c] else c_stack c)
    (if outer then c_stack c else c_user c) (c_world c).

Lemma stub_enters g err v (m : K (core W) unit) c :
  (length err ≤ 1)%nat →
  (interrupt esp0 ss0 g err;; cli;; (if bool_decide (err = []) then pushl 0 else mret tt);; pushl v;; m) c =
  m (entry g (nth 0 err 0) v c).
Proof.
  intros Herr. destruct c as [[a cx dx bx bp si di sp ip] fl cs ss ds es fs gs st us w].
  etrans; [apply kbind_done; reflexivity|]. etrans; [apply kbind_done; reflexivity|].
  unfold entry, interrupt. core_simpl.
  destruct err as [|e [|? ?]]; [| |cbn [length] in Herr; lia]; cbn [app length nth Z.of_nat].
  - change (bool_decide ([] = [])) with true. cbn iota.
    destruct (Z.land cs 3 =? 0); cbn [negb]; (etrans; [apply kbind_done; reflexivity|]);
      (etrans; [apply kbind_done; reflexivity|]); core_simpl; repeat rewrite u32_shift_sub, <-Z.sub_add_distr; do 4 f_equal; lia.
  - change (bool_decide ([e] = [])) with false. cbn iota.
    destruct (Z.land cs 3 =? 0); cbn [negb]; (etrans; [apply kbind_done; reflexivity|]);
      (etrans; [apply kbind_done; reflexivity|]); core_simpl; repeat rewrite u32_shift_sub, <-Z.sub_add_distr; do 4 f_equal; lia.
Qed.

Lemma delivery_enters g err v handler c :
  (length err ≤ 1)%nat → delivery g err v handler c = common junk handler (entry g (nth 0 err 0) v c).
Proof. apply stub_enters. Qed.

Lemma ring_lt cs : (0 <? Z.land cs 3) = negb (Z.land cs 3 =? 0).
Proof.
  assert (0 ≤ Z.land cs 3) by (apply Z.land_nonneg; lia).
  destruct (Z.ltb_spec 0 (Z.land cs 3)), (Z.eqb_spec (Z.land cs 3) 0); cbn [negb]; lia.
Qed.

Lemma data_half d : 0 ≤ d < 2 ^ 16 → Z.land d 0xFFFF = d.
Proof. intros Hd. change 0xFFFF with (Z.ones 16). rewrite Z.land_ones by lia. apply Z.mod_small. lia. Qed.

(** The two words above the interrupt frame, whatever they mean. *)
Definition above c : list Z := if Z.land (c_cs c) 3 =? 0 then c_stack c else [esp (c_cpu c); c_ss c].

Lemma entry_stack g e v c :
  c_stack (entry g e v c) = v :: e :: eip (c_cpu c) :: c_cs c :: c_flags c :: above c.
Proof. unfold entry, above. cbn [c_stack]. by destruct (Z.land (c_cs c) 3 =? 0). Qed.

Lemma above_two c : interruptible c → ∃ rest, above c = nth 0 (above c) 0 :: nth 1 (above c) 0 :: rest.
Proof.
  intros [_ _ _ Hst]. unfold above in *. destruct (Z.land (c_cs c) 3 =? 0); [|by eexists].
  destruct (c_stack c) as [|x0 [|x1 st]]; [cbn in Hst; lia..|]. by eexists.
Qed.

Lemma entry_saved g e v c :
  saved (entry g e v c) v e (eip (c_cpu c)) (c_cs c) (c_flags c) (nth 0 (above c) 0) (nth 1 (above c) 0) = seen c v e.
Proof. unfold saved, seen, entry, above. by destruct (Z.land (c_cs c) 3 =? 0). Qed.

Lemma entry_resumed g e v c x w rest :
  interruptible c → g_selector g = 0x08 →
  above c = nth 0 (above c) 0 :: nth 1 (above c) 0 :: rest →
  let s := entry g e v c in
  let d := Z.land (c_ds s) 0xFFFF in
  let usp := nth 0 (above c) 0 in
  let ss := nth 1 (above c) 0 in
  (if Z.land (c_cs s) 3 <? Z.land (c_cs c) 3
   then Core (resumed s x usp (eip (c_cpu c))) (c_flags c) (c_cs c) ss d d d d (c_user s) [] w
   else Core (resumed s x (u32 (esp (c_cpu s) + 20)) (eip (c_cpu c))) (c_flags c) (c_cs c) (c_ss s) d d d d
     (usp :: ss :: rest) (c_user s) w) = after c x w.
Proof.
  intros [Hsp Hds (He & Hf & Hg) Hst] Hsel Habove. cbv zeta. cbn [entry c_cs c_ds]. rewrite Hsel.
  change (Z.land 8 3) with 0. rewrite ring_lt, data_half by exact Hds. unfold after.
  unfold above in *. destruct (Z.land (c_cs c) 3 =? 0) eqn:Hring; cbn [negb].
  - unfold entry, resumed. cbn [c_cpu c_ss c_user esp ecx edx ebx ebp esi edi]. rewrite Hring, He, Hf, Hg. cbn [negb].
    rewrite <-Habove, u32_shift. replace (esp (c_cpu c) - 20 + 20) with (esp (c_cpu c)) by lia.
    rewrite u32_small by lia. reflexivity.
  - unfold entry, resumed. cbn [c_cpu c_user ecx edx ebx ebp esi edi nth]. rewrite Hring, He, Hf, Hg, Hst. reflexivity.
Qed.

Lemma delivery_runs g err v handler c (Q : unit → core W → list event → Prop) :
  interruptible c → g_selector g = 0x08 → (length err ≤ 1)%nat →
  wp (handler (seen c v (nth 0 err 0))) (c_world c) (λ r' w o, ∃ x,
    r' = set_eax x (seen c v (nth 0 err 0)) ∧ Q tt (after c x w) o) →
  wp (delivery g err v handler) c Q.
Proof.
  intros Hc Hsel Herr Hh. eapply wp_same; [exact (delivery_enters g err v handler c Herr)|].
  destruct (above_two c Hc) as [rest Habove].
  eapply common_runs; [rewrite entry_stack, Habove; reflexivity|]. cbv zeta. rewrite entry_saved.
  eapply wp_mono; [exact Hh|]. intros r' w o (x & -> & HQ). exists x. split; [reflexivity|].
  pose proof (entry_resumed g (nth 0 err 0) v c x w rest Hc Hsel Habove) as E. cbv zeta in E. rewrite E. exact HQ.
Qed.

Lemma delivery_stops g err v handler c (Q : core W → list event → Prop) :
  interruptible c → (length err ≤ 1)%nat →
  hp (handler (seen c v (nth 0 err 0))) (c_world c) (λ w o, ∀ c',
    c_world c' = w → Z.testbit (c_flags c') 9 = false → Q c' o) →
  hp (delivery g err v handler) c Q.
Proof.
  intros Hc Herr Hh. eapply hp_same; [exact (delivery_enters g err v handler c Herr)|].
  destruct (above_two c Hc) as [rest Habove].
  eapply common_stops; [rewrite entry_stack, Habove; reflexivity|]. rewrite entry_saved.
  eapply hp_mono; [exact Hh|]. intros w o HQ c' Hw Hfl. apply HQ; [exact Hw|]. rewrite Hfl. unfold entry. cbn [c_flags].
  rewrite Z.land_spec. change (Z.testbit (u32 (Z.lnot 0x200)) 9) with false. apply andb_false_r.
Qed.
End stubs.

(** ** The system call handler reads four registers and changes one *)

(** The same computation for two records: [r1] and [r2] come back with the same new eax. *)
Definition same_call {S} (r1 r2 : registers_t) (m1 m2 : K S registers_t) : Prop := ∀ s,
  match m1 s with
  | Done a s' o => ∃ x, a = set_eax x r1 ∧ m2 s = Done (set_eax x r2) s' o
  | Halted s' o => m2 s = Halted s' o
  | Diverged => m2 s = Diverged
  | Undefined => m2 s = Undefined
  end.

Section same_call.
Context {S : Type} (r1 r2 : registers_t).

Lemma same_ret x : same_call (S := S) r1 r2 (mret (set_eax x r1)) (mret (set_eax x r2)).
Proof. intros s. by exists x. Qed.

Lemma same_bind {A} (m : K S A) f g :
  (∀ a, same_call r1 r2 (f a) (g a)) → same_call r1 r2 (m ≫= f) (m ≫= g).
Proof.
  intros Hf s. unfold mbind, K_bind. destruct (m s) as [a s1 o1| | |]; [|done..]. specialize (Hf a s1).
  destruct (f a s1); [destruct Hf as (x & -> & ->)|rewrite Hf..]; try done. by exists x.
Qed.

Lemma same_exit (m : K S unit) (f g : unit → K S registers_t) :
  (∀ s, match m s with Done _ _ _ => False | _ => True end) → same_call r1 r2 (m ≫= f) (m ≫= g).
Proof.
  intros Hm s. specialize (Hm s). unfold mbind, K_bind. by destruct (m s).
Qed.
End same_call.

Section syscalls.
Context {D : Type} `{BlockOps D} `{Uninit}.

Lemma exit_does_not_return s :
  match (zoom process_exit : K (kernel D) unit) s with Done _ _ _ => False | _ => True end.
Proof.
  unfold zoom. destruct (process_exit (lens_get s)) eqn:E; [|done..]. revert E.
  unfold process_exit, proc_update, proc_get, mbind, K_bind, kget, kmodify, khalt, klift.
  destruct (procs (lens_get s) !! current_process (lens_get s)); discriminate.
Qed.

Lemma syscall_reads_four r1 r2 :
  r_eax r1 = r_eax r2 → r_ebx r1 = r_ebx r2 → r_ecx r1 = r_ecx r2 → r_edx r1 = r_edx r2 →
  same_call r1 r2 (syscall_handler (D := D) r1) (syscall_handler r2).
Proof.
  intros Ha Hb Hc Hd. unfold syscall_handler. rewrite Ha.
  destruct (r_eax r2 =? SYS_EXIT).
  { unfold Syscall.sys_exit. rewrite Hb. do 3 (apply same_bind; intros ?). apply same_exit, exit_does_not_return. }
  unfold Syscall.sys_write, Syscall.sys_read, Syscall.sys_open, Syscall.sys_close. rewrite Hb, Hc, Hd.
  repeat lazymatch goal with
  | |- same_call _ _ (mbind _ _) _ => apply same_bind; intros ?
  | |- same_call _ _ (mret _) _ => apply same_ret
  | |- same_call _ _ (if ?b then _ else _) _ => destruct b
  | |- same_call _ _ (match ?x with _ => _ end) _ => destruct x
  end.
Qed.
End syscalls.

(** ** Theorems *)

Lemma irq_stub_delivery {W} junk esp0 ss0 g (irq : registers_t → K W unit) v (c : core W) :
  (interrupt esp0 ss0 g [];; irq_stub junk irq v) c =
  delivery junk esp0 ss0 g [] v (λ regs, irq regs;; mret regs) c.
Proof. unfold delivery, irq_stub. by rewrite bool_decide_eq_true_2. Qed.

Lemma isr_stub_delivery {W} junk esp0 ss0 g (isr : registers_t → K W registers_t) v e (c : core W) :
  let err := if has_error_code v then [e] else [] in
  (interrupt esp0 ss0 g err;; isr_stub junk isr v) c = delivery junk esp0 ss0 g err v isr c.
Proof.
  unfold delivery, isr_stub. destruct (has_error_code v).
  - by rewrite bool_decide_eq_false_2.
  - by rewrite bool_decide_eq_true_2.
Qed.

Lemma irq_delivery {W} junk esp0 ss0 g (irq : registers_t → K W unit) v (c : core W) w o :
  interruptible c → g_selector g = 0x08 → irq (seen esp0 c v 0) (c_world c) = Done tt w o →
  (interrupt esp0 ss0 g [];; irq_stub junk irq v) c = Done tt (lens_set w c) o.
Proof.
  intros Hc Hsel E. rewrite irq_stub_delivery. set (h := λ regs, irq regs;; mret regs).
  assert (wp (delivery junk esp0 ss0 g [] v h) c (λ _ c' o', c' = lens_set w c ∧ o' = o)) as H.
  2: { destruct (wp_done _ _ _ H) as ([] & c' & o' & E' & -> & ->). exact E'. }
  apply delivery_runs; [exact Hc|exact Hsel|cbn; lia|]. unfold h. apply wp_bind. cbn [nth].
  eapply wp_of_done; [exact E|]. wp_steps. exists (eax (c_cpu c)). split; [reflexivity|].
  split; [|apply app_nil_r]. by destruct c as [[] ? ? ? ? ? ? ? ? ? ?].
Qed.

(** C25.  A hardware interrupt leaves no trace in the code it interrupts, in the kernel or
    in ring 3: whatever the line, when the stub returns every register, flag, segment and
    word of the stack is what it was, and the end-of-interrupt commands have reached exactly
    the controllers that had the line in service, which are ready for the next one. *)
Theorem interrupt_transparent {W P} `{PicPort P} `{Lens W P} junk esp0 ss0 g (tick kbd : K W unit)
    (c : core W) line before :
  interruptible c → g_selector g = 0x08 → keeps_pics tick → keeps_pics kbd →
  0 ≤ line < 16 → chip_ok (master before) → chip_ok (slave before) → delivers before line ≠ None →
  pic_view (lens_get (c_world c)) = acknowledge line before →
  ∃ w o, (interrupt esp0 ss0 g [];; irq_stub junk (irq_handler tick kbd) (32 + line)) c =
      Done tt (lens_set w c) o ∧ pic_view (lens_get w) = before.
Proof.
  intros Hc Hsel Htick Hkbd Hl Hm Hs Hd Hv.
  destruct (irq_end_of_interrupt tick kbd (c_world c) (seen esp0 c (32 + line) 0) line before
    Htick Hkbd Hl eq_refl Hm Hs Hd Hv) as (w & o & E & Hw).
  exists w, o. split; [|exact Hw]. by apply irq_delivery.
Qed.

(** C37.  A system call is a call: [int $0x80] in a program, through the processor, the
    stub, the dispatcher and back, does to the kernel what [int80] says, gives the program
    its result in eax and leaves every other register, the flags, the segments and the
    stack alone.  A call that does not come back ends in the [hlt] loop with interrupts
    off, so no clock tick will ever run another process. *)
Theorem int80_is_a_call {D} `{BlockOps D} `{Uninit} junk esp0 ss0 g (c : core (kernel D)) :
  interruptible c → g_selector g = 0x08 →
  let r := c_cpu c in
  let run := (interrupt esp0 ss0 g [];; isr_stub junk (isr_handler syscall_handler) 128) c in
  match int80 (eax r) (ebx r) (ecx r) (edx r) (c_world c) with
  | Done x k o => ∃ e, s32 e = x ∧ run = Done tt (after c e k) o
  | Halted k o => ∃ c', run = Halted c' o ∧ c_world c' = k ∧ Z.testbit (c_flags c') 9 = false
  | Diverged | Undefined => True
  end.
Proof.
  intros Hc Hsel r run. pose proof (isr_stub_delivery junk esp0 ss0 g (isr_handler syscall_handler) 128 0 c) as Hrun.
  cbv zeta in Hrun. change (has_error_code 128) with false in Hrun. cbn iota in Hrun. unfold run. rewrite Hrun. clear Hrun run.
  unfold int80. set (r1 := Registers _ _ _ _ _ _ _ _ _ _ _ _ _ _ _ _).
  pose proof (syscall_reads_four r1 (seen esp0 c 128 0) eq_refl eq_refl eq_refl eq_refl (c_world c)) as E.
  unfold mbind at 1, K_bind at 1. destruct (syscall_handler r1 (c_world c)) as [a k o|k o| |]; [| |done..].
  - destruct E as (x & -> & E). unfold mret, K_ret. exists x. split; [reflexivity|]. rewrite app_nil_r.
    assert (wp (delivery junk esp0 ss0 g [] 128 (isr_handler syscall_handler)) c
      (λ _ c' o', c' = after c x k ∧ o' = o)) as Hwp.
    2: { destruct (wp_done _ _ _ Hwp) as ([] & c' & o' & E' & -> & ->). exact E'. }
    apply delivery_runs; [exact Hc|exact Hsel|cbn; lia|]. cbn [nth]. eapply wp_of_done; [exact E|].
    exists x. split; [reflexivity|]. split; reflexivity.
  - assert (hp (delivery junk esp0 ss0 g [] 128 (isr_handler syscall_handler)) c
      (λ c' o', c_world c' = k ∧ Z.testbit (c_flags c') 9 = false ∧ o' = o)) as Hhp.
    2: { destruct (hp_halted _ _ _ Hhp) as (c' & o' & E' & Hk & Hf & ->). exists c'. split; [exact E'|].
         split; [exact Hk|exact Hf]. }
    apply delivery_stops; [exact Hc|cbn; lia|]. cbn [nth]. eapply hp_of_halted; [exact E|].
    intros c' Hw Hf. split; [exact Hw|]. split; [exact Hf|reflexivity].
Qed.

(** What an exception shows on the screen is the code that the processor pushed. *)
Lemma exception_reported {W} junk esp0 ss0 g (c : core W) handler v e :
  interruptible c → 0 ≤ v < 32 →
  let code := if has_error_code v then e else 0 in
  ∃ name c', exception_names !! Z.to_nat v = Some name ∧
    (interrupt esp0 ss0 g (if has_error_code v then [e] else []);; isr_stub junk (isr_handler handler) v) c =
      Halted c' [EvSetColor 0x04; EvPrintf "\n*** KERNEL EXCEPTION ***\n" [];
        EvPrintf "Exception: %s\n" [AStr (Kprintf.c_literal name)];
        EvPrintf "Error code: %d\n" [AInt code]; EvPrintf "System halted.\n" []] ∧ c_world c' = c_world c.
Proof.
  intros Hc Hv code. destruct (exception_halts handler (c_world c) (seen esp0 c v code) Hv) as (name & Hn & E).
  exists name. set (err := if has_error_code v then [e] else []).
  assert (nth 0 err 0 = code) as Hcode by (unfold err, code; by destruct (has_error_code v)).
  assert (hp (delivery junk esp0 ss0 g err v (isr_handler handler)) c (λ c' o', o' =
    [EvSetColor 0x04; EvPrintf "\n*** KERNEL EXCEPTION ***\n" [];
     EvPrintf "Exception: %s\n" [AStr (Kprintf.c_literal name)];
     EvPrintf "Error code: %d\n" [AInt code]; EvPrintf "System halted.\n" []] ∧ c_world c' = c_world c)) as Hhp.
  { apply delivery_stops; [exact Hc|unfold err; destruct (has_error_code v); cbn; lia|].
    rewrite Hcode. eapply hp_of_halted; [exact E|]. intros c' Hw _. split; [reflexivity|exact Hw]. }
  destruct (hp_halted _ _ _ Hhp) as (c' & o' & E' & -> & Hw). exists c'. split; [exact Hn|]. split; [|exact Hw].
  rewrite <-E'. apply isr_stub_delivery.
Qed.

(** ** Witnesses *)

(** A program in ring 3, and the kernel with an argument and a return address on its stack. *)
Definition user_core {W} (ax bx : Z) (w : W) : core W :=
  Core (Cpu ax 3 4 bx 5 6 7 0x500FF0 0x400010) 0x202 0x1B 0x23 0x23 0x23 0x23 0x23 [0x400100; 42] [] w.
Definition kernel_core {W} (w : W) : core W :=
  Core (Cpu 1 2 3 4 5 6 7 0x10FFF0 0x100200) 0x202 0x08 0x10 0x10 0x10 0x10 0x10 [0x100300; 0x2BADB002] [] w.
Definition timer_gate : gate := Gate 0x101000 0x08 true 0 INTERRUPT_GATE.
Definition call_gate : gate := Gate 0x100800 0x08 true 3 INTERRUPT_GATE.

Lemma user_interruptible {W} ax bx (w : W) : interruptible (user_core ax bx w).
Proof. by constructor. Qed.
Lemma kernel_interruptible {W} (w : W) : interruptible (kernel_core w).
Proof. constructor; [done|done|done|exact (le_n 2)]. Qed.

Lemma interrupt_transparent_witness :
  ∃ w o, (interrupt 0x200000 0x10 timer_gate [];;
      irq_stub (0, 0, 0) (irq_handler (mret tt) (mret tt)) (32 + 0)) (kernel_core timer_intr) =
    Done tt (lens_set w (kernel_core timer_intr)) o ∧ pic_view (lens_get w) = quiet_pics.
Proof.
  apply (interrupt_transparent (0, 0, 0) 0x200000 0x10 timer_gate (mret tt) (mret tt) (kernel_core timer_intr) 0 quiet_pics);
    [apply kernel_interruptible|reflexivity|intros w; reflexivity|intros w; reflexivity|lia|done|done|discriminate|reflexivity].
Defined.

Lemma int80_is_a_call_witness :
  let s := kernel_with ram0 in
  ∃ e, s32 e = -1 ∧
    (interrupt 0x200000 0x10 call_gate [];; isr_stub (0, 0, 0) (isr_handler syscall_handler) 128) (user_core 77 1 s) =
    Done tt (after (user_core 77 1 s) e s) [EvPrintf "syscall: unknown call %d\n" [AInt 77]].
Proof.
  intros s. exact (int80_is_a_call (0, 0, 0) 0x200000 0x10 call_gate (user_core 77 1 s)
    (user_interruptible 77 1 s) eq_refl).
Defined.
