(* ===== verification/Preempt.v ===== *)
(** * Preemption: the timer's interrupt through kernel/idt.s, idt.c, process.c and process.s

    Stubs.v follows an interrupt whose handler returns to the code it interrupted.  A tick
    of the clock need not: [context_switch] leaves on one stack and comes back on another.
    Here the interrupt's path is put together with the scheduler of Process.v: the stack of
    the running process is the stack of Stubs.v, those of the others are in [stack_mem]. *)

From stdpp Require Import functions.
From S2P Require Import Console Heap Process ProcessThms ProcessSched ProcessLife ProcessProps Idt Stubs Prelude.

(** ** Words in memory *)

Fixpoint write_words (a : Z) (l : list Z) (m : Z → Z) : Z → Z :=
  match l with
  | [] => m
  | x :: l => write_stack a x (write_words (a + 4) l m)
  end.

Fixpoint read_words (m : Z → Z) (a : Z) (n : nat) : list Z :=
  match n with
  | O => []
  | S n => m a :: read_words m (a + 4) n
  end.

Definition holds (m : Z → Z) (a : Z) (l : list Z) : Prop := read_words m a (length l) = l.

Lemma holds_app m a l1 l2 : holds m a (l1 ++ l2) ↔ holds m a l1 ∧ holds m (a + 4 * Z.of_nat (length l1)) l2.
Proof.
  unfold holds. revert a. induction l1 as [|x l1 IH]; intros a; cbn [app length read_words].
  - rewrite Z.add_0_r. split; [|intros [_ H]; exact H]. intros H. by split.
  - replace (a + 4 * Z.of_nat (S (length l1))) with (a + 4 + 4 * Z.of_nat (length l1)) by lia.
    specialize (IH (a + 4)). split.
    + intros [= Hx H]. apply IH in H as [H1 H2]. by rewrite Hx, H1.
    + intros [[= Hx H1] H2]. rewrite Hx. f_equal. apply IH. by split.
Qed.

Lemma holds_nth m a l i x : holds m a l → l !! i = Some x → m (a + 4 * Z.of_nat i) = x.
Proof.
  unfold holds. revert a i. induction l as [|y l IH]; intros a [|i]; cbn [length read_words]; try discriminate.
  - intros [= Hy _] [= <-]. by rewrite Z.add_0_r.
  - intros [= _ Hl] Hi. rewrite <-(IH (a + 4) i Hl Hi). f_equal. lia.
Qed.

Lemma holds_same m m' a l :
  (∀ k, a ≤ k < a + 4 * Z.of_nat (length l) → m' k = m k) → holds m a l → holds m' a l.
Proof.
  unfold holds. revert a. induction l as [|x l IH]; intros a Hm; cbn [length read_words] in *; [done|].
  intros [= Hx Hl]. rewrite Hm, Hx by lia. f_equal. apply IH; [|exact Hl]. intros k Hk. apply Hm. lia.
Qed.

Lemma write_words_out a l m k : ¬ (a ≤ k < a + 4 * Z.of_nat (length l)) → write_words a l m k = m k.
Proof.
  revert a. induction l as [|x l IH]; intros a Hk; cbn [write_words length] in *; [done|].
  unfold write_stack. rewrite (proj2 (Z.eqb_neq k a)) by lia. apply IH. lia.
Qed.

Lemma write_words_holds a l m : holds (write_words a l m) a l.
Proof.
  unfold holds. revert a m. induction l as [|x l IH]; intros a m; cbn [write_words length read_words]; [done|].
  f_equal; [unfold write_stack; by rewrite Z.eqb_refl|].
  apply (holds_same (write_words (a + 4) l m)); [|apply IH]. intros k Hk. unfold write_stack.
  by rewrite (proj2 (Z.eqb_neq k a)) by lia.
Qed.

(** ** The C code between the stub and the context switch

    What the compiler makes of [irq_handler] and [scheduler_tick] is not in the source: the
    words they have on the stack when they call [context_switch] ([c] is the state at the
    call of [irq_handler]), what the registers are then, and how the functions return.  The
    laws are the calling convention's: with the callee's registers and the stack pointer as
    they were at the call, [irq_handler] returns with its stack frame gone. *)

Definition callee_saved (r : cpu_t) : Z * Z * Z * Z := (ebx r, ebp r, esi r, edi r).

Class Compiled (W : Type) := {
  frame : core W → list Z;
  frame_size : nat;
  at_call : core W → cpu_t;
  back : cpu_t → list Z → cpu_t;
  tick_return : Z;
  frame_length c : length (frame c) = frame_size;
  back_esp c r l :
    callee_saved r = callee_saved (at_call c) → esp r = esp (c_cpu c) - 4 * Z.of_nat frame_size →
    esp (back r (frame c ++ l)) = esp (c_cpu c);
  back_saved c r l :
    callee_saved r = callee_saved (at_call c) → esp r = esp (c_cpu c) - 4 * Z.of_nat frame_size →
    callee_saved (back r (frame c ++ l)) = callee_saved (c_cpu c);
}.

(** Parts of a state that do not overlap. *)
Class Apart {W S T : Type} (LS : Lens W S) (LT : Lens W T) := {
  apart_first (t : T) (w : W) : lens_get (S := S) (lens_set t w) = lens_get w;
  apart_second (s : S) (w : W) : lens_get (S := T) (lens_set s w) = lens_get w;
}.

Section preempt.
Context {W P : Type} `{PicPort P} {LS : Lens W ps} {LP : Lens W P} {AP : Apart LS LP} {CC : Compiled W}.
(** Task state segment, and where boot.s has its stack. *)
Context (esp0 ss0 boot_stack : Z).
Implicit Types c k : core W.

Definition sched c : ps := lens_get (c_world c).
Definition chips c : pics := pic_view (lens_get (c_world c)).

(** Where a process's stack begins. *)
Definition process_top (x : process_t) : Z :=
  if p_stack x =? 0 then boot_stack else p_stack x + KERNEL_STACK_SIZE.

(** From the stub's call of [irq_handler] to the call of [context_switch]. *)
Definition call_tick : K (core W) unit :=
  kmodify (λ c, with_stack (tick_return :: frame c ++ c_stack c)
    (with_cpu (λ r, put_esp (esp r - 4 * Z.of_nat (S frame_size)) (at_call c)) c)).

Definition put_eip (x : Z) (r : cpu_t) : cpu_t :=
  Cpu (eax r) (ecx r) (edx r) (ebx r) (ebp r) (esi r) (edi r) (esp r) x.

(** The scheduler with the running process's stack in memory.  If it did not switch, the
    return address is popped here; if it did, [context_switch] has popped one from the
    stack it came back on. *)
Definition on_stack (tick : K ps unit) : K (core W) unit :=
  c ← kget;
  let s := sched c in
  zoom (S := W) (zoom (kmodify (λ s,
    set_cpu (c_cpu c) (set_stack_mem (write_words (esp (c_cpu c)) (c_stack c) (stack_mem s)) s));; tick));;
  c ← kget;
  let s' := sched c in
  if current_process s' =? current_process s then
    ip ← popl;
    kmodify (with_cpu (put_eip ip))
  else
    x ← klift (procs s' !! current_process s');
    let sp := esp (cpu s') in
    kmodify (λ c, with_stack (read_words (stack_mem s') sp (Z.to_nat ((process_top x - sp) / 4)))
      (with_cpu (λ _, cpu s') c)).

(** Back from [context_switch] in the scheduler: what is left of [irq_handler], with the
    record on the stack that is now in use, and of the stub. *)
Definition return_tick : K (core W) unit :=
  kmodify (λ c, with_stack (drop frame_size (c_stack c)) (with_cpu (λ r, back r (c_stack c)) c));;
  c ← kget;
  match c_stack c with
  | regs :: l =>
      if regs =? u32 (esp (c_cpu c) + 4) then
        x ← klift (regs_at l);
        zoom (S := W) (irq_handler (mret tt) (mret tt) x.1);;
        leave_common
      else kundefined
  | [] => kundefined
  end.

(** The whole interrupt.  A process that has never run does not come back to the scheduler:
    the return address on its stack is its entry point. *)
Definition timer_interrupt (g : gate) : K (core W) unit :=
  interrupt esp0 ss0 g [];;
  cli;;
  pushl 0;;
  pushl 32;;
  enter_common;;
  call_tick;;
  on_stack scheduler_tick;;
  c ← kget;
  if eip (c_cpu c) =? tick_return then return_tick else mret tt.

(** ** What a process that is not running has on its stack *)

(** The processor's side of a state. *)
Definition context c : core unit :=
  Core (c_cpu c) (c_flags c) (c_cs c) (c_ss c) (c_ds c) (c_es c) (c_fs c) (c_gs c) (c_stack c) (c_user c) tt.

(** A process interrupted in the kernel, [top] the beginning of its stack. *)
Record kernel_context (top : Z) (d : core unit) : Prop := {
  kc_interruptible : interruptible d;
  kc_ring : Z.land (c_cs d) 3 = 0;
  kc_ss : c_ss d = 0x10;
  kc_user : c_user d = [];
  kc_top : esp (c_cpu d) + 4 * Z.of_nat (length (c_stack d)) = top;
}.

(** The words from the argument of [irq_handler] on. *)
Definition handler_words (d : core unit) : list Z :=
  let r := c_cpu d in
  [esp r - 56; saved_ds d; edi r; esi r; ebp r; esp r - 20; ebx r; edx r; ecx r; eax r; 32; 0;
   eip r; c_cs d; c_flags d] ++ c_stack d.

(** Bytes of stack that an interrupt with a context switch takes. *)
Definition stack_need : Z := 96 + 4 * Z.of_nat frame_size.

Definition suspended (lo : Z) (s : ps) (p : Z) (d : core unit) : Prop := ∃ x k ax cx dx sp,
  procs s !! p = Some x ∧ kernel_context (process_top x) d ∧ lo ≤ p_esp x ∧
  p_esp x = esp (c_cpu d) - stack_need ∧ esp (c_cpu k) = esp (c_cpu d) - 60 ∧
  let r := at_call k in
  holds (stack_mem s) (p_esp x)
    ([edi r; esi r; ebp r; sp; ebx r; dx; cx; ax; tick_return] ++ frame k ++ handler_words d).

(** A process that [process_create] made and nobody has switched to. *)
Definition created_at (lo : Z) (s : ps) (p : Z) (entry : Z) : Prop := ∃ x,
  procs s !! p = Some x ∧ lo ≤ p_esp x ∧ p_esp x = process_top x - 36 ∧
  holds (stack_mem s) (p_esp x) [0; 0; 0; 0; 0; 0; 0; 0; entry] ∧ entry ≠ tick_return.

Inductive thread := Interrupted (d : core unit) | Created (entry : Z).

Definition waiting (lo : Z) (s : ps) (p : Z) (t : thread) : Prop :=
  match t with
  | Interrupted d => suspended lo s p d
  | Created entry => created_at lo s p entry
  end.

(** The abstract machine: who runs, and where every living process of the ring [r] goes on.
    [lo] is the end of each process's stack. *)
Record multitasking (lo : Z → Z) (r : list Z) c (threads : Z → thread) : Prop := {
  mt_ring : ring (sched c) r;
  mt_low p : p ∈ current_process (sched c) :: r → 0 ≤ lo p;
  mt_apart p q x y : p ∈ current_process (sched c) :: r → q ∈ current_process (sched c) :: r → p ≠ q →
    procs (sched c) !! p = Some x → procs (sched c) !! q = Some y →
    process_top x ≤ lo q ∨ process_top y ≤ lo p;
  mt_waiting p : p ∈ r → living (sched c) p → waiting (lo p) (sched c) p (threads p);
  mt_running x : procs (sched c) !! current_process (sched c) = Some x →
    kernel_context (process_top x) (context c);
}.

(** ** The scheduler on the stack of the running process *)

Lemma ring_lookup s r p : ring s r → p ∈ current_process s :: r → ∃ x, procs s !! p = Some x.
Proof. intros Hr. exact (follows_in s (current_process s :: r) _ (rg_follows _ _ Hr) p). Qed.

Definition synced c : ps :=
  set_cpu (c_cpu c) (set_stack_mem (write_words (esp (c_cpu c)) (c_stack c) (stack_mem (sched c))) (sched c)).
Definition with_sched (s : ps) c : core W := lens_set (lens_set s (c_world c)) c.

Lemma sched_with s c : sched (with_sched s c) = s.
Proof. unfold sched, with_sched. cbn [c_world lens_set world_lens]. apply lens_get_set. Qed.

Lemma synced_ring c r : ring (sched c) r → ring (synced c) r.
Proof. intros Hr. by apply (ring_same (sched c)). Qed.

(** [m] stands for what comes after the scheduler. *)
Lemma wp_on_stack c r (Q : unit → core W → list event → Prop) :
  ring (sched c) r →
  (∀ s', tick_result (synced c) r s' →
    wp (if current_process s' =? current_process (sched c) then
          ip ← popl;
          kmodify (with_cpu (put_eip ip))
        else
          x ← klift (procs s' !! current_process s');
          let sp := esp (cpu s') in
          kmodify (λ c, with_stack (read_words (stack_mem s') sp (Z.to_nat ((process_top x - sp) / 4)))
            (with_cpu (λ _, cpu s') c))) (with_sched s' c) Q) →
  wp (on_stack scheduler_tick) c Q.
Proof.
  intros Hr HQ. unfold on_stack. apply wp_bind, wp_get. apply wp_bind, wp_zoom, wp_zoom, wp_bind, wp_modify.
  eapply wp_mono; [exact (tick_spec (synced c) r (synced_ring c r Hr))|]. intros [] s' o (-> & Ht).
  apply wp_bind, wp_get. change (lens_set (lens_set s' (lens_get c)) c) with (with_sched s' c). rewrite sched_with. exact (HQ s' Ht).
Qed.

Lemma on_stack_stays c r ip st (Q : unit → core W → list event → Prop) :
  ring (sched c) r → filter (living (sched c)) r = [] → c_stack c = ip :: st →
  Q tt (with_stack st (with_cpu (λ q, put_eip ip (put_esp (u32 (esp q + 4)) q)) (with_sched (synced c) c))) [] →
  wp (on_stack scheduler_tick) c Q.
Proof.
  intros Hr Hf Hst HQ. apply (wp_on_stack c r); [exact Hr|]. intros s' Ht. unfold tick_result in Ht.
  change (filter (living (synced c)) r) with (filter (living (sched c)) r) in Ht. rewrite Hf in Ht. subst s'.
  change (current_process (synced c)) with (current_process (sched c)). rewrite Z.eqb_refl.
  apply wp_bind. eapply wp_popl; [exact Hst|]. apply wp_modify. exact HQ.
Qed.

(** What a switch to [n] has done to the scheduler's state. *)
Record switch c (n : Z) (s' : ps) : Prop := {
  sw_current : current_process s' = n;
  sw_other : n ≠ current_process (sched c);
  sw_old : ∃ x, procs (sched c) !! current_process (sched c) = Some x ∧
    procs s' !! current_process (sched c) = Some (set_esp (esp (c_cpu c) - 32) (demote x));
  sw_new : ∃ y m, procs (sched c) !! n = Some y ∧ procs s' !! n = Some (set_state PROCESS_RUNNING y) ∧
    m = stack_mem s' ∧
    let e := p_esp y in
    cpu s' = Cpu (m (e + 28)) (m (e + 24)) (m (e + 20)) (m (e + 16)) (m (e + 8)) (m (e + 4)) (m e) (e + 36) (m (e + 32));
  sw_procs p : p ≠ n → p ≠ current_process (sched c) → procs s' !! p = procs (sched c) !! p;
  sw_out a : ¬ (esp (c_cpu c) - 32 ≤ a < esp (c_cpu c) + 4 * Z.of_nat (length (c_stack c))) →
    stack_mem s' a = stack_mem (sched c) a;
  sw_saved : ∃ sp dx cx ax, let r := c_cpu c in
    holds (stack_mem s') (esp r - 32) ([edi r; esi r; ebp r; sp; ebx r; dx; cx; ax] ++ c_stack c);
}.

Lemma tick_switch c r n l s' :
  ring (sched c) r → filter (living (sched c)) r = n :: l → tick_result (synced c) r s' → switch c n s'.
Proof.
  intros Hr Hf Ht. pose proof (rg_nodup _ _ Hr) as Hnd. apply NoDup_cons in Hnd as [Hnd _].
  assert (n ≠ current_process (sched c)) as Hne.
  { intros ->. apply Hnd. assert (current_process (sched c) ∈ filter (living (sched c)) r) as Hin
      by (rewrite Hf; apply list_elem_of_here). by apply list_elem_of_filter in Hin as [_ Hin]. }
  unfold tick_result in Ht. change (filter (living (synced c)) r) with (filter (living (sched c)) r) in Ht.
  rewrite Hf in Ht. destruct Ht as (x & y & Hx & Hy & Hp & Hc & _ & _ & _ & Hm).
  destruct Hm as (Mdx & Mbx & Mbp & Msi & Mdi & Mout & Hcpu).
  cbn [synced set_cpu set_stack_mem cpu stack_mem procs current_process] in *.
  set (sp := esp (c_cpu c)) in *. set (m0 := write_words sp (c_stack c) (stack_mem (sched c))) in *.
  constructor; [exact Hc|exact Hne|..].
  - exists x. split; [exact Hx|]. rewrite Hp. apply lookup_insert_eq.
  - exists y, (stack_mem s'). split; [exact Hy|]. split; [rewrite Hp, lookup_insert_ne by congruence; apply lookup_insert_eq|].
    split; [reflexivity|exact Hcpu].
  - intros p H1 H2. by rewrite Hp, !lookup_insert_ne by congruence.
  - intros a Ha. rewrite Mout by lia. apply write_words_out. lia.
  - exists (stack_mem s' (sp - 20)), (stack_mem s' (sp - 12)), (stack_mem s' (sp - 8)), (stack_mem s' (sp - 4)).
    cbv zeta. fold sp. apply holds_app. split.
    + unfold holds. cbn [length read_words]. rewrite <-Mbx, <-Mbp, <-Msi, <-Mdi.
      repeat (f_equal; try lia).
    + cbn [length]. replace (sp - 32 + 4 * Z.of_nat 8) with sp by lia.
      apply (holds_same m0); [|apply write_words_holds]. intros k Hk. apply Mout. lia.
Qed.

Lemma on_stack_switches c r n l (Q : unit → core W → list event → Prop) :
  ring (sched c) r → filter (living (sched c)) r = n :: l →
  (∀ s' r' y, ring s' r' → n :: r' ≡ₚ current_process (sched c) :: r → switch c n s' →
    procs (sched c) !! n = Some y →
    Q tt (with_stack (read_words (stack_mem s') (esp (cpu s')) (Z.to_nat ((process_top y - esp (cpu s')) / 4)))
      (with_cpu (λ _, cpu s') (with_sched s' c))) []) →
  wp (on_stack scheduler_tick) c Q.
Proof.
  intros Hr Hf HQ. apply (wp_on_stack c r); [exact Hr|]. intros s' Ht.
  pose proof (tick_switch c r n l s' Hr Hf Ht) as Hsw. destruct (sw_new _ _ _ Hsw) as (y & m & Hy & Hy' & _).
  pose proof (tick_ring _ _ _ (synced_ring c r Hr) Ht) as Hring.
  change (filter (living (synced c)) r) with (filter (living (sched c)) r) in Hring. rewrite Hf in Hring.
  destruct Hring as (ys & zs & Er & _ & Hc & Hr'). rewrite Hc, (proj2 (Z.eqb_neq _ _) (sw_other _ _ _ Hsw)).
  apply wp_bind. eapply wp_lift; [exact Hy'|]. apply wp_modify.
  apply (HQ s' (zs ++ current_process (sched c) :: ys) y Hr'); [|exact Hsw|exact Hy]. rewrite Er.
  change (current_process (synced c)) with (current_process (sched c)).
  change (n :: zs ++ current_process (sched c) :: ys) with ((n :: zs) ++ current_process (sched c) :: ys).
  rewrite Permutation_app_comm. reflexivity.
Qed.


(** ** The way in and the way out *)

(** The state in which the scheduler runs: [k] is the one in which the stub calls. *)
Definition called k : core W :=
  with_stack (tick_return :: frame k ++ c_stack k)
    (with_cpu (λ r, put_esp (esp r - 4 * Z.of_nat (S frame_size)) (at_call k)) k).

Lemma wp_timer g c (Q : unit → core W → list event → Prop) :
  let k := entered (entry esp0 ss0 g 0 32 c) in
  wp (on_stack scheduler_tick) (called k) (λ _ c' o,
    wp (if eip (c_cpu c') =? tick_return then return_tick else mret tt) c' (λ u c'' o', Q u c'' (o ++ o'))) →
  wp (timer_interrupt g) c Q.
Proof.
  intros k Hk. unfold timer_interrupt.
  eapply wp_same; [exact (stub_enters esp0 ss0 g [] 32 _ c (le_S _ _ (le_n 0)))|]. cbn [nth].
  apply wp_bind, wp_enter_common, wp_bind. unfold call_tick. apply wp_modify. apply wp_bind.
  eapply wp_mono; [exact Hk|]. intros u c' o H1. apply wp_bind, wp_get. cbn [app]. exact H1.
Qed.

Definition resume (d : core unit) (w : W) : core W :=
  Core (c_cpu d) (c_flags d) (c_cs d) (c_ss d) (c_ds d) (c_es d) (c_fs d) (c_gs d) (c_stack d) (c_user d) w.

Lemma wp_eoi regs (w : W) (Q : unit → W → list event → Prop) :
  int_no regs = 32 → Q tt (lens_set (port_out PIC1_COMMAND PIC_EOI (lens_get w)) w) [] →
  wp (irq_handler (mret tt) (mret tt) regs) w Q.
Proof. intros Hno HQ. unfold irq_handler. rewrite Hno. exact HQ. Qed.

Lemma wp_return_tick top d k c (Q : unit → core W → list event → Prop) :
  kernel_context top d → 60 ≤ esp (c_cpu d) → esp (c_cpu k) = esp (c_cpu d) - 60 →
  callee_saved (c_cpu c) = callee_saved (at_call k) → esp (c_cpu c) = esp (c_cpu k) - 4 * Z.of_nat frame_size →
  c_stack c = frame k ++ handler_words d → Z.land (c_cs c) 3 = 0 → c_ss c = 0x10 → c_user c = [] →
  Q tt (resume d (lens_set (port_out PIC1_COMMAND PIC_EOI (lens_get (c_world c))) (c_world c))) [] →
  wp return_tick c Q.
Proof.
  intros [[Hsp Hds (He & Hf & Hg) Hst] Hring Hss Hus _] Hroom Hk Hcallee Hesp Hstk Hcs0 Hss0 Hus0 HQ.
  rewrite Hring in Hst. cbn in Hst. unfold return_tick. apply wp_bind, wp_modify. apply wp_bind, wp_get.
  cbn [with_stack with_cpu c_stack c_cpu]. rewrite Hstk, <-(frame_length k), drop_app_length.
  unfold handler_words at 1. cbn [app]. rewrite (back_esp k) by assumption. rewrite Hk.
  rewrite u32_small by lia. replace (esp (c_cpu d) - 60 + 4) with (esp (c_cpu d) - 56) by lia. rewrite Z.eqb_refl.
  destruct (c_stack d) as [|x0 [|x1 st]] eqn:Es; [cbn in Hst; lia..|].
  apply wp_bind. eapply wp_lift; [reflexivity|]. apply wp_bind, wp_zoom, wp_eoi; [reflexivity|].
  eapply wp_leave_common.
  { cbn [lens_set world_lens with_stack with_cpu c_stack c_cpu].
    unfold handler_words. cbn [app]. rewrite Es. reflexivity. }
  cbv zeta. cbn [lens_set lens_get world_lens with_stack with_cpu c_cs c_ss c_user c_cpu c_world].
  rewrite Hcs0, Hring, Hss0, Hus0. change (0 <? 0) with false. cbn iota.
  rewrite (back_esp k) by assumption. rewrite Hk. unfold saved_ds. rewrite segment_half, data_half by exact Hds.
  replace (esp (c_cpu d) - 60 + 60) with (esp (c_cpu d)) by lia. rewrite u32_small by exact Hsp.
  unfold resume in HQ. rewrite He, Hf, Hg, Hss, Hus, Es in HQ. cbn [app].
  destruct (c_cpu d). exact HQ.
Qed.


Lemma eoi_timer before :
  chip_ok (master before) → delivers before 0 ≠ None →
  pic_write PIC1_COMMAND PIC_EOI (acknowledge 0 before) = before.
Proof.
  intros Hok Hdel. change (pic_write PIC1_COMMAND PIC_EOI (acknowledge 0 before)) with
    (Pics (chip_command PIC_EOI (served 0 (master before))) (slave before)).
  rewrite eoi_served; [by destruct before|exact Hok|lia|].
  unfold delivers in Hdel. cbn [Z.ltb Z.compare] in Hdel. by destruct (serves (master before) 0).
Qed.

(** Back in the interrupted code: what comes after the scheduler, which left the state [s]. *)
Lemma wp_lands top (s : ps) c d k c1 before (Q : unit → core W → list event → Prop) :
  chip_ok (master before) → delivers before 0 ≠ None → chips c = acknowledge 0 before →
  c_world c1 = lens_set s (c_world c) → eip (c_cpu c1) = tick_return →
  kernel_context top d → 60 ≤ esp (c_cpu d) → esp (c_cpu k) = esp (c_cpu d) - 60 →
  callee_saved (c_cpu c1) = callee_saved (at_call k) → esp (c_cpu c1) = esp (c_cpu k) - 4 * Z.of_nat frame_size →
  c_stack c1 = frame k ++ handler_words d → Z.land (c_cs c1) 3 = 0 ∧ c_ss c1 = 0x10 ∧ c_user c1 = [] →
  (∀ c', sched c' = s → chips c' = before → context c' = d → Q tt c' []) →
  wp (if eip (c_cpu c1) =? tick_return then return_tick else mret tt) c1 Q.
Proof.
  intros Hok Hdel Hack Hw Hip Hd Hroom Hk Hcallee Hesp Hst (Hcs & Hss & Hus) HQ. rewrite Hip, Z.eqb_refl.
  apply (wp_return_tick top d k); [exact Hd|exact Hroom|exact Hk|exact Hcallee|exact Hesp|exact Hst|exact Hcs|exact Hss|exact Hus|].
  apply HQ.
  - unfold sched, resume. cbn [c_world]. rewrite Hw, apart_first. apply lens_get_set.
  - unfold chips, resume. cbn [c_world]. rewrite lens_get_set, pic_out, Hw, apart_second.
    change (pic_view (lens_get (c_world c))) with (chips c). rewrite Hack. by apply eoi_timer.
  - by destruct d as [? ? ? ? ? ? ? ? ? ? []].
Qed.

(** ** Stacks that nobody touches *)

Lemma handler_words_length d : length (handler_words d) = (15 + length (c_stack d))%nat.
Proof. unfold handler_words. by rewrite length_app. Qed.

Lemma waiting_kept lo s s' p t x x' :
  procs s !! p = Some x → procs s' !! p = Some x' → p_esp x' = p_esp x → p_stack x' = p_stack x →
  (∀ a, lo ≤ a < process_top x → stack_mem s' a = stack_mem s a) →
  waiting lo s p t → waiting lo s' p t.
Proof.
  intros Hx Hx' Hesp Hstk Hm. assert (process_top x' = process_top x) as Htop by (unfold process_top; by rewrite Hstk).
  destruct t as [d|entry]; cbn [waiting].
  - intros (x1 & k & ax & cx & dx & sp & Hx1 & Hd & Hlo & He & Hk & Hh). rewrite Hx in Hx1. injection Hx1 as <-.
    exists x', k, ax, cx, dx, sp. rewrite Htop, Hesp. repeat (split; [assumption|]). cbv zeta in *.
    apply (holds_same (stack_mem s)); [|exact Hh]. intros a Ha. apply Hm.
    rewrite !length_app, frame_length, handler_words_length in Ha. cbn [length] in Ha.
    pose proof (kc_top _ _ Hd). unfold stack_need in He. lia.
  - intros (x1 & Hx1 & Hlo & He & Hh & Hne). rewrite Hx in Hx1. injection Hx1 as <-.
    exists x'. rewrite Htop, Hesp. repeat (split; [assumption|]). split; [|exact Hne].
    apply (holds_same (stack_mem s)); [|exact Hh]. intros a Ha. apply Hm. cbn [length] in Ha. lia.
Qed.

(** The state at the call, [c] being interrupted in the kernel. *)
Lemma interrupted_call g c top :
  g_selector g = 0x08 → kernel_context top (context c) → stack_need ≤ esp (c_cpu c) →
  let k := entered (entry esp0 ss0 g 0 32 c) in
  c_stack k = handler_words (context c) ∧ esp (c_cpu k) = esp (c_cpu c) - 60 ∧ c_cs k = 0x08 ∧ c_ss k = 0x10 ∧
  c_user k = [] ∧ c_world k = c_world c ∧ Z.testbit (c_flags k) 9 = false.
Proof.
  intros Hsel [[Hsp _ _ _] Hring Hss Hus _] Hroom. cbn [context c_cs c_ss c_user c_cpu] in *. unfold stack_need in Hroom.
  unfold entered, saved_ds, entry, handler_words. cbn [c_cs c_ss c_user c_cpu c_stack c_flags c_world c_ds esp eax ebx ecx edx ebp esi edi].
  rewrite Hring. change (0 =? 0) with true. cbn [negb]. repeat rewrite u32_shift_sub, <-?Z.sub_add_distr.
  change (20 + 36) with 56. change (20 + 40) with 60. rewrite !u32_small by lia.
  repeat (split; [done|]). rewrite Z.land_spec. change (Z.testbit (u32 (Z.lnot 0x200)) 9) with false. apply andb_false_r.
Qed.

(** ** Coming back on another stack *)

Definition loaded (m : Z → Z) (e : Z) : cpu_t :=
  Cpu (m (e + 28)) (m (e + 24)) (m (e + 20)) (m (e + 16)) (m (e + 8)) (m (e + 4)) (m e) (e + 36) (m (e + 32)).

Lemma suspended_loads lo s p d x :
  suspended lo s p d → 0 ≤ lo → procs s !! p = Some x →
  let q := loaded (stack_mem s) (p_esp x) in
  ∃ k, kernel_context (process_top x) d ∧ 60 ≤ esp (c_cpu d) ∧ esp (c_cpu k) = esp (c_cpu d) - 60 ∧
    callee_saved q = callee_saved (at_call k) ∧ esp q = esp (c_cpu k) - 4 * Z.of_nat frame_size ∧ eip q = tick_return ∧
    read_words (stack_mem s) (esp q) (Z.to_nat ((process_top x - esp q) / 4)) = frame k ++ handler_words d.
Proof.
  intros (x1 & k & ax & cx & dx & sp & Hx1 & Hd & Hlo & He & Hk & Hh) Hlo0 Hx. rewrite Hx in Hx1. injection Hx1 as <-.
  cbv zeta in *. apply holds_app in Hh as [Hregs Hrest]. unfold stack_need in He. exists k.
  split; [exact Hd|]. split; [lia|]. split; [exact Hk|].
  pose proof (λ i y, holds_nth _ _ _ i y Hregs) as Hw.
  unfold loaded, callee_saved. cbn [ebx ebp esi edi esp eip].
  rewrite (Hw 4%nat _ eq_refl : stack_mem s (p_esp x + 16) = _), (Hw 2%nat _ eq_refl : stack_mem s (p_esp x + 8) = _),
    (Hw 1%nat _ eq_refl : stack_mem s (p_esp x + 4) = _).
  pose proof (Hw 0%nat _ eq_refl) as Hdi. rewrite Z.add_0_r in Hdi. rewrite Hdi.
  pose proof (Hw 8%nat _ eq_refl : stack_mem s (p_esp x + 32) = _) as Hip.
  split; [reflexivity|]. split; [lia|]. split; [exact Hip|].
  replace (Z.to_nat _) with (length (frame k ++ handler_words d)); [exact Hrest|].
  rewrite length_app, frame_length, handler_words_length. pose proof (kc_top _ _ Hd) as Htop.
  replace (process_top x - (p_esp x + 36)) with (Z.of_nat (frame_size + (15 + length (c_stack d))) * 4) by lia.
  rewrite Z.div_mul, Nat2Z.id by lia. reflexivity.
Qed.

Lemma created_loads lo s p entry x :
  created_at lo s p entry → procs s !! p = Some x →
  loaded (stack_mem s) (p_esp x) = Cpu 0 0 0 0 0 0 0 (process_top x) entry ∧ entry ≠ tick_return.
Proof.
  intros (x1 & Hx1 & _ & He & Hh & Hne) Hx. rewrite Hx in Hx1. injection Hx1 as <-. split; [|exact Hne].
  pose proof (λ i y, holds_nth _ _ _ i y Hh) as Hw. unfold loaded.
  rewrite (Hw 7%nat _ eq_refl : stack_mem s (p_esp x + 28) = _), (Hw 6%nat _ eq_refl : stack_mem s (p_esp x + 24) = _),
    (Hw 5%nat _ eq_refl : stack_mem s (p_esp x + 20) = _), (Hw 4%nat _ eq_refl : stack_mem s (p_esp x + 16) = _),
    (Hw 2%nat _ eq_refl : stack_mem s (p_esp x + 8) = _), (Hw 1%nat _ eq_refl : stack_mem s (p_esp x + 4) = _),
    (Hw 8%nat _ eq_refl : stack_mem s (p_esp x + 32) = _).
  pose proof (Hw 0%nat _ eq_refl) as Hdi. rewrite Z.add_0_r in Hdi. rewrite Hdi. f_equal; lia.
Qed.

(** ** One tick *)

Section switching.
Context (g : gate) (c : core W) (r : list Z) (lo : Z → Z) (threads : Z → thread).
Context (Hsel : g_selector g = 0x08) (Hmt : multitasking lo r c threads).
Context (Hroom : lo (current_process (sched c)) + stack_need ≤ esp (c_cpu c)).
#[local] Abbreviation cur := (current_process (sched c)).
#[local] Abbreviation k := (entered (entry esp0 ss0 g 0 32 c)).

Lemma current_lookup : ∃ x, procs (sched c) !! cur = Some x ∧ kernel_context (process_top x) (context c).
Proof.
  destruct (ring_lookup _ _ cur (mt_ring _ _ _ _ Hmt) (list_elem_of_here _ _)) as [x Hx].
  exists x. split; [exact Hx|]. by apply (mt_running _ _ _ _ Hmt).
Qed.

Lemma enough_stack : stack_need ≤ esp (c_cpu c).
Proof. pose proof (mt_low _ _ _ _ Hmt cur (list_elem_of_here _ _)). lia. Qed.

(** Between the call and the stack's beginning. *)
Lemma called_stack x :
  kernel_context (process_top x) (context c) →
  sched (called k) = sched c ∧ c_stack (called k) = tick_return :: frame k ++ handler_words (context c) ∧
  esp (c_cpu (called k)) = esp (c_cpu c) - stack_need + 32 ∧
  esp (c_cpu (called k)) + 4 * Z.of_nat (length (c_stack (called k))) = process_top x.
Proof.
  intros Hc. destruct (interrupted_call g c _ Hsel Hc enough_stack) as (Hst & Hsp & _ & _ & _ & Hw & _).
  pose proof (kc_top _ _ Hc) as Htop. cbn [context c_cpu c_stack] in Htop.
  unfold sched, called. cbn [with_stack with_cpu c_stack c_cpu c_world put_esp esp]. rewrite Hst, Hsp, Hw.
  split; [reflexivity|]. split; [reflexivity|]. unfold stack_need. split; [lia|].
  cbn [length]. rewrite length_app, frame_length, handler_words_length. cbn [context c_stack]. lia.
Qed.

Lemma switch_waiting n s' p :
  switch (called k) n s' → p ∈ r → living (sched c) p → waiting (lo p) s' p (threads p).
Proof.
  intros Hsw Hp Hliv. destruct current_lookup as (xc & Hxc & Hc).
  destruct (called_stack xc Hc) as (Hs & Hst & Hsp & Htop).
  pose proof (rg_nodup _ _ (mt_ring _ _ _ _ Hmt)) as Hnd. apply NoDup_cons in Hnd as [Hnd _].
  assert (p ≠ cur) as Hne by congruence.
  pose proof (mt_waiting _ _ _ _ Hmt p Hp Hliv) as Hw.
  destruct (ring_lookup _ _ p (mt_ring _ _ _ _ Hmt) (list_elem_of_further _ _ _ Hp)) as [x Hx].
  assert (∃ x', procs s' !! p = Some x' ∧ p_esp x' = p_esp x ∧ p_stack x' = p_stack x) as (x' & Hx' & He & Hstk).
  { destruct (decide (p = n)) as [->|Hpn].
    - destruct (sw_new _ _ _ Hsw) as (y & m & Hy & Hy' & _). rewrite Hs, Hx in Hy. injection Hy as <-.
      eexists. split; [exact Hy'|]. by split.
    - exists x. rewrite (sw_procs _ _ _ Hsw), Hs by (rewrite ?Hs; assumption). by split. }
  apply (waiting_kept _ (sched c) _ _ _ x x'); [exact Hx|exact Hx'|exact He|exact Hstk| |exact Hw].
  intros a Ha. rewrite (sw_out _ _ _ Hsw), Hs; [reflexivity|]. rewrite Hsp, <-Hsp, Htop.
  destruct (mt_apart _ _ _ _ Hmt p cur x xc (list_elem_of_further _ _ _ Hp) (list_elem_of_here _ _) Hne Hx Hxc); lia.
Qed.

Lemma switch_suspends n s' : switch (called k) n s' → suspended (lo cur) s' cur (context c).
Proof.
  intros Hsw. destruct current_lookup as (xc & Hxc & Hc). destruct (called_stack xc Hc) as (Hs & Hst & Hsp & Htop).
  destruct (interrupted_call g c _ Hsel Hc enough_stack) as (_ & Hk & _).
  destruct (sw_old _ _ _ Hsw) as (x & Hx & Hx'). rewrite Hs in Hx, Hx'. rewrite Hxc in Hx. injection Hx as <-.
  destruct (sw_saved _ _ _ Hsw) as (sp & dx & cx & ax & Hh). cbv zeta in Hh.
  assert (p_esp (set_esp (esp (c_cpu (called k)) - 32) (demote xc)) = esp (c_cpu c) - stack_need) as He
    by (cbn [set_esp p_esp]; lia).
  assert (process_top (set_esp (esp (c_cpu (called k)) - 32) (demote xc)) = process_top xc) as Hst'
    by (unfold process_top, demote; by case_decide).
  exists (set_esp (esp (c_cpu (called k)) - 32) (demote xc)), k, ax, cx, dx, sp.
  rewrite Hst', He. split; [exact Hx'|]. split; [exact Hc|]. split; [lia|]. split; [reflexivity|].
  split; [exact Hk|]. cbv zeta. rewrite Hst in Hh. replace (esp (c_cpu c) - stack_need) with (esp (c_cpu (called k)) - 32) by lia.
  exact Hh.
Qed.

Lemma alone_multitasking c' threads' :
  filter (living (sched c)) r = [] → sched c' = synced (called k) → context c' = context c →
  multitasking lo r c' threads'.
Proof.
  intros Hf Hc' Hctx. destruct current_lookup as (xc & _ & Hc). destruct (called_stack xc Hc) as (Hs & _).
  assert (procs (sched c') = procs (sched c) ∧ current_process (sched c') = cur) as [Hp Hcur].
  { rewrite Hc', <-Hs. by split. }
  constructor; rewrite ?Hcur, ?Hp, ?Hctx.
  - rewrite Hc'. apply synced_ring. rewrite Hs. apply (mt_ring _ _ _ _ Hmt).
  - exact (mt_low _ _ _ _ Hmt).
  - exact (mt_apart _ _ _ _ Hmt).
  - intros p Hin Hl. exfalso. assert (p ∈ filter (living (sched c)) r) as Hin'.
    { apply list_elem_of_filter. split; [|exact Hin]. unfold living, state_at in *. by rewrite <-Hp. }
    rewrite Hf in Hin'. by apply not_elem_of_nil in Hin'.
  - exact (mt_running _ _ _ _ Hmt).
Qed.

Lemma switch_threads n s' r' p :
  switch (called k) n s' → n :: r' ≡ₚ cur :: r → living (sched c) n → p ∈ r' → living s' p →
  waiting (lo p) s' p ((<[cur := Interrupted (context c)]> threads) p).
Proof.
  intros Hsw Hperm Hliv Hp Hl. destruct current_lookup as (xc & _ & Hc). destruct (called_stack xc Hc) as (Hs & _).
  destruct (decide (p = cur)) as [->|Hpc].
  - rewrite fn_lookup_insert. exact (switch_suspends n s' Hsw).
  - rewrite fn_lookup_insert_ne by congruence. apply (switch_waiting n); [exact Hsw|..].
    + assert (p ∈ n :: r') as Hin by (by right). rewrite Hperm in Hin. by apply elem_of_cons in Hin as [|].
    + destruct (decide (p = n)) as [->|Hpn]; [exact Hliv|]. unfold living, state_at in *.
      rewrite <-Hs, <-(sw_procs _ _ _ Hsw); [exact Hl|exact Hpn|by rewrite Hs].
Qed.

Lemma switch_multitasking n s' r' c' :
  switch (called k) n s' → ring s' r' → n :: r' ≡ₚ cur :: r → living (sched c) n →
  sched c' = s' → (∀ x, procs s' !! n = Some x → kernel_context (process_top x) (context c')) →
  multitasking lo r' c' (<[cur := Interrupted (context c)]> threads).
Proof.
  intros Hsw Hr' Hperm Hliv Hc' Hd. destruct current_lookup as (xc & Hxc & Hc).
  destruct (called_stack xc Hc) as (Hs & _). pose proof (sw_current _ _ _ Hsw) as Hn.
  destruct (sw_new _ _ _ Hsw) as (y & m & Hy & Hy' & _). destruct (sw_old _ _ _ Hsw) as (x & Hx & Hx').
  pose proof (sw_other _ _ _ Hsw) as Hne. pose proof (sw_procs _ _ _ Hsw) as Hsame. rewrite Hs in Hy, Hx, Hx', Hne, Hsame.
  assert (∀ p x', procs s' !! p = Some x' → ∃ x, procs (sched c) !! p = Some x ∧ process_top x' = process_top x ∧
    (p ≠ n → p ≠ cur → x' = x)) as Hback.
  { intros p x1 Hx1. destruct (decide (p = n)) as [->|Hpn].
    - exists y. rewrite Hy' in Hx1. injection Hx1 as <-. split; [exact Hy|]. by split.
    - destruct (decide (p = cur)) as [->|Hpc].
      + exists x. rewrite Hx' in Hx1. injection Hx1 as <-. split; [exact Hx|]. split; [|by intros].
        unfold process_top, demote. by case_decide.
      + exists x1. rewrite Hsame in Hx1 by assumption. by split. }
  constructor; rewrite Hc', ?Hn; [exact Hr'|..].
  - intros p Hp. apply (mt_low _ _ _ _ Hmt). by rewrite <-Hperm.
  - intros p q x1 x2 Hp Hq Hpq H1 H2. destruct (Hback _ _ H1) as (z1 & Hz1 & -> & _).
    destruct (Hback _ _ H2) as (z2 & Hz2 & -> & _).
    apply (mt_apart _ _ _ _ Hmt p q); [by rewrite <-Hperm|by rewrite <-Hperm|exact Hpq|exact Hz1|exact Hz2].
  - intros p Hp Hl. exact (switch_threads n s' r' p Hsw Hperm Hliv Hp Hl).
  - exact Hd.
Qed.

Lemma timer_stays before (Q : unit → core W → list event → Prop) :
  filter (living (sched c)) r = [] →
  chip_ok (master before) → delivers before 0 ≠ None → chips c = acknowledge 0 before →
  (∀ c', sched c' = synced (called k) → chips c' = before → context c' = context c → Q tt c' []) →
  wp (timer_interrupt g) c Q.
Proof.
  intros Hf Hok Hdel Hack HQ. destruct current_lookup as (x & _ & Hc). destruct (called_stack x Hc) as (Hs & Hst & Hsp & _).
  pose proof enough_stack as Hneed. destruct (interrupted_call g c _ Hsel Hc Hneed) as (_ & Hk & Hcs & Hss & Hus & _).
  pose proof (mt_ring _ _ _ _ Hmt) as Hr. rewrite <-Hs in Hr, Hf. apply wp_timer.
  eapply (on_stack_stays (called k) r tick_return); [exact Hr|exact Hf|exact Hst|].
  pose proof (in_esp _ (kc_interruptible _ _ Hc)) as Hrange. cbn [context c_cpu] in Hrange. unfold stack_need in *.
  apply (wp_lands (process_top x) (synced (called k)) c (context c) k _ before);
    [exact Hok|exact Hdel|exact Hack|reflexivity|reflexivity|exact Hc|cbn; lia|exact Hk|reflexivity| |reflexivity| |exact HQ].
  - cbn [with_stack with_cpu put_eip put_esp with_sched lens_set world_lens c_cpu esp]. rewrite u32_small by lia. lia.
  - change (Z.land (c_cs k) 3 = 0 ∧ c_ss k = 0x10 ∧ c_user k = []). by rewrite Hcs.
Qed.

(** The machine on the stack of the process [n], after the scheduler. *)
Definition arrived (s : ps) (y : process_t) : core W :=
  with_stack (read_words (stack_mem s) (esp (cpu s)) (Z.to_nat ((process_top y - esp (cpu s)) / 4)))
    (with_cpu (λ _, cpu s) (with_sched s (called k))).

Lemma timer_switches n l (Q : unit → core W → list event → Prop) :
  filter (living (sched c)) r = n :: l →
  (∀ s' r' y, ring s' r' → n :: r' ≡ₚ cur :: r → switch (called k) n s' → living (sched c) n → 0 ≤ lo n →
    procs s' !! n = Some y → cpu s' = loaded (stack_mem s') (p_esp y) → waiting (lo n) s' n (threads n) →
    wp (if eip (cpu s') =? tick_return then return_tick else mret tt) (arrived s' y) Q) →
  wp (timer_interrupt g) c Q.
Proof.
  intros Hf HQ. destruct current_lookup as (x & _ & Hc). destruct (called_stack x Hc) as (Hs & _).
  pose proof (mt_ring _ _ _ _ Hmt) as Hr. rewrite <-Hs in Hr. apply wp_timer.
  apply (on_stack_switches (called k) r n l); [exact Hr|by rewrite Hs|].
  intros s' r' y Hr' Hperm Hsw Hy. rewrite Hs in Hperm, Hy.
  assert (n ∈ filter (living (sched c)) r) as [Hliv Hin]%list_elem_of_filter by (rewrite Hf; apply list_elem_of_here).
  destruct (sw_new _ _ _ Hsw) as (y1 & m & Hy1 & Hy' & -> & Hcpu). rewrite Hs, Hy in Hy1. injection Hy1 as <-.
  exact (HQ s' r' _ Hr' Hperm Hsw Hliv (mt_low _ _ _ _ Hmt n (list_elem_of_further _ _ _ Hin)) Hy' Hcpu
    (switch_waiting n s' n Hsw Hin Hliv)).
Qed.

Lemma called_flat : c_cs (called k) = 0x08 ∧ c_ss (called k) = 0x10 ∧ c_user (called k) = [] ∧
  Z.testbit (c_flags (called k)) 9 = false ∧ c_world (called k) = c_world c.
Proof.
  destruct current_lookup as (x & _ & Hc).
  by destruct (interrupted_call g c _ Hsel Hc enough_stack) as (_ & _ & H1 & H2 & H3 & H4 & H5).
Qed.
End switching.

(** With the clock's line in service the controllers deliver nothing. *)
Lemma clock_blocks before line :
  0 ≤ line → delivers (acknowledge 0 before) line = None.
Proof.
  intros Hl. change (acknowledge 0 before) with (Pics (served 0 (master before)) (slave before)).
  assert (∀ l, 0 ≤ l → serves (served 0 (master before)) l = false) as Hs.
  { intros l Hl0. unfold serves. apply andb_false_iff. right. apply Z.eqb_neq. intros E.
    apply (f_equal (λ x, Z.testbit x 0)) in E. cbn [served in_service] in E.
    replace (2 ^ (l + 1) - 1) with (Z.ones (l + 1)) in E by (rewrite Z.ones_equiv; lia).
    rewrite Z.land_spec, Z.lor_spec, Z.ones_spec_low, orb_true_r in E by lia. discriminate. }
  unfold delivers. cbn [master slave]. destruct (line <? 8) eqn:E; by rewrite Hs by lia.
Qed.

(** What [process_create] leaves is a process that waits for its first tick. *)
Lemma created_waits s entry p st s1 :
  created s entry p st s1 → st ≠ 0 → entry ≠ tick_return → created_at st s1 p entry.
Proof.
  intros [(l & _ & Hy) (He & Hz & _) _ _] Hst Hne. eexists. split; [exact Hy|].
  assert (process_top (Process (next_pid s) (st + KERNEL_STACK_SIZE - 36) 0 st PROCESS_READY l 0) = st + KERNEL_STACK_SIZE) as Htop.
  { unfold process_top. cbn [p_stack]. by rewrite (proj2 (Z.eqb_neq st 0)). }
  rewrite Htop. cbn [p_esp]. unfold KERNEL_STACK_SIZE in *. split; [lia|]. split; [reflexivity|]. split; [|exact Hne].
  unfold holds. cbn [length read_words].
  repeat f_equal; [etrans; [|apply (Hz 0)]|etrans; [|apply (Hz 1)]|etrans; [|apply (Hz 2)]|etrans; [|apply (Hz 3)]
    |etrans; [|apply (Hz 4)]|etrans; [|apply (Hz 5)]|etrans; [|apply (Hz 6)]|etrans; [|apply (Hz 7)]|etrans; [|exact He]];
    try lia; f_equal; lia.
Qed.
(** ** Theorems *)

(** C24.  Preemption is invisible: the clock interrupts a process in the kernel, the
    scheduler picks the next living one, and when the interrupt is over the processor is
    exactly where that process was when the clock interrupted it: every register, flag,
    segment and word of its stack, with the controllers ready for the next tick.  The
    process that had to go is now among those that will go on in the same way, and the
    others have not moved. *)
Theorem preemption_transparent g c r lo threads before d :
  g_selector g = 0x08 → multitasking lo r c threads →
  lo (current_process (sched c)) + stack_need ≤ esp (c_cpu c) →
  chip_ok (master before) → delivers before 0 ≠ None → chips c = acknowledge 0 before →
  let next := next_of (sched c) r in
  let threads' := <[current_process (sched c) := Interrupted (context c)]> threads in
  threads' next = Interrupted d →
  ∃ c' r', timer_interrupt g c = Done tt c' [] ∧ current_process (sched c') = next ∧ context c' = d ∧
    chips c' = before ∧ next :: r' ≡ₚ current_process (sched c) :: r ∧ multitasking lo r' c' threads'.
Proof.
  intros Hsel Hmt Hroom Hok Hdel Hack next threads' Hd.
  assert (wp (timer_interrupt g) c (λ _ c' o, o = [] ∧ ∃ r', current_process (sched c') = next ∧ context c' = d ∧
    chips c' = before ∧ next :: r' ≡ₚ current_process (sched c) :: r ∧ multitasking lo r' c' threads')) as Hwp.
  2: { destruct (wp_done _ _ _ Hwp) as ([] & c' & o & E & -> & r' & Hc'). by exists c', r'. }
  unfold next, next_of in *. destruct (filter (living (sched c)) r) as [|n l] eqn:Ef; cbn [head default] in *.
  - unfold threads' in Hd. rewrite fn_lookup_insert in Hd. injection Hd as <-.
    apply (timer_stays g c r lo threads Hsel Hmt Hroom before); [exact Ef|exact Hok|exact Hdel|exact Hack|].
    intros c' Hsc Hch Hctx. split; [reflexivity|]. exists r. rewrite Hsc.
    split; [reflexivity|]. split; [exact Hctx|]. split; [exact Hch|]. split; [reflexivity|].
    by apply (alone_multitasking g c r lo threads).
  - change (id n) with n in *. apply (timer_switches g c r lo threads Hsel Hmt Hroom n l); [exact Ef|].
    intros s' r' y Hr' Hperm Hsw Hliv Hlo Hy Hcpu Hwait. destruct (called_flat g c r lo threads Hsel Hmt Hroom) as (Hcs & Hss & Hus & _ & Hw).
    unfold threads' in Hd. rewrite fn_lookup_insert_ne in Hd by (intros E; by apply (sw_other _ _ _ Hsw)). rewrite Hd in Hwait.
    destruct (suspended_loads _ _ _ _ _ Hwait Hlo Hy) as (k2 & Hd2 & Hroom2 & Hk2 & Hcal & Hesp & Hip & Hread).
    rewrite <-Hcpu in *. apply (wp_lands (process_top y) s' c d k2 (arrived g c s' y) before);
      [exact Hok|exact Hdel|exact Hack|reflexivity|exact Hip|exact Hd2|exact Hroom2|exact Hk2|exact Hcal|exact Hesp
      |exact Hread| |].
    + split; [exact (f_equal (λ x, Z.land x 3) Hcs)|]. split; [exact Hss|exact Hus].
    + intros c' Hsc Hch Hctx. split; [reflexivity|]. exists r'. rewrite Hsc.
      split; [exact (sw_current _ _ _ Hsw)|]. split; [exact Hctx|]. split; [exact Hch|]. split; [exact Hperm|].
      apply (switch_multitasking g c r lo threads Hsel Hmt Hroom n s' r' c' Hsw Hr' Hperm Hliv Hsc).
      intros x Hx. rewrite Hy in Hx. injection Hx as <-. by rewrite Hctx.
Qed.

(** C35.  A new process keeps the machine: when a tick comes to a process that has never
    run, it starts at its entry point with an empty stack and zeros in the registers, but
    the way there is not the way out of an interrupt.  The interrupt flag is off and the
    clock's line is still in service, so that the controllers deliver no line at all, with
    the flag set again or not; the processes that could go on in an [Interrupted] state
    wait for a tick that does not come. *)
Theorem new_process_keeps_machine g c r lo threads before entry :
  g_selector g = 0x08 → multitasking lo r c threads →
  lo (current_process (sched c)) + stack_need ≤ esp (c_cpu c) → chips c = acknowledge 0 before →
  let next := next_of (sched c) r in
  let threads' := <[current_process (sched c) := Interrupted (context c)]> threads in
  threads' next = Created entry →
  ∃ c' r' y, timer_interrupt g c = Done tt c' [] ∧ current_process (sched c') = next ∧
    procs (sched c') !! next = Some y ∧ c_cpu c' = Cpu 0 0 0 0 0 0 0 (process_top y) entry ∧ c_stack c' = [] ∧
    Z.testbit (c_flags c') 9 = false ∧ (∀ line, 0 ≤ line < 16 → delivers (chips c') line = None) ∧
    next :: r' ≡ₚ current_process (sched c) :: r ∧ ring (sched c') r' ∧
    ∀ p, p ∈ r' → living (sched c') p → waiting (lo p) (sched c') p (threads' p).
Proof.
  intros Hsel Hmt Hroom Hack next threads' Hd.
  assert (wp (timer_interrupt g) c (λ _ c' o, o = [] ∧ ∃ r' y, current_process (sched c') = next ∧
    procs (sched c') !! next = Some y ∧ c_cpu c' = Cpu 0 0 0 0 0 0 0 (process_top y) entry ∧ c_stack c' = [] ∧
    Z.testbit (c_flags c') 9 = false ∧ (∀ line, 0 ≤ line < 16 → delivers (chips c') line = None) ∧
    next :: r' ≡ₚ current_process (sched c) :: r ∧ ring (sched c') r' ∧
    ∀ p, p ∈ r' → living (sched c') p → waiting (lo p) (sched c') p (threads' p))) as Hwp.
  2: { destruct (wp_done _ _ _ Hwp) as ([] & c' & o & E & -> & r' & y & Hc'). by exists c', r', y. }
  unfold next, next_of in *. destruct (filter (living (sched c)) r) as [|n l] eqn:Ef; cbn [head default] in *.
  { unfold threads' in Hd. rewrite fn_lookup_insert in Hd. discriminate. }
  change (id n) with n in *. apply (timer_switches g c r lo threads Hsel Hmt Hroom n l); [exact Ef|].
  intros s' r' y Hr' Hperm Hsw Hliv Hlo Hy Hcpu Hwait.
  destruct (called_flat g c r lo threads Hsel Hmt Hroom) as (_ & _ & _ & Hif & Hw).
  unfold threads' in Hd. rewrite fn_lookup_insert_ne in Hd by (intros E; by apply (sw_other _ _ _ Hsw)). rewrite Hd in Hwait.
  destruct (created_loads _ _ _ _ _ Hwait Hy) as (Hload & Hne). rewrite Hload in Hcpu. rewrite Hcpu. cbn [eip].
  rewrite (proj2 (Z.eqb_neq _ _) Hne). apply wp_ret.
  assert (sched (arrived g c s' y) = s') as Hsc by (unfold arrived; exact (sched_with s' _)).
  split; [reflexivity|]. exists r', y. rewrite Hsc.
  split; [exact (sw_current _ _ _ Hsw)|]. split; [exact Hy|]. split; [exact Hcpu|].
  split; [unfold arrived; cbn [with_stack c_stack]; by rewrite Hcpu; cbn [esp]; rewrite Z.sub_diag|].
  split; [exact Hif|]. split; [|split; [exact Hperm|split; [exact Hr'|]]].
  - intros line Hl. assert (chips (arrived g c s' y) = acknowledge 0 before) as ->; [|apply clock_blocks; lia].
    rewrite <-Hack. unfold chips, arrived. cbn [with_stack with_cpu with_sched lens_set world_lens c_world].
    rewrite apart_second. by rewrite Hw.
  - intros p Hp Hl. exact (switch_threads g c r lo threads Hsel Hmt Hroom n s' r' p Hsw Hperm Hliv Hp Hl).
Qed.
End preempt.

(** ** Witnesses: the kernel process and one more *)

#[local] Instance demo_sched : Lens (ps * pics) ps.
Proof. refine {| lens_get := fst; lens_set s w := (s, w.2) |}; try done. by intros []. Defined.
#[local] Instance demo_chips : Lens (ps * pics) pics.
Proof. refine {| lens_get := snd; lens_set p w := (w.1, p) |}; try done. by intros []. Defined.
#[local] Instance demo_apart : Apart demo_sched demo_chips.
Proof. by constructor. Defined.

(** Two functions with frame pointers and no locals.  From the stub's argument down:
    [irq_handler]'s return address and saved ebp, [scheduler_tick]'s, and the two arguments
    of [context_switch]; both end in [leave; ret]. *)
#[local] Instance demo_code {W} : Compiled W.
Proof.
  refine {|
    frame c := let a := esp (c_cpu c) in [0; 0; a - 8; 0x100A80; ebp (c_cpu c); 0x100F00];
    frame_size := 6;
    at_call c := let r := c_cpu c in
      Cpu (eax r) (ecx r) (edx r) (ebx r) (esp r - 16) (esi r) (edi r) (esp r - 24) (eip r);
    back r l :=
      let word a := nth (Z.to_nat ((a - esp r) / 4)) l 0 in
      let outer := word (ebp r) in
      Cpu (eax r) (ecx r) (edx r) (ebx r) (word outer) (esi r) (edi r) (outer + 8) (word (outer + 4));
    tick_return := 0x100B40 |}.
  - done.
  - intros c r l [= Hbx Hbp Hsi Hdi] Hesp. cbn [esp ebp] in *. rewrite Hbp, Hesp.
    replace (esp (c_cpu c) - 16 - (esp (c_cpu c) - 4 * Z.of_nat 6)) with 8 by lia.
    change (nth (Z.to_nat (8 / 4)) _ 0) with (esp (c_cpu c) - 8). lia.
  - intros c r l [= Hbx Hbp Hsi Hdi] Hesp. unfold callee_saved. cbn [ebx ebp esi edi] in *. rewrite Hbx, Hbp, Hsi, Hdi, Hesp.
    replace (esp (c_cpu c) - 16 - (esp (c_cpu c) - 4 * Z.of_nat 6)) with 8 by lia.
    change (nth (Z.to_nat (8 / 4)) _ 0) with (esp (c_cpu c) - 8).
    replace (esp (c_cpu c) - 8 - (esp (c_cpu c) - 4 * Z.of_nat 6)) with 16 by lia. reflexivity.
Defined.

Definition demo_stack : Z := 0x10FFF8.
Definition demo_top : Z := 0x501000.
Definition demo_low (p : Z) : Z := if p =? p0 then 0x100000 else 0x500000.
Definition demo_ps (sp : Z) (words : list Z) : ps :=
  Ps heap0 {[ p0 := Process 0 0 0 0 PROCESS_RUNNING [] p1; p1 := Process 1 sp 0 0x500000 PROCESS_READY [] 0 ]}
    (write_words sp words (λ _, 0)) p0 p0 2 (Cpu 0 0 0 0 0 0 0 0 0).
Definition demo_core (sp : Z) (words : list Z) : core (ps * pics) :=
  kernel_core (demo_ps sp words, acknowledge 0 quiet_pics).

(** The other process, interrupted between two instructions. *)
Definition demo_context : core unit :=
  Core (Cpu 11 12 13 14 15 16 17 0x500FF0 0x104010) 0x246 0x08 0x10 0x10 0x10 0x10 0x10 [21; 22; 23; 24] [] tt.
Definition demo_call : core (ps * pics) :=
  Core (Cpu 11 12 13 14 15 16 17 (0x500FF0 - 60) 0x104010) 0x246 0x08 0x10 0x10 0x10 0x10 0x10 [] [] (boot_ps, quiet_pics).
Definition demo_words : list Z :=
  let r := at_call demo_call in
  [edi r; esi r; ebp r; 31; ebx r; 32; 33; 34; tick_return (W := ps * pics)] ++ frame demo_call ++ handler_words demo_context.
Definition demo_esp : Z := 0x500FF0 - stack_need (CC := demo_code (W := ps * pics)).

Lemma demo_kernel_process sp words :
  procs (demo_ps sp words) !! p0 = Some (Process 0 0 0 0 PROCESS_RUNNING [] p1).
Proof. reflexivity. Qed.

Lemma demo_multitasking sp words threads :
  waiting (W := ps * pics) demo_stack 0x500000 (demo_ps sp words) p1 (threads p1) →
  multitasking demo_stack demo_low [p1] (demo_core sp words) threads.
Proof.
  intros Hw. assert (p0 ≠ p1) as Hne by discriminate. constructor.
  - constructor; cbn.
    + apply NoDup_cons. split; [|apply NoDup_singleton]. intros ?%list_elem_of_singleton. discriminate.
    + split; [reflexivity|]. split; reflexivity.
    + intros [H|[H|H]%elem_of_cons]%elem_of_cons; [discriminate..|]. by apply not_elem_of_nil in H.
    + intros p ->%list_elem_of_singleton. discriminate.
  - intros p _. unfold demo_low. destruct (p =? p0); lia.
  - change (current_process _) with p0. intros p q x y Hp Hq Hpq Hx Hy.
    apply elem_of_cons in Hp as [-> | ->%list_elem_of_singleton], Hq as [-> | ->%list_elem_of_singleton]; try done.
    + left. pose proof (eq_trans (eq_sym Hx) (demo_kernel_process sp words)) as [= ->]. discriminate.
    + right. pose proof (eq_trans (eq_sym Hy) (demo_kernel_process sp words)) as [= ->]. discriminate.
  - intros p ->%list_elem_of_singleton _. exact Hw.
  - intros x Hx. pose proof (eq_trans (eq_sym Hx) (demo_kernel_process sp words)) as [= ->].
    constructor; [constructor; [done|done|done|exact (le_n 2)]|reflexivity..].
Qed.

Lemma preemption_transparent_witness :
  let c := demo_core demo_esp demo_words in
  ∃ c' r', timer_interrupt 0x200000 0x10 demo_stack timer_gate c = Done tt c' [] ∧
    current_process (sched c') = p1 ∧ context c' = demo_context ∧ chips c' = quiet_pics ∧ p1 :: r' ≡ₚ [p0; p1] ∧
    multitasking demo_stack demo_low r' c' (<[p0 := Interrupted (context c)]> (λ _, Interrupted demo_context)).
Proof.
  intros c. assert (multitasking demo_stack demo_low [p1] c (λ _, Interrupted demo_context)) as Hmt.
  { apply demo_multitasking. exists (Process 1 demo_esp 0 0x500000 PROCESS_READY [] 0), demo_call, 34, 33, 32, 31.
    split; [reflexivity|]. split; [constructor; [constructor; [done|done|done|by repeat constructor]|reflexivity..]|].
    split; [discriminate|]. split; [reflexivity|]. split; [reflexivity|]. apply write_words_holds. }
  destruct (preemption_transparent 0x200000 0x10 demo_stack timer_gate c [p1] demo_low (λ _, Interrupted demo_context)
    quiet_pics demo_context eq_refl Hmt ltac:(discriminate) ltac:(done) ltac:(discriminate) eq_refl eq_refl)
    as (c' & r' & E & H1 & H2 & H3 & H4 & H5).
  exists c', r'. split; [exact E|]. split; [exact H1|]. split; [exact H2|]. split; [exact H3|]. split; [exact H4|exact H5].
Defined.

Lemma new_process_keeps_machine_witness :
  let c := demo_core (demo_top - 36) [0; 0; 0; 0; 0; 0; 0; 0; entry0] in
  ∃ c' r' y, timer_interrupt 0x200000 0x10 demo_stack timer_gate c = Done tt c' [] ∧
    current_process (sched c') = p1 ∧ procs (sched c') !! p1 = Some y ∧
    c_cpu c' = Cpu 0 0 0 0 0 0 0 (process_top demo_stack y) entry0 ∧ c_stack c' = [] ∧
    Z.testbit (c_flags c') 9 = false ∧ (∀ line, 0 ≤ line < 16 → delivers (chips c') line = None) ∧
    p1 :: r' ≡ₚ [p0; p1] ∧ ring (sched c') r' ∧
    ∀ p, p ∈ r' → living (sched c') p →
      waiting (W := ps * pics) demo_stack (demo_low p) (sched c') p ((<[p0 := Interrupted (context c)]> (λ _, Created entry0)) p).
Proof.
  intros c. assert (multitasking demo_stack demo_low [p1] c (λ _, Created entry0)) as Hmt.
  { apply demo_multitasking. exists (Process 1 (demo_top - 36) 0 0x500000 PROCESS_READY [] 0).
    split; [reflexivity|]. split; [discriminate|]. split; [reflexivity|]. split; [apply write_words_holds|discriminate]. }
  destruct (new_process_keeps_machine 0x200000 0x10 demo_stack timer_gate c [p1] demo_low (λ _, Created entry0)
    quiet_pics entry0 eq_refl Hmt ltac:(discriminate) eq_refl eq_refl) as (c' & r' & y & E & H1 & H2 & H3 & H4 & H5 & H6 & H7 & H8 & H9).
  exists c', r', y. split; [exact E|]. split; [exact H1|]. split; [exact H2|]. split; [exact H3|]. split; [exact H4|].
  split; [exact H5|]. split; [exact H6|]. split; [exact H7|]. split; [exact H8|exact H9].
Defined.
