(* ===== verification/Shell.v ===== *)
(** * The shell: kernel/shell.c and include/shell.h

    The line editor behind the keyboard, the parser of the commands and the commands.
    C strings are lists of bytes that end where the object ends, as in Bytes.v. *)

From S2P Require Import Bytes Console Kprintf Disk Pmm Heap Vmm Process Fs Gdt Kernel Elf Prelude.

Definition SHELL_BUFFER_SIZE : Z := 256.
Definition VERSION : list Z := c_literal "AshOS V210526".

Definition set_buffer (b : list Z) (l : line) : line := Line b (buffer_pos l).
Definition set_pos (n : Z) (l : line) : line := Line (buffer l) n.

(** The body of [strcmp] is that of [fs_strcmp]. *)
Definition strcmp : list Z → list Z → option Z := fs_strcmp.

Fixpoint strncmp (a b : list Z) (n : nat) {struct n} : option Z :=
  match n with
  | O => Some 0
  | S n =>
      match a, b with
      | x :: a', y :: b' =>
          if negb (x =? 0) && negb (y =? 0) && (s8 x =? s8 y) then strncmp a' b' n
          else Some (s8 x - s8 y)
      | _, _ => None
      end
  end.

Section shell.
Context {D : Type} `{BlockOps D} `{Uninit} {L : KernelEnd}.

Definition shell_prompt : K (kernel D) unit :=
  kemit (EvSetColor 0x0A);;
  kprintf "AshOS> " [];;
  kemit (EvSetColor 0x07).

(** ** Commands *)

Definition cmd_help : K (kernel D) unit :=
  kemit (EvSetColor 0x0B);;
  kprintf "\nAvailable commands:\n" [];;
  kemit (EvSetColor 0x07);;
  kprintf "  help     - show this message\n" [];;
  kprintf "  clear    - clear the screen\n" [];;
  kprintf "  version  - show OS version\n" [];;
  kprintf "  echo     - print text back\n" [];;
  kprintf "  meminfo  - show memory usage\n" [];;
  kprintf "  ps       - list processes\n" [];;
  kprintf "  ls            - list files\n" [];;
  kprintf "  touch <file>  - create a file\n" [];;
  kprintf "  write <file>  - write to a file\n" [];;
  kprintf "  cat <file>    - read a file\n" [];;
  kprintf "  rm <file>     - delete a file\n" [];;
  kprintf "  run <file>    - run an ELF program\n" [].

Definition cmd_clear : K (kernel D) unit := kemit EvClear.

Definition cmd_version : K (kernel D) unit :=
  kemit (EvSetColor 0x0B);;
  kprintf "\n%s\n" [AStr VERSION];;
  kemit (EvSetColor 0x07);;
  kprintf "Built from scratch.\n" [].

Definition cmd_echo (args : list Z) : K (kernel D) unit := kprintf "\n%s\n" [AStr args].

Definition cmd_meminfo : K (kernel D) unit :=
  n ← zoom pmm_free_pages;
  kprintf "\nTotal pages: %d\n" [AInt (u32 (n + 521))];;
  n ← zoom pmm_free_pages;
  kprintf "Free pages:  %d\n" [AInt n];;
  n ← zoom pmm_free_pages;
  kprintf "Free memory: %d KB\n" [AInt (u32 (n * 4))].

Definition state_name (st : process_state_t) : list Z :=
  match st with
  | PROCESS_RUNNING => c_literal "RUNNING"
  | PROCESS_READY => c_literal "READY"
  | PROCESS_DEAD => c_literal "DEAD"
  end.

Definition cmd_ps : K (kernel D) unit :=
  kprintf "\nPID\tSTATE\n" [];;
  kprintf "---\t-----\n" [];;
  s ← kget;
  kwhile (S (base.size (procs (k_sched s)))) (λ proc,
    if proc =? 0 then mret (inr tt)
    else
      p ← zoom (proc_get proc);
      kprintf "%d\t%s\n" [AInt (pid p); AStr (state_name (p_state p))];;
      mret (inl (p_next p))) (process_list (k_sched s)).

Definition cmd_ls : K (kernel D) unit := zoom fs_list.

(** [args[0] == 0] *)
Definition no_argument (args : list Z) : K (kernel D) bool :=
  c ← klift (aget args 0); mret (c =? 0).

Definition cmd_touch (args : list Z) : K (kernel D) unit :=
  e ← no_argument args;
  if e : bool then kprintf "Usage: touch <filename>\n" []
  else _ ← zoom (fs_create args); mret tt.

(** The loop that looks for a space or the end: how far it goes. *)
Fixpoint find_space (l : list Z) : option Z :=
  match l with
  | [] => None
  | c :: l => if (c =? 0) || (c =? 32) then Some 0 else n ← find_space l; Some (n + 1)
  end.

Definition cmd_write (args : list Z) : K (kernel D) unit :=
  len ← klift (find_space args);
  c ← klift (aget args len);
  if c =? 0 then kprintf "Usage: write <filename> <content>\n" []
  else
    name ← kfold 0 (Z.to_nat len) (λ i name,
      x ← klift (aget args i); klift (aset name i x)) (garbage 64);
    name ← klift (aset name len 0);
    let content := drop (Z.to_nat (len + 1)) args in
    content_len ← klift (strlen content);
    _ ← zoom (fs_write name content content_len);
    mret tt.

Definition cmd_cat (args : list Z) : K (kernel D) unit :=
  e ← no_argument args;
  if e : bool then kprintf "Usage: cat <filename>\n" []
  else
    p ← zoom (kmalloc 512);
    r ← zoom (fs_read args (block_at p 512) 512);
    let '(bytes, buf) := r in
    (if 0 <? bytes then
       buf ← klift (aset buf bytes 0);
       kprintf "\n%s\n" [AStr buf]
     else mret tt);;
    zoom (kfree p).

Definition cmd_rm (args : list Z) : K (kernel D) unit :=
  e ← no_argument args;
  if e : bool then kprintf "Usage: rm <filename>\n" []
  else _ ← zoom (fs_delete args); mret tt.

Definition cmd_run (args : list Z) : K (kernel D) unit :=
  e ← no_argument args;
  if e : bool then kprintf "Usage: run <filename>\n" []
  else
    r ← elf_load args;
    if r.1 <? 0 then kprintf "Failed to load '%s'\n" [AStr args]
    else
      p ← zoom (kmalloc 4096);
      zoom (enter_usermode r.2 (u32 (p + 4096))).

(** ** Command processing *)

Definition is_command (b : list Z) (name : string) : option bool :=
  r ← strcmp b (c_literal name); Some (r =? 0).
Definition has_prefix (b : list Z) (name : string) (n : nat) : option bool :=
  r ← strncmp b (c_literal name) n; Some (r =? 0).

(** The chain of comparisons: the first that holds decides. *)
Fixpoint first_match (l : list (option bool * K (kernel D) unit)) (other : K (kernel D) unit)
  : K (kernel D) unit :=
  match l with
  | [] => other
  | (test, cmd) :: l => t ← klift test; if t : bool then cmd else first_match l other
  end.

Definition shell_dispatch (b : list Z) : K (kernel D) unit :=
  first_match
    [(is_command b "help", cmd_help);
     (is_command b "clear", cmd_clear);
     (is_command b "version", cmd_version);
     (has_prefix b "echo " 5, cmd_echo (drop 5 b));
     (is_command b "meminfo", cmd_meminfo);
     (is_command b "ps", cmd_ps);
     (is_command b "ls", cmd_ls);
     (has_prefix b "touch " 6, cmd_touch (drop 6 b));
     (has_prefix b "write " 6, cmd_write (drop 6 b));
     (has_prefix b "cat " 4, cmd_cat (drop 4 b));
     (has_prefix b "rm " 3, cmd_rm (drop 3 b));
     (has_prefix b "run " 4, cmd_run (drop 4 b))]
    (kemit (EvSetColor 0x04);;
     kprintf "Unknown command: %s\n" [AStr b];;
     kemit (EvSetColor 0x07)).

(** [buffer[i] = c] *)
Definition buffer_store (i c : Z) : K (kernel D) unit :=
  zoom (l ← kget; b ← klift (aset (buffer l) i c); kmodify (set_buffer b)).

Definition shell_execute : K (kernel D) unit :=
  kprintf "\n" [];;
  s ← kget;
  if buffer_pos (k_line s) =? 0 then shell_prompt
  else
    shell_dispatch (buffer (k_line s));;
    zoom (kmodify (set_pos 0));;
    buffer_store 0 0;;
    kemit (EvPutchar 10);;
    shell_prompt.

Definition shell_process_char (c : Z) : K (kernel D) unit :=
  if c =? 10 then shell_execute
  else
    s ← kget;
    let pos := buffer_pos (k_line s) in
    if c =? 8 then
      if 0 <? pos then
        zoom (kmodify (set_pos (pos - 1)));;
        buffer_store (pos - 1) 0;;
        kemit (EvPutchar 8)
      else mret tt
    else if SHELL_BUFFER_SIZE - 1 <=? pos then mret tt
    else
      buffer_store pos c;;
      zoom (kmodify (set_pos (pos + 1)));;
      buffer_store (pos + 1) 0;;
      kemit (EvPutchar c).

Definition shell_init : K (kernel D) unit :=
  zoom (kmodify (set_pos 0));;
  buffer_store 0 0;;
  kemit (EvPutchar 10);;
  shell_prompt.
End shell.
