(* ===== verification/ShellThms.v ===== *)
(** * The line editor and the command parser

    The shell's buffer as a text, edited one character at a time, and the chain of string
    comparisons as a parser. *)

From S2P Require Import Bytes Console Kprintf Keyboard Disk Pmm Heap Vmm Process Fs Gdt Kernel Elf Shell Prelude.

(** ** The line editor *)

(** The buffer holds the text, then a NUL, inside its 256 bytes. *)
Record line_rep (l : line) (text : list Z) : Prop := {
  lr_pos : buffer_pos l = Z.of_nat (length text);
  lr_length : (length text ≤ 255)%nat;
  lr_text : bytes_ok text ∧ no_nul text;
  lr_buffer : ∃ junk, buffer l = text ++ 0 :: junk;
  lr_size : length (buffer l) = 256%nat;
  lr_bytes : bytes_ok (buffer l);
}.

(** What a character does to the text, and what is echoed. *)
Definition edit_char (text : list Z) (c : Z) : list Z :=
  if decide (c = 8) then take (length text - 1) text
  else if decide (length text < 255)%nat then text ++ [c] else text.
Definition edit_echo (text : list Z) (c : Z) : list event :=
  if decide (c = 8) then (if decide (text = []) then [] else [EvPutchar 8])
  else if decide (length text < 255)%nat then [EvPutchar c] else [].

Lemma line_rep_cstr l text : line_rep l text → cstr (buffer l) = text.
Proof. intros [_ _ [_ Hn] [junk ->] _ _]. by apply cstr_app_nul. Qed.

(** Two stores at neighbouring places. *)
Lemma store_two (t junk : list Z) x y c :
  <[S (length t) := 0]> (<[length t := c]> (t ++ x :: y :: junk)) = t ++ c :: 0 :: junk.
Proof.
  rewrite !insert_app_r_alt by lia. rewrite Nat.sub_diag.
  replace (S (length t) - length t)%nat with 1%nat by lia. done.
Qed.

Section shell_thms.
Context {D : Type} `{BlockOps D} `{Uninit} {L : KernelEnd}.
Implicit Types s : kernel D.

Lemma buffer_store_spec s i c :
  0 ≤ i < Z.of_nat (length (buffer (k_line s))) →
  wp (buffer_store i c) s (λ _ s' o, o = [] ∧
    s' = set_line (set_buffer (<[Z.to_nat i := c]> (buffer (k_line s))) (k_line s)) s).
Proof.
  intros Hi. unfold buffer_store. apply wp_zoom. cbn [lens_get line_lens]. wp_steps.
  eapply wp_lift; [by apply aset_Some|]. wp_steps. done.
Qed.

(** The line buffer after a character is erased, and after one is added. *)
Lemma line_erase l text x :
  line_rep l (text ++ [x]) →
  line_rep (set_buffer (<[length text := 0]> (buffer l)) (set_pos (Z.of_nat (length text)) l)) text.
Proof.
  intros [_ Hlen [Hb Hn] [junk Hbuf] Hsize Hbytes]. rewrite length_app in Hlen. cbn [length] in Hlen.
  rewrite Hbuf, <-app_assoc in *. cbn [app] in *.
  assert (<[length text:=0]> (text ++ x :: 0 :: junk) = text ++ 0 :: 0 :: junk) as ->.
  { rewrite insert_app_r_alt by lia. by rewrite Nat.sub_diag. }
  constructor; cbn [set_buffer set_pos buffer buffer_pos]; [lia|lia| | | |].
  - apply Forall_app in Hb as [Hb _]. apply Forall_app in Hn as [Hn _]. done.
  - by eexists.
  - rewrite !length_app in *. simpl in *. lia.
  - apply Forall_app in Hbytes as [H1 H2]. apply Forall_app. split; [done|].
    apply Forall_cons in H2 as [_ H2]. constructor; [unfold byte_ok; lia|exact H2].
Qed.

Lemma line_append l text c :
  line_rep l text → (length text < 255)%nat → byte_ok c → c ≠ 0 →
  line_rep (set_buffer (<[S (length text) := 0]> (<[length text := c]> (buffer l)))
    (set_pos (Z.of_nat (length text) + 1) l)) (text ++ [c]).
Proof.
  intros [_ Hlen [Hb Hn] [junk Hbuf] Hsize Hbytes] Hlt Hc Hc0. rewrite Hbuf in *.
  rewrite length_app in Hsize. cbn [length] in Hsize. destruct junk as [|y junk]; [simpl in Hsize; lia|].
  rewrite store_two. constructor; cbn [set_buffer set_pos buffer buffer_pos].
  - rewrite length_app. simpl. lia.
  - rewrite length_app. simpl. lia.
  - split; apply Forall_app; (split; [done|]); apply Forall_cons; (split; [assumption|constructor]).
  - exists junk. by rewrite <-app_assoc.
  - rewrite length_app. simpl in *. lia.
  - apply Forall_app in Hbytes as [H1 H2]. apply Forall_app. split; [done|].
    apply Forall_cons in H2 as [_ H2]. apply Forall_cons in H2 as [_ H2].
    constructor; [exact Hc|]. constructor; [unfold byte_ok; lia|exact H2].
Qed.

Lemma shell_char_spec s text c :
  line_rep (k_line s) text → byte_ok c → c ≠ 0 → c ≠ 10 →
  wp (shell_process_char c) s (λ _ s' o, o = edit_echo text c ∧
    ∃ l', s' = set_line l' s ∧ line_rep l' (edit_char text c)).
Proof.
  intros Hrep Hc Hc0 Hc10. pose proof (lr_pos _ _ Hrep) as Hpos. pose proof (lr_size _ _ Hrep) as Hsize.
  pose proof (lr_length _ _ Hrep) as Hlen. unfold shell_process_char.
  rewrite (proj2 (Z.eqb_neq c 10)) by done. wp_steps. rewrite Hpos.
  unfold edit_char, edit_echo. destruct (Z.eqb_spec c 8) as [->|Hc8].
  - rewrite !(decide_True (P := 8 = 8)) by done.
    destruct (decide (text = [])) as [->|Hne].
    { wp_steps. split; [done|]. exists (k_line s). split; [by destruct s|exact Hrep]. }
    destruct (exists_last (l := text) Hne) as (t & x & ->). rewrite length_app in *.
    cbn [length] in *. rewrite (proj2 (Z.ltb_lt 0 _)) by lia. wp_steps. apply wp_zoom. wp_steps.
    eapply wp_mono.
    { apply buffer_store_spec. cbn [lens_get lens_set line_lens set_line k_line set_pos buffer]. lia. }
    intros _ s' o (-> & ->). wp_steps. split; [done|]. eexists. split; [reflexivity|].
    cbn [lens_get lens_set line_lens set_line k_line set_pos set_buffer buffer].
    replace (Z.of_nat (length t + 1) - 1) with (Z.of_nat (length t)) by lia. rewrite Nat2Z.id.
    replace (take (length t + 1 - 1) (t ++ [x])) with t
      by (replace (length t + 1 - 1)%nat with (length t) by lia; by rewrite take_app_length).
    exact (line_erase _ _ _ Hrep).
  - rewrite !(decide_False (P := c = 8)) by done. unfold SHELL_BUFFER_SIZE.
    destruct (decide (length text < 255)%nat) as [Hlt|Hge].
    2: { rewrite (proj2 (Z.leb_le _ _)) by lia. wp_steps. split; [done|]. exists (k_line s).
         split; [by destruct s|exact Hrep]. }
    rewrite (proj2 (Z.leb_gt _ _)) by lia. wp_steps.
    eapply wp_mono; [apply buffer_store_spec; lia|]. intros _ s1 o (-> & ->). wp_steps.
    apply wp_zoom. wp_steps. eapply wp_mono.
    { apply buffer_store_spec.
      cbn [lens_get lens_set line_lens set_line k_line set_pos set_buffer buffer].
      rewrite length_insert. lia. }
    intros _ s' o (-> & ->). wp_steps. split; [done|]. eexists. split; [reflexivity|].
    cbn [lens_get lens_set line_lens set_line k_line set_pos set_buffer buffer buffer_pos].
    replace (Z.to_nat (Z.of_nat (length text) + 1)) with (S (length text)) by lia. rewrite Nat2Z.id.
    exact (line_append _ _ _ Hrep Hlt Hc Hc0).
Qed.

(** ** Comparisons *)

Lemma strncmp_spec p : ∀ b,
  bytes_ok b → terminated b → bytes_ok p → no_nul p →
  ∃ r, strncmp b (p ++ [0]) (length p) = Some r ∧
    (r =? 0) = bool_decide (take (length p) (cstr b) = p).
Proof.
  induction p as [|y p IH]; intros b Hb Ht Hp Hn.
  { exists 0. split; [done|]. by rewrite bool_decide_true. }
  destruct b as [|x b]; [unfold terminated in Ht; set_solver|].
  apply Forall_cons in Hb as [Hx Hb]. apply Forall_cons in Hp as [Hy Hp].
  apply Forall_cons in Hn as [Hy0 Hn]. unfold byte_ok in Hx, Hy.
  cbn [app length strncmp cstr]. rewrite (proj2 (Z.eqb_neq y 0)) by done. cbn [negb].
  destruct (Z.eqb_spec x 0) as [->|Hx0]; cbn [negb andb].
  - eexists. split; [reflexivity|]. rewrite bool_decide_false by done. apply Z.eqb_neq.
    intros E. assert (s8 0 = s8 y) as E' by lia. apply s8_inj in E'; lia.
  - destruct (Z.eqb_spec (s8 x) (s8 y)) as [E|E].
    + apply s8_inj in E; [|lia|lia]. subst y.
      assert (terminated b) as Htb.
      { unfold terminated in *. apply elem_of_cons in Ht as [Ht|Ht]; [congruence|exact Ht]. }
      destruct (IH b Hb Htb Hp Hn) as (r & Hr & Hr0). exists r. split; [exact Hr|]. rewrite Hr0.
      cbn [take]. apply bool_decide_ext. split; [by intros ->|congruence].
    + eexists. split; [reflexivity|]. rewrite bool_decide_false.
      * apply Z.eqb_neq. lia.
      * cbn [take]. intros [= -> _]. done.
Qed.

Lemma is_command_spec b name :
  bytes_ok b → terminated b → c_literal name = with_nul (ascii_codes name) →
  bool_decide (bytes_ok (ascii_codes name)) = true → no_nul (ascii_codes name) →
  is_command b name = Some (bool_decide (cstr b = ascii_codes name)).
Proof.
  intros Hb Ht Hlit Hn%bool_decide_eq_true Hnn. unfold is_command, strcmp. rewrite Hlit.
  destruct (fs_strcmp_spec b (with_nul (ascii_codes name))) as (r & Hr & Hr0); [done| |done| |].
  - apply Forall_app. split; [done|]. apply Forall_cons. split; [unfold byte_ok; lia|constructor].
  - apply terminated_with_nul.
  - rewrite Hr. cbn. by rewrite Hr0, cstr_with_nul.
Qed.

Lemma has_prefix_spec b name n :
  bytes_ok b → terminated b → c_literal name = ascii_codes name ++ [0] →
  n = length (ascii_codes name) →
  bool_decide (bytes_ok (ascii_codes name)) = true → no_nul (ascii_codes name) →
  has_prefix b name n = Some (bool_decide (take n (cstr b) = ascii_codes name)).
Proof.
  intros Hb Ht Hlit -> Hn%bool_decide_eq_true Hnn. unfold has_prefix. rewrite Hlit.
  destruct (strncmp_spec (ascii_codes name) b Hb Ht Hn Hnn) as (r & Hr & Hr0).
  rewrite Hr. cbn. by rewrite Hr0.
Qed.

(** ** The parser *)

(** The commands; an argument is the rest of the buffer, a C string. *)
Inductive command :=
  | CHelp | CClear | CVersion | CEcho (args : list Z) | CMeminfo | CPs | CLs
  | CTouch (args : list Z) | CWrite (args : list Z) | CCat (args : list Z)
  | CRm (args : list Z) | CRun (args : list Z) | CUnknown (line : list Z).

Definition parse_line (b : list Z) : command :=
  let text := cstr b in
  let equals name := bool_decide (text = ascii_codes name) in
  let starts name := bool_decide (take (String.length name) text = ascii_codes name) in
  if equals "help" then CHelp
  else if equals "clear" then CClear
  else if equals "version" then CVersion
  else if starts "echo " then CEcho (drop 5 b)
  else if equals "meminfo" then CMeminfo
  else if equals "ps" then CPs
  else if equals "ls" then CLs
  else if starts "touch " then CTouch (drop 6 b)
  else if starts "write " then CWrite (drop 6 b)
  else if starts "cat " then CCat (drop 4 b)
  else if starts "rm " then CRm (drop 3 b)
  else if starts "run " then CRun (drop 4 b)
  else CUnknown b.

Definition run_command (c : command) : K (kernel D) unit :=
  match c with
  | CHelp => cmd_help | CClear => cmd_clear | CVersion => cmd_version | CEcho a => cmd_echo a
  | CMeminfo => cmd_meminfo | CPs => cmd_ps | CLs => cmd_ls | CTouch a => cmd_touch a
  | CWrite a => cmd_write a | CCat a => cmd_cat a | CRm a => cmd_rm a | CRun a => cmd_run a
  | CUnknown l =>
      kemit (EvSetColor 0x04);;
      kprintf "Unknown command: %s\n" [AStr l];;
      kemit (EvSetColor 0x07)
  end.

Lemma first_match_step t (b : bool) cmd l other s :
  t = Some b →
  first_match ((t, cmd) :: l) other s = if b then cmd s else first_match l other s.
Proof. intros ->. cbn [first_match klift]. rewrite kret_bind. by destruct b. Qed.

Ltac name_side :=
  first [reflexivity | apply (bool_decide_unpack _); vm_compute; exact I].

Lemma dispatch_parses b s :
  bytes_ok b → terminated b → shell_dispatch b s = run_command (parse_line b) s.
Proof.
  intros Hb Ht. unfold shell_dispatch, parse_line. cbv zeta.
  repeat (etransitivity;
    [apply first_match_step;
     first [apply is_command_spec | apply has_prefix_spec]; try assumption; name_side|];
    match goal with |- (if ?b then _ else _) = run_command (if ?b' then _ else _) _ =>
      change b' with b; destruct b; [reflexivity|] end).
  reflexivity.
Qed.
End shell_thms.
