(* ===== verification/ShellRun.v ===== *)
(** * What the shell does with a line

    Typed lines, the [cat] and [write] commands against the file system's directory, and
    the round trip through both. *)

From S2P Require Import Bytes Console Kprintf Keyboard Disk Pmm Heap Vmm Process ProcessLife Fs.
From S2P Require Import FsCodec FsView FsOps FsDir FsSpec FsRead FsWrite FsBoot FsThms Gdt Kernel KernelThms Elf Shell ShellThms Prelude.

Section run.
Context {D : Type} {O : BlockOps D} {B : BlockDevice D} {U : Uninit} {L : KernelEnd}.
Implicit Types s : kernel D.

(** ** Typing *)

Definition typeable (c : Z) : Prop := byte_ok c ∧ c ≠ 0 ∧ c ≠ 10.

Fixpoint edit_text (text cs : list Z) : list Z :=
  match cs with [] => text | c :: cs => edit_text (edit_char text c) cs end.
Fixpoint echo_text (text cs : list Z) : list event :=
  match cs with [] => [] | c :: cs => edit_echo text c ++ echo_text (edit_char text c) cs end.

Lemma type_spec cs : ∀ s text,
  line_rep (k_line s) text → Forall typeable cs →
  wp (type_chars shell_process_char cs) s (λ _ s' o, o = echo_text text cs ∧
    ∃ l', s' = set_line l' s ∧ line_rep l' (edit_text text cs)).
Proof.
  induction cs as [|c cs IH]; intros s text Hl Hcs; cbn [type_chars edit_text echo_text].
  - wp_steps. split; [done|]. exists (k_line s). split; [by destruct s|done].
  - apply Forall_cons in Hcs as [(Hc & Hc0 & Hc10) Hcs]. wp_steps.
    eapply wp_mono; [by apply shell_char_spec|]. intros _ s1 o1 (-> & l1 & -> & Hl1).
    eapply wp_mono; [by apply (IH _ (edit_char text c))|]. intros _ s2 o2 (-> & l2 & -> & Hl2).
    split; [done|]. by exists l2.
Qed.

(** A text without backspaces that fits is entered and echoed as it is. *)
Lemma edit_plain cs : ∀ text,
  Forall (λ c, c ≠ 8) cs → (length text + length cs ≤ 255)%nat →
  edit_text text cs = text ++ cs ∧ echo_text text cs = map EvPutchar cs.
Proof.
  induction cs as [|c cs IH]; intros text Hcs Hlen; cbn [edit_text echo_text map length] in *.
  - by rewrite app_nil_r.
  - apply Forall_cons in Hcs as [Hc Hcs].
    assert (edit_char text c = text ++ [c]) as ->.
    { unfold edit_char. by rewrite decide_False, decide_True by (done || lia). }
    assert (edit_echo text c = [EvPutchar c]) as ->.
    { unfold edit_echo. by rewrite decide_False, decide_True by (done || lia). }
    destruct (IH (text ++ [c])) as [-> ->]; [done|rewrite length_app; simpl; lia|].
    by rewrite <-app_assoc.
Qed.

(** ** The end of a line *)

Definition prompt_events : list event := [EvSetColor 0x0A; EvPrintf "AshOS> " []; EvSetColor 0x07].

Lemma execute_spec s text Q :
  line_rep (k_line s) text → text ≠ [] →
  wp (run_command (parse_line (buffer (k_line s)))) s (λ _ s' o,
    ∃ l', k_line s' = l' ∧ length (buffer l') = 256%nat ∧ bytes_ok (buffer l') ∧
    Q tt (set_line (Line (<[0%nat := 0]> (buffer l')) 0) s')
      ([EvPrintf "\n" []] ++ o ++ [EvPutchar 10] ++ prompt_events)) →
  wp shell_execute s Q.
Proof.
  intros Hl Hne Hrun. unfold shell_execute. wp_steps. rewrite (lr_pos _ _ Hl).
  destruct (Z.eqb_spec (Z.of_nat (length text)) 0).
  { destruct text; [done|]. simpl in *. lia. }
  wp_steps. destruct Hl as [_ _ [Htb Htn] [junk Hbuf] Hsize Hbytes].
  unfold wp at 1. rewrite dispatch_parses; [|exact Hbytes|rewrite Hbuf; unfold terminated; set_solver].
  fold (wp (run_command (parse_line (buffer (k_line s)))) s (λ _ s1 o1, wp
    (zoom (kmodify (set_pos 0));; buffer_store 0 0;; kemit (EvPutchar 10);; shell_prompt) s1
    (λ b s2 o2, Q b s2 ([EvPrintf "\n" []] ++ [] ++ o1 ++ o2)))).
  eapply wp_mono; [exact Hrun|]. intros _ s' o (l' & Hl' & Hlen & Hb & HQ). wp_steps.
  apply wp_zoom. wp_steps. eapply wp_mono.
  { apply buffer_store_spec. cbn [lens_get lens_set line_lens set_line k_line set_pos buffer].
    rewrite Hl'. lia. }
  intros _ s2 o2 (-> & ->). unfold shell_prompt. wp_steps.
  cbn [lens_get lens_set line_lens set_line k_line set_pos set_buffer buffer buffer_pos].
  rewrite Hl'. exact HQ.
Qed.

(** The empty line afterwards. *)
Lemma line_rep_empty b : length b = 256%nat → bytes_ok b → line_rep (Line (<[0%nat := 0]> b) 0) [].
Proof.
  intros Hlen Hb. destruct b as [|x b]; [done|]. cbn. constructor; cbn [buffer buffer_pos]; try done.
  - simpl. lia.
  - split; constructor.
  - by exists b.
  - apply Forall_cons in Hb as [_ Hb]. constructor; [unfold byte_ok; lia|done].
Qed.

(** ** Commands that use the heap *)

(** [cat] of a file that fits the buffer with its final NUL. *)
Lemma cmd_cat_ok s args c hl q hl' :
  mounted (k_fs s) → name_arg args → cstr args ≠ [] →
  heap_ready s hl → first_fit (align4 512) HEAP_START hl = Some (q, hl') →
  dir (k_fs s) !! cstr args = Some c → (0 < length c < 512)%nat →
  wp (cmd_cat args) s (λ _ s' o, ∃ buf f' h',
    o = [EvPrintf "\n%s\n" [AStr buf]] ∧ cstr buf = cstr c ∧
    s' = put_heap h' (set_kfs f' s) ∧ mounted f' ∧ dir f' = dir (k_fs s) ∧ heap_rep h' hl).
Proof.
  intros Hm Hargs Hne Hheap E Hdir Hlen. unfold cmd_cat, no_argument. wp_steps.
  destruct args as [|x args]; [done|]. eapply wp_lift; [reflexivity|]. wp_steps.
  cbn [cstr] in Hne. destruct (Z.eqb_spec x 0) as [|Hx]; [done|].
  wp_steps. eapply wp_mono; [by apply (kalloc_spec s hl 512)|]. intros p s1 o1 H1.
  rewrite E in H1. destruct H1 as (-> & Hq & -> & Hused & h1 & -> & Hr1).
  wp_steps. apply wp_zoom. unfold block_at. rewrite (proj2 (Z.eqb_neq q 0)) by done.
  pose proof (garbage_length 512 ltac:(lia)) as Hg.
  eapply wp_mono; [apply (fs_read_spec (k_fs s)); [apply Hm|exact Hargs|lia|lia]|].
  intros [bytes buf] f' o2 (Hun & Ho2 & Hr). rewrite Hdir in Ho2, Hr. destruct Hr as [Hb Hbuf].
  cbn [fst snd] in Hb, Hbuf. replace (Z.to_nat 512 `min` length c)%nat with (length c) in * by lia.
  subst bytes buf o2. rewrite (take_ge c) by lia.
  rewrite (proj2 (Z.ltb_lt 0 _)) by lia. wp_steps.
  eapply wp_lift; [apply aset_Some; rewrite length_app, length_drop; lia|]. wp_steps.
  destruct (mounted_eqv _ _ Hm Hun) as [Hm' Hd'].
  eapply wp_mono.
  { apply (kfree_back _ hl hl' 512 q); [exact Hr1|exact Hr1|apply Hheap|apply Hheap|by vm_compute
      |exact E|exact Hused]. }
  intros _ s3 o3 (-> & h3 & -> & Hr3). eexists _, f', h3. split; [reflexivity|].
  split; [|split; [apply put_heap_again|split; [exact Hm'|split; [exact Hd'|exact Hr3]]]].
  rewrite Nat2Z.id, insert_app_r_alt, Nat.sub_diag by lia.
  destruct (drop (length c) (garbage 512)) as [|y rest] eqn:Eg.
  { apply (f_equal length) in Eg. rewrite length_drop in Eg. simpl in Eg. lia. }
  cbn. clear. induction c as [|z c IH]; [done|]. cbn [app cstr].
  destruct (z =? 0); [done|]. by rewrite IH.
Qed.

(** A file of 512 bytes or more: the NUL goes past the end of the block. *)
Lemma cmd_cat_overflow s args c hl q hl' :
  mounted (k_fs s) → name_arg args → cstr args ≠ [] →
  heap_ready s hl → first_fit (align4 512) HEAP_START hl = Some (q, hl') →
  dir (k_fs s) !! cstr args = Some c → (512 ≤ length c)%nat → cmd_cat args s = Undefined.
Proof.
  intros Hm Hargs Hne Hheap E Hdir Hlen. unfold cmd_cat, no_argument.
  destruct args as [|x args]; [done|]. cbn [cstr] in Hne. destruct (Z.eqb_spec x 0) as [|Hx]; [done|].
  rewrite kbind_assoc. cbn [aget klift]. change (aget (x :: args) 0) with (Some x).
  cbn [klift]. rewrite kret_bind, kret_bind. rewrite (proj2 (Z.eqb_neq x 0)) by done.
  destruct (wp_done _ _ _ (kalloc_spec s hl 512 Hheap ltac:(lia))) as (p & s1 & o1 & E1 & H1).
  rewrite E in H1. destruct H1 as (-> & Hq & -> & Hused & h1 & -> & Hr1).
  rewrite (kbind_done _ _ _ _ _ E1). unfold block_at. rewrite (proj2 (Z.eqb_neq q 0)) by done.
  pose proof (garbage_length 512 ltac:(lia)) as Hg.
  assert (0 ≤ 512 < 2 ^ 32) as H512 by lia.
  assert (512 ≤ Z.of_nat (length (garbage 512))) as Hg' by lia.
  destruct (wp_done _ _ _ (fs_read_spec (k_fs s) (x :: args) (garbage 512) 512 (mt_ok _ Hm) Hargs
    H512 Hg')) as ([bytes buf] & f' & o2 & E2 & _ & Ho2 & Hr).
  rewrite Hdir in Ho2, Hr. destruct Hr as [Hb Hbuf]. cbn [fst snd] in Hb, Hbuf.
  replace (Z.to_nat 512 `min` length c)%nat with 512%nat in * by lia.
  assert (zoom (fs_read (x :: args) (garbage 512) 512) (put_heap h1 s) =
    Done (bytes, buf) (set_kfs f' (put_heap h1 s)) []) as E3.
  { unfold zoom. cbn [lens_get lens_set kfs_lens put_heap set_sched k_fs]. rewrite E2. by subst o2. }
  rewrite (kbind_done _ _ _ _ _ E3). subst bytes. cbn [Z.of_nat].
  change (0 <? Z.of_nat 512) with true. cbn iota.
  assert (aset buf (Z.of_nat 512) 0 = None) as ->; [|reflexivity].
  unfold aset. rewrite (proj2 (Z.ltb_ge _ _)); [by rewrite andb_false_r|].
  subst buf. rewrite length_app, length_take, length_drop. lia.
Qed.

(** ** [write] *)

Lemma find_space_spec name rest :
  no_nul name → Forall (λ c, c ≠ 32) name →
  find_space (name ++ 32 :: rest) = Some (Z.of_nat (length name)).
Proof.
  induction 1 as [|x name Hx Hn IH]; intros Hs; [done|].
  apply Forall_cons in Hs as [Hx32 Hs]. cbn [app find_space].
  rewrite (proj2 (Z.eqb_neq x 0)), (proj2 (Z.eqb_neq x 32)) by done. cbn [orb].
  rewrite IH by done. cbn [mbind option_bind length]. f_equal. lia.
Qed.

Lemma strlen_spec t junk :
  no_nul t → Z.of_nat (length t) < 2 ^ 32 → strlen (t ++ 0 :: junk) = Some (Z.of_nat (length t)).
Proof.
  induction 1 as [|x t Hx Hn IH]; intros Hlen; [done|]. cbn [app strlen length] in *.
  rewrite (proj2 (Z.eqb_neq x 0)) by done. rewrite IH by lia. cbn [mbind option_bind].
  rewrite u32_small by lia. f_equal. lia.
Qed.

(** The copy of the name into the local array. *)
Lemma copy_loop_spec (args buf : list Z) (n : nat) s :
  (n ≤ length args)%nat → (n ≤ length buf)%nat → bytes_ok args → bytes_ok buf →
  wp (kfold 0 n (λ i b, x ← klift (aget args i); klift (aset b i x)) buf) s
    (λ b s' o, o = [] ∧ s' = s ∧ length b = length buf ∧ bytes_ok b ∧ take n b = take n args).
Proof.
  intros Ha Hb Hoka Hokb. apply wp_kfold with (I := λ j b s' o, o = [] ∧ s' = s ∧
    length b = length buf ∧ bytes_ok b ∧ take (Z.to_nat j) b = take (Z.to_nat j) args).
  - done.
  - intros j b s' o Hj (-> & -> & Hlen & Hok & Ht).
    destruct (aget_is_Some args j) as [x Hx]; [lia|]. wp_steps. eapply wp_lift; [exact Hx|].
    eapply wp_lift; [apply aset_Some; lia|]. split; [done|]. split; [done|].
    rewrite aget_eq in Hx by lia.
    split; [by rewrite length_insert|]. split.
    + apply Forall_insert; [done|]. by apply (Forall_lookup_1 byte_ok args (Z.to_nat j)).
    + replace (Z.to_nat (j + 1)) with (S (Z.to_nat j)) by lia.
      rewrite (take_S_r _ _ x) by (apply list_lookup_insert_eq; lia).
      rewrite (take_S_r args _ x) by done. rewrite take_insert_ge by lia. by rewrite Ht.
  - intros b s' o (-> & -> & Hlen & Hok & Ht). rewrite Z.add_0_l, Nat2Z.id in Ht. done.
Qed.

Definition write_args (name content junk : list Z) : list Z := name ++ 32 :: content ++ 0 :: junk.

Lemma cmd_write_ok s name content junk b :
  mounted (k_fs s) → bytes_ok (write_args name content junk) →
  no_nul name → Forall (λ c, c ≠ 32) name → (length name ≤ 63)%nat →
  no_nul content → (length content ≤ 512)%nat → is_Some (dir (k_fs s) !! name) →
  (Z.of_nat (length content) + 511) / 512 ≤ free_blocks (superblock (k_fs s)) →
  33 ≤ b < 1057 → ¬ referenced (disk (k_fs s)) b →
  wp (cmd_write (write_args name content junk)) s (λ _ s' o, ∃ f',
    s' = set_kfs f' s ∧ mounted f' ∧ dir f' = <[name := content]> (dir (k_fs s))).
Proof.
  intros Hm Hok Hn Hsp Hlen Hc Hclen Hdir Hfree Hb Hnr. unfold cmd_write. wp_steps.
  eapply wp_lift; [by apply find_space_spec|]. wp_steps.
  eapply (wp_lift _ 32).
  { unfold write_args. rewrite aget_eq, Nat2Z.id by lia.
    by rewrite lookup_app_r, Nat.sub_diag by lia. }
  change (32 =? 0) with false. cbn iota. wp_steps. rewrite Nat2Z.id.
  pose proof (garbage_length 64 ltac:(lia)) as Hg.
  eapply wp_mono.
  { apply copy_loop_spec; [unfold write_args; rewrite length_app; lia|lia|exact Hok|apply garbage_bytes]. }
  intros nm s1 o1 (-> & -> & Hnlen & Hnok & Htake). wp_steps.
  eapply wp_lift; [apply aset_Some; lia|]. wp_steps. rewrite Nat2Z.id.
  replace (Z.to_nat (Z.of_nat (length name) + 1)) with (S (length name)) by lia.
  assert (drop (S (length name)) (write_args name content junk) = content ++ 0 :: junk) as ->.
  { unfold write_args. rewrite drop_app_ge by lia.
    by replace (S (length name) - length name)%nat with 1%nat by lia. }
  eapply wp_lift; [apply strlen_spec; [done|lia]|]. wp_steps. apply wp_zoom.
  set (nm' := <[length name := 0]> nm).
  assert (nm' = name ++ 0 :: drop (S (length name)) nm) as Hnm'.
  { unfold nm'. rewrite insert_take_drop by lia. f_equal. rewrite Htake. unfold write_args.
    by rewrite take_app_length. }
  assert (cstr nm' = name) as Hcstr by (rewrite Hnm'; by apply cstr_app_nul).
  assert (name_arg nm') as Hnarg.
  { split.
    - apply Forall_insert; [done|]. unfold byte_ok. lia.
    - rewrite Hnm'. unfold terminated. apply elem_of_app. right. apply list_elem_of_here. }
  assert (bytes_ok (content ++ 0 :: junk)) as Hcok.
  { unfold write_args in Hok. apply Forall_app in Hok as [_ Hok]. by apply Forall_cons in Hok as [_ Hok]. }
  destruct (fs_write_ok (k_fs s) nm' (content ++ 0 :: junk) (Z.of_nat (length content)) b)
    as (f' & o & E & Hm' & Hd' & _); try done.
  - lia.
  - rewrite length_app. lia.
  - by rewrite Hcstr.
  - eapply wp_of_done; [exact E|]. wp_steps. exists f'. split; [reflexivity|].
    split; [exact Hm'|]. rewrite Hd', Hcstr, spec_contents_one by (rewrite ?length_app; lia).
    by rewrite Nat2Z.id, take_app_length.
Qed.

(** A copy that is longer than the array. *)
Lemma copy_kloop (args : list Z) (f : Z → list Z → K (kernel D) (list Z + Empty_set)) s :
  f = (λ i b, a' ← (x ← klift (aget args i); klift (aset b i x)); mret (inl a')) →
  ∀ (n : nat) i b, 0 ≤ i → i + Z.of_nat n ≤ Z.of_nat (length args) →
  (i + Z.of_nat n ≤ Z.of_nat (length b) →
    ∃ b', kloop i n f b s = Done (inl b') s [] ∧ length b' = length b) ∧
  (i ≤ Z.of_nat (length b) < i + Z.of_nat n → kloop i n f b s = Undefined).
Proof.
  intros ->. induction n as [|n IH]; intros i b Hi Ha.
  - split; [|lia]. intros _. by exists b.
  - destruct (aget_is_Some args i) as [x Hx]; [lia|]. unfold kloop. fold (@kloop (kernel D)).
    destruct (decide (i < Z.of_nat (length b))) as [Hlt|Hge].
    + destruct (IH (i + 1) (<[Z.to_nat i := x]> b)) as [IH1 IH2]; [lia|lia|].
      rewrite length_insert in IH1, IH2.
      assert (∀ g : list Z + Empty_set → K (kernel D) (list Z + Empty_set),
        (((a' ← (x ← klift (aget args i); klift (aset b i x)); mret (inl a')) :
          K (kernel D) (list Z + Empty_set)) ≫= g) s
        = g (inl (<[Z.to_nat i := x]> b) : list Z + Empty_set) s) as Hstep.
      { intros g. rewrite Hx. cbn [klift]. rewrite !kbind_assoc, kret_bind, aset_Some by lia.
        cbn [klift]. by rewrite !kret_bind. }
      rewrite Hstep. split; intros Hn; [|apply IH2; lia].
      destruct IH1 as (b' & E & Hb'); [lia|]. by exists b'.
    + split; intros Hn; [lia|]. rewrite Hx. cbn [klift]. rewrite !kbind_assoc, kret_bind.
      assert (aset b i x = None) as ->; [|reflexivity].
      unfold aset. rewrite (proj2 (Z.ltb_ge _ _)) by lia. by rewrite andb_false_r.
Qed.

(** A name of 64 characters or more: the copy overruns the array on the stack. *)
Lemma cmd_write_overflow s name content junk :
  no_nul name → Forall (λ c, c ≠ 32) name → (64 ≤ length name)%nat →
  cmd_write (write_args name content junk) s = Undefined.
Proof.
  intros Hn Hsp Hlen. unfold cmd_write.
  assert (find_space (write_args name content junk) = Some (Z.of_nat (length name))) as ->
    by (by apply find_space_spec).
  cbn [klift]. rewrite kret_bind.
  assert (aget (write_args name content junk) (Z.of_nat (length name)) = Some 32) as ->.
  { unfold write_args. rewrite aget_eq, Nat2Z.id by lia. by rewrite lookup_app_r, Nat.sub_diag by lia. }
  cbn [klift]. rewrite kret_bind. change (32 =? 0) with false. cbn iota. rewrite Nat2Z.id.
  pose proof (garbage_length 64 ltac:(lia)) as Hg.
  destruct (copy_kloop (write_args name content junk) _ s eq_refl (length name) 0 (garbage 64))
    as [H1 H2]; [lia|unfold write_args; rewrite length_app; lia|].
  unfold kfold. destruct (decide (length name = 64%nat)) as [E|E].
  - destruct H1 as (b' & E1 & Hb'); [lia|]. rewrite kbind_assoc.
    rewrite (kbind_done _ _ _ _ _ E1), kret_bind.
    assert (aset b' (Z.of_nat (length name)) 0 = None) as ->; [|reflexivity].
    unfold aset. rewrite (proj2 (Z.ltb_ge _ _)) by lia. by rewrite andb_false_r.
  - apply kbind_undefined, kbind_undefined, H2. lia.
Qed.
End run.
