(* ===== verification/ShellFrame.v ===== *)
(** * What the shell leaves alone

    No command creates, ends or switches a process: the process list is what it was
    however a line is handled, the loader and the jump to ring 3 included. *)

From S2P Require Import Bytes Console Kprintf Disk Pmm Heap Vmm Process Fs Gdt Kernel Elf Shell Prelude.

Section frame.
Context {D : Type} `{BlockOps D} `{Uninit} {L : KernelEnd}.

(** The part of the scheduler's state that a clock tick reads. *)
Definition run_queue (s : ps) : gmap Z process_t * Z * Z := (procs s, current_process s, process_list s).
Definition k_queue (s : kernel D) : gmap Z process_t * Z * Z := run_queue (k_sched s).

Lemma queue_zoom_fs {A} (m : K (fs D) A) : preserves k_queue (zoom m).
Proof. by apply preserves_zoom. Qed.
Lemma queue_zoom_vm {A} (m : K vmm A) : preserves k_queue (zoom m).
Proof. by apply preserves_zoom. Qed.
Lemma queue_zoom_seg {A} (m : K seg A) : preserves k_queue (zoom m).
Proof. by apply preserves_zoom. Qed.
Lemma queue_zoom_line {A} (m : K line A) : preserves k_queue (zoom m).
Proof. by apply preserves_zoom. Qed.
Lemma queue_zoom_heap {A} (m : K heap A) : preserves k_queue (zoom m).
Proof. by apply preserves_zoom. Qed.
Lemma queue_zoom_pmm {A} (m : K pmm A) : preserves k_queue (zoom m).
Proof. by apply preserves_zoom. Qed.
#[local] Hint Resolve queue_zoom_fs queue_zoom_vm queue_zoom_seg queue_zoom_line queue_zoom_heap
  queue_zoom_pmm : ashos.

Lemma queue_proc_get p : preserves k_queue (zoom (proc_get p)).
Proof.
  apply (preserves_zoom_via _ run_queue); [unfold proc_get; preserve|]. intros t s E. exact E.
Qed.
#[local] Hint Resolve queue_proc_get : ashos.

Lemma queue_store_byte va x : preserves k_queue (store_byte va x).
Proof. unfold store_byte. preserve. by apply preserves_modify. Qed.
#[local] Hint Resolve queue_store_byte : ashos.

Lemma queue_undefined {A} : preserves k_queue (kundefined : K (kernel D) A).
Proof. done. Qed.
#[local] Hint Resolve queue_undefined : ashos.

Lemma queue_elf_load name : preserves k_queue (elf_load name).
Proof. unfold elf_load, elf_reject, load_segment, map_segment, elf_map, elf_memcpy, elf_memset, elf_store. preserve. Qed.
#[local] Hint Resolve queue_elf_load : ashos.

Lemma queue_dispatch b : preserves k_queue (shell_dispatch b).
Proof.
  unfold shell_dispatch, first_match, cmd_help, cmd_clear, cmd_version, cmd_echo, cmd_meminfo, cmd_ps,
    cmd_ls, cmd_touch, cmd_write, cmd_cat, cmd_rm, cmd_run, no_argument. preserve.
Qed.
#[local] Hint Resolve queue_dispatch : ashos.

Lemma shell_keeps_queue c : preserves k_queue (shell_process_char c).
Proof. unfold shell_process_char, shell_execute, shell_prompt, buffer_store. preserve. Qed.
End frame.
