(* ===== verification/ShellLines.v ===== *)
(** * Whole lines at the prompt

    For the commands that use files: what typing the line and Enter does, from the line
    editor through the parser and the command to the next prompt. *)

From S2P Require Import Bytes Console Kprintf Keyboard Disk Pmm Heap Vmm Process ProcessLife Fs.
From S2P Require Import FsCodec FsView FsOps FsDir FsSpec FsRead FsWrite FsBoot FsThms FsWitness Gdt Memory Kernel KernelThms Elf ElfThms ElfProps Shell ShellThms ShellRun Prelude.

(** ** Parsing known lines *)

Ltac not_this_command :=
  rewrite bool_decide_false by (vm_compute; discriminate).

Lemma parse_write b rest : cstr b = ascii_codes "write " ++ rest → parse_line b = CWrite (drop 6 b).
Proof.
  intros E. unfold parse_line. rewrite E. do 8 not_this_command. by rewrite bool_decide_true.
Qed.

Lemma parse_cat b rest : cstr b = ascii_codes "cat " ++ rest → parse_line b = CCat (drop 4 b).
Proof.
  intros E. unfold parse_line. rewrite E. do 9 not_this_command. by rewrite bool_decide_true.
Qed.

Lemma parse_touch b rest : cstr b = ascii_codes "touch " ++ rest → parse_line b = CTouch (drop 6 b).
Proof.
  intros E. unfold parse_line. rewrite E. do 7 not_this_command. by rewrite bool_decide_true.
Qed.

Lemma parse_run b rest : cstr b = ascii_codes "run " ++ rest → parse_line b = CRun (drop 4 b).
Proof.
  intros E. unfold parse_line. rewrite E. do 11 not_this_command. by rewrite bool_decide_true.
Qed.

Section lines.
Context {D : Type} {O : BlockOps D} {B : BlockDevice D} {U : Uninit} {L : KernelEnd}.
Implicit Types s : kernel D.

Definition printable (c : Z) : Prop := 32 ≤ c < 127.

Lemma printable_typeable t : Forall printable t → Forall typeable t.
Proof. intros Hp. eapply Forall_impl; [exact Hp|]. unfold printable, typeable, byte_ok. lia. Qed.
Lemma printable_no_nul t : Forall printable t → no_nul t.
Proof. intros Hp. eapply Forall_impl; [exact Hp|]. unfold printable. lia. Qed.
Lemma cstr_id t : no_nul t → cstr t = t.
Proof.
  induction 1 as [|x t Hx Hn IH]; [done|]. cbn. by rewrite (proj2 (Z.eqb_neq x 0)), IH.
Qed.
Lemma printable_plain t : Forall printable t → Forall (λ c, c ≠ 8) t.
Proof. intros Hp. eapply Forall_impl; [exact Hp|]. unfold printable. lia. Qed.

Lemma type_chars_app (cs1 cs2 : list Z) : ∀ s Q,
  wp (type_chars shell_process_char cs1) s (λ _ s1 o1,
    wp (type_chars shell_process_char cs2) s1 (λ u s2 o2, Q u s2 (o1 ++ o2))) →
  wp (type_chars shell_process_char (cs1 ++ cs2)) s Q.
Proof.
  induction cs1 as [|c cs1 IH]; intros s Q HQ; cbn [app type_chars] in *.
  - exact HQ.
  - unfold wp in HQ |- *. unfold mbind, K_bind in *.
    destruct (shell_process_char c s) as [[] s1 o1| | |]; try done.
    destruct (type_chars shell_process_char cs1 s1) as [[] s2 o2| | |] eqn:E; try done.
    specialize (IH s1 (λ u s' o', Q u s' (o1 ++ o'))). unfold wp in IH. rewrite E in IH.
    destruct (type_chars shell_process_char cs2 s2) as [[] s3 o3| | |]; try done.
    destruct (type_chars shell_process_char (cs1 ++ cs2) s1) as [[] s4 o4| | |];
      try (exact (IH HQ) || (rewrite <-app_assoc in HQ; exact (IH HQ))).
Qed.

(** A whole line: the text, Enter, and what its command does. *)
Lemma type_line s text Q :
  line_rep (k_line s) [] → Forall printable text → text ≠ [] → (length text ≤ 255)%nat →
  (∀ l junk, line_rep l text → buffer l = text ++ 0 :: junk →
    wp (run_command (parse_line (buffer l))) (set_line l s) (λ _ s' o,
      k_line s' = l ∧ (∀ l', line_rep l' [] → Q tt (set_line l' s')
        (map EvPutchar text ++ [EvPrintf "\n" []] ++ o ++ [EvPutchar 10] ++ prompt_events)))) →
  wp (type_chars shell_process_char (text ++ [10])) s Q.
Proof.
  intros Hl Hp Hne Hlen Hrun. apply type_chars_app.
  eapply wp_mono; [by apply (type_spec text s []); [|apply printable_typeable]|].
  intros _ s1 o1 (-> & l & -> & Hl1).
  destruct (edit_plain text []) as [E1 E2]; [by apply printable_plain|done|].
  rewrite E1 in Hl1. cbn [app] in Hl1. rewrite E2. cbn [type_chars]. wp_steps.
  unfold shell_process_char. change (10 =? 10) with true. cbn iota.
  destruct (lr_buffer _ _ Hl1) as [junk Hj].
  apply (execute_spec _ text); [exact Hl1|exact Hne|]. cbn [set_line k_line].
  eapply wp_mono; [exact (Hrun l junk Hl1 Hj)|]. intros _ s2 o2 [Hk HQ].
  exists l. split; [exact Hk|]. split; [apply Hl1|]. split; [apply Hl1|].
  wp_steps. rewrite !app_nil_r. apply HQ, line_rep_empty; apply Hl1.
Qed.

Lemma lit_printable (lit : string) : bool_decide (Forall printable (ascii_codes lit)) = true → Forall printable (ascii_codes lit).
Proof. apply bool_decide_eq_true_1. Qed.

(** The argument of a command is the C string that was typed. *)
Lemma line_argument l pre name junk :
  line_rep l (pre ++ name) → buffer l = (pre ++ name) ++ 0 :: junk → Forall printable name →
  drop (length pre) (buffer l) = name ++ 0 :: junk ∧ name_arg (name ++ 0 :: junk) ∧ cstr (name ++ 0 :: junk) = name.
Proof.
  intros Hl Hj Hp. split; [by rewrite Hj, <-app_assoc, drop_app_length|]. split.
  - split; [|unfold terminated; set_solver]. pose proof (lr_bytes _ _ Hl) as Hbytes.
    rewrite Hj, <-app_assoc in Hbytes. by apply Forall_app in Hbytes as [_ Hbytes].
  - by apply cstr_app_nul, printable_no_nul.
Qed.

Lemma write_line s name content b :
  line_rep (k_line s) [] → mounted (k_fs s) →
  Forall printable name → Forall (λ c, c ≠ 32) name → (length name ≤ 63)%nat →
  Forall printable content → content ≠ [] → (length name + length content ≤ 248)%nat →
  is_Some (dir (k_fs s) !! name) → 1 ≤ free_blocks (superblock (k_fs s)) →
  33 ≤ b < 1057 → ¬ referenced (disk (k_fs s)) b →
  wp (type_chars shell_process_char ((ascii_codes "write " ++ name ++ 32 :: content) ++ [10])) s
    (λ _ s1 _, ∃ l' f', s1 = set_line l' (set_kfs f' s) ∧ line_rep l' [] ∧ mounted f' ∧
      dir f' = <[name := content]> (dir (k_fs s))).
Proof.
  intros Hl Hm Hname Hsp Hlen63 Hcont Hcne Hlen Hdir Hfree Hb Hnr.
  assert (0 < length content)%nat as Hcpos by (destruct content; [done|simpl; lia]).
  apply type_line; [exact Hl| |done|rewrite !length_app; simpl; lia|].
  { rewrite !Forall_app, Forall_cons. split; [by apply lit_printable|]. split; [done|].
    split; [unfold printable; lia|done]. }
  intros l junk Hl1 Hj. rewrite (parse_write _ (name ++ 32 :: content)) by (by apply line_rep_cstr).
  rewrite Hj, <-!app_assoc. change (drop 6 (ascii_codes "write " ++ ?r)) with r.
  eapply wp_mono.
  { apply (cmd_write_ok (set_line l s) name content junk b); try done.
    - pose proof (lr_bytes _ _ Hl1) as Hbytes. rewrite Hj, <-!app_assoc in Hbytes.
      apply Forall_app in Hbytes as [_ Hbytes]. exact Hbytes.
    - by apply printable_no_nul.
    - by apply printable_no_nul.
    - lia.
    - cbn [set_line k_fs]. replace ((Z.of_nat (length content) + 511) / 512) with 1 by dlia. done. }
  intros _ s' o (f' & -> & Hm' & Hd'). split; [reflexivity|]. intros l' Hl'.
  exists l', f'. split; [reflexivity|]. split; [exact Hl'|]. split; [exact Hm'|exact Hd'].
Qed.

Lemma cat_line s name content hl q hl' :
  line_rep (k_line s) [] → mounted (k_fs s) → heap_ready s hl →
  first_fit (align4 512) HEAP_START hl = Some (q, hl') →
  Forall printable name → name ≠ [] → (length name ≤ 251)%nat →
  no_nul content → content ≠ [] → (length content < 512)%nat → dir (k_fs s) !! name = Some content →
  wp (type_chars shell_process_char ((ascii_codes "cat " ++ name) ++ [10])) s (λ _ s2 o2, ∃ buf l' f' h',
      o2 = map EvPutchar (ascii_codes "cat " ++ name) ++
        [EvPrintf "\n" []; EvPrintf "\n%s\n" [AStr buf]; EvPutchar 10] ++ prompt_events ∧
      cstr buf = content ∧ s2 = set_line l' (put_heap h' (set_kfs f' s)) ∧ line_rep l' [] ∧
      mounted f' ∧ dir f' = dir (k_fs s) ∧ heap_rep h' hl).
Proof.
  intros Hl Hm Hheap Hff Hname Hne Hlen Hcn Hcne Hclen Hdir.
  assert (0 < length content)%nat as Hcpos by (destruct content; [done|simpl; lia]).
  apply type_line; [exact Hl| |done|rewrite !length_app; simpl; lia|].
  { rewrite Forall_app. split; [by apply lit_printable|done]. }
  intros l junk Hl2 Hj. rewrite (parse_cat _ name) by (by apply line_rep_cstr).
  destruct (line_argument _ _ _ _ Hl2 Hj Hname) as (E & Harg & Hc).
  change (length (ascii_codes "cat ")) with 4%nat in E. cbn [run_command]. rewrite E.
  eapply wp_mono.
  { apply (cmd_cat_ok _ (name ++ 0 :: junk) content hl q hl'); [exact Hm|exact Harg|by rewrite Hc
      |exact Hheap|exact Hff|rewrite Hc; exact Hdir|lia]. }
  intros _ s' o (buf & f' & h' & -> & Hbuf & -> & Hm' & Hd' & Hr'). split; [reflexivity|].
  intros l' Hl'. exists buf, l', f', h'. split; [reflexivity|].
  split; [rewrite Hbuf; by apply cstr_id|]. split; [reflexivity|].
  split; [exact Hl'|]. split; [exact Hm'|]. split; [exact Hd'|exact Hr'].
Qed.

Lemma touch_line s name :
  line_rep (k_line s) [] → mounted (k_fs s) → Forall printable name → name ≠ [] → (length name ≤ 63)%nat →
  dir (k_fs s) !! name = None → (size (dir (k_fs s)) < 32)%nat →
  wp (type_chars shell_process_char ((ascii_codes "touch " ++ name) ++ [10])) s (λ _ s2 o2, ∃ l' f' o,
      o2 = map EvPutchar (ascii_codes "touch " ++ name) ++ [EvPrintf "\n" []] ++ o ++
        [EvPutchar 10] ++ prompt_events ∧
      s2 = set_line l' (set_kfs f' s) ∧ line_rep l' [] ∧ created (k_fs s) name f').
Proof.
  intros Hl Hm Hname Hne Hlen Hdir Hsize.
  apply type_line; [exact Hl| |done|rewrite !length_app; simpl; lia|].
  { rewrite Forall_app. split; [by apply lit_printable|done]. }
  intros l junk Hl2 Hj. rewrite (parse_touch _ name) by (by apply line_rep_cstr).
  destruct (line_argument _ _ _ _ Hl2 Hj Hname) as (E & Harg & Hc).
  change (length (ascii_codes "touch ")) with 6%nat in E. cbn [run_command]. rewrite E.
  unfold cmd_touch, no_argument. wp_steps. destruct name as [|x name]; [done|].
  eapply wp_lift; [reflexivity|]. wp_steps. apply Forall_cons in Hname as Hx. destruct Hx as [Hx _].
  unfold printable in Hx. destruct (Z.eqb_spec x 0); [lia|]. wp_steps. apply wp_zoom.
  eapply wp_mono; [apply (fs_create_ok (k_fs s)); [exact Hm|exact Harg|rewrite Hc; lia
    |rewrite Hc; exact Hdir|exact Hsize]|].
  intros r f' o (-> & Hcr). wp_steps. split; [reflexivity|]. intros l' Hl'. rewrite Hc in Hcr.
  exists l', f', o. split; [rewrite ?app_nil_r; reflexivity|]. split; [reflexivity|]. split; [exact Hl'|exact Hcr].
Qed.

(** ** [run]: the line that does not come back *)

Lemma type_chars_bind (cs1 cs2 : list Z) s :
  type_chars shell_process_char (cs1 ++ cs2) s =
  (type_chars shell_process_char cs1;; type_chars shell_process_char cs2) s.
Proof.
  revert s. induction cs1 as [|c cs1 IH]; intros s; cbn [app type_chars].
  - by rewrite kret_bind.
  - rewrite kbind_assoc. unfold mbind, K_bind in IH |- *.
    destruct (shell_process_char c s) as [[] s1 o1| | |]; try done. by rewrite IH.
Qed.

Lemma type_line_halts s text (Q : kernel D → list event → Prop) :
  line_rep (k_line s) [] → Forall printable text → text ≠ [] → (length text ≤ 255)%nat →
  (∀ l junk, line_rep l text → buffer l = text ++ 0 :: junk →
    hp (run_command (parse_line (buffer l))) (set_line l s) (λ s' o,
      Q s' (map EvPutchar text ++ [EvPrintf "\n" []] ++ o))) →
  hp (type_chars shell_process_char (text ++ [10])) s Q.
Proof.
  intros Hl Hp Hne Hlen Hrun. unfold hp at 1. rewrite type_chars_bind. apply hp_bind.
  eapply wp_mono; [by apply (type_spec text s []); [|apply printable_typeable]|].
  intros _ s1 o1 (-> & l & -> & Hl1).
  destruct (edit_plain text []) as [E1 E2]; [by apply printable_plain|done|].
  rewrite E1 in Hl1. cbn [app] in Hl1. rewrite E2. cbn [type_chars]. apply hp_bind_halt.
  unfold shell_process_char. change (10 =? 10) with true. cbn iota.
  destruct (lr_buffer _ _ Hl1) as [junk Hj]. unfold shell_execute.
  apply hp_bind, wp_kprintf. apply hp_bind, wp_get. cbn [set_line k_line].
  rewrite (lr_pos _ _ Hl1). destruct (Z.eqb_spec (Z.of_nat (length text)) 0) as [H0|_].
  { destruct text; [done|]. simpl in H0. lia. }
  apply hp_bind_halt. unfold hp at 1.
  rewrite dispatch_parses; [|apply Hl1|rewrite Hj; unfold terminated; set_solver].
  eapply hp_mono; [exact (Hrun l junk Hl1 Hj)|]. intros s' o HQ. exact HQ.
Qed.

(** The program is in memory, the processor in ring 3 at its entry point, on a fresh
    stack of 4 KB from the heap. *)
Record program_runs s (c : list Z) (entry : Z) (phs : list elf_program_header_t) stack s' : Prop := {
  pr_ring3 : in_ring3 (k_seg s') entry (stack + 4096);
  pr_segments ph : ph ∈ phs → is_load ph →
    readable s' (ph_vaddr ph) (Z.to_nat (ph_mem_size ph)) = seg_content c ph;
  pr_open ph write va : ph ∈ phs → is_load ph → in_seg ph (va / 4096) →
    is_Some (user_translate (k_vm s') write va) ∧ user_translate (k_vm s') write va = translate (k_vm s') va;
  pr_mapping va : 0 ≤ va < 2 ^ 32 → (∀ ph, ph ∈ phs → is_load ph → ¬ in_seg ph (va / 4096)) →
    translate (k_vm s') va = translate (k_vm s) va ∧ page_rights (k_vm s') va = page_rights (k_vm s) va;
  pr_files : mounted (k_fs s') ∧ dir (k_fs s') = dir (k_fs s);
  pr_processes : procs (k_sched s') = procs (k_sched s) ∧
    current_process (k_sched s') = current_process (k_sched s);
}.

Definition run_events (name : list Z) (entry : Z) (phs : list elf_program_header_t) : list event :=
  ([EvPrintf "ELF: loading '%s', entry at %x\n" [AStr name; AInt entry]] ++ segment_events phs ++
   [EvPrintf "ELF: loaded successfully\n" []]) ++ [EvPrintf "Entering ring 3 at 0x%x\n" [AInt entry]].

Lemma run_ok s args c entry phs hl q hl' stack hl2 :
  loadable s args c entry phs → cstr args ≠ [] → heap_ready s hl →
  first_fit (align4 8192) HEAP_START hl = Some (q, hl') →
  first_fit (align4 4096) HEAP_START hl = Some (stack, hl2) → 0 ≤ stack < 2 ^ 32 - 4096 →
  flat_segments (k_seg s) →
  hp (cmd_run args) s (λ s' o, o = run_events args entry phs ∧ program_runs s c entry phs stack s').
Proof.
  intros Hload Hne Hheap E E2 Hstack Hseg. unfold cmd_run, no_argument.
  destruct args as [|x args]; [done|]. apply hp_bind, wp_bind. eapply wp_lift; [reflexivity|]. apply wp_ret.
  cbn [cstr] in Hne. destruct (Z.eqb_spec x 0) as [|Hx]; [done|]. apply hp_bind.
  eapply wp_mono; [by apply (elf_load_state s (x :: args) c entry phs hl q hl')|].
  intros r s1 o1 (-> & -> & (Hb & Ht & _) & Hm1 & Hd1 & Hr1 & Hp1 & Hc1 & _ & Hsg).
  cbn [fst snd]. change (0 <? 0) with false. cbn iota. apply hp_bind.
  eapply wp_mono; [apply (kalloc_spec s1 hl 4096); [split; [exact Hr1|apply Hheap]|lia]|].
  intros p s2 o2 H2. rewrite E2 in H2. destruct H2 as (-> & _ & -> & _ & h & -> & _).
  apply hp_zoom. destruct (enter_usermode_ok (k_seg s1) entry (u32 (stack + 4096)))
    as (sg & Eu & Hr3 & _); [rewrite Hsg; exact Hseg|].
  eapply hp_of_halted; [exact Eu|]. split; [reflexivity|]. rewrite u32_small in Hr3 by lia.
  constructor.
  - exact Hr3.
  - intros ph Hin Hl. rewrite <-(proj1 (Hb ph Hin Hl)). by apply readable_same.
  - intros ph write va Hin Hl. by apply (proj2 (Hb ph Hin Hl)).
  - exact Ht.
  - split; [exact Hm1|exact Hd1].
  - split; [exact Hp1|exact Hc1].
Qed.

Lemma loadable_arg s l args args' c entry phs :
  loadable s args c entry phs → cstr args' = cstr args → name_arg args' →
  loadable (set_line l s) args' c entry phs.
Proof. intros [H1 _ H3 H4 H5 H6 H7] E Hn. constructor; try assumption. by rewrite E. Qed.

Lemma run_line s name c entry phs hl q hl' stack hl2 :
  line_rep (k_line s) [] → Forall printable name → name ≠ [] → (length name ≤ 251)%nat →
  loadable s (name ++ [0]) c entry phs → heap_ready s hl →
  first_fit (align4 8192) HEAP_START hl = Some (q, hl') →
  first_fit (align4 4096) HEAP_START hl = Some (stack, hl2) → 0 ≤ stack < 2 ^ 32 - 4096 →
  flat_segments (k_seg s) →
  hp (type_chars shell_process_char ((ascii_codes "run " ++ name) ++ [10])) s (λ s' o, ∃ args,
    cstr args = name ∧ o = map EvPutchar (ascii_codes "run " ++ name) ++ [EvPrintf "\n" []] ++
      run_events args entry phs ∧ program_runs s c entry phs stack s').
Proof.
  intros Hl Hname Hne Hlen Hload Hheap E E2 Hstack Hseg.
  assert (cstr (name ++ [0]) = name) as Hc0 by (by apply cstr_app_nul, printable_no_nul).
  apply type_line_halts; [exact Hl| |done|rewrite !length_app; simpl; lia|].
  { rewrite Forall_app. split; [by apply lit_printable|done]. }
  intros l junk Hl2 Hj. rewrite (parse_run _ name) by (by apply line_rep_cstr).
  destruct (line_argument _ _ _ _ Hl2 Hj Hname) as (Ea & Harg & Hc).
  change (length (ascii_codes "run ")) with 4%nat in Ea. cbn [run_command]. rewrite Ea.
  eapply hp_mono.
  { apply (run_ok (set_line l s) (name ++ 0 :: junk) c entry phs hl q hl' stack hl2);
      [|by rewrite Hc|exact Hheap|exact E|exact E2|exact Hstack|exact Hseg].
    eapply loadable_arg; [exact Hload|by rewrite Hc, Hc0|exact Harg]. }
  intros s' o (-> & [H1 H2 H3 H4 H5 H6]). exists (name ++ 0 :: junk). split; [exact Hc|]. split; [reflexivity|].
  by constructor.
Qed.
End lines.
