(* ===== verification/ShellProps.v ===== *)
(** * Theorems about the shell, with their witnesses *)

From S2P Require Import Bytes Console Kprintf Keyboard Disk Pmm Heap Vmm Process ProcessLife Fs.
From S2P Require Import FsCodec FsView FsOps FsDir FsSpec FsRead FsWrite FsBoot FsThms FsWitness Gdt Memory Kernel KernelThms Elf ElfThms ElfProps Shell ShellThms ShellRun ShellLines Prelude.

Section lines.
Context {D : Type} {O : BlockOps D} {B : BlockDevice D} {U : Uninit} {L : KernelEnd}.
Implicit Types s : kernel D.

(** ** The theorems *)

(** C22.  The line editor refines a text: whatever characters other than Enter are typed,
    the buffer holds the text that a list with append and remove-last would hold, cut at
    255 characters, ends in a NUL inside its 256 bytes, and the echo shows exactly the
    changes; no other part of the kernel changes. *)
Theorem shell_line_editor s text cs :
  line_rep (k_line s) text → Forall typeable cs →
  ∃ l', type_chars shell_process_char cs s = Done tt (set_line l' s) (echo_text text cs) ∧
    line_rep l' (edit_text text cs) ∧ cstr (buffer l') = edit_text text cs.
Proof.
  intros Hl Hcs. destruct (wp_done _ _ _ (type_spec cs s text Hl Hcs))
    as ([] & s' & o & E & -> & l' & -> & Hl'). exists l'. split; [exact E|]. split; [exact Hl'|].
  by apply line_rep_cstr.
Qed.

(** C23.  The chain of [strcmp] and [strncmp] calls is equivalent to the parser: for every
    C string in the buffer, the command that runs and its argument are those of
    [parse_line]. *)
Theorem shell_parses b s :
  bytes_ok b → terminated b → shell_dispatch b s = run_command (parse_line b) s.
Proof. apply dispatch_parses. Qed.

(** C6.  Typing [write name text] and then [cat name] shows the text: through the line
    editor, the parser, the file system and the heap, the second line prints exactly the
    content of the first, leaves the heap as it was and the line empty. *)
Theorem shell_write_cat s name content hl q hl' b :
  line_rep (k_line s) [] → mounted (k_fs s) → heap_ready s hl →
  first_fit (align4 512) HEAP_START hl = Some (q, hl') →
  Forall printable name → name ≠ [] → Forall (λ c, c ≠ 32) name → (length name ≤ 63)%nat →
  Forall printable content → content ≠ [] → (length name + length content ≤ 248)%nat →
  is_Some (dir (k_fs s) !! name) → 1 ≤ free_blocks (superblock (k_fs s)) →
  33 ≤ b < 1057 → ¬ referenced (disk (k_fs s)) b →
  ∃ s1 s2 o1 buf,
    type_chars shell_process_char
      ((ascii_codes "write " ++ name ++ 32 :: content) ++ [10]) s = Done tt s1 o1 ∧
    type_chars shell_process_char ((ascii_codes "cat " ++ name) ++ [10]) s1 =
      Done tt s2 (map EvPutchar (ascii_codes "cat " ++ name) ++
        [EvPrintf "\n" []; EvPrintf "\n%s\n" [AStr buf]; EvPutchar 10] ++ prompt_events) ∧
    cstr buf = content ∧ line_rep (k_line s2) [] ∧ mounted (k_fs s2) ∧
    dir (k_fs s2) = <[name := content]> (dir (k_fs s)) ∧ heap_ready s2 hl.
Proof.
  intros Hl Hm Hheap Hff Hname Hne Hsp Hlen63 Hcont Hcne Hlen Hdir Hfree Hb Hnr.
  destruct (wp_done _ _ _ (write_line s name content b Hl Hm Hname Hsp Hlen63 Hcont Hcne Hlen Hdir Hfree Hb Hnr))
    as ([] & s1 & o1 & E1 & l1 & f1 & -> & Hl1 & Hm1 & Hd1).
  assert (dir f1 !! name = Some content) as Hlook by (rewrite Hd1; apply lookup_insert_eq).
  destruct (wp_done _ _ _ (cat_line (set_line l1 (set_kfs f1 s)) name content hl q hl' Hl1 Hm1 Hheap Hff
    Hname Hne ltac:(lia) (printable_no_nul _ Hcont) Hcne ltac:(lia) Hlook))
    as ([] & s2 & o2 & E2 & buf & l2 & f2 & h2 & -> & Hbuf & -> & Hl2 & Hm2 & Hd2 & Hr2).
  exists (set_line l1 (set_kfs f1 s)), (set_line l2 (put_heap h2 (set_kfs f2 s))), o1, buf.
  split; [exact E1|]. split; [exact E2|]. split; [exact Hbuf|]. split; [exact Hl2|].
  split; [exact Hm2|]. split; [exact (eq_trans Hd2 Hd1)|]. split; [exact Hr2|apply Hheap].
Qed.

(** C40.  Where the commands overrun their buffers: [cat] of a file of 512 bytes or more
    stores the final NUL behind its heap block, and [write] with a name of 64 characters
    or more stores behind the array on the stack. *)
Theorem shell_overruns s args c hl q hl' name content junk :
  mounted (k_fs s) → name_arg args → cstr args ≠ [] →
  heap_ready s hl → first_fit (align4 512) HEAP_START hl = Some (q, hl') →
  dir (k_fs s) !! cstr args = Some c → (512 ≤ length c)%nat →
  no_nul name → Forall (λ c, c ≠ 32) name → (64 ≤ length name)%nat →
  cmd_cat args s = Undefined ∧ cmd_write (write_args name content junk) s = Undefined.
Proof.
  intros. split; [by eapply cmd_cat_overflow|by apply cmd_write_overflow].
Qed.

(** C7.  Typing [run name] for an executable on the disk whose segments are clear of the
    kernel's own pages: the kernel leaves for ring 3 at the file's entry point, on a fresh
    stack of 4 KB, with every segment in memory as the file has it, in pages that ring 3
    can read and write, everything else mapped as before and with the same rights, and
    files and processes unchanged; the line never ends and no prompt is printed. *)
Theorem shell_runs_program s name c entry phs hl q hl' stack hl2 :
  line_rep (k_line s) [] → Forall printable name → name ≠ [] → (length name ≤ 251)%nat →
  loadable s (name ++ [0]) c entry phs → heap_ready s hl →
  first_fit (align4 8192) HEAP_START hl = Some (q, hl') →
  first_fit (align4 4096) HEAP_START hl = Some (stack, hl2) → 0 ≤ stack < 2 ^ 32 - 4096 →
  flat_segments (k_seg s) →
  ∃ s' args, type_chars shell_process_char ((ascii_codes "run " ++ name) ++ [10]) s =
      Halted s' (map EvPutchar (ascii_codes "run " ++ name) ++ [EvPrintf "\n" []] ++ run_events args entry phs) ∧
    cstr args = name ∧ program_runs s c entry phs stack s'.
Proof.
  intros Hl Hname Hne Hlen Hload Hheap E E2 Hstack Hseg.
  destruct (hp_halted _ _ _ (run_line s name c entry phs hl q hl' stack hl2 Hl Hname Hne Hlen Hload Hheap E E2
    Hstack Hseg)) as (s' & o & Eo & args & Hc & -> & Hr). exists s', args. split; [exact Eo|]. split; [exact Hc|exact Hr].
Qed.
End lines.

(** ** Witnesses: a kernel with an empty file [a] *)

#[local] Instance run_end : KernelEnd := 0x20F000.

Lemma empty_line_rep : line_rep empty_line [].
Proof.
  apply (line_rep_empty (replicate 256 0)); [reflexivity|]. apply Forall_replicate.
  unfold byte_ok. lia.
Qed.

Lemma shell_line_editor_witness :
  ∃ l', type_chars shell_process_char [97; 98; 8] (kernel_with ram1)
      = Done tt (set_line l' (kernel_with ram1)) (echo_text [] [97; 98; 8]) ∧
    line_rep l' [97] ∧ cstr (buffer l') = [97].
Proof.
  apply (shell_line_editor (kernel_with ram1) [] [97; 98; 8]); [apply empty_line_rep|].
  repeat constructor; unfold byte_ok; lia.
Defined.

Lemma shell_parses_witness :
  shell_dispatch (c_literal "echo hi") (kernel_with ram1)
  = run_command (CEcho (c_literal "hi")) (kernel_with ram1).
Proof.
  apply (shell_parses (c_literal "echo hi") (kernel_with ram1)).
  - apply (bool_decide_unpack _). vm_compute. exact I.
  - apply (bool_decide_unpack _). vm_compute. exact I.
Defined.

Lemma shell_write_cat_witness :
  ∃ s1 s2 o1 buf,
    type_chars shell_process_char
      ((ascii_codes "write " ++ [97] ++ 32 :: hi) ++ [10]) (kernel_with ram1) = Done tt s1 o1 ∧
    type_chars shell_process_char ((ascii_codes "cat " ++ [97]) ++ [10]) s1 =
      Done tt s2 (map EvPutchar (ascii_codes "cat " ++ [97]) ++
        [EvPrintf "\n" []; EvPrintf "\n%s\n" [AStr buf]; EvPutchar 10] ++ prompt_events) ∧
    cstr buf = hi ∧ line_rep (k_line s2) [] ∧ mounted (k_fs s2) ∧
    dir (k_fs s2) = <[[97] := hi]> (dir ram1) ∧ heap_ready s2 [(HEAP_SIZE - 12, true)].
Proof.
  destruct ram1_spec as (Hm & Hd & Hsb & Href).
  apply (shell_write_cat (kernel_with ram1) [97] hi [(HEAP_SIZE - 12, true)] (HEAP_START + 12)
    [(512, false); (HEAP_SIZE - 12 - 524, true)] 33);
    [apply empty_line_rep|exact Hm|apply heap0_ready|reflexivity| | | | | | | | | | |].
  - repeat constructor; unfold printable; lia.
  - discriminate.
  - repeat constructor; lia.
  - simpl. lia.
  - repeat constructor; unfold printable; lia.
  - discriminate.
  - simpl. lia.
  - cbn [kernel_with kernel_on k_fs]. rewrite Hd. exists []. apply lookup_singleton_eq.
  - cbn [kernel_with kernel_on k_fs]. rewrite Hsb. vm_compute. discriminate.
  - lia.
  - apply refs_0_unreferenced; [exact Hm|exact Href|lia].
Defined.

Lemma shell_overruns_witness :
  cmd_cat name_a (kernel_with ram3) = Undefined ∧
  cmd_write (write_args (replicate 64 98) hi []) (kernel_with ram3) = Undefined.
Proof.
  destruct ram3_spec as [Hm Hd].
  apply (shell_overruns (kernel_with ram3) name_a (spec_contents two_blocks 600)
    [(HEAP_SIZE - 12, true)] (HEAP_START + 12) [(512, false); (HEAP_SIZE - 12 - 524, true)]);
    [exact Hm|apply name_a_arg|discriminate|apply heap0_ready|reflexivity|exact Hd| | | |].
  - apply Nat.leb_le. vm_compute. reflexivity.
  - apply Forall_replicate. lia.
  - apply Forall_replicate. lia.
  - reflexivity.
Defined.

(** The machine that has booted, with the segments of [gdt_init] and an executable [a]. *)
Definition run_kernel : kernel ram_disk := set_kseg seg1 (kernel_on (mm_vmm mm1) ram4).

Lemma shell_runs_program_witness :
  ∃ s' args, type_chars shell_process_char ((ascii_codes "run " ++ [97]) ++ [10]) run_kernel =
      Halted s' (map EvPutchar (ascii_codes "run " ++ [97]) ++ [EvPrintf "\n" []] ++ run_events args 0x400000 [tiny_ph]) ∧
    cstr args = [97] ∧ program_runs run_kernel tiny_elf 0x400000 [tiny_ph] (HEAP_START + 12) s'.
Proof.
  destruct ram4_spec as [Hm Hd].
  apply (shell_runs_program run_kernel [97] tiny_elf 0x400000 [tiny_ph] [(HEAP_SIZE - 12, true)]
    (HEAP_START + 12) [(8192, false); (HEAP_SIZE - 12 - 8204, true)] (HEAP_START + 12)
    [(4096, false); (HEAP_SIZE - 12 - 4108, true)]).
  - apply empty_line_rep.
  - repeat constructor; unfold printable; lia.
  - discriminate.
  - simpl. lia.
  - destruct (tiny_loadable eq_refl ram4 Hm) as [H1 H2 H3 H4 H5 H6 H7].
    { rewrite Hd. apply lookup_singleton_eq. }
    constructor; [exact H1|exact H2|exact H3|exact H4|exact H5|exact H6|exact H7].
  - apply (heap0_ready (mm_vmm mm1) ram4).
  - reflexivity.
  - reflexivity.
  - unfold HEAP_START. lia.
  - apply boot_gdt_flat; reflexivity.
Defined.
