(* ===== verification/Main.v ===== *)
(** * The kernel's entry and the machine around it: kernel_main of kernel/kernel.c

    One state for the whole machine: the interrupt side, the keyboard driver's two
    variables and the kernel.  [kernel_main] is the boot sequence; [take_interrupt] is a
    hardware interrupt, from the controllers through the dispatcher of kernel/idt.c to
    the handler, in the [hlt] loop that follows it. *)

From S2P Require Import Bytes Console Keyboard Disk Pmm Heap Vmm Memory Process Fs Ata Gdt Idt Kernel Elf Syscall Shell Prelude.

Definition MULTIBOOT_MAGIC : Z := 0x2BADB002.

Record multiboot_info_t := Multiboot_info {
  mi_flags : Z;
  mi_mem_lower : Z;
  mi_mem_upper : Z;
}.

(** The addresses the linker chooses. *)
Record image := Image {
  im_gdt : Z;
  im_idt : Z;
  im_tss : Z;
  im_page_tables : Z;
  im_kernel_end : Z;
  im_isr : Z → Z;
  im_irq : Z → Z;
}.

(** The ports of the main board: controllers and keyboard side by side.  [board_ack] is
    the processor's acknowledgement of a line. *)
Class Board (P : Type) `{KP : KeyboardPort P} `{!PicPort P} := {
  board_ack : Z → P → P;
  ack_pics line p : pic_view (board_ack line p) = acknowledge line (pic_view p);
  ack_queue line p : kbd_queue (board_ack line p) = kbd_queue p;
  read_pics p : pic_view (port_in KEYBOARD_DATA_PORT p).2 = pic_view p;
  write_queue port v p : port ≠ KEYBOARD_DATA_PORT → kbd_queue (port_out port v p) = kbd_queue p;
}.

Section machine.
Context {P D : Type}.

Record machine := Machine {
  m_intr : intr P;
  m_shift_held : Z;
  m_caps_lock : Z;
  m_kernel : kernel D;
}.

Definition set_intr x m := Machine x (m_shift_held m) (m_caps_lock m) (m_kernel m).
Definition set_kernel x m := Machine (m_intr m) (m_shift_held m) (m_caps_lock m) x.

#[export] Instance mintr_lens : Lens machine (intr P).
Proof. refine {| lens_get := m_intr; lens_set := set_intr |}; try done. by intros []. Defined.
#[export] Instance mkernel_lens : Lens machine (kernel D).
Proof. refine {| lens_get := m_kernel; lens_set := set_kernel |}; try done. by intros []. Defined.

#[export] Instance mport_lens : Lens machine P.
Proof.
  refine {| lens_get m := pic_port (m_intr m);
    lens_set p m := set_intr (Intr (idt (m_intr m)) (idt_descriptor (m_intr m)) (idtr (m_intr m))
      (interrupts_on (m_intr m)) p) m |}; try done.
  by intros [[] ? ? ?].
Defined.

#[export] Instance mkeyboard_lens : Lens machine (keyboard P (kernel D)).
Proof.
  refine {| lens_get m := Keyboard (m_shift_held m) (m_caps_lock m) (pic_port (m_intr m)) (m_kernel m);
    lens_set k m := Machine (Intr (idt (m_intr m)) (idt_descriptor (m_intr m)) (idtr (m_intr m))
      (interrupts_on (m_intr m)) (kbd_port k)) (shift_held k) (caps_lock k) (kbd_shell k) |}; try done.
  - by intros [].
  - by intros [[] ? ? ?].
Defined.

(** Page tables and heap, as Memory.v has them. *)
#[export] Instance kmm_lens : Lens (kernel D) mm.
Proof.
  refine {| lens_get s := Mm (k_vm s) (ps_heap (k_sched s));
    lens_set x s := set_vm (mm_vmm x) (set_sched (set_heap (mm_heap x) (k_sched s)) s) |}; try done.
  - by intros [].
  - by intros [[] ? ? ? ? ?].
Defined.
End machine.
Arguments machine : clear implicits.
Arguments Machine {P D} _ _ _ _.

Section main.
Context {P D : Type} {PI : PortIo P} {KP : KeyboardPort P} {PP : PicPort P} {PB : Board P}.
Context {DB : AtaBus D} {U : Uninit}.
(** Fuel of the disk's polling loops, what fresh heap blocks hold, the linker's choices. *)
Context (fuel : nat) (fresh : Z → process_t) (im : image).

#[local] Instance disk_ops : BlockOps D := ata_ops fuel.
#[local] Instance image_end : KernelEnd := im_kernel_end im.

(** The calls of [kernel_main] up to [keyboard_init]. *)
Definition kernel_init (mb_info : multiboot_info_t) : K (machine P D) unit :=
  zoom (S := P) serial_init;;
  zoom (zoom (gdt_init (im_gdt im)));;
  kemit EvClear;;
  zoom (idt_init (im_isr im) (im_irq im) (im_idt im));;
  zoom (zoom (memory_init (im_kernel_end im) (im_page_tables im) (mi_mem_upper mb_info)));;
  zoom (zoom (process_init fresh));;
  zoom (zoom (W := kernel D) (zoom (W := fs D) (ata_init fuel)));;
  zoom (zoom fs_init);;
  zoom syscall_init;;
  zoom (zoom (tss_init (im_tss im) 0x200000));;
  zoom (S := keyboard P (kernel D)) keyboard_init.

Definition kernel_main (mb_magic : Z) (mb_info : multiboot_info_t) : K (machine P D) unit :=
  kernel_init mb_info;;
  if negb (mb_magic =? MULTIBOOT_MAGIC) then
    kemit (EvSetColor (vga_entry_color VGA_COLOR_RED VGA_COLOR_BLACK));;
    kprintf "ERROR: Not loaded by a multiboot bootloader!\n" []
  else
    kemit (EvSetColor (vga_entry_color VGA_COLOR_LIGHT_CYAN VGA_COLOR_BLACK));;
    kprintf "=== AshOS ===\n" [];;
    kemit (EvSetColor (vga_entry_color VGA_COLOR_LIGHT_GREY VGA_COLOR_BLACK));;
    kprintf "Booted successfully via GRUB.\n\n" [];;
    kprintf "Lower memory: %d KB\n" [AInt (mi_mem_lower mb_info)];;
    kprintf "Upper memory: %d KB\n" [AInt (mi_mem_upper mb_info)];;
    kprintf "\nHello, kernel world!\n" [];;
    zoom shell_init;;
    khalt.

(** ** Interrupts in the [hlt] loop *)

Definition machine_irq : registers_t → K (machine P D) unit :=
  irq_handler (zoom (zoom (W := kernel D) scheduler_tick)) (zoom (keyboard_handler shell_process_char)).

(** A raised line: the processor takes the vector the controllers deliver, if they do. *)
Definition take_interrupt (regs : registers_t) (line : Z) : K (machine P D) unit :=
  p ← kgets (λ m, pic_port (m_intr m));
  match delivers (pic_view p) line with
  | None => mret tt
  | Some v =>
      zoom (kmodify (board_ack line));;
      machine_irq (Registers (r_ds regs) (r_edi regs) (r_esi regs) (r_ebp regs) (r_esp regs)
        (r_ebx regs) (r_edx regs) (r_ecx regs) (r_eax regs) v 0
        (r_eip regs) (r_cs regs) (r_eflags regs) (useresp regs) (r_ss regs))
  end.

(** Lines raised one after the other. *)
Fixpoint interrupts (regs : registers_t) (lines : list Z) : K (machine P D) unit :=
  match lines with
  | [] => mret tt
  | line :: lines => take_interrupt regs line;; interrupts regs lines
  end.
End main.
