(* ===== verification/MainThms.v ===== *)
(** * From power-on to the shell, and typing to it

    [kernel_main] on a machine as the boot loader leaves it establishes the invariants of
    every component; a keyboard interrupt then runs the shell and ends. *)

From S2P Require Import Bytes Console Kprintf Keyboard Disk Pmm Heap Vmm Memory Process ProcessThms ProcessSched ProcessLife ProcessProps.
From S2P Require Import Fs FsCodec FsView FsOps FsDir FsSpec FsRead FsWrite FsBoot FsThms FsWitness Ata AtaThms Gdt Idt Kernel KernelThms Elf ElfThms ElfProps.
From S2P Require Import Syscall Shell ShellThms ShellRun ShellFrame ShellLines ShellProps Main Prelude.

Section boot.
Context {P D : Type} {PI : PortIo P} {KP : KeyboardPort P} {PP : PicPort P} {PB : Board P}.
Context {DB : AtaBus D} {DD : AtaDrive D} {U : Uninit}.
Context (fuel : nat) (Hfuel : (latency < fuel)%nat) (fresh : Z → process_t) (im : image).
#[local] Instance boot_ops : BlockOps D := ata_ops fuel.
#[local] Instance boot_device : BlockDevice D := ata_device fuel Hfuel.
#[local] Instance boot_end : KernelEnd := im_kernel_end im.
Implicit Types m : machine P D.

(** ** What the boot loader and the linker promise *)

Record linked : Prop := {
  ln_fds p : length (fds (fresh p)) = 16%nat;
  ln_tables : 0 < im_page_tables im ∧ im_page_tables im mod 4096 = 0 ∧
    im_page_tables im + 8192 ≤ im_kernel_end im;
  ln_end : im_kernel_end im ≤ 0x400000;
}.

(** The kernel's variables have their initial values, paging is off, the disk is idle. *)
Record reset_state m : Prop := {
  rs_idt : idt (m_intr m) = replicate 256 absent_entry;
  rs_gdt : length (gdt (k_seg (m_kernel m))) = 6%nat;
  rs_tss : length (tss (k_seg (m_kernel m))) = 104%nat;
  rs_directory : length (page_directory (k_vm (m_kernel m))) = 1024%nat;
  rs_paging : paging (k_vm (m_kernel m)) = false;
  rs_bitmap : length (bitmap (frames (k_vm (m_kernel m)))) = Z.to_nat BITMAP_SIZE;
  rs_procs : procs (k_sched (m_kernel m)) = ∅ ∧ next_pid (k_sched (m_kernel m)) = 0;
  rs_line : length (buffer (k_line (m_kernel m))) = 256%nat ∧ bytes_ok (buffer (k_line (m_kernel m)));
  rs_keys : m_shift_held m = 0 ∧ m_caps_lock m = 0;
  rs_drive : ready (drive_view (disk (k_fs (m_kernel m))));
}.

(** The files on a disk: those of its AshFS, or none when it will be formatted. *)
Definition mounts (d : D) : Prop :=
  magic (disk_superblock d) = FS_MAGIC → mounted (Fs (disk_superblock d) d).
Definition disk_files (d : D) : gmap (list Z) (list Z) :=
  if magic (disk_superblock d) =? FS_MAGIC then dir (Fs (disk_superblock d) d) else ∅.

Lemma blank_files (d : D) : magic (disk_superblock d) ≠ FS_MAGIC → disk_files d = ∅.
Proof. intros Hmg. unfold disk_files. by rewrite (proj2 (Z.eqb_neq _ _) Hmg). Qed.

(** ** The machine that has booted *)

Definition boot_heap : layout := [(1240, false); (HEAP_SIZE - 12 - 1252, true)].
Definition booted_pics : pics := Pics (remapped 0x20 0x04 0xFC) (remapped 0x28 0x02 0xFF).

Record initialised (mem_upper : Z) (d : D) m : Prop := {
  bt_segments : flat_segments (k_seg (m_kernel m));
  bt_task : tr (k_seg (m_kernel m)) = 0x28 ∧ tss (k_seg (m_kernel m)) = tss_bytes 0x200000;
  bt_vectors v : 0 ≤ v < 256 → aget (idt (m_intr m)) v =
      Some (if decide (v < 32) then idt_entry (im_isr im v) 0x08 0x8E
            else if decide (v < 48) then idt_entry (im_irq im (v - 32)) 0x08 0x8E
            else if decide (v = 128) then idt_entry (im_isr im 128) 0x08 0xEE
            else absent_entry);
  bt_idtr : idtr (m_intr m) = Idt_descriptor 2047 (im_idt im) ∧ interrupts_on (m_intr m) = true;
  bt_keys : m_shift_held m = 0 ∧ m_caps_lock m = 0;
  bt_pics : pic_view (pic_port (m_intr m)) = booted_pics;
  bt_spare : boot_spare (im_kernel_end im) (im_page_tables im) mem_upper (k_vm (m_kernel m));
  bt_memory : ∃ stack gs, boot_layout (k_vm (m_kernel m)) stack gs;
  bt_sched : sched_ok (k_sched (m_kernel m)) [HEAP_START + 12] boot_heap ∧
    state_at (k_sched (m_kernel m)) (HEAP_START + 12) = Some PROCESS_RUNNING;
  bt_heap : heap_ready (m_kernel m) boot_heap;
  bt_files : mounted (k_fs (m_kernel m)) ∧ dir (k_fs (m_kernel m)) = disk_files d;
  bt_fresh : magic (disk_superblock d) ≠ FS_MAGIC → superblock (k_fs (m_kernel m)) = format_superblock;
}.

Definition booted (mem_upper : Z) (d : D) m : Prop :=
  initialised mem_upper d m ∧ line_rep (k_line (m_kernel m)) [].

Definition fs_boot_events (d : D) : list event :=
  if magic (disk_superblock d) =? FS_MAGIC then
    [EvPrintf "FS: AshFS found, version %d, %d free blocks\n"
      [AInt (version (disk_superblock d)); AInt (free_blocks (disk_superblock d))]]
  else [EvPrintf "FS: no AshFS found, formatting...\n" []; EvPrintf "FS: AshFS formatted successfully\n" []].

Definition init_log (d : D) (mb : multiboot_info_t) : list event :=
  [EvClear] ++ paging_events (im_kernel_end im) (mi_mem_upper mb) ++
  [EvPrintf "Heap: initialised at %x, size %d KB\n" [AInt HEAP_START; AInt (HEAP_SIZE / 1024)];
   EvPrintf "Process: kernel process created (PID 0)\n" [];
   EvPrintf "ATA: initialised primary bus\n" []] ++ fs_boot_events d ++
  [EvPrintf "Syscall: int 0x80 handler installed\n" [];
   EvPrintf "TSS: initialised, kernel stack at %x\n" [AInt 0x200000]].

Definition banner (mb : multiboot_info_t) : list event :=
  [EvSetColor 11; EvPrintf "=== AshOS ===\n" []; EvSetColor 7;
   EvPrintf "Booted successfully via GRUB.\n\n" [];
   EvPrintf "Lower memory: %d KB\n" [AInt (mi_mem_lower mb)];
   EvPrintf "Upper memory: %d KB\n" [AInt (mi_mem_upper mb)];
   EvPrintf "\nHello, kernel world!\n" []; EvPutchar 10] ++ prompt_events.

(** ** The parts of the sequence *)

Lemma serial_ports (p : P) : wp serial_init p (λ _ _ o, o = []).
Proof. unfold serial_init. repeat (apply wp_bind; unfold wp at 1, outb at 1). reflexivity. Qed.

Lemma fs_init_mounts (f : fs D) :
  1057 ≤ sectors → ready (drive_view (disk f)) → mounts (disk f) →
  wp fs_init f (λ _ f' o, o = fs_boot_events (disk f) ∧ mounted f' ∧ dir f' = disk_files (disk f) ∧
    (magic (disk_superblock (disk f)) ≠ FS_MAGIC → superblock f' = format_superblock)).
Proof.
  intros Hsz Hr Hm. pose proof sectors_28 as H28.
  eapply wp_mono; [apply (fs_init_spec f); [exact (conj Hsz (proj2 H28))|exact Hr]|].
  intros [] f' o H. cbv beta in H. unfold fs_boot_events, disk_files.
  destruct (Z.eqb_spec (magic (disk_superblock (disk f))) FS_MAGIC) as [E|].
  - destruct H as [He ->]. split; [reflexivity|]. destruct (mounted_eqv _ _ (Hm E) He) as [H1 H2].
    split; [exact H1|]. split; [exact H2|]. intros Hne. by destruct Hne.
  - destruct H as [Hf ->]. split; [reflexivity|]. split; [by apply formatted_mounted|]. split; [apply Hf|]. intros _. apply Hf.
Qed.

Lemma shell_init_spec (s : kernel D) :
  length (buffer (k_line s)) = 256%nat → bytes_ok (buffer (k_line s)) →
  wp shell_init s (λ _ s' o, o = [EvPutchar 10] ++ prompt_events ∧
    ∃ l, s' = set_line l s ∧ line_rep l []).
Proof.
  intros Hl Hb. unfold shell_init. wp_steps. apply wp_zoom. wp_steps.
  eapply wp_mono.
  { apply buffer_store_spec. cbn [lens_get lens_set line_lens set_line k_line set_pos buffer]. rewrite Hl. done. }
  intros _ s1 o (-> & ->). unfold shell_prompt. wp_steps. split; [reflexivity|].
  eexists. split; [reflexivity|]. by apply line_rep_empty.
Qed.

Lemma tss_segments s e : gdt s = <[5%nat := e]> boot_gdt → gd_limit (gdtr s) = 47 → flat_segments s.
Proof.
  intros Hg Hl. unfold flat_segments, segment. rewrite Hg, Hl. repeat split; vm_compute; reflexivity.
Qed.

(** The task file is not part of what the file system sees. *)
Lemma same_media (d d' : D) r :
  ready (drive_view d) → drive_view d' = set_regs r (drive_view d) →
  ready (drive_view d') ∧ disk_superblock d' = disk_superblock d ∧ ∀ sb, fs_eqv (Fs sb d) (Fs sb d').
Proof.
  intros Hr E. assert (ready (drive_view d')) as Hr' by (rewrite E; by apply ready_set_regs).
  assert (∀ k, sector d' k = sector d k) as Hs.
  { intros k. change (media (drive_view d') k = media (drive_view d) k). by rewrite E. }
  split; [exact Hr'|]. split; [unfold disk_superblock; by rewrite Hs|].
  intros sb. split; [reflexivity|]. split; [by split|]. intros k _. symmetry. apply Hs.
Qed.

Lemma same_files (d d' : D) r :
  ready (drive_view d) → drive_view d' = set_regs r (drive_view d) → mounts d →
  mounts d' ∧ disk_files d' = disk_files d ∧ fs_boot_events d' = fs_boot_events d.
Proof.
  intros Hr E Hm. destruct (same_media d d' r Hr E) as (_ & Hsb & He).
  unfold mounts, disk_files, fs_boot_events in *. rewrite Hsb.
  destruct (Z.eqb_spec (magic (disk_superblock d)) FS_MAGIC) as [Hmg|Hmg]; [|done].
  destruct (mounted_eqv _ _ (Hm Hmg) (He _)) as [Hm' Hd']. split; [intros _; exact Hm'|].
  split; [exact Hd'|reflexivity].
Qed.

Lemma kernel_init_spec m mb :
  linked → reset_state m → 1057 ≤ sectors → 7168 ≤ mi_mem_upper mb < 2 ^ 32 - 1024 →
  mounts (disk (k_fs (m_kernel m))) →
  wp (kernel_init fuel fresh im mb) m (λ _ m' o,
    o = init_log (disk (k_fs (m_kernel m))) mb ∧
    initialised (mi_mem_upper mb) (disk (k_fs (m_kernel m))) m' ∧
    k_line (m_kernel m') = k_line (m_kernel m)).
Proof.
  intros [Hfds Hpt Hend] [Hidt Hgdt Htss Hdir Hpg Hbits [Hprocs Hpid] _ Hkeys Hdrv] Hsz Hram Hmnt.
  destruct m as [it sh cl [ss vm f sg ln ram]]. cbn [m_intr m_kernel k_sched k_vm k_fs k_seg k_line] in *.
  unfold kernel_init. apply wp_bind, wp_zoom.
  eapply wp_mono; [apply serial_ports|]. intros [] p1 o1 ->.
  apply wp_bind, wp_zoom, wp_zoom. cbn [lens_get lens_set mport_lens mkernel_lens kseg_lens set_intr set_kernel
    m_intr m_kernel k_seg].
  eapply wp_mono; [by apply gdt_init_spec|]. intros [] sg1 o2 (-> & ->).
  apply wp_bind. apply wp_emit. apply wp_bind, wp_zoom. cbn [lens_get lens_set mintr_lens set_kernel m_intr].
  eapply wp_mono; [apply idt_init_spec; transitivity (length (idt it));
    [reflexivity|by rewrite Hidt, length_replicate]|].
  intros [] it1 o3 (-> & Hpics & Hon & Hidtr & _ & Hvec). cbn [set_intr m_intr m_kernel set_kernel].
  apply wp_bind, wp_zoom, wp_zoom. eapply wp_mono.
  { apply memory_init_ok; [exact Hdir|exact Hpg|exact Hbits|exact Hpt|exact Hend|exact Hram]. }
  intros [] mm1 o4 (-> & Hheap & Hspare & stack & gs & Hlay & _).
  apply wp_bind, wp_zoom, wp_zoom. eapply wp_mono.
  { apply (process_init_ok fresh Hfds _ [(HEAP_SIZE - 12, true)] (HEAP_START + 12) boot_heap);
      [exact Hheap|reflexivity|exact Hprocs|exact Hpid|reflexivity]. }
  intros [] ss1 o5 (-> & Hsched & Hrun & _).
  apply wp_bind, wp_zoom, wp_zoom, wp_zoom. eapply wp_mono; [apply (ata_init_spec fuel Hfuel); exact Hdrv|].
  intros [] d1 o6 (-> & r & Hd1).
  change (drive_view d1 = set_regs r (drive_view (disk f))) in Hd1.
  destruct (same_media _ _ _ Hdrv Hd1) as (Hr1 & _). destruct (same_files _ _ _ Hdrv Hd1 Hmnt) as (Hm1 & Hf1 & He1).
  apply wp_bind, wp_zoom, wp_zoom. eapply wp_mono; [apply fs_init_mounts; [exact Hsz|exact Hr1|exact Hm1]|].
  intros [] f1 o7 (-> & Hmf & Hdf & Hsbf).
  apply wp_bind, wp_zoom, wp_kprintf. apply wp_bind, wp_zoom, wp_zoom.
  eapply wp_mono; [apply tss_init_spec; [exact Htss|reflexivity]|]. intros [] sg2 o8 (-> & ->).
  apply wp_zoom, wp_ret. split; [|split; [|reflexivity]].
  - change (fs_boot_events (disk _)) with (fs_boot_events d1). rewrite He1. unfold init_log. rewrite !app_nil_l.
    rewrite <-!app_assoc. reflexivity.
  - constructor.
    + eapply tss_segments; reflexivity.
    + split; reflexivity.
    + intros v Hv. etrans; [exact (Hvec v Hv)|]. repeat case_decide; try reflexivity.
      change (aget (idt it) v = Some absent_entry). rewrite Hidt. apply aget_replicate. lia.
    + split; [exact Hidtr|exact Hon].
    + exact Hkeys.
    + exact Hpics.
    + exact Hspare.
    + exists stack, gs. exact Hlay.
    + split; [exact Hsched|exact Hrun].
    + split; [apply (so_blocks _ _ _ Hsched)|reflexivity].
    + split; [exact Hmf|]. etrans; [exact Hdf|exact Hf1].
    + intros Hmg. apply Hsbf. destruct (same_media _ _ _ Hdrv Hd1) as (_ & Hsb & _).
      change (magic (disk_superblock d1) ≠ FS_MAGIC). rewrite Hsb. exact Hmg.
Qed.

Lemma kernel_main_boots m mb :
  linked → reset_state m → 1057 ≤ sectors → 7168 ≤ mi_mem_upper mb < 2 ^ 32 - 1024 →
  mounts (disk (k_fs (m_kernel m))) →
  ∃ m', kernel_main fuel fresh im MULTIBOOT_MAGIC mb m =
      Halted m' (init_log (disk (k_fs (m_kernel m))) mb ++ banner mb) ∧
    booted (mi_mem_upper mb) (disk (k_fs (m_kernel m))) m'.
Proof.
  intros Hln Hrs Hsz Hram Hmnt.
  destruct (wp_done _ _ _ (kernel_init_spec m mb Hln Hrs Hsz Hram Hmnt)) as ([] & m1 & o & E & -> & Hin & Hline).
  pose proof (rs_line _ Hrs) as [Hbl Hbb]. rewrite <-Hline in Hbl, Hbb.
  assert (hp (kernel_main fuel fresh im MULTIBOOT_MAGIC mb) m (λ m' o,
    o = init_log (disk (k_fs (m_kernel m))) mb ++ banner mb ∧
    booted (mi_mem_upper mb) (disk (k_fs (m_kernel m))) m')) as H.
  { unfold kernel_main. apply hp_bind. eapply wp_of_done; [exact E|]. cbn [negb Z.eqb MULTIBOOT_MAGIC Pos.eqb].
    do 7 (apply hp_bind, wp_emit). apply hp_bind, wp_zoom.
    eapply wp_mono; [exact (shell_init_spec (m_kernel m1) Hbl Hbb)|].
    intros _ s2 o2 (-> & l & -> & Hl). split; [reflexivity|]. split; [|exact Hl].
    destruct Hin. by constructor. }
  destruct (hp_halted _ _ _ H) as (m' & o & Eo & -> & Hb). exists m'. split; [exact Eo|exact Hb].
Qed.

Lemma kernel_main_refuses m mb mb_magic :
  linked → reset_state m → 1057 ≤ sectors → 7168 ≤ mi_mem_upper mb < 2 ^ 32 - 1024 →
  mounts (disk (k_fs (m_kernel m))) → mb_magic ≠ MULTIBOOT_MAGIC →
  ∃ m', kernel_main fuel fresh im mb_magic mb m =
      Done tt m' (init_log (disk (k_fs (m_kernel m))) mb ++
        [EvSetColor 4; EvPrintf "ERROR: Not loaded by a multiboot bootloader!\n" []]) ∧
    initialised (mi_mem_upper mb) (disk (k_fs (m_kernel m))) m'.
Proof.
  intros Hln Hrs Hsz Hram Hmnt Hne.
  destruct (wp_done _ _ _ (kernel_init_spec m mb Hln Hrs Hsz Hram Hmnt)) as ([] & m1 & o & E & -> & Hin & _).
  exists m1. split; [|exact Hin]. unfold kernel_main. apply Z.eqb_neq in Hne. rewrite Hne.
  unfold mbind at 1, K_bind at 1. rewrite E. reflexivity.
Qed.

(** ** The keyboard's interrupt *)

Section one_read.
Context {S : Type} (process : Z → K S unit).

Definition with_port (p : P) (r : outcome (keyboard P S) unit) : outcome (keyboard P S) unit :=
  match r with
  | Done u k o => Done u (Keyboard (shift_held k) (caps_lock k) p (kbd_shell k)) o
  | Halted k o => Halted (Keyboard (shift_held k) (caps_lock k) p (kbd_shell k)) o
  | Diverged => Diverged
  | Undefined => Undefined
  end.

(** The handler reads the port once and does not use it otherwise. *)
Lemma handler_read sh cl (p q p1 q1 : P) (s : S) sc :
  port_in KEYBOARD_DATA_PORT p = (sc, p1) → port_in KEYBOARD_DATA_PORT q = (sc, q1) →
  keyboard_handler process (Keyboard sh cl q s) =
  with_port q1 (keyboard_handler process (Keyboard sh cl p s)).
Proof.
  intros Hp Hq. unfold keyboard_handler, mbind, K_bind, zoom, Console.inb.
  cbn [lens_get lens_set kbd_port_lens kbd_port shift_held caps_lock kbd_shell]. rewrite Hp, Hq.
  destruct ((sc =? SCANCODE_LSHIFT) || (sc =? SCANCODE_RSHIFT)); [reflexivity|].
  destruct ((sc =? SCANCODE_LSHIFT_REL) || (sc =? SCANCODE_RSHIFT_REL)); [reflexivity|].
  destruct (sc =? SCANCODE_CAPS_LOCK); [reflexivity|].
  destruct (Z.land sc 128 =? 0); cbn [negb]; [|reflexivity].
  destruct (sc <? 58); [|reflexivity]. unfold kget. cbn [shift_held caps_lock].
  destruct (aget (if Z.lxor sh cl =? 0 then scancode_table else scancode_table_shifted) sc) as [c|];
    cbn [klift]; unfold kundefined, mret, K_ret; [|reflexivity].
  destruct (c =? 0); [reflexivity|]. cbn [lens_get lens_set kbd_shell_lens kbd_shell]. by destruct (process c s).
Qed.
End one_read.

Definition set_port (p : P) m : machine P D := lens_set p m.

(** The machine with what a keyboard handler left. *)
Definition after_key m (p : P) (k : keyboard P (kernel D)) : machine P D :=
  Machine (m_intr (set_port p m)) (shift_held k) (caps_lock k) (kbd_shell k).

Definition keyboard_of m : keyboard P (kernel D) := lens_get m.

#[local] Abbreviation handler := (keyboard_handler (@shell_process_char D boot_ops U boot_end)).

Lemma eoi_after_keyboard (p : P) :
  pic_view p = acknowledge 1 booted_pics →
  pic_view (port_out PIC1_COMMAND PIC_EOI p) = booted_pics ∧
  kbd_queue (port_out PIC1_COMMAND PIC_EOI p) = kbd_queue p.
Proof.
  intros Hp. split; [rewrite pic_out, Hp; reflexivity|]. apply write_queue. discriminate.
Qed.

(** The handler inside the interrupt: the controllers have line 1 in service. *)
Lemma handler_in_interrupt m sc rest k o (p : P) (h : bool) :
  pic_view (pic_port (m_intr m)) = booted_pics → kbd_queue (pic_port (m_intr m)) = sc :: rest →
  kbd_queue p = sc :: rest →
  let start := Keyboard (m_shift_held m) (m_caps_lock m) p (m_kernel m) in
  handler start = (if h then Halted k o else Done tt k o) →
  ∃ q, pic_view q = acknowledge 1 booted_pics ∧ kbd_queue q = rest ∧
    zoom handler (set_port (board_ack 1 (pic_port (m_intr m))) m) =
      if h then Halted (after_key m q k) o else Done tt (after_key m q k) o.
Proof.
  intros Hpic Hq Hp start Hrun. set (p0 := board_ack 1 (pic_port (m_intr m))).
  assert (kbd_queue p0 = sc :: rest) as Hq0 by (unfold p0; by rewrite ack_queue).
  destruct (kbd_read p sc rest Hp) as (p1 & Hin & _).
  destruct (kbd_read p0 sc rest Hq0) as (q & Hin0 & Hrest). exists q. split; [|split; [exact Hrest|]].
  - pose proof (read_pics p0) as Hr. rewrite Hin0 in Hr. cbn [snd] in Hr. rewrite Hr. unfold p0.
    by rewrite ack_pics, Hpic.
  - unfold zoom. change (lens_get (set_port p0 m)) with (Keyboard (m_shift_held m) (m_caps_lock m) p0 (m_kernel m)).
    rewrite (handler_read _ _ _ _ _ _ _ _ _ Hin Hin0). fold start. rewrite Hrun. by destruct h.
Qed.

Lemma take_key regs m sc rest k o (p : P) :
  pic_view (pic_port (m_intr m)) = booted_pics → kbd_queue (pic_port (m_intr m)) = sc :: rest →
  kbd_queue p = sc :: rest →
  handler (Keyboard (m_shift_held m) (m_caps_lock m) p (m_kernel m)) = Done tt k o →
  ∃ q, pic_view q = booted_pics ∧ kbd_queue q = rest ∧
    take_interrupt fuel im regs 1 m = Done tt (after_key m q k) o.
Proof.
  intros Hpic Hq Hp Hrun. destruct (handler_in_interrupt m sc rest k o p false Hpic Hq Hp Hrun)
    as (q & Hpq & Hqq & E). destruct (eoi_after_keyboard q Hpq) as [H1 H2].
  exists (port_out PIC1_COMMAND PIC_EOI q). split; [exact H1|]. split; [by rewrite H2|].
  assert (wp (take_interrupt fuel im regs 1) m (λ _ m' o', o' = o ∧
    m' = after_key m (port_out PIC1_COMMAND PIC_EOI q) k)) as H.
  2: { destruct (wp_done _ _ _ H) as ([] & m' & o' & E' & -> & ->). exact E'. }
  unfold take_interrupt. apply wp_bind, wp_gets. rewrite Hpic.
  change (delivers booted_pics 1) with (Some 33). cbn iota. apply wp_bind, wp_zoom, wp_modify.
  unfold machine_irq, irq_handler. cbn [int_no]. cbn [Z.eqb Z.leb Z.compare Pos.eqb Pos.compare Pos.compare_cont].
  apply wp_bind, wp_ret. apply wp_bind. eapply wp_of_done; [exact E|]. apply wp_bind, wp_ret.
  apply wp_zoom. apply wp_of_done with (a := tt) (s' := port_out PIC1_COMMAND PIC_EOI q) (o := []); [reflexivity|].
  split; [by rewrite !app_nil_r|reflexivity].
Qed.

Lemma handler_port sh cl (p : P) (s : kernel D) sc rest k o :
  kbd_queue p = sc :: rest → handler (Keyboard sh cl p s) = Done tt k o → kbd_queue (kbd_port k) = rest.
Proof.
  intros Hq Hrun. destruct (kbd_read p sc rest Hq) as (p1 & Hin & Hrest).
  pose proof (handler_read shell_process_char sh cl p p p1 p1 s sc Hin Hin) as E. rewrite Hrun in E.
  injection E as ->. exact Hrest.
Qed.

(** ** The timer's interrupt, and the lines that are masked

    From [kernel_main] until a program runs the kernel is the only process: a tick of the
    clock finds nobody to switch to. *)

Definition alone (s : ps) : Prop := ∃ c,
  current_process s ≠ 0 ∧ procs s !! current_process s = Some c ∧ p_next c = 0 ∧
  process_list s = current_process s.

Lemma sched_alone s p hl : sched_ok s [p] hl → alone s.
Proof.
  intros Hs. pose proof (so_current _ _ _ Hs) as Hc%list_elem_of_singleton.
  pose proof (so_list _ _ _ Hs) as Hl. cbn in Hl.
  destruct (so_links _ _ _ Hs) as [(c & Hp & Hn) _]. exists c. rewrite Hc.
  split; [intros ->; apply (so_null _ _ _ Hs); apply list_elem_of_here|]. by split.
Qed.

Lemma alone_queue s s' : run_queue s' = run_queue s → alone s → alone s'.
Proof. intros [= Hp Hc Hl] Ha. unfold alone. by rewrite Hp, Hc, Hl. Qed.

Lemma tick_alone s : alone s → scheduler_tick s = Done tt s [].
Proof.
  intros (c & Hne & Hc & Hn & Hl). assert (wp scheduler_tick s (λ _ s' o, s' = s ∧ o = [])) as H.
  2: { destruct (wp_done _ _ _ H) as ([] & s' & o & E & -> & ->). exact E. }
  unfold scheduler_tick. wp_steps. rewrite (proj2 (Z.eqb_neq _ _) Hne).
  apply wp_bind. eapply wp_proc_get; [exact Hc|]. rewrite Hn, Hl, Z.eqb_refl.
  apply wp_bind. unfold skip_dead. wp_steps. apply wp_kwhile_S. apply wp_bind.
  eapply wp_proc_get; [exact Hc|]. rewrite decide_False by tauto.
  wp_steps. rewrite Z.eqb_refl. by wp_steps.
Qed.

Lemma handler_alone k k' o : handler k = Done tt k' o → alone (k_sched (kbd_shell k)) → alone (k_sched (kbd_shell k')).
Proof.
  intros E. apply alone_queue.
  assert (preserves (λ k, k_queue (kbd_shell k)) handler) as H.
  { unfold keyboard_handler. preserve; try (by apply preserves_modify); [by apply preserves_zoom|].
    apply (preserves_zoom_via _ k_queue); [apply shell_keeps_queue|]. by intros t s. }
  specialize (H k). rewrite E in H. exact H.
Qed.

Lemma take_tick regs m :
  pic_view (pic_port (m_intr m)) = booted_pics → alone (k_sched (m_kernel m)) →
  ∃ q, pic_view q = booted_pics ∧ kbd_queue q = kbd_queue (pic_port (m_intr m)) ∧
    take_interrupt fuel im regs 0 m = Done tt (set_port q m) [].
Proof.
  intros Hpic Ha. set (p0 := board_ack 0 (pic_port (m_intr m))). exists (port_out PIC1_COMMAND PIC_EOI p0).
  split; [|split].
  - rewrite pic_out. unfold p0. rewrite ack_pics, Hpic. reflexivity.
  - rewrite write_queue by discriminate. apply ack_queue.
  - assert (wp (take_interrupt fuel im regs 0) m (λ _ m' o', o' = [] ∧
      m' = set_port (port_out PIC1_COMMAND PIC_EOI p0) m)) as H.
    2: { destruct (wp_done _ _ _ H) as ([] & m' & o' & E' & -> & ->). exact E'. }
    unfold take_interrupt. apply wp_bind, wp_gets. rewrite Hpic.
    change (delivers booted_pics 0) with (Some 32). cbn iota. apply wp_bind, wp_zoom, wp_modify.
    unfold machine_irq, irq_handler. cbn [int_no]. cbn [Z.eqb Z.leb Z.compare Pos.eqb Pos.compare Pos.compare_cont].
    apply wp_bind, wp_zoom, wp_zoom. eapply wp_of_done; [exact (tick_alone _ Ha)|].
    apply wp_bind, wp_ret. apply wp_bind, wp_ret. apply wp_zoom.
    apply wp_of_done with (a := tt) (s' := port_out PIC1_COMMAND PIC_EOI p0) (o := []); [reflexivity|].
    split; [reflexivity|]. by destruct m as [[] ? ? []].
Qed.

Lemma masked_line regs line m :
  pic_view (pic_port (m_intr m)) = booted_pics → 2 ≤ line < 16 → take_interrupt fuel im regs line m = Done tt m [].
Proof.
  intros Hpic Hl. assert (delivers booted_pics line = None) as Hd.
  { assert (Forall (λ l, delivers booted_pics l = None) (seqZ 2 14)) as Hall
      by (apply (bool_decide_unpack _); vm_compute; exact I).
    rewrite Forall_forall in Hall. apply Hall. rewrite elem_of_seqZ. lia. }
  unfold take_interrupt, mbind, K_bind, kgets. rewrite Hpic, Hd. reflexivity.
Qed.

(** ** Interrupts in any order

    [n] key events of Keyboard.v are the interrupts of [n] keyboard lines, whatever other
    lines are raised between them. *)

Definition keys_in (lines : list Z) : nat := length (filter (.= 1) lines).

Lemma keys_in_cons line lines : keys_in (line :: lines) = if decide (line = 1) then S (keys_in lines) else keys_in lines.
Proof. unfold keys_in. rewrite filter_cons. by destruct (decide (line = 1)). Qed.

Lemma interrupts_cons regs line lines m m1 :
  take_interrupt fuel im regs line m = Done tt m1 [] →
  interrupts fuel im regs (line :: lines) m = interrupts fuel im regs lines m1.
Proof. intros E. exact (kbind_done _ (λ _, interrupts fuel im regs lines) _ _ _ E). Qed.

Lemma interrupts_are_events regs lines : ∀ m k o (p : P) rest scs,
  Forall (λ l, 0 ≤ l < 16) lines → keys_in lines = length scs →
  alone (k_sched (m_kernel m)) → pic_view (pic_port (m_intr m)) = booted_pics →
  kbd_queue (pic_port (m_intr m)) = scs ++ rest → kbd_queue p = scs ++ rest →
  keyboard_events shell_process_char (length scs)
    (Keyboard (m_shift_held m) (m_caps_lock m) p (m_kernel m)) = Done tt k o →
  ∃ q, pic_view q = booted_pics ∧ kbd_queue q = rest ∧
    interrupts fuel im regs lines m = Done tt (after_key m q k) o.
Proof.
  induction lines as [|line lines IH]; intros m k o p rest scs Hls Hn Ha Hpic Hq Hp Hrun.
  - symmetry in Hn. apply nil_length_inv in Hn as ->. injection Hrun as <- <-. exists (pic_port (m_intr m)).
    split; [exact Hpic|]. split; [exact Hq|]. by destruct m as [[] ? ? ?].
  - apply Forall_cons in Hls as [Hl Hls]. rewrite keys_in_cons in Hn. case_decide as Hline.
    + subst line. destruct scs as [|sc scs]; [discriminate|]. cbn [keyboard_events app length] in *.
      unfold mbind, K_bind in Hrun.
      destruct (handler (Keyboard _ _ p _)) as [[] k1 o1| | |] eqn:E1; try discriminate.
      destruct (keyboard_events _ (length scs) k1) as [[] k2 o2| | |] eqn:E2; try discriminate. injection Hrun as <- <-.
      destruct (take_key regs m sc (scs ++ rest) k1 o1 p Hpic Hq Hp E1) as (q1 & Hpq1 & Hqq1 & T1).
      pose proof (handler_port _ _ _ _ _ _ _ _ Hp E1) as Hk1. injection Hn as Hn.
      assert (keyboard_events shell_process_char (length scs) (Keyboard (m_shift_held (after_key m q1 k1))
        (m_caps_lock (after_key m q1 k1)) (kbd_port k1) (m_kernel (after_key m q1 k1))) = Done tt k2 o2) as E2'
        by (rewrite <-E2; by destruct k1).
      destruct (IH (after_key m q1 k1) k2 o2 (kbd_port k1) rest scs Hls Hn (handler_alone _ _ _ E1 Ha)
        Hpq1 Hqq1 Hk1 E2') as (q2 & Hpq2 & Hqq2 & T2).
      exists q2. split; [exact Hpq2|]. split; [exact Hqq2|]. cbn [interrupts]. unfold mbind, K_bind.
      rewrite T1, T2. reflexivity.
    + destruct (decide (line = 0)) as [->|Hline0].
      * destruct (take_tick regs m Hpic Ha) as (q1 & Hpq1 & Hqq1 & T1).
        destruct (IH (set_port q1 m) k o p rest scs Hls Hn Ha Hpq1 (eq_trans Hqq1 Hq) Hp Hrun) as (q2 & H1 & H2 & T2).
        exists q2. split; [exact H1|]. split; [exact H2|]. rewrite (interrupts_cons _ _ _ _ _ T1). exact T2.
      * destruct (IH m k o p rest scs Hls Hn Ha Hpic Hq Hp Hrun) as (q2 & H1 & H2 & T2).
        exists q2. split; [exact H1|]. split; [exact H2|].
        rewrite (interrupts_cons _ _ _ _ _ (masked_line regs line m Hpic ltac:(lia))). exact T2.
Qed.

Lemma typing_interrupts regs lines m text scs rest s' o :
  Forall (λ l, 0 ≤ l < 16) lines → keys_in lines = length scs → alone (k_sched (m_kernel m)) →
  pic_view (pic_port (m_intr m)) = booted_pics → m_shift_held m = 0 ∧ m_caps_lock m = 0 →
  kbd_queue (pic_port (m_intr m)) = scs ++ rest → all_strokes text = Some scs →
  type_chars shell_process_char text (m_kernel m) = Done tt s' o →
  ∃ q, pic_view q = booted_pics ∧ kbd_queue q = rest ∧
    interrupts fuel im regs lines m = Done tt (Machine (m_intr (set_port q m)) 0 0 s') o.
Proof.
  intros Hls Hn Ha Hpic [Hsh Hcl] Hq Hscs Hrun.
  destruct (type_text shell_process_char text scs (pic_port (m_intr m)) rest _ _ _ Hscs Hq Hrun) as (p' & _ & E).
  destruct (interrupts_are_events regs lines m (Keyboard 0 0 p' s') o (pic_port (m_intr m)) rest scs
    Hls Hn Ha Hpic Hq Hq ltac:(rewrite Hsh, Hcl; exact E)) as (q & Hpq & Hqq & T).
  exists q. split; [exact Hpq|]. split; [exact Hqq|exact T].
Qed.

(** Every printable text can be typed. *)
Lemma printable_strokes text :
  Forall (λ c, printable c ∨ c = 10) text → ∃ scs, all_strokes text = Some scs.
Proof.
  intros Ht. assert (Forall (is_Some ∘ strokes) text) as [l Hl]%mapM_is_Some.
  2: { exists (mjoin l). unfold all_strokes. by rewrite Hl. }
  assert (Forall (λ c, is_Some (strokes c)) (10 :: seqZ 32 95)) as Hall
    by (apply (bool_decide_unpack _); vm_compute; exact I).
  rewrite Forall_forall in Hall. eapply Forall_impl; [exact Ht|]. intros c Hc. apply Hall.
  apply elem_of_cons. rewrite elem_of_seqZ. unfold printable in Hc. lia.
Qed.

Definition session_text (name content : list Z) : list Z :=
  ((ascii_codes "touch " ++ name) ++ [10]) ++
  ((ascii_codes "write " ++ name ++ 32 :: content) ++ [10]) ++ (ascii_codes "cat " ++ name) ++ [10].

Lemma session_keys name content :
  Forall printable name → Forall printable content →
  Forall (λ c, printable c ∨ c = 10) (session_text name content).
Proof.
  assert (∀ t, Forall printable t → Forall (λ c, printable c ∨ c = 10) t) as Hi
    by (intros t Ht; eapply Forall_impl; [exact Ht|tauto]).
  assert (∀ lit, bool_decide (Forall printable (ascii_codes lit)) = true →
    Forall (λ c, printable c ∨ c = 10) (ascii_codes lit)) as Hlit by (intros lit Hb; by apply Hi, lit_printable).
  assert (Forall (λ c, printable c ∨ c = 10) [10]) as H10 by (repeat constructor; lia).
  intros Hn%Hi Hc%Hi. unfold session_text. rewrite !Forall_app, !Forall_cons.
  assert (printable 32 ∨ 32 = 10) as H32 by (left; unfold printable; lia).
  repeat split; (assumption || (by apply Hlit) || (by right) || constructor).
Qed.

(** The shell's part: on an empty file system the three lines show the content. *)
Lemma session_spec (s : kernel D) name content :
  line_rep (k_line s) [] → mounted (k_fs s) → dir (k_fs s) = ∅ → superblock (k_fs s) = format_superblock →
  heap_ready s boot_heap →
  Forall printable name → name ≠ [] → Forall (λ c, c ≠ 32) name → (length name ≤ 63)%nat →
  Forall printable content → content ≠ [] → (length name + length content ≤ 248)%nat →
  wp (type_chars shell_process_char (session_text name content)) s (λ _ s' o, ∃ o1 buf,
    o = o1 ++ [EvPrintf "\n%s\n" [AStr buf]; EvPutchar 10] ++ prompt_events ∧ cstr buf = content ∧
    mounted (k_fs s') ∧ dir (k_fs s') = {[name := content]} ∧ line_rep (k_line s') []).
Proof.
  intros Hl Hm Hd Hsb Hheap Hname Hne Hsp Hlen63 Hcont Hcne Hlen. unfold session_text.
  apply type_chars_app. eapply wp_mono.
  { apply (touch_line s name); [exact Hl|exact Hm|exact Hname|exact Hne|exact Hlen63| |];
      rewrite Hd; [apply lookup_empty|rewrite map_size_empty; lia]. }
  intros _ s1 o1 (l1 & f1 & oc & -> & -> & Hl1 & [Hm1 Hsb1 Href1 Hd1]). apply type_chars_app.
  pose proof (fresh_refs _ Hm Hsb) as Href.
  rewrite Href in Href1. rewrite Hsb in Hsb1. rewrite Hd in Hd1.
  eapply wp_mono.
  { apply (write_line (set_line l1 (set_kfs f1 s)) name content 33); try assumption; cbn [set_line k_fs set_kfs].
    - rewrite Hd1. exists []. apply lookup_insert_eq.
    - rewrite Hsb1. vm_compute. discriminate.
    - lia.
    - apply refs_0_unreferenced; [exact Hm1|exact Href1|lia]. }
  intros _ s2 o2 (l2 & f2 & -> & Hl2 & Hm2 & Hd2). cbn [set_line k_fs set_kfs] in Hd2. rewrite Hd1 in Hd2.
  eapply wp_mono.
  { apply (cat_line _ name content boot_heap (HEAP_START + 1264)
      [(1240, false); (512, false); (HEAP_SIZE - 12 - 1252 - 524, true)]);
      [exact Hl2|exact Hm2|exact Hheap|reflexivity|exact Hname|exact Hne|lia
      |by apply printable_no_nul|exact Hcne|lia|].
    cbn [set_line k_fs set_kfs]. rewrite Hd2. apply lookup_insert_eq. }
  intros _ s3 o3 (buf & l3 & f3 & h3 & -> & Hbuf & -> & Hl3 & Hm3 & Hd3 & _).
  exists ((map EvPutchar (ascii_codes "touch " ++ name) ++ [EvPrintf "\n" []] ++ oc ++ [EvPutchar 10] ++
    prompt_events) ++ o2 ++ map EvPutchar (ascii_codes "cat " ++ name) ++ [EvPrintf "\n" []]), buf.
  split; [rewrite <-!app_assoc; reflexivity|].
  split; [exact Hbuf|]. split; [exact Hm3|]. split; [|exact Hl3].
  etrans; [exact Hd3|]. etrans; [exact Hd2|]. rewrite !insert_insert_eq. reflexivity.
Qed.

(** C1.  The whole system at work: switched on with a blank disk, the kernel boots, and
    whoever then types [touch name], [write name text] and [cat name] on the keyboard, one
    interrupt for each scan code and clock ticks and other lines at any moment between them,
    reads the text at the end of the output; the file is on the disk, and the interrupt
    controllers are ready for the next key. *)
Theorem power_on_session m mb name content :
  linked → reset_state m → 1057 ≤ sectors → 7168 ≤ mi_mem_upper mb < 2 ^ 32 - 1024 →
  magic (disk_superblock (disk (k_fs (m_kernel m)))) ≠ FS_MAGIC →
  Forall printable name → name ≠ [] → Forall (λ c, c ≠ 32) name → (length name ≤ 63)%nat →
  Forall printable content → content ≠ [] → (length name + length content ≤ 248)%nat →
  ∃ m1 scs, kernel_main fuel fresh im MULTIBOOT_MAGIC mb m =
      Halted m1 (init_log (disk (k_fs (m_kernel m))) mb ++ banner mb) ∧
    all_strokes (session_text name content) = Some scs ∧
    ∀ regs lines (p : P), pic_view p = pic_view (pic_port (m_intr m1)) → kbd_queue p = scs →
      Forall (λ l, 0 ≤ l < 16) lines → keys_in lines = length scs →
      ∃ m2 o buf, interrupts fuel im regs lines (set_port p m1) =
          Done tt m2 (o ++ [EvPrintf "\n%s\n" [AStr buf]; EvPutchar 10] ++ prompt_events) ∧
        cstr buf = content ∧ dir (k_fs (m_kernel m2)) = {[name := content]} ∧
        mounted (k_fs (m_kernel m2)) ∧ pic_view (pic_port (m_intr m2)) = booted_pics.
Proof.
  intros Hln Hrs Hsz Hram Hmg Hname Hne Hsp Hlen63 Hcont Hcne Hlen.
  destruct (kernel_main_boots m mb Hln Hrs Hsz Hram) as (m1 & E & Hin & Hline); [intros H0; by destruct Hmg|].
  destruct (printable_strokes (session_text name content)) as [scs Hscs].
  { by apply session_keys. }
  exists m1, scs. split; [exact E|]. split; [exact Hscs|]. intros regs lines p Hp Hq Hls Hn.
  destruct (bt_files _ _ _ Hin) as [Hm1 Hd1].
  rewrite (blank_files _ Hmg) in Hd1.
  destruct (wp_done _ _ _ (session_spec (m_kernel m1) name content Hline Hm1 Hd1 (bt_fresh _ _ _ Hin Hmg)
    (bt_heap _ _ _ Hin) Hname Hne Hsp Hlen63 Hcont Hcne Hlen))
    as ([] & s2 & o & E2 & o1 & buf & -> & Hbuf & Hm2 & Hd2 & _).
  destruct (typing_interrupts regs lines (set_port p m1) (session_text name content) scs [] s2 _
    Hls Hn (sched_alone _ _ _ (proj1 (bt_sched _ _ _ Hin))) (eq_trans Hp (bt_pics _ _ _ Hin)) (bt_keys _ _ _ Hin) (eq_trans Hq (eq_sym (app_nil_r scs))) Hscs E2)
    as (q & Hpq & _ & T).
  eexists _, o1, buf. split; [exact T|]. split; [exact Hbuf|]. split; [exact Hd2|]. split; [exact Hm2|exact Hpq].
Qed.

(** ** [run] from the keyboard *)

(** Interrupts after which the machine stops. *)
Lemma interrupts_stop regs l1 : ∀ m m1 o1 m2 o2 l2,
  interrupts fuel im regs l1 m = Done tt m1 o1 → interrupts fuel im regs l2 m1 = Halted m2 o2 →
  interrupts fuel im regs (l1 ++ l2) m = Halted m2 (o1 ++ o2).
Proof.
  induction l1 as [|line l1 IH]; intros m m1 o1 m2 o2 l2 H1 H2.
  - injection H1 as <- <-. exact H2.
  - cbn [interrupts app] in *. unfold mbind, K_bind in *.
    destruct (take_interrupt fuel im regs line m) as [[] m0 o0| | |]; try discriminate.
    destruct (interrupts fuel im regs l1 m0) as [[] m3 o3| | |] eqn:E; try discriminate.
    injection H1 as <- <-. rewrite (IH _ _ _ _ _ _ E H2). by rewrite app_assoc.
Qed.

(** The Enter key, when the shell does not come back. *)
Lemma enter_halts (p p1 : P) (s s' : kernel D) o :
  port_in KEYBOARD_DATA_PORT p = (28, p1) → shell_process_char 10 s = Halted s' o →
  handler (Keyboard 0 0 p s) = Halted (Keyboard 0 0 p1 s') o.
Proof.
  intros Hin Hrun. unfold keyboard_handler, mbind, K_bind, zoom, Console.inb.
  cbn [lens_get lens_set kbd_port_lens kbd_port shift_held caps_lock kbd_shell]. rewrite Hin.
  unfold kget, SCANCODE_LSHIFT, SCANCODE_RSHIFT, SCANCODE_LSHIFT_REL, SCANCODE_RSHIFT_REL, SCANCODE_CAPS_LOCK.
  change (Z.land 28 128) with 0. cbn [Z.eqb Pos.eqb orb negb Z.ltb Z.compare Pos.compare Pos.compare_cont].
  cbn [shift_held caps_lock]. change (Z.lxor 0 0) with 0. cbn [Z.eqb].
  change (aget scancode_table 28) with (Some 10). unfold klift, mret, K_ret. cbn [Z.eqb].
  cbn [lens_get lens_set kbd_shell_lens kbd_shell]. rewrite Hrun. reflexivity.
Qed.

Lemma take_key_stops regs m sc rest k o (p : P) :
  pic_view (pic_port (m_intr m)) = booted_pics → kbd_queue (pic_port (m_intr m)) = sc :: rest →
  kbd_queue p = sc :: rest →
  handler (Keyboard (m_shift_held m) (m_caps_lock m) p (m_kernel m)) = Halted k o →
  ∃ q, pic_view q = acknowledge 1 booted_pics ∧ kbd_queue q = rest ∧
    take_interrupt fuel im regs 1 m = Halted (after_key m q k) o.
Proof.
  intros Hpic Hq Hp Hrun. destruct (handler_in_interrupt m sc rest k o p true Hpic Hq Hp Hrun)
    as (q & Hpq & Hqq & E). exists q. split; [exact Hpq|]. split; [exact Hqq|].
  assert (hp (take_interrupt fuel im regs 1) m (λ m' o', o' = o ∧ m' = after_key m q k)) as H.
  2: { destruct (hp_halted _ _ _ H) as (m' & o' & E' & -> & ->). exact E'. }
  unfold take_interrupt. apply hp_bind, wp_gets. rewrite Hpic.
  change (delivers booted_pics 1) with (Some 33). cbn iota. apply hp_bind, wp_zoom, wp_modify.
  unfold machine_irq, irq_handler. cbn [int_no]. cbn [Z.eqb Z.leb Z.compare Pos.eqb Pos.compare Pos.compare_cont].
  apply hp_bind, wp_ret. apply hp_bind_halt. eapply hp_of_halted; [exact E|]. split; reflexivity.
Qed.

Lemma typing_returns (s s' : kernel D) name o :
  line_rep (k_line s) [] → Forall printable name →
  type_chars shell_process_char (ascii_codes "run " ++ name) s ≠ Halted s' o.
Proof.
  intros Hl Hname E.
  destruct (wp_done _ _ _ (type_spec (ascii_codes "run " ++ name) s [] Hl ltac:(apply printable_typeable;
    rewrite Forall_app; split; [by apply lit_printable|exact Hname]))) as (u & s1 & o1 & E1 & _).
  rewrite E1 in E. discriminate.
Qed.

(** C34.  A program started with [run] from the keyboard leaves the keyboard's interrupt
    unfinished: the handler never returns, so the end of interrupt is never sent, and
    whatever key is pressed afterwards, the controllers do not deliver it; the timer's
    line still gets through.  Clock ticks while the command is typed change nothing. *)
Theorem run_leaves_keyboard_dead regs lines m name c entry phs hl q hl' stack hl2 scs rest :
  pic_view (pic_port (m_intr m)) = booted_pics → m_shift_held m = 0 ∧ m_caps_lock m = 0 →
  line_rep (k_line (m_kernel m)) [] → Forall printable name → name ≠ [] → (length name ≤ 251)%nat →
  loadable (m_kernel m) (name ++ [0]) c entry phs → heap_ready (m_kernel m) hl →
  first_fit (align4 8192) HEAP_START hl = Some (q, hl') →
  first_fit (align4 4096) HEAP_START hl = Some (stack, hl2) → 0 ≤ stack < 2 ^ 32 - 4096 →
  flat_segments (k_seg (m_kernel m)) →
  all_strokes (ascii_codes "run " ++ name) = Some scs → kbd_queue (pic_port (m_intr m)) = scs ++ 28 :: rest →
  alone (k_sched (m_kernel m)) → Forall (λ l, 0 ≤ l < 16) lines → keys_in lines = length scs →
  ∃ m' o, interrupts fuel im regs (lines ++ [1]) m = Halted m' o ∧
    program_runs (m_kernel m) c entry phs stack (m_kernel m') ∧
    delivers (pic_view (pic_port (m_intr m'))) 1 = None ∧
    delivers (pic_view (pic_port (m_intr m'))) 0 = Some 32.
Proof.
  intros Hpic Hkeys Hl Hname Hne Hlen Hload Hheap E1 E2 Hstack Hseg Hscs Hq Ha Hls Hn.
  destruct (hp_halted _ _ _ (run_line (m_kernel m) name c entry phs hl q hl' stack hl2 Hl Hname Hne Hlen Hload
    Hheap E1 E2 Hstack Hseg)) as (s' & o & Eo & args & _ & _ & Hr).
  rewrite type_chars_bind in Eo. cbn [type_chars] in Eo. unfold mbind, K_bind in Eo.
  destruct (type_chars shell_process_char (ascii_codes "run " ++ name) (m_kernel m)) as [[] s1 o1| | |] eqn:Et;
    try discriminate; [|exfalso; eapply typing_returns; [exact Hl|exact Hname|exact Et]].
  destruct (shell_process_char 10 s1) as [[] s2 o2|s2 o2| |] eqn:Ec; try discriminate.
  destruct (typing_interrupts regs lines m _ scs (28 :: rest) s1 o1 Hls Hn Ha Hpic Hkeys Hq Hscs Et) as (p1 & Hp1 & Hq1 & T1).
  destruct (kbd_read p1 28 rest Hq1) as (p2 & Hin & _).
  destruct (take_key_stops regs (Machine (m_intr (set_port p1 m)) 0 0 s1) 28 rest _ _ p1 Hp1 Hq1 Hq1
    (enter_halts p1 p2 s1 s2 o2 Hin Ec)) as (p3 & Hp3 & _ & T2).
  eexists _, (o1 ++ o2). split.
  { eapply interrupts_stop; [exact T1|]. cbn [interrupts]. unfold mbind, K_bind. rewrite T2. reflexivity. }
  injection Eo as -> _. split; [exact Hr|].
  change (pic_port (m_intr (after_key _ p3 _))) with p3. rewrite Hp3. split; reflexivity.
Qed.
End boot.

(** ** Witnesses: a board of two controllers and a keyboard, a simulated drive *)

Record board := Board_state { bd_pics : pics; bd_keys : list Z }.

#[export] Instance board_io : PortIo board := {
  port_in port b := if port =? KEYBOARD_DATA_PORT then
    match bd_keys b with [] => (0, b) | sc :: q => (sc, Board_state (bd_pics b) q) end else (0, b);
  port_out port v b := Board_state (pic_write port v (bd_pics b)) (bd_keys b);
}.
#[export] Instance board_keys : KeyboardPort board.
Proof.
  refine {| kbd_queue := bd_keys |}. intros p sc q Hq. exists (Board_state (bd_pics p) q).
  cbn. by rewrite Hq.
Defined.
#[export] Instance board_pics : PicPort board.
Proof. by refine {| pic_view := bd_pics |}. Defined.
#[export] Instance board_board : Board board.
Proof.
  refine {| board_ack line b := Board_state (acknowledge line (bd_pics b)) (bd_keys b) |}; try done.
  intros p. cbn. by destruct (bd_keys p).
Defined.

Definition fresh_process (p : Z) : process_t :=
  Process 0 0 0 0 PROCESS_DEAD (replicate 16 (Fd 0 (replicate 64 0) 0 0)) 0.
Definition image0 : image :=
  Image 0x10A000 0x10C000 0x10B000 0x20A000 0x20F000 (stub 0x200000) (stub 0x201000).
Definition mb0 : multiboot_info_t := Multiboot_info 0 640 7168.

Definition kernel0 : kernel view :=
  Kernel (Ps (Heap 0 ∅) ∅ (λ _, 0) 0 0 0 (Cpu 0 0 0 0 0 0 0 0x200000 0x100000)) (mm_vmm mm0)
    (Fs zero_superblock sim_off) seg0 empty_line (λ _, 0).
Definition intr_off : intr board :=
  Intr (replicate 256 absent_entry) (Idt_descriptor 0 0) (Idt_descriptor 0 0) false
    (Board_state (Pics chip0 chip0) []).
Definition machine0 : machine board view := Machine intr_off 0 0 kernel0.

Lemma image0_linked : linked fresh_process image0.
Proof. constructor; [reflexivity|repeat split; discriminate|discriminate]. Qed.

Lemma machine0_reset : reset_state machine0.
Proof.
  constructor; try reflexivity; try (split; reflexivity).
  - split; [reflexivity|]. apply Forall_replicate. unfold byte_ok. lia.
  - apply sim_ready.
Qed.

Lemma sim_blank : magic (disk_superblock (B := ata_device 4 sim_fuel) sim_off) ≠ FS_MAGIC.
Proof. vm_compute. discriminate. Qed.

Lemma power_on_session_witness :
  ∃ m1 scs, kernel_main 4 fresh_process image0 MULTIBOOT_MAGIC mb0 machine0 =
      Halted m1 (init_log 4 sim_fuel image0 sim_off mb0 ++ banner mb0) ∧
    all_strokes (session_text [97] hi) = Some scs ∧
    ∀ regs lines (p : board), pic_view p = pic_view (pic_port (m_intr m1)) → kbd_queue p = scs →
      Forall (λ l, 0 ≤ l < 16) lines → keys_in lines = length scs →
      ∃ m2 o buf, interrupts 4 image0 regs lines (set_port p m1) =
          Done tt m2 (o ++ [EvPrintf "\n%s\n" [AStr buf]; EvPutchar 10] ++ prompt_events) ∧
        cstr buf = hi ∧ @dir _ (ata_ops 4) (ata_device 4 sim_fuel) (k_fs (m_kernel m2)) = {[ [97] := hi ]} ∧
        @mounted _ (ata_ops 4) (ata_device 4 sim_fuel) (k_fs (m_kernel m2)) ∧
        pic_view (pic_port (m_intr m2)) = booted_pics.
Proof.
  apply (power_on_session 4 sim_fuel fresh_process image0 machine0 mb0 [97] hi).
  - exact image0_linked.
  - exact machine0_reset.
  - simpl. unfold sim_sectors. lia.
  - split; [discriminate|reflexivity].
  - exact sim_blank.
  - repeat constructor; unfold printable; lia.
  - discriminate.
  - repeat constructor; lia.
  - simpl. lia.
  - repeat constructor; unfold printable; lia.
  - discriminate.
  - simpl. lia.
Defined.

(** A drive with the executable in a file [a]. *)
Lemma drive_with_program :
  let O := ata_ops 4 in let B := ata_device 4 sim_fuel in
  ∃ f : fs view, mounted f ∧ dir f !! [97] = Some tiny_elf.
Proof.
  intros O B.
  assert (1057 ≤ dev_sectors) as Hsz by (simpl; unfold sim_sectors; lia).
  destruct (wp_done _ _ _ (fs_init_mounts 4 sim_fuel (Fs zero_superblock sim_off) Hsz sim_ready
    ltac:(intros H; destruct (sim_blank H)))) as (u0 & f0 & o0 & _ & _ & Hm0 & Hd0 & Hsb0).
  specialize (Hsb0 sim_blank). pose proof (eq_trans Hd0 (blank_files 4 sim_fuel sim_off sim_blank)) as Hempty.
  apply (disk_with_file f0 name_a tiny_elf Hm0 Hsb0 Hempty name_a_arg); [simpl; lia| |vm_compute; discriminate].
  apply (bool_decide_unpack _). vm_compute. exact I.
Qed.

(** The scheduler's state after [process_init]. *)
Lemma kernel_process : ∃ s, sched_ok s [HEAP_START + 12] boot_heap.
Proof.
  destruct (wp_done _ _ _ (process_init_ok fresh_process (λ p, eq_refl) idle_ps [(HEAP_SIZE - 12, true)]
    (HEAP_START + 12) boot_heap heap0_rep eq_refl eq_refl eq_refl eq_refl)) as (u & s & o & _ & _ & Hs & _).
  exists s. exact Hs.
Qed.

Definition run_strokes : list Z := default [] (all_strokes (ascii_codes "run " ++ [97])).
Definition run_machine (s : ps) (f : fs view) : machine board view :=
  Machine (Intr (replicate 256 absent_entry) (Idt_descriptor 0 0) (Idt_descriptor 0 0) true
    (Board_state booted_pics (run_strokes ++ [28]))) 0 0
    (set_sched s (set_kseg seg1 (kernel_on (mm_vmm mm1) f))).

(** A clock tick before every key. *)
Definition run_lines : list Z := concat (replicate (length run_strokes) [0; 1]).

Lemma run_leaves_keyboard_dead_witness :
  ∃ s f m' o, interrupts 4 image0 (Registers 0 0 0 0 0 0 0 0 0 0 0 0 0 0 0 0) (run_lines ++ [1]) (run_machine s f) =
      Halted m' o ∧
    program_runs (m_kernel (run_machine s f)) tiny_elf 0x400000 [tiny_ph] (HEAP_START + 1264)
      (O := ata_ops 4) (B := ata_device 4 sim_fuel) (m_kernel m') ∧
    delivers (pic_view (pic_port (m_intr m'))) 1 = None ∧
    delivers (pic_view (pic_port (m_intr m'))) 0 = Some 32.
Proof.
  destruct drive_with_program as (f & Hm & Hd). destruct kernel_process as (s & Hs). exists s, f.
  apply (run_leaves_keyboard_dead 4 sim_fuel image0 (Registers 0 0 0 0 0 0 0 0 0 0 0 0 0 0 0 0) run_lines (run_machine s f)
    [97] tiny_elf 0x400000 [tiny_ph] boot_heap
    (HEAP_START + 1264) [(1240, false); (8192, false); (HEAP_SIZE - 12 - 1252 - 8204, true)] (HEAP_START + 1264)
    [(1240, false); (4096, false); (HEAP_SIZE - 12 - 1252 - 4108, true)] run_strokes []).
  - reflexivity.
  - split; reflexivity.
  - apply empty_line_rep.
  - repeat constructor; unfold printable; lia.
  - discriminate.
  - simpl. lia.
  - destruct (tiny_loadable (L := im_kernel_end image0) eq_refl f Hm Hd) as [H1 H2 H3 H4 H5 H6 H7].
    constructor; [exact H1|exact H2|exact H3|exact H4|exact H5|exact H6|exact H7].
  - split; [apply (so_blocks _ _ _ Hs)|reflexivity].
  - reflexivity.
  - reflexivity.
  - unfold HEAP_START. lia.
  - apply boot_gdt_flat; reflexivity.
  - reflexivity.
  - reflexivity.
  - exact (sched_alone _ _ _ Hs).
  - apply (bool_decide_unpack _). vm_compute. exact I.
  - reflexivity.
Defined.
