(* ===== verification/Boot.v ===== *)
(** * The entry from the boot loader: boot/boot.s

    The multiboot header the loader looks for, and [_start], which gives kernel_main a stack
    and the loader's two words as its arguments.  The theorem takes the machine from the
    loader's last instruction to the shell's prompt. *)

From S2P Require Import Bytes Console Keyboard Disk Pmm Heap Vmm Memory Process Fs FsWitness Ata AtaThms Gdt Idt Kernel Stubs Main MainThms Prelude.

(** ** The header *)

Definition ALIGN : Z := Z.shiftl 1 0.
Definition MEMINFO : Z := Z.shiftl 1 1.
Definition FLAGS : Z := Z.lor ALIGN MEMINFO.
Definition MAGIC : Z := 0x1BADB002.
Definition CHECKSUM : Z := u32 (- (MAGIC + FLAGS)).
Definition multiboot_header : list Z := [MAGIC; FLAGS; CHECKSUM].

Definition STACK_SIZE : Z := 16384.

(** The loader takes the header (Multiboot specification, 3.1) and will fill in the memory
    fields of the information structure. *)
Lemma header_accepted :
  u32 (fold_right Z.add 0 multiboot_header) = 0 ∧ Z.testbit FLAGS 1 = true.
Proof. by split. Qed.

(** ** [_start] *)

Section start.
Context {P D : Type} {PI : PortIo P} {KP : KeyboardPort P} {PP : PicPort P} {PB : Board P}.
Context {DB : AtaBus D} {U : Uninit}.
Context (fuel : nat) (fresh : Z → process_t) (im : image).
(** The linker's stack and return address, and the structures in the loader's memory. *)
Context (stack_bottom return_address : Z) (info_at : Z → option multiboot_info_t).

Definition stack_top : Z := stack_bottom + STACK_SIZE.

Definition mov_esp (x : Z) : K (core (machine P D)) unit :=
  kmodify (λ c, with_stack [] (with_cpu (put_esp x) c)).

(** The callee finds its arguments above the return address and reads the structure
    through the second. *)
Definition call_kernel_main : K (core (machine P D)) unit :=
  pushl return_address;;
  c ← kget;
  match c_stack c with
  | _ :: magic :: mb_info :: _ =>
      info ← klift (info_at mb_info);
      zoom (kernel_main fuel fresh im magic info);;
      _ ← popl;
      mret tt
  | _ => kundefined
  end.

(** [cli]; the flag is the one that [sti] in idt_init has set. *)
Definition disable_interrupts : K (core (machine P D)) unit :=
  zoom (S := machine P D) (zoom (S := intr P) (kmodify (set_interrupts false))).

Definition _start : K (core (machine P D)) unit :=
  mov_esp stack_top;;
  c ← kget;
  pushl (ebx (c_cpu c));;
  c ← kget;
  pushl (eax (c_cpu c));;
  call_kernel_main;;
  disable_interrupts;;
  khalt.
End start.

Section boot.
Context {P D : Type} {PI : PortIo P} {KP : KeyboardPort P} {PP : PicPort P} {PB : Board P}.
Context {DB : AtaBus D} {DD : AtaDrive D} {U : Uninit}.
Context (fuel : nat) (Hfuel : (latency < fuel)%nat) (fresh : Z → process_t) (im : image).
Context (stack_bottom return_address : Z) (info_at : Z → option multiboot_info_t).
Implicit Types c : core (machine P D).

#[local] Abbreviation top := (stack_top stack_bottom).
#[local] Abbreviation start := (_start fuel fresh im stack_bottom return_address info_at).

(** The state at the first instruction of [kernel_main]. *)
Definition entered_main c : core (machine P D) :=
  with_stack [return_address; eax (c_cpu c); ebx (c_cpu c)]
    (with_cpu (put_esp (u32 (u32 (u32 (top - 4) - 4) - 4))) c).

(** The state after the pop of [ret]. *)
Definition returned (d : core (machine P D)) : core (machine P D) :=
  with_stack (drop 1 (c_stack d)) (with_cpu (λ r, put_esp (u32 (esp r + 4)) r) d).

Lemma kbind_halts {S A B} (f : K S A) (g : A → K S B) s a s1 s2 o :
  f s = Done a s1 o → g a s1 = Halted s2 [] → (f ≫= g) s = Halted s2 o.
Proof. unfold mbind, K_bind. intros -> ->. by rewrite app_nil_r. Qed.

Lemma kbind_returns {S A B} (f : K S A) (g : A → K S B) s a s1 b s2 o :
  f s = Done a s1 o → g a s1 = Done b s2 [] → (f ≫= g) s = Done b s2 o.
Proof. unfold mbind, K_bind. intros -> ->. by rewrite app_nil_r. Qed.

Lemma call_enters c mb :
  info_at (ebx (c_cpu c)) = Some mb →
  ∃ c0, c_world c0 = c_world c ∧
    start c = (call_kernel_main fuel fresh im return_address info_at;; disable_interrupts;; khalt) c0 ∧
    call_kernel_main fuel fresh im return_address info_at c0 =
      (zoom (kernel_main fuel fresh im (eax (c_cpu c)) mb);; _ ← popl; mret tt) (entered_main c).
Proof.
  intros Hmb. eexists. split; [|split].
  2: { unfold _start. do 5 (etrans; [apply kbind_done; reflexivity|]). reflexivity. }
  - by destruct c.
  - unfold call_kernel_main. do 2 (etrans; [apply kbind_done; reflexivity|]).
    etrans; [apply (kbind_done _ _ _ mb); cbn; by rewrite Hmb|reflexivity].
Qed.

(** C2.  From the boot loader to the prompt: on a machine with at least 8 MB and a disk that
    is blank or holds a consistent AshFS, [_start] calls [kernel_main] with the loader's two
    words, which runs through every initialisation without a fault, prints exactly the boot
    log, and comes to rest with interrupts on, the flat segments, the interrupt vectors, the
    remapped controllers, the memory map, one heap block, the kernel as the only process,
    the files of the disk, an empty line, and its two arguments on the stack, where the
    interrupt stubs read them.  Without the loader's magic number it says so and stops with
    interrupts off. *)
Theorem loader_starts_kernel c mb :
  let m := c_world c in
  info_at (ebx (c_cpu c)) = Some mb → linked fresh im → reset_state m → 1057 ≤ sectors →
  7168 ≤ mi_mem_upper mb < 2 ^ 32 - 1024 → mounts fuel Hfuel (disk (k_fs (m_kernel m))) →
  0 ≤ stack_bottom → top < 2 ^ 32 →
  ∃ c', let log := init_log fuel Hfuel im (disk (k_fs (m_kernel m))) mb in
    if eax (c_cpu c) =? MULTIBOOT_MAGIC then
      start c = Halted c' (log ++ banner mb) ∧
      booted fuel Hfuel im (mi_mem_upper mb) (disk (k_fs (m_kernel m))) (c_world c') ∧
      interrupts_on (m_intr (c_world c')) = true ∧
      esp (c_cpu c') = top - 12 ∧ c_stack c' = [return_address; MULTIBOOT_MAGIC; ebx (c_cpu c)]
    else
      start c = Halted c' (log ++ [EvSetColor 4; EvPrintf "ERROR: Not loaded by a multiboot bootloader!\n" []]) ∧
      interrupts_on (m_intr (c_world c')) = false.
Proof.
  intros m Hmb Hln Hrs Hsz Hram Hmnt Hst Htop. destruct (call_enters c mb Hmb) as (c0 & _ & -> & Hcall).
  assert (esp (c_cpu (entered_main c)) = top - 12) as Hesp.
  { unfold entered_main, stack_top, STACK_SIZE in *. cbn. repeat rewrite u32_shift_sub, <-Z.sub_add_distr. rewrite u32_small by lia. lia. }
  destruct (Z.eqb_spec (eax (c_cpu c)) MULTIBOOT_MAGIC) as [Heax|Hne].
  - destruct (kernel_main_boots fuel Hfuel fresh im m mb Hln Hrs Hsz Hram Hmnt) as (m' & E & Hb).
    eexists. split; [|split; [|split; [|split]]].
    + unfold mbind at 1, K_bind at 1. rewrite Hcall, Heax. unfold mbind at 1, K_bind at 1, zoom.
      change (lens_get (entered_main c)) with m. rewrite E. reflexivity.
    + exact Hb.
    + apply Hb.
    + exact Hesp.
    + cbn. by rewrite Heax.
  - destruct (kernel_main_refuses fuel Hfuel fresh im m mb (eax (c_cpu c)) Hln Hrs Hsz Hram Hmnt Hne) as (m' & E & _).
    eexists. split.
    + apply (kbind_halts _ _ _ tt (returned (lens_set m' (entered_main c))) _ _); [|reflexivity].
      rewrite Hcall. apply (kbind_returns _ _ _ tt (lens_set m' (entered_main c))); [|reflexivity].
      unfold zoom. change (lens_get (entered_main c)) with m. rewrite E. reflexivity.
    + reflexivity.
Qed.
End boot.

(** ** Witness *)

Definition loaded_core : core (machine board view) :=
  Core (Cpu MULTIBOOT_MAGIC 0 0 0x9500 0 0 0 0x7FF00 0x200010) 2 0x08 0x10 0x10 0x10 0x10 0x10 [] [] machine0.
Definition loader_memory (a : Z) : option multiboot_info_t := if a =? 0x9500 then Some mb0 else None.

Lemma loader_starts_kernel_witness :
  ∃ c', _start 4 fresh_process image0 0x206000 0x200030 loader_memory loaded_core =
      Halted c' (init_log 4 sim_fuel image0 sim_off mb0 ++ banner mb0) ∧
    booted 4 sim_fuel image0 7168 sim_off (c_world c') ∧
    interrupts_on (m_intr (c_world c')) = true ∧
    esp (c_cpu c') = 0x206000 + 16384 - 12 ∧ c_stack c' = [0x200030; MULTIBOOT_MAGIC; 0x9500].
Proof.
  apply (loader_starts_kernel 4 sim_fuel fresh_process image0 0x206000 0x200030 loader_memory loaded_core mb0).
  - reflexivity.
  - exact image0_linked.
  - exact machine0_reset.
  - simpl. unfold sim_sectors. lia.
  - split; [discriminate|reflexivity].
  - intros H. destruct (sim_blank H).
  - discriminate.
  - reflexivity.
Defined.
